(* ===== verification/_CoqProject ===== *)
-Q . S2P
Prelude.v
RustStr.v
Effects.v
Models.v
Db.v
DbUsers.v
DbCalendars.v
DbEvents.v
DbShares.v
DbTokens.v
Ical.v
Http.v
Xml.v
Properties.v
CaldavHandlers.v
CaldavRouter.v
Json.v
McpTools.v
Mcp.v
Cli.v
Closure.v
Layer.v
Sim.v
IcalSpec.v
Folding.v
FieldsSpec.v
XmlSpec.v
Integrity.v
EventsSpec.v
CalendarsSpec.v
AccountsSpec.v
QuerySpec.v
Startup.v
CliSpec.v
HandlersSpec.v
McpSpec.v
ReportSpec.v
PropfindSpec.v
ReadOnly.v
Ownership.v
AccessSpec.v
Confinement.v
Server.v
Refusals.v
ObjectStore.v
Faults.v
Liveness.v
Replies.v
EndToEnd.v
SyncTokens.v
ETags.v
SyncLog.v
Reachable.v
Convergence.v
Races.v
TestKit.v
UnitTests.v
DbTests.v
CaldavTests.v
McpTests.v
