(* ===== verification/Prelude.v ===== *)
(** * Verification of the CalDAV / MCP calendar server

    The program ([src/], Rust) is one process with two HTTP servers and a command line
    over one SQLite database: a CalDAV server for calendar clients, an MCP server
    (JSON-RPC tools for language models), and the commands that manage accounts and
    tokens.  This library models it from the SQL statements up to the routes and proves
    what its parts promise.

    ** The model

    A Rust [String] is the byte string of its UTF-8 encoding; [RustStr] (Module [Str])
    has the [str] methods that the sources use.  [Result] is Rust's.  A handler is a
    program ([Effects], [prog]): a tree of atomic steps over a shared state, each step
    being one SQL statement in autocommit mode, one draw (a UUID, a salt, the clock)
    or one locked access to the session table.  [run] executes a program alone; [sched]
    interleaves any number of them.  A step is given its number in the global order, and
    the parameters use it: [sql_fault] makes any statement fail, [sql_scan] visits the
    rows of a query in any order, draws give any values.

    - [Models]: [src/db/models.rs] and [src/error.rs] (rows, permission, [AppError.t]).
    - [Db]: the schema of [migrations/001_initial.sql]; [Db.t] is the six tables and the
      AUTOINCREMENT counter, [Db.wf] the declared integrity, [Store] the database with the
      session table; [execute] runs a statement as one step.
    - [DbUsers], [DbCalendars], [DbEvents], [DbShares], [DbTokens]: [src/db/*.rs], each
      statement with its constraint errors and each function composed of statements.
    - [Ical]: [src/ical/] (parser and builder).
    - [Http]: requests, replies, header values and body limits.
    - [Xml], [Properties]: [src/caldav/xml/] (the parsers' event loops, the multistatus
      builder as a list of write operations, property lists and hrefs).
    - [CaldavHandlers], [CaldavRouter]: [src/caldav/*.rs]; [Router.call] is the handler of a
      matched route.
    - [Json], [McpTools], [Mcp]: [src/mcp/]; [McpRouter.serve] is the whole MCP route.
    - [Cli]: [src/config.rs], [src/db/mod.rs] (migrations) and the commands of [src/main.rs].
    - [Startup]: [main], [run_server] and [cli_pool] of [src/main.rs] and [init_pool] of
      [src/db/mod.rs], with the embedded migration; what the process asks of the drivers and
      the system (connect, execute, bind, serve) is an [Action] of a [Machine].

    Code of other packages is a parameter, a class with its documented laws where a
    theorem needs them: [Sqlite]/[SqliteLaws], [Uuids]/[UuidLaws], [Argon2]/[Argon2Laws],
    [Rng], [Chrono], [Base64], [QuickXml] (reader events, writer), [Serde], [Outside].  [Sim]
    instantiates all of them; the examples at the end of the theorem files run on it.

    ** The theorems

    - [Closure] is the interface between the data-access layer and its clients: a
      property of programs that holds of each function of the layer and is closed under
      sequencing ([ReadClosed], [WriteClosed]) holds of every handler, tool and command.
      [Layer] is the level below: it is enough that it holds of each statement
      ([QueryClosed], [StmtClosed]).  [Integrity], [ReadOnly], [Confinement], [SyncTokens],
      [ETags], [SyncLog], [Reachable] and [Replies] implement these interfaces for their
      properties, and [Server] concludes for the whole server.
    - [Integrity], [Server]: the schema's integrity in every interleaving, under faults.
    - [ReadOnly]: the methods that change nothing.  [Confinement]: a CalDAV request changes
      nothing of any other calendar, at no step ([within]); the simple mode changes one
      calendar, which its user may use.  [Refusals]: a request to either server that is
      answered with a 4xx status has changed nothing in any of its executions
      ([execution], what a program does in some interleaving).
    - [Ownership]: a logic for drawn identifiers under interleaving; a program holds those
      it has drawn and not yet stored, and an invariant over all that are held survives
      every schedule.  With it, for every state that the server reaches ([serves]):
      [SyncTokens], calendar tokens and log tokens never meet, so that a delta sync from a
      calendar's current token returns its whole history; [ETags], an ETag names one
      version of one object; [Reachable], primary keys yet to be drawn are fresh, and an
      event saved by a PUT or by a tool is served on every route and by the tools.
    - [SyncLog], [Convergence]: the log tells the last change of every object ([tracked]),
      and a client that reads the server's documents and applies them ([SyncClient])
      converges to the calendar's content.
    - [Liveness]: every pool of tasks comes to an end, and every task is answered under
      fair scheduling.  [Replies]: no CalDAV handler panics, and the statuses it may send.
    - [EventsSpec], [QuerySpec]: the object functions refine a finite map from (calendar,
      UID) to object, with the log; queries answer exactly the rows they ask for.
    - [CalendarsSpec], [AccountsSpec]: calendars, shares, permissions, logins, tokens.
    - [AccessSpec]: who a request acts for, 401, 403, and what an admitted user runs.
    - [HandlersSpec], [ReportSpec], [PropfindSpec]: GET, PUT, DELETE, MKCALENDAR, PROPPATCH,
      REPORT and PROPFIND.
    - [ObjectStore]: an abstract store of UIDs, ETags and data that any sequence of
      object requests implements, and optimistic locking as its consequence.
    - [Faults]: what PUT, DELETE, MKCALENDAR and PROPPATCH leave behind when statements fail
      ([outcome], a program logic for faults).  [Races]: executions that show what this leaves open: a lost
      update, a change that no sync tells and a save that every sync hides ([follow], an
      executable scheduler).
    - [EndToEnd]: commands, MCP tools and CalDAV routes together.
    - [IcalSpec], [Folding], [FieldsSpec]: the fields of built, folded and arbitrary
      iCalendar text.  [XmlSpec]: round trips, nesting of documents, property filtering.
    - [McpSpec], [CliSpec]: bearer tokens, JSON-RPC answers, tools, configuration.
      [Startup]: the order of connecting, migrating, binding and serving.

    ** The tests

    [TestKit], [UnitTests], [DbTests], [CaldavTests], [McpTests]: the tests of [src/] as programs
    over the model, run in the kernel on an empty database.  [TestKit] has the stand-ins
    they go through: XML and JSON text, path matching by [Router.routes], and an
    in-memory database for [Startup].  They are evidence that the definitions say what the
    code does.

    Theorems about results assume that no statement fails ([Hnf]) where they say what a
    successful run gives; the safety theorems (integrity, 401, 403, read-only methods,
    confinement, tokens, ETags, proper replies), [Faults] and [Liveness] hold under any
    faults.  Theorems that insert a row into an arbitrary database assume that the
    identifier drawn is not taken, which [Reachable] discharges for every state the server
    reaches, and those that log a change that the 63-bit counter has room ([room]).

    ** Bounds

    Every recursion is structural, or on a fuel that its caller sets to the length of the
    input: [Str.trim_end_matches], [Str.trim] and [Str.utf8_chunks] remove at least
    one byte per round ([trim_end_matches_fuel_enough], [utf8_chunks_fuel_concat]), and
    [Report.percent_decode] at least one character ([percent_decode_chars_plain]).
    Programs are well-founded trees, so every handler terminates; [Liveness] states it for
    pools of tasks, where it is a theorem about every schedule.  The log's ids are 64-bit
    integers and a full counter fails the statement; ports are checked against 2^16.

    ** Not modelled

    Path matching and percent-decoding of captures (axum), reading and writing of XML and
    JSON text, hashing, random numbers and time (parameters); what connecting, binding and
    serving do inside sqlx, tokio and axum (parameters of [Startup]); the parsing of the
    command line's arguments, the reading of [.env], and tracing. *)
From stdpp Require Export base tactics list option strings gmap sorting pretty.
From stdpp Require Import options.

(** Byte strings: a Rust [String] is the byte string of its UTF-8 encoding. *)
Open Scope stdpp_scope.

Declare Scope caldav_scope.
Delimit Scope caldav_scope with caldav.
Open Scope caldav_scope.

(** ** Results *)

(** Rust's [Result<T, E>]. *)
Inductive Result (T E : Type) : Type :=
| Ok (t : T)
| Err (e : E).
Arguments Ok {T E} t.
Arguments Err {T E} e.

#[export] Instance Result_eq_dec {T E} `{EqDecision T, EqDecision E} :
  EqDecision (Result T E).
Proof. solve_decision. Defined.

(** [Result::ok]. *)
Definition result_ok {T E} (r : Result T E) : option T :=
  match r with Ok t => Some t | Err _ => None end.

(** [Result::map_err]. *)
Definition map_err {T E F} (f : E → F) (r : Result T E) : Result T F :=
  match r with Ok t => Ok t | Err e => Err (f e) end.

(** [Option::ok_or]. *)
Definition ok_or {T E} (o : option T) (e : E) : Result T E :=
  match o with Some t => Ok t | None => Err e end.

(** [Option::is_none] and [Option::is_some]. *)
Definition is_none {T} (o : option T) : bool :=
  match o with None => true | Some _ => false end.
Definition is_some_b {T} (o : option T) : bool := negb (is_none o).

(** [Vec::is_empty]. *)
Definition is_nil {A} (l : list A) : bool := match l with [] => true | _ => false end.

(** ** Tactics *)

Create HintDb caldav.

(** Splits every pair binding and every [match] on a variable-free scrutinee of
    the goal, simplifying the equations it produces. *)
Ltac split_cases :=
  repeat (case_match || case_decide || case_bool_decide); simplify_eq/=.

(** Closes goals that only need the hypotheses rewritten. *)
Ltac crush := repeat split_and?; simplify_eq/=; eauto with caldav; try done.

(** ** Lists *)

(** [filter] by a boolean test, as the WHERE clauses and [Iterator::filter] are
    written. *)
Definition bfilter {A} (p : A → bool) (l : list A) : list A :=
  filter (λ x, p x = true) l.

Section list_facts.
Context {A : Type}.
Implicit Types (l : list A) (p : A → bool).

Lemma elem_of_bfilter p l x : x ∈ bfilter p l ↔ p x = true ∧ x ∈ l.
Proof. unfold bfilter. by rewrite list_elem_of_filter. Qed.

Lemma bfilter_nil p : bfilter p [] = [].
Proof. done. Qed.

Lemma bfilter_cons p x l :
  bfilter p (x :: l) = if p x then x :: bfilter p l else bfilter p l.
Proof.
  unfold bfilter. rewrite filter_cons. by destruct (p x).
Qed.

Lemma bfilter_app p l1 l2 : bfilter p (l1 ++ l2) = bfilter p l1 ++ bfilter p l2.
Proof. unfold bfilter. by rewrite filter_app. Qed.

Lemma bfilter_all p l : (∀ x, x ∈ l → p x = true) → bfilter p l = l.
Proof.
  intros H. induction l as [|x l IH]; [done|].
  rewrite bfilter_cons, H by set_solver. f_equal. apply IH. set_solver.
Qed.

Lemma bfilter_none p l : (∀ x, x ∈ l → p x = false) → bfilter p l = [].
Proof.
  intros H. induction l as [|x l IH]; [done|].
  rewrite bfilter_cons, H by set_solver. apply IH. set_solver.
Qed.

Lemma bfilter_ext p q l : (∀ x, x ∈ l → p x = q x) → bfilter p l = bfilter q l.
Proof.
  intros H. induction l as [|x l IH]; [done|].
  rewrite !bfilter_cons, (H x) by set_solver. rewrite IH by set_solver. done.
Qed.

Lemma bfilter_bfilter p q l : bfilter p (bfilter q l) = bfilter (λ x, q x && p x) l.
Proof.
  induction l as [|x l IH]; [done|]. rewrite !bfilter_cons.
  destruct (q x); simpl; [|done]. by rewrite bfilter_cons, IH.
Qed.

Lemma bfilter_sublist p l : bfilter p l `sublist_of` l.
Proof.
  induction l as [|x l IH]; [done|]. rewrite bfilter_cons.
  destruct (p x); by constructor.
Qed.

Lemma NoDup_fmap_bfilter {B} (f : A → B) p l :
  NoDup (f <$> l) → NoDup (f <$> bfilter p l).
Proof.
  intros H. eapply sublist_NoDup; [exact H|].
  induction l as [|x l IH]; [done|]. rewrite bfilter_cons, fmap_cons.
  inversion H; subst. destruct (p x); csimpl; constructor; by apply IH.
Qed.

(** Two rows with the same key in a table with a unique key are the same row. *)
Lemma NoDup_fmap_inj {B} (f : A → B) l x y :
  NoDup (f <$> l) → x ∈ l → y ∈ l → f x = f y → x = y.
Proof.
  intros Hnd Hx Hy Heq.
  apply list_elem_of_lookup in Hx as [i Hi]. apply list_elem_of_lookup in Hy as [j Hj].
  assert (i = j) as ->; [|congruence].
  eapply (NoDup_lookup (f <$> l)); [done| |].
  - by rewrite list_lookup_fmap, Hi.
  - by rewrite list_lookup_fmap, Hj; simpl; rewrite Heq.
Qed.

(** A test that only one key satisfies selects at most one row. *)
Lemma bfilter_unique {B} (f : A → B) p l x :
  NoDup (f <$> l) → x ∈ l → p x = true →
  (∀ y, y ∈ l → p y = true → f y = f x) →
  bfilter p l = [x].
Proof.
  intros Hnd. induction l as [|y l IH]; [set_solver|].
  intros [<-|Hx]%elem_of_cons Hp Hall; rewrite bfilter_cons; inversion Hnd as [|?? Hni Hnd']; subst.
  - rewrite Hp. f_equal. apply bfilter_none. intros z Hz.
    destruct (p z) eqn:Ez; [|done]. destruct Hni.
    rewrite <- (Hall z) by set_solver. by apply list_elem_of_fmap_2.
  - destruct (p y) eqn:Ey.
    + destruct Hni. rewrite (Hall y) by set_solver. by apply list_elem_of_fmap_2.
    + apply IH; set_solver.
Qed.
End list_facts.

(** Two permutations of a list of at most one element are equal. *)
Lemma Permutation_short {A} (l l' : list A) : length l ≤ 1 → l' ≡ₚ l → l' = l.
Proof.
  intros Hl Hp. destruct l as [|x [|y l]]; simpl in *; [..|lia].
  - by apply Permutation_nil_r in Hp.
  - by apply Permutation_singleton_r in Hp.
Qed.
