(* ===== verification/RustStr.v ===== *)
(** * Rust's [str] operations on byte strings

    The parts of the Rust standard library's string API that the server uses.
    A [String] / [&str] is the byte string of its UTF-8 encoding, so an operation
    with an ASCII pattern is the same operation on bytes; [trim], [chars],
    [String::from_utf8] and [String::from_utf8_lossy] read the encoding. *)
From Stdlib Require Import Ascii NArith.
From S2P Require Import Prelude.
From stdpp Require Import options.

(** The characters the sources escape in literals: [\t], [\n], [\r] and the
    double quote. *)
Definition TAB : ascii := "009"%char.
Definition NL : ascii := "010"%char.
Definition CR : ascii := "013"%char.
Definition DQ : ascii := "034"%char.
Definition COLON : ascii := ":"%char.
Definition SEMI : ascii := ";"%char.
Definition SLASH : ascii := "/"%char.
Definition AT : ascii := "@"%char.
Definition PERCENT : ascii := "%"%char.
Definition CRLF : string := String CR (String NL "").

Module Str.

(** [str::is_empty]. *)
Definition is_empty (s : string) : bool :=
  match s with "" => true | String _ _ => false end.

(** [str::strip_prefix] and [str::starts_with]. *)
Fixpoint strip_prefix (p s : string) : option string :=
  match p, s with
  | "", _ => Some s
  | String a p', String b s' => if decide (a = b) then strip_prefix p' s' else None
  | String _ _, "" => None
  end.

Definition starts_with (p s : string) : bool := is_some_b (strip_prefix p s).

(** [str::strip_suffix]. *)
Fixpoint strip_suffix (suf s : string) : option string :=
  if decide (s = suf) then Some ""
  else match s with
       | "" => None
       | String a s' => String a <$> strip_suffix suf s'
       end.

(** [str::trim_end_matches] with a non-empty pattern: the suffix is removed as
    often as it is there. *)
Fixpoint trim_end_matches_fuel (fuel : nat) (suf s : string) : string :=
  match fuel with
  | O => s
  | S fuel' =>
      match strip_suffix suf s with
      | Some r => trim_end_matches_fuel fuel' suf r
      | None => s
      end
  end.

Definition trim_end_matches (suf s : string) : string :=
  trim_end_matches_fuel (String.length s) suf s.

(** [str::contains] with a [char] and with a [&str]. *)
Fixpoint contains_char (c : ascii) (s : string) : bool :=
  match s with
  | "" => false
  | String a s' => if decide (a = c) then true else contains_char c s'
  end.

Fixpoint contains (p s : string) : bool :=
  starts_with p s || match s with "" => false | String _ s' => contains p s' end.

(** [str::split_once(c)]; [str::find(c)] with the slice after the match is its
    second component. *)
Fixpoint split_once (c : ascii) (s : string) : option (string * string) :=
  match s with
  | "" => None
  | String a s' =>
      if decide (a = c) then Some ("", s')
      else (λ '(l, r), (String a l, r)) <$> split_once c s'
  end.

(** [s.rsplit(c).next()]: what follows the last [c]. *)
Fixpoint rsplit_next (c : ascii) (s : string) : string :=
  match s with
  | "" => ""
  | String a s' =>
      if contains_char c s' then rsplit_next c s'
      else if decide (a = c) then s' else s
  end.

(** [str::split(c)]: always at least one piece. *)
Fixpoint split (c : ascii) (s : string) : list string :=
  match s with
  | "" => [""]
  | String a s' =>
      if decide (a = c) then "" :: split c s'
      else match split c s' with
           | [] => [String a ""]
           | l :: ls => String a l :: ls
           end
  end.

(** [str::replace] of one [char]. *)
Fixpoint replace_char (c : ascii) (by_ : string) (s : string) : string :=
  match s with
  | "" => ""
  | String a s' =>
      (if decide (a = c) then by_ else String a "") +:+ replace_char c by_ s'
  end.

(** [str::lines]: the pieces that end in [\n], each without its [\n] and without
    one [\r] before that [\n]. *)
Fixpoint split_inclusive (c : ascii) (s : string) : list string :=
  match s with
  | "" => []
  | String a s' =>
      if decide (a = c) then String a "" :: split_inclusive c s'
      else match split_inclusive c s' with
           | [] => [String a ""]
           | l :: ls => String a l :: ls
           end
  end.

Definition strip_line_end (line : string) : string :=
  match strip_suffix (String NL "") line with
  | None => line
  | Some l =>
      match strip_suffix (String CR "") l with
      | None => l
      | Some l' => l'
      end
  end.

Definition lines (s : string) : list string :=
  strip_line_end <$> split_inclusive NL s.

(** The UTF-8 encodings of the characters with the White_Space property, which
    [str::trim] removes at both ends. *)
Definition white_space : list string :=
  ((λ n, String (ascii_of_nat n) "") <$> [9; 10; 11; 12; 13; 32]) ++
  [ String "194" (String "133" ""); String "194" (String "160" "")
  ; String "225" (String "154" (String "128" "")) ] ++
  ((λ n, String "226" (String "128" (String (ascii_of_nat n) ""))) <$>
     [128; 129; 130; 131; 132; 133; 134; 135; 136; 137; 138; 168; 169; 175]) ++
  [ String "226" (String "129" (String "159" ""))
  ; String "227" (String "128" (String "128" "")) ].

Fixpoint first_some {A B} (f : A → option B) (l : list A) : option B :=
  match l with
  | [] => None
  | x :: l' => match f x with Some y => Some y | None => first_some f l' end
  end.

Fixpoint trim_start_fuel (fuel : nat) (s : string) : string :=
  match fuel with
  | O => s
  | S fuel' =>
      match first_some (λ w, strip_prefix w s) white_space with
      | Some r => trim_start_fuel fuel' r
      | None => s
      end
  end.

Fixpoint trim_end_fuel (fuel : nat) (s : string) : string :=
  match fuel with
  | O => s
  | S fuel' =>
      match first_some (λ w, strip_suffix w s) white_space with
      | Some r => trim_end_fuel fuel' r
      | None => s
      end
  end.

Definition trim_start (s : string) : string := trim_start_fuel (String.length s) s.
Definition trim_end (s : string) : string := trim_end_fuel (String.length s) s.

(** [str::trim]. *)
Definition trim (s : string) : string := trim_end (trim_start s).

(** ** UTF-8 *)

Definition byte_in (lo hi : N) (c : ascii) : bool :=
  ((lo <=? N_of_ascii c) && (N_of_ascii c <=? hi))%N.

Definition continuation : ascii → bool := byte_in 128 191.

(** The first character of a byte string: [(true, n)] for a well-formed one of
    [n] bytes, [(false, n)] for an ill-formed maximal prefix of [n] bytes. *)
Definition utf8_first (s : string) : bool * nat :=
  match s with
  | "" => (true, 0)
  | String b0 r =>
      let ok2 c := (if byte_in 224 224 b0 then byte_in 160 191 c
                    else if byte_in 237 237 b0 then byte_in 128 159 c
                    else if byte_in 240 240 b0 then byte_in 144 191 c
                    else if byte_in 244 244 b0 then byte_in 128 143 c
                    else continuation c) in
      if byte_in 0 127 b0 then (true, 1)
      else if byte_in 194 223 b0 then
        match r with
        | String b1 _ => if ok2 b1 then (true, 2) else (false, 1)
        | "" => (false, 1)
        end
      else if byte_in 224 239 b0 then
        match r with
        | String b1 r1 =>
            if ok2 b1 then
              match r1 with
              | String b2 _ => if continuation b2 then (true, 3) else (false, 2)
              | "" => (false, 2)
              end
            else (false, 1)
        | "" => (false, 1)
        end
      else if byte_in 240 244 b0 then
        match r with
        | String b1 r1 =>
            if ok2 b1 then
              match r1 with
              | String b2 r2 =>
                  if continuation b2 then
                    match r2 with
                    | String b3 _ => if continuation b3 then (true, 4) else (false, 3)
                    | "" => (false, 3)
                    end
                  else (false, 2)
              | "" => (false, 2)
              end
            else (false, 1)
        | "" => (false, 1)
        end
      else (false, 1)
  end.

Fixpoint take_drop (n : nat) (s : string) : string * string :=
  match n, s with
  | S n', String a s' => let '(l, r) := take_drop n' s' in (String a l, r)
  | _, _ => ("", s)
  end.

(** The maximal chunks of a byte string, one per character or ill-formed
    prefix, with whether each is well-formed. *)
Fixpoint utf8_chunks_fuel (fuel : nat) (s : string) : list (bool * string) :=
  match fuel, s with
  | S fuel', String _ _ =>
      let '(ok, n) := utf8_first s in
      let '(c, r) := take_drop n s in
      (ok, c) :: utf8_chunks_fuel fuel' r
  | _, _ => []
  end.

Definition utf8_chunks (s : string) : list (bool * string) :=
  utf8_chunks_fuel (String.length s) s.

(** [str::chars], each [char] as its encoding. *)
Definition chars (s : string) : list string := snd <$> utf8_chunks s.

(** [String::from_utf8(bytes).ok()]. *)
Definition from_utf8 (bytes : string) : option string :=
  if forallb fst (utf8_chunks bytes) then Some bytes else None.

(** [String::from_utf8_lossy]: U+FFFD for each ill-formed prefix. *)
Definition from_utf8_lossy (bytes : string) : string :=
  String.concat ""
    ((λ '(ok, c), if (ok : bool) then c
                  else String "239" (String "191" (String "189" "")))
       <$> utf8_chunks bytes).

(** [byte as char], encoded. *)
Definition byte_as_char (n : N) : string :=
  if (n <? 128)%N then String (ascii_of_N n) ""
  else String (ascii_of_N (192 + n / 64)) (String (ascii_of_N (128 + n mod 64)) "").

(** [slice::join]. *)
Definition join (sep : string) (ls : list string) : string := String.concat sep ls.

End Str.

(** ** Facts *)

Section str_facts.
Implicit Types (s p l r suf : string) (c : ascii).

Lemma str_app_nil_l s : "" +:+ s = s.
Proof. done. Qed.

Lemma str_app_cons a s s' : String a s +:+ s' = String a (s +:+ s').
Proof. done. Qed.

Lemma str_app_nil_r s : s +:+ "" = s.
Proof. induction s as [|a s IH]; [done|]. by rewrite str_app_cons, IH. Qed.

Lemma str_app_assoc s1 s2 s3 : (s1 +:+ s2) +:+ s3 = s1 +:+ (s2 +:+ s3).
Proof. induction s1 as [|a s IH]; [done|]. by rewrite !str_app_cons, IH. Qed.

Lemma str_length_app s1 s2 :
  String.length (s1 +:+ s2) = String.length s1 + String.length s2.
Proof. induction s1 as [|a s IH]; [done|]. rewrite str_app_cons. simpl. by rewrite IH. Qed.

Lemma str_app_inj_l p s1 s2 : p +:+ s1 = p +:+ s2 → s1 = s2.
Proof. induction p as [|a p IH]; [done|]. rewrite !str_app_cons. intros [= E]. by apply IH. Qed.

Lemma str_app_inj_r s1 s2 suf : s1 +:+ suf = s2 +:+ suf → s1 = s2.
Proof.
  revert s2. induction s1 as [|a s1 IH]; intros [|b s2] H; [done|..].
  - apply (f_equal String.length) in H. rewrite !str_length_app in H. simpl in H. lia.
  - apply (f_equal String.length) in H. rewrite !str_length_app in H. simpl in H. lia.
  - rewrite !str_app_cons in H. injection H as -> H. f_equal. by apply IH.
Qed.

Lemma contains_char_app c s1 s2 :
  Str.contains_char c (s1 +:+ s2) = Str.contains_char c s1 || Str.contains_char c s2.
Proof.
  induction s1 as [|a s IH]; [done|]. rewrite str_app_cons. simpl.
  case_decide; [done|]. apply IH.
Qed.

(** *** Prefixes and suffixes *)

Lemma strip_prefix_Some p s r : Str.strip_prefix p s = Some r ↔ s = p +:+ r.
Proof.
  revert s. induction p as [|a p IH]; intros s; simpl.
  - naive_solver.
  - rewrite str_app_cons. destruct s as [|b s]; [done|].
    case_decide; subst; rewrite ?IH; naive_solver.
Qed.

Lemma strip_prefix_app p r : Str.strip_prefix p (p +:+ r) = Some r.
Proof. by apply strip_prefix_Some. Qed.

Lemma starts_with_spec p s : Str.starts_with p s = true ↔ ∃ r, s = p +:+ r.
Proof.
  unfold Str.starts_with, is_some_b. setoid_rewrite <-strip_prefix_Some.
  destruct (Str.strip_prefix p s); naive_solver.
Qed.

Lemma strip_suffix_Some suf s r : Str.strip_suffix suf s = Some r ↔ s = r +:+ suf.
Proof.
  revert r. induction s as [|a s IH]; intros r; simpl.
  - case_decide as Hd; subst; simpl.
    + split; [intros [= <-]; done|]. by destruct r.
    + split; [done|]. intros H. destruct r; [by destruct Hd|done].
  - case_decide as Hd; subst.
    + split; [intros [= <-]; done|]. intros H. f_equal.
      apply (str_app_inj_r "" r (String a s)). done.
    + rewrite fmap_Some. split.
      * intros (r' & ->%IH & ->). done.
      * destruct r as [|b r]; [by intros H; destruct Hd|].
        rewrite str_app_cons. intros [= -> ->]. exists r. by rewrite IH.
Qed.

Lemma strip_suffix_app suf r : Str.strip_suffix suf (r +:+ suf) = Some r.
Proof. by apply strip_suffix_Some. Qed.

Lemma strip_suffix_shorter suf s r :
  suf ≠ "" → Str.strip_suffix suf s = Some r → String.length r < String.length s.
Proof.
  intros Hne ->%strip_suffix_Some. rewrite str_length_app.
  destruct suf; [done|]. simpl. lia.
Qed.

Lemma trim_end_matches_fuel_enough suf n m s :
  suf ≠ "" → String.length s ≤ n → String.length s ≤ m →
  Str.trim_end_matches_fuel n suf s = Str.trim_end_matches_fuel m suf s.
Proof.
  intros Hne. revert m s. induction n as [|n IH]; intros m s Hn Hm.
  - destruct s; simpl in *; [|lia]. destruct m; [done|]. simpl. by case_decide.
  - simpl. destruct (Str.strip_suffix suf s) as [r|] eqn:E.
    + pose proof (strip_suffix_shorter _ _ _ Hne E). destruct m; [lia|].
      simpl. rewrite E. apply IH; lia.
    + destruct m; simpl; by rewrite ?E.
Qed.

(** [trim_end_matches] peels one suffix at a time. *)
Lemma trim_end_matches_app suf s :
  suf ≠ "" → Str.trim_end_matches suf (s +:+ suf) = Str.trim_end_matches suf s.
Proof.
  intros Hne. unfold Str.trim_end_matches. rewrite str_length_app.
  destruct suf as [|a suf]; [done|]. simpl.
  rewrite Nat.add_succ_r. simpl. rewrite strip_suffix_app.
  apply trim_end_matches_fuel_enough; [done|lia|lia].
Qed.

Lemma trim_end_matches_id suf s :
  Str.strip_suffix suf s = None → Str.trim_end_matches suf s = s.
Proof.
  unfold Str.trim_end_matches. intros H. destruct (String.length s); [done|].
  simpl. by rewrite H.
Qed.

Lemma trim_end_matches_done suf s :
  suf ≠ "" → Str.strip_suffix suf (Str.trim_end_matches suf s) = None.
Proof.
  intros Hne. unfold Str.trim_end_matches.
  assert (∀ n s, String.length s ≤ n →
    Str.strip_suffix suf (Str.trim_end_matches_fuel n suf s) = None) as Hn; [|by apply Hn].
  clear s. induction n as [|n IH]; intros s Hl.
  - destruct s; simpl in *; [|lia]. case_decide; [by subst|done].
  - simpl. destruct (Str.strip_suffix suf s) as [r|] eqn:E; [|done].
    apply IH. pose proof (strip_suffix_shorter _ _ _ Hne E). lia.
Qed.

(** *** Splitting *)

Lemma split_once_app c l r :
  Str.contains_char c l = false → Str.split_once c (l +:+ String c r) = Some (l, r).
Proof.
  induction l as [|a l IH]; rewrite ?str_app_cons; simpl.
  - intros _. by rewrite decide_True.
  - case_decide; [done|]. intros ?. by rewrite IH.
Qed.

Lemma split_once_Some c s l r :
  Str.split_once c s = Some (l, r) ↔ s = l +:+ String c r ∧ Str.contains_char c l = false.
Proof.
  split; [|intros [-> ?]; by apply split_once_app].
  revert l. induction s as [|a s IH]; intros l; simpl; [done|].
  case_decide; subst; [by intros [= <- <-]|].
  rewrite fmap_Some. intros ([l' r'] & Hs & [= -> ->]).
  destruct (IH _ Hs) as [-> ?]. rewrite str_app_cons. simpl. by rewrite decide_False.
Qed.

Lemma split_once_None c s : Str.split_once c s = None ↔ Str.contains_char c s = false.
Proof.
  induction s as [|a s IH]; simpl; [done|]. case_decide; [done|].
  rewrite <-IH. by destruct (Str.split_once c s) as [[]|].
Qed.

Lemma rsplit_next_app c p s :
  Str.contains_char c s = false → Str.rsplit_next c (p +:+ String c s) = s.
Proof.
  intros Hs. induction p as [|a p IH]; rewrite ?str_app_cons; simpl.
  - by rewrite Hs, decide_True.
  - rewrite contains_char_app. simpl. rewrite decide_True, orb_true_r by done. done.
Qed.

(** *** Lines *)

Lemma split_inclusive_app c l s :
  Str.contains_char c l = false →
  Str.split_inclusive c (l +:+ String c s) = (l +:+ String c "") :: Str.split_inclusive c s.
Proof.
  induction l as [|a l IH]; rewrite ?str_app_cons; simpl.
  - intros _. by rewrite decide_True.
  - case_decide; [done|]. intros ?. by rewrite IH.
Qed.

Lemma strip_line_end_crlf l : Str.strip_line_end (l +:+ CRLF) = l.
Proof.
  unfold Str.strip_line_end, CRLF.
  change (String CR (String NL "")) with (String CR "" +:+ String NL "").
  by rewrite <-str_app_assoc, strip_suffix_app, strip_suffix_app.
Qed.

(** A text whose lines end in CRLF has exactly these lines. *)
Lemma lines_crlf (ls : list string) :
  Forall (λ l, Str.contains_char NL l = false) ls →
  Str.lines (String.concat "" ((λ l, l +:+ CRLF) <$> ls)) = ls.
Proof.
  assert (∀ ls, String.concat "" ((λ l, l +:+ CRLF) <$> ls) =
    foldr (λ l s, l +:+ String CR (String NL s)) "" ls) as Hc.
  { clear ls. intros ls. induction ls as [|l ls IH]; [done|].
    rewrite fmap_cons. simpl. rewrite <-IH.
    destruct ls as [|l' ls]; simpl; rewrite ?str_app_assoc; done. }
  rewrite Hc. clear Hc. induction 1 as [|l ls Hl Hls IH]; [done|].
  simpl. unfold Str.lines in *.
  replace (l +:+ String CR (String NL (foldr (λ l s, l +:+ String CR (String NL s)) "" ls)))
    with ((l +:+ String CR "") +:+ String NL (foldr (λ l s, l +:+ String CR (String NL s)) "" ls))
    by (by rewrite str_app_assoc).
  rewrite split_inclusive_app by (rewrite contains_char_app, Hl; done).
  rewrite fmap_cons, IH. f_equal. rewrite str_app_assoc. apply strip_line_end_crlf.
Qed.

(** *** Trimming *)

Lemma first_some_None {A B} (f : A → option B) (l : list A) :
  Forall (λ x, f x = None) l → Str.first_some f l = None.
Proof. induction 1 as [|x l Hx Hl IH]; simpl; [done|]. by rewrite Hx. Qed.

#[local] Arguments Str.first_some : simpl never.

(** Neither end of [s] is white space. *)
Definition trimmed s : Prop :=
  Forall (λ w, Str.strip_prefix w s = None ∧ Str.strip_suffix w s = None) Str.white_space.

#[global] Instance trimmed_dec s : Decision (trimmed s).
Proof. unfold trimmed. apply _. Defined.

Lemma trim_trimmed s : trimmed s → Str.trim s = s.
Proof.
  intros H. unfold Str.trim.
  assert (Str.trim_start s = s) as ->.
  { unfold Str.trim_start. destruct (String.length s); [done|]. simpl.
    rewrite first_some_None; [done|]. eapply Forall_impl; [exact H|]. naive_solver. }
  unfold Str.trim_end. destruct (String.length s); [done|]. simpl.
  rewrite first_some_None; [done|]. eapply Forall_impl; [exact H|]. naive_solver.
Qed.

(** *** Characters *)

Lemma concat_cons x (l : list string) : String.concat "" (x :: l) = x +:+ String.concat "" l.
Proof. destruct l; simpl; by rewrite ?str_app_nil_r. Qed.

Lemma take_drop_app n s : (Str.take_drop n s).1 +:+ (Str.take_drop n s).2 = s.
Proof.
  revert s. induction n as [|n IH]; intros s; [done|]. destruct s as [|a s]; [done|]. simpl.
  specialize (IH s). destruct (Str.take_drop n s) as [l r]. simpl in *.
  by rewrite str_app_cons, IH.
Qed.

Lemma utf8_first_pos a s : 0 < (Str.utf8_first (String a s)).2.
Proof. unfold Str.utf8_first. repeat case_match; simpl; lia. Qed.

Lemma take_drop_shorter n a s :
  0 < n → String.length (Str.take_drop n (String a s)).2 ≤ String.length s.
Proof.
  destruct n as [|n]; [lia|]. intros _. simpl. pose proof (take_drop_app n s) as E.
  destruct (Str.take_drop n s) as [l r]. simpl in *. rewrite <- E, str_length_app. lia.
Qed.

(** The chunks make up the string. *)
Lemma utf8_chunks_fuel_concat n s :
  String.length s ≤ n → String.concat "" (snd <$> Str.utf8_chunks_fuel n s) = s.
Proof.
  revert s. induction n as [|n IH]; intros [|a s] Hn; try done; [simpl in Hn; lia|].
  cbn [Str.utf8_chunks_fuel]. pose proof (utf8_first_pos a s) as Hp.
  destruct (Str.utf8_first (String a s)) as [ok k]. cbn [snd] in Hp.
  pose proof (take_drop_app k (String a s)) as E.
  pose proof (take_drop_shorter k a s Hp) as Hl.
  destruct (Str.take_drop k (String a s)) as [c r]. cbn [fst snd] in *.
  rewrite fmap_cons, concat_cons, IH by (simpl in Hn; lia). exact E.
Qed.

Lemma chars_concat s : String.concat "" (Str.chars s) = s.
Proof. by apply utf8_chunks_fuel_concat. Qed.

Lemma length_chars s : length (Str.chars s) ≤ String.length s.
Proof.
  unfold Str.chars, Str.utf8_chunks. rewrite length_fmap.
  generalize s at 2 as t. generalize (String.length s) as n.
  induction n as [|n IH]; intros [|a t]; cbn [Str.utf8_chunks_fuel length]; try lia.
  destruct (Str.utf8_first (String a t)) as [ok k], (Str.take_drop k (String a t)) as [c r].
  cbn [length]. specialize (IH r). lia.
Qed.

Lemma contains_char_concat c (l : list string) :
  Str.contains_char c (String.concat "" l) = existsb (Str.contains_char c) l.
Proof.
  induction l as [|x l IH]; [done|]. by rewrite concat_cons, contains_char_app, IH.
Qed.

(** Decoding well-formed text changes nothing. *)
Lemma from_utf8_Some bytes s : Str.from_utf8 bytes = Some s → s = bytes.
Proof. unfold Str.from_utf8. case_match; [by intros [= <-]|done]. Qed.

Lemma from_utf8_lossy_valid s : Str.from_utf8 s = Some s → Str.from_utf8_lossy s = s.
Proof.
  unfold Str.from_utf8, Str.from_utf8_lossy. destruct (forallb fst _) eqn:E; [|done].
  intros _. rewrite <- (chars_concat s) at 2. unfold Str.chars. f_equal.
  apply list_fmap_ext. intros i [ok c] Hx%list_elem_of_lookup_2.
  rewrite forallb_forall in E. specialize (E (ok, c)). simpl in *.
  rewrite E; [done|]. by apply list_elem_of_In.
Qed.
End str_facts.

Create Rewrite HintDb str.
#[export] Hint Rewrite str_app_nil_r str_app_assoc : str.
#[export] Hint Resolve strip_prefix_app strip_suffix_app : caldav.
