(* ===== verification/Effects.v ===== *)
(** * Effects: programs as sequences of atomic steps

    Every handler of the server is an asynchronous function that runs SQL
    statements, draws identifiers and reads the clock, one after the other.
    A [prog S A] is such a computation over a shared state [S]: each [Step] is one
    atomic action on the state (an SQL statement in autocommit mode, a draw, a
    locked access to the session map), and between two steps of one program
    the steps of others may run.  A step is also given its number in the global
    order, which the parameters of the model use to make draws, faults and row
    orders arbitrary.

    [run] executes one program alone; [sched] interleaves any number of them.
    [safe] is the compositional criterion under which a state invariant holds
    in every interleaving. *)
From Stdlib Require Import NArith.
From S2P Require Import Prelude.
From stdpp Require Import relations.
From stdpp Require Import options.

Section prog.
Context {S : Type}.

Inductive prog (A : Type) : Type :=
| Ret (a : A)
| Step (R : Type) (s : N → S → R * S) (k : R → prog A).

Fixpoint prog_bind {A B} (p : prog A) (f : A → prog B) : prog B :=
  match p with
  | Ret _ a => f a
  | Step _ R s k => Step _ R s (λ r, prog_bind (k r) f)
  end.

(** The state with the number of the next step. *)
Record World : Type := mkWorld { clock : N; store : S }.

(** One step of a program; [None] for a finished one. *)
Definition advance {A} (p : prog A) (w : World) : option (prog A * World) :=
  match p with
  | Ret _ _ => None
  | Step _ R s k =>
      let '(r, σ) := s (clock w) (store w) in
      Some (k r, mkWorld (N.succ (clock w)) σ)
  end.

(** A program run alone, to its end. *)
Fixpoint run {A} (p : prog A) (w : World) : A * World :=
  match p with
  | Ret _ a => (a, w)
  | Step _ R s k =>
      let '(r, σ) := s (clock w) (store w) in
      run (k r) (mkWorld (N.succ (clock w)) σ)
  end.
End prog.
Arguments prog : clear implicits.
Arguments World : clear implicits.
Arguments Ret {S A} a.
Arguments Step {S A R} s k.

#[export] Instance prog_ret {S} : MRet (prog S) := λ A a, Ret a.
#[export] Instance prog_mbind {S} : MBind (prog S) := λ A B f p, prog_bind p f.

(** One atomic action. *)
Definition atomic {S R} (s : N → S → R * S) : prog S R := Step s Ret.

(** An action that only reads. *)
Definition observe {S R} (s : N → S → R) : prog S R := atomic (λ n σ, (s n σ, σ)).

(** The [?] operator: the rest of the function runs on [Ok] only. *)
Definition try_bind {S A B E} (p : prog S (Result A E)) (f : A → prog S (Result B E)) :
    prog S (Result B E) :=
  p ≫= λ r, match r with Ok a => f a | Err e => mret (Err e) end.

Notation "x '←?' p ; k" := (try_bind p (λ x, k))
  (at level 20, p at level 100, k at level 200, only parsing) : caldav_scope.
Notation "' x '←?' p ; k" := (try_bind p (λ x, k))
  (at level 20, x pattern, p at level 100, k at level 200, only parsing) : caldav_scope.

(** [.map_err(f)] on an awaited result. *)
Definition with_err {S A E F} (f : E → F) (p : prog S (Result A E)) : prog S (Result A F) :=
  p ≫= λ r, mret (map_err f r).

(** [.unwrap_or_default()] on an awaited result. *)
Definition unwrap_or {S A E} (d : A) (p : prog S (Result A E)) : prog S A :=
  p ≫= λ r, mret (match r with Ok a => a | Err _ => d end).

(** ** Running alone *)

Section run_facts.
Context {S : Type}.
Implicit Types (w : World S).

Lemma run_ret {A} (a : A) w : run (mret a) w = (a, w).
Proof. done. Qed.

Lemma run_bind {A B} (p : prog S A) (f : A → prog S B) w :
  run (p ≫= f) w = let '(a, w') := run p w in run (f a) w'.
Proof.
  revert w. induction p as [a|R s k IH]; intros w; [done|]. simpl.
  destruct (s (clock w) (store w)) as [r σ]. apply IH.
Qed.

Lemma run_bind_eq {A B} (p : prog S A) (f : A → prog S B) w a w' :
  run p w = (a, w') → run (p ≫= f) w = run (f a) w'.
Proof. intros H. by rewrite run_bind, H. Qed.

Lemma run_try_ok {A B E} (p : prog S (Result A E)) (f : A → prog S (Result B E)) w a w' :
  run p w = (Ok a, w') → run (try_bind p f) w = run (f a) w'.
Proof. intros H. unfold try_bind. by rewrite run_bind, H. Qed.

Lemma run_try_err {A B E} (p : prog S (Result A E)) (f : A → prog S (Result B E)) w e w' :
  run p w = (Err e, w') → run (try_bind p f) w = (Err e, w').
Proof. intros H. unfold try_bind. by rewrite run_bind, H. Qed.

Lemma run_try {A B E} (p : prog S (Result A E)) (f : A → prog S (Result B E)) w :
  run (try_bind p f) w =
    match run p w with
    | (Ok a, w') => run (f a) w'
    | (Err e, w') => (Err e, w')
    end.
Proof. unfold try_bind. rewrite run_bind. by destruct (run p w) as [[a|e] w']. Qed.

Lemma run_try_assoc {A B C E} (p : prog S (Result A E)) (f : A → prog S (Result B E))
    (g : B → prog S (Result C E)) w :
  run (try_bind (try_bind p f) g) w = run (try_bind p (λ a, try_bind (f a) g)) w.
Proof.
  rewrite !run_try. destruct (run p w) as [[a|e] w']; [|done]. by rewrite run_try.
Qed.

Lemma run_try_bind {A B C E} (p : prog S A) (f : A → prog S (Result B E))
    (g : B → prog S (Result C E)) w :
  run (try_bind (p ≫= f) g) w = let '(a, w') := run p w in run (try_bind (f a) g) w'.
Proof.
  rewrite run_try, run_bind. destruct (run p w) as [a w']. by rewrite run_try.
Qed.

Lemma run_with_err {A E F} (f : E → F) (p : prog S (Result A E)) w r w' :
  run p w = (r, w') → run (with_err f p) w = (map_err f r, w').
Proof. intros H. unfold with_err. by rewrite run_bind, H. Qed.

Lemma run_unwrap_or {A E} (d : A) (p : prog S (Result A E)) w r w' :
  run p w = (r, w') →
  run (unwrap_or d p) w = (match r with Ok a => a | Err _ => d end, w').
Proof. intros H. unfold unwrap_or. by rewrite run_bind, H. Qed.

Lemma run_observe {R} (s : N → S → R) w :
  run (observe s) w = (s (clock w) (store w), mkWorld (N.succ (clock w)) (store w)).
Proof. done. Qed.

Lemma run_atomic {R} (s : N → S → R * S) w :
  run (atomic s) w =
    ((s (clock w) (store w)).1, mkWorld (N.succ (clock w)) (s (clock w) (store w)).2).
Proof. unfold atomic. simpl. by destruct (s (clock w) (store w)). Qed.

Lemma run_clock {A} (p : prog S A) w : (clock w ≤ clock (run p w).2)%N.
Proof.
  revert w. induction p as [a|R s k IH]; intros w; simpl; [lia|].
  destruct (s (clock w) (store w)) as [r σ].
  specialize (IH r (mkWorld (N.succ (clock w)) σ)). simpl in IH. lia.
Qed.
End run_facts.

(** ** Interleaving *)

Section interleave.
Context {S A : Type}.
(** The programs that may be started. *)
Context (starts : prog S A → Prop).

(** A pool of running programs over one shared state. *)
Inductive sched : list (prog S A) * World S → list (prog S A) * World S → Prop :=
| sched_start p ps w : starts p → sched (ps, w) (ps ++ [p], w)
| sched_step i p p' ps w w' :
    ps !! i = Some p →
    advance p w = Some (p', w') →
    sched (ps, w) (<[i := p']> ps, w').

(** A program alone is one of the interleavings. *)
Lemma run_sched (p : prog S A) ps w :
  let '(a, w') := run p w in rtc sched (ps ++ [p], w) (ps ++ [Ret a], w').
Proof.
  revert w. induction p as [a|R s k IH]; intros w; simpl; [done|].
  destruct (s (clock w) (store w)) as [r σ] eqn:E.
  specialize (IH r (mkWorld (N.succ (clock w)) σ)).
  destruct (run (k r) _) as [a w'] eqn:E'.
  eapply rtc_l; [|exact IH].
  replace (ps ++ [k r]) with (<[length ps := k r]> (ps ++ [Step s k])).
  - eapply sched_step.
    + by apply list_lookup_middle.
    + simpl. by rewrite E.
  - rewrite insert_app_r_alt by lia. by rewrite Nat.sub_diag.
Qed.
End interleave.

(** ** Safety under interleaving *)

Section safe.
Context {S : Type}.
(** The invariant, indexed by the number of the next step. *)
Context (I : N → S → Prop).

(** Every step of the program, whenever it runs at a step number of at least
    [n], keeps the invariant; [Q] holds of the result.  Between two steps other
    programs may change the state, so each step may rely on the invariant
    and on the step numbers having grown, and on nothing else. *)
Fixpoint safe {A} (Q : N → A → Prop) (n : N) (p : prog S A) : Prop :=
  match p with
  | Ret a => Q n a
  | Step s k =>
      ∀ m σ, (n ≤ m)%N → I m σ →
        I (N.succ m) (s m σ).2 ∧ safe Q (N.succ m) (k (s m σ).1)
  end.

Lemma safe_mono {A} (Q Q' : N → A → Prop) n n' p :
  safe Q n p → (n ≤ n')%N → (∀ m a, (n ≤ m)%N → Q m a → ∀ m', (m ≤ m')%N → Q' m' a) →
  safe Q' n' p.
Proof.
  revert n n'. induction p as [a|R s k IH]; intros n n' Hs Hn HQ; simpl in *.
  - eapply HQ; [|exact Hs|exact Hn]. lia.
  - intros m σ Hm HI. destruct (Hs m σ) as [HI' Hk]; [lia|done|]. split; [done|].
    eapply IH; [exact Hk|lia|]. intros m1 a Hm1 HQm m' Hm'.
    eapply HQ; [|exact HQm|exact Hm']. lia.
Qed.

Lemma safe_bind {A B} (Q : N → A → Prop) (Q' : N → B → Prop) n (p : prog S A) f :
  safe Q n p →
  (∀ m a, (n ≤ m)%N → Q m a → safe Q' m (f a)) →
  safe Q' n (p ≫= f).
Proof.
  revert n. induction p as [a|R s k IH]; intros n Hp Hf; simpl in *.
  - apply Hf; [lia|done].
  - intros m σ Hm HI. destruct (Hp m σ Hm HI) as [HI' Hk]. split; [done|].
    eapply IH; [exact Hk|]. intros m' a Hm' HQ. apply Hf; [lia|done].
Qed.

Lemma safe_ret {A} (Q : N → A → Prop) n (a : A) : Q n a → safe Q n (mret a).
Proof. done. Qed.

Lemma safe_try {A B E} (Q : N → A → Prop) (Q' : N → Result B E → Prop) n
    (p : prog S (Result A E)) f :
  safe (λ m r, match r with Ok a => Q m a | Err e => Q' m (Err e) end) n p →
  (∀ m a, (n ≤ m)%N → Q m a → safe Q' m (f a)) →
  safe Q' n (try_bind p f).
Proof.
  intros Hp Hf. eapply safe_bind; [exact Hp|]. intros m [a|e] Hm HQ; [by apply Hf|done].
Qed.

Lemma safe_observe {R} (Q : N → R → Prop) n (s : N → S → R) :
  (∀ m σ, (n ≤ m)%N → I m σ → I (N.succ m) σ) →
  (∀ m σ, (n ≤ m)%N → I m σ → Q (N.succ m) (s m σ)) →
  safe Q n (observe s).
Proof. intros HI HQ m σ Hm Hσ. split; [by apply HI|by apply HQ]. Qed.

(** A safe program run alone keeps the invariant. *)
Lemma safe_run {A} (Q : N → A → Prop) (p : prog S A) w :
  safe Q (clock w) p → I (clock w) (store w) →
  let '(a, w') := run p w in I (clock w') (store w') ∧ Q (clock w') a.
Proof.
  revert w. induction p as [a|R s k IH]; intros w Hp HI; simpl in *; [done|].
  destruct (Hp (clock w) (store w)) as [HI' Hk]; [lia|done|].
  destruct (s (clock w) (store w)) as [r σ]. by apply IH.
Qed.

(** If every program that may start is safe, every interleaving keeps the
    invariant and gives results that [Q] admits. *)
Theorem interleaving_safe {A} (Q : A → Prop) (starts : prog S A → Prop) (w w' : World S) ps ps' :
  (∀ p n, starts p → safe (λ _, Q) n p) →
  I (clock w) (store w) →
  Forall (safe (λ _, Q) (clock w)) ps →
  rtc (sched starts) (ps, w) (ps', w') →
  I (clock w') (store w') ∧ Forall (safe (λ _, Q) (clock w')) ps'.
Proof.
  intros Hst HI Hps Hr.
  remember (ps, w) as c eqn:Ec. remember (ps', w') as c' eqn:Ec'.
  revert ps w ps' w' Ec Ec' HI Hps.
  induction Hr as [c|c1 c2 c3 Hs Hr IH]; intros ps w ps' w' -> Hc' HI Hps; simplify_eq; [done|].
  inversion Hs as [p ? ? Hp|i p p' ? ? w1 Hi Ha]; simplify_eq.
  - eapply IH; [done..|]. apply Forall_app. split; [done|]. constructor; [by apply Hst|done].
  - assert (safe (λ _, Q) (clock w) p) as Hp
      by (by eapply Forall_lookup_1).
    destruct p as [a|R s k]; simpl in Ha; [done|].
    destruct (s (clock w) (store w)) as [r σ] eqn:E. simplify_eq.
    destruct (Hp (clock w) (store w)) as [HI' Hk]; [lia|done|]. rewrite E in HI', Hk.
    eapply IH; [done..|]. simpl. apply Forall_insert; [|done].
    eapply Forall_impl; [exact Hps|]. intros q Hq.
    eapply safe_mono; [exact Hq|lia|done].
Qed.
End safe.

#[export] Hint Resolve safe_ret : caldav.

(** ** Programs that only read *)

(** No step of the program changes the state, whatever the state it meets. *)
Fixpoint reads {S A} (p : prog S A) : Prop :=
  match p with
  | Ret _ => True
  | Step s k => ∀ n σ, (s n σ).2 = σ ∧ reads (k (s n σ).1)
  end.

Lemma reads_bind {S A B} (p : prog S A) (f : A → prog S B) :
  reads p → (∀ a, reads (f a)) → reads (p ≫= f).
Proof.
  induction p as [a|R s k IH]; intros Hp Hf; simpl in *; [apply Hf|].
  intros n σ. destruct (Hp n σ) as [Hσ Hk]. split; [done|]. by apply IH.
Qed.

Lemma reads_run {S A} (p : prog S A) w : reads p → store (run p w).2 = store w.
Proof.
  revert w. induction p as [a|R s k IH]; intros w Hp; [done|]. simpl in *.
  destruct (Hp (clock w) (store w)) as [Hσ Hk].
  destruct (s (clock w) (store w)) as [r σ]. simpl in *. subst σ. by rewrite IH.
Qed.

(** Programs are run by the equations above, not by unfolding. *)
#[global] Arguments run : simpl never.
#[global] Arguments try_bind : simpl never.
#[global] Arguments with_err : simpl never.
#[global] Arguments unwrap_or : simpl never.
#[global] Arguments atomic : simpl never.
#[global] Arguments observe : simpl never.
#[global] Arguments prog_bind : simpl never.
#[global] Arguments prog_mbind : simpl never.
#[global] Arguments prog_ret : simpl never.
