(* ===== verification/Models.v ===== *)
(** * Data models and errors

    [src/db/models.rs] (the rows of the six tables and the sharing permission)
    and [src/error.rs] (the application error and its HTTP status).  Each struct
    is a record [t] in a module named like it; timestamps are kept as the text the
    database stores. *)
From Stdlib Require Import ZArith.
From S2P Require Import Prelude RustStr.
From stdpp Require Import options.

Module User.
Record t : Type := mk {
  id : string;
  username : string;
  email : option string;
  password_hash : string;
  created_at : string;
}.

#[global] Instance eq_dec : EqDecision t.
Proof. solve_decision. Defined.
End User.

Module Calendar.
Record t : Type := mk {
  id : string;
  owner_id : string;
  name : string;
  description : string;
  color : string;
  timezone : string;
  ctag : string;
  sync_token : string;
  created_at : string;
  updated_at : string;
}.

#[global] Instance eq_dec : EqDecision t.
Proof. solve_decision. Defined.
End Calendar.

Module CalendarObject.
Record t : Type := mk {
  id : string;
  calendar_id : string;
  uid : string;
  etag : string;
  ical_data : string;
  component_type : string;
  dtstart : option string;
  dtend : option string;
  summary : option string;
  created_at : string;
  updated_at : string;
}.

#[global] Instance eq_dec : EqDecision t.
Proof. solve_decision. Defined.

(** The columns of the [UNIQUE(calendar_id, uid)] constraint. *)
Definition key (o : t) : string * string := (calendar_id o, uid o).
End CalendarObject.

Module CalendarShare.
Record t : Type := mk {
  id : string;
  calendar_id : string;
  user_id : string;
  permission : string;
  created_at : string;
}.

#[global] Instance eq_dec : EqDecision t.
Proof. solve_decision. Defined.

(** The columns of the [UNIQUE(calendar_id, user_id)] constraint. *)
Definition key (s : t) : string * string := (calendar_id s, user_id s).
End CalendarShare.

Module SyncChange.
Record t : Type := mk {
  id : Z;
  calendar_id : string;
  object_uid : string;
  change_type : string;
  sync_token : string;
  created_at : string;
}.

#[global] Instance eq_dec : EqDecision t.
Proof. solve_decision. Defined.
End SyncChange.

Module McpToken.
Record t : Type := mk {
  id : string;
  user_id : string;
  token_hash : string;
  name : string;
  created_at : string;
  expires_at : option string;
}.

#[global] Instance eq_dec : EqDecision t.
Proof. solve_decision. Defined.
End McpToken.

Module Permission.
Inductive t : Type := Read | ReadWrite.

#[global] Instance eq_dec : EqDecision t.
Proof. solve_decision. Defined.

Definition as_str (p : t) : string :=
  match p with Read => "read" | ReadWrite => "read-write" end.

Definition from_str_value (s : string) : option t :=
  if decide (s = "read") then Some Read
  else if decide (s = "read-write") then Some ReadWrite
  else None.

Definition can_write (p : t) : bool :=
  match p with ReadWrite => true | Read => false end.

Lemma from_str_value_as_str p : from_str_value (as_str p) = Some p.
Proof. by destruct p. Qed.

Lemma from_str_value_Some s p : from_str_value s = Some p ↔ s = as_str p.
Proof.
  split; [|intros ->; apply from_str_value_as_str].
  unfold from_str_value. split_cases; by intros [= <-].
Qed.
End Permission.

(** The errors of the database driver that the sources tell apart: an error the
    database reports, with its message, a [fetch_one] without a row, anything
    else (I/O, a pool timeout, a decoding error). *)
Inductive SqlxError : Type :=
| SqlxDatabase (message : string)
| RowNotFound
| SqlxOther (message : string).

#[global] Instance SqlxError_eq_dec : EqDecision SqlxError.
Proof. solve_decision. Defined.

Module AppError.
Inductive t : Type :=
| NotFound (msg : string)
| Unauthorized
| Forbidden (msg : string)
| BadRequest (msg : string)
| Conflict (msg : string)
| PreconditionFailed (msg : string)
| Database (e : SqlxError)
| Internal (msg : string).

#[global] Instance eq_dec : EqDecision t.
Proof. solve_decision. Defined.

(** [impl IntoResponse for AppError]: the status code. *)
Definition status (e : t) : Z :=
  match e with
  | NotFound _ => 404
  | Unauthorized => 401
  | Forbidden _ => 403
  | BadRequest _ => 400
  | Conflict _ => 409
  | PreconditionFailed _ => 412
  | Database _ => 500
  | Internal _ => 500
  end.

(** [Display for AppError], given the driver's own text for its errors. *)
Definition display (sqlx_display : SqlxError → string) (e : t) : string :=
  match e with
  | NotFound m => "not found: " +:+ m
  | Unauthorized => "unauthorized"
  | Forbidden m => "forbidden: " +:+ m
  | BadRequest m => "bad request: " +:+ m
  | Conflict m => "conflict: " +:+ m
  | PreconditionFailed m => "precondition failed: " +:+ m
  | Database e => "database error: " +:+ sqlx_display e
  | Internal m => "internal error: " +:+ m
  end.
End AppError.

(** [type AppResult<T>]. *)
Abbreviation AppResult A := (Result A AppError.t).
