(* ===== verification/Db.v ===== *)
(** * The database: tables, constraints and statement execution

    The schema of [migrations/001_initial.sql].  A table is the list of its rows
    in insertion order.  A statement is a function of the statement number (which
    fixes the clock it reads) and the database, giving its result and the new
    database; [execute] runs it as one atomic step.

    What SQLite and the driver leave open is a parameter ([Sqlite]): which
    statements fail for reasons outside the schema ([sql_fault]; such a
    statement has no effect), the order in which a statement visits the rows its
    WHERE clause selects ([sql_scan], documented only to be some order), and the
    clock.  [wf] is the integrity the schema declares. *)
From Stdlib Require Import ZArith.
From S2P Require Import Prelude RustStr Effects Models.
From stdpp Require Import options.

Class Sqlite : Type := {
  sql_fault : N → option SqlxError;
  sql_scan : ∀ {A : Type}, N → list A → list A;
  datetime_now : N → string;
  sqlx_display : SqlxError → string;
}.

(** A statement visits exactly the rows it selects, each once. *)
Class SqliteLaws `{Sqlite} : Prop :=
  sql_scan_perm : ∀ (A : Type) n (l : list A), sql_scan n l ≡ₚ l.

(** [Uuid::new_v4()] and [Uuid::now_v7()], in text form, drawn at step [n]. *)
Class Uuids : Type := {
  uuid_v4 : N → string;
  uuid_v7 : N → string;
}.

(** Documented uniqueness: two draws never give the same identifier. *)
Class UuidLaws `{Uuids} : Prop := {
  uuid_v4_inj : ∀ i j, uuid_v4 i = uuid_v4 j → i = j;
  uuid_v7_inj : ∀ i j, uuid_v7 i = uuid_v7 j → i = j;
}.

Module Db.

Record t : Type := mk {
  users : list User.t;
  calendars : list Calendar.t;
  calendar_objects : list CalendarObject.t;
  calendar_shares : list CalendarShare.t;
  sync_changes : list SyncChange.t;
  (** the AUTOINCREMENT counter of [sync_changes]: the largest id ever given *)
  sync_seq : Z;
  mcp_tokens : list McpToken.t;
}.

#[global] Instance eq_dec : EqDecision t.
Proof. solve_decision. Defined.

(** The database the migrations create. *)
Definition empty : t := mk [] [] [] [] [] 0 [].

Definition set_users (f : list User.t → list User.t) (d : t) : t :=
  mk (f (users d)) (calendars d) (calendar_objects d) (calendar_shares d)
     (sync_changes d) (sync_seq d) (mcp_tokens d).
Definition set_calendars (f : list Calendar.t → list Calendar.t) (d : t) : t :=
  mk (users d) (f (calendars d)) (calendar_objects d) (calendar_shares d)
     (sync_changes d) (sync_seq d) (mcp_tokens d).
Definition set_objects (f : list CalendarObject.t → list CalendarObject.t) (d : t) : t :=
  mk (users d) (calendars d) (f (calendar_objects d)) (calendar_shares d)
     (sync_changes d) (sync_seq d) (mcp_tokens d).
Definition set_shares (f : list CalendarShare.t → list CalendarShare.t) (d : t) : t :=
  mk (users d) (calendars d) (calendar_objects d) (f (calendar_shares d))
     (sync_changes d) (sync_seq d) (mcp_tokens d).
Definition set_changes (f : list SyncChange.t → list SyncChange.t) (d : t) : t :=
  mk (users d) (calendars d) (calendar_objects d) (calendar_shares d)
     (f (sync_changes d)) (sync_seq d) (mcp_tokens d).
Definition set_seq (z : Z) (d : t) : t :=
  mk (users d) (calendars d) (calendar_objects d) (calendar_shares d)
     (sync_changes d) z (mcp_tokens d).
Definition set_tokens (f : list McpToken.t → list McpToken.t) (d : t) : t :=
  mk (users d) (calendars d) (calendar_objects d) (calendar_shares d)
     (sync_changes d) (sync_seq d) (f (mcp_tokens d)).

Definition user_ids (d : t) : list string := User.id <$> users d.
Definition calendar_ids (d : t) : list string := Calendar.id <$> calendars d.

(** [sync_changes.change_type]'s CHECK constraint. *)
Definition change_types : list string := ["created"; "modified"; "deleted"].

(** [calendar_shares.permission]'s CHECK constraint. *)
Definition permissions : list string := ["read"; "read-write"].

(** The integrity the schema declares: primary keys, UNIQUE, REFERENCES and CHECK
    constraints, and the AUTOINCREMENT counter. *)
Record wf (d : t) : Prop := {
  wf_user_id : NoDup (user_ids d);
  wf_username : NoDup (User.username <$> users d);
  wf_calendar_id : NoDup (calendar_ids d);
  wf_calendar_owner : Forall (λ c, Calendar.owner_id c ∈ user_ids d) (calendars d);
  wf_object_id : NoDup (CalendarObject.id <$> calendar_objects d);
  wf_object_key : NoDup (CalendarObject.key <$> calendar_objects d);
  wf_object_calendar :
    Forall (λ o, CalendarObject.calendar_id o ∈ calendar_ids d) (calendar_objects d);
  wf_share_id : NoDup (CalendarShare.id <$> calendar_shares d);
  wf_share_key : NoDup (CalendarShare.key <$> calendar_shares d);
  wf_share_calendar :
    Forall (λ s, CalendarShare.calendar_id s ∈ calendar_ids d) (calendar_shares d);
  wf_share_user :
    Forall (λ s, CalendarShare.user_id s ∈ user_ids d) (calendar_shares d);
  wf_share_permission :
    Forall (λ s, CalendarShare.permission s ∈ permissions) (calendar_shares d);
  wf_change_id : StronglySorted Z.lt (SyncChange.id <$> sync_changes d);
  wf_change_seq : Forall (λ c, 0 < SyncChange.id c ≤ sync_seq d)%Z (sync_changes d);
  wf_change_calendar :
    Forall (λ c, SyncChange.calendar_id c ∈ calendar_ids d) (sync_changes d);
  wf_change_type :
    Forall (λ c, SyncChange.change_type c ∈ change_types) (sync_changes d);
  wf_seq : (0 ≤ sync_seq d < 2 ^ 63)%Z;
  wf_token_id : NoDup (McpToken.id <$> mcp_tokens d);
  wf_token_user : Forall (λ k, McpToken.user_id k ∈ user_ids d) (mcp_tokens d);
}.

Lemma wf_empty : wf empty.
Proof. split; simpl; (lia || constructor). Qed.

End Db.

(** The messages of SQLite's constraint errors. *)
Definition unique_failed (columns : string) : SqlxError :=
  SqlxDatabase ("UNIQUE constraint failed: " +:+ columns).
Definition foreign_key_failed : SqlxError :=
  SqlxDatabase "FOREIGN KEY constraint failed".
Definition check_failed (column : string) : SqlxError :=
  SqlxDatabase ("CHECK constraint failed: " +:+ column).
Definition database_full : SqlxError := SqlxDatabase "database or disk is full".

(** ** The state of the running server *)

(** The database and the MCP session table. *)
Record Store : Type := mkStore {
  db : Db.t;
  sessions : gmap string string;
}.

Definition with_db (d : Db.t) (σ : Store) : Store := mkStore d (sessions σ).

(** Server programs. *)
Abbreviation M := (prog Store).

(** [ORDER BY] a text column: byte order (SQLite's BINARY collation), NULL first. *)
Definition text_le (a b : option string) : Prop :=
  match a, b with
  | None, _ => True
  | Some _, None => False
  | Some x, Some y => String.le x y
  end.

#[global] Instance text_le_dec : RelDecision text_le.
Proof. intros [x|] [y|]; simpl; apply _. Defined.

#[global] Instance text_le_total : Total text_le.
Proof. intros [x|] [y|]; simpl; [apply (total String.le)|auto..]. Qed.

#[global] Instance text_le_trans : Transitive text_le.
Proof. intros [x|] [y|] [z|]; simpl; try done. apply (transitivity (R := String.le)). Qed.

Definition key_le {A} (key : A → option string) : relation A :=
  λ a b, text_le (key a) (key b).

#[global] Instance key_le_dec {A} (key : A → option string) : RelDecision (key_le key).
Proof. intros a b. apply text_le_dec. Defined.

#[global] Instance key_le_total {A} (key : A → option string) : Total (key_le key).
Proof. intros a b. apply (total text_le). Qed.

#[global] Instance key_le_trans {A} (key : A → option string) : Transitive (key_le key).
Proof. intros a b c. apply (transitivity (R := text_le)). Qed.

(** Rows with equal keys stay in the order in which they were visited. *)
Definition order_by {A} (key : A → option string) (rows : list A) : list A :=
  merge_sort (key_le key) rows.

Lemma order_by_perm {A} (key : A → option string) rows : order_by key rows ≡ₚ rows.
Proof. apply merge_sort_Permutation. Qed.

Lemma order_by_sorted {A} (key : A → option string) rows :
  StronglySorted (key_le key) (order_by key rows).
Proof. apply StronglySorted_merge_sort; apply _. Qed.

Section sql.
Context `{Sqlite}.

(** A statement: its result and the database after it. *)
Definition Stmt (R : Type) : Type := N → Db.t → Result R SqlxError * Db.t.

(** [.execute(pool).await] and [.fetch_*(pool).await]. *)
Definition execute {R} (stmt : Stmt R) : M (Result R SqlxError) :=
  atomic (λ n σ,
    match sql_fault n with
    | Some e => (Err e, σ)
    | None => let '(r, d) := stmt n (db σ) in (r, with_db d σ)
    end).

(** The [?] after a driver call in a function returning [AppResult]. *)
Definition sql_try {R} (stmt : Stmt R) : M (AppResult R) :=
  with_err AppError.Database (execute stmt).

(** A SELECT: the rows [q] gives, visited in the order of step [n]. *)
Definition select {A} (q : Db.t → list A) : Stmt (list A) :=
  λ n d, (Ok (sql_scan n (q d)), d).

Definition select_ordered {A} (key : A → option string) (q : Db.t → list A) :
    Stmt (list A) :=
  λ n d, (Ok (order_by key (sql_scan n (q d))), d).

(** [fetch_optional]: the first row. *)
Definition fetch_optional {A} (stmt : Stmt (list A)) : Stmt (option A) :=
  λ n d, let '(r, d') := stmt n d in (match r with Ok l => Ok (head l) | Err e => Err e end, d').

(** [fetch_one]: the first row, or [RowNotFound]. *)
Definition fetch_one {A} (stmt : Stmt (list A)) : Stmt A :=
  λ n d, let '(r, d') := stmt n d in
         (match r with Ok (x :: _) => Ok x | Ok [] => Err RowNotFound | Err e => Err e end, d').
End sql.
Arguments Stmt R : clear implicits.

(** ** Draws *)

(** [Uuid::new_v4()] and [Uuid::now_v7()]. *)
Definition new_v4 `{Uuids} : M string := observe (λ n _, uuid_v4 n).
Definition now_v7 `{Uuids} : M string := observe (λ n _, uuid_v7 n).

(** ** Facts about statements *)

Definition tick {S} (w : World S) (σ : S) : World S := mkWorld (N.succ (clock w)) σ.

Section sql_facts.
Context `{Sqlite}.

(** A statement that does not fault. *)
Lemma run_execute {R} (stmt : Stmt R) w :
  sql_fault (clock w) = None →
  run (execute stmt) w =
    ((stmt (clock w) (db (store w))).1,
     tick w (with_db (stmt (clock w) (db (store w))).2 (store w))).
Proof.
  intros Hf. unfold execute. rewrite run_atomic, Hf.
  by destruct (stmt (clock w) (db (store w))).
Qed.

Lemma run_execute_fault {R} (stmt : Stmt R) w e :
  sql_fault (clock w) = Some e →
  run (execute stmt) w = (Err e, tick w (store w)).
Proof. intros Hf. unfold execute. by rewrite run_atomic, Hf. Qed.

Lemma run_sql_try {R} (stmt : Stmt R) w :
  sql_fault (clock w) = None →
  run (sql_try stmt) w =
    (map_err AppError.Database (stmt (clock w) (db (store w))).1,
     tick w (with_db (stmt (clock w) (db (store w))).2 (store w))).
Proof. intros Hf. unfold sql_try. by erewrite run_with_err by by apply run_execute. Qed.

Lemma run_sql_try_fault {R} (stmt : Stmt R) w e :
  sql_fault (clock w) = Some e →
  run (sql_try stmt) w = (Err (AppError.Database e), tick w (store w)).
Proof. intros Hf. unfold sql_try. by erewrite run_with_err by by apply run_execute_fault. Qed.

(** A statement that reported a result took effect. *)
Lemma run_sql_try_ok {R} (stmt : Stmt R) w r w' :
  run (sql_try stmt) w = (Ok r, w') →
  sql_fault (clock w) = None ∧
  (stmt (clock w) (db (store w))).1 = Ok r ∧
  w' = tick w (with_db (stmt (clock w) (db (store w))).2 (store w)).
Proof.
  destruct (sql_fault (clock w)) as [e|] eqn:Hf.
  - unfold sql_try. erewrite run_with_err by by apply run_execute_fault. done.
  - rewrite run_sql_try by done. intros Hr.
    destruct (stmt (clock w) (db (store w))) as [[r'|e] d]; naive_solver.
Qed.

Lemma with_db_id σ : with_db (db σ) σ = σ.
Proof. by destruct σ. Qed.

(** A database invariant that may mention the step number. *)
Definition db_inv (P : N → Db.t → Prop) (n : N) (σ : Store) : Prop := P n (db σ).

Definition monotone (P : N → Db.t → Prop) : Prop :=
  ∀ n n' d, (n ≤ n')%N → P n d → P n' d.

Lemma safe_execute {R} P (Q : N → Result R SqlxError → Prop) n (stmt : Stmt R) :
  monotone P →
  (∀ m e, Q m (Err e)) →
  (∀ m d, (n ≤ m)%N → P m d →
     P (N.succ m) (stmt m d).2 ∧ Q (N.succ m) (stmt m d).1) →
  safe (db_inv P) Q n (execute stmt).
Proof.
  intros Hmono HE Hs m σ Hm HI. unfold db_inv in *.
  destruct (sql_fault m) as [e|]; simpl.
  - split; [|apply HE]. eapply Hmono; [|exact HI]. lia.
  - destruct (Hs m (db σ) Hm HI) as [HP HQ]. by destruct (stmt m (db σ)).
Qed.

Lemma safe_sql_try {R} P (Q : N → AppResult R → Prop) n (stmt : Stmt R) :
  monotone P →
  (∀ m e, Q m (Err e)) →
  (∀ m d, (n ≤ m)%N → P m d →
     P (N.succ m) (stmt m d).2 ∧
     Q (N.succ m) (map_err AppError.Database (stmt m d).1)) →
  safe (db_inv P) Q n (sql_try stmt).
Proof.
  intros Hmono HE Hs. unfold sql_try, with_err.
  eapply safe_bind.
  - eapply (safe_execute P (λ m r, Q m (map_err AppError.Database r))); naive_solver.
  - intros m r _ HQ. by apply safe_ret.
Qed.

Lemma safe_draw {R} P (Q : N → R → Prop) n (f : N → R) :
  monotone P →
  (∀ m, (n ≤ m)%N → Q (N.succ m) (f m)) →
  safe (db_inv P) Q n (observe (λ n _, f n)).
Proof.
  intros Hmono HQ. apply safe_observe; [|naive_solver].
  intros m σ _ HI. eapply Hmono; [|exact HI]. lia.
Qed.
End sql_facts.
