(* ===== verification/DbUsers.v ===== *)
(** * User accounts ([src/db/users.rs])

    Argon2id is a parameter ([Argon2]): hashing draws a salt, a stored hash is
    parsed before it is used, and verification is a test. *)
From Stdlib Require Import ZArith.
From S2P Require Import Prelude RustStr Effects Models Db.
From stdpp Require Import options.

Class Argon2 : Type := {
  (** [Argon2::hash_password] with the salt drawn at this step; an error's text. *)
  argon2_hash : N → string → Result string string;
  (** [PasswordHash::new]: the parse error of a stored hash, if any. *)
  phc_error : string → option string;
  (** [Argon2::verify_password(password, hash).is_ok()]. *)
  argon2_verify : string → string → bool;
}.

(** A hash that was produced parses and accepts its own password. *)
Class Argon2Laws `{Argon2} : Prop := {
  argon2_hash_parses : ∀ n pw h, argon2_hash n pw = Ok h → phc_error h = None;
  argon2_hash_verifies : ∀ n pw h, argon2_hash n pw = Ok h → argon2_verify pw h = true;
}.

Module Users.
Section users.
Context `{Sqlite, Uuids, Argon2}.

(** *** Statements *)

(** INSERT INTO users (id, username, email, password_hash) VALUES (?, ?, ?, ?) *)
Definition insert_user (id username : string) (email : option string)
    (password_hash : string) : Stmt unit :=
  λ n d,
    if bool_decide (id ∈ Db.user_ids d) then (Err (unique_failed "users.id"), d)
    else if bool_decide (username ∈ User.username <$> Db.users d) then
      (Err (unique_failed "users.username"), d)
    else (Ok tt, Db.set_users
                   (λ l, l ++ [User.mk id username email password_hash (datetime_now n)]) d).

(** SELECT * FROM users WHERE username = ? *)
Definition select_by_username (username : string) : Stmt (list User.t) :=
  select (λ d, bfilter (λ u, bool_decide (User.username u = username)) (Db.users d)).

(** SELECT * FROM users WHERE id = ? *)
Definition select_by_id (id : string) : Stmt (list User.t) :=
  select (λ d, bfilter (λ u, bool_decide (User.id u = id)) (Db.users d)).

(** SELECT * FROM users WHERE email = ? (a NULL email equals nothing) *)
Definition select_by_email (email : string) : Stmt (list User.t) :=
  select (λ d, bfilter (λ u, bool_decide (User.email u = Some email)) (Db.users d)).

(** UPDATE users SET password_hash = ? WHERE username = ?, giving the number of
    rows it changed. *)
Definition update_password_hash (hash username : string) : Stmt nat :=
  λ _ d,
    (Ok (length (bfilter (λ u, bool_decide (User.username u = username)) (Db.users d))),
     Db.set_users (fmap (λ u,
       if decide (User.username u = username)
       then User.mk (User.id u) (User.username u) (User.email u) hash (User.created_at u)
       else u)) d).

(** *** Functions *)

Definition hash_password (password : string) : M (AppResult string) :=
  observe (λ n _,
    map_err (λ e, AppError.Internal ("Password hashing failed: " +:+ e))
      (argon2_hash n password)).

Definition verify_password (password hash : string) : AppResult bool :=
  match phc_error hash with
  | Some e => Err (AppError.Internal ("Invalid password hash: " +:+ e))
  | None => Ok (argon2_verify password hash)
  end.

Definition get_user_by_username (username : string) : M (AppResult (option User.t)) :=
  sql_try (fetch_optional (select_by_username username)).

Definition get_user_by_id (id : string) : M (AppResult (option User.t)) :=
  sql_try (fetch_optional (select_by_id id)).

Definition get_user_by_email (email : string) : M (AppResult (option User.t)) :=
  sql_try (fetch_optional (select_by_email email)).

(** How [create_user] reads an INSERT error. *)
Definition create_user_error (username : string) (e : SqlxError) : AppError.t :=
  match e with
  | SqlxDatabase message =>
      if Str.contains "UNIQUE" message
      then AppError.Conflict ("User '" +:+ username +:+ "' already exists")
      else AppError.Database e
  | _ => AppError.Database e
  end.

Definition create_user (username : string) (email : option string) (password : string) :
    M (AppResult User.t) :=
  id ← now_v7;
  password_hash ←? hash_password password;
  _ ←? with_err (create_user_error username)
         (execute (insert_user id username email password_hash));
  u ←? get_user_by_username username;
  mret (ok_or u (AppError.Internal "User created but not found")).

Definition reset_password (username new_password : string) : M (AppResult unit) :=
  hash ←? hash_password new_password;
  rows ←? sql_try (update_password_hash hash username);
  mret (if decide (rows = 0)
        then Err (AppError.Internal ("User '" +:+ username +:+ "' not found"))
        else Ok tt).

(** By username first, then by email; the password of the account found. *)
Definition verify_user (username password : string) : M (AppResult (option User.t)) :=
  by_name ←? get_user_by_username username;
  by_email ←? match by_name with
              | Some u => mret (Ok (Some u))
              | None => get_user_by_email username
              end;
  mret (match by_email with
        | None => Ok None
        | Some user =>
            match verify_password password (User.password_hash user) with
            | Ok true => Ok (Some user)
            | Ok false => Ok None
            | Err e => Err e
            end
        end).
End users.
End Users.
