(* ===== verification/DbCalendars.v ===== *)
(** * Calendars ([src/db/calendars.rs]) *)
From Stdlib Require Import ZArith.
From S2P Require Import Prelude RustStr Effects Models Db.
From stdpp Require Import options.

Module Calendars.
Section calendars.
Context `{Sqlite, Uuids}.

(** *** Statements *)

(** INSERT INTO calendars (id, owner_id, name, description, color, timezone, ctag,
    sync_token) VALUES (?, ?, ?, ?, ?, ?, ?, ?) *)
Definition insert_calendar
    (id owner_id name description color timezone ctag sync_token : string) : Stmt unit :=
  λ n d,
    if bool_decide (id ∈ Db.calendar_ids d) then (Err (unique_failed "calendars.id"), d)
    else if bool_decide (owner_id ∈ Db.user_ids d) then
      (Ok tt, Db.set_calendars
                (λ l, l ++ [Calendar.mk id owner_id name description color timezone ctag
                              sync_token (datetime_now n) (datetime_now n)]) d)
    else (Err foreign_key_failed, d).

(** SELECT * FROM calendars WHERE id = ? *)
Definition select_by_id (id : string) : Stmt (list Calendar.t) :=
  select (λ d, bfilter (λ c, bool_decide (Calendar.id c = id)) (Db.calendars d)).

(** SELECT * FROM calendars WHERE owner_id = ? ORDER BY name *)
Definition select_for_owner (owner_id : string) : Stmt (list Calendar.t) :=
  select_ordered (λ c, Some (Calendar.name c))
    (λ d, bfilter (λ c, bool_decide (Calendar.owner_id c = owner_id)) (Db.calendars d)).

(** The calendars that [user_id] owns, then those joined with a share of [user_id]. *)
Definition owned_rows (user_id : string) (d : Db.t) : list Calendar.t :=
  bfilter (λ c, bool_decide (Calendar.owner_id c = user_id)) (Db.calendars d).

Definition shared_rows (user_id : string) (d : Db.t) : list Calendar.t :=
  c ← Db.calendars d;
  s ← Db.calendar_shares d;
  if bool_decide (CalendarShare.calendar_id s = Calendar.id c ∧
                  CalendarShare.user_id s = user_id)
  then [c] else [].

(** SELECT c.* ... WHERE c.owner_id = ? UNION SELECT c.* ... INNER JOIN calendar_shares
    ... WHERE cs.user_id = ? ORDER BY name: UNION gives each distinct row once. *)
Definition select_for_user (user_id : string) : Stmt (list Calendar.t) :=
  select_ordered (λ c, Some (Calendar.name c))
    (λ d, remove_dups (owned_rows user_id d ++ shared_rows user_id d)).

(** UPDATE calendars SET name = ?, description = ?, color = ?, timezone = ?,
    updated_at = datetime('now') WHERE id = ? *)
Definition update_properties (name description color timezone id : string) : Stmt unit :=
  λ n d, (Ok tt, Db.set_calendars (fmap (λ c,
    if decide (Calendar.id c = id)
    then Calendar.mk (Calendar.id c) (Calendar.owner_id c) name description color timezone
           (Calendar.ctag c) (Calendar.sync_token c) (Calendar.created_at c) (datetime_now n)
    else c)) d).

(** UPDATE calendars SET ctag = ?, sync_token = ?, updated_at = datetime('now')
    WHERE id = ? *)
Definition update_tokens (ctag sync_token id : string) : Stmt unit :=
  λ n d, (Ok tt, Db.set_calendars (fmap (λ c,
    if decide (Calendar.id c = id)
    then Calendar.mk (Calendar.id c) (Calendar.owner_id c) (Calendar.name c)
           (Calendar.description c) (Calendar.color c) (Calendar.timezone c)
           ctag sync_token (Calendar.created_at c) (datetime_now n)
    else c)) d).

(** The ON DELETE CASCADE of a calendar: it goes with its objects, shares and changes. *)
Definition without_calendar (id : string) (d : Db.t) : Db.t :=
  Db.set_changes (bfilter (λ c, bool_decide (SyncChange.calendar_id c ≠ id)))
  (Db.set_shares (bfilter (λ s, bool_decide (CalendarShare.calendar_id s ≠ id)))
  (Db.set_objects (bfilter (λ o, bool_decide (CalendarObject.calendar_id o ≠ id)))
  (Db.set_calendars (bfilter (λ c, bool_decide (Calendar.id c ≠ id))) d))).

(** DELETE FROM calendars WHERE id = ?, giving the number of rows deleted. *)
Definition delete_by_id (id : string) : Stmt nat :=
  λ _ d,
    let rows := length (bfilter (λ c, bool_decide (Calendar.id c = id)) (Db.calendars d)) in
    (Ok rows, if decide (rows = 0) then d else without_calendar id d).

(** *** Functions *)

Definition sync_token_of_uuid (uuid : string) : string := "data:,sync-" +:+ uuid.

Definition new_sync_token : M string :=
  uuid ← now_v7; mret (sync_token_of_uuid uuid).

Definition get_calendar_by_id (id : string) : M (AppResult (option Calendar.t)) :=
  sql_try (fetch_optional (select_by_id id)).

Definition create_calendar_with_id
    (id owner_id name description color timezone : string) : M (AppResult Calendar.t) :=
  sync_token ← new_sync_token;
  _ ←? sql_try (insert_calendar id owner_id name description color timezone
                  sync_token sync_token);
  cal ←? get_calendar_by_id id;
  mret (ok_or cal (AppError.Internal "Calendar created but not found")).

Definition create_calendar (owner_id name description color timezone : string) :
    M (AppResult Calendar.t) :=
  id ← now_v7;
  create_calendar_with_id id owner_id name description color timezone.

Definition list_calendars_for_owner (owner_id : string) : M (AppResult (list Calendar.t)) :=
  sql_try (select_for_owner owner_id).

Definition list_calendars_for_user (user_id : string) : M (AppResult (list Calendar.t)) :=
  sql_try (select_for_user user_id).

Definition update_calendar (id : string) (name description color timezone : option string) :
    M (AppResult Calendar.t) :=
  found ←? get_calendar_by_id id;
  cal ←? mret (ok_or found (AppError.NotFound ("Calendar " +:+ id +:+ " not found")));
  let name := default (Calendar.name cal) name in
  let description := default (Calendar.description cal) description in
  let color := default (Calendar.color cal) color in
  let timezone := default (Calendar.timezone cal) timezone in
  _ ←? sql_try (update_properties name description color timezone id);
  updated ←? get_calendar_by_id id;
  mret (ok_or updated (AppError.Internal "Calendar updated but not found")).

Definition delete_calendar (id : string) : M (AppResult unit) :=
  rows ←? sql_try (delete_by_id id);
  mret (if decide (rows = 0)
        then Err (AppError.NotFound ("Calendar " +:+ id +:+ " not found"))
        else Ok tt).

Definition bump_ctag (calendar_id : string) : M (AppResult string) :=
  new_token ← new_sync_token;
  _ ←? sql_try (update_tokens new_token new_token calendar_id);
  mret (Ok new_token).
End calendars.
End Calendars.
