(* ===== verification/DbEvents.v ===== *)
(** * Calendar objects and the sync log ([src/db/events.rs]) *)
From Stdlib Require Import ZArith.
From S2P Require Import Prelude RustStr Effects Models Db DbCalendars.
From stdpp Require Import options.

Module ObjectFields.
Record t : Type := mk {
  component_type : string;
  dtstart : option string;
  dtend : option string;
  summary : option string;
}.

#[global] Instance eq_dec : EqDecision t.
Proof. solve_decision. Defined.
End ObjectFields.

Module Events.
Section events.
Context `{Sqlite, Uuids}.

(** *** Statements *)

(** The row an INSERT INTO calendar_objects creates. *)
Definition new_object (n : N) (id calendar_id uid etag ical_data : string)
    (f : ObjectFields.t) : CalendarObject.t :=
  CalendarObject.mk id calendar_id uid etag ical_data (ObjectFields.component_type f)
    (ObjectFields.dtstart f) (ObjectFields.dtend f) (ObjectFields.summary f)
    (datetime_now n) (datetime_now n).

(** INSERT INTO calendar_objects (id, calendar_id, uid, etag, ical_data,
    component_type, dtstart, dtend, summary) VALUES (?, ?, ?, ?, ?, ?, ?, ?, ?) *)
Definition insert_object (id calendar_id uid etag ical_data : string)
    (f : ObjectFields.t) : Stmt unit :=
  λ n d,
    if bool_decide (id ∈ CalendarObject.id <$> Db.calendar_objects d) then
      (Err (unique_failed "calendar_objects.id"), d)
    else if bool_decide
              ((calendar_id, uid) ∈ CalendarObject.key <$> Db.calendar_objects d) then
      (Err (unique_failed "calendar_objects.calendar_id, calendar_objects.uid"), d)
    else if bool_decide (calendar_id ∈ Db.calendar_ids d) then
      (Ok tt,
       Db.set_objects (λ l, l ++ [new_object n id calendar_id uid etag ical_data f]) d)
    else (Err foreign_key_failed, d).

(** The WHERE clause [calendar_id = ? AND uid = ?]. *)
Definition is_object (calendar_id uid : string) (o : CalendarObject.t) : bool :=
  bool_decide (CalendarObject.key o = (calendar_id, uid)).

(** UPDATE calendar_objects SET etag = ?, ical_data = ?, component_type = ?,
    dtstart = ?, dtend = ?, summary = ?, updated_at = datetime('now')
    WHERE calendar_id = ? AND uid = ? *)
Definition updated_object (n : N) (etag ical_data : string) (f : ObjectFields.t)
    (o : CalendarObject.t) : CalendarObject.t :=
  CalendarObject.mk (CalendarObject.id o) (CalendarObject.calendar_id o)
    (CalendarObject.uid o) etag ical_data (ObjectFields.component_type f)
    (ObjectFields.dtstart f) (ObjectFields.dtend f) (ObjectFields.summary f)
    (CalendarObject.created_at o) (datetime_now n).

Definition update_object (calendar_id uid etag ical_data : string)
    (f : ObjectFields.t) : Stmt unit :=
  λ n d, (Ok tt, Db.set_objects (fmap (λ o,
    if is_object calendar_id uid o then updated_object n etag ical_data f o else o)) d).

(** SELECT * FROM calendar_objects WHERE calendar_id = ? AND uid = ? *)
Definition select_object (calendar_id uid : string) : Stmt (list CalendarObject.t) :=
  select (λ d, bfilter (is_object calendar_id uid) (Db.calendar_objects d)).

(** SELECT * FROM calendar_objects WHERE calendar_id = ? ORDER BY dtstart *)
Definition select_objects (calendar_id : string) : Stmt (list CalendarObject.t) :=
  select_ordered CalendarObject.dtstart (λ d,
    bfilter (λ o, bool_decide (CalendarObject.calendar_id o = calendar_id))
      (Db.calendar_objects d)).

(** SQL's [<] on TEXT columns: NULL compares as false. *)
Definition text_ltb (a b : option string) : bool :=
  match a, b with Some x, Some y => String.ltb x y | _, _ => false end.

(** ... AND dtstart IS NOT NULL AND dtend IS NOT NULL AND dtstart < ? AND dtend > ? *)
Definition in_range (calendar_id start end_ : string) (o : CalendarObject.t) : bool :=
  bool_decide (CalendarObject.calendar_id o = calendar_id) &&
  is_some_b (CalendarObject.dtstart o) && is_some_b (CalendarObject.dtend o) &&
  text_ltb (CalendarObject.dtstart o) (Some end_) &&
  text_ltb (Some start) (CalendarObject.dtend o).

Definition select_in_range (calendar_id start end_ : string) :
    Stmt (list CalendarObject.t) :=
  select_ordered CalendarObject.dtstart (λ d,
    bfilter (in_range calendar_id start end_) (Db.calendar_objects d)).

(** ... WHERE calendar_id = ? AND uid IN (?, ...) ORDER BY dtstart *)
Definition select_by_uids (calendar_id : string) (uids : list string) :
    Stmt (list CalendarObject.t) :=
  select_ordered CalendarObject.dtstart (λ d,
    bfilter (λ o, bool_decide (CalendarObject.calendar_id o = calendar_id ∧
                               CalendarObject.uid o ∈ uids))
      (Db.calendar_objects d)).

(** DELETE FROM calendar_objects WHERE calendar_id = ? AND uid = ? *)
Definition delete_by_uid (calendar_id uid : string) : Stmt nat :=
  λ _ d,
    (Ok (length (bfilter (is_object calendar_id uid) (Db.calendar_objects d))),
     Db.set_objects (bfilter (λ o, negb (is_object calendar_id uid o))) d).

(** INSERT INTO sync_changes (calendar_id, object_uid, change_type, sync_token)
    VALUES (?, ?, ?, ?): the id is one more than the largest ever given, and a
    counter at its limit fails the statement. *)
Definition insert_sync_change (calendar_id object_uid change_type sync_token : string) :
    Stmt unit :=
  λ n d,
    if bool_decide (change_type ∈ Db.change_types) then
      if bool_decide (Db.sync_seq d = 2 ^ 63 - 1)%Z then (Err database_full, d)
      else if bool_decide (calendar_id ∈ Db.calendar_ids d) then
        let id := (Db.sync_seq d + 1)%Z in
        (Ok tt,
         Db.set_seq id (Db.set_changes
           (λ l, l ++ [SyncChange.mk id calendar_id object_uid change_type sync_token
                         (datetime_now n)]) d))
      else (Err foreign_key_failed, d)
    else (Err (check_failed "change_type IN ('created', 'modified', 'deleted')"), d).

(** SELECT id FROM sync_changes WHERE calendar_id = ? AND sync_token = ? LIMIT 1 *)
Definition select_anchor (calendar_id sync_token : string) : Stmt (list SyncChange.t) :=
  select (λ d, bfilter (λ c, bool_decide (SyncChange.calendar_id c = calendar_id ∧
                                          SyncChange.sync_token c = sync_token))
                 (Db.sync_changes d)).

(** The [WHERE calendar_id = ? [AND id > ?] ORDER BY id] of the two log queries. *)
Definition change_le (a b : SyncChange.t) : Prop := (SyncChange.id a ≤ SyncChange.id b)%Z.

#[global] Instance change_le_dec : RelDecision change_le.
Proof. intros a b. apply Z.le_dec. Defined.

Definition select_changes (calendar_id : string) (after : option Z) :
    Stmt (list SyncChange.t) :=
  λ n d,
    (Ok (merge_sort change_le (sql_scan n
       (bfilter (λ c, bool_decide (SyncChange.calendar_id c = calendar_id) &&
                      match after with
                      | Some a => (a <? SyncChange.id c)%Z
                      | None => true
                      end)
          (Db.sync_changes d)))), d).

(** *** Functions *)

Definition etag_of_uuid (uuid : string) : string := String DQ (uuid +:+ String DQ "").

Definition new_etag : M string := uuid ← new_v4; mret (etag_of_uuid uuid).

Definition get_object_by_uid (calendar_id uid : string) :
    M (AppResult (option CalendarObject.t)) :=
  sql_try (fetch_optional (select_object calendar_id uid)).

Definition log_sync_change (calendar_id object_uid change_type sync_token : string) :
    M (AppResult unit) :=
  sql_try (insert_sync_change calendar_id object_uid change_type sync_token).

Definition upsert_object (calendar_id uid ical_data : string) (fields : ObjectFields.t) :
    M (AppResult (CalendarObject.t * bool)) :=
  existing ←? get_object_by_uid calendar_id uid;
  let is_new := is_none existing in
  etag ← new_etag;
  new_sync_token ← Calendars.new_sync_token;
  _ ←? (if is_new : bool then
          id ← now_v7;
          _ ←? sql_try (insert_object id calendar_id uid etag ical_data fields);
          log_sync_change calendar_id uid "created" new_sync_token
        else
          _ ←? sql_try (update_object calendar_id uid etag ical_data fields);
          log_sync_change calendar_id uid "modified" new_sync_token);
  _ ←? Calendars.bump_ctag calendar_id;
  obj ←? get_object_by_uid calendar_id uid;
  mret (match obj with
        | Some obj => Ok (obj, is_new)
        | None => Err (AppError.Internal "Object upserted but not found")
        end).

Definition list_objects (calendar_id : string) : M (AppResult (list CalendarObject.t)) :=
  sql_try (select_objects calendar_id).

Definition list_objects_in_range (calendar_id start end_ : string) :
    M (AppResult (list CalendarObject.t)) :=
  sql_try (select_in_range calendar_id start end_).

Definition get_objects_by_uids (calendar_id : string) (uids : list string) :
    M (AppResult (list CalendarObject.t)) :=
  match uids with
  | [] => mret (Ok [])
  | _ => sql_try (select_by_uids calendar_id uids)
  end.

Definition delete_object (calendar_id uid : string) : M (AppResult unit) :=
  rows ←? sql_try (delete_by_uid calendar_id uid);
  if decide (rows = 0) then
    mret (Err (AppError.NotFound
      ("Object with UID '" +:+ uid +:+ "' not found in calendar")))
  else
    new_sync_token ← Calendars.new_sync_token;
    _ ←? log_sync_change calendar_id uid "deleted" new_sync_token;
    _ ←? Calendars.bump_ctag calendar_id;
    mret (Ok tt).

Definition get_sync_changes_since (calendar_id since_token : string) :
    M (AppResult (list SyncChange.t)) :=
  anchor ←? sql_try (fetch_optional (select_anchor calendar_id since_token));
  match anchor with
  | Some c => sql_try (select_changes calendar_id (Some (SyncChange.id c)))
  | None => sql_try (select_changes calendar_id None)
  end.
End events.
End Events.
