(* ===== verification/DbShares.v ===== *)
(** * Calendar sharing ([src/db/shares.rs]) *)
From Stdlib Require Import ZArith.
From S2P Require Import Prelude RustStr Effects Models Db DbCalendars.
From stdpp Require Import options.

Module Shares.
Section shares.
Context `{Sqlite, Uuids}.

(** *** Statements *)

(** The WHERE clause [calendar_id = ? AND user_id = ?]. *)
Definition is_share (calendar_id user_id : string) (s : CalendarShare.t) : bool :=
  bool_decide (CalendarShare.key s = (calendar_id, user_id)).

(** INSERT INTO calendar_shares (id, calendar_id, user_id, permission) VALUES (?, ?, ?, ?)
    ON CONFLICT(calendar_id, user_id) DO UPDATE SET permission = excluded.permission *)
Definition upsert_share (id calendar_id user_id permission : string) : Stmt unit :=
  λ n d,
    if bool_decide (permission ∈ Db.permissions) then
      if bool_decide
           ((calendar_id, user_id) ∈ CalendarShare.key <$> Db.calendar_shares d) then
        (Ok tt, Db.set_shares (fmap (λ s,
           if is_share calendar_id user_id s
           then CalendarShare.mk (CalendarShare.id s) (CalendarShare.calendar_id s)
                  (CalendarShare.user_id s) permission (CalendarShare.created_at s)
           else s)) d)
      else if bool_decide (id ∈ CalendarShare.id <$> Db.calendar_shares d) then
        (Err (unique_failed "calendar_shares.id"), d)
      else if bool_decide (calendar_id ∈ Db.calendar_ids d ∧ user_id ∈ Db.user_ids d) then
        (Ok tt, Db.set_shares
           (λ l, l ++ [CalendarShare.mk id calendar_id user_id permission (datetime_now n)]) d)
      else (Err foreign_key_failed, d)
    else (Err (check_failed "permission IN ('read', 'read-write')"), d).

(** SELECT * FROM calendar_shares WHERE calendar_id = ? AND user_id = ? *)
Definition select_share (calendar_id user_id : string) : Stmt (list CalendarShare.t) :=
  select (λ d, bfilter (is_share calendar_id user_id) (Db.calendar_shares d)).

(** DELETE FROM calendar_shares WHERE calendar_id = ? AND user_id = ? *)
Definition delete_share (calendar_id user_id : string) : Stmt nat :=
  λ _ d,
    (Ok (length (bfilter (is_share calendar_id user_id) (Db.calendar_shares d))),
     Db.set_shares (bfilter (λ s, negb (is_share calendar_id user_id s))) d).

(** SELECT * FROM calendar_shares WHERE calendar_id = ? *)
Definition select_for_calendar (calendar_id : string) : Stmt (list CalendarShare.t) :=
  select (λ d, bfilter (λ s, bool_decide (CalendarShare.calendar_id s = calendar_id))
                 (Db.calendar_shares d)).

(** SELECT * FROM calendar_shares WHERE user_id = ? *)
Definition select_for_user (user_id : string) : Stmt (list CalendarShare.t) :=
  select (λ d, bfilter (λ s, bool_decide (CalendarShare.user_id s = user_id))
                 (Db.calendar_shares d)).

(** SELECT id FROM calendars WHERE id = ? AND owner_id = ? *)
Definition select_owned (calendar_id user_id : string) : Stmt (list string) :=
  select (λ d, Calendar.id <$>
    bfilter (λ c, bool_decide (Calendar.id c = calendar_id ∧ Calendar.owner_id c = user_id))
      (Db.calendars d)).

(** *** Functions *)

Definition share_calendar (calendar_id user_id : string) (permission : Permission.t) :
    M (AppResult CalendarShare.t) :=
  id ← now_v7;
  _ ←? sql_try (upsert_share id calendar_id user_id (Permission.as_str permission));
  sql_try (fetch_one (select_share calendar_id user_id)).

Definition unshare_calendar (calendar_id user_id : string) : M (AppResult unit) :=
  rows ←? sql_try (delete_share calendar_id user_id);
  mret (if decide (rows = 0) then Err (AppError.NotFound "Share not found") else Ok tt).

Definition list_shares_for_calendar (calendar_id : string) :
    M (AppResult (list CalendarShare.t)) :=
  sql_try (select_for_calendar calendar_id).

(** The loop that pairs each share with its calendar; shares whose calendar is gone
    or whose permission does not parse are left out. *)
Fixpoint resolve_shares (shares : list CalendarShare.t) :
    M (AppResult (list (Calendar.t * Permission.t))) :=
  match shares with
  | [] => mret (Ok [])
  | share :: rest =>
      found ←? Calendars.get_calendar_by_id (CalendarShare.calendar_id share);
      results ←? resolve_shares rest;
      mret (Ok (match found, Permission.from_str_value (CalendarShare.permission share) with
                | Some cal, Some perm => (cal, perm) :: results
                | _, _ => results
                end))
  end.

(** [results.sort_by(|a, b| a.0.name.cmp(&b.0.name))], which is stable. *)
Definition by_name (results : list (Calendar.t * Permission.t)) :
    list (Calendar.t * Permission.t) :=
  order_by (λ r, Some (Calendar.name r.1)) results.

Definition list_shared_calendars (user_id : string) :
    M (AppResult (list (Calendar.t * Permission.t))) :=
  shares ←? sql_try (select_for_user user_id);
  results ←? resolve_shares shares;
  mret (Ok (by_name results)).

Definition get_user_permission (calendar_id user_id : string) :
    M (AppResult (option Permission.t)) :=
  is_owner ←? sql_try (fetch_optional (select_owned calendar_id user_id));
  if is_some_b is_owner then mret (Ok (Some Permission.ReadWrite))
  else
    share ←? sql_try (fetch_optional (select_share calendar_id user_id));
    mret (Ok (share ≫= λ s, Permission.from_str_value (CalendarShare.permission s))).
End shares.
End Shares.
