(* ===== verification/DbTokens.v ===== *)
(** * MCP tokens ([src/db/tokens.rs])

    The 32 random bytes of a raw token, base64-encoded, are a draw ([Rng]). *)
From Stdlib Require Import ZArith.
From S2P Require Import Prelude RustStr Effects Models Db DbUsers.
From stdpp Require Import options.

Class Rng : Type := {
  (** [URL_SAFE_NO_PAD.encode] of the 32 bytes drawn at this step. *)
  random_base64 : N → string;
}.

Module Tokens.
Section tokens.
Context `{Sqlite, Uuids, Argon2, Rng}.

(** *** Statements *)

(** INSERT INTO mcp_tokens (id, user_id, token_hash, name) VALUES (?, ?, ?, ?) *)
Definition insert_token (id user_id token_hash name : string) : Stmt unit :=
  λ n d,
    if bool_decide (id ∈ McpToken.id <$> Db.mcp_tokens d) then
      (Err (unique_failed "mcp_tokens.id"), d)
    else if bool_decide (user_id ∈ Db.user_ids d) then
      (Ok tt, Db.set_tokens
         (λ l, l ++ [McpToken.mk id user_id token_hash name (datetime_now n) None]) d)
    else (Err foreign_key_failed, d).

(** SELECT * FROM mcp_tokens WHERE id = ? *)
Definition select_by_id (id : string) : Stmt (list McpToken.t) :=
  select (λ d, bfilter (λ k, bool_decide (McpToken.id k = id)) (Db.mcp_tokens d)).

(** The clause [expires_at IS NULL OR expires_at > datetime('now')], a comparison of
    texts. *)
Definition unexpired (now : string) (k : McpToken.t) : bool :=
  match McpToken.expires_at k with
  | None => true
  | Some e => String.ltb now e
  end.

(** SELECT * FROM mcp_tokens WHERE expires_at IS NULL OR expires_at > datetime('now') *)
Definition select_unexpired : Stmt (list McpToken.t) :=
  λ n d, (Ok (sql_scan n (bfilter (unexpired (datetime_now n)) (Db.mcp_tokens d))), d).

(** DELETE FROM mcp_tokens WHERE id = ? *)
Definition delete_by_id (id : string) : Stmt nat :=
  λ _ d,
    (Ok (length (bfilter (λ k, bool_decide (McpToken.id k = id)) (Db.mcp_tokens d))),
     Db.set_tokens (bfilter (λ k, bool_decide (McpToken.id k ≠ id))) d).

(** SELECT * FROM mcp_tokens WHERE user_id = ? ORDER BY created_at *)
Definition select_for_user (user_id : string) : Stmt (list McpToken.t) :=
  select_ordered (λ k, Some (McpToken.created_at k))
    (λ d, bfilter (λ k, bool_decide (McpToken.user_id k = user_id)) (Db.mcp_tokens d)).

(** *** Functions *)

Definition generate_raw_token : M string :=
  observe (λ n _, "mcp_" +:+ random_base64 n).

Definition hash_token (token : string) : M (AppResult string) :=
  observe (λ n _,
    map_err (λ e, AppError.Internal ("Token hashing failed: " +:+ e)) (argon2_hash n token)).

Definition verify_token (token hash : string) : AppResult bool :=
  match phc_error hash with
  | Some e => Err (AppError.Internal ("Invalid token hash: " +:+ e))
  | None => Ok (argon2_verify token hash)
  end.

Definition create_token (user_id name : string) : M (AppResult (string * McpToken.t)) :=
  id ← now_v7;
  raw_token ← generate_raw_token;
  token_hash ←? hash_token raw_token;
  _ ←? sql_try (insert_token id user_id token_hash name);
  record ←? sql_try (fetch_one (select_by_id id));
  mret (Ok (raw_token, record)).

(** The loop of [validate_token]: a hash that does not parse ends it with an error. *)
Fixpoint first_match (raw_token : string) (tokens : list McpToken.t) :
    AppResult (option string) :=
  match tokens with
  | [] => Ok None
  | token :: rest =>
      match verify_token raw_token (McpToken.token_hash token) with
      | Err e => Err e
      | Ok true => Ok (Some (McpToken.user_id token))
      | Ok false => first_match raw_token rest
      end
  end.

Definition validate_token (raw_token : string) : M (AppResult (option string)) :=
  tokens ←? sql_try select_unexpired;
  mret (first_match raw_token tokens).

Definition delete_token (token_id : string) : M (AppResult unit) :=
  rows ←? sql_try (delete_by_id token_id);
  mret (if decide (rows = 0) then Err (AppError.NotFound "Token not found") else Ok tt).

Definition list_tokens_for_user (user_id : string) : M (AppResult (list McpToken.t)) :=
  sql_try (select_for_user user_id).
End tokens.
End Tokens.
