(* ===== verification/Ical.v ===== *)
(** * iCalendar fields and text ([src/ical/parser.rs], [src/ical/builder.rs]) *)
From Stdlib Require Import ZArith.
From S2P Require Import Prelude RustStr Effects Models Db.
From stdpp Require Import options.
Set Default Proof Using "Type*".

(** [chrono::Utc::now()] at a step, in the format [%Y%m%dT%H%M%SZ]. *)
Class Chrono : Type := utc_now : N → string.

Module IcalFields.
Record t : Type := mk {
  uid : option string;
  dtstart : option string;
  dtend : option string;
  summary : option string;
  component_type : string;
}.

#[global] Instance eq_dec : EqDecision t.
Proof. solve_decision. Defined.
End IcalFields.

Module Parser.

(** The value of the property [name] on a line, "NAME:value" or "NAME;params:value". *)
Definition extract_property (line name : string) : option string :=
  match Str.strip_prefix name line with
  | None => None
  | Some rest =>
      match Str.strip_prefix ":" rest with
      | Some stripped => Some stripped
      | None =>
          if Str.starts_with ";" rest then snd <$> Str.split_once COLON rest
          else None
      end
  end.

(** The loop of [unfold_lines]: [result] and [current] so far. *)
Fixpoint unfold_loop (raw_lines : list string) (result : list string) (current : string) :
    list string :=
  match raw_lines with
  | [] => if Str.is_empty current then result else result ++ [current]
  | raw_line :: rest =>
      let line := Str.trim_end_matches (String CR "") raw_line in
      if Str.starts_with " " line || Str.starts_with (String TAB "") line then
        unfold_loop rest result
          (current +:+ match line with String _ tl => tl | "" => "" end)
      else
        unfold_loop rest (if Str.is_empty current then result else result ++ [current]) line
  end.

Definition unfold_lines (data : string) : list string := unfold_loop (Str.lines data) [] "".

(** The state of the loop of [extract_fields]: [in_component] and [fields]. *)
Definition extract_line (st : bool * IcalFields.t) (line : string) : bool * IcalFields.t :=
  let '(in_component, f) := st in
  let line := Str.trim line in
  let '(in_component, f) :=
    if Str.starts_with "BEGIN:VEVENT" line then
      (true, IcalFields.mk (IcalFields.uid f) (IcalFields.dtstart f) (IcalFields.dtend f)
               (IcalFields.summary f) "VEVENT")
    else if Str.starts_with "BEGIN:VTODO" line then
      (true, IcalFields.mk (IcalFields.uid f) (IcalFields.dtstart f) (IcalFields.dtend f)
               (IcalFields.summary f) "VTODO")
    else if Str.starts_with "END:VEVENT" line || Str.starts_with "END:VTODO" line then
      (false, f)
    else (in_component, f) in
  if negb in_component && negb (Str.starts_with "UID" line) then (in_component, f)
  else
    (in_component,
     match extract_property line "UID" with
     | Some v => IcalFields.mk (Some v) (IcalFields.dtstart f) (IcalFields.dtend f)
                   (IcalFields.summary f) (IcalFields.component_type f)
     | None =>
     match extract_property line "DTSTART" with
     | Some v => IcalFields.mk (IcalFields.uid f) (Some v) (IcalFields.dtend f)
                   (IcalFields.summary f) (IcalFields.component_type f)
     | None =>
     match extract_property line "DTEND" with
     | Some v => IcalFields.mk (IcalFields.uid f) (IcalFields.dtstart f) (Some v)
                   (IcalFields.summary f) (IcalFields.component_type f)
     | None =>
     match extract_property line "DUE" with
     | Some v =>
         if is_none (IcalFields.dtend f)
         then IcalFields.mk (IcalFields.uid f) (IcalFields.dtstart f) (Some v)
                (IcalFields.summary f) (IcalFields.component_type f)
         else f
     | None =>
     match extract_property line "SUMMARY" with
     | Some v => IcalFields.mk (IcalFields.uid f) (IcalFields.dtstart f) (IcalFields.dtend f)
                   (Some v) (IcalFields.component_type f)
     | None => f
     end end end end end).

Definition default_fields : IcalFields.t := IcalFields.mk None None None None "VEVENT".

Definition extract_fields (ical_data : string) : IcalFields.t :=
  (foldl extract_line (false, default_fields) (unfold_lines ical_data)).2.

End Parser.

Module Builder.

Definition vtimezone_std_offset (tz : string) : string :=
  let offset :=
    if decide (tz ∈ ["America/Los_Angeles"; "America/Vancouver"]) then "-0800"
    else if decide (tz ∈ ["America/Denver"; "America/Phoenix"]) then "-0700"
    else if decide (tz = "America/Chicago") then "-0600"
    else if decide (tz ∈ ["America/New_York"; "America/Toronto"]) then "-0500"
    else if decide (tz = "Europe/London") then "+0000"
    else if decide (tz ∈ ["Europe/Paris"; "Europe/Berlin"; "Europe/Rome"]) then "+0100"
    else if decide (tz = "Asia/Tokyo") then "+0900"
    else if decide (tz = "Australia/Sydney") then "+1100"
    else "+0000" in
  "TZOFFSETFROM:" +:+ offset.

Definition vtimezone_dst_offset (tz : string) : string :=
  let offset :=
    if decide (tz ∈ ["America/Los_Angeles"; "America/Vancouver"]) then "-0700"
    else if decide (tz = "America/Denver") then "-0600"
    else if decide (tz = "America/Chicago") then "-0500"
    else if decide (tz ∈ ["America/New_York"; "America/Toronto"]) then "-0400"
    else if decide (tz = "Europe/London") then "+0100"
    else if decide (tz ∈ ["Europe/Paris"; "Europe/Berlin"; "Europe/Rome"]) then "+0200"
    else if decide (tz ∈ ["Asia/Tokyo"; "America/Phoenix"]) then "+0900"
    else if decide (tz = "Australia/Sydney") then "+1100"
    else "+0000" in
  "TZOFFSETTO:" +:+ offset.

(** The VTIMEZONE component of [build_vevent]. *)
Definition vtimezone (tz : string) : list string :=
  [ "BEGIN:VTIMEZONE"; "TZID:" +:+ tz;
    "BEGIN:STANDARD"; "DTSTART:19671029T020000";
    "RRULE:FREQ=YEARLY;BYDAY=1SU;BYMONTH=11";
    vtimezone_std_offset tz; vtimezone_dst_offset tz; "END:STANDARD";
    "BEGIN:DAYLIGHT"; "DTSTART:20070311T020000";
    "RRULE:FREQ=YEARLY;BYDAY=2SU;BYMONTH=3";
    vtimezone_dst_offset tz; vtimezone_std_offset tz; "END:DAYLIGHT";
    "END:VTIMEZONE" ].

(** The lines of [build_vevent], [now] being the time it is called at. *)
Definition vevent_lines (now uid summary dtstart dtend : string)
    (description location timezone : option string) : list string :=
  ["BEGIN:VCALENDAR"; "VERSION:2.0"; "PRODID:-//CalDAV Server//EN"] ++
  match timezone with Some tz => vtimezone tz | None => [] end ++
  ["BEGIN:VEVENT"; "UID:" +:+ uid; "DTSTAMP:" +:+ now] ++
  match timezone with
  | Some tz => ["DTSTART;TZID=" +:+ tz +:+ ":" +:+ dtstart;
                "DTEND;TZID=" +:+ tz +:+ ":" +:+ dtend]
  | None => ["DTSTART:" +:+ dtstart; "DTEND:" +:+ dtend]
  end ++
  ["SUMMARY:" +:+ summary] ++
  match description with Some desc => ["DESCRIPTION:" +:+ desc] | None => [] end ++
  match location with Some loc => ["LOCATION:" +:+ loc] | None => [] end ++
  ["END:VEVENT"; "END:VCALENDAR"].

Definition build_vevent (now uid summary dtstart dtend : string)
    (description location timezone : option string) : string :=
  Str.join CRLF (vevent_lines now uid summary dtstart dtend description location timezone)
    +:+ CRLF.

(** [generate_uid], with the drawn UUID. *)
Definition generate_uid `{Uuids} : M string :=
  uuid ← new_v4; mret (uuid +:+ "@caldav-server").

End Builder.
