(* ===== verification/Http.v ===== *)
(** * HTTP requests and responses

    What the handlers see of [axum] and [http]: a request is its method, its
    headers and its body; a response is a status, headers and a body, or a panic of
    the handler where the source unwraps a [Response::builder] that was given an
    invalid header value ([src/error.rs] and the handlers of [src/caldav/]). *)
From Stdlib Require Import Ascii NArith ZArith.
From S2P Require Import Prelude RustStr Models Effects Db.
From stdpp Require Import options.

(** A request body: its bytes, or a stream that fails while it is read. *)
Inductive Body : Type :=
| BodyBytes (bytes : string)
| BodyFailed.

(** [axum::body::to_bytes]: the whole body if it is readable and at most [limit]
    bytes long. *)
Definition to_bytes (limit : Z) (b : Body) : option string :=
  match b with
  | BodyBytes s => if (Z.of_nat (String.length s) <=? limit)%Z then Some s else None
  | BodyFailed => None
  end.

(** [.unwrap_or_default()]. *)
Definition to_bytes_or_empty (limit : Z) (b : Body) : string := default "" (to_bytes limit b).

Module Request.
Record t : Type := mk {
  method : string;
  (** names in lower case; [None] for a value that is not visible ASCII text *)
  headers : list (string * option string);
  body : Body;
}.

(** [headers().get(name).and_then(|v| v.to_str().ok())]: the first value. *)
Definition header (name : string) (r : t) : option string :=
  head (bfilter (λ h, bool_decide (h.1 = name)) (headers r)) ≫= snd.

(** Is the header there at all? *)
Definition has_header (name : string) (r : t) : bool :=
  existsb (λ h, bool_decide (h.1 = name)) (headers r).
End Request.

Module Response.
Record t : Type := mk {
  status : Z;
  headers : list (string * string);
  body : string;
}.

#[global] Instance eq_dec : EqDecision t.
Proof. solve_decision. Defined.
End Response.

(** How a handler ends. *)
Inductive Reply : Type :=
| Respond (r : Response.t)
| Panicked.

#[global] Instance Reply_eq_dec : EqDecision Reply.
Proof. solve_decision. Defined.

(** [HeaderValue::try_from]: no control characters but the tab. *)
Definition valid_header_byte (c : ascii) : bool :=
  let n := N_of_ascii c in
  ((32 <=? n)%N && negb (n =? 127)%N) || (n =? 9)%N.

Fixpoint valid_header_value (s : string) : bool :=
  match s with
  | "" => true
  | String c s' => valid_header_byte c && valid_header_value s'
  end.

(** [Response::builder().status(..).header(..)...body(..).unwrap()]. *)
Definition build (status : Z) (headers : list (string * string)) (body : string) : Reply :=
  if forallb (λ h, valid_header_value h.2) headers
  then Respond (Response.mk status headers body)
  else Panicked.

(** [(status, text).into_response()]. *)
Definition text (status : Z) (body : string) : Reply :=
  Respond (Response.mk status [("content-type", "text/plain; charset=utf-8")] body).

(** [impl IntoResponse for AppError]. *)
Definition error_response `{Sqlite} (e : AppError.t) : Reply :=
  text (AppError.status e) (AppError.display sqlx_display e).

(** Buffers a response body again, under a limit: a larger one becomes empty. *)
Definition rebuffer (limit : Z) (r : Reply) : Reply :=
  match r with
  | Respond r =>
      Respond (Response.mk (Response.status r) (Response.headers r)
                 (to_bytes_or_empty limit (BodyBytes (Response.body r))))
  | Panicked => Panicked
  end.

(** What a client sees. *)
Definition status_of (r : Reply) : option Z :=
  match r with Respond r => Some (Response.status r) | Panicked => None end.

Definition response_header (name : string) (r : Reply) : option string :=
  match r with
  | Respond r => snd <$> head (bfilter (λ h, bool_decide (h.1 = name)) (Response.headers r))
  | Panicked => None
  end.
