(* ===== verification/Xml.v ===== *)
(** * WebDAV request bodies and multistatus documents
    ([src/caldav/xml/mod.rs], [parse.rs], [multistatus.rs])

    The XML reader and writer of [quick_xml] are parameters: the reader gives the
    sequence of events of a body, up to its end or its first error, and the writer
    turns a sequence of write operations into bytes.  Everything the sources do with
    the events and the operations is modelled. *)
From Stdlib Require Import Ascii ZArith.
From S2P Require Import Prelude RustStr Models.
From stdpp Require Import options.
Set Default Proof Using "Type*".

Definition DAV_NS : string := "DAV:".
Definition CALDAV_NS : string := "urn:ietf:params:xml:ns:caldav".
Definition APPLE_NS : string := "http://apple.com/ns/ical/".
Definition CS_NS : string := "http://calendarserver.org/ns/".

(** [quick_xml::events::BytesStart]: the qualified name, the local name, and the
    attributes that parse, with their raw keys and values. *)
Module BytesStart.
Record t : Type := mk {
  name : string;
  local_name : string;
  attributes : list (string * string);
}.
End BytesStart.

(** [quick_xml::events::Event], as far as the sources tell events apart: a text event
    carries the result of [unescape().unwrap_or_default()]. *)
Inductive Event : Type :=
| EvStart (e : BytesStart.t)
| EvEmpty (e : BytesStart.t)
| EvEnd (local_name : string)
| EvText (unescaped : string)
| EvOther
| EvError.

(** The operations of [quick_xml::Writer] that the sources use; [WRaw] writes bytes
    into the underlying buffer. *)
Inductive WriteOp : Type :=
| WDecl
| WStart (name : string) (attributes : list (string * string))
| WText (text : string)
| WEnd (name : string)
| WEmpty (name : string)
| WRaw (bytes : string).

#[global] Instance WriteOp_eq_dec : EqDecision WriteOp.
Proof. solve_decision. Defined.

Class QuickXml : Type := {
  (** the events of a body, with [trim_text(true)]; [Eof] is the end of the list *)
  xml_read : string → list Event;
  xml_write : list WriteOp → string;
}.

Module PropRequest.
Record t : Type := mk { namespace : string; local_name : string }.

#[global] Instance eq_dec : EqDecision t.
Proof. solve_decision. Defined.
End PropRequest.

Inductive PropfindRequest : Type :=
| AllProp
| PropName
| Props (requested : list PropRequest.t).

#[global] Instance PropfindRequest_eq_dec : EqDecision PropfindRequest.
Proof. solve_decision. Defined.

Inductive ReportRequest : Type :=
| CalendarMultiget (props : list PropRequest.t) (hrefs : list string)
| CalendarQuery (props : list PropRequest.t) (time_range : option (string * string))
| SyncCollection (props : list PropRequest.t) (sync_token : string).

#[global] Instance ReportRequest_eq_dec : EqDecision ReportRequest.
Proof. solve_decision. Defined.

Module NsContext.

(** Prefix to namespace; the empty prefix is the default namespace. *)
Definition t : Type := gmap string string.

Definition new : t := ∅.

Definition register_attribute (m : t) (attr : string * string) : t :=
  let key := Str.from_utf8_lossy attr.1 in
  let value := Str.from_utf8_lossy attr.2 in
  if decide (key = "xmlns") then <["" := value]> m
  else match Str.strip_prefix "xmlns:" key with
       | Some prefix => <[prefix := value]> m
       | None => m
       end.

Definition register_from_event (m : t) (e : BytesStart.t) : t :=
  foldl register_attribute m (BytesStart.attributes e).

(** The well-known prefixes. *)
Definition fallback (prefix : string) : string :=
  if decide (prefix ∈ ["D"; "d"]) then DAV_NS
  else if decide (prefix ∈ ["C"; "c"; "cal"]) then CALDAV_NS
  else if decide (prefix ∈ ["A"; "IC"]) then APPLE_NS
  else if decide (prefix ∈ ["CS"; "cs"]) then CS_NS
  else DAV_NS.

Definition resolve (m : t) (e : BytesStart.t) : string :=
  match head (bfilter (λ a, bool_decide (Str.from_utf8_lossy a.1 = "xmlns"))
                (BytesStart.attributes e)) with
  | Some a => Str.from_utf8_lossy a.2
  | None =>
      match Str.split_once COLON (Str.from_utf8_lossy (BytesStart.name e)) with
      | Some (prefix, _) => default (fallback prefix) (m !! prefix)
      | None => default DAV_NS (m !! "")
      end
  end.
End NsContext.

Module Parse.

(** *** PROPFIND *)

(** The variables of the loop of [parse_propfind]. *)
Record PropfindState : Type := mkPropfindState {
  pf_ns : NsContext.t;
  pf_in_prop : bool;
  pf_props : list PropRequest.t;
}.

(** After the loop. *)
Definition propfind_end (st : PropfindState) : PropfindRequest :=
  match pf_props st with [] => AllProp | ps => Props ps end.

Fixpoint propfind_loop (st : PropfindState) (events : list Event) : PropfindRequest :=
  match events with
  | [] => propfind_end st
  | ev :: rest =>
      match ev with
      | EvStart e | EvEmpty e =>
          let ns_ctx := NsContext.register_from_event (pf_ns st) e in
          let local := Str.from_utf8_lossy (BytesStart.local_name e) in
          if decide (local = "allprop") then AllProp
          else if decide (local = "propname") then PropName
          else if decide (local = "prop") then
            propfind_loop (mkPropfindState ns_ctx true (pf_props st)) rest
          else if pf_in_prop st then
            propfind_loop
              (mkPropfindState ns_ctx (pf_in_prop st)
                 (pf_props st ++ [PropRequest.mk (NsContext.resolve ns_ctx e) local])) rest
          else propfind_loop (mkPropfindState ns_ctx (pf_in_prop st) (pf_props st)) rest
      | EvEnd name =>
          let local := Str.from_utf8_lossy name in
          propfind_loop
            (mkPropfindState (pf_ns st)
               (if decide (local = "prop") then false else pf_in_prop st) (pf_props st)) rest
      | EvError => AllProp
      | EvText _ | EvOther => propfind_loop st rest
      end
  end.

Definition parse_propfind `{QuickXml} (body : string) : PropfindRequest :=
  if Str.is_empty body then AllProp
  else propfind_loop (mkPropfindState NsContext.new false []) (xml_read body).

(** *** REPORT *)

(** The variables of the loop of [parse_report] ([_in_filter] is never read). *)
Record ReportState : Type := mkReportState {
  rp_ns : NsContext.t;
  rp_type : option string;
  rp_in_prop : bool;
  rp_props : list PropRequest.t;
  rp_hrefs : list string;
  rp_start : string;
  rp_end : string;
  rp_sync_token : string;
  rp_in_sync_token : bool;
  rp_in_href : bool;
}.

Definition report_init : ReportState :=
  mkReportState NsContext.new None false [] [] "" "" "" false false.

Definition set_ns ns st := mkReportState ns (rp_type st) (rp_in_prop st) (rp_props st)
  (rp_hrefs st) (rp_start st) (rp_end st) (rp_sync_token st) (rp_in_sync_token st) (rp_in_href st).
Definition set_type t st := mkReportState (rp_ns st) (Some t) (rp_in_prop st) (rp_props st)
  (rp_hrefs st) (rp_start st) (rp_end st) (rp_sync_token st) (rp_in_sync_token st) (rp_in_href st).
Definition set_in_prop b st := mkReportState (rp_ns st) (rp_type st) b (rp_props st)
  (rp_hrefs st) (rp_start st) (rp_end st) (rp_sync_token st) (rp_in_sync_token st) (rp_in_href st).
Definition push_prop p st := mkReportState (rp_ns st) (rp_type st) (rp_in_prop st)
  (rp_props st ++ [p]) (rp_hrefs st) (rp_start st) (rp_end st) (rp_sync_token st)
  (rp_in_sync_token st) (rp_in_href st).
Definition push_href h st := mkReportState (rp_ns st) (rp_type st) (rp_in_prop st)
  (rp_props st) (rp_hrefs st ++ [h]) (rp_start st) (rp_end st) (rp_sync_token st)
  (rp_in_sync_token st) (rp_in_href st).
Definition set_times s e st := mkReportState (rp_ns st) (rp_type st) (rp_in_prop st)
  (rp_props st) (rp_hrefs st) s e (rp_sync_token st) (rp_in_sync_token st) (rp_in_href st).
Definition set_sync_token t st := mkReportState (rp_ns st) (rp_type st) (rp_in_prop st)
  (rp_props st) (rp_hrefs st) (rp_start st) (rp_end st) t (rp_in_sync_token st) (rp_in_href st).
Definition set_in_sync_token b st := mkReportState (rp_ns st) (rp_type st) (rp_in_prop st)
  (rp_props st) (rp_hrefs st) (rp_start st) (rp_end st) (rp_sync_token st) b (rp_in_href st).
Definition set_in_href b st := mkReportState (rp_ns st) (rp_type st) (rp_in_prop st)
  (rp_props st) (rp_hrefs st) (rp_start st) (rp_end st) (rp_sync_token st)
  (rp_in_sync_token st) b.

(** The attributes of a [time-range] element. *)
Definition time_attribute (st : ReportState) (attr : string * string) : ReportState :=
  let key := Str.from_utf8_lossy attr.1 in
  let val := Str.from_utf8_lossy attr.2 in
  if decide (key = "start") then set_times val (rp_end st) st
  else if decide (key = "end") then set_times (rp_start st) val st
  else st.

(** A start tag or an empty element. *)
Definition report_start (st : ReportState) (e : BytesStart.t) : ReportState :=
  let st := set_ns (NsContext.register_from_event (rp_ns st) e) st in
  let local := Str.from_utf8_lossy (BytesStart.local_name e) in
  if decide (local = "calendar-multiget") then set_type "multiget" st
  else if decide (local = "calendar-query") then set_type "query" st
  else if decide (local = "sync-collection") then set_type "sync" st
  else if decide (local = "prop") then set_in_prop true st
  else if decide (local ∈ ["filter"; "comp-filter"]) then st
  else if decide (local = "href") then set_in_href true st
  else if decide (local = "sync-token") then set_in_sync_token true st
  else if decide (local = "time-range") then
    foldl time_attribute st (BytesStart.attributes e)
  else if rp_in_prop st then
    push_prop (PropRequest.mk (NsContext.resolve (rp_ns st) e) local) st
  else st.

Definition report_end (st : ReportState) (name : string) : ReportState :=
  let local := Str.from_utf8_lossy name in
  if decide (local = "prop") then set_in_prop false st
  else if decide (local = "href") then set_in_href false st
  else if decide (local = "sync-token") then set_in_sync_token false st
  else st.

Definition report_text (st : ReportState) (text : string) : ReportState :=
  if rp_in_href st then push_href text st
  else if rp_in_sync_token st then set_sync_token text st
  else st.

(** The loop; [None] when the reader fails. *)
Fixpoint report_loop (st : ReportState) (events : list Event) : option ReportState :=
  match events with
  | [] => Some st
  | EvStart e :: rest | EvEmpty e :: rest => report_loop (report_start st e) rest
  | EvEnd name :: rest => report_loop (report_end st name) rest
  | EvText t :: rest => report_loop (report_text st t) rest
  | EvOther :: rest => report_loop st rest
  | EvError :: _ => None
  end.

(** After the loop. *)
Definition report_result (st : ReportState) : option ReportRequest :=
  match rp_type st with
  | Some t =>
      if decide (t = "multiget") then Some (CalendarMultiget (rp_props st) (rp_hrefs st))
      else if decide (t = "query") then
        Some (CalendarQuery (rp_props st)
          (if negb (Str.is_empty (rp_start st)) && negb (Str.is_empty (rp_end st))
           then Some (rp_start st, rp_end st) else None))
      else if decide (t = "sync") then Some (SyncCollection (rp_props st) (rp_sync_token st))
      else None
  | None => None
  end.

Definition parse_report `{QuickXml} (body : string) : option ReportRequest :=
  if Str.is_empty body then None
  else report_loop report_init (xml_read body) ≫= report_result.

(** *** MKCALENDAR and PROPPATCH values *)

(** The loop of [extract_xml_value]: any end tag leaves the target. *)
Fixpoint xml_value_loop (local_name : string) (in_target : bool) (events : list Event) :
    option string :=
  match events with
  | [] => None
  | EvStart e :: rest =>
      xml_value_loop local_name
        (if decide (Str.from_utf8_lossy (BytesStart.local_name e) = local_name)
         then true else in_target) rest
  | EvText t :: rest =>
      if in_target then Some t else xml_value_loop local_name in_target rest
  | EvEnd _ :: rest => xml_value_loop local_name false rest
  | EvError :: _ => None
  | EvEmpty _ :: rest | EvOther :: rest => xml_value_loop local_name in_target rest
  end.

(** [extract_xml_value] of [mkcalendar.rs]. *)
Definition extract_xml_value `{QuickXml} (xml local_name : string) : option string :=
  xml_value_loop local_name false (xml_read xml).

(** [extract_prop_value] of [proppatch.rs], which clears [in_target] only when it is
    set: the same loop. *)
Definition extract_prop_value `{QuickXml} (xml local_name : string) : option string :=
  xml_value_loop local_name false (xml_read xml).

End Parse.

(** ** Multistatus documents *)

Inductive PropContent : Type :=
| Text (text : string)
| Xml (xml : string)
| Empty.

#[global] Instance PropContent_eq_dec : EqDecision PropContent.
Proof. solve_decision. Defined.

Module PropValue.
Record t : Type := mk { name : string; namespace : string; value : PropContent }.

#[global] Instance eq_dec : EqDecision t.
Proof. solve_decision. Defined.
End PropValue.

Module Multistatus.

(** The writer of the builder, as the operations done so far. *)
Definition t : Type := list WriteOp.

Definition prefix_name (namespace local_name : string) : string :=
  (if decide (namespace = DAV_NS) then "D:"
   else if decide (namespace = CALDAV_NS) then "C:"
   else if decide (namespace = APPLE_NS) then "A:"
   else if decide (namespace = CS_NS) then "CS:"
   else "D:") +:+ local_name.

Definition new : t :=
  [ WDecl;
    WStart "D:multistatus"
      [("xmlns:D", DAV_NS); ("xmlns:C", CALDAV_NS); ("xmlns:A", APPLE_NS); ("xmlns:CS", CS_NS)] ].

Definition write_prop (p : PropValue.t) : list WriteOp :=
  let prefixed := prefix_name (PropValue.namespace p) (PropValue.name p) in
  match PropValue.value p with
  | Text text => [WStart prefixed []; WText text; WEnd prefixed]
  | Xml xml => [WRaw ("<" +:+ prefixed +:+ ">" +:+ xml +:+ "</" +:+ prefixed +:+ ">")]
  | Empty => [WEmpty prefixed]
  end.

(** A propstat element: its properties and its status. *)
Definition propstat (props : list WriteOp) (status : string) : list WriteOp :=
  [WStart "D:propstat" []; WStart "D:prop" []] ++ props ++
  [WEnd "D:prop"; WStart "D:status" []; WText status; WEnd "D:status"; WEnd "D:propstat"].

(** The operations of one [add_response]. *)
Definition response_ops (href : string) (found_props : list PropValue.t)
    (not_found_props : list string) : list WriteOp :=
  [WStart "D:response" []; WStart "D:href" []; WText href; WEnd "D:href"] ++
  (match found_props with
   | [] => []
   | _ => propstat (found_props ≫= write_prop) "HTTP/1.1 200 OK"
   end) ++
  (match not_found_props with
   | [] => []
   | _ => propstat (WEmpty <$> not_found_props) "HTTP/1.1 404 Not Found"
   end) ++
  [WEnd "D:response"].

Definition add_response (href : string) (found_props : list PropValue.t)
    (not_found_props : list string) (b : t) : t :=
  b ++ response_ops href found_props not_found_props.

Definition add_sync_token (token : string) (b : t) : t :=
  b ++ [WStart "D:sync-token" []; WText token; WEnd "D:sync-token"].

Definition build `{QuickXml} (b : t) : string := xml_write (b ++ [WEnd "D:multistatus"]).

End Multistatus.
