(* ===== verification/Properties.v ===== *)
(** * WebDAV properties of the resources ([src/caldav/xml/properties.rs]) *)
From Stdlib Require Import ZArith.
From S2P Require Import Prelude RustStr Models Xml.
From stdpp Require Import options.

(** [HrefContext] of [src/caldav/mod.rs]. *)
Module HrefContext.
Record t : Type := mk { email : option string; username : string }.
End HrefContext.

Module Properties.

Definition ensure_sync_token_uri (token : string) : string :=
  if Str.contains_char COLON token then token else "data:," +:+ token.

Definition ns_prefix (namespace : string) : string :=
  if decide (namespace = DAV_NS) then "D"
  else if decide (namespace = CALDAV_NS) then "C"
  else if decide (namespace = APPLE_NS) then "A"
  else if decide (namespace = CS_NS) then "CS"
  else "D".

(** The property a request asks for. *)
Definition asks (r : PropRequest.t) (p : PropValue.t) : bool :=
  bool_decide (PropRequest.local_name r = PropValue.name p ∧
               PropRequest.namespace r = PropValue.namespace p).

Definition filter_props (request : PropfindRequest) (available : list PropValue.t) :
    list PropValue.t * list string :=
  match request with
  | AllProp => (available, [])
  | PropName =>
      ((λ p, PropValue.mk (PropValue.name p) (PropValue.namespace p) Empty) <$> available, [])
  | Props requested =>
      let found := bfilter (λ avail, existsb (λ r, asks r avail) requested) available in
      let not_found :=
        (λ req, ns_prefix (PropRequest.namespace req) +:+ ":" +:+ PropRequest.local_name req) <$>
          bfilter (λ req, negb (existsb (asks req) found)) requested in
      (found, not_found)
  end.

(** *** Shared fragments *)

Definition href (target : string) : string := "<D:href>" +:+ target +:+ "</D:href>".

Definition quoted (s : string) : string := String DQ (s +:+ String DQ "").

Definition components : string :=
  "<C:comp name=" +:+ quoted "VEVENT" +:+ "/><C:comp name=" +:+ quoted "VTODO" +:+ "/>".

Definition reports : string :=
  "<D:supported-report><D:report><C:calendar-multiget/></D:report></D:supported-report>" +:+
  "<D:supported-report><D:report><C:calendar-query/></D:report></D:supported-report>" +:+
  "<D:supported-report><D:report><D:sync-collection/></D:report></D:supported-report>".

Definition privileges_read_write : string :=
  "<D:privilege><D:read/></D:privilege><D:privilege><D:write/></D:privilege>".

Definition privileges_calendar : string :=
  privileges_read_write +:+ "<D:privilege><D:write-content/></D:privilege>".

(** *** Hrefs *)

Definition calendar_object_href (username calendar_id uid : string) : string :=
  "/caldav/users/" +:+ username +:+ "/" +:+ calendar_id +:+ "/" +:+ uid +:+ ".ics".

Definition calendar_href (username calendar_id : string) : string :=
  "/caldav/users/" +:+ username +:+ "/" +:+ calendar_id +:+ "/".

Definition calendar_href_for_context (ctx : HrefContext.t) (calendar_id : string) : string :=
  match HrefContext.email ctx with
  | Some email => "/calendar/dav/" +:+ email +:+ "/user/" +:+ calendar_id +:+ "/"
  | None => calendar_href (HrefContext.username ctx) calendar_id
  end.

Definition calendar_object_href_for_context (ctx : HrefContext.t) (calendar_id uid : string) :
    string :=
  match HrefContext.email ctx with
  | Some email => "/calendar/dav/" +:+ email +:+ "/user/" +:+ calendar_id +:+ "/" +:+ uid +:+ ".ics"
  | None => calendar_object_href (HrefContext.username ctx) calendar_id uid
  end.

(** *** Property lists *)

Definition root_props (username : string) : list PropValue.t :=
  [ PropValue.mk "resourcetype" DAV_NS (Xml "<D:collection/>");
    PropValue.mk "current-user-principal" DAV_NS
      (Xml (href ("/caldav/users/" +:+ username +:+ "/")));
    PropValue.mk "displayname" DAV_NS (Text "CalDAV Server") ].

Definition root_props_unauthenticated : list PropValue.t :=
  [ PropValue.mk "resourcetype" DAV_NS (Xml "<D:collection/>");
    PropValue.mk "current-user-principal" DAV_NS (Xml "<D:unauthenticated/>");
    PropValue.mk "displayname" DAV_NS (Text "CalDAV Server") ].

Definition calendar_home_props (username : string) : list PropValue.t :=
  [ PropValue.mk "resourcetype" DAV_NS (Xml "<D:collection/>");
    PropValue.mk "displayname" DAV_NS (Text (username +:+ "'s calendars"));
    PropValue.mk "current-user-principal" DAV_NS
      (Xml (href ("/caldav/users/" +:+ username +:+ "/"))) ].

Definition email_home_props (username email request_path : string) : list PropValue.t :=
  [ PropValue.mk "resourcetype" DAV_NS (Xml "<D:collection/><D:principal/>");
    PropValue.mk "displayname" DAV_NS (Text username);
    PropValue.mk "current-user-principal" DAV_NS (Xml (href request_path));
    PropValue.mk "principal-URL" DAV_NS (Xml (href request_path));
    PropValue.mk "calendar-home-set" CALDAV_NS (Xml (href request_path));
    PropValue.mk "calendar-user-address-set" CALDAV_NS (Xml (href ("mailto:" +:+ email)));
    PropValue.mk "email-address-set" CS_NS
      (Xml ("<CS:email-address>" +:+ email +:+ "</CS:email-address>"));
    PropValue.mk "schedule-inbox-URL" CALDAV_NS (Xml (href (request_path +:+ "inbox/")));
    PropValue.mk "schedule-outbox-URL" CALDAV_NS (Xml (href (request_path +:+ "outbox/")));
    PropValue.mk "supported-report-set" DAV_NS (Xml reports);
    PropValue.mk "current-user-privilege-set" DAV_NS (Xml privileges_read_write);
    PropValue.mk "notification-URL" CS_NS (Xml (href (request_path +:+ "notifications/")));
    PropValue.mk "dropbox-home-URL" CS_NS (Xml (href (request_path +:+ "dropbox/")));
    PropValue.mk "principal-collection-set" DAV_NS (Xml (href request_path));
    PropValue.mk "resource-id" DAV_NS (Xml (href ("urn:uuid:" +:+ username)));
    PropValue.mk "owner" DAV_NS (Xml (href request_path)) ].

Definition calendar_props (username : string) (calendar : Calendar.t) : list PropValue.t :=
  [ PropValue.mk "resourcetype" DAV_NS (Xml "<D:collection/><C:calendar/>");
    PropValue.mk "displayname" DAV_NS (Text (Calendar.name calendar));
    PropValue.mk "calendar-description" CALDAV_NS (Text (Calendar.description calendar));
    PropValue.mk "calendar-color" APPLE_NS (Text (Calendar.color calendar));
    PropValue.mk "calendar-timezone" CALDAV_NS (Text (Calendar.timezone calendar));
    PropValue.mk "supported-calendar-component-set" CALDAV_NS (Xml components);
    PropValue.mk "getctag" CS_NS (Text (ensure_sync_token_uri (Calendar.ctag calendar)));
    PropValue.mk "sync-token" DAV_NS
      (Text (ensure_sync_token_uri (Calendar.sync_token calendar)));
    PropValue.mk "current-user-principal" DAV_NS
      (Xml (href ("/caldav/users/" +:+ username +:+ "/")));
    PropValue.mk "current-user-privilege-set" DAV_NS (Xml privileges_calendar);
    PropValue.mk "owner" DAV_NS (Xml (href ("/caldav/users/" +:+ username +:+ "/")));
    PropValue.mk "supported-report-set" DAV_NS (Xml reports) ].

Definition calendar_object_props (_username _calendar_id : string) (object : CalendarObject.t)
    (include_data : bool) : list PropValue.t :=
  [ PropValue.mk "getetag" DAV_NS (Text (CalendarObject.etag object));
    PropValue.mk "getcontenttype" DAV_NS (Text "text/calendar; charset=utf-8") ] ++
  (if include_data
   then [PropValue.mk "calendar-data" CALDAV_NS (Text (CalendarObject.ical_data object))]
   else []).

Definition calendar_props_for_context (ctx : HrefContext.t) (calendar : Calendar.t) :
    list PropValue.t :=
  let principal_href :=
    match HrefContext.email ctx with
    | Some email => "/calendar/dav/" +:+ email +:+ "/user/"
    | None => "/caldav/users/" +:+ HrefContext.username ctx +:+ "/"
    end in
  [ PropValue.mk "resourcetype" DAV_NS (Xml "<D:collection/><C:calendar/>");
    PropValue.mk "displayname" DAV_NS (Text (Calendar.name calendar));
    PropValue.mk "calendar-description" CALDAV_NS (Text (Calendar.description calendar));
    PropValue.mk "calendar-color" APPLE_NS (Text (Calendar.color calendar));
    PropValue.mk "calendar-order" APPLE_NS (Text "1");
    PropValue.mk "calendar-timezone" CALDAV_NS (Text (Calendar.timezone calendar));
    PropValue.mk "supported-calendar-component-set" CALDAV_NS (Xml components);
    PropValue.mk "getctag" CS_NS (Text (ensure_sync_token_uri (Calendar.ctag calendar)));
    PropValue.mk "sync-token" DAV_NS
      (Text (ensure_sync_token_uri (Calendar.sync_token calendar)));
    PropValue.mk "current-user-principal" DAV_NS (Xml (href principal_href));
    PropValue.mk "current-user-privilege-set" DAV_NS (Xml privileges_calendar);
    PropValue.mk "owner" DAV_NS (Xml (href principal_href));
    PropValue.mk "supported-report-set" DAV_NS (Xml reports);
    PropValue.mk "schedule-calendar-transp" CALDAV_NS (Xml "<C:opaque/>");
    PropValue.mk "schedule-default-calendar-URL" CALDAV_NS
      (Xml (href (calendar_href_for_context ctx (Calendar.id calendar))));
    PropValue.mk "getcontenttype" DAV_NS (Text "text/calendar; charset=utf-8");
    PropValue.mk "resource-id" DAV_NS (Xml (href ("urn:uuid:" +:+ Calendar.id calendar))) ].

End Properties.
