(* ===== verification/CaldavHandlers.v ===== *)
(** * CalDAV methods on calendars and objects

    One definition per handler of [src/caldav/]: [auth.rs], [wellknown.rs], [get.rs],
    [delete.rs], [put.rs], [mkcalendar.rs], [proppatch.rs], [propfind.rs], [report.rs].
    A handler is a program over the store that ends in a [Reply]; the user and the
    href context that the router stores in the request's extensions are arguments. *)
From Stdlib Require Import Ascii NArith ZArith.
From S2P Require Import Prelude RustStr Effects Models Db DbUsers DbCalendars DbEvents Ical.
From S2P Require Import Http Xml Properties.
From stdpp Require Import options.

(** [base64::decode] with the standard alphabet. *)
Class Base64 : Type := b64_decode : string → option string.

Definition DAV_HEADER : string * string := ("dav", "1, 2, 3, calendar-access, calendar-schedule").
Definition ALLOW_HEADER : string * string :=
  ("allow", "OPTIONS, GET, HEAD, PUT, DELETE, PROPFIND, PROPPATCH, REPORT, MKCALENDAR").

(** *** [auth.rs] *)

Module Auth.
Section auth.
Context `{Sqlite, Argon2, Base64}.

(** [parse_basic_auth]; every failure is the same [Err(())]. *)
Definition parse_basic_auth (header : string) : M (Result (option User.t) unit) :=
  match Str.strip_prefix "Basic " header with
  | None => mret (Err tt)
  | Some encoded =>
      match b64_decode encoded ≫= Str.from_utf8 with
      | None => mret (Err tt)
      | Some credentials =>
          match Str.split_once COLON credentials with
          | None => mret (Err tt)
          | Some (username, password) =>
              with_err (λ _, tt) (Users.verify_user username password)
          end
      end
  end.

Definition unauthorized_response_fn : Reply :=
  build 401 [("www-authenticate", "Basic realm=" +:+ Properties.quoted "CalDAV"); DAV_HEADER]
    "Unauthorized".

Definition try_basic_auth (header : string) : M (option User.t) :=
  r ← parse_basic_auth header;
  mret (match r with Ok u => u | Err _ => None end).
End auth.
End Auth.

(** *** [wellknown.rs] *)

Module WellKnown.

Definition handle_options : Reply :=
  Respond (Response.mk 200 [DAV_HEADER; ALLOW_HEADER] "").

Definition handle_well_known (request : Request.t) : Reply :=
  if decide (Request.method request = "OPTIONS")
  then build 200 [DAV_HEADER; ALLOW_HEADER] ""
  else build 301 [("location", "/caldav/"); DAV_HEADER] "".
End WellKnown.

Definition ICS : string := ".ics".

(** *** [get.rs] *)

Module Get.
Section get.
Context `{Sqlite}.

Definition handle_get (calendar_id filename : string) : M Reply :=
  let uid := Str.trim_end_matches ICS filename in
  r ← Events.get_object_by_uid calendar_id uid;
  mret (match r with
        | Ok (Some object) =>
            build 200 [("content-type", "text/calendar; charset=utf-8");
                       ("etag", CalendarObject.etag object)] (CalendarObject.ical_data object)
        | Ok None => text 404 "Object not found"
        | Err _ => text 500 "Internal error"
        end).
End get.
End Get.

(** *** [delete.rs] *)

Module Delete.
Section delete.
Context `{Sqlite, Uuids}.

Definition handle_delete_object (calendar_id filename : string) : M Reply :=
  let uid := Str.trim_end_matches ICS filename in
  r ← Events.delete_object calendar_id uid;
  mret (match r with
        | Ok _ => text 204 ""
        | Err (AppError.NotFound _) => text 404 "Object not found"
        | Err _ => text 500 "Internal error"
        end).

Definition handle_delete_calendar (calendar_id : string) : M Reply :=
  r ← Calendars.delete_calendar calendar_id;
  mret (match r with
        | Ok _ => text 204 ""
        | Err (AppError.NotFound _) => text 404 "Calendar not found"
        | Err _ => text 500 "Internal error"
        end).
End delete.
End Delete.

(** *** [put.rs] *)

Module Put.
Section put.
Context `{Sqlite, Uuids}.

(** The [If-Match] check: the response that ends the request, if any. *)
Definition check_if_match (if_match : option string) (calendar_id uid : string) :
    M (option Reply) :=
  match if_match with
  | Some expected_etag =>
      if decide (expected_etag = "*") then mret None
      else
        r ← Events.get_object_by_uid calendar_id uid;
        mret (match r with
              | Ok (Some existing) =>
                  if decide (CalendarObject.etag existing = expected_etag) then None
                  else Some (text 412 "ETag mismatch")
              | Ok None => Some (text 412 "Object does not exist")
              | Err _ => Some (text 500 "Internal error")
              end)
  | None => mret None
  end.

Definition object_fields (fields : IcalFields.t) : ObjectFields.t :=
  ObjectFields.mk (IcalFields.component_type fields) (IcalFields.dtstart fields)
    (IcalFields.dtend fields) (IcalFields.summary fields).

Definition handle_put (calendar_id filename : string) (request : Request.t) : M Reply :=
  let uid_from_url := Str.trim_end_matches ICS filename in
  let if_match := Request.header "if-match" request in
  match to_bytes (1024 * 1024) (Request.body request) with
  | None => mret (text 400 "Request body too large")
  | Some body =>
      match Str.from_utf8 body with
      | None => mret (text 400 "Invalid UTF-8 in request body")
      | Some ical_data =>
          let fields := Parser.extract_fields ical_data in
          let uid := default uid_from_url (IcalFields.uid fields) in
          failed ← check_if_match if_match calendar_id uid;
          match failed with
          | Some response => mret response
          | None =>
              r ← Events.upsert_object calendar_id uid ical_data (object_fields fields);
              mret (match r with
                    | Ok (obj, is_new) =>
                        build (if is_new : bool then 201 else 204)
                          [("etag", CalendarObject.etag obj)] ""
                    | Err _ => text 500 "Failed to save event"
                    end)
          end
      end
  end.
End put.
End Put.

(** *** [mkcalendar.rs] *)

Module MkCalendar.
Section mkcalendar.
Context `{Sqlite, Uuids, QuickXml}.

Definition extract_displayname (body : string) : option string :=
  if Str.is_empty body then None
  else Parse.extract_xml_value (Str.from_utf8_lossy body) "displayname".

Definition extract_calendar_color (body : string) : option string :=
  if Str.is_empty body then None
  else Parse.extract_xml_value (Str.from_utf8_lossy body) "calendar-color".

Definition handle_mkcalendar (user : User.t) (username calendar_id : string)
    (request : Request.t) : M Reply :=
  if decide (User.username user = username) then
    existing ← Calendars.get_calendar_by_id calendar_id;
    match existing with
    | Ok (Some _) => mret (text 405 "Calendar already exists")
    | _ =>
        let body := to_bytes_or_empty (64 * 1024) (Request.body request) in
        let name := default calendar_id (extract_displayname body) in
        let color := default "#0E61B9" (extract_calendar_color body) in
        r ← Calendars.create_calendar_with_id calendar_id (User.id user) name "" color "UTC";
        mret (match r with
              | Ok _ => text 201 "Calendar created"
              | Err _ => text 500 "Failed to create calendar"
              end)
    end
  else mret (text 403 "Cannot create calendars for another user").
End mkcalendar.
End MkCalendar.

(** *** [proppatch.rs] *)

Module PropPatch.
Section proppatch.
Context `{Sqlite, QuickXml}.

(** The properties a successful update reports. *)
Definition updated_props (name description color : option string) : list PropValue.t :=
  (if name then [PropValue.mk "displayname" DAV_NS Empty] else []) ++
  (if description then [PropValue.mk "calendar-description" CALDAV_NS Empty] else []) ++
  (if color then [PropValue.mk "calendar-color" APPLE_NS Empty] else []).

Definition handle_proppatch (user : User.t) (href_ctx : option HrefContext.t)
    (calendar_id : string) (request : Request.t) : M Reply :=
  let body := to_bytes_or_empty (64 * 1024) (Request.body request) in
  found ← Calendars.get_calendar_by_id calendar_id;
  match found with
  | Ok (Some calendar) =>
      let body_str := Str.from_utf8_lossy body in
      let name := Parse.extract_prop_value body_str "displayname" in
      let description := Parse.extract_prop_value body_str "calendar-description" in
      let color := Parse.extract_prop_value body_str "calendar-color" in
      r ← Calendars.update_calendar (Calendar.id calendar) name description color None;
      mret (match r with
            | Ok _ =>
                let href :=
                  match href_ctx with
                  | Some ctx =>
                      Properties.calendar_href_for_context ctx (Calendar.id calendar)
                  | None =>
                      "/caldav/users/" +:+ User.username user +:+ "/" +:+
                        Calendar.id calendar +:+ "/"
                  end in
                let builder :=
                  Multistatus.add_response href (updated_props name description color) []
                    Multistatus.new in
                build 207 [("content-type", "application/xml; charset=utf-8")]
                  (Multistatus.build builder)
            | Err _ => text 500 "Failed to update properties"
            end)
  | _ => mret (text 404 "Calendar not found")
  end.
End proppatch.
End PropPatch.

(** *** [propfind.rs] *)

Module Propfind.
Section propfind.
Context `{Sqlite, QuickXml}.

Definition get_depth (request : Request.t) : N :=
  match Request.header "depth" request with
  | Some v => if decide (v = "1") then 1%N else 0%N
  | None => 0%N
  end.

Definition multistatus_response (xml : string) : Reply :=
  build 207 [("content-type", "application/xml; charset=utf-8"); DAV_HEADER] xml.

(** One response per item, in order, with the properties the request asks for. *)
Definition add_filtered {A} (propfind : PropfindRequest) (href : A → string)
    (props : A → list PropValue.t) (items : list A) (b : Multistatus.t) : Multistatus.t :=
  foldl (λ b x,
    let '(found, not_found) := Properties.filter_props propfind (props x) in
    Multistatus.add_response (href x) found not_found b) b items.

Definition handle_calendar_home (user : User.t) (request : Request.t) : M Reply :=
  let depth := get_depth request in
  let propfind := Parse.parse_propfind (to_bytes_or_empty (64 * 1024) (Request.body request)) in
  let builder :=
    add_filtered propfind
      (λ _ : unit, "/caldav/users/" +:+ User.username user +:+ "/")
      (λ _, Properties.calendar_home_props (User.username user)) [tt] Multistatus.new in
  builder ←
    (if (1 <=? depth)%N then
       cals ← unwrap_or [] (Calendars.list_calendars_for_user (User.id user));
       mret (add_filtered propfind
               (λ cal, Properties.calendar_href (User.username user) (Calendar.id cal))
               (Properties.calendar_props (User.username user)) cals builder)
     else mret builder);
  mret (multistatus_response (Multistatus.build builder)).

Definition handle_calendar (user : User.t) (href_ctx : option HrefContext.t)
    (calendar_id : string) (request : Request.t) : M Reply :=
  let depth := get_depth request in
  let propfind := Parse.parse_propfind (to_bytes_or_empty (64 * 1024) (Request.body request)) in
  found ← Calendars.get_calendar_by_id calendar_id;
  match found with
  | Ok (Some calendar) =>
      let ctx := default (HrefContext.mk None (User.username user)) href_ctx in
      let builder :=
        add_filtered propfind
          (λ cal, Properties.calendar_href_for_context ctx (Calendar.id cal))
          (Properties.calendar_props_for_context ctx) [calendar] Multistatus.new in
      builder ←
        (if (1 <=? depth)%N then
           objects ← unwrap_or [] (Events.list_objects (Calendar.id calendar));
           mret (add_filtered propfind
                   (λ obj, Properties.calendar_object_href_for_context ctx
                             (Calendar.id calendar) (CalendarObject.uid obj))
                   (λ obj, Properties.calendar_object_props (User.username user)
                             (Calendar.id calendar) obj false)
                   objects builder)
         else mret builder);
      mret (multistatus_response (Multistatus.build builder))
  | _ => mret (text 404 "Calendar not found")
  end.

(** [encode_email_for_path] of [src/caldav/mod.rs]. *)
Definition encode_email_for_path (email : string) : string :=
  Str.replace_char AT "%40" email.

Definition handle_email_home (user : User.t) (request_path : string) (depth : N)
    (email : string) (propfind : PropfindRequest) : M Reply :=
  let ctx := HrefContext.mk (Some (encode_email_for_path email)) (User.username user) in
  let builder :=
    add_filtered propfind (λ _ : unit, request_path)
      (λ _, Properties.email_home_props (User.username user) email request_path) [tt]
      Multistatus.new in
  builder ←
    (if (1 <=? depth)%N then
       cals ← unwrap_or [] (Calendars.list_calendars_for_user (User.id user));
       mret (add_filtered propfind
               (λ cal, Properties.calendar_href_for_context ctx (Calendar.id cal))
               (Properties.calendar_props_for_context ctx) cals builder)
     else mret builder);
  mret (multistatus_response (Multistatus.build builder)).
End propfind.
End Propfind.

(** *** [report.rs] *)

Module Report.

(** [u8::from_str_radix(s, 16)]: an optional plus sign, then hexadecimal digits. *)
Definition hex_digit (c : ascii) : option N :=
  let n := N_of_ascii c in
  if Str.byte_in 48 57 c then Some (n - 48)%N
  else if Str.byte_in 65 70 c then Some (n - 55)%N
  else if Str.byte_in 97 102 c then Some (n - 87)%N
  else None.

Fixpoint hex_digits (acc : N) (s : string) : option N :=
  match s with
  | "" => Some acc
  | String c s' =>
      d ← hex_digit c;
      let acc := (acc * 16 + d)%N in
      if (acc <=? 255)%N then hex_digits acc s' else None
  end.

Definition u8_from_hex (s : string) : option N :=
  let digits := match Str.strip_prefix "+" s with Some r => r | None => s end in
  if Str.is_empty digits then None else hex_digits 0 digits.

(** The loop of [percent_decode]: a percent sign takes the next two characters,
    whether they decode or not. *)
Fixpoint percent_decode_chars (fuel : nat) (chars : list string) : string :=
  match fuel, chars with
  | S fuel', c :: rest =>
      if decide (c = "%") then
        match rest with
        | h1 :: h2 :: rest' =>
            match u8_from_hex (h1 +:+ h2) with
            | Some byte => Str.byte_as_char byte
            | None => c
            end +:+ percent_decode_chars fuel' rest'
        | _ => c
        end
      else c +:+ percent_decode_chars fuel' rest
  | _, _ => ""
  end.

Definition percent_decode (s : string) : string :=
  percent_decode_chars (String.length s) (Str.chars s).

Section report.
Context `{Sqlite, QuickXml}.

(** One full response per object. *)
Definition add_objects (ctx : HrefContext.t) (calendar_id : string) (include_data : bool)
    (objects : list CalendarObject.t) (b : Multistatus.t) : Multistatus.t :=
  foldl (λ b obj,
    Multistatus.add_response
      (Properties.calendar_object_href_for_context ctx calendar_id (CalendarObject.uid obj))
      (Properties.calendar_object_props (HrefContext.username ctx) calendar_id obj include_data)
      [] b) b objects.

(** The UIDs a multiget asks for. *)
Definition uids_of_hrefs (hrefs : list string) : list string :=
  omap (λ href, percent_decode <$> Str.strip_suffix ICS (Str.rsplit_next SLASH href)) hrefs.

Definition handle_multiget (ctx : HrefContext.t) (calendar_id : string)
    (_props : list PropRequest.t) (hrefs : list string) : M Reply :=
  objects ← unwrap_or [] (Events.get_objects_by_uids calendar_id (uids_of_hrefs hrefs));
  mret (Propfind.multistatus_response
          (Multistatus.build (add_objects ctx calendar_id true objects Multistatus.new))).

Definition handle_query (ctx : HrefContext.t) (calendar_id : string)
    (_props : list PropRequest.t) (time_range : option (string * string)) : M Reply :=
  objects ←
    match time_range with
    | Some (start, end_) => unwrap_or [] (Events.list_objects_in_range calendar_id start end_)
    | None => unwrap_or [] (Events.list_objects calendar_id)
    end;
  mret (Propfind.multistatus_response
          (Multistatus.build (add_objects ctx calendar_id true objects Multistatus.new))).

(** The loop over the changes of a delta sync. *)
Fixpoint add_changes (ctx : HrefContext.t) (calendar_id : string) (include_data : bool)
    (changes : list SyncChange.t) (b : Multistatus.t) : M Multistatus.t :=
  match changes with
  | [] => mret b
  | change :: rest =>
      let href := Properties.calendar_object_href_for_context ctx calendar_id
                    (SyncChange.object_uid change) in
      if decide (SyncChange.change_type change = "deleted") then
        add_changes ctx calendar_id include_data rest (Multistatus.add_response href [] [] b)
      else
        r ← Events.get_object_by_uid calendar_id (SyncChange.object_uid change);
        add_changes ctx calendar_id include_data rest
          (match r with
           | Ok (Some obj) =>
               Multistatus.add_response href
                 (Properties.calendar_object_props (HrefContext.username ctx) calendar_id obj
                    include_data) [] b
           | _ => b
           end)
  end.

Definition handle_sync (ctx : HrefContext.t) (calendar_id : string)
    (props : list PropRequest.t) (sync_token : string) : M Reply :=
  found ← Calendars.get_calendar_by_id calendar_id;
  match found with
  | Ok (Some calendar) =>
      let include_data :=
        existsb (λ p, bool_decide (PropRequest.local_name p = "calendar-data")) props in
      builder ←
        (if Str.is_empty sync_token then
           objects ← unwrap_or [] (Events.list_objects calendar_id);
           mret (add_objects ctx calendar_id include_data objects Multistatus.new)
         else
           changes ← unwrap_or [] (Events.get_sync_changes_since calendar_id sync_token);
           add_changes ctx calendar_id include_data changes Multistatus.new);
      let token_uri := Properties.ensure_sync_token_uri (Calendar.sync_token calendar) in
      mret (Propfind.multistatus_response
              (Multistatus.build (Multistatus.add_sync_token token_uri builder)))
  | _ => mret (text 404 "Calendar not found")
  end.

Definition handle_report (user : User.t) (href_ctx : option HrefContext.t)
    (calendar_id : string) (request : Request.t) : M Reply :=
  let body := to_bytes_or_empty (256 * 1024) (Request.body request) in
  let ctx := default (HrefContext.mk None (User.username user)) href_ctx in
  match Parse.parse_report body with
  | None => mret (text 400 "Invalid REPORT body")
  | Some report =>
      resp ←
        match report with
        | CalendarMultiget props hrefs => handle_multiget ctx calendar_id props hrefs
        | CalendarQuery props time_range => handle_query ctx calendar_id props time_range
        | SyncCollection props sync_token => handle_sync ctx calendar_id props sync_token
        end;
      mret (rebuffer (512 * 1024) resp)
  end.
End report.
End Report.
