(* ===== verification/CaldavRouter.v ===== *)
(** * The CalDAV router ([src/caldav/mod.rs])

    Authentication, the access check and the dispatch of each route by method.
    Matching a path against the route templates and percent-decoding its captures is
    [axum]'s; a routed request is the template it matched with its captures. *)
From Stdlib Require Import ZArith.
From S2P Require Import Prelude RustStr Effects Models Db DbUsers DbCalendars Http Xml.
From S2P Require Import Properties CaldavHandlers.
From stdpp Require Import options.

Module Router.

(** The handlers the routes name. *)
Inductive Endpoint : Type :=
| WellKnownEndpoint
| ServerRoot
| CaldavRoot
| PrincipalDiscovery
| FallbackDiscovery
| EmailDiscovery
| EmailCalendarCollection
| EmailObject
| CalendarHome
| CalendarCollection
| ObjectEndpoint.

#[global] Instance Endpoint_eq_dec : EqDecision Endpoint.
Proof. solve_decision. Defined.

(** [router]: the route table. *)
Definition routes : list (string * Endpoint) :=
  [ ("/.well-known/caldav", WellKnownEndpoint);
    ("/", ServerRoot);
    ("/caldav/", CaldavRoot);
    ("/caldav", CaldavRoot);
    ("/caldav/principals/{username}/", PrincipalDiscovery);
    ("/caldav/principals/{username}", PrincipalDiscovery);
    ("/principals/", FallbackDiscovery);
    ("/principals/{username}/", FallbackDiscovery);
    ("/calendar/dav/{email}/user/", EmailDiscovery);
    ("/calendar/dav/{email}/user/{calendar_id}/", EmailCalendarCollection);
    ("/calendar/dav/{email}/user/{calendar_id}/{filename}", EmailObject);
    ("/caldav/users/{username}/", CalendarHome);
    ("/caldav/users/{username}", CalendarHome);
    ("/caldav/users/{username}/{calendar_id}/", CalendarCollection);
    ("/caldav/users/{username}/{calendar_id}", CalendarCollection);
    ("/caldav/users/{username}/{calendar_id}/{filename}", ObjectEndpoint) ].

Definition method_not_allowed : Reply := text 405 "Method not allowed".
Definition access_denied : Reply := text 403 "Access denied".

Definition extract_auth_header (request : Request.t) : option string :=
  Request.header "authorization" request.

Section router.
Context `{Sqlite, Uuids, Argon2, Base64, QuickXml}.

(** *** Authentication *)

Definition inline_auth (auth_header : option string) : M (Result User.t Reply) :=
  match auth_header with
  | Some h =>
      u ← Auth.try_basic_auth h;
      mret (match u with
            | Some user => Ok user
            | None => Err Auth.unauthorized_response_fn
            end)
  | None => mret (Err Auth.unauthorized_response_fn)
  end.

Definition auth_or_path_user (auth_header : option string) (path_username : string) :
    M (Result User.t Reply) :=
  match auth_header with
  | Some h =>
      u ← Auth.try_basic_auth h;
      mret (match u with
            | Some user => Ok user
            | None => Err Auth.unauthorized_response_fn
            end)
  | None =>
      r ← Users.get_user_by_username path_username;
      mret (match r with
            | Ok (Some user) => Ok user
            | _ => Err Auth.unauthorized_response_fn
            end)
  end.

Definition auth_or_email_user (auth_header : option string) (email : string) :
    M (Result User.t Reply) :=
  match auth_header with
  | Some h =>
      u ← Auth.try_basic_auth h;
      mret (match u with
            | Some user => Ok user
            | None => Err Auth.unauthorized_response_fn
            end)
  | None =>
      r ← Users.get_user_by_email email;
      mret (match r with
            | Ok (Some user) => Ok user
            | _ => Err Auth.unauthorized_response_fn
            end)
  end.

Definition verify_calendar_access (user : User.t) (calendar_id : string) : M bool :=
  accessible ← unwrap_or [] (Calendars.list_calendars_for_user (User.id user));
  mret (existsb (λ c, bool_decide (Calendar.id c = calendar_id)) accessible).

(** Runs [k] for the user found, or answers with the error response. *)
Definition with_user (auth : M (Result User.t Reply)) (k : User.t → M Reply) : M Reply :=
  r ← auth;
  match r with
  | Ok user => k user
  | Err resp => mret resp
  end.

(** *** Discovery *)

(** The PROPFIND answer of the three root resources. *)
Definition root_propfind (href : string) (auth_header : option string) : M Reply :=
  r ← inline_auth auth_header;
  mret (Propfind.multistatus_response (Multistatus.build
          (Multistatus.add_response href
             (match r with
              | Ok user => Properties.root_props (User.username user)
              | Err _ => Properties.root_props_unauthenticated
              end) [] Multistatus.new))).

Definition handle_server_root (request : Request.t) : M Reply :=
  let method := Request.method request in
  if decide (method = "OPTIONS") then mret WellKnown.handle_options
  else if decide (method = "PROPFIND") then root_propfind "/" (extract_auth_header request)
  else mret (build 301 [("location", "/caldav/")] "").

Definition handle_caldav_root (request : Request.t) : M Reply :=
  let method := Request.method request in
  if decide (method = "OPTIONS") then mret WellKnown.handle_options
  else if decide (method = "PROPFIND") then
    root_propfind "/caldav/" (extract_auth_header request)
  else mret method_not_allowed.

Definition handle_principal_discovery (username : string) (request : Request.t) : M Reply :=
  if decide (Request.method request = "OPTIONS") then mret WellKnown.handle_options
  else mret (build 301 [("location", "/caldav/users/" +:+ username +:+ "/")] "").

Definition handle_fallback_discovery (request : Request.t) : M Reply :=
  let method := Request.method request in
  if decide (method = "OPTIONS") then mret WellKnown.handle_options
  else if decide (method = "PROPFIND") then
    root_propfind "/caldav/" (extract_auth_header request)
  else mret method_not_allowed.

Definition handle_caldav_email_discovery (email : string) (request : Request.t) : M Reply :=
  let method := Request.method request in
  let depth := Propfind.get_depth request in
  let body := to_bytes_or_empty (64 * 1024) (Request.body request) in
  if decide (method = "OPTIONS") then mret WellKnown.handle_options
  else if decide (method = "PROPFIND") then
    let encoded_email := Propfind.encode_email_for_path email in
    let request_path := "/calendar/dav/" +:+ encoded_email +:+ "/user/" in
    let propfind := Parse.parse_propfind body in
    match extract_auth_header request with
    | Some h =>
        u ← Auth.try_basic_auth h;
        match u with
        | Some user => Propfind.handle_email_home user request_path depth email propfind
        | None => mret Auth.unauthorized_response_fn
        end
    | None =>
        r ← Users.get_user_by_email email;
        match r with
        | Ok (Some user) =>
            resp ← Propfind.handle_email_home user request_path depth email propfind;
            mret (rebuffer (512 * 1024) resp)
        | _ => mret Auth.unauthorized_response_fn
        end
    end
  else mret method_not_allowed.

(** *** Collections and objects *)

(** The methods of a calendar collection, for an admitted user. *)
Definition collection_method (user : User.t) (href_ctx : option HrefContext.t)
    (username calendar_id : string) (request : Request.t) : M Reply :=
  let method := Request.method request in
  if decide (method = "PROPFIND") then
    Propfind.handle_calendar user href_ctx calendar_id request
  else if decide (method = "REPORT") then
    Report.handle_report user href_ctx calendar_id request
  else if decide (method = "PROPPATCH") then
    PropPatch.handle_proppatch user href_ctx calendar_id request
  else if decide (method = "MKCALENDAR") then
    MkCalendar.handle_mkcalendar user username calendar_id request
  else if decide (method = "DELETE") then Delete.handle_delete_calendar calendar_id
  else mret method_not_allowed.

(** The methods of a calendar object, for an admitted user. *)
Definition object_method (calendar_id filename : string) (request : Request.t) : M Reply :=
  let method := Request.method request in
  if decide (method = "GET") then Get.handle_get calendar_id filename
  else if decide (method = "PUT") then Put.handle_put calendar_id filename request
  else if decide (method = "DELETE") then Delete.handle_delete_object calendar_id filename
  else mret method_not_allowed.

(** The access check before a collection's methods, skipped for MKCALENDAR. *)
Definition with_collection_access (user : User.t) (calendar_id : string)
    (request : Request.t) (k : M Reply) : M Reply :=
  if decide (Request.method request = "MKCALENDAR") then k
  else
    access ← verify_calendar_access user calendar_id;
    if access : bool then k else mret access_denied.

(** The access check before an object's methods. *)
Definition with_object_access (user : User.t) (calendar_id : string) (k : M Reply) :
    M Reply :=
  access ← verify_calendar_access user calendar_id;
  if access : bool then k else mret access_denied.

Definition handle_email_calendar_collection (email calendar_id : string)
    (request : Request.t) : M Reply :=
  if decide (Request.method request = "OPTIONS") then mret WellKnown.handle_options
  else
    with_user (auth_or_email_user (extract_auth_header request) email) (λ user,
      with_collection_access user calendar_id request
        (let username := User.username user in
         let ctx := HrefContext.mk (Some (Propfind.encode_email_for_path email)) username in
         collection_method user (Some ctx) username calendar_id request)).

Definition handle_email_object (email calendar_id filename : string) (request : Request.t) :
    M Reply :=
  if decide (Request.method request = "OPTIONS") then mret WellKnown.handle_options
  else
    with_user (auth_or_email_user (extract_auth_header request) email) (λ user,
      with_object_access user calendar_id (object_method calendar_id filename request)).

Definition handle_calendar_home (username : string) (request : Request.t) : M Reply :=
  if decide (Request.method request = "OPTIONS") then mret WellKnown.handle_options
  else
    with_user (auth_or_path_user (extract_auth_header request) username) (λ user,
      if decide (Request.method request = "PROPFIND")
      then Propfind.handle_calendar_home user request
      else mret method_not_allowed).

Definition handle_calendar_collection (username calendar_id : string)
    (request : Request.t) : M Reply :=
  if decide (Request.method request = "OPTIONS") then mret WellKnown.handle_options
  else
    with_user (auth_or_path_user (extract_auth_header request) username) (λ user,
      with_collection_access user calendar_id request
        (collection_method user None username calendar_id request)).

Definition handle_object (username calendar_id filename : string) (request : Request.t) :
    M Reply :=
  if decide (Request.method request = "OPTIONS") then mret WellKnown.handle_options
  else
    with_user (auth_or_path_user (extract_auth_header request) username) (λ user,
      with_object_access user calendar_id (object_method calendar_id filename request)).

(** *** Serving a routed request *)

(** The handler of an endpoint on the captures of its route; the [Path] extractor of a
    handler refuses another number of captures. *)
Definition call (e : Endpoint) (captures : list string) (request : Request.t) :
    option (M Reply) :=
  match e, captures with
  | WellKnownEndpoint, _ => Some (mret (WellKnown.handle_well_known request))
  | ServerRoot, _ => Some (handle_server_root request)
  | CaldavRoot, _ => Some (handle_caldav_root request)
  | FallbackDiscovery, _ => Some (handle_fallback_discovery request)
  | PrincipalDiscovery, [username] => Some (handle_principal_discovery username request)
  | EmailDiscovery, [email] => Some (handle_caldav_email_discovery email request)
  | CalendarHome, [username] => Some (handle_calendar_home username request)
  | EmailCalendarCollection, [email; calendar_id] =>
      Some (handle_email_calendar_collection email calendar_id request)
  | CalendarCollection, [username; calendar_id] =>
      Some (handle_calendar_collection username calendar_id request)
  | EmailObject, [email; calendar_id; filename] =>
      Some (handle_email_object email calendar_id filename request)
  | ObjectEndpoint, [username; calendar_id; filename] =>
      Some (handle_object username calendar_id filename request)
  | _, _ => None
  end.
End router.
End Router.
