(* ===== verification/Json.v ===== *)
(** * JSON values and JSON-RPC messages ([serde_json], [src/mcp/jsonrpc.rs])

    Reading and writing JSON text is [serde_json]'s ([Serde]); values, their
    accessors and the messages built from them are modelled. *)
From Stdlib Require Import NArith ZArith.
From S2P Require Import Prelude RustStr.
From stdpp Require Import options.
Set Default Proof Using "Type*".

(** [serde_json::Number]. *)
Inductive Number : Type :=
| PosInt (n : N)
| NegInt (z : Z)
| Float (text : string).

#[global] Instance Number_eq_dec : EqDecision Number.
Proof. solve_decision. Defined.

(** [serde_json::Value]; an object is the list of its members. *)
Inductive json : Type :=
| JNull
| JBool (b : bool)
| JNumber (n : Number)
| JString (s : string)
| JArray (items : list json)
| JObject (members : list (string * json)).

Module Json.

Fixpoint assoc (key : string) (members : list (string * json)) : option json :=
  match members with
  | [] => None
  | (k, v) :: rest => if decide (k = key) then Some v else assoc key rest
  end.

(** [Value::get(key)]. *)
Definition get (key : string) (v : json) : option json :=
  match v with JObject members => assoc key members | _ => None end.

(** [value[key]]: [Null] for what is not there. *)
Definition index (key : string) (v : json) : json := default JNull (get key v).

Definition as_str (v : json) : option string :=
  match v with JString s => Some s | _ => None end.

Definition as_u64 (v : json) : option N :=
  match v with JNumber (PosInt n) => Some n | _ => None end.

Definition is_object (v : json) : bool :=
  match v with JObject _ => true | _ => false end.

(** [value[key] = x] on an object. *)
Fixpoint insert_member (key : string) (x : json) (members : list (string * json)) :
    list (string * json) :=
  match members with
  | [] => [(key, x)]
  | (k, v) :: rest =>
      if decide (k = key) then (k, x) :: rest else (k, v) :: insert_member key x rest
  end.

Definition set (key : string) (x : json) (v : json) : json :=
  match v with JObject members => JObject (insert_member key x members) | v => v end.

(** [json!] of an [Option<String>]. *)
Definition of_option (o : option string) : json :=
  match o with Some s => JString s | None => JNull end.

Definition of_nat (n : nat) : json := JNumber (PosInt (N.of_nat n)).

(** [args.get(k).and_then(|v| v.as_str())] and [args[k].as_str()]. *)
Definition get_str (key : string) (v : json) : option string := get key v ≫= as_str.
Definition index_str (key : string) (v : json) : option string := as_str (index key v).

Lemma index_str_get_str key v : index_str key v = get_str key v.
Proof. unfold index_str, get_str, index. by destruct (get key v). Qed.

Lemma assoc_insert_eq key x members : assoc key (insert_member key x members) = Some x.
Proof.
  induction members as [|[k v] rest IH]; simpl; [by rewrite decide_True|].
  case_decide; simpl; [by rewrite decide_True by done|]. by rewrite decide_False by done.
Qed.

Lemma assoc_insert_ne key key' x members :
  key ≠ key' → assoc key' (insert_member key x members) = assoc key' members.
Proof.
  intros Hne. induction members as [|[k v] rest IH]; simpl; [by rewrite decide_False|].
  case_decide; simpl; subst.
  - by rewrite !decide_False by done.
  - by rewrite IH.
Qed.
End Json.

Class Serde : Type := {
  (** the value a text holds, or the error's text; members of the outermost object
      are kept even if repeated, of an inner one the last of a name is kept *)
  json_from_slice : string → Result json string;
  (** the error of a value that is not a request *)
  request_error : json → string;
  json_to_vec : json → string;
  (** [to_string_pretty(..).unwrap_or_default()] *)
  json_pretty : json → string;
}.

Module JsonRpc.

Record Request : Type := mkRequest {
  jsonrpc : string;
  id : option json;
  method : string;
  params : json;
}.

(** A repeated member of a struct is an error. *)
Definition repeated (key : string) (members : list (string * json)) : bool :=
  (1 <? length (bfilter (λ m, bool_decide (m.1 = key)) members)).

(** [Option<Value>]: a null is [None]. *)
Definition option_value (v : json) : option json :=
  match v with JNull => None | v => Some v end.

(** The derived [Deserialize] of [JsonRpcRequest]: from an object, or from an array of
    the fields in order; [params] may be missing, and so may [id] in an object. *)
Definition of_json (v : json) : option Request :=
  match v with
  | JObject m =>
      if existsb (λ k, repeated k m) ["jsonrpc"; "id"; "method"; "params"] then None
      else
        jsonrpc ← Json.get_str "jsonrpc" v;
        method ← Json.get_str "method" v;
        Some (mkRequest jsonrpc (Json.get "id" v ≫= option_value) method
                (default JNull (Json.get "params" v)))
  | JArray [JString jsonrpc; id; JString method] =>
      Some (mkRequest jsonrpc (option_value id) method JNull)
  | JArray [JString jsonrpc; id; JString method; params] =>
      Some (mkRequest jsonrpc (option_value id) method params)
  | _ => None
  end.

(** [serde_json::from_slice::<JsonRpcRequest>]. *)
Definition from_slice `{Serde} (body : string) : Result Request string :=
  match json_from_slice body with
  | Err e => Err e
  | Ok v => match of_json v with Some r => Ok r | None => Err (request_error v) end
  end.

(** [skip_serializing_if = "Option::is_none"]. *)
Definition id_member (id : option json) : list (string * json) :=
  match id with Some v => [("id", v)] | None => [] end.

(** [JsonRpcResponse] and its derived [Serialize]. *)
Record Response : Type := mkResponse {
  response_jsonrpc : string;
  response_id : option json;
  response_result : json;
}.

Definition response_value (r : Response) : json :=
  JObject ([("jsonrpc", JString (response_jsonrpc r))] ++ id_member (response_id r) ++
    [("result", response_result r)]).

(** [JsonRpcError] and its derived [Serialize]; the code is an [i32]. *)
Record Error : Type := mkError { code : Z; message : string }.

Definition i32_value (z : Z) : json :=
  JNumber (if (0 <=? z)%Z then PosInt (Z.to_N z) else NegInt z).

Definition error_value (e : Error) : json :=
  JObject [("code", i32_value (code e)); ("message", JString (message e))].

(** [JsonRpcErrorResponse] and its derived [Serialize]. *)
Record ErrorResponse : Type := mkErrorResponse {
  error_jsonrpc : string;
  error_id : option json;
  error_error : Error;
}.

Definition error_response_value (r : ErrorResponse) : json :=
  JObject ([("jsonrpc", JString (error_jsonrpc r))] ++ id_member (error_id r) ++
    [("error", error_value (error_error r))]).

(** [to_value(JsonRpcResponse::success(id, result))]. *)
Definition success (id : option json) (result : json) : json :=
  response_value (mkResponse "2.0" id result).

(** [to_value(JsonRpcErrorResponse::error(id, code, message))]. *)
Definition error (id : option json) (code : Z) (message : string) : json :=
  error_response_value (mkErrorResponse "2.0" id (mkError code message)).

Definition PARSE_ERROR : Z := -32700.
Definition METHOD_NOT_FOUND : Z := -32601.
Definition INVALID_PARAMS : Z := -32602.
Definition INTERNAL_ERROR : Z := -32603.

Definition method_not_found (id : option json) : json := error id (-32601) "Method not found".
Definition invalid_params (id : option json) (msg : string) : json := error id (-32602) msg.
Definition internal_error (id : option json) (msg : string) : json := error id (-32603) msg.

End JsonRpc.
