(* ===== verification/McpTools.v ===== *)
(** * The MCP tools ([src/mcp/tools/])

    One definition per tool and the two dispatchers.  A tool is a program that ends in
    a JSON value or an error text.  [args["k"].as_str()] and
    [args.get("k").and_then(|v| v.as_str())] agree ([Json.index_str_get_str]); each is
    written where the source writes it. *)
From Stdlib Require Import NArith ZArith.
From S2P Require Import Prelude RustStr Effects Models Db DbUsers DbCalendars DbEvents.
From S2P Require Import DbShares Ical Json.
From stdpp Require Import options.

(** [ToolDef]. *)
Module ToolDef.
Record t : Type := mk { name : string; description : string; input_schema : json }.
End ToolDef.

(** The parts of an input schema. *)
Module Schema.

Definition typed (type_ description : string) : json :=
  JObject [("type", JString type_); ("description", JString description)].

Definition str (description : string) : json := typed "string" description.

Definition limit (description : string) : json :=
  JObject [("type", JString "integer"); ("description", JString description);
           ("minimum", JNumber (PosInt 1)); ("maximum", JNumber (PosInt 500))].

Definition object (properties : list (string * json)) (required : list string) : json :=
  JObject ([("type", JString "object"); ("properties", JObject properties)] ++
    match required with
    | [] => []
    | _ => [("required", JArray (JString <$> required))]
    end ++ [("additionalProperties", JBool false)]).

Definition calendar_id : string * json := ("calendar_id", str "The calendar ID").
End Schema.

(** [.map_err(|e| format!("<what>: {e}"))]. *)
Definition describe `{Sqlite} (what : string) (e : AppError.t) : string :=
  what +:+ ": " +:+ AppError.display sqlx_display e.

(** [.ok_or(msg)?]. *)
Definition required {A} (o : option A) (msg : string) : M (Result A string) :=
  mret (ok_or o msg).

(** [chrono::Utc::now()] inside [build_vevent]. *)
Definition now_stamp `{Chrono} : M string := observe (λ n _, utc_now n).

(** *** [tools/calendars.rs] *)

Module CalendarTools.
Section tools.
Context `{Sqlite, Uuids}.

Definition tool_defs : list ToolDef.t :=
  [ ToolDef.mk "list_calendars"
      "List all calendars accessible to the authenticated user (owned + shared)"
      (Schema.object [] []);
    ToolDef.mk "get_calendar" "Get details about a specific calendar"
      (Schema.object [Schema.calendar_id] ["calendar_id"]);
    ToolDef.mk "create_calendar" "Create a new calendar"
      (Schema.object
         [("name", Schema.str "Calendar display name");
          ("description", Schema.str "Calendar description");
          ("color", Schema.str "Calendar color (hex, e.g. #FF0000)");
          ("timezone", Schema.str "Calendar timezone (e.g. America/New_York)")] ["name"]);
    ToolDef.mk "delete_calendar" "Delete a calendar and all its events"
      (Schema.object [("calendar_id", Schema.str "The calendar ID to delete")]
         ["calendar_id"]) ].

Definition list_calendars (user_id : string) (_args : json) : M (Result json string) :=
  cals ←? with_err (describe "Failed to list calendars")
            (Calendars.list_calendars_for_user user_id);
  mret (Ok (JObject [("calendars", JArray ((λ c, JObject
    [("id", JString (Calendar.id c)); ("name", JString (Calendar.name c));
     ("description", JString (Calendar.description c)); ("color", JString (Calendar.color c));
     ("timezone", JString (Calendar.timezone c));
     ("owner_id", JString (Calendar.owner_id c))]) <$> cals))])).

Definition get_calendar (_user_id : string) (args : json) : M (Result json string) :=
  calendar_id ←? required (Json.index_str "calendar_id" args) "Missing calendar_id";
  found ←? with_err (describe "Database error") (Calendars.get_calendar_by_id calendar_id);
  cal ←? required found "Calendar not found";
  mret (Ok (JObject
    [("id", JString (Calendar.id cal)); ("name", JString (Calendar.name cal));
     ("description", JString (Calendar.description cal)); ("color", JString (Calendar.color cal));
     ("timezone", JString (Calendar.timezone cal));
     ("owner_id", JString (Calendar.owner_id cal)); ("ctag", JString (Calendar.ctag cal))])).

Definition create_calendar (user_id : string) (args : json) : M (Result json string) :=
  name ←? required (Json.index_str "name" args) "Missing name";
  let description := default "" (Json.index_str "description" args) in
  let color := default "#0E61B9" (Json.index_str "color" args) in
  let timezone := default "UTC" (Json.index_str "timezone" args) in
  cal ←? with_err (describe "Failed to create calendar")
           (Calendars.create_calendar user_id name description color timezone);
  mret (Ok (JObject
    [("id", JString (Calendar.id cal)); ("name", JString (Calendar.name cal));
     ("description", JString (Calendar.description cal)); ("color", JString (Calendar.color cal));
     ("timezone", JString (Calendar.timezone cal))])).

Definition delete_calendar_tool (_user_id : string) (args : json) : M (Result json string) :=
  calendar_id ←? required (Json.index_str "calendar_id" args) "Missing calendar_id";
  _ ←? with_err (describe "Failed to delete calendar") (Calendars.delete_calendar calendar_id);
  mret (Ok (JObject [("deleted", JBool true); ("calendar_id", JString calendar_id)])).
End tools.
End CalendarTools.

(** *** [tools/events.rs] *)

Module EventTools.
Section tools.
Context `{Sqlite, Uuids, Chrono}.

Definition tool_defs : list ToolDef.t :=
  [ ToolDef.mk "create_event" "Create a new calendar event"
      (Schema.object
         [("calendar_id", Schema.str "The target calendar ID");
          ("title", Schema.str "Event title/summary");
          ("start", Schema.str "Local start time in iCal format, e.g. 20260301T090000 (no Z when timezone provided)");
          ("end", Schema.str "Local end time in iCal format");
          ("timezone", Schema.str "IANA timezone, e.g. America/Los_Angeles. Omit only for explicit UTC times (Z suffix).");
          ("description", Schema.str "Event description");
          ("location", Schema.str "Event location")]
         ["calendar_id"; "title"; "start"; "end"]);
    ToolDef.mk "get_event" "Get a specific event by its UID"
      (Schema.object [Schema.calendar_id; ("event_uid", Schema.str "The event UID")]
         ["calendar_id"; "event_uid"]);
    ToolDef.mk "update_event" "Update an existing event (replaces the entire event)"
      (Schema.object
         [Schema.calendar_id;
          ("event_uid", Schema.str "The event UID to update");
          ("title", Schema.str "New event title");
          ("start", Schema.str "New local start time in iCal format");
          ("end", Schema.str "New local end time in iCal format");
          ("timezone", Schema.str "IANA timezone, e.g. America/Los_Angeles");
          ("description", Schema.str "New description");
          ("location", Schema.str "New location")]
         ["calendar_id"; "event_uid"; "title"; "start"; "end"]);
    ToolDef.mk "delete_event" "Delete a calendar event"
      (Schema.object [Schema.calendar_id; ("event_uid", Schema.str "The event UID to delete")]
         ["calendar_id"; "event_uid"]);
    ToolDef.mk "query_events" "Query events in a calendar, optionally filtered by time range"
      (Schema.object
         [Schema.calendar_id;
          ("start", Schema.str "Range start (iCal format, e.g. 20260301T000000Z)");
          ("end", Schema.str "Range end (iCal format)");
          ("limit", Schema.limit "Max events to return (default 50)")]
         ["calendar_id"]) ].

(** The fields a tool stores with an event. *)
Definition event_fields (title start end_ : string) : ObjectFields.t :=
  ObjectFields.mk "VEVENT" (Some start) (Some end_) (Some title).

Definition create_event (_user_id : string) (args : json) : M (Result json string) :=
  calendar_id ←? required (Json.index_str "calendar_id" args) "Missing calendar_id";
  title ←? required (Json.index_str "title" args) "Missing title";
  start ←? required (Json.index_str "start" args) "Missing start";
  end_ ←? required (Json.index_str "end" args) "Missing end";
  let description := Json.index_str "description" args in
  let location := Json.index_str "location" args in
  let timezone := Json.index_str "timezone" args in
  uid ← Builder.generate_uid;
  now ← now_stamp;
  let ical_data := Builder.build_vevent now uid title start end_ description location timezone in
  ' (obj, _) ←? with_err (describe "Failed to create event")
                  (Events.upsert_object calendar_id uid ical_data (event_fields title start end_));
  mret (Ok (JObject
    [("uid", JString (CalendarObject.uid obj)); ("calendar_id", JString calendar_id);
     ("title", JString title); ("start", JString start); ("end", JString end_);
     ("etag", JString (CalendarObject.etag obj))])).

Definition get_event (_user_id : string) (args : json) : M (Result json string) :=
  calendar_id ←? required (Json.index_str "calendar_id" args) "Missing calendar_id";
  event_uid ←? required (Json.index_str "event_uid" args) "Missing event_uid";
  found ←? with_err (describe "Database error") (Events.get_object_by_uid calendar_id event_uid);
  obj ←? required found "Event not found";
  mret (Ok (JObject
    [("uid", JString (CalendarObject.uid obj));
     ("calendar_id", JString (CalendarObject.calendar_id obj));
     ("summary", Json.of_option (CalendarObject.summary obj));
     ("dtstart", Json.of_option (CalendarObject.dtstart obj));
     ("dtend", Json.of_option (CalendarObject.dtend obj));
     ("etag", JString (CalendarObject.etag obj));
     ("ical_data", JString (CalendarObject.ical_data obj))])).

Definition update_event (_user_id : string) (args : json) : M (Result json string) :=
  calendar_id ←? required (Json.index_str "calendar_id" args) "Missing calendar_id";
  event_uid ←? required (Json.index_str "event_uid" args) "Missing event_uid";
  title ←? required (Json.index_str "title" args) "Missing title";
  start ←? required (Json.index_str "start" args) "Missing start";
  end_ ←? required (Json.index_str "end" args) "Missing end";
  let description := Json.index_str "description" args in
  let location := Json.index_str "location" args in
  let timezone := Json.index_str "timezone" args in
  found ←? with_err (describe "Database error") (Events.get_object_by_uid calendar_id event_uid);
  _ ←? required found "Event not found";
  now ← now_stamp;
  let ical_data :=
    Builder.build_vevent now event_uid title start end_ description location timezone in
  ' (obj, _) ←? with_err (describe "Failed to update event")
                  (Events.upsert_object calendar_id event_uid ical_data
                     (event_fields title start end_));
  mret (Ok (JObject
    [("uid", JString (CalendarObject.uid obj)); ("calendar_id", JString calendar_id);
     ("title", JString title); ("etag", JString (CalendarObject.etag obj));
     ("updated", JBool true)])).

Definition delete_event (_user_id : string) (args : json) : M (Result json string) :=
  calendar_id ←? required (Json.index_str "calendar_id" args) "Missing calendar_id";
  event_uid ←? required (Json.index_str "event_uid" args) "Missing event_uid";
  _ ←? with_err (describe "Failed to delete event") (Events.delete_object calendar_id event_uid);
  mret (Ok (JObject [("deleted", JBool true); ("event_uid", JString event_uid)])).

(** The objects a query is about: a range needs both ends. *)
Definition query_objects (calendar_id : string) (start end_ : option string) :
    M (Result (list CalendarObject.t) string) :=
  with_err (describe "Database error")
    match start, end_ with
    | Some s, Some e => Events.list_objects_in_range calendar_id s e
    | _, _ => Events.list_objects calendar_id
    end.

(** [.take(limit)], for a limit that may exceed any list. *)
Definition take_limit {A} (limit : N) (l : list A) : list A :=
  if (limit <? N.of_nat (length l))%N then take (N.to_nat limit) l else l.

Definition query_events (_user_id : string) (args : json) : M (Result json string) :=
  calendar_id ←? required (Json.index_str "calendar_id" args) "Missing calendar_id";
  let start := Json.index_str "start" args in
  let end_ := Json.index_str "end" args in
  let limit := default 50%N (Json.as_u64 (Json.index "limit" args)) in
  objects ←? query_objects calendar_id start end_;
  let events := (λ obj, JObject
    [("uid", JString (CalendarObject.uid obj));
     ("summary", Json.of_option (CalendarObject.summary obj));
     ("dtstart", Json.of_option (CalendarObject.dtstart obj));
     ("dtend", Json.of_option (CalendarObject.dtend obj));
     ("etag", JString (CalendarObject.etag obj))]) <$> take_limit limit objects in
  mret (Ok (JObject
    [("calendar_id", JString calendar_id); ("count", Json.of_nat (length events));
     ("events", JArray events)])).
End tools.
End EventTools.

(** *** [tools/sharing.rs] *)

Module SharingTools.
Section tools.
Context `{Sqlite, Uuids}.

Definition tool_defs : list ToolDef.t :=
  [ ToolDef.mk "share_calendar" "Share a calendar with another user"
      (Schema.object
         [("calendar_id", Schema.str "The calendar ID to share");
          ("username", Schema.str "Username of the user to share with");
          ("permission", JObject
             [("type", JString "string");
              ("enum", JArray [JString "read"; JString "read-write"]);
              ("description", JString "Access level to grant")])]
         ["calendar_id"; "username"; "permission"]);
    ToolDef.mk "unshare_calendar" "Revoke a user's access to a shared calendar"
      (Schema.object
         [Schema.calendar_id; ("username", Schema.str "Username to revoke access from")]
         ["calendar_id"; "username"]);
    ToolDef.mk "list_shared_calendars" "List calendars shared with the authenticated user"
      (Schema.object [] []) ].

Definition user_not_found (username : string) : string :=
  "User '" +:+ username +:+ "' not found".

Definition share_calendar (_user_id : string) (args : json) : M (Result json string) :=
  calendar_id ←? required (Json.index_str "calendar_id" args) "Missing calendar_id";
  username ←? required (Json.index_str "username" args) "Missing username";
  permission_str ←? required (Json.index_str "permission" args) "Missing permission";
  permission ←? required (Permission.from_str_value permission_str) "Invalid permission value";
  found ←? with_err (describe "Database error") (Users.get_user_by_username username);
  target_user ←? required found (user_not_found username);
  share ←? with_err (describe "Failed to share calendar")
             (Shares.share_calendar calendar_id (User.id target_user) permission);
  mret (Ok (JObject
    [("calendar_id", JString (CalendarShare.calendar_id share));
     ("shared_with", JString username);
     ("permission", JString (CalendarShare.permission share))])).

Definition unshare_calendar (_user_id : string) (args : json) : M (Result json string) :=
  calendar_id ←? required (Json.index_str "calendar_id" args) "Missing calendar_id";
  username ←? required (Json.index_str "username" args) "Missing username";
  found ←? with_err (describe "Database error") (Users.get_user_by_username username);
  target_user ←? required found (user_not_found username);
  _ ←? with_err (describe "Failed to unshare calendar")
         (Shares.unshare_calendar calendar_id (User.id target_user));
  mret (Ok (JObject
    [("unshared", JBool true); ("calendar_id", JString calendar_id);
     ("username", JString username)])).

Definition list_shared_calendars (user_id : string) (_args : json) : M (Result json string) :=
  shared ←? with_err (describe "Database error") (Shares.list_shared_calendars user_id);
  mret (Ok (JObject [("shared_calendars", JArray ((λ '(cal, perm), JObject
    [("id", JString (Calendar.id cal)); ("name", JString (Calendar.name cal));
     ("owner_id", JString (Calendar.owner_id cal));
     ("permission", JString (Permission.as_str perm));
     ("color", JString (Calendar.color cal))]) <$> shared))])).
End tools.
End SharingTools.

(** *** [tools/simple.rs] *)

Module SimpleTools.
Section tools.
Context `{Sqlite, Uuids, Chrono}.

Definition tool_defs : list ToolDef.t :=
  [ ToolDef.mk "add_event" "Add a calendar event."
      (Schema.object
         [("title", Schema.str "Event title");
          ("start", Schema.str "Local start time in iCal format, e.g. 20260301T090000 (no Z suffix when timezone is provided)");
          ("end", Schema.str "Local end time in iCal format, e.g. 20260301T100000");
          ("timezone", Schema.str "IANA timezone name, e.g. America/Los_Angeles. Required for local time; omit only for explicit UTC (append Z to start/end).");
          ("description", JObject [("type", JString "string")]);
          ("location", JObject [("type", JString "string")])]
         ["title"; "start"; "end"]);
    ToolDef.mk "delete_event" "Delete a calendar event by its UID."
      (Schema.object [("event_uid", Schema.str "Event UID to delete")] ["event_uid"]);
    ToolDef.mk "list_events" "List upcoming calendar events. Optionally filter by time range."
      (Schema.object
         [("start", Schema.str "Range start, e.g. 20260301T000000Z");
          ("end", Schema.str "Range end, e.g. 20260331T235959Z");
          ("limit", Schema.limit "Max results (default 50)")] []) ].

(** The first calendar of the user, or a new one. *)
Definition resolve_calendar (user_id : string) : M (Result string string) :=
  cals ←? with_err (describe "Failed to list calendars")
            (Calendars.list_calendars_for_user user_id);
  match cals with
  | cal :: _ => mret (Ok (Calendar.id cal))
  | [] =>
      cal ←? with_err (describe "Failed to create default calendar")
               (Calendars.create_calendar user_id "Calendar" "" "#0E61B9" "UTC");
      mret (Ok (Calendar.id cal))
  end.

Definition handle_add (user_id : string) (args : json) : M (Result json string) :=
  title ←? required (Json.get_str "title" args) "Missing title";
  start ←? required (Json.get_str "start" args) "Missing start";
  end_ ←? required (Json.get_str "end" args) "Missing end";
  let description := Json.get_str "description" args in
  let location := Json.get_str "location" args in
  let timezone := Json.get_str "timezone" args in
  calendar_id ←? resolve_calendar user_id;
  uid ← Builder.generate_uid;
  now ← now_stamp;
  let ical_data := Builder.build_vevent now uid title start end_ description location timezone in
  ' (obj, _) ←? with_err (describe "Failed to create event")
                  (Events.upsert_object calendar_id uid ical_data
                     (EventTools.event_fields title start end_));
  mret (Ok (JObject
    [("uid", JString (CalendarObject.uid obj)); ("title", JString title);
     ("start", JString start); ("end", JString end_)])).

Definition handle_delete (user_id : string) (args : json) : M (Result json string) :=
  event_uid ←? required (Json.get_str "event_uid" args) "Missing event_uid";
  calendar_id ←? resolve_calendar user_id;
  _ ←? with_err (describe "Failed to delete event") (Events.delete_object calendar_id event_uid);
  mret (Ok (JObject [("deleted", JBool true); ("event_uid", JString event_uid)])).

Definition handle_list (user_id : string) (args : json) : M (Result json string) :=
  calendar_id ←? resolve_calendar user_id;
  let limit := default 50%N (Json.get "limit" args ≫= Json.as_u64) in
  let start := Json.get_str "start" args in
  let end_ := Json.get_str "end" args in
  objects ←? EventTools.query_objects calendar_id start end_;
  let events := (λ obj, JObject
    [("uid", JString (CalendarObject.uid obj));
     ("summary", Json.of_option (CalendarObject.summary obj));
     ("start", Json.of_option (CalendarObject.dtstart obj));
     ("end", Json.of_option (CalendarObject.dtend obj))]) <$>
    EventTools.take_limit limit objects in
  mret (Ok (JObject [("count", Json.of_nat (length events)); ("events", JArray events)])).

Definition dispatch (user_id tool_name : string) (args : json) : M (Result json string) :=
  if decide (tool_name = "add_event") then handle_add user_id args
  else if decide (tool_name = "delete_event") then handle_delete user_id args
  else if decide (tool_name = "list_events") then handle_list user_id args
  else mret (Err ("Unknown tool: " +:+ tool_name)).
End tools.
End SimpleTools.

(** *** [tools/mod.rs] *)

Module Tools.
Section tools.
Context `{Sqlite, Uuids, Chrono}.

Definition all_tools (tool_mode : string) : list ToolDef.t :=
  if decide (tool_mode = "simple") then SimpleTools.tool_defs
  else CalendarTools.tool_defs ++ EventTools.tool_defs ++ SharingTools.tool_defs.

Definition dispatch (user_id tool_name : string) (arguments : json) (tool_mode : string) :
    M (Result json string) :=
  if decide (tool_mode = "simple") then SimpleTools.dispatch user_id tool_name arguments
  else if decide (tool_name = "list_calendars") then
    CalendarTools.list_calendars user_id arguments
  else if decide (tool_name = "get_calendar") then
    CalendarTools.get_calendar user_id arguments
  else if decide (tool_name = "create_calendar") then
    CalendarTools.create_calendar user_id arguments
  else if decide (tool_name = "delete_calendar") then
    CalendarTools.delete_calendar_tool user_id arguments
  else if decide (tool_name = "create_event") then EventTools.create_event user_id arguments
  else if decide (tool_name = "get_event") then EventTools.get_event user_id arguments
  else if decide (tool_name = "update_event") then EventTools.update_event user_id arguments
  else if decide (tool_name = "delete_event") then EventTools.delete_event user_id arguments
  else if decide (tool_name = "query_events") then EventTools.query_events user_id arguments
  else if decide (tool_name = "share_calendar") then
    SharingTools.share_calendar user_id arguments
  else if decide (tool_name = "unshare_calendar") then
    SharingTools.unshare_calendar user_id arguments
  else if decide (tool_name = "list_shared_calendars") then
    SharingTools.list_shared_calendars user_id arguments
  else mret (Err ("Unknown tool: " +:+ tool_name)).
End tools.
End Tools.
