(* ===== verification/Mcp.v ===== *)
(** * The MCP server
    ([src/mcp/auth.rs], [session.rs], [handlers.rs], [transport.rs], [mod.rs])

    Bearer authentication, the session table, the JSON-RPC methods and the HTTP
    transport.  The table of sessions is part of the [Store]; each locked access is
    one step. *)
From Stdlib Require Import NArith ZArith.
From S2P Require Import Prelude RustStr Effects Models Db DbUsers DbTokens Ical Http Json.
From S2P Require Import Properties McpTools.
From stdpp Require Import options.

(** *** [session.rs] *)

Module Session.

Definition create_session `{Uuids} (user_id : string) : M string :=
  session_id ← new_v4;
  _ ← atomic (λ _ σ, (tt, mkStore (db σ) (<[session_id := user_id]> (sessions σ))));
  mret session_id.

Definition get_user_id (session_id : string) : M (option string) :=
  observe (λ _ σ, sessions σ !! session_id).

Definition remove_session (session_id : string) : M unit :=
  atomic (λ _ σ, (tt, mkStore (db σ) (delete session_id (sessions σ)))).
End Session.

(** *** [handlers.rs] *)

Module Handlers.
Section handlers.
Context `{Sqlite, Uuids, Chrono, Serde}.

Definition instructions (tool_mode : string) : string :=
  if decide (tool_mode = "simple")
  then "Calendar server. Tools: add_event (create event), delete_event (remove event), list_events (show events, optional time range filter)."
  else "This MCP server provides tools to manage CalDAV calendars and events. Use list_calendars to see available calendars, then create_event, query_events, etc. to manage events.".

(** [env!("CARGO_PKG_VERSION")], from [Cargo.toml]. *)
Definition version : string := "0.1.0".

Definition initialize_result (tool_mode : string) : json :=
  JObject
    [("protocolVersion", JString "2025-03-26");
     ("capabilities", JObject [("tools", JObject [("listChanged", JBool false)])]);
     ("serverInfo", JObject [("name", JString "caldav-mcp-server");
                             ("version", JString version)]);
     ("instructions", JString (instructions tool_mode))].

Definition handle_initialize (user_id : string) (request : JsonRpc.Request)
    (tool_mode : string) : M json :=
  _session_id ← Session.create_session user_id;
  mret (JsonRpc.success (JsonRpc.id request) (initialize_result tool_mode)).

Definition tool_json (t : ToolDef.t) : json :=
  JObject [("name", JString (ToolDef.name t)); ("description", JString (ToolDef.description t));
           ("inputSchema", ToolDef.input_schema t)].

Definition handle_tools_list (request : JsonRpc.Request) (tool_mode : string) : json :=
  JsonRpc.success (JsonRpc.id request)
    (JObject [("tools", JArray (tool_json <$> Tools.all_tools tool_mode))]).

(** The content of a tool's answer. *)
Definition tool_content (r : Result json string) : json :=
  match r with
  | Ok result =>
      let content := JObject
        [("content", JArray [JObject [("type", JString "text");
                                      ("text", JString (json_pretty result))]]);
         ("isError", JBool false)] in
      if Json.is_object result then Json.set "structuredContent" result content else content
  | Err err => JObject
      [("content", JArray [JObject [("type", JString "text"); ("text", JString err)]]);
       ("isError", JBool true)]
  end.

Definition handle_tools_call (user_id : string) (request : JsonRpc.Request)
    (tool_mode : string) : M json :=
  match Json.get_str "name" (JsonRpc.params request) with
  | None =>
      mret (JsonRpc.invalid_params (JsonRpc.id request) "Missing 'name' in params")
  | Some tool_name =>
      let arguments := default (JObject []) (Json.get "arguments" (JsonRpc.params request)) in
      r ← Tools.dispatch user_id tool_name arguments tool_mode;
      mret (JsonRpc.success (JsonRpc.id request) (tool_content r))
  end.

Definition handle_request (user_id : string) (request : JsonRpc.Request)
    (tool_mode : string) : M json :=
  let method := JsonRpc.method request in
  if decide (method = "initialize") then handle_initialize user_id request tool_mode
  else if decide (method = "notifications/initialized") then mret JNull
  else if decide (method = "tools/list") then mret (handle_tools_list request tool_mode)
  else if decide (method = "tools/call") then handle_tools_call user_id request tool_mode
  else if decide (method = "ping") then
    mret (JsonRpc.success (JsonRpc.id request) (JObject []))
  else mret (JsonRpc.method_not_found (JsonRpc.id request)).
End handlers.
End Handlers.

(** *** [transport.rs] *)

Module Transport.
Section transport.
Context `{Sqlite, Uuids, Chrono, Serde}.

Definition JSON_TYPE : string * string := ("content-type", "application/json").

Definition parse_error (e : string) : json :=
  JObject [("jsonrpc", JString "2.0"); ("id", JNull);
           ("error", JObject [("code", JNumber (NegInt JsonRpc.PARSE_ERROR));
                              ("message", JString ("Parse error: " +:+ e))])].

Definition handle_post (tool_mode user_id : string) (request : Request.t) : M Reply :=
  match to_bytes (1024 * 1024) (Request.body request) with
  | None => mret (text 400 "Request body too large")
  | Some body =>
      match JsonRpc.from_slice body with
      | Err e => mret (build 200 [JSON_TYPE] (json_to_vec (parse_error e)))
      | Ok rpc_request =>
          response ← Handlers.handle_request user_id rpc_request tool_mode;
          match JsonRpc.id rpc_request with
          | None => mret (text 202 "")
          | Some _ =>
              session ←
                (if decide (JsonRpc.method rpc_request = "initialize")
                 then Session.get_user_id user_id else mret None);
              mret (build 200
                      ([JSON_TYPE] ++
                       match session with
                       | Some session_id => [("mcp-session-id", session_id)]
                       | None => []
                       end)
                      (json_to_vec response))
          end
      end
  end.

Definition handle_get : Reply :=
  build 200 [("content-type", "text/event-stream"); ("cache-control", "no-cache")] "".

Definition handle_delete (request : Request.t) : M Reply :=
  _ ← match Request.header "mcp-session-id" request with
      | Some session_id => Session.remove_session session_id
      | None => mret tt
      end;
  mret (text 200 "Session terminated").
End transport.
End Transport.

(** *** [auth.rs] and the routes of [mod.rs] *)

Module McpRouter.
Section router.
Context `{Sqlite, Uuids, Argon2, Chrono, Serde}.

Definition unauthorized_response (msg : string) : Reply :=
  build 401 [("www-authenticate", "Bearer realm=" +:+ Properties.quoted "CalDAV MCP")] msg.

(** The middleware: the user of the bearer token, handed to [next]. *)
Definition require_bearer_auth (request : Request.t) (next : string → M Reply) : M Reply :=
  match Request.header "authorization" request with
  | None => mret (unauthorized_response "Missing Authorization header")
  | Some auth_header =>
      match Str.strip_prefix "Bearer " auth_header with
      | None =>
          mret (unauthorized_response "Invalid authorization scheme, expected Bearer")
      | Some token =>
          r ← Tokens.validate_token token;
          match r with
          | Err _ => mret (unauthorized_response "Token validation failed")
          | Ok None => mret (unauthorized_response "Invalid or expired token")
          | Ok (Some user_id) => next user_id
          end
      end
  end.

(** The methods of the route [/mcp]; [HEAD] is served by the GET handler. *)
Definition mcp_route (tool_mode user_id : string) (request : Request.t) : M Reply :=
  let method := Request.method request in
  if decide (method = "POST") then Transport.handle_post tool_mode user_id request
  else if decide (method ∈ ["GET"; "HEAD"]) then mret Transport.handle_get
  else if decide (method = "DELETE") then Transport.handle_delete request
  else mret (Respond (Response.mk 405 [("allow", "POST,GET,HEAD,DELETE")] "")).

(** [router]: every request passes the middleware first. *)
Definition serve (tool_mode : string) (request : Request.t) : M Reply :=
  require_bearer_auth request (λ user_id, mcp_route tool_mode user_id request).
End router.
End McpRouter.
