(* ===== verification/Cli.v ===== *)
(** * Configuration, migrations and the command line
    ([src/config.rs], [src/db/mod.rs], [src/main.rs])

    The environment is a function from names to values; a command is a program that
    ends in the lines it prints or an error.  What comes before a command runs, and the
    server's own start, are in [Startup]; the argument parser is not modelled. *)
From Stdlib Require Import Ascii NArith ZArith.
From S2P Require Import Prelude RustStr Effects Models Db DbUsers DbTokens.
From stdpp Require Import options.

(** *** [config.rs] *)

Module Config.
Record t : Type := mk {
  caldav_port : N;
  mcp_port : N;
  database_url : string;
  tool_mode : string;
}.

#[global] Instance eq_dec : EqDecision t.
Proof. solve_decision. Defined.

(** [str::parse::<u16>]: an optional plus sign, then decimal digits, below 2^16. *)
Fixpoint decimal (acc : N) (s : string) : option N :=
  match s with
  | "" => Some acc
  | String c s' =>
      if Str.byte_in 48 57 c then
        let acc := (acc * 10 + (N_of_ascii c - 48))%N in
        if (acc <? 2 ^ 16)%N then decimal acc s' else None
      else None
  end.

Definition parse_u16 (s : string) : option N :=
  let digits := match Str.strip_prefix "+" s with Some r => r | None => s end in
  if Str.is_empty digits then None else decimal 0 digits.

(** [Config::from_env]; [None] where [expect] panics. *)
Definition from_env (env : string → option string) : option t :=
  caldav_port ← parse_u16 (default "5232" (env "CALDAV_PORT"));
  mcp_port ← parse_u16 (default "5233" (env "MCP_PORT"));
  Some (mk caldav_port mcp_port
          (default "sqlite:data/caldav.db?mode=rwc" (env "DATABASE_URL"))
          (default "full" (env "MCP_TOOL_MODE"))).
End Config.

(** *** [db/mod.rs] *)

Module Migrations.

(** Does a segment have a line that is not blank and not a comment? *)
Definition has_sql (trimmed : string) : bool :=
  existsb (λ line,
    let l := Str.trim line in
    negb (Str.is_empty l) && negb (Str.starts_with "--" l)) (Str.lines trimmed).

(** The statements [run_migrations] executes, in order. *)
Definition statements (sql : string) : list string :=
  bfilter (λ trimmed, negb (Str.is_empty trimmed) && has_sql trimmed)
    (Str.trim <$> Str.split SEMI sql).

(** [run_migrations], given how a statement runs. *)
Fixpoint run_statements {S E} (exec : string → prog S (Result unit E))
    (stmts : list string) : prog S (Result unit E) :=
  match stmts with
  | [] => mret (Ok tt)
  | stmt :: rest => _ ←? exec stmt; run_statements exec rest
  end.

Definition run_migrations {S E} (exec : string → prog S (Result unit E)) (sql : string) :
    prog S (Result unit E) :=
  run_statements exec (statements sql).
End Migrations.

(** *** [main.rs] *)

(** [anyhow::Error]: an application error, one of the driver or of the system, or a
    message. *)
Inductive CliError : Type :=
| CliApp (e : AppError.t)
| CliSqlx (e : SqlxError)
| CliIo (msg : string)
| CliMessage (msg : string).

Module Cli.

(** The [Commands] that do not start the servers. *)
Inductive Command : Type :=
| CreateUser (username password : string) (email : option string)
| CreateToken (username name : string)
| ListUsers
| ListTokens (username : string)
| DeleteToken (id : string)
| ResetPassword (username password : string).

(** [{:<width$}]: padded on the right with spaces, by characters. *)
Definition pad (width : nat) (s : string) : string :=
  s +:+ String.concat "" (replicate (width - length (Str.chars s)) " ").

Definition ruler : string := String.concat "" (replicate 70 "-").

Section cli.
Context `{Sqlite, Uuids, Argon2, Rng}.

Definition app {A} (p : M (AppResult A)) : M (Result A CliError) := with_err CliApp p.

Definition user_not_found (username : string) : CliError :=
  CliMessage ("User '" +:+ username +:+ "' not found").

Definition find_user (username : string) : M (Result User.t CliError) :=
  u ←? app (Users.get_user_by_username username);
  mret (ok_or u (user_not_found username)).

Definition cmd_create_user (username password : string) (email : option string) :
    M (Result (list string) CliError) :=
  user ←? app (Users.create_user username email password);
  mret (Ok (["User created:"; "  ID:       " +:+ User.id user;
             "  Username: " +:+ User.username user] ++
            match User.email user with Some e => ["  Email:    " +:+ e] | None => [] end)).

Definition cmd_create_token (username name : string) : M (Result (list string) CliError) :=
  user ←? find_user username;
  ' (raw_token, record) ←? app (Tokens.create_token (User.id user) name);
  mret (Ok ["MCP token created:"; "  ID:    " +:+ McpToken.id record;
            "  Name:  " +:+ McpToken.name record; "  Token: " +:+ raw_token; "";
            "Save this token " +:+ String "226" (String "128" (String "148" "")) +:+
              " it cannot be retrieved again."]).

(** SELECT * FROM users ORDER BY username *)
Definition select_all_users : Stmt (list User.t) :=
  select_ordered (λ u, Some (User.username u)) Db.users.

Definition cmd_list_users : M (Result (list string) CliError) :=
  users ←? with_err CliSqlx (execute select_all_users);
  mret (Ok (match users with
            | [] => ["No users found."]
            | _ =>
                [pad 38 "ID" +:+ " " +:+ pad 20 "Username" +:+ " Email"; ruler] ++
                ((λ u, pad 38 (User.id u) +:+ " " +:+ pad 20 (User.username u) +:+ " " +:+
                       default "-" (User.email u)) <$> users)
            end)).

Definition cmd_list_tokens (username : string) : M (Result (list string) CliError) :=
  user ←? find_user username;
  tokens ←? app (Tokens.list_tokens_for_user (User.id user));
  mret (Ok (match tokens with
            | [] => ["No tokens found for user '" +:+ username +:+ "'."]
            | _ =>
                [pad 38 "ID" +:+ " " +:+ pad 20 "Name" +:+ " Created"; ruler] ++
                ((λ t, pad 38 (McpToken.id t) +:+ " " +:+ pad 20 (McpToken.name t) +:+ " " +:+
                       McpToken.created_at t) <$> tokens)
            end)).

Definition cmd_delete_token (token_id : string) : M (Result (list string) CliError) :=
  _ ←? app (Tokens.delete_token token_id);
  mret (Ok ["Token " +:+ token_id +:+ " deleted."]).

Definition cmd_reset_password (username password : string) :
    M (Result (list string) CliError) :=
  _ ←? app (Users.reset_password username password);
  mret (Ok ["Password updated for user '" +:+ username +:+ "'."]).

Definition run_command (c : Command) : M (Result (list string) CliError) :=
  match c with
  | CreateUser username password email => cmd_create_user username password email
  | CreateToken username name => cmd_create_token username name
  | ListUsers => cmd_list_users
  | ListTokens username => cmd_list_tokens username
  | DeleteToken id => cmd_delete_token id
  | ResetPassword username password => cmd_reset_password username password
  end.
End cli.
End Cli.
