(* ===== verification/Closure.v ===== *)
(** * The interface between the data-access layer and its clients

    A property of programs that holds of every function of the data-access layer and
    is closed under sequencing holds of every handler.  [ReadClosed] and
    [WriteClosed] state what such a property must promise, for the functions that
    only query and for those that change the store; the sections below prove it for
    every handler of the two servers and every command, once for all properties.
    [Integrity], [ReadOnly] and [SyncTokens] implement the interface. *)
From Stdlib Require Import NArith ZArith.
From S2P Require Import Prelude RustStr Effects Models Db DbUsers DbCalendars DbEvents.
From S2P Require Import DbShares.
From S2P Require Import DbTokens Ical Http Xml Properties CaldavHandlers CaldavRouter Json.
From S2P Require Import McpTools Mcp Cli.
From stdpp Require Import options.
Set Default Proof Using "Type*".

(** [p] has the property [J]. *)
Definition holds (J : ∀ A, M A → Prop) {A} (p : M A) : Prop := J A p.

(** Closed under sequencing and reading. *)
Class ProgClosed (J : ∀ A, M A → Prop) : Prop := {
  closed_ret : ∀ A (a : A), holds J (mret a);
  closed_bind : ∀ A B (p : M A) (f : A → M B), holds J p → (∀ a, holds J (f a)) → holds J (p ≫= f);
  closed_observe : ∀ R (f : N → Store → R), holds J (observe f);
}.

Class ReadClosed `{Sqlite, Argon2} (J : ∀ A, M A → Prop) : Prop := {
  read_prog :: ProgClosed J;
  closed_verify_user : ∀ u pw, holds J (Users.verify_user u pw);
  closed_user_by_username : ∀ u, holds J (Users.get_user_by_username u);
  closed_user_by_email : ∀ e, holds J (Users.get_user_by_email e);
  closed_calendar_by_id : ∀ id, holds J (Calendars.get_calendar_by_id id);
  closed_calendars_for_user : ∀ u, holds J (Calendars.list_calendars_for_user u);
  closed_object_by_uid : ∀ c u, holds J (Events.get_object_by_uid c u);
  closed_list_objects : ∀ c, holds J (Events.list_objects c);
  closed_list_in_range : ∀ c s e, holds J (Events.list_objects_in_range c s e);
  closed_objects_by_uids : ∀ c us, holds J (Events.get_objects_by_uids c us);
  closed_changes_since : ∀ c t, holds J (Events.get_sync_changes_since c t);
  closed_shared_calendars : ∀ u, holds J (Shares.list_shared_calendars u);
  closed_validate_token : ∀ t, holds J (Tokens.validate_token t);
  closed_tokens_for_user : ∀ u, holds J (Tokens.list_tokens_for_user u);
  closed_all_users : holds J (execute Cli.select_all_users);
}.

Class WriteClosed `{Sqlite, Uuids, Argon2, Rng} (J : ∀ A, M A → Prop) : Prop := {
  write_read :: ReadClosed J;
  closed_sessions : ∀ R (s : N → Store → R * Store),
    (∀ n σ, db (s n σ).2 = db σ) → holds J (atomic s);
  closed_create_user : ∀ u e pw, holds J (Users.create_user u e pw);
  closed_reset_password : ∀ u pw, holds J (Users.reset_password u pw);
  closed_create_calendar : ∀ o n d c tz, holds J (Calendars.create_calendar o n d c tz);
  closed_create_calendar_with_id : ∀ id o n d c tz,
    holds J (Calendars.create_calendar_with_id id o n d c tz);
  closed_update_calendar : ∀ id n d c tz, holds J (Calendars.update_calendar id n d c tz);
  closed_delete_calendar : ∀ id, holds J (Calendars.delete_calendar id);
  closed_upsert_object : ∀ c u data f, holds J (Events.upsert_object c u data f);
  closed_delete_object : ∀ c u, holds J (Events.delete_object c u);
  closed_share_calendar : ∀ c u p, holds J (Shares.share_calendar c u p);
  closed_unshare_calendar : ∀ c u, holds J (Shares.unshare_calendar c u);
  closed_create_token : ∀ u n, holds J (Tokens.create_token u n);
  closed_delete_token : ∀ t, holds J (Tokens.delete_token t);
}.

(** ** Derived rules and automation *)

Create HintDb closure.

#[export] Hint Resolve closed_ret closed_observe closed_verify_user closed_user_by_username
  closed_user_by_email closed_calendar_by_id closed_calendars_for_user closed_object_by_uid
  closed_list_objects closed_list_in_range closed_objects_by_uids closed_changes_since
  closed_shared_calendars closed_validate_token closed_tokens_for_user closed_all_users
  closed_create_user closed_reset_password closed_create_calendar
  closed_create_calendar_with_id closed_update_calendar closed_delete_calendar
  closed_upsert_object closed_delete_object closed_share_calendar closed_unshare_calendar
  closed_create_token closed_delete_token write_read read_prog : closure.

Section rules.
Context `{ProgClosed J}.

Lemma closed_try {A B E} (p : M (Result A E)) (f : A → M (Result B E)) :
  holds J p → (∀ a, holds J (f a)) → holds J (try_bind p f).
Proof.
  intros Hp Hf. apply closed_bind; [done|]. intros [a|e]; [apply Hf|apply closed_ret].
Qed.

Lemma closed_with_err {A E F} (f : E → F) (p : M (Result A E)) :
  holds J p → holds J (with_err f p).
Proof. intros Hp. apply closed_bind; [done|]. intros a. apply closed_ret. Qed.

Lemma closed_unwrap_or {A E} (d : A) (p : M (Result A E)) :
  holds J p → holds J (unwrap_or d p).
Proof. intros Hp. apply closed_bind; [done|]. intros a. apply closed_ret. Qed.
End rules.

(** One step of a derivation, by the form of the program. *)
Ltac closed_step :=
  lazymatch goal with
  | |- holds _ (try_bind _ _) => apply closed_try; [|intros ?]
  | |- holds _ (with_err _ _) => apply closed_with_err
  | |- holds _ (unwrap_or _ _) => apply closed_unwrap_or
  | |- holds _ (mbind _ _) => apply closed_bind; [|intros ?]
  | |- holds _ (observe _) => apply closed_observe
  | |- holds _ (mret _) => apply closed_ret
  | |- holds _ (Ret _) => apply closed_ret
  | |- holds _ (match ?x with _ => _ end) => destruct x
  | |- holds _ (let '_ := ?x in _) => destruct x
  end.

Ltac closed_tac :=
  repeat (closed_step || (progress cbn beta iota zeta) || solve [eauto 4 with closure]).

(** ** The handlers that only query *)

Section queries.
Context `{Sqlite, Argon2, Base64, QuickXml, !ReadClosed J}.

Lemma closed_try_basic_auth h : holds J (Auth.try_basic_auth h).
Proof. unfold Auth.try_basic_auth, Auth.parse_basic_auth. closed_tac. Qed.

Lemma closed_handle_get c f : holds J (Get.handle_get c f).
Proof. unfold Get.handle_get. closed_tac. Qed.

Lemma closed_propfind_home u r : holds J (Propfind.handle_calendar_home u r).
Proof. unfold Propfind.handle_calendar_home. closed_tac. Qed.

Lemma closed_propfind_calendar u x c r : holds J (Propfind.handle_calendar u x c r).
Proof. unfold Propfind.handle_calendar. closed_tac. Qed.

Lemma closed_email_home u p d e q : holds J (Propfind.handle_email_home u p d e q).
Proof. unfold Propfind.handle_email_home. closed_tac. Qed.

Lemma closed_add_changes x c i l b : holds J (Report.add_changes x c i l b).
Proof.
  revert b. induction l as [|ch l IH]; intros b; cbn [Report.add_changes]; closed_tac.
Qed.

Lemma closed_handle_report u x c r : holds J (Report.handle_report u x c r).
Proof.
  unfold Report.handle_report, Report.handle_multiget, Report.handle_query,
    Report.handle_sync.
  closed_tac; apply closed_add_changes.
Qed.

Lemma closed_verify_calendar_access u c : holds J (Router.verify_calendar_access u c).
Proof. unfold Router.verify_calendar_access. closed_tac. Qed.
End queries.

#[export] Hint Resolve closed_try_basic_auth closed_handle_get closed_propfind_home
  closed_propfind_calendar closed_email_home closed_handle_report
  closed_verify_calendar_access : closure.

Section query_routes.
Context `{Sqlite, Argon2, Base64, QuickXml, !ReadClosed J}.

Lemma closed_auth_or_path_user h n : holds J (Router.auth_or_path_user h n).
Proof. unfold Router.auth_or_path_user. closed_tac. Qed.

Lemma closed_auth_or_email_user h n : holds J (Router.auth_or_email_user h n).
Proof. unfold Router.auth_or_email_user. closed_tac. Qed.

Lemma closed_root_propfind p h : holds J (Router.root_propfind p h).
Proof. unfold Router.root_propfind, Router.inline_auth. closed_tac. Qed.

Lemma closed_with_user a k :
  holds J a → (∀ u, holds J (k u)) → holds J (Router.with_user a k).
Proof. intros Ha Hk. unfold Router.with_user. closed_tac. Qed.

Lemma closed_with_collection_access u c r k :
  holds J k → holds J (Router.with_collection_access u c r k).
Proof. intros Hk. unfold Router.with_collection_access. closed_tac. Qed.

Lemma closed_with_object_access u c k :
  holds J k → holds J (Router.with_object_access u c k).
Proof. intros Hk. unfold Router.with_object_access. closed_tac. Qed.

Lemma closed_email_discovery e r : holds J (Router.handle_caldav_email_discovery e r).
Proof. unfold Router.handle_caldav_email_discovery. closed_tac. Qed.

Lemma closed_server_root r : holds J (Router.handle_server_root r).
Proof.
  unfold Router.handle_server_root. closed_tac; apply closed_root_propfind.
Qed.

Lemma closed_caldav_root r : holds J (Router.handle_caldav_root r).
Proof.
  unfold Router.handle_caldav_root. closed_tac; apply closed_root_propfind.
Qed.

Lemma closed_fallback_discovery r : holds J (Router.handle_fallback_discovery r).
Proof.
  unfold Router.handle_fallback_discovery. closed_tac; apply closed_root_propfind.
Qed.

Lemma closed_principal_discovery u r : holds J (Router.handle_principal_discovery u r).
Proof. unfold Router.handle_principal_discovery. closed_tac. Qed.
End query_routes.

#[export] Hint Resolve closed_auth_or_path_user closed_auth_or_email_user closed_root_propfind
  closed_with_user closed_with_collection_access closed_with_object_access
  closed_email_discovery closed_server_root closed_caldav_root closed_fallback_discovery
  closed_principal_discovery : closure.

(** ** The handlers that change the store *)

Section updates.
Context `{Sqlite, Uuids, Argon2, Rng, Base64, QuickXml, Chrono, !WriteClosed J}.

Lemma closed_handle_delete_object c f : holds J (Delete.handle_delete_object c f).
Proof. unfold Delete.handle_delete_object. closed_tac. Qed.

Lemma closed_handle_delete_calendar c : holds J (Delete.handle_delete_calendar c).
Proof. unfold Delete.handle_delete_calendar. closed_tac. Qed.

Lemma closed_handle_put c f r : holds J (Put.handle_put c f r).
Proof. unfold Put.handle_put, Put.check_if_match. closed_tac. Qed.

Lemma closed_handle_mkcalendar u n c r : holds J (MkCalendar.handle_mkcalendar u n c r).
Proof. unfold MkCalendar.handle_mkcalendar. closed_tac. Qed.

Lemma closed_handle_proppatch u x c r : holds J (PropPatch.handle_proppatch u x c r).
Proof. unfold PropPatch.handle_proppatch. closed_tac. Qed.

Lemma closed_new_v4 : holds J new_v4.
Proof. apply closed_observe. Qed.

Lemma closed_now_stamp : holds J now_stamp.
Proof. apply closed_observe. Qed.

Lemma closed_required {A} (o : option A) msg : holds J (required o msg).
Proof. apply closed_ret. Qed.
End updates.

#[export] Hint Resolve closed_handle_delete_object closed_handle_delete_calendar
  closed_handle_put closed_handle_mkcalendar closed_handle_proppatch closed_new_v4
  closed_now_stamp closed_required : closure.

Section update_routes.
Context `{Sqlite, Uuids, Argon2, Rng, Base64, QuickXml, Chrono, Serde, !WriteClosed J}.

Lemma closed_collection_method u x n c r : holds J (Router.collection_method u x n c r).
Proof. unfold Router.collection_method. closed_tac. Qed.

Lemma closed_object_method c f r : holds J (Router.object_method c f r).
Proof. unfold Router.object_method. closed_tac. Qed.

Lemma closed_generate_uid : holds J Builder.generate_uid.
Proof. unfold Builder.generate_uid. closed_tac. Qed.

Lemma closed_query_objects c s e : holds J (EventTools.query_objects c s e).
Proof. unfold EventTools.query_objects. closed_tac. Qed.

Lemma closed_resolve_calendar u : holds J (SimpleTools.resolve_calendar u).
Proof. unfold SimpleTools.resolve_calendar. closed_tac. Qed.

Lemma closed_create_session u : holds J (Session.create_session u).
Proof. unfold Session.create_session. closed_tac. by apply closed_sessions. Qed.

Lemma closed_get_user_id u : holds J (Session.get_user_id u).
Proof. apply closed_observe. Qed.

Lemma closed_remove_session u : holds J (Session.remove_session u).
Proof. by apply closed_sessions. Qed.
End update_routes.

#[export] Hint Resolve closed_collection_method closed_object_method closed_generate_uid
  closed_query_objects closed_resolve_calendar closed_create_session closed_get_user_id
  closed_remove_session : closure.

Section servers.
Context `{Sqlite, Uuids, Argon2, Rng, Base64, QuickXml, Chrono, Serde, !WriteClosed J}.

Theorem closed_call e captures r p : Router.call e captures r = Some p → holds J p.
Proof.
  unfold Router.call, Router.handle_email_calendar_collection, Router.handle_email_object,
    Router.handle_calendar_home, Router.handle_calendar_collection, Router.handle_object.
  intros E; repeat case_match; simplify_eq; closed_tac; apply closed_with_user; intros;
    closed_tac.
Qed.

Lemma closed_simple_dispatch u t a : holds J (SimpleTools.dispatch u t a).
Proof.
  unfold SimpleTools.dispatch, SimpleTools.handle_add, SimpleTools.handle_delete,
    SimpleTools.handle_list. closed_tac.
Qed.

Lemma closed_dispatch u t a m : holds J (Tools.dispatch u t a m).
Proof.
  unfold Tools.dispatch.
  repeat (case_decide; [try apply closed_simple_dispatch|]); try apply closed_ret.
  - unfold CalendarTools.list_calendars. closed_tac.
  - unfold CalendarTools.get_calendar. closed_tac.
  - unfold CalendarTools.create_calendar. closed_tac.
  - unfold CalendarTools.delete_calendar_tool. closed_tac.
  - unfold EventTools.create_event. closed_tac.
  - unfold EventTools.get_event. closed_tac.
  - unfold EventTools.update_event. closed_tac.
  - unfold EventTools.delete_event. closed_tac.
  - unfold EventTools.query_events. closed_tac.
  - unfold SharingTools.share_calendar. closed_tac.
  - unfold SharingTools.unshare_calendar. closed_tac.
  - unfold SharingTools.list_shared_calendars. closed_tac.
Qed.

Lemma closed_handle_request u r m : holds J (Handlers.handle_request u r m).
Proof.
  unfold Handlers.handle_request, Handlers.handle_initialize, Handlers.handle_tools_call.
  closed_tac; apply closed_dispatch.
Qed.

Lemma closed_handle_post m u r : holds J (Transport.handle_post m u r).
Proof.
  unfold Transport.handle_post. closed_tac; apply closed_handle_request.
Qed.

Theorem closed_mcp_serve m r : holds J (McpRouter.serve m r).
Proof.
  unfold McpRouter.serve, McpRouter.require_bearer_auth, McpRouter.mcp_route,
    Transport.handle_delete. closed_tac; apply closed_handle_post.
Qed.

Theorem closed_run_command c : holds J (Cli.run_command c).
Proof.
  destruct c; cbn [Cli.run_command]; unfold Cli.cmd_create_user, Cli.cmd_create_token,
    Cli.cmd_list_users, Cli.cmd_list_tokens, Cli.cmd_delete_token, Cli.cmd_reset_password,
    Cli.find_user, Cli.app; closed_tac.
Qed.
End servers.
