(* ===== verification/Layer.v ===== *)
(** * The data-access layer over its statements

    One level below [Closure]: a property of programs that holds of each SQL statement of
    the data-access layer, and is closed under sequencing, holds of each function of the
    layer, and so, by [Closure], of every handler, tool and command.  [QueryClosed] and
    [StmtClosed] say what such a property must promise of the statements; identifiers
    reach the statements as draws, so the promise may rely on their form. *)
From Stdlib Require Import NArith ZArith.
From S2P Require Import Prelude RustStr Effects Models Db DbUsers DbCalendars DbEvents.
From S2P Require Import DbShares DbTokens Cli Closure.
From stdpp Require Import options.
Set Default Proof Using "Type*".

(** A statement that leaves the database as it is. *)
Definition query {R} (stmt : Stmt R) : Prop := ∀ n d, (stmt n d).2 = d.

Class QueryClosed `{Sqlite} (J : ∀ A, M A → Prop) : Prop := {
  query_prog :: ProgClosed J;
  stmt_query : ∀ R (stmt : Stmt R), query stmt → holds J (execute stmt);
}.

Class StmtClosed `{Sqlite, Uuids} (J : ∀ A, M A → Prop) : Prop := {
  stmt_read :: QueryClosed J;
  stmt_draw_v4 : ∀ B (f : string → M B),
    (∀ n, holds J (f (uuid_v4 n))) → holds J (new_v4 ≫= f);
  stmt_draw_v7 : ∀ B (f : string → M B),
    (∀ n, holds J (f (uuid_v7 n))) → holds J (now_v7 ≫= f);
  stmt_sessions : ∀ R (s : N → Store → R * Store),
    (∀ n σ, db (s n σ).2 = db σ) → holds J (atomic s);
  stmt_insert_user : ∀ n u e h, holds J (execute (Users.insert_user (uuid_v7 n) u e h));
  stmt_update_password : ∀ h u, holds J (execute (Users.update_password_hash h u));
  stmt_insert_calendar : ∀ n id o nm d c tz,
    let tok := Calendars.sync_token_of_uuid (uuid_v7 n) in
    holds J (execute (Calendars.insert_calendar id o nm d c tz tok tok));
  stmt_update_properties : ∀ n d c tz id,
    holds J (execute (Calendars.update_properties n d c tz id));
  stmt_update_tokens : ∀ n id,
    let tok := Calendars.sync_token_of_uuid (uuid_v7 n) in
    holds J (execute (Calendars.update_tokens tok tok id));
  stmt_delete_calendar : ∀ id, holds J (execute (Calendars.delete_by_id id));
  stmt_insert_object : ∀ n m c u data f,
    holds J (execute (Events.insert_object (uuid_v7 n) c u
                        (Events.etag_of_uuid (uuid_v4 m)) data f));
  stmt_update_object : ∀ m c u data f,
    holds J (execute (Events.update_object c u (Events.etag_of_uuid (uuid_v4 m)) data f));
  stmt_delete_object : ∀ c u, holds J (execute (Events.delete_by_uid c u));
  stmt_insert_sync_change : ∀ n c u k,
    holds J (execute (Events.insert_sync_change c u k
                        (Calendars.sync_token_of_uuid (uuid_v7 n))));
  stmt_upsert_share : ∀ n c u p, holds J (execute (Shares.upsert_share (uuid_v7 n) c u p));
  stmt_delete_share : ∀ c u, holds J (execute (Shares.delete_share c u));
  stmt_insert_token : ∀ n u h nm, holds J (execute (Tokens.insert_token (uuid_v7 n) u h nm));
  stmt_delete_token : ∀ id, holds J (execute (Tokens.delete_by_id id));
}.

#[export] Hint Resolve stmt_insert_user stmt_update_password stmt_insert_calendar
  stmt_update_properties stmt_update_tokens stmt_delete_calendar stmt_insert_object
  stmt_update_object stmt_delete_object stmt_insert_sync_change stmt_upsert_share
  stmt_delete_share stmt_insert_token stmt_delete_token stmt_read query_prog : closure.

#[export] Hint Extern 3 (holds _ (execute _)) => (apply stmt_query; by intros ??) : closure.

(** ** Rules *)

Section rules.
Context `{StmtClosed J}.

Lemma stmt_new_etag B (f : string → M B) :
  (∀ n, holds J (f (Events.etag_of_uuid (uuid_v4 n)))) → holds J (Events.new_etag ≫= f).
Proof. intros Hf. by apply (stmt_draw_v4 _ (λ u, f (Events.etag_of_uuid u))). Qed.

Lemma stmt_new_sync_token B (f : string → M B) :
  (∀ n, holds J (f (Calendars.sync_token_of_uuid (uuid_v7 n)))) →
  holds J (Calendars.new_sync_token ≫= f).
Proof. intros Hf. by apply (stmt_draw_v7 _ (λ u, f (Calendars.sync_token_of_uuid u))). Qed.
End rules.

(** One step of a derivation over statements: draws first. *)
Ltac layer_step :=
  lazymatch goal with
  | |- holds _ (new_v4 ≫= _) => apply stmt_draw_v4; intros ?
  | |- holds _ (now_v7 ≫= _) => apply stmt_draw_v7; intros ?
  | |- holds _ (Events.new_etag ≫= _) => apply stmt_new_etag; intros ?
  | |- holds _ (Calendars.new_sync_token ≫= _) => apply stmt_new_sync_token; intros ?
  | |- holds _ (sql_try _) => apply closed_with_err
  | |- _ => closed_step
  end.

Ltac layer_tac :=
  repeat (layer_step || (progress cbn beta iota zeta) || solve [eauto 4 with closure]).

(** ** The functions that only query *)

Section queries.
Context `{Sqlite, Argon2, !QueryClosed J}.

Lemma layer_calendar_by_id id : holds J (Calendars.get_calendar_by_id id).
Proof. unfold Calendars.get_calendar_by_id. layer_tac. Qed.

Lemma layer_object_by_uid c u : holds J (Events.get_object_by_uid c u).
Proof. unfold Events.get_object_by_uid. layer_tac. Qed.

Lemma layer_user_by_username u : holds J (Users.get_user_by_username u).
Proof. unfold Users.get_user_by_username. layer_tac. Qed.

Lemma layer_user_by_email e : holds J (Users.get_user_by_email e).
Proof. unfold Users.get_user_by_email. layer_tac. Qed.
End queries.

#[export] Hint Resolve layer_calendar_by_id layer_object_by_uid layer_user_by_username
  layer_user_by_email : closure.

Section reading_layer.
Context `{Sqlite, Argon2, !QueryClosed J}.

Lemma layer_resolve_shares l : holds J (Shares.resolve_shares l).
Proof. induction l; cbn [Shares.resolve_shares]; layer_tac. Qed.

#[export] Instance layer_read_closed : ReadClosed J.
Proof.
  split; intros; try apply _.
  - unfold Users.verify_user. layer_tac.
  - layer_tac.
  - layer_tac.
  - layer_tac.
  - unfold Calendars.list_calendars_for_user. layer_tac.
  - layer_tac.
  - unfold Events.list_objects. layer_tac.
  - unfold Events.list_objects_in_range. layer_tac.
  - unfold Events.get_objects_by_uids. layer_tac.
  - unfold Events.get_sync_changes_since. layer_tac.
  - unfold Shares.list_shared_calendars. layer_tac. apply layer_resolve_shares.
  - unfold Tokens.validate_token. layer_tac.
  - unfold Tokens.list_tokens_for_user. layer_tac.
  - unfold Cli.select_all_users. layer_tac.
Qed.
End reading_layer.

(** ** The functions that change the store *)

Section writing_layer.
Context `{Sqlite, Uuids, Argon2, Rng, !StmtClosed J}.

Lemma layer_log_sync_change n c u k :
  holds J (Events.log_sync_change c u k (Calendars.sync_token_of_uuid (uuid_v7 n))).
Proof. unfold Events.log_sync_change. layer_tac. Qed.

Lemma layer_bump_ctag c : holds J (Calendars.bump_ctag c).
Proof. unfold Calendars.bump_ctag. layer_tac. Qed.
End writing_layer.

#[export] Hint Resolve layer_log_sync_change layer_bump_ctag : closure.

Section layer.
Context `{Sqlite, Uuids, Argon2, Rng, !StmtClosed J}.

(** The insertion or update in [upsert_object]. *)
Lemma layer_save (is_new : bool) c u n m data f :
  let etag := Events.etag_of_uuid (uuid_v4 n) in
  let tok := Calendars.sync_token_of_uuid (uuid_v7 m) in
  holds J (if is_new then
             id ← now_v7;
             _ ←? sql_try (Events.insert_object id c u etag data f);
             Events.log_sync_change c u "created" tok
           else
             _ ←? sql_try (Events.update_object c u etag data f);
             Events.log_sync_change c u "modified" tok).
Proof. layer_tac. Qed.

Lemma layer_upsert_object c u data f : holds J (Events.upsert_object c u data f).
Proof. unfold Events.upsert_object. layer_tac. Qed.

Lemma layer_delete_object c u : holds J (Events.delete_object c u).
Proof. unfold Events.delete_object. layer_tac. Qed.

Lemma layer_create_calendar_with_id id o n d c tz :
  holds J (Calendars.create_calendar_with_id id o n d c tz).
Proof. unfold Calendars.create_calendar_with_id. layer_tac. Qed.

#[export] Instance layer_write_closed : WriteClosed J.
Proof.
  split; intros; try apply _.
  - by apply stmt_sessions.
  - unfold Users.create_user, Users.hash_password. layer_tac.
  - unfold Users.reset_password, Users.hash_password. layer_tac.
  - unfold Calendars.create_calendar. layer_tac. apply layer_create_calendar_with_id.
  - apply layer_create_calendar_with_id.
  - unfold Calendars.update_calendar. layer_tac.
  - unfold Calendars.delete_calendar. layer_tac.
  - apply layer_upsert_object.
  - apply layer_delete_object.
  - unfold Shares.share_calendar. layer_tac.
  - unfold Shares.unshare_calendar. layer_tac.
  - unfold Tokens.create_token, Tokens.generate_raw_token, Tokens.hash_token. layer_tac.
  - unfold Tokens.delete_token. layer_tac.
Qed.
End layer.

(** ** Invariants of the database *)

Section kept.
Context (P : Db.t → Prop).

(** The program keeps the invariant at every one of its steps, whatever other programs
    that keep it do in between, and [Q] holds of its result. *)
Definition yields {A} (Q : A → Prop) (p : M A) : Prop :=
  ∀ n, safe (db_inv (λ _, P)) (λ _, Q) n p.

Definition kept (A : Type) (p : M A) : Prop := yields (λ _, True) p.

(** A statement that preserves the invariant. *)
Definition preserves {R} (stmt : Stmt R) : Prop := ∀ n d, P d → P (stmt n d).2.

Lemma yields_ret {A} (Q : A → Prop) a : Q a → yields Q (mret a).
Proof. by intros Ha n. Qed.

Lemma yields_bind {A B} (R : A → Prop) (Q : B → Prop) (p : M A) (f : A → M B) :
  yields R p → (∀ a, R a → yields Q (f a)) → yields Q (p ≫= f).
Proof. intros Hp Hf n. eapply safe_bind; [apply Hp|]. intros m a _ Ha. by apply Hf. Qed.

Lemma kept_bind {A B} (Q : B → Prop) (p : M A) (f : A → M B) :
  holds kept p → (∀ a, yields Q (f a)) → yields Q (p ≫= f).
Proof. intros Hp Hf. eapply yields_bind; [exact Hp|]. intros a _. apply Hf. Qed.

Lemma kept_try {A B} (Q : AppResult B → Prop) (p : M (AppResult A)) f :
  holds kept p → (∀ e, Q (Err e)) → (∀ a, yields Q (f a)) → yields Q (try_bind p f).
Proof.
  intros Hp He Hf. apply kept_bind; [exact Hp|]. intros [a|e]; [apply Hf|by apply yields_ret].
Qed.

Lemma yields_observe {R} (f : N → Store → R) (Q : R → Prop) :
  (∀ n σ, P (db σ) → Q (f n σ)) → yields Q (observe f).
Proof. intros HQ n. apply safe_observe; [by intros ???|]. intros m σ _ Hσ. by apply HQ. Qed.

Lemma yields_draw {R B} (Q : B → Prop) (g : N → R) (f : R → M B) :
  (∀ n, yields Q (f (g n))) → yields Q (observe (λ n _, g n) ≫= f).
Proof. intros Hf n m σ Hm HI. split; [done|]. apply Hf. Qed.

Lemma kept_yields {A} (Q : A → Prop) p : yields Q p → kept A p.
Proof. intros Hp n. eapply safe_mono; [apply (Hp n)|lia|done]. Qed.

Context `{Sqlite, Uuids}.

Lemma kept_execute {R} (stmt : Stmt R) : preserves stmt → kept _ (execute stmt).
Proof.
  intros Hs n. apply safe_execute; [by intros ???|done|].
  intros m d _ Hd. split; [by apply Hs|done].
Qed.

#[export] Instance kept_prog_closed : ProgClosed kept.
Proof.
  split; unfold holds, kept.
  - intros A a. by apply yields_ret.
  - intros A B p f Hp Hf. by eapply yields_bind.
  - intros R f. by apply yields_observe.
Qed.

#[export] Instance kept_query_closed : QueryClosed kept.
Proof.
  split; [apply _|]. intros R stmt Hq. apply kept_execute. intros n d Hd. by rewrite Hq.
Qed.

Lemma kept_sessions {R} (s : N → Store → R * Store) :
  (∀ n σ, db (s n σ).2 = db σ) → kept _ (atomic s).
Proof. intros Hs n m σ Hm HI. split; [|done]. unfold db_inv in *. by rewrite Hs. Qed.
End kept.

(** [StmtClosed] for an invariant that the statements, by their [preserves] lemmas,
    keep. *)
Ltac kept_closed db :=
  split; unfold holds; try (intros; apply kept_execute; auto with db; fail);
    [ apply _ | intros B f Hf; by apply yields_draw | intros B f Hf; by apply yields_draw
    | intros R s Hs; by apply kept_sessions ].
