(* ===== verification/Sim.v ===== *)
(** * A simulated environment

    Concrete instances of the parameters of the model, used to run it on concrete
    inputs: a database that never faults and visits rows in insertion order, a
    clock that stands still, identifiers numbered by the step that draws them, and
    a transparent password hash. *)
From Stdlib Require Import NArith ZArith.
From S2P Require Import Prelude RustStr Effects Models Db DbUsers DbTokens Ical Http Xml.
From S2P Require Import CaldavHandlers Json.
From stdpp Require Import options.

Module Sim.

Definition now : string := "2026-03-01 09:00:00".

#[export] Instance sqlite : Sqlite := {
  sql_fault := λ _, None;
  sql_scan := λ _ _ l, l;
  datetime_now := λ _, now;
  sqlx_display := λ e, match e with
                       | SqlxDatabase m => m
                       | RowNotFound => "no rows returned"
                       | SqlxOther m => m
                       end;
}.

#[export] Instance sqlite_laws : SqliteLaws.
Proof. by intros A n l. Qed.

(** The same, but the statement at one step fails. *)
Definition failing_at (k : N) : Sqlite := {|
  sql_fault := λ n, if (n =? k)%N then Some (SqlxOther "disk I/O error") else None;
  sql_scan := λ _ _ l, l;
  datetime_now := λ _, now;
  sqlx_display := sqlx_display;
|}.

Lemma failing_at_laws k : @SqliteLaws (failing_at k).
Proof. by intros A n l. Qed.

#[export] Instance uuids : Uuids := {
  uuid_v4 := λ n, "v4-" +:+ pretty n;
  uuid_v7 := λ n, "v7-" +:+ pretty n;
}.

#[export] Instance uuid_laws : UuidLaws.
Proof. split; intros i j E; cbn in E; by simplify_eq. Qed.

#[export] Instance argon2 : Argon2 := {
  argon2_hash := λ n pw, Ok ("argon2:" +:+ pw);
  phc_error := λ h, if Str.starts_with "argon2:" h then None else Some "not a PHC string";
  argon2_verify := λ pw h, bool_decide (h = "argon2:" +:+ pw);
}.

#[export] Instance argon2_laws : Argon2Laws.
Proof. split; intros n pw h [= <-]; cbn; by rewrite ?bool_decide_eq_true. Qed.

#[export] Instance rng : Rng := { random_base64 := λ n, "r" +:+ pretty n }.

#[export] Instance chrono : Chrono := λ _, "20260301T090000Z".

(** Credentials in the clear. *)
#[export] Instance base64 : Base64 := Some.

(** *** XML *)

Definition tag (name : string) : BytesStart.t := BytesStart.mk ("D:" +:+ name) name [].

Definition element (name : string) (inner : list Event) : list Event :=
  [EvStart (tag name)] ++ inner ++ [EvEnd name].

(** A few request bodies, named. *)
Definition read (body : string) : list Event :=
  if decide (body = "multiget") then
    element "calendar-multiget"
      (element "prop" [EvEmpty (tag "getetag")] ++
       element "href" [EvText "/caldav/users/alice/cal/meeting.ics"])
  else if decide (body = "displayname") then
    element "set" (element "prop" (element "displayname" [EvText "Home"]))
  else if decide (body = "prop") then
    element "propfind" (element "prop" [EvEmpty (tag "getetag"); EvEmpty (tag "nothing")])
  else [EvError].

(** Tags and texts, without escaping. *)
Definition write_op (op : WriteOp) : string :=
  match op with
  | WDecl => "<?xml?>"
  | WStart name _ => "<" +:+ name +:+ ">"
  | WText text => text
  | WEnd name => "</" +:+ name +:+ ">"
  | WEmpty name => "<" +:+ name +:+ "/>"
  | WRaw bytes => bytes
  end.

#[export] Instance quick_xml : QuickXml := {
  xml_read := read;
  xml_write := λ ops, String.concat "" (write_op <$> ops);
}.

(** *** JSON *)

Definition rpc (method : string) (params : json) : json :=
  JObject [("jsonrpc", JString "2.0"); ("id", JNumber (PosInt 1));
           ("method", JString method); ("params", params)].

(** The text of a method's request is the method's name; strings print as themselves. *)
Fixpoint show (v : json) : string :=
  match v with
  | JNull => "null"
  | JBool b => if b then "true" else "false"
  | JNumber (PosInt n) => pretty n
  | JNumber (NegInt z) => pretty z
  | JNumber (Float t) => t
  | JString s => s
  | JArray items => "[" +:+ String.concat "," (show <$> items) +:+ "]"
  | JObject members =>
      "{" +:+ String.concat "," ((λ '(k, v), k +:+ ":" +:+ show v) <$> members) +:+ "}"
  end.

#[export] Instance serde : Serde := {
  json_from_slice := λ body,
    if decide (body = "") then Err "EOF while parsing a value"
    else Ok (rpc body (JObject []));
  request_error := λ _, "invalid request";
  json_to_vec := show;
  json_pretty := show;
}.

Definition nofault : ∀ n, sql_fault n = None := λ n, eq_refl.

(** Alice and Bob, a calendar of Alice's shared with Bob for reading, one object. *)
Definition alice : User.t := User.mk "alice-id" "alice" (Some "a@x.org") "argon2:pa" now.
Definition bob : User.t := User.mk "bob-id" "bob" None "argon2:pb" now.
Definition carol : User.t := User.mk "carol-id" "carol" None "argon2:pc" now.

Definition work : Calendar.t :=
  Calendar.mk "cal" "alice-id" "Work" "" "#0E61B9" "UTC" "data:,sync-0" "data:,sync-0" now now.

Definition meeting : CalendarObject.t :=
  CalendarObject.mk "obj" "cal" "meeting" (String DQ ("e1" +:+ String DQ "")) "DATA" "VEVENT"
    (Some "20260301T090000Z") (Some "20260301T100000Z") (Some "Meeting") now now.

Definition share : CalendarShare.t := CalendarShare.mk "share" "cal" "bob-id" "read" now.

Definition database : Db.t :=
  Db.mk [alice; bob; carol] [work] [meeting] [share]
    [SyncChange.mk 1 "cal" "meeting" "created" "data:,sync-1" now] 1 [].

Definition world : World Store := mkWorld 100 (mkStore database ∅).

(** Decides the integrity of a concrete database. *)
Ltac solve_wf :=
  split; vm_compute; repeat first
    [ apply NoDup_nil_2 | apply NoDup_cons_2; [set_solver|]
    | constructor | lia | done | set_solver ].

Lemma database_wf : Db.wf database.
Proof. solve_wf. Qed.

End Sim.
