(* ===== verification/IcalSpec.v ===== *)
(** * What the iCalendar code promises

    [extract_fields] reads back what [build_vevent] writes. *)
From Stdlib Require Import Ascii NArith ZArith.
From S2P Require Import Prelude RustStr Effects Models Db Ical.
From stdpp Require Import options.

(** ** Property lines *)

(** A value that a line carries unchanged: it has no line break and does not end in
    white space. *)
Definition clean (v : string) : Prop :=
  Str.contains_char NL v = false ∧ Str.contains_char CR v = false ∧
  Forall (λ w, Str.strip_suffix w (String COLON v) = None) Str.white_space.

#[global] Instance clean_dec v : Decision (clean v).
Proof. unfold clean. apply _. Defined.

(** A name starts with a capital letter and has no line break. *)
Definition line_name (name : string) : Prop :=
  match name with
  | "" => False
  | String a name' =>
      Str.byte_in 65 90 a = true ∧ Str.contains_char NL name' = false ∧
      Str.contains_char CR name' = false
  end.

Definition line (name v : string) : string := name +:+ String COLON v.

Lemma capital_not_white a s :
  Str.byte_in 65 90 a = true →
  Forall (λ w, Str.strip_prefix w (String a s) = None) Str.white_space.
Proof.
  intros Ha. repeat (apply Forall_cons; split); [..|by apply Forall_nil];
    simpl; (rewrite decide_False; [done|]); intros <-; discriminate Ha.
Qed.

Lemma white_no_colon : Forall (λ w, Str.contains_char COLON w = false) Str.white_space.
Proof. by repeat (apply Forall_cons; split). Qed.

Lemma strip_suffix_colon w p v :
  Str.contains_char COLON w = false →
  Str.strip_suffix w (String COLON v) = None → Str.strip_suffix w (p +:+ String COLON v) = None.
Proof.
  intros Hw Hv. induction p as [|a p IH]; [done|]. rewrite str_app_cons. simpl.
  rewrite decide_False; [by rewrite IH|]. intros <-.
  change (String a (p +:+ String COLON v)) with (String a p +:+ String COLON v) in Hw.
  rewrite contains_char_app in Hw. simpl in Hw. by rewrite orb_true_r in Hw.
Qed.

Lemma trimmed_line name v : line_name name → clean v → trimmed (line name v).
Proof.
  intros Hn (_ & _ & Hv). destruct name as [|a name]; [done|]. destruct Hn as (Ha & _).
  pose proof (capital_not_white a (name +:+ String COLON v) Ha) as Hp.
  pose proof white_no_colon as Hc. unfold trimmed, line. rewrite str_app_cons.
  rewrite Forall_forall in *. intros w Hw. split; [by apply Hp|].
  rewrite <- str_app_cons. apply strip_suffix_colon; [by apply Hc|by apply Hv].
Qed.

(** A line that unfolding leaves alone. *)
Definition unfolded (l : string) : Prop :=
  Str.contains_char NL l = false ∧ Str.contains_char CR l = false ∧
  ∃ a s, l = String a s ∧ Str.byte_in 65 90 a = true.

Lemma unfolded_line name v : line_name name → clean v → unfolded (line name v).
Proof.
  intros Hn (H1 & H2 & _). destruct name as [|a name]; [done|]. destruct Hn as (Ha & Hn1 & Hn2).
  unfold line, unfolded. rewrite str_app_cons. cbn [Str.contains_char].
  rewrite !contains_char_app. cbn [Str.contains_char]. rewrite H1, H2, Hn1, Hn2.
  split; [|split; [|by eauto]]; (rewrite decide_False; [done|]); intros ->; discriminate Ha.
Qed.

Lemma trim_end_cr l : Str.contains_char CR l = false → Str.trim_end_matches (String CR "") l = l.
Proof.
  intros Hl. apply trim_end_matches_id. destruct (Str.strip_suffix _ l) as [r|] eqn:E; [|done].
  apply strip_suffix_Some in E as ->. rewrite contains_char_app in Hl. simpl in Hl.
  by rewrite orb_true_r in Hl.
Qed.

Lemma unfold_loop_unfolded ls res cur :
  Forall unfolded ls →
  Parser.unfold_loop ls res cur =
    res ++ (if Str.is_empty cur then [] else [cur]) ++ ls.
Proof.
  intros Hls. revert res cur. induction Hls as [|l ls (_ & Hcr & a & s & -> & Ha) Hls IH];
    intros res cur; cbn [Parser.unfold_loop].
  - rewrite app_nil_r. by destruct (Str.is_empty cur); rewrite ?app_nil_r.
  - rewrite trim_end_cr by done.
    assert (Str.starts_with " " (String a s) = false ∧
            Str.starts_with (String TAB "") (String a s) = false) as [-> ->].
    { unfold Str.starts_with. simpl. split; (rewrite decide_False; [done|]);
        intros <-; discriminate Ha. }
    cbn [orb]. rewrite IH. cbn [Str.is_empty]. destruct (Str.is_empty cur); [done|].
    by rewrite <- !app_assoc.
Qed.

(** Unfolding a text of such lines gives the lines. *)
Lemma unfold_lines_text ls :
  Forall unfolded ls → ls ≠ [] → Parser.unfold_lines (Str.join CRLF ls +:+ CRLF) = ls.
Proof.
  intros Hls Hne. unfold Parser.unfold_lines.
  assert (Str.join CRLF ls +:+ CRLF = String.concat "" ((λ l, l +:+ CRLF) <$> ls)) as ->.
  { clear Hls. unfold Str.join. induction ls as [|l ls IH]; [done|].
    destruct ls as [|l' ls]; [done|]. specialize (IH ltac:(done)).
    change (String.concat CRLF (l :: l' :: ls)) with (l +:+ (CRLF +:+ String.concat CRLF (l' :: ls))).
    rewrite !str_app_assoc, IH. rewrite !fmap_cons. cbn [String.concat].
    by rewrite str_app_nil_l, (str_app_assoc l CRLF). }
  rewrite lines_crlf by (eapply Forall_impl; [exact Hls|]; intros l Hl; apply Hl).
  by rewrite unfold_loop_unfolded.
Qed.

(** ** The fields of a line *)

(** The lines of a component that set no field. *)
Definition set_uid v f := IcalFields.mk (Some v) (IcalFields.dtstart f) (IcalFields.dtend f)
  (IcalFields.summary f) (IcalFields.component_type f).
Definition set_start v f := IcalFields.mk (IcalFields.uid f) (Some v) (IcalFields.dtend f)
  (IcalFields.summary f) (IcalFields.component_type f).
Definition set_end v f := IcalFields.mk (IcalFields.uid f) (IcalFields.dtstart f) (Some v)
  (IcalFields.summary f) (IcalFields.component_type f).
Definition set_summary v f := IcalFields.mk (IcalFields.uid f) (IcalFields.dtstart f)
  (IcalFields.dtend f) (Some v) (IcalFields.component_type f).

(** [extract_line] on a line that [trim] leaves alone: unfolds it and computes on the
    name. *)
Ltac field_line :=
  intros; unfold Parser.extract_line; rewrite trim_trimmed by (apply trimmed_line; done);
  unfold line; reflexivity.

Lemma field_uid b f v :
  clean v → Parser.extract_line (b, f) (line "UID" v) = (b, set_uid v f).
Proof.
  intros Hv. destruct b; revert Hv; field_line.
Qed.

Lemma field_start f v :
  clean v → Parser.extract_line (true, f) (line "DTSTART" v) = (true, set_start v f).
Proof. field_line. Qed.

Lemma field_end f v :
  clean v → Parser.extract_line (true, f) (line "DTEND" v) = (true, set_end v f).
Proof. field_line. Qed.

Lemma field_summary f v :
  clean v → Parser.extract_line (true, f) (line "SUMMARY" v) = (true, set_summary v f).
Proof. field_line. Qed.

(** A property with parameters. *)
Lemma extract_param name p v :
  Str.contains_char COLON p = false →
  Parser.extract_property (name +:+ String SEMI (p +:+ String COLON v)) name = Some v.
Proof.
  intros Hp. unfold Parser.extract_property. rewrite strip_prefix_app.
  change (String SEMI (p +:+ String COLON v)) with (String SEMI p +:+ String COLON v).
  rewrite split_once_app by (simpl; by rewrite Hp). reflexivity.
Qed.

Definition zoned (name tz : string) : string := name +:+ ";TZID=" +:+ tz.

(** A time zone name that a parameter carries. *)
Definition zone_name (tz : string) : Prop := clean tz ∧ Str.contains_char COLON tz = false.

Lemma line_name_zoned a name tz :
  line_name (String a name) → zone_name tz → line_name (zoned (String a name) tz).
Proof.
  intros (Ha & H1 & H2) ((H3 & H4 & _) & _). unfold zoned, line_name.
  rewrite str_app_cons, !contains_char_app, H1, H2, H3, H4. done.
Qed.

Lemma field_start_tz f tz v :
  clean v → zone_name tz →
  Parser.extract_line (true, f) (line (zoned "DTSTART" tz) v) = (true, set_start v f).
Proof.
  intros Hv Hz. unfold Parser.extract_line.
  rewrite trim_trimmed by (by apply trimmed_line; [apply line_name_zoned|]).
  unfold line, zoned. rewrite !str_app_assoc.
  pose proof (extract_param "DTSTART" ("TZID=" +:+ tz) v) as E.
  rewrite contains_char_app, (proj2 Hz) in E. specialize (E eq_refl).
  rewrite str_app_assoc in E.
  change (Parser.extract_property _ "UID") with (@None string).
  change (String SEMI ("TZID=" +:+ (tz +:+ String COLON v)))
    with (";TZID=" +:+ (tz +:+ String COLON v)) in E. by rewrite E.
Qed.

Lemma field_end_tz f tz v :
  clean v → zone_name tz →
  Parser.extract_line (true, f) (line (zoned "DTEND" tz) v) = (true, set_end v f).
Proof.
  intros Hv Hz. unfold Parser.extract_line.
  rewrite trim_trimmed by (by apply trimmed_line; [apply line_name_zoned|]).
  unfold line, zoned. rewrite !str_app_assoc.
  pose proof (extract_param "DTEND" ("TZID=" +:+ tz) v) as E.
  rewrite contains_char_app, (proj2 Hz) in E. specialize (E eq_refl).
  rewrite str_app_assoc in E.
  change (Parser.extract_property _ "UID") with (@None string).
  change (Parser.extract_property _ "DTSTART") with (@None string).
  change (String SEMI ("TZID=" +:+ (tz +:+ String COLON v)))
    with (";TZID=" +:+ (tz +:+ String COLON v)) in E. by rewrite E.
Qed.

(** Lines that set nothing. *)
Definition skipped (b : bool) (l : string) : Prop :=
  ∀ f, Parser.extract_line (b, f) l = (b, f).

Lemma skipped_stamp v : clean v → skipped true (line "DTSTAMP" v).
Proof. unfold skipped. field_line. Qed.

Lemma skipped_description v : clean v → skipped true (line "DESCRIPTION" v).
Proof. unfold skipped. field_line. Qed.

Lemma skipped_location v : clean v → skipped true (line "LOCATION" v).
Proof. unfold skipped. field_line. Qed.

Lemma skipped_foldl b f ls :
  Forall (skipped b) ls → foldl Parser.extract_line (b, f) ls = (b, f).
Proof. induction 1 as [|l ls Hl Hls IH]; [done|]. cbn [foldl]. by rewrite (Hl f). Qed.

Lemma skipped_tzid tz : clean tz → skipped false (line "TZID" tz).
Proof. unfold skipped. field_line. Qed.

(** The offsets of a zone are among these. *)
Definition offsets : list string :=
  ["-0800"; "-0700"; "-0600"; "-0500"; "-0400"; "+0000"; "+0100"; "+0200"; "+0900"; "+1100"].

Lemma std_offset_line tz :
  ∃ v, v ∈ offsets ∧ Builder.vtimezone_std_offset tz = line "TZOFFSETFROM" v.
Proof.
  unfold Builder.vtimezone_std_offset.
  repeat case_decide; eexists; (split; [|reflexivity]);
    by apply (bool_decide_unpack _).
Qed.

Lemma dst_offset_line tz :
  ∃ v, v ∈ offsets ∧ Builder.vtimezone_dst_offset tz = line "TZOFFSETTO" v.
Proof.
  unfold Builder.vtimezone_dst_offset.
  repeat case_decide; eexists; (split; [|reflexivity]);
    by apply (bool_decide_unpack _).
Qed.

Lemma offsets_lines :
  Forall (λ v, ∀ n, n ∈ ["TZOFFSETFROM"; "TZOFFSETTO"] →
            unfolded (line n v) ∧ skipped false (line n v)) offsets.
Proof.
  repeat (apply Forall_cons; split); [..|by apply Forall_nil]; intros n Hn;
    repeat (apply elem_of_cons in Hn as [->|Hn]); try (by apply elem_of_nil in Hn);
    (split; [apply unfolded_line; [done|by apply (bool_decide_unpack _); vm_compute]|
             intros f; vm_compute; reflexivity]).
Qed.

(** ** The round trip *)

(** The lines of a time zone, as property lines. *)
Lemma vtimezone_lines tz :
  zone_name tz →
  Forall unfolded (Builder.vtimezone tz) ∧ Forall (skipped false) (Builder.vtimezone tz).
Proof.
  intros [Hz _]. destruct (std_offset_line tz) as (v1 & H1 & E1).
  destruct (dst_offset_line tz) as (v2 & H2 & E2).
  pose proof offsets_lines as Ho. rewrite Forall_forall in Ho.
  destruct (Ho v1 H1 "TZOFFSETFROM") as [Ha1 Hb1]; [by left|].
  destruct (Ho v2 H2 "TZOFFSETTO") as [Ha2 Hb2]; [by right; left|].
  unfold Builder.vtimezone. rewrite E1, E2. split.
  - repeat (apply Forall_cons; split); try done; try (by apply (unfolded_line "TZID"));
      (split; [done|split; [done|by eexists _, _]]).
  - repeat (apply Forall_cons; split); [..|by apply Forall_nil];
      first [exact Hb1 | exact Hb2 | by apply (skipped_tzid tz) | intros f; vm_compute; reflexivity].
Qed.

(** The lines before, of and after the event. *)
Definition calendar_head : list string :=
  ["BEGIN:VCALENDAR"; "VERSION:2.0"; "PRODID:-//CalDAV Server//EN"].

Definition time_lines (dtstart dtend : string) (timezone : option string) : list string :=
  match timezone with
  | Some tz => [line (zoned "DTSTART" tz) dtstart; line (zoned "DTEND" tz) dtend]
  | None => [line "DTSTART" dtstart; line "DTEND" dtend]
  end.

Definition optional_line (name : string) (v : option string) : list string :=
  match v with Some v => [line name v] | None => [] end.

Lemma vevent_lines_eq now uid summary dtstart dtend description location timezone :
  Builder.vevent_lines now uid summary dtstart dtend description location timezone =
    (calendar_head ++ match timezone with Some tz => Builder.vtimezone tz | None => [] end) ++
    ["BEGIN:VEVENT"; line "UID" uid; line "DTSTAMP" now] ++
    time_lines dtstart dtend timezone ++ [line "SUMMARY" summary] ++
    (optional_line "DESCRIPTION" description ++ optional_line "LOCATION" location) ++
    ["END:VEVENT"; "END:VCALENDAR"].
Proof.
  unfold Builder.vevent_lines, time_lines, line, zoned.
  destruct timezone as [tz|], description, location; rewrite <- ?app_assoc;
    rewrite ?str_app_assoc; reflexivity.
Qed.

Definition optional_clean (v : option string) : Prop := ∀ x, v = Some x → clean x.

Lemma unfolded_optional name v :
  line_name name → optional_clean v → Forall unfolded (optional_line name v).
Proof.
  intros Hn Hv. destruct v as [v|]; [|by apply Forall_nil].
  apply Forall_singleton. by apply unfolded_line; [|apply Hv].
Qed.

Lemma unfolded_time_lines dtstart dtend timezone :
  clean dtstart → clean dtend → (∀ tz, timezone = Some tz → zone_name tz) →
  Forall unfolded (time_lines dtstart dtend timezone).
Proof.
  intros Hs He Hz. destruct timezone as [tz|]; repeat (apply Forall_cons; split);
    try (by apply Forall_nil); try done; apply unfolded_line; try done;
    apply line_name_zoned; auto; done.
Qed.

Lemma fields_of_times f dtstart dtend timezone :
  clean dtstart → clean dtend → (∀ tz, timezone = Some tz → zone_name tz) →
  foldl Parser.extract_line (true, f) (time_lines dtstart dtend timezone) =
    (true, set_end dtend (set_start dtstart f)).
Proof.
  intros Hs He Hz. destruct timezone as [tz|]; cbn [time_lines foldl].
  - by rewrite field_start_tz, field_end_tz by auto.
  - by rewrite field_start, field_end.
Qed.

(** C28: The fields extracted from an event that the server built are those it was built
    from: UID, start, end and summary, with or without a time zone, a description and a
    location, for values without line breaks and trailing white space (and a time zone
    name without a colon).  In particular the times of the VTIMEZONE component are not
    taken for the event's. *)
Theorem extract_fields_build_vevent now uid summary dtstart dtend description location timezone :
  clean now → clean uid → clean summary → clean dtstart → clean dtend →
  optional_clean description → optional_clean location →
  (∀ tz, timezone = Some tz → zone_name tz) →
  Parser.extract_fields
    (Builder.build_vevent now uid summary dtstart dtend description location timezone) =
    IcalFields.mk (Some uid) (Some dtstart) (Some dtend) (Some summary) "VEVENT".
Proof.
  intros Hnow Huid Hsum Hs He Hd Hl Hz. unfold Parser.extract_fields, Builder.build_vevent.
  assert (Forall unfolded calendar_head ∧ Forall (skipped false) calendar_head) as [Hh Hh'].
  { unfold calendar_head. split; repeat (apply Forall_cons; split); try (by apply Forall_nil);
      first [intros f; vm_compute; reflexivity | split; [done|split; [done|by eexists _, _]]]. }
  rewrite unfold_lines_text; [|rewrite vevent_lines_eq|by rewrite vevent_lines_eq].
  - rewrite vevent_lines_eq, foldl_app, (skipped_foldl false).
    + rewrite foldl_app. cbn [foldl].
      change (Parser.extract_line (false, Parser.default_fields) "BEGIN:VEVENT")
        with (true, Parser.default_fields).
      rewrite field_uid by done. rewrite (skipped_stamp now Hnow).
      rewrite foldl_app, fields_of_times, foldl_app by done. cbn [foldl].
      rewrite field_summary, foldl_app by done.
      rewrite skipped_foldl; [reflexivity|]. apply Forall_app. split.
      * destruct description; [|by apply Forall_nil].
        apply Forall_singleton, skipped_description. by apply Hd.
      * destruct location; [|by apply Forall_nil].
        apply Forall_singleton, skipped_location. by apply Hl.
    + apply Forall_app. split; [done|]. destruct timezone as [tz|]; [|by apply Forall_nil].
      by apply vtimezone_lines, Hz.
  - repeat (apply Forall_app; split); try done.
    + destruct timezone as [tz|]; [|by apply Forall_nil]. by apply vtimezone_lines, Hz.
    + repeat (apply Forall_cons; split); try (by apply Forall_nil); try by apply unfolded_line.
      split; [done|split; [done|by eexists _, _]].
    + by apply unfolded_time_lines.
    + apply Forall_singleton. by apply unfolded_line.
    + by apply unfolded_optional.
    + by apply unfolded_optional.
    + repeat (apply Forall_cons; split); try (by apply Forall_nil);
        (split; [done|split; [done|by eexists _, _]]).
Qed.

(** ** An example *)

Module IcalExamples.

Lemma extract_fields_build_vevent_witness :
  Parser.extract_fields
    (Builder.build_vevent "20260301T090000Z" "u@caldav-server" "Team: weekly"
       "20260302T090000" "20260302T100000" (Some "DTSTART:in the text") None
       (Some "Europe/Paris")) =
    IcalFields.mk (Some "u@caldav-server") (Some "20260302T090000") (Some "20260302T100000")
      (Some "Team: weekly") "VEVENT".
Proof.
  apply (extract_fields_build_vevent "20260301T090000Z" "u@caldav-server" "Team: weekly"
           "20260302T090000" "20260302T100000" (Some "DTSTART:in the text") None
           (Some "Europe/Paris"));
    [by apply (bool_decide_unpack _); vm_compute..| |done|].
  - intros x [= <-]. by apply (bool_decide_unpack _); vm_compute.
  - intros tz [= <-]. split; [|done]. by apply (bool_decide_unpack _); vm_compute.
Defined.
End IcalExamples.
