(* ===== verification/Folding.v ===== *)
(** * Folded iCalendar text

    RFC 5545 lets a writer break any line by a line end and a space or tab.  A line with
    its breaks is its first piece and the others, each with the white space that
    introduces it; [unfold_lines] is the inverse of every way to fold, and so the fields
    of an object do not depend on how its text was folded. *)
From Stdlib Require Import Ascii.
From S2P Require Import Prelude RustStr Effects Models Db Ical IcalSpec.
From stdpp Require Import options.

Module Folded.

Record t : Type := mk {
  first : string;
  (** [true] for a tab *)
  rest : list (bool * string);
}.

Definition white (tab : bool) : ascii := if tab then TAB else " "%char.

(** The lines as they are sent. *)
Definition physical (l : t) : list string :=
  first l :: ((λ p, String (white p.1) p.2) <$> rest l).

(** The line that is meant. *)
Definition logical (l : t) : string := first l +:+ String.concat "" (rest l).*2.

(** Pieces without line breaks, the first not empty and without white space at its start. *)
Definition ok (l : t) : Prop :=
  (Str.contains_char NL (first l) = false ∧ Str.contains_char CR (first l) = false) ∧
  (first l ≠ "" ∧ Str.starts_with " " (first l) = false ∧
   Str.starts_with (String TAB "") (first l) = false) ∧
  Forall (λ p, Str.contains_char NL p.2 = false ∧ Str.contains_char CR p.2 = false) (rest l).

#[global] Instance ok_dec l : Decision (ok l).
Proof. unfold ok. apply _. Defined.
End Folded.

(** A text, each of its lines ended. *)
Definition crlf_text (ls : list string) : string :=
  String.concat "" ((λ l, l +:+ CRLF) <$> ls).

Lemma contains_white c b s :
  c = NL ∨ c = CR → Str.contains_char c s = false →
  Str.contains_char c (String (Folded.white b) s) = false.
Proof. intros [-> | ->] Hs; destruct b; simpl; by rewrite Hs. Qed.

Lemma unfold_continuations ps ls res cur :
  Forall (λ p, Str.contains_char NL p.2 = false ∧ Str.contains_char CR p.2 = false) ps →
  Parser.unfold_loop (((λ p, String (Folded.white p.1) p.2) <$> ps) ++ ls) res cur =
    Parser.unfold_loop ls res (cur +:+ String.concat "" ps.*2).
Proof.
  intros Hps. revert cur. induction Hps as [|[b s] ps [_ Hs] _ IH]; intros cur.
  - simpl. by rewrite str_app_nil_r.
  - rewrite !fmap_cons. cbn [app Parser.unfold_loop fst snd].
    rewrite trim_end_cr by (apply contains_white; auto).
    assert (Str.starts_with " " (String (Folded.white b) s) ||
            Str.starts_with (String TAB "") (String (Folded.white b) s) = true) as ->
      by by destruct b.
    by rewrite IH, str_app_assoc, concat_cons.
Qed.

Lemma unfold_loop_folded ls res cur :
  Forall Folded.ok ls →
  Parser.unfold_loop (ls ≫= Folded.physical) res cur =
    res ++ (if Str.is_empty cur then [] else [cur]) ++ (Folded.logical <$> ls).
Proof.
  intros Hls. revert res cur.
  induction Hls as [|l ls ([_ Hcr] & (Hne & Hsp & Htab) & Hrest) Hls IH]; intros res cur.
  - simpl. rewrite app_nil_r. by destruct (Str.is_empty cur); rewrite ?app_nil_r.
  - cbn [mbind list_bind]. unfold Folded.physical at 1. rewrite <- app_comm_cons.
    cbn [Parser.unfold_loop]. rewrite trim_end_cr, Hsp, Htab by done. cbn [orb].
    rewrite unfold_continuations by done. fold (Folded.logical l).
    rewrite IH, fmap_cons.
    assert (Str.is_empty (Folded.logical l) = false) as ->.
    { unfold Folded.logical. by destruct (Folded.first l). }
    destruct (Str.is_empty cur); [done|]. by rewrite <- !app_assoc.
Qed.

Lemma physical_clean ls :
  Forall Folded.ok ls →
  Forall (λ l, Str.contains_char NL l = false ∧ Str.contains_char CR l = false)
    (ls ≫= Folded.physical).
Proof.
  intros Hls. apply Forall_bind. eapply Forall_impl; [exact Hls|].
  intros l (Hf & _ & Hr). constructor; [exact Hf|]. apply Forall_fmap.
  eapply Forall_impl; [exact Hr|]. intros [b s] [Hn Hc]. split; apply contains_white; auto.
Qed.

Lemma unfold_lines_folded ls :
  Forall Folded.ok ls →
  Parser.unfold_lines (crlf_text (ls ≫= Folded.physical)) = Folded.logical <$> ls.
Proof.
  intros Hls. unfold Parser.unfold_lines, crlf_text.
  rewrite lines_crlf by (eapply Forall_impl; [by apply physical_clean|]; by intros l [? _]).
  by rewrite unfold_loop_folded.
Qed.

(** The same line, not folded. *)
Definition unfold (l : Folded.t) : Folded.t := Folded.mk (Folded.logical l) [].

Lemma contains_concat c (l : list string) :
  Forall (λ s, Str.contains_char c s = false) l →
  Str.contains_char c (String.concat "" l) = false.
Proof.
  induction 1 as [|s l Hs _ IH]; [done|]. by rewrite concat_cons, contains_char_app, Hs.
Qed.

Lemma unfold_ok l : Folded.ok l → Folded.ok (unfold l).
Proof.
  intros ([Hn Hc] & (Hne & Hsp & Htab) & Hr). unfold Folded.ok, unfold, Folded.logical.
  cbn [Folded.first Folded.rest]. rewrite !contains_char_app, Hn, Hc. cbn [orb].
  split; [|split; [|by apply Forall_nil]].
  - split; apply contains_concat, Forall_fmap; (eapply Forall_impl; [exact Hr|]);
      by intros p [].
  - destruct (Folded.first l) as [|a s]; [done|]. split; [done|].
    unfold Str.starts_with in *. simpl in *. by repeat case_decide.
Qed.

Lemma physical_unfold ls : (unfold <$> ls) ≫= Folded.physical = Folded.logical <$> ls.
Proof. induction ls as [|l ls IH]; [done|]. rewrite !fmap_cons, bind_cons, IH. done. Qed.

Lemma logical_unfold (ls : list Folded.t) :
  Folded.logical <$> (unfold <$> ls) = Folded.logical <$> ls.
Proof.
  rewrite <- list_fmap_compose. apply list_fmap_ext. intros ? l _. simpl. apply str_app_nil_r.
Qed.

(** C30: [unfold_lines] undoes any folding: of a text sent with its lines broken anywhere, by
    spaces or tabs, it gives the lines that were meant.  So [extract_fields] finds the
    same fields however the text is folded, and as if it were not. *)
Theorem folding_is_transparent ls :
  Forall Folded.ok ls →
  Parser.unfold_lines (crlf_text (ls ≫= Folded.physical)) = Folded.logical <$> ls ∧
  Parser.extract_fields (crlf_text (ls ≫= Folded.physical)) =
    Parser.extract_fields (crlf_text (Folded.logical <$> ls)).
Proof.
  intros Hls. split; [by apply unfold_lines_folded|]. unfold Parser.extract_fields.
  rewrite <- physical_unfold, !unfold_lines_folded, logical_unfold; [done| |done].
  apply Forall_fmap. eapply Forall_impl; [exact Hls|apply unfold_ok].
Qed.

(** ** An example *)

Module FoldingExamples.

Definition folded_event : list Folded.t :=
  [ Folded.mk "BEGIN:VEVENT" [];
    Folded.mk "UID:meet" [(false, "ing@exam"); (true, "ple.org")];
    Folded.mk "SUMMARY" [(true, ":Weekly"); (false, " meeting")];
    Folded.mk "END:VEVENT" [] ].

Lemma folding_is_transparent_witness :
  Parser.extract_fields (crlf_text (folded_event ≫= Folded.physical)) =
    IcalFields.mk (Some "meeting@example.org") None None (Some "Weekly meeting") "VEVENT".
Proof.
  destruct (folding_is_transparent folded_event) as [_ ->].
  - by apply (bool_decide_unpack _); vm_compute.
  - by vm_compute.
Defined.
End FoldingExamples.
