(* ===== verification/FieldsSpec.v ===== *)
(** * What [extract_fields] finds

    A reference definition of the fields, without the loop's mutable state: every line
    is marked with whether it lies in a component, and each field is a first or last value
    among the lines it may come from.  The loop finds these values in every text. *)
From Stdlib Require Import Ascii.
From S2P Require Import Prelude RustStr Effects Models Db Ical Folding.
From stdpp Require Import options.

(** The first of two values that is there. *)
Definition or_else {A} (x y : option A) : option A :=
  match x with Some a => Some a | None => y end.

Lemma last_cons_or_else {A} (a : A) l y : or_else (last (a :: l)) y = or_else (last l) (Some a).
Proof. by rewrite last_cons; destruct (last l). Qed.

Module Fields.

(** The component that a line begins. *)
Definition begun (line : string) : option string :=
  if Str.starts_with "BEGIN:VEVENT" line then Some "VEVENT"
  else if Str.starts_with "BEGIN:VTODO" line then Some "VTODO"
  else None.

(** Is a line in a component, given whether the one before it is? *)
Definition inside (before : bool) (line : string) : bool :=
  is_some_b (begun line) ||
  before && negb (Str.starts_with "END:VEVENT" line || Str.starts_with "END:VTODO" line).

(** The trimmed lines, each with whether it is in a component. *)
Fixpoint marked (before : bool) (lines : list string) : list (bool * string) :=
  match lines with
  | [] => []
  | line :: lines =>
      let b := inside before (Str.trim line) in (b, Str.trim line) :: marked b lines
  end.

(** The values of a property in the components of the text. *)
Definition values (name : string) (ls : list (bool * string)) : list string :=
  omap (λ p : bool * string, if p.1 then Parser.extract_property p.2 name else None) ls.

(** The values of UID, in components or out of them. *)
Definition uids (ls : list (bool * string)) : list string :=
  omap (λ p : bool * string, Parser.extract_property p.2 "UID") ls.

Definition components (ls : list (bool * string)) : list string := omap (begun ∘ snd) ls.

(** The fields of a marked text, given those found before it. *)
Definition after (f : IcalFields.t) (ls : list (bool * string)) : IcalFields.t :=
  IcalFields.mk
    (or_else (last (uids ls)) (IcalFields.uid f))
    (or_else (last (values "DTSTART" ls)) (IcalFields.dtstart f))
    (or_else (last (values "DTEND" ls)) (or_else (IcalFields.dtend f) (head (values "DUE" ls))))
    (or_else (last (values "SUMMARY" ls)) (IcalFields.summary f))
    (default (IcalFields.component_type f) (last (components ls))).
End Fields.

(** ** The loop finds them *)

Definition names : list string := ["UID"; "DTSTART"; "DTEND"; "DUE"; "SUMMARY"].

Lemma extract_starts l name v :
  Parser.extract_property l name = Some v → Str.starts_with name l = true.
Proof. unfold Parser.extract_property, Str.starts_with. by destruct (Str.strip_prefix name l). Qed.

(** No name begins another, so a line has at most one of the properties. *)
Lemma extract_exclusive n n' l :
  n ∈ names → n' ∈ names → n ≠ n' → Str.starts_with n l = true →
  Parser.extract_property l n' = None.
Proof.
  intros Hn Hn' Hne [r ->]%starts_with_spec. unfold names in *. rewrite !elem_of_cons, elem_of_nil in *.
  by destruct_or!; subst.
Qed.

(** The line of one property has no other. *)
Ltac exclude_names E :=
  lazymatch type of E with Str.starts_with ?m ?l = true =>
    repeat match goal with |- context [Parser.extract_property l ?n] =>
      rewrite (extract_exclusive m n l)
        by first [exact E | done | by apply (bool_decide_unpack _); vm_compute]
    end
  end.

(** Two records of fields with the same fields. *)
Ltac same_fields := unfold or_else; f_equal; by repeat case_match.

(** One line. *)
Lemma extract_line_after b f raw :
  let l := Str.trim raw in
  Parser.extract_line (b, f) raw =
    (Fields.inside b l, Fields.after f [(Fields.inside b l, l)]).
Proof.
  cbv zeta. unfold Parser.extract_line. generalize (Str.trim raw) as l. intros l.
  assert ((if Str.starts_with "BEGIN:VEVENT" l then
      (true, IcalFields.mk (IcalFields.uid f) (IcalFields.dtstart f) (IcalFields.dtend f)
               (IcalFields.summary f) "VEVENT")
    else if Str.starts_with "BEGIN:VTODO" l then
      (true, IcalFields.mk (IcalFields.uid f) (IcalFields.dtstart f) (IcalFields.dtend f)
               (IcalFields.summary f) "VTODO")
    else if Str.starts_with "END:VEVENT" l || Str.starts_with "END:VTODO" l then (false, f)
    else (b, f)) =
    (Fields.inside b l,
     IcalFields.mk (IcalFields.uid f) (IcalFields.dtstart f) (IcalFields.dtend f)
       (IcalFields.summary f) (default (IcalFields.component_type f) (Fields.begun l)))) as ->.
  { unfold Fields.inside, Fields.begun. destruct f.
    repeat case_match; simplify_eq; try done; by rewrite ?andb_true_r, ?andb_false_r. }
  set (b' := Fields.inside b l).
  unfold Fields.after, Fields.uids, Fields.values, Fields.components. cbn [omap list_omap fst snd].
  change ((Fields.begun ∘ snd) (b', l)) with (Fields.begun l).
  destruct (negb b' && negb (Str.starts_with "UID" l)) eqn:Hskip.
  { apply andb_true_iff in Hskip as [Hb Hu]. destruct b'; [done|]. f_equal.
    destruct (Parser.extract_property l "UID") eqn:E.
    - by rewrite (extract_starts _ _ _ E) in Hu.
    - destruct f; cbn; same_fields. }
  f_equal. destruct (Parser.extract_property l "UID") eqn:Eu.
  { apply extract_starts in Eu as Hs. destruct f, b'; cbn; exclude_names Hs; cbn; same_fields. }
  destruct b'; cycle 1.
  { cbn in Hskip. apply negb_false_iff in Hskip. destruct f; cbn; exclude_names Hskip; cbn; same_fields. }
  destruct (Parser.extract_property l "DTSTART") eqn:E1.
  { apply extract_starts in E1 as Hs. destruct f; cbn; exclude_names Hs; cbn; same_fields. }
  destruct (Parser.extract_property l "DTEND") eqn:E2.
  { apply extract_starts in E2 as Hs. destruct f; cbn; exclude_names Hs; cbn; same_fields. }
  destruct (Parser.extract_property l "DUE") eqn:E3.
  { apply extract_starts in E3 as Hs. destruct f as [? ? []]; cbn; exclude_names Hs; cbn; same_fields. }
  destruct (Parser.extract_property l "SUMMARY"); destruct f; cbn; same_fields.
Qed.

(** Marked lines one after the other. *)
Lemma after_cons f p ls : Fields.after (Fields.after f [p]) ls = Fields.after f (p :: ls).
Proof.
  unfold Fields.after, Fields.uids, Fields.values, Fields.components.
  cbn [omap list_omap IcalFields.uid IcalFields.dtstart IcalFields.dtend IcalFields.summary
       IcalFields.component_type].
  destruct f as [u s e m k]. cbn [IcalFields.uid IcalFields.dtstart IcalFields.dtend
    IcalFields.summary IcalFields.component_type].
  f_equal; repeat case_match; simplify_eq; rewrite ?last_cons;
    unfold or_else; cbn; by repeat case_match.
Qed.

Lemma extract_foldl lines b f :
  (foldl Parser.extract_line (b, f) lines).2 = Fields.after f (Fields.marked b lines).
Proof.
  revert b f. induction lines as [|raw lines IH]; intros b f.
  - destruct f as [? ? []]; done.
  - cbn [foldl Fields.marked]. by rewrite extract_line_after, IH, after_cons.
Qed.

(** C29: What [extract_fields] finds in any text.  Mark every unfolded, trimmed line with whether
    it lies between the BEGIN and END of a VEVENT or VTODO.  Then the UID is the last one
    anywhere, in a component or not; start and summary are the last DTSTART and SUMMARY of
    the components; the end is their last DTEND or, if there is none, their first DUE;
    the component type is that of the last BEGIN, VEVENT by default. *)
Theorem extract_fields_correct text :
  let ls := Fields.marked false (Parser.unfold_lines text) in
  Parser.extract_fields text =
    IcalFields.mk
      (last (Fields.uids ls))
      (last (Fields.values "DTSTART" ls))
      (or_else (last (Fields.values "DTEND" ls)) (head (Fields.values "DUE" ls)))
      (last (Fields.values "SUMMARY" ls))
      (default "VEVENT" (last (Fields.components ls))).
Proof.
  cbv zeta. unfold Parser.extract_fields. rewrite extract_foldl.
  unfold Fields.after, Parser.default_fields. cbn. unfold or_else. f_equal; by repeat case_match.
Qed.

(** ** Where this is not what the text means *)

Module FieldsExamples.

(** The summary of an alarm takes the place of the event's. *)
Example alarm_overrides_event :
  IcalFields.summary (Parser.extract_fields (crlf_text
    ["BEGIN:VEVENT"; "UID:u"; "SUMMARY:Lunch"; "BEGIN:VALARM"; "SUMMARY:Reminder"; "END:VALARM";
     "END:VEVENT"])) = Some "Reminder".
Proof. by vm_compute. Qed.

(** A colon in a quoted parameter ends the parameters. *)
Example quoted_colon_cuts :
  Parser.extract_property
    ("SUMMARY;ALTREP=" +:+ String DQ ("http://x" +:+ String DQ ":Lunch")) "SUMMARY" =
    Some ("//x" +:+ String DQ ":Lunch").
Proof. by vm_compute. Qed.

(** Arguments are written into an event as they are: a title with a line break adds a
    property, here another UID, which is the one the event is then stored under. *)
Example title_injects_uid :
  IcalFields.uid (Parser.extract_fields
    (Builder.build_vevent "20260301T090000Z" "u" ("Tea" +:+ CRLF +:+ "UID:lunch")
       "20260302T120000Z" "20260302T130000Z" None None None)) = Some "lunch".
Proof. by vm_compute. Qed.

(** The offsets of New York's STANDARD component: from the standard one to the daylight
    one, where the change to standard time goes the other way. *)
Example standard_offsets_swapped :
  take 4 (drop 4 (Builder.vtimezone "America/New_York")) =
    ["RRULE:FREQ=YEARLY;BYDAY=1SU;BYMONTH=11"; "TZOFFSETFROM:-0500"; "TZOFFSETTO:-0400";
     "END:STANDARD"].
Proof. by vm_compute. Qed.

Example phoenix_offsets_differ :
  (Builder.vtimezone_std_offset "America/Phoenix", Builder.vtimezone_dst_offset "America/Phoenix") =
    ("TZOFFSETFROM:-0700", "TZOFFSETTO:+0900").
Proof. by vm_compute. Qed.
End FieldsExamples.
