(* ===== verification/XmlSpec.v ===== *)
(** * What the XML layer promises

    Multistatus documents are well nested; property filtering splits a request into
    what is found and what is not; a report request in its standard form is read back. *)
From Stdlib Require Import Ascii ZArith.
From S2P Require Import Prelude RustStr Models Xml Properties.
From stdpp Require Import options.

(** ** Nesting *)

(** The open elements after some write operations; [None] when an end tag does not
    close the innermost open element. *)
Fixpoint nest (stack : list string) (ops : list WriteOp) : option (list string) :=
  match ops with
  | [] => Some stack
  | WStart name _ :: ops => nest (name :: stack) ops
  | WEnd name :: ops =>
      match stack with
      | top :: stack => if decide (top = name) then nest stack ops else None
      | [] => None
      end
  | (WDecl | WText _ | WEmpty _ | WRaw _) :: ops => nest stack ops
  end.

(** A sequence of complete elements. *)
Definition elements (ops : list WriteOp) : Prop := ∀ stack, nest stack ops = Some stack.

Lemma nest_app stack ops ops' : nest stack (ops ++ ops') = nest stack ops ≫= λ s, nest s ops'.
Proof.
  revert stack. induction ops as [|op ops IH]; intros stack; [done|].
  destruct op; cbn [app nest]; try apply IH. destruct stack as [|top stack]; [done|].
  case_decide; [apply IH|done].
Qed.

Lemma elements_app ops ops' : elements ops → elements ops' → elements (ops ++ ops').
Proof. intros H1 H2 stack. rewrite nest_app, H1. apply H2. Qed.

Lemma elements_nil : elements [].
Proof. done. Qed.

Lemma nest_elements stack ops rest : elements ops → nest stack (ops ++ rest) = nest stack rest.
Proof. intros H. by rewrite nest_app, H. Qed.

(** Steps through the operations of a document. *)
Ltac nest_step :=
  repeat (cbn [nest app]; rewrite ?decide_True by done; rewrite <- ?app_assoc;
          try rewrite nest_elements by auto).

Lemma elements_bind {A} (f : A → list WriteOp) (l : list A) :
  (∀ x, elements (f x)) → elements (l ≫= f).
Proof.
  intros Hf. induction l as [|x l IH]; [apply elements_nil|].
  by apply (elements_app (f x)).
Qed.

Lemma elements_write_prop p : elements (Multistatus.write_prop p).
Proof.
  unfold Multistatus.write_prop. destruct (PropValue.value p) as [text|xml|]; intros stack; [|done..].
  simpl. by rewrite decide_True.
Qed.

Lemma elements_empties (names : list string) : elements (WEmpty <$> names).
Proof. induction names as [|n names IH]; [apply elements_nil|]. exact IH. Qed.

Lemma elements_propstat props status :
  elements props → elements (Multistatus.propstat props status).
Proof. intros Hp stack. unfold Multistatus.propstat. by nest_step. Qed.

Lemma elements_response href found missing :
  elements (Multistatus.response_ops href found missing).
Proof.
  assert (elements (match found with
                    | [] => []
                    | _ => Multistatus.propstat (found ≫= Multistatus.write_prop) "HTTP/1.1 200 OK"
                    end)) as H1.
  { destruct found as [|p found]; [apply elements_nil|].
    apply elements_propstat, elements_bind, elements_write_prop. }
  assert (elements (match missing with
                    | [] => []
                    | _ => Multistatus.propstat (WEmpty <$> missing) "HTTP/1.1 404 Not Found"
                    end)) as H2.
  { destruct missing as [|p missing]; [apply elements_nil|].
    apply elements_propstat, elements_empties. }
  intros stack. unfold Multistatus.response_ops. by nest_step.
Qed.

(** What the builder's methods can make. *)
Inductive builder : Multistatus.t → Prop :=
| builder_new : builder Multistatus.new
| builder_response href found missing b :
    builder b → builder (Multistatus.add_response href found missing b)
| builder_sync_token token b : builder b → builder (Multistatus.add_sync_token token b).

(** Every document made with the multistatus builder is well nested: it opens
    with the multistatus element, every end tag closes the innermost open element, and
    when [build] has written the last tag no element is open. *)
Theorem multistatus_well_nested b :
  builder b → nest [] (b ++ [WEnd "D:multistatus"]) = Some [].
Proof.
  assert (builder b → ∃ ops, b = Multistatus.new ++ ops ∧ elements ops) as Hb.
  { induction 1 as [|href found missing b _ (ops & -> & Ho)|token b _ (ops & -> & Ho)].
    - exists []. by rewrite app_nil_r.
    - exists (ops ++ Multistatus.response_ops href found missing).
      split; [by unfold Multistatus.add_response; rewrite app_assoc|].
      apply elements_app; [done|apply elements_response].
    - exists (ops ++ [WStart "D:sync-token" []; WText token; WEnd "D:sync-token"]).
      split; [by unfold Multistatus.add_sync_token; rewrite app_assoc|].
      apply elements_app; [done|]. by intros stack. }
  intros (ops & -> & Ho)%Hb. unfold Multistatus.new. by nest_step.
Qed.

(** ** Property filtering *)

(** How a missing property is written. *)
Definition missing_name (r : PropRequest.t) : string :=
  Properties.ns_prefix (PropRequest.namespace r) +:+ ":" +:+ PropRequest.local_name r.

(** What a PROPFIND answers about one resource.  For "allprop", every property; for
    "propname", every name, without values; for a list of properties, the resource's
    properties that the list names (by local name and namespace), in the resource's
    order and with their values, and as missing those of the list that the resource
    does not have, in the list's order: each requested property is on one side. *)
Theorem filter_props_correct request available :
  let '(found, missing) := Properties.filter_props request available in
  match request with
  | AllProp => found = available ∧ missing = []
  | PropName =>
      PropValue.name <$> found = PropValue.name <$> available ∧
      Forall (λ p, PropValue.value p = Empty) found ∧ missing = []
  | Props requested =>
      found `sublist_of` available ∧
      (∀ p, p ∈ found ↔ p ∈ available ∧ ∃ r, r ∈ requested ∧ Properties.asks r p = true) ∧
      (∃ rest, missing = missing_name <$> rest ∧ rest `sublist_of` requested ∧
         ∀ r, r ∈ requested →
           (r ∈ rest ↔ ¬ ∃ p, p ∈ available ∧ Properties.asks r p = true))
  end.
Proof.
  destruct request as [| |requested]; cbn [Properties.filter_props]; [done|split; [|split]; [| |done]|].
  - rewrite <- list_fmap_compose. by apply list_fmap_ext.
  - by apply Forall_fmap, Forall_true.
  - set (found := bfilter _ available).
    assert (∀ p, p ∈ found ↔ p ∈ available ∧ ∃ r, r ∈ requested ∧ Properties.asks r p = true)
      as Hf.
    { intros p. unfold found. rewrite elem_of_bfilter, existsb_exists.
      setoid_rewrite <- list_elem_of_In. naive_solver. }
    split; [apply bfilter_sublist|]. split; [exact Hf|].
    eexists. split; [reflexivity|]. split; [apply bfilter_sublist|].
    intros r Hr. rewrite elem_of_bfilter, negb_true_iff, <- not_true_iff_false, existsb_exists.
    setoid_rewrite <- list_elem_of_In. setoid_rewrite Hf. naive_solver.
Qed.

(** ** Report requests *)

(** The events of a report request in its standard form. *)
Definition tag (prefix name : string) : BytesStart.t :=
  BytesStart.mk (prefix +:+ ":" +:+ name) name [].

Definition element (prefix name : string) (inner : list Event) : list Event :=
  [EvStart (tag prefix name)] ++ inner ++ [EvEnd name].

(** A requested property, with its namespace declared on it. *)
Definition prop_event (r : PropRequest.t) : Event :=
  EvEmpty (BytesStart.mk (PropRequest.local_name r) (PropRequest.local_name r)
             [("xmlns", PropRequest.namespace r)]).

Definition prop_element (props : list PropRequest.t) : list Event :=
  element "D" "prop" (prop_event <$> props).

Definition time_range_event (start end_ : string) : Event :=
  EvEmpty (BytesStart.mk "C:time-range" "time-range" [("start", start); ("end", end_)]).

Definition report_events (r : ReportRequest) : list Event :=
  match r with
  | CalendarMultiget props hrefs =>
      element "C" "calendar-multiget"
        (prop_element props ++ (hrefs ≫= λ h, element "D" "href" [EvText h]))
  | CalendarQuery props time_range =>
      element "C" "calendar-query"
        (prop_element props ++
         element "C" "filter" (element "C" "comp-filter"
           match time_range with
           | Some (start, end_) => [time_range_event start end_]
           | None => []
           end))
  | SyncCollection props sync_token =>
      element "D" "sync-collection"
        (element "D" "sync-token" (if Str.is_empty sync_token then [] else [EvText sync_token]) ++
         element "D" "sync-level" [EvText "1"] ++ prop_element props)
  end.

Definition utf8 (s : string) : Prop := Str.from_utf8 s = Some s.

(** The names the parser gives a meaning to, wherever they are. *)
Definition keywords : list string :=
  [ "calendar-multiget"; "calendar-query"; "sync-collection"; "prop"; "filter"; "comp-filter";
    "href"; "sync-token"; "time-range" ].

Definition plain_prop (r : PropRequest.t) : Prop :=
  utf8 (PropRequest.namespace r) ∧ utf8 (PropRequest.local_name r) ∧
  PropRequest.local_name r ∉ keywords.

Lemma resolve_declared ns r :
  utf8 (PropRequest.namespace r) →
  NsContext.resolve ns (BytesStart.mk (PropRequest.local_name r) (PropRequest.local_name r)
                          [("xmlns", PropRequest.namespace r)]) = PropRequest.namespace r.
Proof.
  intros Hu. unfold NsContext.resolve. cbn [BytesStart.attributes].
  rewrite bfilter_cons. cbn [fst]. rewrite bool_decide_true by done. cbn [head snd].
  by apply from_utf8_lossy_valid.
Qed.

(** A requested property, inside a prop element. *)
Lemma report_prop ns t ps hs s e tok it ih r :
  plain_prop r →
  ∃ ns', Parse.report_start (Parse.mkReportState ns t true ps hs s e tok it ih)
           (BytesStart.mk (PropRequest.local_name r) (PropRequest.local_name r)
              [("xmlns", PropRequest.namespace r)]) =
         Parse.mkReportState ns' t true (ps ++ [r]) hs s e tok it ih.
Proof.
  intros (Hns & Hl & Hk). unfold Parse.report_start. cbn [BytesStart.local_name].
  rewrite (from_utf8_lossy_valid _ Hl). unfold keywords in Hk.
  rewrite !not_elem_of_cons in Hk. destruct Hk as (?&?&?&?&?&?&?&?&?&_).
  rewrite !decide_False by done. rewrite decide_False by set_solver.
  rewrite !decide_False by done.
  cbn [Parse.rp_in_prop Parse.set_ns]. rewrite resolve_declared by done.
  eexists. destruct r. reflexivity.
Qed.

(** A prop element adds its properties. *)
Lemma report_prop_element ns t b ps hs s e tok it ih props rest :
  Forall plain_prop props →
  ∃ ns', Parse.report_loop (Parse.mkReportState ns t b ps hs s e tok it ih)
           (prop_element props ++ rest) =
         Parse.report_loop (Parse.mkReportState ns' t false (ps ++ props) hs s e tok it ih) rest.
Proof.
  intros Hps. unfold prop_element, element. rewrite <- !app_assoc. cbn [app Parse.report_loop].
  change (Parse.report_start (Parse.mkReportState ns t b ps hs s e tok it ih) (tag "D" "prop"))
    with (Parse.mkReportState ns t true ps hs s e tok it ih).
  revert ns ps. induction Hps as [|p props Hp Hps IH]; intros ns ps.
  - exists ns. cbn [fmap list_fmap app Parse.report_loop]. by rewrite app_nil_r.
  - rewrite fmap_cons. cbn [app prop_event Parse.report_loop].
    destruct (report_prop ns t ps hs s e tok it ih p Hp) as [ns' ->].
    destruct (IH ns' (ps ++ [p])) as [ns'' ->]. exists ns''. by rewrite <- app_assoc.
Qed.

(** The href elements of a multiget add their texts. *)
Lemma report_hrefs ns t b ps hs s e tok it hrefs rest :
  Parse.report_loop (Parse.mkReportState ns t b ps hs s e tok it false)
    ((hrefs ≫= λ h, element "D" "href" [EvText h]) ++ rest) =
  Parse.report_loop (Parse.mkReportState ns t b ps (hs ++ hrefs) s e tok it false) rest.
Proof.
  revert hs. induction hrefs as [|h hrefs IH]; intros hs; [by rewrite app_nil_r|].
  rewrite bind_cons, <- app_assoc. cbn [element app Parse.report_loop].
  change (Parse.report_end _ "href") with
    (Parse.mkReportState ns t b ps (hs ++ [h]) s e tok it false).
  rewrite IH. by rewrite <- app_assoc.
Qed.

(** The text of another element is not kept. *)
Lemma report_level ns t b ps hs s e tok level rest :
  Parse.report_loop (Parse.mkReportState ns t b ps hs s e tok false false)
    (element "D" "sync-level" [EvText level] ++ rest) =
  Parse.report_loop
    (if b then Parse.push_prop
       (PropRequest.mk (NsContext.resolve ns (tag "D" "sync-level")) "sync-level")
       (Parse.mkReportState ns t b ps hs s e tok false false)
     else Parse.mkReportState ns t b ps hs s e tok false false) rest.
Proof. by destruct b. Qed.

Lemma report_time_range ns t b ps hs s e tok it ih start end_ :
  utf8 start → utf8 end_ →
  ∃ ns', Parse.report_start (Parse.mkReportState ns t b ps hs s e tok it ih)
           (BytesStart.mk "C:time-range" "time-range" [("start", start); ("end", end_)]) =
         Parse.mkReportState ns' t b ps hs start end_ tok it ih.
Proof.
  intros Hs He. unfold Parse.report_start. cbn [BytesStart.local_name].
  change (Str.from_utf8_lossy "time-range") with "time-range".
  do 4 rewrite decide_False by done. rewrite decide_False by (by apply (bool_decide_unpack _)).
  do 2 rewrite decide_False by done. rewrite decide_True by done.
  cbn [BytesStart.attributes foldl]. unfold Parse.time_attribute. cbn [fst snd].
  rewrite !(from_utf8_lossy_valid start), !(from_utf8_lossy_valid end_) by done.
  eexists. reflexivity.
Qed.

(** What the standard form must carry. *)
Definition plain_report (r : ReportRequest) : Prop :=
  match r with
  | CalendarMultiget props _ | SyncCollection props _ => Forall plain_prop props
  | CalendarQuery props time_range =>
      Forall plain_prop props ∧
      ∀ start end_, time_range = Some (start, end_) →
        start ≠ "" ∧ end_ ≠ "" ∧ utf8 start ∧ utf8 end_
  end.

Section parse.
Context `{QuickXml}.

(** The parse of a report request in its standard form. *)
Lemma parse_report_events body r :
  body ≠ "" → xml_read body = report_events r → plain_report r →
  Parse.parse_report body = Some r.
Proof.
  intros Hb Hx Hp. unfold Parse.parse_report.
  destruct body as [|a body]; [done|]. cbn [Str.is_empty]. rewrite Hx.
  unfold Parse.report_init.
  destruct r as [props hrefs|props time_range|props tok]; cbn [report_events plain_report] in *.
  - unfold element at 1. cbn [app Parse.report_loop].
    change (Parse.report_start _ (tag "C" "calendar-multiget")) with
      (Parse.mkReportState NsContext.new (Some "multiget") false [] [] "" "" "" false false).
    rewrite <- app_assoc.
    edestruct (report_prop_element NsContext.new) as [ns' ->]; [exact Hp|].
    rewrite report_hrefs. reflexivity.
  - destruct Hp as [Hp Ht]. unfold element at 1. cbn [app Parse.report_loop].
    change (Parse.report_start _ (tag "C" "calendar-query")) with
      (Parse.mkReportState NsContext.new (Some "query") false [] [] "" "" "" false false).
    rewrite <- app_assoc.
    edestruct (report_prop_element NsContext.new) as [ns' ->]; [exact Hp|].
    destruct time_range as [[start end_]|]; [|reflexivity].
    destruct (Ht start end_ eq_refl) as (Hs & He & Hus & Hue).
    cbn [element app Parse.report_loop time_range_event].
    change (Parse.report_start (Parse.report_start ?st (tag "C" "filter")) (tag "C" "comp-filter"))
      with st.
    destruct (report_time_range ns' (Some "query") false props [] "" "" "" false false start end_ Hus Hue) as [ns Hst].
    rewrite Hst.
    cbn. destruct start, end_; done.
  - unfold element at 1 2. cbn [app Parse.report_loop].
    change (Parse.report_start _ (tag "D" "sync-collection")) with
      (Parse.mkReportState NsContext.new (Some "sync") false [] [] "" "" "" false false).
    change (Parse.report_start _ (tag "D" "sync-token")) with
      (Parse.mkReportState NsContext.new (Some "sync") false [] [] "" "" "" true false).
    destruct tok as [|c tok]; cbn [Str.is_empty app Parse.report_loop].
    + change (Parse.report_end _ "sync-token") with
        (Parse.mkReportState NsContext.new (Some "sync") false [] [] "" "" "" false false).
      rewrite <- app_assoc, report_level.
      edestruct (report_prop_element NsContext.new) as [ns' ->]; [exact Hp|]. reflexivity.
    + change (Parse.report_end _ "sync-token") with
        (Parse.mkReportState NsContext.new (Some "sync") false [] [] "" "" (String c tok)
           false false).
      rewrite <- app_assoc, report_level.
      edestruct (report_prop_element NsContext.new) as [ns' ->]; [exact Hp|]. reflexivity.
Qed.

(** C31: A report request in its standard form is read back: a multiget with its hrefs in
    order, a query with its time range if it has one, a sync with its token, which may
    be empty, when its element has a start and an end tag; each with the requested
    properties. *)
Theorem parse_report_roundtrip body r :
  body ≠ "" → xml_read body = report_events r → plain_report r →
  Parse.parse_report body = Some r.
Proof. apply parse_report_events. Qed.

(** The initial sync request as clients send it, with an empty-element tag
    [<sync-token/>], is misread: the parser takes the text that follows, the sync level,
    for the token, so the request is not an initial sync. *)
Theorem empty_sync_token_misread body level props :
  body ≠ "" →
  xml_read body = element "D" "sync-collection"
    ([EvEmpty (tag "D" "sync-token")] ++ element "D" "sync-level" [EvText level] ++
     prop_element props) →
  Forall plain_prop props →
  Parse.parse_report body = Some (SyncCollection props level).
Proof.
  intros Hb Hx Hp. unfold Parse.parse_report.
  destruct body as [|a body]; [done|]. cbn [Str.is_empty]. rewrite Hx.
  unfold Parse.report_init, element at 1 2. rewrite <- !app_assoc.
  cbn [app Parse.report_loop].
  change (Parse.report_start _ (tag "D" "sync-collection")) with
    (Parse.mkReportState NsContext.new (Some "sync") false [] [] "" "" "" false false).
  change (Parse.report_start (Parse.report_start _ (tag "D" "sync-token")) (tag "D" "sync-level"))
    with (Parse.mkReportState NsContext.new (Some "sync") false [] [] "" "" "" true false).
  change (Parse.report_end (Parse.report_text _ level) "sync-level") with
    (Parse.mkReportState NsContext.new (Some "sync") false [] [] "" "" level true false).
  edestruct (report_prop_element NsContext.new) as [ns' ->]; [exact Hp|]. reflexivity.
Qed.
End parse.

(** ** Examples *)

Module XmlExamples.

(** A reader that gives these events for any body. *)
Definition reader (events : list Event) : QuickXml :=
  {| xml_read := λ _, events; xml_write := λ _, "" |}.

Definition getetag : PropRequest.t := PropRequest.mk DAV_NS "getetag".

Lemma getetag_plain : Forall plain_prop [getetag].
Proof.
  apply Forall_singleton. split; [by vm_compute|]. split; [by vm_compute|].
  by apply (bool_decide_unpack _).
Qed.

Lemma multistatus_well_nested_witness :
  nest [] (Multistatus.add_sync_token "t"
             (Multistatus.add_response "/a" [PropValue.mk "getetag" DAV_NS (Text "e")] ["D:x"]
                (Multistatus.add_response "/b" [] [] Multistatus.new)) ++
           [WEnd "D:multistatus"]) = Some [].
Proof. apply multistatus_well_nested. repeat constructor. Defined.

Definition march : ReportRequest :=
  CalendarQuery [getetag] (Some ("20260301T000000Z", "20260401T000000Z")).

Lemma parse_report_roundtrip_witness :
  Parse.parse_report (H := reader (report_events march)) "body" = Some march.
Proof.
  apply (parse_report_roundtrip (H := reader (report_events march)) "body" march);
    [done|done|].
  split; [exact getetag_plain|]. intros start end_ [= <- <-]. by vm_compute.
Defined.

(** The request that asks for everything, as a client sends it. *)
Definition initial_sync : list Event :=
  element "D" "sync-collection"
    ([EvEmpty (tag "D" "sync-token")] ++ element "D" "sync-level" [EvText "1"] ++
     prop_element [getetag]).

Lemma empty_sync_token_misread_witness :
  Parse.parse_report (H := reader initial_sync) "body" = Some (SyncCollection [getetag] "1").
Proof.
  by apply (empty_sync_token_misread (H := reader initial_sync) "body" "1" [getetag]);
    [| |exact getetag_plain].
Defined.
End XmlExamples.
