(* ===== verification/Integrity.v ===== *)
(** * Integrity of the database under interleaving

    Every statement of the data-access layer preserves [Db.wf], whatever its
    arguments, so every program built from those statements does, in every
    interleaving and under every schedule of faults.  [keeps] is the judgement
    "this program is safe for the invariant [Db.wf]", with a hint per building
    block; [keeps_tac] derives it for a whole function. *)
From Stdlib Require Import ZArith.
From S2P Require Import Prelude RustStr Effects Models Db DbUsers DbCalendars DbEvents.
From S2P Require Import DbShares DbTokens.
From S2P Require Import Cli Closure Layer.
From stdpp Require Import options.

Create HintDb integrity.

(** ** Statements *)

(** A statement that preserves the integrity of the database. *)
Abbreviation sound stmt := (preserves Db.wf stmt).

Lemma NoDup_fmap_snoc {A B} (f : A → B) (l : list A) x :
  NoDup (f <$> l) → f x ∉ f <$> l → NoDup (f <$> l ++ [x]).
Proof.
  intros Hl Hx. rewrite fmap_app. apply NoDup_app. split; [done|]. split; [|apply NoDup_singleton].
  intros y Hy. csimpl. rewrite list_elem_of_singleton. naive_solver.
Qed.

Lemma fmap_fmap_same {A B} (f : A → B) (g : A → A) (l : list A) :
  (∀ x, f (g x) = f x) → f <$> (g <$> l) = f <$> l.
Proof. intros H. rewrite <- list_fmap_compose. apply list_fmap_ext. intros ? x _. apply H. Qed.

Lemma Forall_bfilter {A} (P : A → Prop) p l : Forall P l → Forall P (bfilter p l).
Proof. rewrite !Forall_forall. setoid_rewrite elem_of_bfilter. naive_solver. Qed.

Lemma Forall_snoc {A} (P : A → Prop) l x : Forall P l → P x → Forall P (l ++ [x]).
Proof. intros Hl Hx. apply Forall_app. split; [done|]. by constructor. Qed.

Lemma Forall_fmap_same {A} (P : A → Prop) (g : A → A) (l : list A) :
  (∀ x, P x → P (g x)) → Forall P l → Forall P (g <$> l).
Proof. intros H Hl. apply Forall_fmap. eapply Forall_impl; [exact Hl|apply H]. Qed.

#[export] Hint Resolve NoDup_fmap_snoc NoDup_fmap_bfilter Forall_bfilter Forall_snoc : integrity.

(** Proves a [wf] from the [wf] of the database before: the fields that the new
    database shares are taken over, the others are left. *)
Ltac wf_from Hwf :=
  pose proof Hwf as Hwf0; destruct Hwf0; unfold Db.user_ids, Db.calendar_ids in *;
  split; simpl; unfold Db.user_ids, Db.calendar_ids in *; simpl;
  try assumption; eauto with integrity.

(** References stay valid when the referenced table grows. *)
Lemma Forall_ref_grow {A B} (f : A → string) (g : B → string) (l : list A) (t : list B) x :
  Forall (λ a, f a ∈ g <$> t) l → Forall (λ a, f a ∈ g <$> t ++ [x]) l.
Proof.
  intros H. eapply Forall_impl; [exact H|]. simpl. intros a Ha. rewrite fmap_app. set_solver.
Qed.

#[export] Hint Resolve Forall_ref_grow : integrity.

Lemma StronglySorted_bfilter {A} (R : relation Z) (f : A → Z) p (l : list A) :
  StronglySorted R (f <$> l) → StronglySorted R (f <$> bfilter p l).
Proof.
  induction l as [|x l IH]; [done|]. rewrite fmap_cons, bfilter_cons.
  intros [Hl Hx]%StronglySorted_inv. destruct (p x); [|by apply IH].
  rewrite fmap_cons. constructor; [by apply IH|].
  rewrite Forall_fmap in Hx |- *. by apply Forall_bfilter.
Qed.

Lemma StronglySorted_snoc {A} (R : relation A) l x :
  StronglySorted R l → Forall (λ y, R y x) l → StronglySorted R (l ++ [x]).
Proof.
  induction 1 as [|y l Hl IH Hy]; intros Hx; [by repeat constructor|].
  inversion Hx; subst. simpl. constructor; [by apply IH|by apply Forall_snoc].
Qed.

(** *** Generic table updates *)

Lemma wf_grow_users d u :
  Db.wf d → User.id u ∉ Db.user_ids d → User.username u ∉ User.username <$> Db.users d →
  Db.wf (Db.set_users (λ l, l ++ [u]) d).
Proof.
  intros Hwf Hid Hname. wf_from Hwf.
Qed.

Lemma wf_map_users d g :
  Db.wf d → (∀ u, User.id (g u) = User.id u) → (∀ u, User.username (g u) = User.username u) →
  Db.wf (Db.set_users (fmap g) d).
Proof.
  intros Hwf Hid Hname.
  wf_from Hwf; by rewrite fmap_fmap_same.
Qed.

Lemma wf_grow_calendars d c :
  Db.wf d → Calendar.id c ∉ Db.calendar_ids d → Calendar.owner_id c ∈ Db.user_ids d →
  Db.wf (Db.set_calendars (λ l, l ++ [c]) d).
Proof.
  intros Hwf Hid Howner. wf_from Hwf.
Qed.

Lemma wf_map_calendars d g :
  Db.wf d → (∀ c, Calendar.id (g c) = Calendar.id c) →
  (∀ c, Calendar.owner_id (g c) = Calendar.owner_id c) →
  Db.wf (Db.set_calendars (fmap g) d).
Proof.
  intros Hwf Hid Howner.
  wf_from Hwf; rewrite ?fmap_fmap_same by done; try done.
  eapply Forall_fmap_same; [|done]. intros x. by rewrite Howner.
Qed.

Lemma wf_map_objects d g :
  Db.wf d → (∀ o, CalendarObject.id (g o) = CalendarObject.id o) →
  (∀ o, CalendarObject.key (g o) = CalendarObject.key o) →
  Db.wf (Db.set_objects (fmap g) d).
Proof.
  intros Hwf Hid Hkey. wf_from Hwf.
  - by rewrite fmap_fmap_same.
  - by rewrite fmap_fmap_same.
  - eapply Forall_fmap_same; [|done]. intros x. specialize (Hkey x).
    unfold CalendarObject.key in Hkey. injection Hkey as -> _. done.
Qed.

Lemma wf_map_shares d g :
  Db.wf d → (∀ s, CalendarShare.id (g s) = CalendarShare.id s) →
  (∀ s, CalendarShare.key (g s) = CalendarShare.key s) →
  (∀ s, CalendarShare.permission s ∈ Db.permissions →
        CalendarShare.permission (g s) ∈ Db.permissions) →
  Db.wf (Db.set_shares (fmap g) d).
Proof.
  intros Hwf Hid Hkey Hperm.
  assert (∀ s, CalendarShare.calendar_id (g s) = CalendarShare.calendar_id s ∧
               CalendarShare.user_id (g s) = CalendarShare.user_id s) as Hkey'.
  { intros s. specialize (Hkey s). unfold CalendarShare.key in Hkey. by injection Hkey. }
  wf_from Hwf.
  - by rewrite fmap_fmap_same.
  - by rewrite fmap_fmap_same.
  - eapply Forall_fmap_same; [|done]. intros x. by destruct (Hkey' x) as [-> _].
  - eapply Forall_fmap_same; [|done]. intros x. by destruct (Hkey' x) as [_ ->].
  - by apply Forall_fmap_same.
Qed.

(** *** The statements that change the database *)

Section sound.
Context `{Sqlite, Uuids, Argon2}.

Lemma sound_select {A} (q : Db.t → list A) : sound (select q).
Proof. by intros n d Hd. Qed.

Lemma sound_select_ordered {A} (key : A → option string) (q : Db.t → list A) :
  sound (select_ordered key q).
Proof. by intros n d Hd. Qed.

Lemma sound_fetch_optional {A} (stmt : Stmt (list A)) :
  sound stmt → sound (fetch_optional stmt).
Proof. intros Hs n d Hd. unfold fetch_optional. specialize (Hs n d Hd). by destruct (stmt n d). Qed.

Lemma sound_fetch_one {A} (stmt : Stmt (list A)) : sound stmt → sound (fetch_one stmt).
Proof. intros Hs n d Hd. unfold fetch_one. specialize (Hs n d Hd). by destruct (stmt n d). Qed.

Lemma sound_insert_user id username email hash :
  sound (Users.insert_user id username email hash).
Proof.
  intros n d Hd. unfold Users.insert_user. do 2 (case_bool_decide; [done|]).
  by apply wf_grow_users.
Qed.

Lemma sound_update_password_hash hash username :
  sound (Users.update_password_hash hash username).
Proof. intros n d Hd. apply wf_map_users; [done|..]; intros u; by case_decide. Qed.

Lemma sound_insert_calendar id owner name descr color tz ctag tok :
  sound (Calendars.insert_calendar id owner name descr color tz ctag tok).
Proof.
  intros n d Hd. unfold Calendars.insert_calendar. case_bool_decide; [done|].
  case_bool_decide; [|done]. by apply wf_grow_calendars.
Qed.

Lemma sound_update_properties name descr color tz id :
  sound (Calendars.update_properties name descr color tz id).
Proof. intros n d Hd. apply wf_map_calendars; [done|..]; intros c; by case_decide. Qed.

Lemma sound_update_tokens ctag tok id : sound (Calendars.update_tokens ctag tok id).
Proof. intros n d Hd. apply wf_map_calendars; [done|..]; intros c; by case_decide. Qed.

(** What refers to another calendar survives the deletion of a calendar. *)
Lemma Forall_ref_shrink {A} (f : A → string) (l : list A) (cs : list Calendar.t) id :
  Forall (λ a, f a ∈ Calendar.id <$> cs) l →
  Forall (λ a, f a ∈ Calendar.id <$> bfilter (λ c, bool_decide (Calendar.id c ≠ id)) cs)
    (bfilter (λ a, bool_decide (f a ≠ id)) l).
Proof.
  rewrite !Forall_forall. intros H' a [Ha Hin]%elem_of_bfilter.
  apply bool_decide_eq_true in Ha.
  pose proof (H' a Hin) as [c [E Hc]]%list_elem_of_fmap. apply list_elem_of_fmap. exists c.
  split; [done|]. apply elem_of_bfilter. rewrite bool_decide_eq_true. split; [congruence|done].
Qed.

Lemma sound_delete_calendar id : sound (Calendars.delete_by_id id).
Proof.
  intros n d Hd. unfold Calendars.delete_by_id. cbn. case_decide; [done|]. wf_from Hd.
  all: try by apply Forall_ref_shrink.
  by apply StronglySorted_bfilter.
Qed.

Lemma sound_insert_object id cal uid etag data f :
  sound (Events.insert_object id cal uid etag data f).
Proof.
  intros n d Hd. unfold Events.insert_object.
  do 2 (case_bool_decide; [done|]). case_bool_decide; [|done]. wf_from Hd.
Qed.

Lemma sound_update_object cal uid etag data f :
  sound (Events.update_object cal uid etag data f).
Proof. intros n d Hd. apply wf_map_objects; [done|..]; intros o; by case_match. Qed.

Lemma sound_delete_object cal uid : sound (Events.delete_by_uid cal uid).
Proof. intros n d Hd. unfold Events.delete_by_uid. simpl. wf_from Hd. Qed.

Lemma sound_insert_sync_change cal uid kind tok :
  sound (Events.insert_sync_change cal uid kind tok).
Proof.
  intros n d Hd. unfold Events.insert_sync_change. case_bool_decide; [|done].
  case_bool_decide as Hfull; [done|]. case_bool_decide; [|done]. wf_from Hd.
  - rewrite fmap_app. apply StronglySorted_snoc; [done|]. apply Forall_fmap.
    eapply Forall_impl; [exact wf_change_seq|]. simpl. lia.
  - apply Forall_snoc; [|simpl; lia]. eapply Forall_impl; [exact wf_change_seq|]. simpl. lia.
  - lia.
Qed.

Lemma sound_select_changes cal after : sound (Events.select_changes cal after).
Proof. by intros n d Hd. Qed.

Lemma sound_upsert_share id cal user perm : sound (Shares.upsert_share id cal user perm).
Proof.
  intros n d Hd. unfold Shares.upsert_share. case_bool_decide; [|done].
  case_bool_decide; [|case_bool_decide; [done|case_bool_decide; [|done]]].
  - apply wf_map_shares; [done|..]; intros s; by case_match.
  - destruct_and!. wf_from Hd.
Qed.

Lemma sound_delete_share cal user : sound (Shares.delete_share cal user).
Proof. intros n d Hd. unfold Shares.delete_share. simpl. wf_from Hd. Qed.

Lemma sound_insert_token id user hash name : sound (Tokens.insert_token id user hash name).
Proof.
  intros n d Hd. unfold Tokens.insert_token. case_bool_decide; [done|].
  case_bool_decide; [|done]. wf_from Hd.
Qed.

Lemma sound_select_unexpired : sound Tokens.select_unexpired.
Proof. by intros n d Hd. Qed.

Lemma sound_delete_token id : sound (Tokens.delete_by_id id).
Proof. intros n d Hd. unfold Tokens.delete_by_id. simpl. wf_from Hd. Qed.
End sound.

#[export] Hint Resolve sound_select sound_select_ordered sound_fetch_optional sound_fetch_one
  sound_insert_user sound_update_password_hash sound_insert_calendar sound_update_properties
  sound_update_tokens sound_delete_calendar sound_insert_object sound_update_object
  sound_delete_object sound_insert_sync_change sound_select_changes sound_upsert_share
  sound_delete_share sound_insert_token sound_select_unexpired sound_delete_token : integrity.

(** A query reduces to leaving the database alone. *)
#[export] Hint Extern 5 (sound _) => (intros ? ? Hd; exact Hd) : integrity.

(** ** Programs *)

(** The program keeps the database well-formed at every one of its steps, whatever
    other (well-formedness keeping) programs do in between. *)
Abbreviation keeps := (kept Db.wf).

Section keeps.
Context `{Sqlite, Uuids}.

#[export] Instance keeps_stmt_closed : StmtClosed keeps.
Proof. kept_closed integrity. Qed.

(** Run alone, it ends in a well-formed database. *)
Lemma keeps_run {A} (p : M A) w :
  keeps A p → Db.wf (db (store w)) → Db.wf (db (store (run p w).2)).
Proof.
  intros Hp Hw. pose proof (safe_run _ _ p w (Hp (clock w)) Hw) as Hr.
  destruct (run p w) as [a w']. by destruct Hr.
Qed.
End keeps.

(** The two composite functions whose runs are followed elsewhere. *)
Section composed.
Context `{Sqlite, Uuids, Argon2, Rng}.

Lemma keeps_upsert_object c u data f : keeps _ (Events.upsert_object c u data f).
Proof. apply layer_upsert_object. Qed.

Lemma keeps_delete_object c u : keeps _ (Events.delete_object c u).
Proof. apply layer_delete_object. Qed.
End composed.
