(* ===== verification/EventsSpec.v ===== *)
(** * What the object store promises

    Abstractly, the objects of all calendars are a finite map from
    (calendar, UID) to object.  [objects_of] reads that map off the database; the
    theorems show that the functions of [src/db/events.rs] implement its lookup,
    insertion and deletion, with the log entry and the new calendar tokens each
    mutation leaves behind. *)
From Stdlib Require Import ZArith.
From S2P Require Import Prelude RustStr Effects Models Db DbUsers DbCalendars DbEvents Sim.
From S2P Require Import Integrity.
From stdpp Require Import options.
Set Default Proof Using "Type*".

(** ** Rows selected by a key *)

Section rows.
Context `{SqliteLaws}.

Lemma scan_short {A} n (l : list A) : length l ≤ 1 → sql_scan n l = l.
Proof. intros Hl. by apply Permutation_short, sql_scan_perm. Qed.

Lemma elem_of_scan {A} n (l : list A) x : x ∈ sql_scan n l ↔ x ∈ l.
Proof. by rewrite sql_scan_perm. Qed.

Lemma length_scan {A} n (l : list A) : length (sql_scan n l) = length l.
Proof. by rewrite sql_scan_perm. Qed.
End rows.

(** The rows with one value of a unique column: at most one. *)
Lemma bfilter_key_lookup {A K} `{EqDecision K} (f : A → K) (l : list A) k :
  NoDup (f <$> l) →
  (bfilter (λ x, bool_decide (f x = k)) l = [] ∧ k ∉ f <$> l) ∨
  (∃ x, bfilter (λ x, bool_decide (f x = k)) l = [x] ∧ x ∈ l ∧ f x = k).
Proof.
  intros Hnd. destruct (decide (k ∈ f <$> l)) as [Hin|Hni].
  - right. apply list_elem_of_fmap in Hin as [x [-> Hx]]. exists x. split; [|done].
    eapply bfilter_unique; [exact Hnd|done|by apply bool_decide_eq_true|].
    intros y _ Hy. by apply bool_decide_eq_true in Hy.
  - left. split; [|done]. apply bfilter_none. intros x Hx.
    apply bool_decide_eq_false. intros <-. destruct Hni. by apply list_elem_of_fmap_2.
Qed.

Definition objects_of (d : Db.t) : gmap (string * string) CalendarObject.t :=
  list_to_map ((λ o, (CalendarObject.key o, o)) <$> Db.calendar_objects d).

Lemma lookup_objects_of d k o :
  Db.wf d → objects_of d !! k = Some o ↔ o ∈ Db.calendar_objects d ∧ CalendarObject.key o = k.
Proof.
  intros Hwf. unfold objects_of.
  rewrite <- elem_of_list_to_map.
  - rewrite list_elem_of_fmap. naive_solver.
  - rewrite <- list_fmap_compose. apply (Db.wf_object_key _ Hwf).
Qed.

Lemma lookup_objects_of_None d k :
  objects_of d !! k = None ↔ k ∉ CalendarObject.key <$> Db.calendar_objects d.
Proof.
  unfold objects_of. rewrite <- not_elem_of_list_to_map.
  rewrite <- list_fmap_compose. done.
Qed.

(** The objects with one key, as the WHERE clause finds them. *)
Lemma filter_object d c uid :
  Db.wf d →
  bfilter (Events.is_object c uid) (Db.calendar_objects d) =
    option_list (objects_of d !! (c, uid)).
Proof.
  intros Hwf. unfold Events.is_object.
  destruct (bfilter_key_lookup CalendarObject.key (Db.calendar_objects d) (c, uid))
    as [[-> Hni]|(o & -> & Ho & Hk)]; [apply Hwf|..].
  - by apply lookup_objects_of_None in Hni as ->.
  - assert (objects_of d !! (c, uid) = Some o) as -> by (by apply lookup_objects_of). done.
Qed.

(** Two databases whose rows with a key agree have the same object for it. *)
Lemma objects_of_ext d m :
  Db.wf d →
  (∀ k o, m !! k = Some o ↔ o ∈ Db.calendar_objects d ∧ CalendarObject.key o = k) →
  objects_of d = m.
Proof.
  intros Hwf Hm. apply map_eq. intros k. apply option_eq. intros o.
  by rewrite lookup_objects_of, Hm.
Qed.

(** The database after one more entry of the sync log. *)
Definition logged `{Sqlite} (n : N) (c uid kind tok : string) (d : Db.t) : Db.t :=
  Db.set_seq (Db.sync_seq d + 1) (Db.set_changes
    (λ l, l ++ [SyncChange.mk (Db.sync_seq d + 1) c uid kind tok (datetime_now n)]) d).

(** The log can take one more entry for the calendar. *)
Definition log_ready (c : string) (d : Db.t) : Prop :=
  c ∈ Db.calendar_ids d ∧ (Db.sync_seq d < 2 ^ 63 - 1)%Z.

(** ** The statements on the map *)

Section statements.
Context `{Sqlite, Uuids}.

Lemma objects_of_insert n d id c uid etag data f :
  Db.wf d → objects_of d !! (c, uid) = None →
  c ∈ Db.calendar_ids d → id ∉ CalendarObject.id <$> Db.calendar_objects d →
  let o := Events.new_object n id c uid etag data f in
  Events.insert_object id c uid etag data f n d = (Ok tt, Db.set_objects (λ l, l ++ [o]) d) ∧
  objects_of (Db.set_objects (λ l, l ++ [o]) d) = <[(c, uid) := o]> (objects_of d).
Proof.
  intros Hwf Hnone Hc Hid o.
  assert (Events.insert_object id c uid etag data f n d =
            (Ok tt, Db.set_objects (λ l, l ++ [o]) d)) as E.
  { unfold Events.insert_object. apply lookup_objects_of_None in Hnone.
    by rewrite (bool_decide_false _ Hid), (bool_decide_false _ Hnone), (bool_decide_true _ Hc). }
  split; [done|]. apply objects_of_ext.
  { pose proof (sound_insert_object id c uid etag data f n d Hwf) as Hs. by rewrite E in Hs. }
  intros k o'. rewrite lookup_insert_Some, lookup_objects_of by done. simpl.
  rewrite elem_of_app, list_elem_of_singleton.
  split; [naive_solver|]. intros [[Ho| ->] Hk]; [|by left; split].
  right. split; [|done]. intros Ek. apply lookup_objects_of_None in Hnone.
  apply Hnone. rewrite Ek, <- Hk. by apply list_elem_of_fmap_2.
Qed.

Lemma objects_of_update n d c uid etag data f o :
  Db.wf d → objects_of d !! (c, uid) = Some o →
  objects_of (Events.update_object c uid etag data f n d).2 =
    <[(c, uid) := Events.updated_object n etag data f o]> (objects_of d).
Proof.
  intros Hwf Ho. apply objects_of_ext; [by apply sound_update_object|].
  apply lookup_objects_of in Ho as [Ho Hk]; [|done].
  intros k o'. rewrite lookup_insert_Some, lookup_objects_of by done. simpl.
  rewrite list_elem_of_fmap. unfold Events.is_object. split.
  - intros [[<- <-]|(Hne & Hin & <-)].
    + split; [|exact Hk]. exists o. by rewrite bool_decide_true.
    + split; [|done]. exists o'. by rewrite bool_decide_false.
  - intros [(o1 & -> & Hin) <-]. case_bool_decide as E; [|by right].
    left. assert (o1 = o) as ->; [|split; [symmetry; exact E|done]].
    apply (NoDup_fmap_inj CalendarObject.key (Db.calendar_objects d)); [apply Hwf|done..|]. by rewrite E, Hk.
Qed.

Lemma objects_of_delete n d c uid :
  Db.wf d →
  objects_of (Events.delete_by_uid c uid n d).2 = delete (c, uid) (objects_of d) ∧
  (Events.delete_by_uid c uid n d).1 =
    Ok (if is_some_b (objects_of d !! (c, uid)) then 1 else 0).
Proof.
  intros Hwf. split.
  - apply objects_of_ext; [by apply sound_delete_object|]. intros k o.
    rewrite lookup_delete_Some, lookup_objects_of by done. simpl.
    rewrite elem_of_bfilter. unfold Events.is_object.
    rewrite negb_true_iff, bool_decide_eq_false. naive_solver.
  - simpl. rewrite filter_object by done. by destruct (objects_of d !! (c, uid)).
Qed.

Lemma delete_absent n d c uid :
  objects_of d !! (c, uid) = None → (Events.delete_by_uid c uid n d).2 = d.
Proof.
  intros Hn%lookup_objects_of_None. unfold Events.delete_by_uid, Db.set_objects.
  destruct d; cbn in *. f_equal. apply bfilter_all. intros o Ho.
  unfold Events.is_object. rewrite bool_decide_false; [done|].
  intros E. apply Hn. rewrite <- E. by apply list_elem_of_fmap_2.
Qed.

Lemma objects_of_tokens n d ctag tok c :
  objects_of (Calendars.update_tokens ctag tok c n d).2 = objects_of d.
Proof. done. Qed.

(** The log accepts an entry as long as its counter has room. *)
Lemma insert_sync_change_ok n d c uid kind tok :
  kind ∈ Db.change_types → log_ready c d →
  Events.insert_sync_change c uid kind tok n d =
    (Ok tt, logged n c uid kind tok d).
Proof.
  intros Hk [Hc Hs]. unfold Events.insert_sync_change.
  rewrite (bool_decide_true _ Hk), (bool_decide_true _ Hc). by rewrite bool_decide_false by lia.
Qed.
End statements.

(** The calendars after [bump_ctag]: one of them has new tokens. *)
Definition bumped `{Sqlite} (n : N) (c tok : string) (cs : list Calendar.t) :
    list Calendar.t :=
  fmap (λ cal,
    if decide (Calendar.id cal = c)
    then Calendar.mk (Calendar.id cal) (Calendar.owner_id cal) (Calendar.name cal)
           (Calendar.description cal) (Calendar.color cal) (Calendar.timezone cal)
           tok tok (Calendar.created_at cal) (datetime_now n)
    else cal) cs.

(** ** The sync log *)

Section sync_log.
Context `{SqliteLaws}.

(** The entries of one calendar, oldest first. *)
Definition log_of (c : string) (d : Db.t) : list SyncChange.t :=
  bfilter (λ e, bool_decide (SyncChange.calendar_id e = c)) (Db.sync_changes d).

Lemma log_of_sorted c d :
  Db.wf d → StronglySorted Z.lt (SyncChange.id <$> log_of c d).
Proof. intros Hwf. apply StronglySorted_bfilter, Hwf. Qed.

#[export] Instance change_le_trans : Transitive Events.change_le.
Proof. intros x y z. unfold Events.change_le. lia. Qed.

#[export] Instance change_le_total : Total Events.change_le.
Proof. intros x y. unfold Events.change_le. lia. Qed.

Lemma StronglySorted_lt_NoDup (l : list Z) : StronglySorted Z.lt l → NoDup l.
Proof.
  induction 1 as [|z l Hl IH Hz]; constructor; [|done].
  intros Hin. rewrite Forall_forall in Hz. specialize (Hz _ Hin). lia.
Qed.

(** Sorting entries that were in the order of their ids gives that order again. *)
Lemma sort_scan_changes n (l : list SyncChange.t) :
  StronglySorted Z.lt (SyncChange.id <$> l) →
  merge_sort Events.change_le (sql_scan n l) = l.
Proof.
  intros Hl.
  assert (merge_sort Events.change_le (sql_scan n l) ≡ₚ l) as Hp
    by by rewrite merge_sort_Permutation, sql_scan_perm.
  eapply (StronglySorted_unique_strong Events.change_le);
    [|apply StronglySorted_merge_sort; apply _| |exact Hp].
  - intros x y Hx%(elem_of_Permutation_proper _ _ _ Hp) Hy ? ?. unfold Events.change_le in *.
    eapply (NoDup_fmap_inj SyncChange.id l); [|done..|lia].
    by apply StronglySorted_lt_NoDup.
  - clear Hp. induction l as [|z l IH]; [constructor|].
    rewrite fmap_cons in Hl. apply StronglySorted_inv in Hl as [Hl Hz].
    constructor; [by apply IH|]. rewrite Forall_fmap in Hz.
    eapply Forall_impl; [exact Hz|]. unfold Events.change_le. simpl. lia.
Qed.

(** The anchor lookup of the sync query. *)
Lemma run_select_anchor c tok w :
  sql_fault (clock w) = None →
  run (sql_try (fetch_optional (Events.select_anchor c tok))) w =
    (Ok (head (sql_scan (clock w)
       (bfilter (λ e, bool_decide (SyncChange.sync_token e = tok)) (log_of c (db (store w)))))),
     tick w (store w)).
Proof.
  intros Hf. rewrite run_sql_try by done. cbn. rewrite with_db_id. unfold log_of.
  rewrite bfilter_bfilter. do 4 f_equal. apply bfilter_ext. intros e _.
  by rewrite bool_decide_and.
Qed.

(** The entries after one entry of a log sorted by id. *)
Lemma filter_after c pre a post d :
  Db.wf d → log_of c d = pre ++ a :: post →
  bfilter (λ e, bool_decide (SyncChange.calendar_id e = c) &&
                (SyncChange.id a <? SyncChange.id e)%Z) (Db.sync_changes d) = post.
Proof.
  intros Hwf E. pose proof (log_of_sorted c d Hwf) as Hs.
  transitivity (bfilter (λ e, (SyncChange.id a <? SyncChange.id e)%Z) (log_of c d)).
  { unfold log_of. by rewrite bfilter_bfilter. }
  rewrite E in *. rewrite fmap_app, fmap_cons in Hs.
  rewrite bfilter_app, bfilter_cons, Z.ltb_irrefl.
  rewrite bfilter_none, bfilter_all; [done|..]; intros x Hx.
  - apply Z.ltb_lt. apply StronglySorted_app_1_r in Hs.
    apply StronglySorted_inv in Hs as [_ Hs]. rewrite Forall_forall in Hs.
    apply Hs. by apply list_elem_of_fmap_2.
  - apply Z.ltb_ge. apply Z.lt_le_incl.
    eapply (StronglySorted_app_1_elem_of _ _ _ _ _ Hs); [by apply list_elem_of_fmap_2|by left].
Qed.

(** A token the log does not have. *)
Lemma run_sync_unknown w c tok :
  sql_fault (clock w) = None → sql_fault (N.succ (clock w)) = None →
  Db.wf (db (store w)) →
  tok ∉ SyncChange.sync_token <$> log_of c (db (store w)) →
  ∃ w', run (Events.get_sync_changes_since c tok) w = (Ok (log_of c (db (store w))), w') ∧
        store w' = store w.
Proof.
  intros Hf Hf' Hwf Hni. eexists. unfold Events.get_sync_changes_since.
  rewrite run_try, run_select_anchor by done. rewrite bfilter_none.
  - rewrite scan_short by (simpl; lia). cbn [head]. rewrite run_sql_try by done.
    unfold Events.select_changes. cbn [fst snd map_err tick clock store db].
    rewrite (bfilter_ext _ (λ e, bool_decide (SyncChange.calendar_id e = c)))
      by (intros; apply andb_true_r).
    by rewrite sort_scan_changes, with_db_id by by apply log_of_sorted.
  - intros e He. apply bool_decide_eq_false. intros <-. apply Hni.
    by apply list_elem_of_fmap_2.
Qed.

End sync_log.

(** ** The functions *)

(** Runs the next step of a program under [run], without faults. *)
Ltac run_step Hnf :=
  first
    [ rewrite run_try | rewrite run_bind | rewrite run_observe | rewrite run_ret
    | rewrite run_sql_try by apply Hnf ];
  cbn [clock store tick fst snd map_err db with_db sessions is_none is_some_b negb].

Section functions.
Context `{SqliteLaws, Uuids}.
(** No statement fails for a reason outside the schema. *)
Context (Hnf : ∀ n, sql_fault n = None).

Lemma run_get_object c uid w :
  Db.wf (db (store w)) →
  run (Events.get_object_by_uid c uid) w =
    (Ok (objects_of (db (store w)) !! (c, uid)), tick w (store w)).
Proof.
  intros Hwf. unfold Events.get_object_by_uid. rewrite run_sql_try by apply Hnf. simpl.
  rewrite with_db_id. f_equal. f_equal. rewrite filter_object by done.
  rewrite scan_short by (destruct (objects_of _ !! _); simpl; lia).
  by destruct (objects_of _ !! _).
Qed.

Lemma run_new_etag w :
  run Events.new_etag w = (Events.etag_of_uuid (uuid_v4 (clock w)), tick w (store w)).
Proof. done. Qed.

Lemma run_new_sync_token w :
  run Calendars.new_sync_token w =
    (Calendars.sync_token_of_uuid (uuid_v7 (clock w)), tick w (store w)).
Proof. done. Qed.

Lemma run_now_v7 w : run now_v7 w = (uuid_v7 (clock w), tick w (store w)).
Proof. done. Qed.

Lemma run_bump_ctag c w :
  run (Calendars.bump_ctag c) w =
    let n := clock w in
    let tok := Calendars.sync_token_of_uuid (uuid_v7 n) in
    (Ok tok,
     mkWorld (N.succ (N.succ n))
       (with_db (Db.set_calendars (bumped (N.succ n) c tok) (db (store w))) (store w))).
Proof.
  unfold Calendars.bump_ctag, Calendars.new_sync_token, now_v7.
  repeat run_step Hnf. done.
Qed.

Lemma run_log_sync_change c uid kind tok w :
  kind ∈ Db.change_types → log_ready c (db (store w)) →
  run (Events.log_sync_change c uid kind tok) w =
    (Ok tt, tick w (with_db (logged (clock w) c uid kind tok (db (store w))) (store w))).
Proof.
  intros Hk Hr. unfold Events.log_sync_change. rewrite run_sql_try by apply Hnf.
  by rewrite insert_sync_change_ok.
Qed.

(** What [upsert_object] and [delete_object] leave of the rest of the server: the
    calendar has new tokens, the log one more entry, nothing else has changed. *)
Record noted (c uid kind : string) (σ σ' : Store) : Prop := {
  noted_calendars : ∃ n tok,
    Db.calendars (db σ') = bumped n c tok (Db.calendars (db σ));
  noted_log : ∃ n tok,
    Db.sync_changes (db σ') =
      Db.sync_changes (db σ) ++
        [SyncChange.mk (Db.sync_seq (db σ) + 1) c uid kind tok (datetime_now n)];
  noted_seq : Db.sync_seq (db σ') = (Db.sync_seq (db σ) + 1)%Z;
  noted_users : Db.users (db σ') = Db.users (db σ);
  noted_shares : Db.calendar_shares (db σ') = Db.calendar_shares (db σ);
  noted_tokens : Db.mcp_tokens (db σ') = Db.mcp_tokens (db σ);
  noted_sessions : sessions σ' = sessions σ;
}.

(** The entry and the new tokens are written one after the other, then the function
    goes on. *)
Lemma run_note c uid kind tok w :
  Db.wf (db (store w)) → kind ∈ Db.change_types → log_ready c (db (store w)) →
  ∃ w',
    (∀ B (k : M (AppResult B)),
       run (_ ←? Events.log_sync_change c uid kind tok; _ ←? Calendars.bump_ctag c; k) w =
         run k w') ∧
    (clock w < clock w')%N ∧ Db.wf (db (store w')) ∧
    Db.calendar_objects (db (store w')) = Db.calendar_objects (db (store w)) ∧
    noted c uid kind (store w) (store w').
Proof.
  intros Hwf Hk Hr. eexists. split.
  { intros B k. rewrite run_try, run_log_sync_change by done.
    rewrite run_try, run_bump_ctag. reflexivity. }
  split; [simpl; lia|]. split; [|split; [done|split; simpl; eauto; done]].
  simpl. apply (sound_update_tokens _ _ c).
  pose proof (sound_insert_sync_change c uid kind tok (clock w) _ Hwf) as Hs.
  by rewrite insert_sync_change_ok in Hs.
Qed.

(** The same after a write to the objects. *)
Lemma run_write_note {R} (stmt : Stmt R) r c uid kind tok w g :
  Db.wf (db (store w)) → sound stmt → kind ∈ Db.change_types →
  log_ready c (db (store w)) →
  stmt (clock w) (db (store w)) = (Ok r, Db.set_objects g (db (store w))) →
  ∃ w',
    (∀ B (k : M (AppResult B)),
       run (_ ←? (_ ←? sql_try stmt; Events.log_sync_change c uid kind tok);
            _ ←? Calendars.bump_ctag c; k) w = run k w') ∧
    (clock w < clock w')%N ∧ Db.wf (db (store w')) ∧
    Db.calendar_objects (db (store w')) = g (Db.calendar_objects (db (store w))) ∧
    noted c uid kind (store w) (store w').
Proof.
  intros Hwf Hs Hk Hr E. specialize (Hs (clock w) _ Hwf). rewrite E in Hs.
  destruct (run_note c uid kind tok
              (tick w (with_db (Db.set_objects g (db (store w))) (store w))))
    as (w' & Hrun & Hc & Hwf' & Ho & []); [exact Hs|done|done|].
  exists w'. split; [|split; [simpl in Hc; lia|split; [done|split; [done|by split]]]].
  intros B k. rewrite run_try_assoc, run_try, run_sql_try by apply Hnf. rewrite E. apply Hrun.
Qed.

Lemma objects_of_same d d' m :
  objects_of d = m → Db.calendar_objects d' = Db.calendar_objects d → objects_of d' = m.
Proof. intros <- E. unfold objects_of. by rewrite E. Qed.

Definition fields_of (o : CalendarObject.t) : ObjectFields.t :=
  ObjectFields.mk (CalendarObject.component_type o) (CalendarObject.dtstart o)
    (CalendarObject.dtend o) (CalendarObject.summary o).

(** The end of [upsert_object], with the object in place. *)
Lemma run_return_stored c uid w objects obj (is_new : bool) :
  Db.wf (db (store w)) →
  objects_of (db (store w)) = <[(c, uid) := obj]> objects →
  run (obj ←? Events.get_object_by_uid c uid;
       mret (match obj with
             | Some obj => Ok (obj, is_new)
             | None => Err (AppError.Internal "Object upserted but not found")
             end)) w =
    (Ok (obj, is_new), tick w (store w)).
Proof.
  intros Hwf E. rewrite run_try, run_get_object, E by done. by rewrite lookup_insert_eq.
Qed.

(** The step at which a save of a new object draws the object's id. *)
Definition insert_step (w : World Store) : N := N.succ (N.succ (N.succ (clock w))).

(** A save over an existing object, run to its end. *)
Lemma run_upsert_update w c uid data f o :
  Db.wf (db (store w)) → log_ready c (db (store w)) →
  objects_of (db (store w)) !! (c, uid) = Some o →
  ∃ obj w',
    run (Events.upsert_object c uid data f) w = (Ok (obj, false), w') ∧
    objects_of (db (store w')) = <[(c, uid) := obj]> (objects_of (db (store w))) ∧
    CalendarObject.ical_data obj = data ∧ fields_of obj = f ∧
    CalendarObject.etag obj = Events.etag_of_uuid (uuid_v4 (N.succ (clock w))) ∧
    CalendarObject.id obj = CalendarObject.id o ∧
    CalendarObject.created_at obj = CalendarObject.created_at o ∧
    (N.succ (clock w) < clock w')%N ∧ noted c uid "modified" (store w) (store w').
Proof.
  intros Hwf Hr Hold. unfold Events.upsert_object.
  rewrite run_try, run_get_object, Hold by done.
  rewrite run_bind, run_new_etag, run_bind, run_new_sync_token. cbn [is_none].
  set (etag := Events.etag_of_uuid (uuid_v4 (clock (tick w (store w))))).
  set (w3 := tick (tick (tick w (store w)) (store w)) (store w)).
  destruct (run_write_note (Events.update_object c uid etag data f) tt c uid "modified"
              (Calendars.sync_token_of_uuid
                 (uuid_v7 (clock (tick (tick w (store w)) (store w)))))
              w3 _ Hwf (sound_update_object _ _ _ _ _) ltac:(set_solver) Hr eq_refl)
    as (w' & Hrun & Hc & Hwf' & Ho & Hn).
  rewrite Hrun.
  pose proof (objects_of_update (clock w3) _ _ _ etag data f _ Hwf Hold) as Hm.
  apply (objects_of_same _ (db (store w'))) in Hm; [|exact Ho].
  eexists _, _. split; [by eapply run_return_stored|].
  split; [exact Hm|]. split; [done|]. split; [by destruct f|]. split; [done|].
  split; [done|]. split; [done|]. split; [simpl in Hc |- *; lia|exact Hn].
Qed.

(** A save of a new object, run to its end. *)
Lemma run_upsert_insert w c uid data f :
  Db.wf (db (store w)) → log_ready c (db (store w)) →
  objects_of (db (store w)) !! (c, uid) = None →
  uuid_v7 (insert_step w) ∉ CalendarObject.id <$> Db.calendar_objects (db (store w)) →
  ∃ obj w',
    run (Events.upsert_object c uid data f) w = (Ok (obj, true), w') ∧
    objects_of (db (store w')) = <[(c, uid) := obj]> (objects_of (db (store w))) ∧
    CalendarObject.ical_data obj = data ∧ fields_of obj = f ∧
    CalendarObject.etag obj = Events.etag_of_uuid (uuid_v4 (N.succ (clock w))) ∧
    CalendarObject.id obj = uuid_v7 (insert_step w) ∧
    (insert_step w < clock w')%N ∧ noted c uid "created" (store w) (store w').
Proof.
  intros Hwf Hr Hold Hfresh. unfold Events.upsert_object.
  rewrite run_try, run_get_object, Hold by done.
  rewrite run_bind, run_new_etag, run_bind, run_new_sync_token. cbn [is_none].
  set (etag := Events.etag_of_uuid (uuid_v4 (clock (tick w (store w))))).
  set (w3 := tick (tick (tick w (store w)) (store w)) (store w)).
  rewrite run_try_bind, run_now_v7.
  destruct (objects_of_insert (N.succ (clock w3)) _ (uuid_v7 (clock w3)) c uid etag data f
              Hwf Hold) as [Hins Hm]; [apply Hr|exact Hfresh|].
  destruct (run_write_note (Events.insert_object (uuid_v7 (clock w3)) c uid etag data f) tt
              c uid "created" (Calendars.sync_token_of_uuid
                 (uuid_v7 (clock (tick (tick w (store w)) (store w)))))
              (tick w3 (store w3)) _ Hwf
              (sound_insert_object _ _ _ _ _ _) ltac:(set_solver) Hr Hins)
    as (w' & Hrun & Hc & Hwf' & Ho & Hn).
  rewrite Hrun. apply (objects_of_same _ (db (store w'))) in Hm; [|exact Ho].
  eexists _, _. split; [by eapply run_return_stored|].
  split; [exact Hm|]. split; [done|]. split; [by destruct f|]. split; [done|].
  split; [done|]. split; [unfold insert_step; simpl in Hc |- *; lia|exact Hn].
Qed.

(** A save that the database refuses: no calendar, or an id that is taken. *)
Lemma run_upsert_refused w c uid data f :
  Db.wf (db (store w)) → objects_of (db (store w)) !! (c, uid) = None →
  c ∉ Db.calendar_ids (db (store w)) ∨
  uuid_v7 (insert_step w) ∈ CalendarObject.id <$> Db.calendar_objects (db (store w)) →
  ∃ e w', run (Events.upsert_object c uid data f) w = (Err (AppError.Database e), w') ∧
          store w' = store w.
Proof.
  intros Hwf Hold Hno. unfold Events.upsert_object.
  rewrite run_try, run_get_object, Hold by done.
  rewrite run_bind, run_new_etag, run_bind, run_new_sync_token. cbn [is_none].
  rewrite run_try_bind, run_now_v7, run_try_assoc, run_try, run_sql_try by apply Hnf.
  unfold Events.insert_object. cbn [clock tick store]. fold (insert_step w).
  apply lookup_objects_of_None in Hold. rewrite (bool_decide_false _ Hold).
  destruct Hno as [Hno|Hno]; [rewrite (bool_decide_false _ Hno); case_bool_decide|
                              rewrite (bool_decide_true _ Hno)];
    cbn [map_err fst snd]; eexists _, _; (split; [reflexivity|apply with_db_id]).
Qed.

(** A save, run to its end. *)
Lemma run_upsert_object w c uid data f :
  Db.wf (db (store w)) → log_ready c (db (store w)) →
  (∀ n, (clock w ≤ n)%N →
        uuid_v7 n ∉ CalendarObject.id <$> Db.calendar_objects (db (store w))) →
  let objects := objects_of (db (store w)) in
  let old := objects !! (c, uid) in
  ∃ obj w',
    run (Events.upsert_object c uid data f) w = (Ok (obj, is_none old), w') ∧
    objects_of (db (store w')) = <[(c, uid) := obj]> objects ∧
    CalendarObject.ical_data obj = data ∧ fields_of obj = f ∧
    CalendarObject.etag obj = Events.etag_of_uuid (uuid_v4 (N.succ (clock w))) ∧
    (∀ o, old = Some o → CalendarObject.id obj = CalendarObject.id o ∧
                         CalendarObject.created_at obj = CalendarObject.created_at o) ∧
    (N.succ (clock w) < clock w')%N ∧
    (old = None → ∃ n, (clock w ≤ n < clock w')%N ∧ CalendarObject.id obj = uuid_v7 n) ∧
    noted c uid (if old then "modified" else "created") (store w) (store w').
Proof.
  intros Hwf Hr Hfresh objects old. destruct old as [o|] eqn:Hold.
  - destruct (run_upsert_update w c uid data f o Hwf Hr Hold)
      as (obj & w' & ?&?&?&?&?&?&?&?&?). exists obj, w'. repeat split_and; try done.
    by intros o' [= <-].
  - destruct (run_upsert_insert w c uid data f Hwf Hr Hold) as (obj & w' & ?&?&?&?&?&Hid&Hc&?).
    { apply Hfresh. unfold insert_step. lia. }
    exists obj, w'. unfold insert_step in *. repeat split_and; try done; [lia|].
    intros _. eexists. split; [|exact Hid]. lia.
Qed.

(** C16: [upsert_object] is insertion into the map of objects: the object it returns is
    the one stored under (calendar, UID), with the data and fields given and a fresh
    quoted ETag, every other object is untouched, and the flag says whether the key
    was new (an existing object keeps its id and creation time).  The calendar's
    tokens change and the log gets one entry of the right kind. *)
Theorem upsert_object_refines w c uid data f :
  Db.wf (db (store w)) → log_ready c (db (store w)) →
  (∀ n, (clock w ≤ n)%N →
        uuid_v7 n ∉ CalendarObject.id <$> Db.calendar_objects (db (store w))) →
  let objects := objects_of (db (store w)) in
  let old := objects !! (c, uid) in
  ∃ obj w',
    run (Events.upsert_object c uid data f) w = (Ok (obj, is_none old), w') ∧
    objects_of (db (store w')) = <[(c, uid) := obj]> objects ∧
    CalendarObject.ical_data obj = data ∧ fields_of obj = f ∧
    CalendarObject.etag obj = Events.etag_of_uuid (uuid_v4 (N.succ (clock w))) ∧
    (∀ o, old = Some o → CalendarObject.id obj = CalendarObject.id o ∧
                         CalendarObject.created_at obj = CalendarObject.created_at o) ∧
    noted c uid (if old then "modified" else "created") (store w) (store w').
Proof.
  intros Hwf Hr Hfresh objects old.
  destruct (run_upsert_object w c uid data f Hwf Hr Hfresh) as (obj & w' & ?&?&?&?&?&?&_&_&?).
  by exists obj, w'.
Qed.

(** A deletion, run to its end. *)
Lemma run_delete_object w c uid :
  Db.wf (db (store w)) → (Db.sync_seq (db (store w)) < 2 ^ 63 - 1)%Z →
  let objects := objects_of (db (store w)) in
  ∃ r w',
    run (Events.delete_object c uid) w = (r, w') ∧
    objects_of (db (store w')) = delete (c, uid) objects ∧
    match objects !! (c, uid) with
    | None =>
        r = Err (AppError.NotFound
                   ("Object with UID '" +:+ uid +:+ "' not found in calendar")) ∧
        store w' = store w
    | Some _ => r = Ok tt ∧ noted c uid "deleted" (store w) (store w')
    end.
Proof.
  intros Hwf Hseq objects. unfold Events.delete_object.
  rewrite run_try, run_sql_try by apply Hnf.
  destruct (objects_of_delete (clock w) (db (store w)) c uid Hwf) as [Hm Hrows].
  rewrite Hrows. fold objects. fold objects in Hm. cbn [map_err].
  destruct (objects !! (c, uid)) as [o|] eqn:Ho; cbn [is_some_b is_none negb].
  - destruct (decide (1 = 0)) as [|_]; [done|].
    rewrite run_bind, run_new_sync_token.
    assert (log_ready c (db (store w))) as Hr.
    { split; [|done]. apply lookup_objects_of in Ho as [Hin Hk]; [|done].
      pose proof (Db.wf_object_calendar _ Hwf) as Hc. rewrite Forall_forall in Hc.
      specialize (Hc o Hin). unfold CalendarObject.key in Hk. by simplify_eq. }
    edestruct (run_note c uid "deleted") as (w' & Hrun & _ & Hwf' & Hobj & Hn);
      [|apply list_elem_of_In; simpl; tauto| |rewrite Hrun].
    + by apply (sound_delete_object c uid (clock w)).
    + exact Hr.
    + eexists _, _. split; [done|]. split; [by eapply objects_of_same|]. split; [done|].
      destruct Hn. by split.
  - destruct (decide (0 = 0)) as [_|]; [|done]. eexists _, _. split; [done|].
    split; [exact Hm|]. split; [done|]. cbn [tick store].
    by rewrite delete_absent, with_db_id.
Qed.

(** [delete_object] is deletion from the map of objects: a key that is not there is
    reported as not found and nothing changes; otherwise exactly that object goes, the
    calendar's tokens change and the log gets one "deleted" entry. *)
Theorem delete_object_refines w c uid :
  Db.wf (db (store w)) → (Db.sync_seq (db (store w)) < 2 ^ 63 - 1)%Z →
  let objects := objects_of (db (store w)) in
  ∃ r w',
    run (Events.delete_object c uid) w = (r, w') ∧
    objects_of (db (store w')) = delete (c, uid) objects ∧
    match objects !! (c, uid) with
    | None =>
        r = Err (AppError.NotFound
                   ("Object with UID '" +:+ uid +:+ "' not found in calendar")) ∧
        store w' = store w
    | Some _ => r = Ok tt ∧ noted c uid "deleted" (store w) (store w')
    end.
Proof. apply run_delete_object. Qed.

(** *** Delta syncs *)

(** A delta sync from a logged token. *)
Lemma run_sync_logged w c pre a post :
  Db.wf (db (store w)) →
  log_of c (db (store w)) = pre ++ a :: post →
  (∀ e, e ∈ log_of c (db (store w)) → SyncChange.sync_token e = SyncChange.sync_token a →
        e = a) →
  ∃ w', run (Events.get_sync_changes_since c (SyncChange.sync_token a)) w = (Ok post, w') ∧
        store w' = store w.
Proof.
  intros Hwf E Huniq. eexists. unfold Events.get_sync_changes_since.
  rewrite run_try, run_select_anchor by apply Hnf.
  rewrite (bfilter_unique SyncChange.id _ _ a).
  - rewrite scan_short by (simpl; lia). cbn [head]. rewrite run_sql_try by apply Hnf.
    unfold Events.select_changes. cbn [fst snd map_err tick clock store db].
    rewrite (filter_after c pre a post) by done.
    rewrite sort_scan_changes, with_db_id; [done|].
    pose proof (log_of_sorted c _ Hwf) as Hs. rewrite E, fmap_app, fmap_cons in Hs.
    apply StronglySorted_app_1_r in Hs. by apply StronglySorted_inv in Hs as [Hs _].
  - apply StronglySorted_lt_NoDup, log_of_sorted, Hwf.
  - rewrite E. set_solver.
  - by apply bool_decide_eq_true.
  - intros e He Ht%bool_decide_eq_true. by rewrite (Huniq e).
Qed.

(** a delta sync from a token of the log returns exactly the entries of the calendar
    after that one, in order. *)
Theorem sync_since_logged_token w c pre a post :
  Db.wf (db (store w)) →
  log_of c (db (store w)) = pre ++ a :: post →
  (∀ e, e ∈ log_of c (db (store w)) → SyncChange.sync_token e = SyncChange.sync_token a →
        e = a) →
  ∃ w', run (Events.get_sync_changes_since c (SyncChange.sync_token a)) w = (Ok post, w') ∧
        store w' = store w.
Proof. apply run_sync_logged. Qed.

End functions.

(** ** On the simulated database *)

Module EventsExamples.
Import Sim.

Lemma fresh_ids : ∀ n, (100 ≤ n)%N →
  uuid_v7 n ∉ CalendarObject.id <$> Db.calendar_objects database.
Proof. intros n _. apply not_elem_of_cons. split; [done|apply not_elem_of_nil]. Qed.

Lemma cal_ready : log_ready "cal" database.
Proof. split; [by left|done]. Qed.

Definition fields : ObjectFields.t := ObjectFields.mk "VEVENT" None None (Some "Lunch").

Lemma upsert_object_refines_witness :
  ∃ obj w', run (Events.upsert_object "cal" "meeting" "NEW" fields) world = (Ok (obj, false), w') ∧
            CalendarObject.ical_data obj = "NEW" ∧ CalendarObject.id obj = "obj".
Proof.
  destruct (upsert_object_refines nofault world "cal" "meeting" "NEW" fields
              database_wf cal_ready fresh_ids) as (obj & w' & Hrun & _ & Hdata & _ & _ & Hid & _).
  exists obj, w'. split; [exact Hrun|]. split; [exact Hdata|].
  by destruct (Hid meeting).
Defined.

Lemma delete_object_refines_witness :
  ∃ w', run (Events.delete_object "cal" "meeting") world = (Ok tt, w') ∧
        objects_of (db (store w')) = ∅.
Proof.
  destruct (delete_object_refines nofault world "cal" "meeting" database_wf eq_refl)
    as (r & w' & Hrun & Hm & Hr & _).
  exists w'. rewrite Hrun, Hr. split; [done|]. by rewrite Hm.
Defined.

Lemma sync_since_logged_token_witness :
  ∃ w', run (Events.get_sync_changes_since "cal" "data:,sync-1") world = (Ok [], w') ∧
        store w' = store world.
Proof.
  apply (sync_since_logged_token nofault world "cal" []
           (SyncChange.mk 1 "cal" "meeting" "created" "data:,sync-1" now) [] database_wf eq_refl).
  intros e He _. by apply list_elem_of_singleton in He.
Defined.

End EventsExamples.
