(* ===== verification/CalendarsSpec.v ===== *)
(** * What the calendar functions promise

    Listing gives exactly the accessible calendars; creation, update and deletion
    change the row they are about and what refers to it. *)
From Stdlib Require Import ZArith.
From S2P Require Import Prelude RustStr Effects Models Db DbUsers DbCalendars DbEvents.
From S2P Require Import DbShares.
From S2P Require Import Sim Integrity EventsSpec.
From stdpp Require Import options.
Set Default Proof Using "Type*".

(** ** Listings *)

Section listings.
Context `{SqliteLaws}.

Lemma elem_of_listing {A} (key : A → option string) n (l : list A) x :
  x ∈ order_by key (sql_scan n l) ↔ x ∈ l.
Proof. by rewrite order_by_perm, sql_scan_perm. Qed.

Lemma NoDup_listing {A} (key : A → option string) n (l : list A) :
  NoDup l → NoDup (order_by key (sql_scan n l)).
Proof. by rewrite order_by_perm, sql_scan_perm. Qed.

Lemma length_listing {A} (key : A → option string) n (l : list A) :
  length (order_by key (sql_scan n l)) = length l.
Proof. by rewrite order_by_perm, sql_scan_perm. Qed.

Lemma run_listing {A} (key : A → option string) (q : Db.t → list A) w :
  sql_fault (clock w) = None →
  run (sql_try (select_ordered key q)) w =
    (Ok (order_by key (sql_scan (clock w) (q (db (store w))))), tick w (store w)).
Proof. intros Hf. rewrite run_sql_try by done. cbn. by rewrite with_db_id. Qed.
End listings.

(** A unique row is found by its key. *)
Lemma head_filter_key `{SqliteLaws} {A} (f : A → string) n (l : list A) x :
  NoDup (f <$> l) → x ∈ l →
  head (sql_scan n (bfilter (λ y, bool_decide (f y = f x)) l)) = Some x.
Proof.
  intros Hnd Hx. rewrite (bfilter_unique f _ _ x);
    [|done|done|by apply bool_decide_eq_true|by intros y _ Hy%bool_decide_eq_true].
  by rewrite scan_short by (simpl; lia).
Qed.

Lemma head_filter_absent `{SqliteLaws} {A} (f : A → string) n (l : list A) k :
  k ∉ f <$> l → head (sql_scan n (bfilter (λ y, bool_decide (f y = k)) l)) = None.
Proof.
  intros Hk. rewrite bfilter_none; [by rewrite scan_short by (simpl; lia)|].
  intros x Hx. apply bool_decide_eq_false. intros <-. by apply Hk, list_elem_of_fmap_2.
Qed.

(** Nothing refers to a calendar that is not there. *)
Lemma no_reference {A} (f : A → string) (l : list A) (ids : list string) id :
  Forall (λ x, f x ∈ ids) l → id ∉ ids → bfilter (λ x, bool_decide (f x ≠ id)) l = l.
Proof.
  rewrite Forall_forall. intros Hl Hid. apply bfilter_all. intros x Hx.
  apply bool_decide_eq_true. intros <-. by apply Hid, Hl.
Qed.

Lemma delete_by_id_absent d id n :
  id ∉ Db.calendar_ids d → Calendars.delete_by_id id n d = (Ok 0, d).
Proof.
  intros Hid. unfold Calendars.delete_by_id. rewrite bfilter_none; [done|].
  intros x Hx. apply bool_decide_eq_false. intros <-. by apply Hid, list_elem_of_fmap_2.
Qed.

Lemma delete_by_id_present d id n :
  Db.wf d → id ∈ Db.calendar_ids d →
  Calendars.delete_by_id id n d = (Ok 1, Calendars.without_calendar id d).
Proof.
  intros Hwf [c [-> Hc]]%list_elem_of_fmap. unfold Calendars.delete_by_id.
  by rewrite (bfilter_unique Calendar.id _ _ c (Db.wf_calendar_id _ Hwf) Hc)
    by (by apply bool_decide_eq_true || by intros y _ Hy%bool_decide_eq_true).
Qed.

(** As the schema keeps references, the deletion always is the cascade. *)
Lemma delete_by_id_cascade d id n :
  Db.wf d → (Calendars.delete_by_id id n d).2 = Calendars.without_calendar id d.
Proof.
  intros Hwf. destruct (decide (id ∈ Db.calendar_ids d)) as [Hin|Hid];
    [by rewrite delete_by_id_present|].
  rewrite delete_by_id_absent by done.
  assert (∀ x, x ∈ Db.calendars d → Calendar.id x ≠ id) as Hne.
  { intros x Hx <-. by apply Hid, list_elem_of_fmap_2. }
  unfold Calendars.without_calendar, Db.set_changes, Db.set_shares, Db.set_objects,
    Db.set_calendars. simpl.
  rewrite (no_reference _ _ _ id (Db.wf_object_calendar _ Hwf) Hid).
  rewrite (no_reference _ _ _ id (Db.wf_share_calendar _ Hwf) Hid).
  rewrite (no_reference _ _ _ id (Db.wf_change_calendar _ Hwf) Hid).
  rewrite bfilter_all by (intros x Hx; by apply bool_decide_eq_true, Hne).
  by destruct d.
Qed.

(** ** Access *)

(** The user owns the calendar or has a share of it. *)
Definition accessible (user_id : string) (d : Db.t) (c : Calendar.t) : Prop :=
  c ∈ Db.calendars d ∧
  (Calendar.owner_id c = user_id ∨
   ∃ s, s ∈ Db.calendar_shares d ∧ CalendarShare.calendar_id s = Calendar.id c ∧
        CalendarShare.user_id s = user_id).

Lemma elem_of_shared_rows u d c :
  c ∈ Calendars.shared_rows u d ↔
  c ∈ Db.calendars d ∧
  ∃ s, s ∈ Db.calendar_shares d ∧ CalendarShare.calendar_id s = Calendar.id c ∧
       CalendarShare.user_id s = u.
Proof.
  unfold Calendars.shared_rows. rewrite list_elem_of_bind. split.
  - intros (c' & Hs & Hc'). apply list_elem_of_bind in Hs as (s & Hs & Hin).
    case_bool_decide as E; [|by apply elem_of_nil in Hs].
    apply list_elem_of_singleton in Hs as ->. split; [done|]. by exists s.
  - intros (Hc & s & Hs & Hid & Hu). exists c. split; [|done].
    apply list_elem_of_bind. exists s. split; [|done].
    by rewrite bool_decide_true, list_elem_of_singleton.
Qed.

Lemma elem_of_user_rows u d c :
  c ∈ remove_dups (Calendars.owned_rows u d ++ Calendars.shared_rows u d) ↔ accessible u d c.
Proof.
  rewrite elem_of_remove_dups, elem_of_app, elem_of_shared_rows. unfold Calendars.owned_rows.
  rewrite elem_of_bfilter, bool_decide_eq_true. unfold accessible. naive_solver.
Qed.

Section calendars_spec.
Context `{SqliteLaws, Uuids}.
Context (Hnf : ∀ n, sql_fault n = None).

Lemma run_list_for_user u w :
  run (Calendars.list_calendars_for_user u) w =
    (Ok (order_by (λ c, Some (Calendar.name c)) (sql_scan (clock w)
       (remove_dups (Calendars.owned_rows u (db (store w)) ++
                     Calendars.shared_rows u (db (store w)))))), tick w (store w)).
Proof. unfold Calendars.list_calendars_for_user. by apply run_listing. Qed.

(** A user's listing, run to its end. *)
Lemma run_calendars_of u w :
  ∃ cals w', run (Calendars.list_calendars_for_user u) w = (Ok cals, w') ∧
    store w' = store w ∧
    (∀ c, c ∈ cals ↔ accessible u (db (store w)) c) ∧
    NoDup cals ∧
    StronglySorted (key_le (λ c, Some (Calendar.name c))) cals.
Proof.
  eexists _, _. split; [apply run_list_for_user|]. split; [done|]. split.
  - intros c. by rewrite elem_of_listing, elem_of_user_rows.
  - split; [|apply order_by_sorted]. apply NoDup_listing, NoDup_remove_dups.
Qed.

(** A user's listing has exactly the calendars the user owns or has a share of, each
    once, in the order of their names, and listing changes nothing. *)
Theorem list_calendars_for_user_complete u w :
  ∃ cals w', run (Calendars.list_calendars_for_user u) w = (Ok cals, w') ∧
    store w' = store w ∧
    (∀ c, c ∈ cals ↔ accessible u (db (store w)) c) ∧
    NoDup cals ∧
    StronglySorted (key_le (λ c, Some (Calendar.name c))) cals.
Proof. apply run_calendars_of. Qed.

Lemma run_get_calendar id w :
  run (Calendars.get_calendar_by_id id) w =
    (Ok (head (sql_scan (clock w)
       (bfilter (λ c, bool_decide (Calendar.id c = id)) (Db.calendars (db (store w)))))),
     tick w (store w)).
Proof.
  unfold Calendars.get_calendar_by_id. rewrite run_sql_try by apply Hnf. cbn.
  by rewrite with_db_id.
Qed.

Lemma run_get_calendar_some c w :
  Db.wf (db (store w)) → c ∈ Db.calendars (db (store w)) →
  run (Calendars.get_calendar_by_id (Calendar.id c)) w = (Ok (Some c), tick w (store w)).
Proof.
  intros Hwf Hc. rewrite run_get_calendar. by rewrite head_filter_key by (done || apply Hwf).
Qed.

Lemma run_get_calendar_none id w :
  id ∉ Db.calendar_ids (db (store w)) →
  run (Calendars.get_calendar_by_id id) w = (Ok None, tick w (store w)).
Proof. intros Hid. rewrite run_get_calendar. by rewrite head_filter_absent. Qed.

(** A creation, run to its end. *)
Lemma run_create_calendar id owner name descr color tz w :
  Db.wf (db (store w)) →
  let d := db (store w) in
  let r := run (Calendars.create_calendar_with_id id owner name descr color tz) w in
  if decide (id ∈ Db.calendar_ids d) then
    r.1 = Err (AppError.Database (unique_failed "calendars.id")) ∧ store r.2 = store w
  else if decide (owner ∈ Db.user_ids d) then
    ∃ c tok, r.1 = Ok c ∧
      store r.2 = with_db (Db.set_calendars (λ l, l ++ [c]) d) (store w) ∧
      tok = Calendars.sync_token_of_uuid (uuid_v7 (clock w)) ∧
      c = Calendar.mk id owner name descr color tz tok tok (Calendar.created_at c)
            (Calendar.created_at c)
  else r.1 = Err (AppError.Database foreign_key_failed) ∧ store r.2 = store w.
Proof.
  intros Hwf d r. subst r. unfold Calendars.create_calendar_with_id.
  rewrite run_bind, run_new_sync_token, run_try, run_sql_try by apply Hnf.
  cbn [clock tick store]. fold d.
  pose proof (sound_insert_calendar id owner name descr color tz
    (Calendars.sync_token_of_uuid (uuid_v7 (clock w)))
    (Calendars.sync_token_of_uuid (uuid_v7 (clock w))) (N.succ (clock w)) d Hwf) as Hs.
  unfold Calendars.insert_calendar in *.
  destruct (decide (id ∈ Db.calendar_ids d)) as [Hin|Hni].
  { rewrite !bool_decide_true by done. split; [done|apply with_db_id]. }
  rewrite (bool_decide_false (id ∈ Db.calendar_ids d)) in * by done.
  destruct (decide (owner ∈ Db.user_ids d)) as [Ho|Hno].
  - rewrite (bool_decide_true (owner ∈ Db.user_ids d)) in * by done. cbn [fst snd map_err] in *.
    set (tok := Calendars.sync_token_of_uuid (uuid_v7 (clock w))) in *.
    set (c := Calendar.mk id owner name descr color tz tok tok _ _) in *.
    rewrite run_try, (run_get_calendar_some c); [|exact Hs|].
    + exists c, tok. by repeat split.
    + cbn. apply elem_of_app. right. by apply list_elem_of_singleton.
  - rewrite bool_decide_false by done. split; [done|apply with_db_id].
Qed.

(** [create_calendar_with_id] refuses an id that is taken and an owner that does not
    exist, changing nothing; otherwise it adds one calendar with the properties given,
    whose ctag and sync token are the same fresh token, and returns it. *)
Theorem create_calendar_with_id_correct id owner name descr color tz w :
  Db.wf (db (store w)) →
  let d := db (store w) in
  let r := run (Calendars.create_calendar_with_id id owner name descr color tz) w in
  if decide (id ∈ Db.calendar_ids d) then
    r.1 = Err (AppError.Database (unique_failed "calendars.id")) ∧ store r.2 = store w
  else if decide (owner ∈ Db.user_ids d) then
    ∃ c tok, r.1 = Ok c ∧
      store r.2 = with_db (Db.set_calendars (λ l, l ++ [c]) d) (store w) ∧
      tok = Calendars.sync_token_of_uuid (uuid_v7 (clock w)) ∧
      c = Calendar.mk id owner name descr color tz tok tok (Calendar.created_at c)
            (Calendar.created_at c)
  else r.1 = Err (AppError.Database foreign_key_failed) ∧ store r.2 = store w.
Proof. apply run_create_calendar. Qed.

(** The row [update_calendar] leaves. *)
Definition updated_calendar (n : N) (name descr color tz : option string) (c : Calendar.t) :
    Calendar.t :=
  Calendar.mk (Calendar.id c) (Calendar.owner_id c)
    (default (Calendar.name c) name) (default (Calendar.description c) descr)
    (default (Calendar.color c) color) (default (Calendar.timezone c) tz)
    (Calendar.ctag c) (Calendar.sync_token c) (Calendar.created_at c) (datetime_now n).

(** The UPDATE with the values of [update_calendar]. *)
Lemma update_properties_patches c name descr color tz n d :
  Db.wf d → c ∈ Db.calendars d →
  (Calendars.update_properties (default (Calendar.name c) name)
     (default (Calendar.description c) descr) (default (Calendar.color c) color)
     (default (Calendar.timezone c) tz) (Calendar.id c) n d).2 =
    Db.set_calendars (fmap (λ c', if decide (Calendar.id c' = Calendar.id c)
      then updated_calendar n name descr color tz c' else c')) d.
Proof using.
  intros Hwf Hc. unfold Calendars.update_properties, Db.set_calendars. cbn [snd]. f_equal.
  apply list_fmap_ext. intros i x Hx%list_elem_of_lookup_2.
  case_decide as Ex; [|done].
  by rewrite (NoDup_fmap_inj Calendar.id _ _ _ (Db.wf_calendar_id _ Hwf) Hx Hc Ex).
Qed.

(** An update, run to its end. *)
Lemma run_update_calendar id name descr color tz w :
  Db.wf (db (store w)) →
  let d := db (store w) in
  let r := run (Calendars.update_calendar id name descr color tz) w in
  (∀ c, c ∈ Db.calendars d → Calendar.id c = id →
     ∃ n, r.1 = Ok (updated_calendar n name descr color tz c) ∧
          store r.2 = with_db (Db.set_calendars (fmap (λ c',
            if decide (Calendar.id c' = id)
            then updated_calendar n name descr color tz c' else c')) d) (store w)) ∧
  (id ∉ Db.calendar_ids d →
     r.1 = Err (AppError.NotFound ("Calendar " +:+ id +:+ " not found")) ∧
     store r.2 = store w).
Proof.
  intros Hwf d r. subst r. unfold Calendars.update_calendar. split.
  - intros c Hc <-. rewrite run_try, (run_get_calendar_some c) by done.
    rewrite run_try, run_ret. cbn [ok_or]. rewrite run_try, run_sql_try by apply Hnf.
    cbn [clock tick store]. fold d.
    set (n := N.succ (clock w)).
    match goal with |- context [Calendars.update_properties ?a ?b ?c' ?e ?i] =>
      pose proof (sound_update_properties a b c' e i n d Hwf) as Hs end.
    rewrite (surjective_pairing (Calendars.update_properties _ _ _ _ _ _ _)).
    rewrite update_properties_patches in * by done. cbn [fst map_err].
    exists n.
    rewrite run_try, (run_get_calendar_some (updated_calendar n name descr color tz c));
      [done|exact Hs|].
    apply list_elem_of_fmap. exists c. by rewrite decide_True.
  - intros Hni. by rewrite run_try, run_get_calendar_none.
Qed.

(** A deletion, run to its end. *)
Lemma run_delete_calendar id w :
  Db.wf (db (store w)) →
  let d := db (store w) in
  let r := run (Calendars.delete_calendar id) w in
  let d' := db (store r.2) in
  if decide (id ∈ Db.calendar_ids d) then
    r.1 = Ok tt ∧ Db.wf d' ∧
    (∀ c, c ∈ Db.calendars d' ↔ c ∈ Db.calendars d ∧ Calendar.id c ≠ id) ∧
    (∀ o, o ∈ Db.calendar_objects d' ↔
          o ∈ Db.calendar_objects d ∧ CalendarObject.calendar_id o ≠ id) ∧
    (∀ s, s ∈ Db.calendar_shares d' ↔
          s ∈ Db.calendar_shares d ∧ CalendarShare.calendar_id s ≠ id) ∧
    (∀ e, e ∈ Db.sync_changes d' ↔
          e ∈ Db.sync_changes d ∧ SyncChange.calendar_id e ≠ id) ∧
    Db.users d' = Db.users d ∧ Db.mcp_tokens d' = Db.mcp_tokens d
  else
    r.1 = Err (AppError.NotFound ("Calendar " +:+ id +:+ " not found")) ∧ d' = d.
Proof.
  intros Hwf d r d'. subst d' r. unfold Calendars.delete_calendar.
  rewrite run_try, run_sql_try by apply Hnf. fold d.
  pose proof (sound_delete_calendar id (clock w) d Hwf) as Hs.
  destruct (decide (id ∈ Db.calendar_ids d)) as [Hin|Hni];
    [|by rewrite delete_by_id_absent].
  rewrite delete_by_id_present in * by done. cbn [fst snd map_err] in *.
  split; [done|]. split; [exact Hs|]. simpl.
  setoid_rewrite elem_of_bfilter. setoid_rewrite bool_decide_eq_true.
  repeat split; naive_solver.
Qed.

(** [delete_calendar] removes the calendar with all its objects, shares and log
    entries, and nothing of any other calendar; an unknown id is not found and nothing
    changes. *)
Theorem delete_calendar_cascades id w :
  Db.wf (db (store w)) →
  let d := db (store w) in
  let r := run (Calendars.delete_calendar id) w in
  let d' := db (store r.2) in
  if decide (id ∈ Db.calendar_ids d) then
    r.1 = Ok tt ∧ Db.wf d' ∧
    (∀ c, c ∈ Db.calendars d' ↔ c ∈ Db.calendars d ∧ Calendar.id c ≠ id) ∧
    (∀ o, o ∈ Db.calendar_objects d' ↔
          o ∈ Db.calendar_objects d ∧ CalendarObject.calendar_id o ≠ id) ∧
    (∀ s, s ∈ Db.calendar_shares d' ↔
          s ∈ Db.calendar_shares d ∧ CalendarShare.calendar_id s ≠ id) ∧
    (∀ e, e ∈ Db.sync_changes d' ↔
          e ∈ Db.sync_changes d ∧ SyncChange.calendar_id e ≠ id) ∧
    Db.users d' = Db.users d ∧ Db.mcp_tokens d' = Db.mcp_tokens d
  else
    r.1 = Err (AppError.NotFound ("Calendar " +:+ id +:+ " not found")) ∧ d' = d.
Proof. apply run_delete_calendar. Qed.

(** ** Sharing *)

Definition owns (user_id calendar_id : string) (d : Db.t) : bool :=
  existsb (λ c, bool_decide (Calendar.id c = calendar_id ∧ Calendar.owner_id c = user_id))
    (Db.calendars d).

(** The share of a user on a calendar. *)
Definition share_of (calendar_id user_id : string) (d : Db.t) : option CalendarShare.t :=
  head (bfilter (Shares.is_share calendar_id user_id) (Db.calendar_shares d)).

Lemma share_rows d c u :
  Db.wf d →
  bfilter (Shares.is_share c u) (Db.calendar_shares d) = option_list (share_of c u d).
Proof.
  intros Hwf. unfold share_of, Shares.is_share.
  by destruct (bfilter_key_lookup CalendarShare.key (Db.calendar_shares d) (c, u))
    as [[-> _]|(s & -> & _)]; [apply Hwf|..].
Qed.

Lemma run_select_share c u w :
  Db.wf (db (store w)) →
  run (sql_try (fetch_optional (Shares.select_share c u))) w =
    (Ok (share_of c u (db (store w))), tick w (store w)).
Proof.
  intros Hwf. rewrite run_sql_try by apply Hnf. cbn. rewrite with_db_id, share_rows by done.
  rewrite scan_short by (destruct (share_of _ _ _); simpl; lia).
  by destruct (share_of _ _ _).
Qed.

Lemma head_owned n c u d :
  is_some_b (head (sql_scan n (Calendar.id <$>
    bfilter (λ cal, bool_decide (Calendar.id cal = c ∧ Calendar.owner_id cal = u))
      (Db.calendars d)))) = owns u c d.
Proof.
  unfold owns. set (l := bfilter _ _).
  assert (existsb (λ cal, bool_decide (Calendar.id cal = c ∧ Calendar.owner_id cal = u))
            (Db.calendars d) = negb (is_nil l)) as ->.
  { subst l. induction (Db.calendars d) as [|x cs IH]; [done|]. simpl. rewrite bfilter_cons.
    by destruct (bool_decide _). }
  pose proof (length_scan n (Calendar.id <$> l)) as Hl. rewrite length_fmap in Hl.
  by destruct (sql_scan n (Calendar.id <$> l)), l.
Qed.

Lemma run_get_user_permission c u w :
  Db.wf (db (store w)) →
  let r := run (Shares.get_user_permission c u) w in
  store r.2 = store w ∧
  r.1 = Ok (if owns u c (db (store w)) then Some Permission.ReadWrite
            else share_of c u (db (store w)) ≫= λ s,
                   Permission.from_str_value (CalendarShare.permission s)).
Proof.
  intros Hwf r. subst r. unfold Shares.get_user_permission.
  rewrite run_try, run_sql_try by apply Hnf.
  cbn [fetch_optional Shares.select_owned select fst snd map_err].
  rewrite head_owned, with_db_id. destruct (owns u c (db (store w))); [done|].
  by rewrite run_try, run_select_share.
Qed.

(** The permission of a user on a calendar is read-write for its owner, that of the
    share for a user who has one, and none for anybody else. *)
Theorem get_user_permission_correct c u w :
  Db.wf (db (store w)) →
  let r := run (Shares.get_user_permission c u) w in
  store r.2 = store w ∧
  r.1 = Ok (if owns u c (db (store w)) then Some Permission.ReadWrite
            else share_of c u (db (store w)) ≫= λ s,
                   Permission.from_str_value (CalendarShare.permission s)).
Proof.
  apply run_get_user_permission.
Qed.

(** The share that [share_calendar] leaves, given the one there was. *)
Definition new_share (n : N) (c u perm : string) (old : option CalendarShare.t) :
    CalendarShare.t :=
  match old with
  | Some s => CalendarShare.mk (CalendarShare.id s) c u perm (CalendarShare.created_at s)
  | None => CalendarShare.mk (uuid_v7 n) c u perm (datetime_now (N.succ n))
  end.

Lemma share_of_Some d c u s :
  Db.wf d → s ∈ Db.calendar_shares d → CalendarShare.key s = (c, u) → share_of c u d = Some s.
Proof.
  intros Hwf Hs Hk. unfold share_of, Shares.is_share.
  destruct (bfilter_key_lookup CalendarShare.key (Db.calendar_shares d) (c, u))
    as [[_ Hni]|(s' & -> & Hs' & Hk')]; [apply Hwf|..].
  - destruct Hni. rewrite <- Hk. by apply list_elem_of_fmap_2.
  - simpl. f_equal. eapply (NoDup_fmap_inj CalendarShare.key); [apply Hwf|done..|congruence].
Qed.

(** What the upsert of a share does to the table. *)
Lemma upsert_share_ok n d c u perm :
  Db.wf d → perm ∈ Db.permissions → c ∈ Db.calendar_ids d → u ∈ Db.user_ids d →
  uuid_v7 n ∉ CalendarShare.id <$> Db.calendar_shares d →
  let s := new_share n c u perm (share_of c u d) in
  let r := Shares.upsert_share (uuid_v7 n) c u perm (N.succ n) d in
  r.1 = Ok tt ∧ (∃ g, r.2 = Db.set_shares g d) ∧
  ∀ s', s' ∈ Db.calendar_shares r.2 ↔
        s' = s ∨ (s' ∈ Db.calendar_shares d ∧ CalendarShare.key s' ≠ (c, u)).
Proof.
  intros Hwf Hp Hc Hu Hid s r. subst r s. unfold Shares.upsert_share.
  rewrite (bool_decide_true _ Hp).
  destruct (bfilter_key_lookup CalendarShare.key (Db.calendar_shares d) (c, u))
    as [[E Hni]|(s & E & Hs & Hk)]; [apply Hwf|..].
  - assert (share_of c u d = None) as -> by (unfold share_of, Shares.is_share; by rewrite E).
    rewrite (bool_decide_false _ Hni), (bool_decide_false _ Hid), bool_decide_true by done.
    split; [done|]. split; [by eexists|]. intros s'. simpl.
    rewrite elem_of_app, list_elem_of_singleton. split; [|naive_solver].
    intros [Hs'| ->]; [|by left]. right. split; [done|]. intros Hk. apply Hni.
    rewrite <- Hk. by apply list_elem_of_fmap_2.
  - rewrite (share_of_Some _ _ _ s) by done.
    rewrite bool_decide_true by (rewrite <- Hk; by apply list_elem_of_fmap_2).
    split; [done|]. split; [by eexists|]. intros s'. simpl. rewrite list_elem_of_fmap.
    unfold Shares.is_share. unfold CalendarShare.key in Hk. split.
    + intros (x & -> & Hx). case_bool_decide as Ex; [left|by right].
      rewrite (NoDup_fmap_inj CalendarShare.key _ _ _ (Db.wf_share_key _ Hwf) Hx Hs);
        [|by unfold CalendarShare.key in *; rewrite Ex]. by simplify_eq.
    + intros [->|[Hs' Hne]].
      * exists s. rewrite bool_decide_true by done. by simplify_eq.
      * exists s'. by rewrite bool_decide_false.
Qed.

(** Shared with the compositions of components. *)
Lemma run_share_calendar c u p w :
  Db.wf (db (store w)) →
  c ∈ Db.calendar_ids (db (store w)) → u ∈ Db.user_ids (db (store w)) →
  uuid_v7 (clock w) ∉ CalendarShare.id <$> Db.calendar_shares (db (store w)) →
  let s := new_share (clock w) c u (Permission.as_str p) (share_of c u (db (store w))) in
  ∃ w',
    run (Shares.share_calendar c u p) w = (Ok s, w') ∧
    (∃ g, db (store w') = Db.set_shares g (db (store w))) ∧
    (∀ s', s' ∈ Db.calendar_shares (db (store w')) ↔
           s' = s ∨ (s' ∈ Db.calendar_shares (db (store w)) ∧ CalendarShare.key s' ≠ (c, u))) ∧
    (run (Shares.get_user_permission c u) w').1 =
      Ok (Some (if owns u c (db (store w)) then Permission.ReadWrite else p)).
Proof.
  intros Hwf Hc Hu Hid s. unfold Shares.share_calendar.
  rewrite run_bind, run_now_v7. cbn [clock tick store].
  rewrite run_try, run_sql_try by apply Hnf. cbn [clock tick store].
  assert (Permission.as_str p ∈ Db.permissions) as Hp by (destruct p; set_solver).
  destruct (upsert_share_ok (clock w) _ c u _ Hwf Hp Hc Hu Hid) as (Hok & [g Hg] & Hmem).
  pose proof (sound_upsert_share (uuid_v7 (clock w)) c u (Permission.as_str p)
    (N.succ (clock w)) _ Hwf) as Hwf'.
  rewrite Hok. cbn [map_err]. fold s in Hmem.
  set (d' := (Shares.upsert_share _ _ _ _ _ _).2) in *.
  assert (share_of c u d' = Some s) as Hs.
  { apply share_of_Some; [done|apply Hmem; by left|].
    subst s. unfold new_share. by destruct (share_of c u (db (store w))). }
  rewrite run_sql_try by apply Hnf. cbn [clock tick store db with_db].
  unfold fetch_one, Shares.select_share, select. cbn [fst snd].
  rewrite share_rows, Hs, scan_short by (done || simpl; lia). cbn [option_list map_err].
  eexists. split; [reflexivity|]. cbn [clock tick store db with_db].
  split; [by exists g|]. split; [exact Hmem|].
  match goal with |- context [run (Shares.get_user_permission c u) ?w'] =>
    rewrite (proj2 (run_get_user_permission c u w' Hwf')) end.
  cbn [tick store db with_db]. rewrite Hs. cbn.
  replace (owns u c d') with (owns u c (db (store w))) by (by rewrite Hg).
  subst s. unfold new_share.
  by destruct (owns _ _ _), (share_of _ _ _); cbn; rewrite ?Permission.from_str_value_as_str.
Qed.

(** Sharing a calendar with a user leaves exactly one share of that user, with the
    permission given (an existing share keeps its id), touches no other share, and
    gives the user that permission unless the user is the owner, who keeps both. *)
Theorem share_calendar_grants c u p w :
  Db.wf (db (store w)) →
  c ∈ Db.calendar_ids (db (store w)) → u ∈ Db.user_ids (db (store w)) →
  uuid_v7 (clock w) ∉ CalendarShare.id <$> Db.calendar_shares (db (store w)) →
  let s := new_share (clock w) c u (Permission.as_str p) (share_of c u (db (store w))) in
  ∃ w',
    run (Shares.share_calendar c u p) w = (Ok s, w') ∧
    (∀ s', s' ∈ Db.calendar_shares (db (store w')) ↔
           s' = s ∨ (s' ∈ Db.calendar_shares (db (store w)) ∧ CalendarShare.key s' ≠ (c, u))) ∧
    (run (Shares.get_user_permission c u) w').1 =
      Ok (Some (if owns u c (db (store w)) then Permission.ReadWrite else p)).
Proof.
  intros Hwf Hc Hu Hid s.
  destruct (run_share_calendar c u p w Hwf Hc Hu Hid) as (w' & ? & _ & ? & ?). by exists w'.
Qed.
End calendars_spec.

(** ** On the simulated database *)

Module CalendarsExamples.
Import Sim.

(** Bob sees the calendar that Alice shared. *)
Lemma list_calendars_for_user_complete_witness :
  ∃ cals w', run (Calendars.list_calendars_for_user "bob-id") world = (Ok cals, w') ∧
             cals = [work].
Proof.
  destruct (list_calendars_for_user_complete nofault "bob-id" world)
    as (cals & w' & Hrun & _). exists cals, w'. split; [exact Hrun|].
  assert (run (Calendars.list_calendars_for_user "bob-id") world =
            (Ok [work], tick world (store world))) as E by by vm_compute.
  rewrite E in Hrun. by injection Hrun as <- _.
Defined.

Lemma create_calendar_with_id_correct_witness :
  (run (Calendars.create_calendar_with_id "cal" "bob-id" "X" "" "" "UTC") world).1 =
    Err (AppError.Database (unique_failed "calendars.id")) ∧
  ∃ c, (run (Calendars.create_calendar_with_id "new" "bob-id" "X" "" "" "UTC") world).1 = Ok c ∧
       Calendar.name c = "X" ∧ Calendar.sync_token c = Calendar.ctag c.
Proof.
  split.
  - apply (create_calendar_with_id_correct nofault "cal" "bob-id" "X" "" "" "UTC" world
             database_wf).
  - destruct (create_calendar_with_id_correct nofault "new" "bob-id" "X" "" "" "UTC" world
                database_wf) as (c & tok & Hr & _ & _ & Hc).
    exists c. split; [exact Hr|]. by rewrite Hc.
Defined.

Lemma delete_calendar_cascades_witness :
  (run (Calendars.delete_calendar "cal") world).1 = Ok tt ∧
  ∀ s, s ∉ Db.calendar_shares (db (store (run (Calendars.delete_calendar "cal") world).2)).
Proof.
  destruct (delete_calendar_cascades nofault "cal" world database_wf)
    as (Hr & _ & _ & _ & Hs & _).
  split; [exact Hr|]. intros s [Hin Hne]%Hs. apply Hne.
  by apply list_elem_of_singleton in Hin as ->.
Defined.

Lemma get_user_permission_correct_witness :
  (run (Shares.get_user_permission "cal" "bob-id") world).1 = Ok (Some Permission.Read) ∧
  (run (Shares.get_user_permission "cal" "carol-id") world).1 = Ok None.
Proof.
  split.
  - exact (proj2 (get_user_permission_correct nofault "cal" "bob-id" world database_wf)).
  - exact (proj2 (get_user_permission_correct nofault "cal" "carol-id" world database_wf)).
Defined.

Lemma share_calendar_grants_witness :
  ∃ w', (run (Shares.share_calendar "cal" "carol-id" Permission.ReadWrite) world).2 = w' ∧
        (run (Shares.get_user_permission "cal" "carol-id") w').1 =
          Ok (Some Permission.ReadWrite).
Proof.
  destruct (share_calendar_grants nofault "cal" "carol-id" Permission.ReadWrite world
              database_wf) as (w' & Hr & _ & Hp).
  - by left.
  - do 2 right. by left.
  - apply not_elem_of_cons. split; [done|apply not_elem_of_nil].
  - exists w'. split; [by rewrite Hr|exact Hp].
Defined.
End CalendarsExamples.
