(* ===== verification/AccountsSpec.v ===== *)
(** * What accounts and tokens promise *)
From Stdlib Require Import ZArith.
From S2P Require Import Prelude RustStr Effects Models Db DbUsers DbTokens Sim Integrity.
From S2P Require Import EventsSpec CalendarsSpec.
From stdpp Require Import options.
Set Default Proof Using "Type*".

(** ** The loop over token rows *)

Section first_match.
Context `{Argon2}.

Lemma first_match_sound raw ks u :
  Tokens.first_match raw ks = Ok (Some u) →
  ∃ k, k ∈ ks ∧ McpToken.user_id k = u ∧ phc_error (McpToken.token_hash k) = None ∧
       argon2_verify raw (McpToken.token_hash k) = true.
Proof.
  induction ks as [|k ks IH]; [done|]. simpl. unfold Tokens.verify_token.
  destruct (phc_error _) eqn:Ep; [done|]. destruct (argon2_verify _ _) eqn:Ev.
  - intros [= <-]. exists k. set_solver.
  - intros (k' & Hk' & ?)%IH. exists k'. set_solver.
Qed.

Lemma first_match_complete raw ks u :
  Forall (λ k, phc_error (McpToken.token_hash k) = None) ks →
  (∀ k, k ∈ ks → argon2_verify raw (McpToken.token_hash k) = true → McpToken.user_id k = u) →
  Tokens.first_match raw ks =
    Ok (if existsb (λ k, argon2_verify raw (McpToken.token_hash k)) ks then Some u else None).
Proof.
  intros Hp Hu. induction Hp as [|k ks Hk Hp IH]; [done|]. simpl.
  unfold Tokens.verify_token. rewrite Hk. destruct (argon2_verify _ _) eqn:Ev; simpl.
  - rewrite (Hu k) by set_solver. done.
  - apply IH. set_solver.
Qed.

End first_match.

(** ** The first row of a scan *)

Section scans.
Context `{SqliteLaws}.

Lemma head_scan {A} n (l : list A) x : head (sql_scan n l) = Some x → x ∈ l.
Proof.
  intros E. apply (elem_of_scan n). destruct (sql_scan n l); [done|]. simplify_eq/=. by left.
Qed.

Lemma head_scan_None {A} n (l : list A) : head (sql_scan n l) = None → l = [].
Proof.
  intros E. apply length_zero_iff_nil. rewrite <- (length_scan n).
  by destruct (sql_scan n l).
Qed.

Lemma scan_nil {A} n : sql_scan n (@nil A) = [].
Proof. apply scan_short. simpl. lia. Qed.

Lemma existsb_perm {A} (p : A → bool) l l' : l ≡ₚ l' → existsb p l = existsb p l'.
Proof.
  induction 1 as [|x l l' _ IH|x y l|l l' l'' _ IH1 _ IH2]; simpl; [done|by rewrite IH| |congruence].
  by destruct (p x), (p y).
Qed.

End scans.

(** Validation is the loop over the live rows. *)
Section validation.
Context `{Sqlite, Argon2}.

Lemma run_validate_token raw w :
  sql_fault (clock w) = None →
  run (Tokens.validate_token raw) w =
    (Tokens.first_match raw (sql_scan (clock w)
       (bfilter (Tokens.unexpired (datetime_now (clock w))) (Db.mcp_tokens (db (store w))))),
     tick w (store w)).
Proof.
  intros Hf. unfold Tokens.validate_token. rewrite run_try, run_sql_try by done. cbn.
  by rewrite with_db_id.
Qed.

End validation.

Section accounts.
Context `{SqliteLaws, Uuids, Argon2, Rng}.
Context (Hnf : ∀ n, sql_fault n = None).

(** ** Login *)

Definition named (name : string) (d : Db.t) : list User.t :=
  bfilter (λ u, bool_decide (User.username u = name)) (Db.users d).

(** The accounts a login name may mean: the one with this username; if there is none,
    those with this email. *)
Definition login_candidates (name : string) (d : Db.t) : list User.t :=
  match named name d with
  | [] => bfilter (λ u, bool_decide (User.email u = Some name)) (Db.users d)
  | us => us
  end.

Lemma run_get_user_by_username name w :
  run (Users.get_user_by_username name) w =
    (Ok (head (sql_scan (clock w) (named name (db (store w))))), tick w (store w)).
Proof.
  unfold Users.get_user_by_username. rewrite run_sql_try by apply Hnf. cbn.
  by rewrite with_db_id.
Qed.

Lemma run_get_user_by_email email w :
  run (Users.get_user_by_email email) w =
    (Ok (head (sql_scan (clock w)
       (bfilter (λ u, bool_decide (User.email u = Some email)) (Db.users (db (store w)))))),
     tick w (store w)).
Proof.
  unfold Users.get_user_by_email. rewrite run_sql_try by apply Hnf. cbn.
  by rewrite with_db_id.
Qed.

(** The answer for one account. *)
Definition password_check (pw : string) (u : User.t) : AppResult (option User.t) :=
  match phc_error (User.password_hash u) with
  | Some e => Err (AppError.Internal ("Invalid password hash: " +:+ e))
  | None => Ok (if argon2_verify pw (User.password_hash u) then Some u else None)
  end.

Lemma run_verify_named name pw w u :
  named name (db (store w)) = [u] →
  run (Users.verify_user name pw) w = (password_check pw u, tick w (store w)).
Proof.
  intros E. unfold Users.verify_user.
  rewrite run_try, run_get_user_by_username, E, scan_short by (simpl; lia).
  cbn [head]. rewrite run_try, !run_ret. unfold password_check, Users.verify_password. cbn.
  destruct (phc_error _); [done|]. by destruct (argon2_verify _ _).
Qed.

Lemma run_verify_user name pw w :
  let r := run (Users.verify_user name pw) w in
  store r.2 = store w ∧
  match login_candidates name (db (store w)) with
  | [] => r.1 = Ok None
  | us => ∃ u, u ∈ us ∧ r.1 = password_check pw u
  end.
Proof.
  intros r. subst r. unfold Users.verify_user.
  rewrite run_try, run_get_user_by_username. unfold login_candidates.
  destruct (head (sql_scan (clock w) (named name (db (store w))))) as [u|] eqn:Eu.
  - apply head_scan in Eu. rewrite run_try, !run_ret. split; [done|].
    destruct (named name (db (store w))) as [|u' us]; [by apply elem_of_nil in Eu|].
    exists u. split; [done|]. unfold password_check, Users.verify_password. cbn.
    destruct (phc_error _); [done|]. by destruct (argon2_verify _ _).
  - apply head_scan_None in Eu as ->. rewrite run_try, run_get_user_by_email.
    split; [done|]. cbn [tick clock store].
    destruct (head (sql_scan (N.succ (clock w)) _)) as [u|] eqn:Ee.
    + apply head_scan in Ee. destruct (bfilter _ _) as [|u' us]; [by apply elem_of_nil in Ee|].
      exists u. split; [done|]. unfold password_check, Users.verify_password. cbn.
      destruct (phc_error _); [done|]. by destruct (argon2_verify _ _).
    + by apply head_scan_None in Ee as ->.
Qed.

(** Logging in answers for one of the accounts the name may mean (a username comes
    before an email): that account if the password is right for its hash, nothing if it
    is wrong, an error if the hash does not parse; with no such account, nothing.  It
    changes nothing. *)
Theorem verify_user_correct name pw w :
  let r := run (Users.verify_user name pw) w in
  store r.2 = store w ∧
  match login_candidates name (db (store w)) with
  | [] => r.1 = Ok None
  | us => ∃ u, u ∈ us ∧ r.1 = password_check pw u
  end.
Proof. apply run_verify_user. Qed.

(** ** Accounts *)

Lemma named_unique name d u :
  Db.wf d → u ∈ Db.users d → User.username u = name → named name d = [u].
Proof.
  intros Hwf Hu <-. apply (bfilter_unique User.username); [apply Hwf|done| |].
  - by apply bool_decide_eq_true.
  - by intros y _ Hy%bool_decide_eq_true.
Qed.

Lemma elem_of_named name d u : u ∈ named name d ↔ u ∈ Db.users d ∧ User.username u = name.
Proof. unfold named. rewrite elem_of_bfilter, bool_decide_eq_true. naive_solver. Qed.

(** Shared with the compositions of components. *)
Lemma run_create_user `{!Argon2Laws} name email pw w :
  Db.wf (db (store w)) →
  uuid_v7 (clock w) ∉ Db.user_ids (db (store w)) →
  (∃ h, argon2_hash (N.succ (clock w)) pw = Ok h) →
  let r := run (Users.create_user name email pw) w in
  if decide (name ∈ User.username <$> Db.users (db (store w))) then
    r.1 = Err (AppError.Conflict ("User '" +:+ name +:+ "' already exists")) ∧
    store r.2 = store w
  else
    ∃ u, r.1 = Ok u ∧ User.username u = name ∧ User.email u = email ∧
      db (store r.2) = Db.set_users (λ l, l ++ [u]) (db (store w)) ∧
      (run (Users.verify_user name pw) r.2).1 = Ok (Some u).
Proof.
  intros Hwf Hid [h Hh] r. subst r. unfold Users.create_user.
  rewrite run_bind, run_now_v7, run_try. unfold Users.hash_password. rewrite run_observe.
  cbn [clock tick store]. rewrite Hh. cbn [map_err].
  rewrite run_try. erewrite run_with_err by by apply run_execute.
  pose proof (sound_insert_user (uuid_v7 (clock w)) name email h (N.succ (N.succ (clock w)))
    _ Hwf) as Hs.
  cbn [clock tick store] in *. unfold Users.insert_user in *.
  rewrite (bool_decide_false _ Hid) in *.
  case_decide as Hn; [rewrite (bool_decide_true _ Hn) in *; split;
    [done|apply with_db_id]|].
  rewrite (bool_decide_false _ Hn) in *. cbn [fst snd map_err] in *.
  set (u := User.mk _ _ _ _ _) in *.
  assert (named name (Db.set_users (λ l, l ++ [u]) (db (store w))) = [u]) as Enamed.
  { apply named_unique; [done| |done]. cbn. set_solver. }
  rewrite run_try, run_get_user_by_username. cbn [clock tick store db with_db].
  rewrite Enamed, scan_short by (simpl; lia). cbn [head ok_or run_ret].
  exists u. split; [done|]. split; [done|]. split; [done|]. split; [done|].
  rewrite run_ret. erewrite run_verify_named by exact Enamed. unfold password_check. cbn.
  by erewrite argon2_hash_parses, argon2_hash_verifies by exact Hh.
Qed.

(** A new account can log in: [create_user] with a new username adds one account,
    and logging in with its name then answers for it, accepting its password.  A taken
    username is a conflict, and nothing changes. *)
Theorem create_user_then_login `{!Argon2Laws} name email pw w :
  Db.wf (db (store w)) →
  uuid_v7 (clock w) ∉ Db.user_ids (db (store w)) →
  (∃ h, argon2_hash (N.succ (clock w)) pw = Ok h) →
  let r := run (Users.create_user name email pw) w in
  if decide (name ∈ User.username <$> Db.users (db (store w))) then
    r.1 = Err (AppError.Conflict ("User '" +:+ name +:+ "' already exists")) ∧
    store r.2 = store w
  else
    ∃ u, r.1 = Ok u ∧ User.username u = name ∧ User.email u = email ∧
      Db.users (db (store r.2)) = Db.users (db (store w)) ++ [u] ∧
      (run (Users.verify_user name pw) r.2).1 = Ok (Some u).
Proof.
  intros Hwf Hid Hh r. pose proof (run_create_user name email pw w Hwf Hid Hh) as Hr.
  cbn zeta in Hr. fold r in Hr. case_decide; [done|].
  destruct Hr as (u & ? & ? & ? & -> & ?). by exists u.
Qed.

(** ** Tokens *)

(** A token row that accepts the raw token now. *)
Definition accepts (now raw : string) (k : McpToken.t) : Prop :=
  Tokens.unexpired now k = true ∧ phc_error (McpToken.token_hash k) = None ∧
  argon2_verify raw (McpToken.token_hash k) = true.

(** A validation, run to its end. *)
Lemma run_validate_token_correct raw w :
  let r := run (Tokens.validate_token raw) w in
  let live := bfilter (Tokens.unexpired (datetime_now (clock w)))
                (Db.mcp_tokens (db (store w))) in
  store r.2 = store w ∧
  (∀ u, r.1 = Ok (Some u) →
     ∃ k, k ∈ Db.mcp_tokens (db (store w)) ∧ McpToken.user_id k = u ∧
          accepts (datetime_now (clock w)) raw k) ∧
  (∀ u, Forall (λ k, phc_error (McpToken.token_hash k) = None) live →
     (∀ k, k ∈ live → argon2_verify raw (McpToken.token_hash k) = true →
           McpToken.user_id k = u) →
     r.1 = Ok (if existsb (λ k, argon2_verify raw (McpToken.token_hash k)) live
               then Some u else None)).
Proof.
  intros r live. subst r. rewrite run_validate_token by apply Hnf. split; [done|]. cbn [fst]. fold live.
  split.
  - intros u (k & Hk & Hu & Hp & Hv)%first_match_sound. apply elem_of_scan in Hk.
    subst live. apply elem_of_bfilter in Hk as [Hx Hk]. by exists k.
  - intros u Hp Hu. rewrite (first_match_complete raw _ u).
    + by rewrite (existsb_perm _ _ _ (sql_scan_perm _ _ _)).
    + by rewrite sql_scan_perm.
    + intros k Hk. apply Hu. by apply elem_of_scan in Hk.
Qed.

(** A bearer token is accepted only as the token of the user of a row that has not
    expired and whose hash accepts it; if every live hash parses and at most one user's
    live rows accept it, it is accepted exactly when one does.  Nothing changes. *)
Theorem validate_token_correct raw w :
  let r := run (Tokens.validate_token raw) w in
  let live := bfilter (Tokens.unexpired (datetime_now (clock w)))
                (Db.mcp_tokens (db (store w))) in
  store r.2 = store w ∧
  (∀ u, r.1 = Ok (Some u) →
     ∃ k, k ∈ Db.mcp_tokens (db (store w)) ∧ McpToken.user_id k = u ∧
          accepts (datetime_now (clock w)) raw k) ∧
  (∀ u, Forall (λ k, phc_error (McpToken.token_hash k) = None) live →
     (∀ k, k ∈ live → argon2_verify raw (McpToken.token_hash k) = true →
           McpToken.user_id k = u) →
     r.1 = Ok (if existsb (λ k, argon2_verify raw (McpToken.token_hash k)) live
               then Some u else None)).
Proof. apply run_validate_token_correct. Qed.

(** Shared with the compositions of components. *)
Lemma run_create_token `{!Argon2Laws} user_id name w :
  Db.wf (db (store w)) →
  user_id ∈ Db.user_ids (db (store w)) →
  uuid_v7 (clock w) ∉ McpToken.id <$> Db.mcp_tokens (db (store w)) →
  let raw := "mcp_" +:+ random_base64 (N.succ (clock w)) in
  (∃ h, argon2_hash (N.succ (N.succ (clock w))) raw = Ok h) →
  (∀ k, k ∈ Db.mcp_tokens (db (store w)) →
     phc_error (McpToken.token_hash k) = None ∧
     argon2_verify raw (McpToken.token_hash k) = false) →
  ∃ record w',
    run (Tokens.create_token user_id name) w = (Ok (raw, record), w') ∧
    McpToken.user_id record = user_id ∧ McpToken.name record = name ∧
    McpToken.expires_at record = None ∧
    Db.mcp_tokens (db (store w')) = Db.mcp_tokens (db (store w)) ++ [record] ∧
    (run (Tokens.validate_token raw) w').1 = Ok (Some user_id).
Proof.
  intros Hwf Hu Hid raw [h Hh] Hall. unfold Tokens.create_token.
  rewrite run_bind, run_now_v7, run_bind. unfold Tokens.generate_raw_token, Tokens.hash_token.
  rewrite run_observe. cbn [clock tick store]. fold raw.
  rewrite run_try, run_observe. cbn [clock tick store]. rewrite Hh. cbn [map_err].
  rewrite run_try, run_sql_try by apply Hnf. cbn [clock tick store].
  set (n := N.succ (N.succ (N.succ (clock w)))).
  pose proof (sound_insert_token (uuid_v7 (clock w)) user_id h name n _ Hwf) as Hs.
  unfold Tokens.insert_token in *.
  rewrite (bool_decide_false _ Hid), (bool_decide_true _ Hu) in *. cbn [fst snd map_err] in *.
  set (k := McpToken.mk _ _ _ _ _ _) in *. rewrite run_try, run_sql_try by apply Hnf.
  unfold fetch_one, Tokens.select_by_id, select. cbn [fst snd clock tick store db with_db].
  rewrite (bfilter_unique McpToken.id _ _ k); [|apply Hs|cbn; set_solver| |].
  - rewrite scan_short by (simpl; lia). cbn [map_err]. rewrite run_ret. eexists k, _. split; [reflexivity|].
    do 4 (split; [done|]). rewrite run_validate_token by apply Hnf. cbn [fst clock tick store db with_db].
    set (now := datetime_now _).
    assert (∀ k', k' ∈ sql_scan (N.succ (N.succ n)) (bfilter (Tokens.unexpired now)
              (Db.mcp_tokens (db (store w)) ++ [k])) →
            k' = k ∨ k' ∈ Db.mcp_tokens (db (store w))) as Hin.
    { intros k' Hk'. apply elem_of_scan, elem_of_bfilter in Hk' as [_ Hk']. set_solver. }
    rewrite (first_match_complete raw _ user_id).
    + rewrite (existsb_perm _ _ _ (sql_scan_perm _ _ _)). cbn [Db.mcp_tokens Db.set_tokens].
      rewrite bfilter_app, bfilter_cons, existsb_app.
      cbn [Tokens.unexpired McpToken.expires_at McpToken.token_hash k existsb].
      by rewrite (argon2_hash_verifies _ _ _ Hh), orb_true_r.
    + apply Forall_forall. intros k' [->|Hk']%Hin; [by apply (argon2_hash_parses _ _ _ Hh)|].
      by apply Hall.
    + intros k' [->|Hk']%Hin Hv; [done|]. destruct (Hall k' Hk') as [_ E]. congruence.
  - by apply bool_decide_eq_true.
  - by intros y _ Hy%bool_decide_eq_true.
Qed.

(** A token that was just created is accepted for its user, if all hashes in the
    table parse and no other row's hash accepts it. *)
Theorem create_token_then_validate `{!Argon2Laws} user_id name w :
  Db.wf (db (store w)) →
  user_id ∈ Db.user_ids (db (store w)) →
  uuid_v7 (clock w) ∉ McpToken.id <$> Db.mcp_tokens (db (store w)) →
  let raw := "mcp_" +:+ random_base64 (N.succ (clock w)) in
  (∃ h, argon2_hash (N.succ (N.succ (clock w))) raw = Ok h) →
  (∀ k, k ∈ Db.mcp_tokens (db (store w)) →
     phc_error (McpToken.token_hash k) = None ∧
     argon2_verify raw (McpToken.token_hash k) = false) →
  ∃ record w',
    run (Tokens.create_token user_id name) w = (Ok (raw, record), w') ∧
    McpToken.user_id record = user_id ∧ McpToken.name record = name ∧
    McpToken.expires_at record = None ∧
    Db.mcp_tokens (db (store w')) = Db.mcp_tokens (db (store w)) ++ [record] ∧
    (run (Tokens.validate_token raw) w').1 = Ok (Some user_id).
Proof. apply run_create_token. Qed.
End accounts.

(** ** On the simulated database *)

Module AccountsExamples.
Import Sim.

Lemma verify_user_correct_witness :
  (run (Users.verify_user "a@x.org" "pa") world).1 = Ok (Some alice).
Proof.
  destruct (verify_user_correct nofault "a@x.org" "pa" world) as [_ (u & Hu & Hr)].
  apply list_elem_of_singleton in Hu as ->. exact Hr.
Defined.

Lemma create_user_then_login_witness :
  ∃ u, (run (Users.create_user "dora" None "pd") world).1 = Ok u ∧
    (run (Users.verify_user "dora" "pd")
       (run (Users.create_user "dora" None "pd") world).2).1 = Ok (Some u).
Proof.
  assert (uuid_v7 (clock world) ∉ Db.user_ids (db (store world))) as Hid.
  { repeat (apply not_elem_of_cons; split; [done|]). apply not_elem_of_nil. }
  destruct (create_user_then_login nofault "dora" None "pd" world database_wf Hid)
    as (u & Hr & _ & _ & _ & Hl); [by eexists|].
  exists u. split; [exact Hr|exact Hl].
Defined.

Definition token_row : McpToken.t :=
  McpToken.mk "k1" "bob-id" "argon2:mcp_r7" "laptop" now (Some "2026-12-31 00:00:00").

Definition token_world : World Store :=
  mkWorld 100 (mkStore (Db.set_tokens (λ _, [token_row]) database) ∅).

Lemma validate_token_correct_witness :
  (run (Tokens.validate_token "mcp_r7") token_world).1 = Ok (Some "bob-id") ∧
  (run (Tokens.validate_token "mcp_r8") token_world).1 = Ok None.
Proof.
  split.
  - destruct (validate_token_correct nofault "mcp_r7" token_world) as (_ & _ & Hex).
    apply (Hex "bob-id"); [by repeat constructor|].
    by intros k ->%list_elem_of_singleton _.
  - destruct (validate_token_correct nofault "mcp_r8" token_world) as (_ & _ & Hex).
    apply (Hex "bob-id"); [by repeat constructor|].
    by intros k ->%list_elem_of_singleton _.
Defined.

Lemma create_token_then_validate_witness :
  ∃ record w', run (Tokens.create_token "alice-id" "phone") world = (Ok ("mcp_r101", record), w') ∧
    (run (Tokens.validate_token "mcp_r101") w').1 = Ok (Some "alice-id").
Proof.
  destruct (create_token_then_validate nofault "alice-id" "phone" world database_wf)
    as (record & w' & Hr & _ & _ & _ & _ & Hv).
  - by left.
  - apply not_elem_of_nil.
  - by eexists.
  - by intros k Hk%elem_of_nil.
  - exists record, w'. split; [exact Hr|exact Hv].
Defined.
End AccountsExamples.
