(* ===== verification/QuerySpec.v ===== *)
(** * What the object queries promise *)
From Stdlib Require Import NArith ZArith.
From S2P Require Import Prelude RustStr Effects Models Db DbCalendars DbEvents Sim Integrity.
From S2P Require Import EventsSpec CalendarsSpec.
From stdpp Require Import options.
Set Default Proof Using "Type*".

Section queries.
Context `{SqliteLaws, Uuids}.
Context (Hnf : ∀ n, sql_fault n = None).

(** The answer of a query: the rows [P] selects, each once, ordered by start time (as
    text, objects without one first), leaving the store as it is. *)
Definition answers (P : CalendarObject.t → Prop) (r : AppResult (list CalendarObject.t))
    (w w' : World Store) : Prop :=
  store w' = store w ∧
  ∃ os, r = Ok os ∧
    (∀ o, o ∈ os ↔ o ∈ Db.calendar_objects (db (store w)) ∧ P o) ∧
    NoDup os ∧ StronglySorted (key_le CalendarObject.dtstart) os.

Lemma answers_filter (p : CalendarObject.t → bool) (P : CalendarObject.t → Prop) w :
  Db.wf (db (store w)) →
  (∀ o, p o = true ↔ P o) →
  let r := run (sql_try (select_ordered CalendarObject.dtstart
                  (λ d, bfilter p (Db.calendar_objects d)))) w in
  answers P r.1 w r.2.
Proof.
  intros Hwf HP r. subst r. rewrite run_listing by apply Hnf. split; [done|].
  eexists. split; [reflexivity|]. split; [|split].
  - intros o. rewrite elem_of_listing, elem_of_bfilter, HP. naive_solver.
  - apply NoDup_listing. apply (NoDup_fmap_1 CalendarObject.id), NoDup_fmap_bfilter, Hwf.
  - apply order_by_sorted.
Qed.

(** The stored times of an object meet the range: both there, start before the end of
    the range and end after its start, compared as text. *)
Definition overlaps (start end_ : string) (o : CalendarObject.t) : Prop :=
  ∃ s e, CalendarObject.dtstart o = Some s ∧ CalendarObject.dtend o = Some e ∧
         String.ltb s end_ = true ∧ String.ltb start e = true.

(** Both queries, run to their end. *)
Lemma run_list_objects c start end_ w :
  Db.wf (db (store w)) →
  let rr := run (Events.list_objects_in_range c start end_) w in
  let ra := run (Events.list_objects c) w in
  answers (λ o, CalendarObject.calendar_id o = c ∧ overlaps start end_ o) rr.1 w rr.2 ∧
  answers (λ o, CalendarObject.calendar_id o = c) ra.1 w ra.2.
Proof.
  intros Hwf rr ra. split; apply answers_filter; try done.
  - intros o. unfold Events.in_range, overlaps.
    rewrite !andb_true_iff, bool_decide_eq_true.
    destruct (CalendarObject.dtstart o), (CalendarObject.dtend o); naive_solver.
  - intros o. apply bool_decide_eq_true.
Qed.

(** A time-range query gives exactly the objects of the calendar whose stored times
    overlap the range, each once, in the order of their start times; without a range, all
    objects of the calendar.  Nothing changes. *)
Theorem list_objects_correct c start end_ w :
  Db.wf (db (store w)) →
  let rr := run (Events.list_objects_in_range c start end_) w in
  let ra := run (Events.list_objects c) w in
  answers (λ o, CalendarObject.calendar_id o = c ∧ overlaps start end_ o) rr.1 w rr.2 ∧
  answers (λ o, CalendarObject.calendar_id o = c) ra.1 w ra.2.
Proof. apply run_list_objects. Qed.

(** A query by UIDs, run to its end. *)
Lemma run_get_objects_by_uids c uids w :
  Db.wf (db (store w)) →
  let r := run (Events.get_objects_by_uids c uids) w in
  answers (λ o, CalendarObject.calendar_id o = c ∧ CalendarObject.uid o ∈ uids) r.1 w r.2.
Proof.
  intros Hwf. destruct uids as [|uid uids].
  - split; [done|]. exists []. split; [done|]. split; [set_solver|]. by repeat constructor.
  - apply answers_filter; [done|]. intros o. apply bool_decide_eq_true.
Qed.

End queries.

(** ** On the simulated database *)

Module QueryExamples.
Import Sim.

(** The meeting lasts from nine to ten. *)
Lemma list_objects_correct_witness :
  ∃ os, (run (Events.list_objects_in_range "cal" "20260301T093000Z" "20260301T120000Z")
           world).1 = Ok os ∧ meeting ∈ os.
Proof.
  destruct (list_objects_correct nofault "cal" "20260301T093000Z" "20260301T120000Z" world
              database_wf) as [(_ & os & Hr & Hin & _) _].
  exists os. split; [exact Hr|]. apply Hin. split; [by left|]. split; [done|].
  by exists "20260301T090000Z", "20260301T100000Z".
Defined.

End QueryExamples.
