(* ===== verification/Startup.v ===== *)
(** * Process start-up ([src/main.rs], [src/db/mod.rs])

    What the process does before it serves a request or runs a command, in terms of what
    it asks of the world outside: connecting to the database file, running the
    statements of the embedded migration, binding the ports, serving.  How these
    succeed is a parameter ([Outside]); each request is logged in the [Machine], and
    the theorems are about the log. *)
From Stdlib Require Import Ascii NArith ZArith.
From S2P Require Import Prelude RustStr Effects Models Db DbUsers DbTokens Cli Sim.
From stdpp Require Import options.
Set Default Proof Using "Type*".

(** [SqliteConnectOptions] as [init_pool] builds it, with the pool's size. *)
Module ConnectOptions.
Record t : Type := mk {
  url : string;
  create_if_missing : bool;
  journal_mode_wal : bool;
  foreign_keys : bool;
  max_connections : N;
}.

#[global] Instance eq_dec : EqDecision t.
Proof. solve_decision. Defined.
End ConnectOptions.

(** What the process asks of the outside. *)
Inductive Action : Type :=
| Connect (options : ConnectOptions.t)
| Execute (sql : string)
| Bind (port : N)
| ServeBoth.

#[global] Instance Action_eq_dec : EqDecision Action.
Proof. solve_decision. Defined.

(** The drivers and the operating system: whether a database URL parses, and what an
    action gives (an error as [anyhow] sees it) and does to the rest of the machine and
    to the store. *)
Class Outside (S : Type) : Type := {
  url_error : string → option SqlxError;
  perform : Action → N → S * Store → Result unit CliError * (S * Store);
}.

Record Machine (S : Type) : Type := mkMachine {
  outside : S;
  data : Store;
  actions : list Action;
}.
Arguments mkMachine {S} outside data actions.
Arguments outside {S} m.
Arguments data {S} m.
Arguments actions {S} m.

(** [migrations/001_initial.sql], which [include_str!] embeds. *)
Definition initial_sql : string := "-- Users
CREATE TABLE IF NOT EXISTS users (
    id TEXT PRIMARY KEY,
    username TEXT UNIQUE NOT NULL,
    email TEXT,
    password_hash TEXT NOT NULL,
    created_at TEXT NOT NULL DEFAULT (datetime('now'))
);

-- Calendars
CREATE TABLE IF NOT EXISTS calendars (
    id TEXT PRIMARY KEY,
    owner_id TEXT NOT NULL REFERENCES users(id),
    name TEXT NOT NULL,
    description TEXT NOT NULL DEFAULT '',
    color TEXT NOT NULL DEFAULT '#0E61B9',
    timezone TEXT NOT NULL DEFAULT 'UTC',
    ctag TEXT NOT NULL,
    sync_token TEXT NOT NULL,
    created_at TEXT NOT NULL DEFAULT (datetime('now')),
    updated_at TEXT NOT NULL DEFAULT (datetime('now'))
);

-- Calendar objects (events, todos)
CREATE TABLE IF NOT EXISTS calendar_objects (
    id TEXT PRIMARY KEY,
    calendar_id TEXT NOT NULL REFERENCES calendars(id) ON DELETE CASCADE,
    uid TEXT NOT NULL,
    etag TEXT NOT NULL,
    ical_data TEXT NOT NULL,
    component_type TEXT NOT NULL DEFAULT 'VEVENT',
    dtstart TEXT,
    dtend TEXT,
    summary TEXT,
    created_at TEXT NOT NULL DEFAULT (datetime('now')),
    updated_at TEXT NOT NULL DEFAULT (datetime('now')),
    UNIQUE(calendar_id, uid)
);

-- Calendar sharing
CREATE TABLE IF NOT EXISTS calendar_shares (
    id TEXT PRIMARY KEY,
    calendar_id TEXT NOT NULL REFERENCES calendars(id) ON DELETE CASCADE,
    user_id TEXT NOT NULL REFERENCES users(id) ON DELETE CASCADE,
    permission TEXT NOT NULL CHECK (permission IN ('read', 'read-write')),
    created_at TEXT NOT NULL DEFAULT (datetime('now')),
    UNIQUE(calendar_id, user_id)
);

-- Sync change log (for sync-collection REPORT)
CREATE TABLE IF NOT EXISTS sync_changes (
    id INTEGER PRIMARY KEY AUTOINCREMENT,
    calendar_id TEXT NOT NULL REFERENCES calendars(id) ON DELETE CASCADE,
    object_uid TEXT NOT NULL,
    change_type TEXT NOT NULL CHECK (change_type IN ('created', 'modified', 'deleted')),
    sync_token TEXT NOT NULL,
    created_at TEXT NOT NULL DEFAULT (datetime('now'))
);

-- MCP API tokens
CREATE TABLE IF NOT EXISTS mcp_tokens (
    id TEXT PRIMARY KEY,
    user_id TEXT NOT NULL REFERENCES users(id) ON DELETE CASCADE,
    token_hash TEXT NOT NULL,
    name TEXT NOT NULL,
    created_at TEXT NOT NULL DEFAULT (datetime('now')),
    expires_at TEXT
);

-- Indexes
CREATE INDEX IF NOT EXISTS idx_calendar_objects_calendar_id ON calendar_objects(calendar_id);
CREATE INDEX IF NOT EXISTS idx_calendar_objects_uid ON calendar_objects(uid);
CREATE INDEX IF NOT EXISTS idx_calendar_objects_dtstart ON calendar_objects(dtstart);
CREATE INDEX IF NOT EXISTS idx_calendar_objects_dtend ON calendar_objects(dtend);
CREATE INDEX IF NOT EXISTS idx_calendar_shares_user_id ON calendar_shares(user_id);
CREATE INDEX IF NOT EXISTS idx_calendar_shares_calendar_id ON calendar_shares(calendar_id);
CREATE INDEX IF NOT EXISTS idx_sync_changes_calendar_id_token ON sync_changes(calendar_id, sync_token);
".

(** The subcommand of the command line; none means [Serve]. *)
Inductive Commands : Type :=
| Serve
| Manage (c : Cli.Command).

(** How [main] ends: it returns, or [from_env] panics; a command that returns has
    printed lines. *)
Inductive Exit : Type :=
| Finished (lines : list string)
| Failed (e : CliError)
| PanickedAtConfig.

Module Startup.
Section startup.
Context {S : Type} `{Outside S, Sqlite, Uuids, Argon2, Rng}.

Definition act (a : Action) : prog (Machine S) (Result unit CliError) :=
  atomic (λ n m,
    let '(r, (o, σ)) := perform a n (outside m, data m) in
    (r, mkMachine o σ (actions m ++ [a]))).

(** A program over the store, as part of the machine. *)
Fixpoint on_store {A} (p : M A) : prog (Machine S) A :=
  match p with
  | Ret a => Ret a
  | Step s k => Step (λ n m, let '(r, σ) := s n (data m) in
                             (r, mkMachine (outside m) σ (actions m))) (λ r, on_store (k r))
  end.

Definition pool_options (database_url : string) : ConnectOptions.t :=
  ConnectOptions.mk database_url true true true 5.

Definition init_pool (database_url : string) : prog (Machine S) (Result unit CliError) :=
  match url_error database_url with
  | Some e => mret (Err (CliSqlx e))
  | None =>
      _ ←? act (Connect (pool_options database_url));
      _ ←? Migrations.run_migrations (λ sql, act (Execute sql)) initial_sql;
      mret (Ok tt)
  end.

Definition exit_of (r : Result (list string) CliError) : Exit :=
  match r with Ok lines => Finished lines | Err e => Failed e end.

Definition serve (config : Config.t) : prog (Machine S) (Result (list string) CliError) :=
  _ ←? init_pool (Config.database_url config);
  _ ←? act (Bind (Config.caldav_port config));
  _ ←? act (Bind (Config.mcp_port config));
  _ ←? act ServeBoth;
  mret (Ok []).

Definition run_server (env : string → option string) : prog (Machine S) Exit :=
  match Config.from_env env with
  | None => mret PanickedAtConfig
  | Some config => r ← serve config; mret (exit_of r)
  end.

(** [cli_pool], then the command. *)
Definition manage (config : Config.t) (c : Cli.Command) :
    prog (Machine S) (Result (list string) CliError) :=
  _ ←? init_pool (Config.database_url config);
  on_store (Cli.run_command c).

Definition run_managed (env : string → option string) (c : Cli.Command) :
    prog (Machine S) Exit :=
  match Config.from_env env with
  | None => mret PanickedAtConfig
  | Some config => r ← manage config c; mret (exit_of r)
  end.

Definition main (env : string → option string) (command : option Commands) :
    prog (Machine S) Exit :=
  match default Serve command with
  | Serve => run_server env
  | Manage c => run_managed env c
  end.
End startup.
End Startup.

(** ** What start-up does, in order *)

Section order.
Context {S : Type} `{Outside S, Sqlite, Uuids, Argon2, Rng}.
Implicit Types (w : World (Machine S)).

(** The actions that set the database up, and those that start the servers. *)
Definition setup_plan (database_url : string) : list Action :=
  Connect (Startup.pool_options database_url) ::
  (Execute <$> Migrations.statements initial_sql).
Definition serve_plan (c : Config.t) : list Action :=
  setup_plan (Config.database_url c) ++
  [Bind (Config.caldav_port c); Bind (Config.mcp_port c); ServeBoth].

(** A run that performs actions of a plan in their order: all of them if it gets a
    result, and otherwise some of the first, the last of which failed. *)
Definition follows {A} (plan : list Action) (w w' : World (Machine S))
    (r : Result A CliError) : Prop :=
  ∃ performed rest, plan = performed ++ rest ∧
    actions (store w') = actions (store w) ++ performed ∧
    match r with Ok _ => rest = [] | Err _ => performed ≠ [] end.

Lemma run_act a w :
  ∃ r w', run (Startup.act a) w = (r, w') ∧ actions (store w') = actions (store w) ++ [a].
Proof.
  unfold Startup.act. rewrite run_atomic.
  destruct (perform a (clock w) (outside (store w), data (store w))) as [r [o σ]]. by eexists _, _.
Qed.

Lemma follows_ret {A} (a : A) w : follows [] w w (@Ok A CliError a).
Proof. exists [], []. split; [done|]. by rewrite (app_nil_r (actions _)). Qed.

(** The next action of the plan, then the others. *)
Lemma follows_act {A} a plan (k : prog (Machine S) (Result A CliError)) w :
  (∀ w1, let '(r, w') := run k w1 in follows plan w1 w' r) →
  let '(r, w') := run (try_bind (Startup.act a) (λ _, k)) w in follows (a :: plan) w w' r.
Proof.
  intros Hk. rewrite run_try. destruct (run_act a w) as (r & w1 & -> & Ha).
  destruct r as [u|e].
  - specialize (Hk w1). destruct (run k w1) as [r w'].
    destruct Hk as (done & rest & -> & Hd & Hr). exists (a :: done), rest.
    split; [done|]. split; [by rewrite Hd, Ha, <- app_assoc|]. by destruct r.
  - exists [a], plan. done.
Qed.

(** A first part, then a second. *)
Lemma follows_app {A B} plan1 plan2 (p : prog (Machine S) (Result A CliError))
    (k : prog (Machine S) (Result B CliError)) w :
  (let '(r, w') := run p w in follows plan1 w w' r) →
  (∀ w1, let '(r, w') := run k w1 in follows plan2 w1 w' r) →
  let '(r, w') := run (try_bind p (λ _, k)) w in follows (plan1 ++ plan2) w w' r.
Proof.
  intros Hp Hk. rewrite run_try. destruct (run p w) as [[a|e] w1].
  - destruct Hp as (done1 & rest1 & -> & Hd1 & ->). specialize (Hk w1).
    destruct (run k w1) as [r w']. destruct Hk as (done2 & rest2 & -> & Hd2 & Hr).
    exists (done1 ++ done2), rest2. rewrite app_nil_r, <- app_assoc. split; [done|].
    split; [by rewrite Hd2, Hd1, <- app_assoc|]. destruct r; [done|].
    intros E. by apply app_eq_nil in E as [_ ->].
  - destruct Hp as (done1 & rest1 & -> & Hd1 & Hne). exists done1, (rest1 ++ plan2).
    by rewrite <- app_assoc.
Qed.

Lemma follows_statements stmts w :
  let '(r, w') := run (Migrations.run_statements (λ sql, Startup.act (Execute sql)) stmts) w in
  follows (Execute <$> stmts) w w' r.
Proof.
  revert w. induction stmts as [|stmt stmts IH]; intros w; cbn [Migrations.run_statements].
  - rewrite run_ret. apply follows_ret.
  - rewrite fmap_cons. by apply follows_act.
Qed.

Lemma follows_init_pool url w :
  url_error url = None →
  let '(r, w') := run (Startup.init_pool url) w in follows (setup_plan url) w w' r.
Proof.
  intros Hu. unfold Startup.init_pool. rewrite Hu. apply follows_act. intros w1.
  rewrite <- (app_nil_r (Execute <$> _)). apply follows_app; [apply follows_statements|].
  intros w2. rewrite run_ret. apply follows_ret.
Qed.


(** A store program runs on the machine as it does alone. *)
Lemma run_on_store {A} (p : M A) w :
  let '(a, w1) := run p (mkWorld (clock w) (data (store w))) in
  run (Startup.on_store p) w =
    (a, mkWorld (clock w1) (mkMachine (outside (store w)) (store w1) (actions (store w)))).
Proof.
  destruct w as [n m]. cbn [clock store]. revert n m.
  induction p as [a|R s k IH]; intros n m.
  - change (@Ret Store A a) with (@mret M _ A a). rewrite run_ret. by destruct m.
  - change (run (Step s k) (mkWorld n (data m)))
      with (let '(r, σ) := s n (data m) in run (k r) (mkWorld (N.succ n) σ)).
    destruct (s n (data m)) as [r σ] eqn:E.
    specialize (IH r (N.succ n) (mkMachine (outside m) σ (actions m))). cbn [data outside actions] in IH.
    destruct (run (k r) (mkWorld (N.succ n) σ)) as [a w1].
    etransitivity; [|exact IH]. unfold run at 1. cbn. by rewrite E.
Qed.

(** A command runs on the database the server would run on, once the schema is there:
    the environment and the URL are checked as for the server; then the pool is opened
    and the migration run, and a failure there ends the process with the command not
    run; otherwise the command runs, on the store the migration left, as it does alone,
    with no further action, and the process prints its lines or fails with its error. *)
Theorem command_runs_on_migrated_store env c w :
  let '(r, w') := run (Startup.main env (Some (Manage c))) w in
  match Config.from_env env with
  | None => r = PanickedAtConfig ∧ w' = w
  | Some config =>
      match url_error (Config.database_url config) with
      | Some e => r = Failed (CliSqlx e) ∧ w' = w
      | None =>
          ∃ opened w1,
            run (Startup.init_pool (Config.database_url config)) w = (opened, w1) ∧
            follows (setup_plan (Config.database_url config)) w w1 opened ∧
            match opened with
            | Err e => r = Failed e ∧ w' = w1
            | Ok _ =>
                let '(a, w2) := run (Cli.run_command c) (mkWorld (clock w1) (data (store w1))) in
                r = Startup.exit_of a ∧ data (store w') = store w2 ∧
                actions (store w') = actions (store w) ++ setup_plan (Config.database_url config)
            end
      end
  end.
Proof.
  cbn [Startup.main default from_option id]. unfold Startup.run_managed.
  destruct (Config.from_env env) as [config|]; [|by rewrite run_ret].
  rewrite run_bind. unfold Startup.manage. rewrite run_try.
  destruct (url_error (Config.database_url config)) as [e|] eqn:Hu.
  { unfold Startup.init_pool. by rewrite Hu, !run_ret. }
  pose proof (follows_init_pool (Config.database_url config) w Hu) as Hf.
  destruct (run (Startup.init_pool _) w) as [[[]|e] w1]; cycle 1.
  { rewrite run_ret. by exists (Err e), w1. }
  pose proof (run_on_store (Cli.run_command c) w1) as Hrun.
  destruct (run (Cli.run_command c) _) as [a w2] eqn:E. rewrite Hrun, run_ret.
  exists (Ok tt), w1. split; [done|]. split; [done|]. rewrite E. split; [done|]. split; [done|].
  cbn. destruct Hf as (done & rest & -> & Ha & ->). by rewrite Ha, app_nil_r.
Qed.
End order.

(** The first line of a statement that is not a comment. *)
Definition headline (stmt : string) : option string :=
  head (bfilter (λ l, negb (Str.starts_with "--" l)) (Str.lines stmt)).

(** The migration is thirteen statements, of which none is lost or cut by the split at
    the semicolons, and each can be run again on a database that has it. *)
Lemma initial_statements :
  headline <$> Migrations.statements initial_sql =
    Some <$> (((λ t, "CREATE TABLE IF NOT EXISTS " +:+ t +:+ " (") <$>
       ["users"; "calendars"; "calendar_objects"; "calendar_shares"; "sync_changes";
        "mcp_tokens"]) ++
     ((λ '(i, t), "CREATE INDEX IF NOT EXISTS idx_" +:+ i +:+ " ON " +:+ t) <$>
       [("calendar_objects_calendar_id", "calendar_objects(calendar_id)");
        ("calendar_objects_uid", "calendar_objects(uid)");
        ("calendar_objects_dtstart", "calendar_objects(dtstart)");
        ("calendar_objects_dtend", "calendar_objects(dtend)");
        ("calendar_shares_user_id", "calendar_shares(user_id)");
        ("calendar_shares_calendar_id", "calendar_shares(calendar_id)");
        ("sync_changes_calendar_id_token", "sync_changes(calendar_id, sync_token)")])).
Proof. vm_compute. reflexivity. Qed.
