(* ===== verification/CliSpec.v ===== *)
(** * What the configuration promises *)
From Stdlib Require Import Ascii NArith ZArith.
From S2P Require Import Prelude RustStr Cli.
From stdpp Require Import options.

(** The number that decimal digits write, without a bound. *)
Fixpoint digits_value (acc : N) (s : string) : option N :=
  match s with
  | "" => Some acc
  | String c s' =>
      if Str.byte_in 48 57 c then digits_value (acc * 10 + (N_of_ascii c - 48))%N s' else None
  end.

(** An unsigned decimal number: at least one digit, perhaps after a plus sign. *)
Definition unsigned (s : string) : option N :=
  let digits := default s (Str.strip_prefix "+" s) in
  if Str.is_empty digits then None else digits_value 0 digits.

Lemma digits_value_le acc s n : digits_value acc s = Some n → (acc ≤ n)%N.
Proof.
  revert acc. induction s as [|c s IH]; intros acc; cbn [digits_value]; [intros [= ->]; lia|].
  destruct (Str.byte_in 48 57 c); [|done]. intros Hn%IH. lia.
Qed.

Lemma decimal_value acc s :
  (acc < 2 ^ 16)%N →
  Config.decimal acc s = digits_value acc s ≫= λ n, if (n <? 2 ^ 16)%N then Some n else None.
Proof.
  revert acc. induction s as [|c s IH]; intros acc Hacc; cbn [digits_value Config.decimal].
  - cbn [mbind option_bind]. by destruct (N.ltb_spec acc (2 ^ 16)); [|lia].
  - destruct (Str.byte_in 48 57 c); [|done].
    destruct (N.ltb_spec (acc * 10 + (N_of_ascii c - 48)) (2 ^ 16)); [by apply IH|].
    destruct (digits_value _ s) as [n|] eqn:E; [|done]. apply digits_value_le in E.
    cbn [mbind option_bind]. by destruct (N.ltb_spec n (2 ^ 16)); [lia|].
Qed.

(** The configuration is read exactly when both port variables (or their defaults)
    are decimal numbers below 65536, and it then has these numbers: the check after
    each digit neither refuses a number that fits nor lets one wrap around.  The database
    URL and the tool mode are the variables' values or the defaults. *)
Theorem from_env_correct env :
  let port name d := unsigned (default d (env name)) in
  match Config.from_env env with
  | Some c =>
      port "CALDAV_PORT" "5232" = Some (Config.caldav_port c) ∧
      port "MCP_PORT" "5233" = Some (Config.mcp_port c) ∧
      (Config.caldav_port c < 65536)%N ∧ (Config.mcp_port c < 65536)%N ∧
      Config.database_url c = default "sqlite:data/caldav.db?mode=rwc" (env "DATABASE_URL") ∧
      Config.tool_mode c = default "full" (env "MCP_TOOL_MODE")
  | None =>
      ∀ n m, port "CALDAV_PORT" "5232" = Some n → port "MCP_PORT" "5233" = Some m →
        (65536 ≤ n)%N ∨ (65536 ≤ m)%N
  end.
Proof.
  assert (∀ s, Config.parse_u16 s =
            unsigned s ≫= λ n, if (n <? 2 ^ 16)%N then Some n else None) as Hp.
  { intros s. unfold Config.parse_u16, unsigned, default.
    destruct (Str.strip_prefix "+" s) as [r|]; cbn [from_option id];
      match goal with |- context [Str.is_empty ?x] => destruct (Str.is_empty x) end;
      try done; by apply decimal_value. }
  intros port. unfold Config.from_env. rewrite !Hp. unfold port.
  destruct (unsigned (default "5232" (env "CALDAV_PORT"))) as [n|]; [|done].
  destruct (unsigned (default "5233" (env "MCP_PORT"))) as [m|]; cbn [mbind option_bind].
  - destruct (N.ltb_spec n (2 ^ 16)), (N.ltb_spec m (2 ^ 16)); cbn;
      (intros ? ? [= <-] [= <-]; lia) || (split_and!; try done).
  - destruct (N.ltb_spec n (2 ^ 16)); done.
Qed.
