(* ===== verification/HandlersSpec.v ===== *)
(** * What the CalDAV methods promise

    GET, PUT and DELETE of objects against the map of objects of [EventsSpec];
    MKCALENDAR and PROPPATCH against the calendar rows. *)
From Stdlib Require Import Ascii NArith ZArith.
From S2P Require Import Prelude RustStr Effects Models Db DbUsers DbCalendars DbEvents Ical.
From S2P Require Import Http.
From S2P Require Import Xml Properties CaldavHandlers Sim Integrity EventsSpec CalendarsSpec.
From stdpp Require Import options.
Set Default Proof Using "Type*".

(** The file name of an object, in hrefs. *)
Definition file_of (uid : string) : string := uid +:+ ".ics".

(** A UID that a file name gives back: it does not end in ".ics" itself. *)
Definition plain_uid (uid : string) : Prop := Str.strip_suffix ICS uid = None.

Lemma uid_of_file uid : plain_uid uid → Str.trim_end_matches ICS (file_of uid) = uid.
Proof. intros Hp. unfold file_of. rewrite trim_end_matches_app by done. by apply trim_end_matches_id. Qed.

(** An ETag of the server is a valid header value if UUIDs are plain text. *)
Lemma valid_header_app s1 s2 :
  valid_header_value (s1 +:+ s2) = valid_header_value s1 && valid_header_value s2.
Proof. induction s1 as [|a s1 IH]; [done|]. simpl. by rewrite IH, andb_assoc. Qed.

Lemma valid_etag uuid :
  valid_header_value uuid = true → valid_header_value (Events.etag_of_uuid uuid) = true.
Proof.
  intros Hv. unfold Events.etag_of_uuid. cbn [valid_header_value].
  rewrite valid_header_app, Hv. done.
Qed.

(** The reply of a GET that finds the object. *)
Definition object_reply (etag data : string) : Reply :=
  Respond (Response.mk 200
    [("content-type", "text/calendar; charset=utf-8"); ("etag", etag)] data).

(** *** PUT, by the text of its body *)

Section put_cases.
Context `{Sqlite, Uuids}.

(** The UID under which a PUT stores its body: the one in the data, or the file name's. *)
Definition put_uid (file data : string) : string :=
  default (Str.trim_end_matches ICS file) (IcalFields.uid (Parser.extract_fields data)).

(** The text of an acceptable PUT body. *)
Definition put_text (request : Request.t) : option string :=
  to_bytes (1024 * 1024) (Request.body request) ≫= Str.from_utf8.

Lemma put_text_cases c file request :
  match put_text request with
  | None => ∃ msg, Put.handle_put c file request = mret (text 400 msg)
  | Some data =>
      Put.handle_put c file request =
        (failed ← Put.check_if_match (Request.header "if-match" request) c (put_uid file data);
         match failed with
         | Some response => mret response
         | None =>
             r ← Events.upsert_object c (put_uid file data) data
                   (Put.object_fields (Parser.extract_fields data));
             mret (match r with
                   | Ok (obj, is_new) =>
                       build (if is_new : bool then 201 else 204)
                         [("etag", CalendarObject.etag obj)] ""
                   | Err _ => text 500 "Failed to save event"
                   end)
         end)
  end.
Proof.
  unfold put_text, Put.handle_put. destruct (to_bytes _ _) as [b|]; simpl; [|eauto].
  destruct (Str.from_utf8 b); simpl; [done|eauto].
Qed.
End put_cases.

Section objects.
Context `{SqliteLaws, Uuids}.
Context (Hnf : ∀ n, sql_fault n = None).

Lemma run_handle_get c file w :
  Db.wf (db (store w)) →
  run (Get.handle_get c file) w =
    (match objects_of (db (store w)) !! (c, Str.trim_end_matches ICS file) with
     | Some o =>
         build 200 [("content-type", "text/calendar; charset=utf-8");
                    ("etag", CalendarObject.etag o)] (CalendarObject.ical_data o)
     | None => text 404 "Object not found"
     end, tick w (store w)).
Proof.
  intros Hwf. unfold Get.handle_get. rewrite run_bind, run_get_object by done.
  by destruct (objects_of _ !! _).
Qed.

(** The If-Match header admits the object there is, if any. *)
Definition if_match_ok (if_match : option string) (old : option CalendarObject.t) : bool :=
  match if_match with
  | None => true
  | Some e =>
      bool_decide (e = "*") ||
      match old with Some o => bool_decide (CalendarObject.etag o = e) | None => false end
  end.

Lemma run_check_if_match m c uid w :
  Db.wf (db (store w)) →
  let old := objects_of (db (store w)) !! (c, uid) in
  ∃ r w', run (Put.check_if_match m c uid) w = (r, w') ∧ store w' = store w ∧
    (clock w ≤ clock w')%N ∧
    if if_match_ok m old then r = None else ∃ msg, r = Some (text 412 msg).
Proof.
  intros Hwf old. unfold Put.check_if_match, if_match_ok. destruct m as [e|];
    [|eexists _, _; rewrite run_ret; split; [done|split; [done|split; [lia|done]]]].
  case_decide as He.
  - eexists _, _. rewrite run_ret. rewrite bool_decide_true by done. simpl.
    split; [done|split; [done|split; [lia|done]]].
  - rewrite run_bind, run_get_object by done. fold old.
    eexists _, _. rewrite run_ret. split; [done|]. split; [done|]. split; [simpl; lia|].
    rewrite bool_decide_false by done. cbn [orb].
    destruct old as [o|]; [|eauto]. case_decide; case_bool_decide; naive_solver.
Qed.

(** A PUT that its If-Match admits, run to its end. *)
Lemma run_accepted_put c file request data w :
  Db.wf (db (store w)) → log_ready c (db (store w)) →
  (∀ n, (clock w ≤ n)%N →
        uuid_v7 n ∉ CalendarObject.id <$> Db.calendar_objects (db (store w))) →
  (∀ n, valid_header_value (uuid_v4 n) = true) →
  put_text request = Some data →
  let uid := put_uid file data in
  let objects := objects_of (db (store w)) in
  let old := objects !! (c, uid) in
  if_match_ok (Request.header "if-match" request) old = true →
  ∃ obj w',
    run (Put.handle_put c file request) w =
      (Respond (Response.mk (if old then 204 else 201) [("etag", CalendarObject.etag obj)] ""),
       w') ∧
    objects_of (db (store w')) = <[(c, uid) := obj]> objects ∧ Db.wf (db (store w')) ∧
    CalendarObject.ical_data obj = data ∧
    fields_of obj = Put.object_fields (Parser.extract_fields data) ∧
    (∃ n, (clock w ≤ n < clock w')%N ∧
          CalendarObject.etag obj = Events.etag_of_uuid (uuid_v4 n)) ∧
    (∀ o, old = Some o → CalendarObject.id obj = CalendarObject.id o) ∧
    (old = None → ∃ n, (clock w ≤ n < clock w')%N ∧ CalendarObject.id obj = uuid_v7 n) ∧
    noted c uid (if old then "modified" else "created") (store w) (store w').
Proof.
  intros Hwf Hr Hfresh Hv4 Ht uid objects old Hm.
  pose proof (put_text_cases c file request) as E. rewrite Ht in E. rewrite E. clear E.
  fold uid. rewrite run_bind.
  destruct (run_check_if_match (Request.header "if-match" request) c uid w Hwf)
    as (r & w1 & -> & Hs1 & Hc1 & Hok).
  fold objects in Hok. fold old in Hok. rewrite Hm in Hok. subst r.
  set (f := Put.object_fields (Parser.extract_fields data)).
  destruct (run_upsert_object Hnf w1 c uid data f)
    as (obj & w' & Hrun & Hobj & Hdata & Hf & Hetag & Hid & Hc & Hnew & Hnoted);
    rewrite ?Hs1 in *;
    [done..|intros n Hn; apply Hfresh; lia|].
  fold objects in Hrun, Hobj, Hid, Hnew, Hnoted. fold old in Hrun, Hid, Hnew, Hnoted.
  assert (valid_header_value (CalendarObject.etag obj) = true) as Hv
    by (rewrite Hetag; by apply valid_etag).
  pose proof (keeps_run _ w1 (keeps_upsert_object c uid data f)) as Hwf'.
  rewrite Hs1, Hrun in Hwf'.
  exists obj, w'. rewrite run_bind, Hrun, run_ret. unfold build. cbn [forallb snd]. rewrite Hv.
  split; [by destruct old|]. split; [exact Hobj|]. split; [by apply Hwf'|].
  split; [exact Hdata|]. split; [exact Hf|].
  split; [|split; [by intros o Ho; apply (Hid o Ho)|split; [|exact Hnoted]]].
  - exists (N.succ (clock w1)). split; [lia|exact Hetag].
  - intros Ho. destruct (Hnew Ho) as (n & Hn & E). exists n. split; [lia|exact E].
Qed.

(** A PUT whose body is readable text and whose If-Match admits the stored object
    is answered 201 (no object with the UID before) or 204 with the new ETag, and stores
    its body under the UID that the data carries (the file name's only if it carries
    none); a GET of that UID then answers with the body, byte for byte, and the same
    ETag, and every other object is as before. *)
Theorem put_then_get c file request data w :
  Db.wf (db (store w)) → log_ready c (db (store w)) →
  (∀ n, (clock w ≤ n)%N →
        uuid_v7 n ∉ CalendarObject.id <$> Db.calendar_objects (db (store w))) →
  (∀ n, valid_header_value (uuid_v4 n) = true) →
  put_text request = Some data →
  let uid := put_uid file data in
  let objects := objects_of (db (store w)) in
  if_match_ok (Request.header "if-match" request) (objects !! (c, uid)) = true →
  plain_uid uid →
  ∃ etag obj w',
    run (Put.handle_put c file request) w =
      (Respond (Response.mk (if objects !! (c, uid) then 204 else 201) [("etag", etag)] ""), w') ∧
    objects_of (db (store w')) = <[(c, uid) := obj]> objects ∧
    (run (Get.handle_get c (file_of uid)) w').1 = object_reply etag data.
Proof.
  intros Hwf Hr Hfresh Hv4 Ht uid objects Hm Hp.
  destruct (run_accepted_put c file request data w Hwf Hr Hfresh Hv4 Ht Hm)
    as (obj & w' & Hrun & Hobj & Hwf' & Hdata & _ & (n & _ & He) & _).
  exists (CalendarObject.etag obj), obj, w'. split; [exact Hrun|]. split; [exact Hobj|].
  rewrite run_handle_get by done. rewrite uid_of_file, Hobj, lookup_insert_eq by done.
  unfold build. cbn [fst forallb snd]. rewrite He, valid_etag, <- He by apply Hv4.
  cbn. by rewrite Hdata.
Qed.

(** A PUT that is refused. *)
Lemma run_refused_put c file request w :
  Db.wf (db (store w)) →
  let r := run (Put.handle_put c file request) w in
  match put_text request with
  | None => status_of r.1 = Some 400%Z ∧ store r.2 = store w
  | Some data =>
      if_match_ok (Request.header "if-match" request)
        (objects_of (db (store w)) !! (c, put_uid file data)) = false →
      status_of r.1 = Some 412%Z ∧ store r.2 = store w
  end.
Proof.
  intros Hwf r. subst r. pose proof (put_text_cases c file request) as E.
  destruct (put_text request) as [data|]; [|by destruct E as [msg ->]].
  intros Hm. rewrite E, run_bind.
  destruct (run_check_if_match (Request.header "if-match" request) c (put_uid file data) w Hwf)
    as (r & w1 & -> & Hs1 & _ & Hok).
  rewrite Hm in Hok. destruct Hok as [msg ->]. by rewrite run_ret.
Qed.

(** A PUT whose body is unreadable, larger than a mebibyte or not UTF-8 is answered
    400, and one whose If-Match does not admit the stored object (another ETag, or no
    object) is answered 412; neither changes anything. *)
Theorem refused_put_changes_nothing c file request w :
  Db.wf (db (store w)) →
  let r := run (Put.handle_put c file request) w in
  match put_text request with
  | None => status_of r.1 = Some 400%Z ∧ store r.2 = store w
  | Some data =>
      if_match_ok (Request.header "if-match" request)
        (objects_of (db (store w)) !! (c, put_uid file data)) = false →
      status_of r.1 = Some 412%Z ∧ store r.2 = store w
  end.
Proof. apply run_refused_put. Qed.

(** A deletion, run to its end. *)
Lemma run_delete_then_get c file w :
  Db.wf (db (store w)) → (Db.sync_seq (db (store w)) < 2 ^ 63 - 1)%Z →
  let uid := Str.trim_end_matches ICS file in
  let objects := objects_of (db (store w)) in
  let r := run (Delete.handle_delete_object c file) w in
  match objects !! (c, uid) with
  | None => r.1 = text 404 "Object not found" ∧ store r.2 = store w
  | Some _ =>
      r.1 = text 204 "" ∧ objects_of (db (store r.2)) = delete (c, uid) objects ∧
      (run (Get.handle_get c file) r.2).1 = text 404 "Object not found"
  end.
Proof.
  intros Hwf Hseq uid objects r. subst r. unfold Delete.handle_delete_object. fold uid.
  rewrite run_bind.
  destruct (run_delete_object Hnf w c uid Hwf Hseq) as (r & w' & Hrun & Hm & Hr).
  fold objects in Hm, Hr. rewrite Hrun.
  destruct (objects !! (c, uid)) as [o|]; destruct Hr as [-> Hs]; rewrite run_ret; [|done].
  split; [done|]. split; [exact Hm|]. cbn [snd].
  pose proof (safe_run (db_inv (λ _, Db.wf)) _ _ _ (keeps_delete_object c uid (clock w))) as Hk.
  rewrite Hrun in Hk. rewrite run_handle_get by by apply Hk.
  fold uid. by rewrite Hm, lookup_delete_eq.
Qed.

(** A DELETE of an object answers 404 and changes nothing if the UID of the file name
    is not in the calendar; otherwise it answers 204, removes exactly that object, and a
    GET then answers 404. *)
Theorem delete_then_get c file w :
  Db.wf (db (store w)) → (Db.sync_seq (db (store w)) < 2 ^ 63 - 1)%Z →
  let uid := Str.trim_end_matches ICS file in
  let objects := objects_of (db (store w)) in
  let r := run (Delete.handle_delete_object c file) w in
  match objects !! (c, uid) with
  | None => r.1 = text 404 "Object not found" ∧ store r.2 = store w
  | Some _ =>
      r.1 = text 204 "" ∧ objects_of (db (store r.2)) = delete (c, uid) objects ∧
      (run (Get.handle_get c file) r.2).1 = text 404 "Object not found"
  end.
Proof. apply run_delete_then_get. Qed.
End objects.

(** ** Calendars *)

Section calendars.
Context `{SqliteLaws, Uuids, QuickXml}.
Context (Hnf : ∀ n, sql_fault n = None).

(** The calendar a MKCALENDAR makes. *)
Definition made_calendar (id owner : string) (body tok at_ : string) : Calendar.t :=
  Calendar.mk id owner (default id (MkCalendar.extract_displayname body)) ""
    (default "#0E61B9" (MkCalendar.extract_calendar_color body)) "UTC" tok tok at_ at_.

(** MKCALENDAR, run to its end. *)
Lemma run_mkcalendar user username id request w :
  Db.wf (db (store w)) → User.id user ∈ Db.user_ids (db (store w)) →
  let d := db (store w) in
  let body := to_bytes_or_empty (64 * 1024) (Request.body request) in
  let r := run (MkCalendar.handle_mkcalendar user username id request) w in
  if decide (User.username user ≠ username) then
    r.1 = text 403 "Cannot create calendars for another user" ∧ store r.2 = store w
  else if decide (id ∈ Db.calendar_ids d) then
    r.1 = text 405 "Calendar already exists" ∧ store r.2 = store w
  else
    r.1 = text 201 "Calendar created" ∧
    ∃ tok at_, store r.2 =
      with_db (Db.set_calendars (λ l, l ++ [made_calendar id (User.id user) body tok at_]) d)
        (store w).
Proof.
  intros Hwf Hu d body r. subst r. unfold MkCalendar.handle_mkcalendar.
  destruct (decide (User.username user = username)) as [Hn|Hn];
    [rewrite decide_False by tauto|by rewrite decide_True by done].
  rewrite run_bind. case_decide as Hin.
  - apply list_elem_of_fmap in Hin as (c & -> & Hc).
    by rewrite run_get_calendar_some, run_ret by done.
  - rewrite run_get_calendar, head_filter_absent by done. fold body.
    rewrite run_bind.
    match goal with |- context [Calendars.create_calendar_with_id id ?o ?n ?de ?co ?tz] =>
      pose proof (run_create_calendar Hnf id o n de co tz (tick w (store w)) Hwf) as Hcr end.
    cbn zeta in Hcr. cbn [tick store] in Hcr. fold d in Hcr.
    rewrite (decide_False (P := id ∈ Db.calendar_ids d)) in Hcr by done.
    rewrite (decide_True (P := User.id user ∈ Db.user_ids d)) in Hcr by done.
    destruct Hcr as (c & tok & Hc & Hst & _ & Eq).
    destruct (run (Calendars.create_calendar_with_id _ _ _ _ _ _) _) as [r1 w1].
    cbn [fst snd] in *. subst r1. rewrite run_ret. split; [done|]. cbn [snd].
    exists tok, (Calendar.created_at c). rewrite Hst, Eq. done.
Qed.


(** The calendar a PROPPATCH leaves. *)
Definition patched_calendar (n : N) (body : string) (c : Calendar.t) : Calendar.t :=
  let text := Str.from_utf8_lossy body in
  updated_calendar n (Parse.extract_prop_value text "displayname")
    (Parse.extract_prop_value text "calendar-description")
    (Parse.extract_prop_value text "calendar-color") None c.

(** C38: PROPPATCH sets the display name, description and colour that the body gives, on
    one calendar, and answers 207; what the body does not give, the timezone, the tokens,
    and every other row stay.  An unknown calendar is answered 404 and nothing changes. *)
Theorem proppatch_correct user ctx id request w :
  Db.wf (db (store w)) →
  let d := db (store w) in
  let body := to_bytes_or_empty (64 * 1024) (Request.body request) in
  let r := run (PropPatch.handle_proppatch user ctx id request) w in
  (id ∉ Db.calendar_ids d → r.1 = text 404 "Calendar not found" ∧ store r.2 = store w) ∧
  (∀ c, c ∈ Db.calendars d → Calendar.id c = id →
     status_of r.1 = Some 207%Z ∧
     ∃ n, store r.2 =
       with_db (Db.set_calendars (fmap (λ c',
         if decide (Calendar.id c' = id) then patched_calendar n body c' else c')) d)
         (store w)).
Proof.
  intros Hwf d body r. subst r. unfold PropPatch.handle_proppatch. fold body.
  rewrite run_bind. split.
  - intros Hni. by rewrite run_get_calendar, head_filter_absent by done.
  - intros c Hc <-. rewrite run_get_calendar_some by done. rewrite run_bind.
    match goal with |- context [Calendars.update_calendar ?i ?n ?de ?co ?tz] =>
      destruct (run_update_calendar Hnf i n de co tz (tick w (store w)) Hwf) as [Hup _] end.
    destruct (Hup c Hc eq_refl) as (n & Hr & Hst).
    destruct (run (Calendars.update_calendar _ _ _ _ _) _) as [r1 w1].
    cbn [fst snd] in *. subst r1. rewrite run_ret. split; [done|].
    exists n. exact Hst.
Qed.
End calendars.

(** ** On the simulated server *)

Module HandlersExamples.
Import Sim.

Definition put (headers : list (string * option string)) (data : string) : Request.t :=
  Request.mk "PUT" headers (BodyBytes data).

Definition lunch_data : string :=
  Builder.build_vevent "20260301T090000Z" "lunch" "Lunch" "20260302T120000Z" "20260302T130000Z"
    None None None.

Lemma sim_fresh : ∀ n, (100 ≤ n)%N →
  uuid_v7 n ∉ CalendarObject.id <$> Db.calendar_objects database.
Proof. intros n _. apply not_elem_of_cons. split; [done|apply not_elem_of_nil]. Qed.

Lemma sim_ready : log_ready "cal" database.
Proof. split; [by left|done]. Qed.

Lemma pretty_N_go_visible n s :
  valid_header_value s = true → valid_header_value (pretty_N_go n s) = true.
Proof.
  revert s. induction (N.lt_wf_0 n) as [n _ IH]. intros s Hs.
  destruct (decide (0 < n)%N) as [Hn|Hn].
  - rewrite pretty_N_go_step by done. apply IH; [apply N.div_lt; lia|].
    cbn [valid_header_value]. rewrite Hs, andb_true_r. unfold pretty_N_char.
    by repeat case_match.
  - replace n with 0%N by lia. by rewrite pretty_N_go_0.
Qed.

Lemma sim_visible n : valid_header_value (uuid_v4 n) = true.
Proof.
  cbn [uuid_v4 uuids]. rewrite valid_header_app. cbn [valid_header_value].
  unfold pretty, pretty_N. case_decide; [done|]. by rewrite pretty_N_go_visible.
Qed.

(** The body's UID wins over the name of the file. *)
Lemma put_then_get_witness :
  ∃ etag w', run (Put.handle_put "cal" "other.ics" (put [] lunch_data)) world =
      (Respond (Response.mk 201 [("etag", etag)] ""), w') ∧
    (run (Get.handle_get "cal" "lunch.ics") w').1 = object_reply etag lunch_data.
Proof.
  destruct (put_then_get nofault "cal" "other.ics" (put [] lunch_data) lunch_data world
              database_wf sim_ready sim_fresh sim_visible)
    as (etag & obj & w' & Hr & _ & Hg).
  - by vm_compute.
  - by vm_compute.
  - by vm_compute.
  - exists etag, w'. split; [rewrite Hr; by vm_compute|].
    assert (put_uid "other.ics" lunch_data = "lunch") as E by by vm_compute.
    rewrite E in Hg. exact Hg.
Defined.

Lemma refused_put_changes_nothing_witness :
  status_of (run (Put.handle_put "cal" "meeting.ics"
    (put [("if-match", Some "e0")] "DATA")) world).1 = Some 412%Z ∧
  status_of (run (Put.handle_put "cal" "meeting.ics"
    (put [] (String "255"%char ""))) world).1 = Some 400%Z.
Proof.
  split.
  - exact (proj1 (refused_put_changes_nothing nofault "cal" "meeting.ics"
      (put [("if-match", Some "e0")] "DATA") world database_wf eq_refl)).
  - exact (proj1 (refused_put_changes_nothing nofault "cal" "meeting.ics"
      (put [] (String "255"%char "")) world database_wf)).
Defined.

Lemma delete_then_get_witness :
  (run (Delete.handle_delete_object "cal" "meeting.ics") world).1 = text 204 "" ∧
  (run (Get.handle_get "cal" "meeting.ics")
     (run (Delete.handle_delete_object "cal" "meeting.ics") world).2).1 =
    text 404 "Object not found".
Proof.
  destruct (delete_then_get nofault "cal" "meeting.ics" world database_wf eq_refl)
    as (Hr & _ & Hg).
  split; [exact Hr|exact Hg].
Defined.


Lemma proppatch_correct_witness :
  status_of (run (PropPatch.handle_proppatch alice None "cal"
    (Request.mk "PROPPATCH" [] (BodyBytes "displayname"))) world).1 = Some 207%Z.
Proof.
  destruct (proppatch_correct nofault alice None "cal"
    (Request.mk "PROPPATCH" [] (BodyBytes "displayname")) world database_wf) as [_ Hr].
  by destruct (Hr work) as [Hs _]; [left|done|].
Defined.
End HandlersExamples.
