(* ===== verification/McpSpec.v ===== *)
(** * What the MCP server promises

    Bearer authentication, the JSON-RPC transport, the table of tools, and the event
    tools. *)
From Stdlib Require Import NArith ZArith.
From S2P Require Import Prelude RustStr Effects Models Db DbUsers DbCalendars DbEvents.
From S2P Require Import DbShares.
From S2P Require Import DbTokens Ical Http Json McpTools Mcp Sim Integrity EventsSpec.
From S2P Require Import CalendarsSpec AccountsSpec QuerySpec.
From stdpp Require Import options.
Set Default Proof Using "Type*".

(** ** Authentication *)

(** The token of the Authorization header. *)
Definition bearer (request : Request.t) : option string :=
  Request.header "authorization" request ≫= Str.strip_prefix "Bearer ".

Section authentication.
Context `{SqliteLaws, Uuids, Argon2, Chrono, Serde}.

(** A request through the middleware. *)
Lemma run_serve mode request w :
  let r := run (McpRouter.serve mode request) w in
  (status_of r.1 = Some 401%Z ∧ store r.2 = store w) ∨
  (∃ raw u k w1, bearer request = Some raw ∧
     k ∈ Db.mcp_tokens (db (store w)) ∧ McpToken.user_id k = u ∧
     accepts (datetime_now (clock w)) raw k ∧
     store w1 = store w ∧ r = run (McpRouter.mcp_route mode u request) w1).
Proof.
  intros r. subst r. unfold McpRouter.serve, McpRouter.require_bearer_auth, bearer.
  destruct (Request.header "authorization" request) as [h|]; [|by left]. cbn [mbind option_bind].
  destruct (Str.strip_prefix "Bearer " h) as [raw|]; [|by left].
  rewrite run_bind. destruct (sql_fault (clock w)) as [e|] eqn:Ef.
  - left. unfold Tokens.validate_token. rewrite run_try.
    by rewrite (run_sql_try_fault _ _ e).
  - rewrite run_validate_token by done.
    destruct (Tokens.first_match raw _) as [[u|]|e] eqn:Em; [|by left|by left].
    right. apply first_match_sound in Em as (k & Hk & Hu & Hp & Hv).
    apply elem_of_scan, elem_of_bfilter in Hk as [Hx Hk].
    exists raw, u, k, (tick w (store w)). done.
Qed.

(** C22: Every request to the MCP server passes the token check: without a bearer token that
    validates, or when validating fails, the answer is a 401 and nothing changes;
    otherwise the request is served, on the unchanged store, for the user of an
    unexpired token row whose hash accepts the token. *)
Theorem serve_authenticates mode request w :
  let r := run (McpRouter.serve mode request) w in
  (status_of r.1 = Some 401%Z ∧ store r.2 = store w) ∨
  (∃ raw u k w1, bearer request = Some raw ∧
     k ∈ Db.mcp_tokens (db (store w)) ∧ McpToken.user_id k = u ∧
     accepts (datetime_now (clock w)) raw k ∧
     store w1 = store w ∧ r = run (McpRouter.mcp_route mode u request) w1).
Proof. apply run_serve. Qed.
End authentication.

(** ** The table of tools *)

Section tools.
Context `{Sqlite, Uuids, Chrono}.

(** The tools of a mode, by name. *)
Definition tool_table (mode : string) :
    list (string * (string → json → M (Result json string))) :=
  if decide (mode = "simple") then
    [ ("add_event", SimpleTools.handle_add);
      ("delete_event", SimpleTools.handle_delete);
      ("list_events", SimpleTools.handle_list) ]
  else
    [ ("list_calendars", CalendarTools.list_calendars);
      ("get_calendar", CalendarTools.get_calendar);
      ("create_calendar", CalendarTools.create_calendar);
      ("delete_calendar", CalendarTools.delete_calendar_tool);
      ("create_event", EventTools.create_event);
      ("get_event", EventTools.get_event);
      ("update_event", EventTools.update_event);
      ("delete_event", EventTools.delete_event);
      ("query_events", EventTools.query_events);
      ("share_calendar", SharingTools.share_calendar);
      ("unshare_calendar", SharingTools.unshare_calendar);
      ("list_shared_calendars", SharingTools.list_shared_calendars) ].

Fixpoint find_tool {A} (name : string) (table : list (string * A)) : option A :=
  match table with
  | [] => None
  | (n, f) :: rest => if decide (name = n) then Some f else find_tool name rest
  end.

(** The tools that a mode announces are the tools that it runs: their names are
    distinct, and a call is the tool of that name on the caller and the arguments, or an
    "Unknown tool" error for a name that [tools/list] does not give. *)
Theorem dispatch_runs_announced_tools mode :
  ToolDef.name <$> Tools.all_tools mode = (tool_table mode).*1 ∧
  NoDup (ToolDef.name <$> Tools.all_tools mode) ∧
  ∀ user_id name args,
    Tools.dispatch user_id name args mode =
      match find_tool name (tool_table mode) with
      | Some tool => tool user_id args
      | None => mret (Err ("Unknown tool: " +:+ name))
      end.
Proof.
  unfold Tools.all_tools, Tools.dispatch, tool_table.
  destruct (decide (mode = "simple")); (split; [done|]); (split;
    [by apply (bool_decide_unpack _)|]); intros user_id name args; cbn [find_tool];
    [unfold SimpleTools.dispatch|]; repeat (case_decide; [done|]); done.
Qed.
End tools.

(** ** JSON-RPC *)

Section transport.
Context `{Sqlite, Uuids, Chrono, Serde}.

(** The error of a request, if it has one before any tool runs. *)
Definition request_error_code (rpc : JsonRpc.Request) : option Z :=
  if decide (JsonRpc.method rpc = "tools/call") then
    match Json.get_str "name" (JsonRpc.params rpc) with
    | None => Some JsonRpc.INVALID_PARAMS
    | Some _ => None
    end
  else if decide (JsonRpc.method rpc ∈ ["initialize"; "tools/list"; "ping"]) then None
  else Some JsonRpc.METHOD_NOT_FOUND.

(** A response with the id of the request: an error with its code, or a result. *)
Definition answers_request (rpc : JsonRpc.Request) (answer : json) : Prop :=
  match request_error_code rpc with
  | Some code => ∃ msg, answer = JsonRpc.error (JsonRpc.id rpc) code msg
  | None => ∃ result, answer = JsonRpc.success (JsonRpc.id rpc) result
  end.

Lemma handle_request_answers user rpc mode w :
  JsonRpc.method rpc ≠ "notifications/initialized" →
  answers_request rpc (run (Handlers.handle_request user rpc mode) w).1.
Proof.
  intros Hn. unfold answers_request, request_error_code, Handlers.handle_request.
  destruct (decide (JsonRpc.method rpc = "initialize")) as [->|Hm1].
  { rewrite decide_False, decide_True by (done || by left).
    unfold Handlers.handle_initialize. rewrite run_bind.
    destruct (run (Session.create_session user) w). rewrite run_ret. by eexists. }
  rewrite (decide_False (P := _ = "notifications/initialized")) by done.
  destruct (decide (JsonRpc.method rpc = "tools/list")) as [->|Hm2].
  { rewrite decide_False, decide_True by (done || by right; left). by eexists. }
  destruct (decide (JsonRpc.method rpc = "tools/call")) as [_|Hm3].
  { unfold Handlers.handle_tools_call.
    destruct (Json.get_str "name" (JsonRpc.params rpc)); [|by eexists].
    rewrite run_bind. destruct (run (Tools.dispatch _ _ _ _) w). rewrite run_ret. by eexists. }
  destruct (decide (JsonRpc.method rpc = "ping")) as [->|Hm4].
  { rewrite decide_True by (by right; right; left). by eexists. }
  rewrite decide_False by set_solver. by eexists.
Qed.

(** How a POST is answered. *)
Definition json_reply (v : json) : Reply :=
  Respond (Response.mk 200 [Transport.JSON_TYPE] (json_to_vec v)).


(** The session that "initialize" opens is never told to the client: it is stored
    under a fresh id, but the header of the answer is looked up under the id of the user,
    which is no session's id, and is left out. *)
Theorem initialize_hides_session mode user body request rpc w :
  to_bytes (1024 * 1024) (Request.body request) = Some body →
  JsonRpc.from_slice body = Ok rpc →
  JsonRpc.method rpc = "initialize" → JsonRpc.id rpc ≠ None →
  sessions (store w) !! user = None → uuid_v4 (clock w) ≠ user →
  let r := run (Transport.handle_post mode user request) w in
  sessions (store r.2) = <[uuid_v4 (clock w) := user]> (sessions (store w)) ∧
  response_header "mcp-session-id" r.1 = None ∧ status_of r.1 = Some 200%Z.
Proof.
  intros Hb Hr Hm Hid Hu Hv r. subst r. unfold Transport.handle_post. rewrite Hb, Hr.
  unfold Handlers.handle_request, Handlers.handle_initialize.
  rewrite Hm, !decide_True by done. rewrite run_bind, run_bind.
  unfold Session.create_session, new_v4. rewrite run_bind, run_observe, run_bind, run_atomic, !run_ret.
  destruct (JsonRpc.id rpc) as [id|]; [|done]. rewrite run_bind.
  unfold Session.get_user_id. rewrite run_observe, run_ret. cbn [fst snd store clock sessions].
  by rewrite lookup_insert_ne by done; rewrite Hu.
Qed.
End transport.

(** ** Event tools *)

Section events.
Context `{SqliteLaws, Uuids, Chrono}.
Context (Hnf : ∀ n, sql_fault n = None).

Lemma run_required_some {A B} (x : A) msg (k : A → M (Result B string)) w :
  run (try_bind (required (Some x) msg) k) w = run (k x) w.
Proof. unfold required. by rewrite run_try, run_ret. Qed.

(** The answer of [get_event] about an object. *)
Definition event_answer (c uid : string) (f : ObjectFields.t) (etag data : string) : json :=
  JObject [("uid", JString uid); ("calendar_id", JString c);
           ("summary", Json.of_option (ObjectFields.summary f));
           ("dtstart", Json.of_option (ObjectFields.dtstart f));
           ("dtend", Json.of_option (ObjectFields.dtend f)); ("etag", JString etag);
           ("ical_data", JString data)].

(** The key of an object just stored. *)
Lemma stored_key d c uid obj objects :
  objects_of d = <[(c, uid) := obj]> objects → Db.wf d →
  CalendarObject.calendar_id obj = c ∧ CalendarObject.uid obj = uid.
Proof.
  intros E Hwf.
  assert (objects_of d !! (c, uid) = Some obj) as Hl by by rewrite E, lookup_insert_eq.
  by apply lookup_objects_of in Hl as [_ [= ? ?]].
Qed.

(** What [create_event] does: it answers with a fresh UID and stores one new object. *)
Lemma run_create_event user args c title start end_ w :
  Db.wf (db (store w)) → log_ready c (db (store w)) →
  (∀ n, (clock w ≤ n)%N →
        uuid_v7 n ∉ CalendarObject.id <$> Db.calendar_objects (db (store w))) →
  Json.index_str "calendar_id" args = Some c → Json.index_str "title" args = Some title →
  Json.index_str "start" args = Some start → Json.index_str "end" args = Some end_ →
  let uid := uuid_v4 (clock w) +:+ "@caldav-server" in
  let data := Builder.build_vevent (utc_now (N.succ (clock w))) uid title start end_
                (Json.index_str "description" args) (Json.index_str "location" args)
                (Json.index_str "timezone" args) in
  ∃ obj w',
    run (EventTools.create_event user args) w =
      (Ok (JObject [("uid", JString uid); ("calendar_id", JString c); ("title", JString title);
                    ("start", JString start); ("end", JString end_);
                    ("etag", JString (CalendarObject.etag obj))]), w') ∧
    objects_of (db (store w')) = <[(c, uid) := obj]> (objects_of (db (store w))) ∧
    Db.wf (db (store w')) ∧ CalendarObject.ical_data obj = data ∧
    fields_of obj = EventTools.event_fields title start end_ ∧
    ∃ n, CalendarObject.etag obj = Events.etag_of_uuid (uuid_v4 n).
Proof.
  intros Hwf Hr Hfresh Ec Et Es Ee uid data.
  set (w2 := tick (tick w (store w)) (store w)).
  destruct (run_upsert_object Hnf w2 c uid data (EventTools.event_fields title start end_))
    as (obj & w' & Hrun & Hobj & Hdata & Hf & Hetag & _);
    [done..|intros n Hn; apply Hfresh; cbn in Hn; lia|].
  assert (Db.wf (db (store w'))) as Hwf'.
  { pose proof (safe_run (db_inv (λ _, Db.wf)) _ _ _ (keeps_upsert_object c uid data
      (EventTools.event_fields title start end_) (clock w2))) as Hk.
    rewrite Hrun in Hk. by apply Hk. }
  exists obj, w'. split_and!; [|exact Hobj|exact Hwf'|exact Hdata|exact Hf|by eexists].
  unfold EventTools.create_event. rewrite Ec, Et, Es, Ee, !run_required_some.
  rewrite run_bind. unfold Builder.generate_uid, new_v4, now_stamp.
  rewrite run_bind, run_observe, run_ret, run_bind, run_observe. cbn [clock store].
  rewrite run_try. erewrite run_with_err by exact Hrun. cbn [map_err]. rewrite run_ret.
  by destruct (stored_key _ _ _ _ _ Hobj Hwf') as [_ ->].
Qed.

(** What [get_event] answers about an object that is there. *)
Lemma run_get_event user args c uid obj w :
  Db.wf (db (store w)) → objects_of (db (store w)) !! (c, uid) = Some obj →
  Json.index_str "calendar_id" args = Some c → Json.index_str "event_uid" args = Some uid →
  (run (EventTools.get_event user args) w).1 =
    Ok (event_answer c uid (fields_of obj) (CalendarObject.etag obj)
          (CalendarObject.ical_data obj)).
Proof.
  intros Hwf Hobj Ec Eu. unfold EventTools.get_event. rewrite Ec, Eu, !run_required_some.
  rewrite run_try. erewrite run_with_err by by apply run_get_object.
  rewrite Hobj. cbn [map_err]. rewrite run_required_some, run_ret. cbn [fst].
  destruct (proj1 (lookup_objects_of _ _ _ Hwf) Hobj) as [_ Hk].
  unfold CalendarObject.key in Hk. injection Hk as Hc Hu. unfold event_answer.
  by rewrite Hu, Hc.
Qed.

(** An event that a tool created is there: [create_event] answers with a fresh UID
    and stores one new object in the calendar named, and [get_event] with that calendar
    and UID then gives, to any user, the title, the times and the iCalendar data that
    were stored, under the ETag that was returned. *)
Theorem create_event_then_get user args c title start end_ w :
  Db.wf (db (store w)) → log_ready c (db (store w)) →
  (∀ n, (clock w ≤ n)%N →
        uuid_v7 n ∉ CalendarObject.id <$> Db.calendar_objects (db (store w))) →
  Json.index_str "calendar_id" args = Some c → Json.index_str "title" args = Some title →
  Json.index_str "start" args = Some start → Json.index_str "end" args = Some end_ →
  let uid := uuid_v4 (clock w) +:+ "@caldav-server" in
  let data := Builder.build_vevent (utc_now (N.succ (clock w))) uid title start end_
                (Json.index_str "description" args) (Json.index_str "location" args)
                (Json.index_str "timezone" args) in
  ∃ etag obj w',
    run (EventTools.create_event user args) w =
      (Ok (JObject [("uid", JString uid); ("calendar_id", JString c); ("title", JString title);
                    ("start", JString start); ("end", JString end_);
                    ("etag", JString etag)]), w') ∧
    objects_of (db (store w')) = <[(c, uid) := obj]> (objects_of (db (store w))) ∧
    ∀ user' args', Json.index_str "calendar_id" args' = Some c →
      Json.index_str "event_uid" args' = Some uid →
      (run (EventTools.get_event user' args') w').1 =
        Ok (event_answer c uid (EventTools.event_fields title start end_) etag data).
Proof.
  intros Hwf Hr Hfresh Ec Et Es Ee uid data.
  destruct (run_create_event user args c title start end_ w)
    as (obj & w' & Hrun & Hobj & Hwf' & Hdata & Hf & _); [done..|].
  exists (CalendarObject.etag obj), obj, w'. split; [exact Hrun|]. split; [exact Hobj|].
  intros user' args' Ec' Eu'. rewrite (run_get_event user' args' c uid obj w'); try done.
  - by rewrite Hdata, Hf.
  - by rewrite Hobj, lookup_insert_eq.
Qed.

Lemma take_limit_take {A} limit (l : list A) :
  EventTools.take_limit limit l = take (N.to_nat limit) l.
Proof.
  unfold EventTools.take_limit. destruct (N.ltb_spec limit (N.of_nat (length l))); [done|].
  rewrite take_ge; [done|lia].
Qed.

(** One event of a listing. *)
Definition event_summary (o : CalendarObject.t) : json :=
  JObject [("uid", JString (CalendarObject.uid o));
           ("summary", Json.of_option (CalendarObject.summary o));
           ("dtstart", Json.of_option (CalendarObject.dtstart o));
           ("dtend", Json.of_option (CalendarObject.dtend o));
           ("etag", JString (CalendarObject.etag o))].

(** C40: [query_events] gives the first events, in the order of their start times and at
    most as many as the limit (50 by default), of those that overlap the range; a range of
    which one end is missing counts for none, and all events are listed.  It changes
    nothing. *)
Theorem query_events_correct user args c w :
  Db.wf (db (store w)) →
  Json.index_str "calendar_id" args = Some c →
  let limit := N.to_nat (default 50%N (Json.as_u64 (Json.index "limit" args))) in
  let r := run (EventTools.query_events user args) w in
  store r.2 = store w ∧
  ∃ os, NoDup os ∧ StronglySorted (key_le CalendarObject.dtstart) os ∧
    (∀ o, o ∈ os ↔ o ∈ Db.calendar_objects (db (store w)) ∧ CalendarObject.calendar_id o = c ∧
       match Json.index_str "start" args, Json.index_str "end" args with
       | Some start, Some end_ => overlaps start end_ o
       | _, _ => True
       end) ∧
    r.1 = Ok (JObject [("calendar_id", JString c);
                       ("count", Json.of_nat (limit `min` length os));
                       ("events", JArray (event_summary <$> take limit os))]).
Proof.
  intros Hwf Ec limit r. subst r. unfold EventTools.query_events.
  rewrite Ec, run_required_some.
  set (P := λ o, CalendarObject.calendar_id o = c ∧
    match Json.index_str "start" args, Json.index_str "end" args with
    | Some start, Some end_ => overlaps start end_ o
    | _, _ => True
    end).
  set (p := match Json.index_str "start" args, Json.index_str "end" args with
            | Some s, Some e => Events.list_objects_in_range c s e
            | _, _ => Events.list_objects c
            end).
  assert (answers P (run p w).1 w (run p w).2) as Ha.
  { subst P p. destruct (Json.index_str "start" args) as [s|], (Json.index_str "end" args) as [e|];
      [by apply (run_list_objects Hnf c s e)|..];
      destruct (run_list_objects Hnf c "" "" w Hwf) as [_ (Hs & os & Hr & Ho & ?)];
      (split; [exact Hs|exists os; split; [exact Hr|]; split; [|done]];
       intros o; rewrite Ho; naive_solver). }
  destruct Ha as (Hs & os & Hr & Ho & Hnd & Hso).
  rewrite run_try. unfold EventTools.query_objects. fold p.
  destruct (run p w) as [r w'] eqn:E. cbn [fst snd] in *. subst r.
  erewrite run_with_err by exact E. cbn [map_err]. rewrite run_ret.
  split; [exact Hs|]. exists os. split; [done|]. split; [done|]. split; [exact Ho|].
  cbn [fst]. rewrite !take_limit_take, length_fmap, length_take. done.
Qed.
End events.

(** ** On the simulated server *)

Module McpExamples.
Import Sim.

Definition token_row : McpToken.t :=
  McpToken.mk "k1" "bob-id" "argon2:mcp_r7" "laptop" now None.

Definition mcp_world : World Store :=
  mkWorld 100 (mkStore (Db.set_tokens (λ _, [token_row]) database) ∅).

Definition post (token method : string) : Request.t :=
  Request.mk "POST" [("authorization", Some ("Bearer " +:+ token))] (BodyBytes method).

Lemma serve_authenticates_witness :
  status_of (run (McpRouter.serve "full" (post "mcp_r8" "ping")) mcp_world).1 = Some 401%Z ∧
  status_of (run (McpRouter.serve "full" (post "mcp_r7" "ping")) mcp_world).1 = Some 200%Z.
Proof.
  split.
  - destruct (serve_authenticates "full" (post "mcp_r8" "ping") mcp_world)
      as [[Hs _]|(raw & u & k & w1 & Hb & Hk & _ & (_ & _ & Hv) & _)]; [exact Hs|].
    apply list_elem_of_singleton in Hk as ->. exfalso.
    vm_compute in Hb. injection Hb as <-. by vm_compute in Hv.
  - destruct (serve_authenticates "full" (post "mcp_r7" "ping") mcp_world)
      as [[Hs _]|(raw & u & k & w1 & _ & _ & _ & _ & _ & Hr)]; [by vm_compute in Hs|].
    by rewrite Hr.
Defined.

Lemma initialize_hides_session_witness :
  sessions (store (run (Transport.handle_post "full" "bob-id" (post "mcp_r7" "initialize"))
                     mcp_world).2) = {[ "v4-100" := "bob-id" ]} ∧
  response_header "mcp-session-id"
    (run (Transport.handle_post "full" "bob-id" (post "mcp_r7" "initialize")) mcp_world).1 = None.
Proof.
  destruct (initialize_hides_session "full" "bob-id" "initialize" (post "mcp_r7" "initialize")
    (JsonRpc.mkRequest "2.0" (Some (JNumber (PosInt 1))) "initialize" (JObject []))
    mcp_world eq_refl) as (Hs & Hh & _); [by vm_compute|done|done|done|by vm_compute|].
  split; [|exact Hh]. rewrite Hs. by apply (bool_decide_unpack _).
Defined.

Definition event_args : json :=
  JObject [("calendar_id", JString "cal"); ("title", JString "Lunch");
           ("start", JString "20260302T120000Z"); ("end", JString "20260302T130000Z")].

Lemma create_event_then_get_witness :
  ∃ etag data w',
    (run (EventTools.create_event "carol-id" event_args) world).2 = w' ∧
    (run (EventTools.get_event "bob-id"
       (JObject [("calendar_id", JString "cal");
                 ("event_uid", JString "v4-100@caldav-server")])) w').1 =
      Ok (event_answer "cal" "v4-100@caldav-server"
            (EventTools.event_fields "Lunch" "20260302T120000Z" "20260302T130000Z") etag data).
Proof.
  destruct (create_event_then_get nofault "carol-id" event_args "cal" "Lunch"
    "20260302T120000Z" "20260302T130000Z" world database_wf) as (etag & obj & w' & Hr & _ & Hg).
  - split; [by left|done].
  - intros n _. apply not_elem_of_cons. split; [done|apply not_elem_of_nil].
  - done.
  - done.
  - done.
  - done.
  - eexists etag, _, w'. split; [by rewrite Hr|].
    apply (Hg "bob-id" (JObject [("calendar_id", JString "cal");
                 ("event_uid", JString "v4-100@caldav-server")])); by vm_compute.
Defined.

Lemma query_events_correct_witness :
  (run (EventTools.query_events "bob-id"
     (JObject [("calendar_id", JString "cal"); ("limit", JNumber (PosInt 0))])) world).1 =
    Ok (JObject [("calendar_id", JString "cal"); ("count", JNumber (PosInt 0));
                 ("events", JArray [])]).
Proof.
  destruct (query_events_correct nofault "bob-id"
    (JObject [("calendar_id", JString "cal"); ("limit", JNumber (PosInt 0))]) "cal" world
    database_wf eq_refl) as (_ & os & _ & _ & _ & Hr). exact Hr.
Defined.
End McpExamples.
