(* ===== verification/ReportSpec.v ===== *)
(** * What REPORT promises

    Hrefs name their objects, a multiget answers for the objects it names, and a sync
    reports the changes since its token. *)
From Stdlib Require Import Ascii NArith ZArith.
From S2P Require Import Prelude RustStr Effects Models Db DbCalendars DbEvents Ical Http Xml.
From S2P Require Import Properties CaldavHandlers Sim Integrity EventsSpec CalendarsSpec.
From S2P Require Import QuerySpec.
From stdpp Require Import options.
Set Default Proof Using "Type*".

(** ** Hrefs *)

Lemma percent_decode_chars_plain n (l : list string) :
  length l ≤ n → Forall (λ c, Str.contains_char PERCENT c = false) l →
  Report.percent_decode_chars n l = String.concat "" l.
Proof.
  revert l. induction n as [|n IH]; intros [|c l] Hn Hl; try done; [simpl in Hn; lia|].
  apply Forall_cons in Hl as [Hc Hl]. cbn [Report.percent_decode_chars].
  rewrite decide_False by (intros ->; discriminate Hc).
  rewrite IH by (done || simpl in Hn; lia). by rewrite concat_cons.
Qed.

Lemma percent_decode_plain s :
  Str.contains_char PERCENT s = false → Report.percent_decode s = s.
Proof.
  intros Hs. unfold Report.percent_decode. rewrite percent_decode_chars_plain.
  - apply chars_concat.
  - apply length_chars.
  - rewrite <- (chars_concat s), contains_char_concat in Hs.
    apply Forall_forall. intros c Hc. apply not_true_iff_false. intros E.
    assert (existsb (Str.contains_char PERCENT) (Str.chars s) = true); [|congruence].
    apply existsb_exists. exists c. by rewrite <- list_elem_of_In.
Qed.

(** A UID that the server's hrefs carry as it is. *)
Definition href_uid (uid : string) : Prop :=
  Str.contains_char SLASH uid = false ∧ Str.contains_char PERCENT uid = false.

#[global] Instance href_uid_dec uid : Decision (href_uid uid).
Proof. unfold href_uid. apply _. Defined.

Lemma href_split ctx c uid :
  ∃ p, Properties.calendar_object_href_for_context ctx c uid = p +:+ String SLASH (uid +:+ ICS).
Proof.
  destruct ctx as [[email|] username]; unfold Properties.calendar_object_href_for_context,
    Properties.calendar_object_href; cbn [HrefContext.email HrefContext.username].
  - exists ("/calendar/dav/" +:+ (email +:+ ("/user/" +:+ c))). by rewrite !str_app_assoc.
  - exists ("/caldav/users/" +:+ (username +:+ ("/" +:+ c))). by rewrite !str_app_assoc.
Qed.

(** The hrefs that the server gives for objects name them again in a multiget: their
    UIDs come back in order, for UIDs without a slash or a percent sign. *)
Theorem uids_of_own_hrefs ctx c uids :
  Forall href_uid uids →
  Report.uids_of_hrefs (Properties.calendar_object_href_for_context ctx c <$> uids) = uids.
Proof.
  unfold Report.uids_of_hrefs. induction 1 as [|uid uids [Hs Hp] Hu IH]; [done|].
  rewrite fmap_cons. cbn [omap list_omap].
  destruct (href_split ctx c uid) as [p ->].
  rewrite rsplit_next_app by (by rewrite contains_char_app, Hs).
  rewrite strip_suffix_app. cbn [fmap option_fmap option_map].
  rewrite percent_decode_plain by done. by f_equal.
Qed.

(** ** Reports *)

Section reports.
Context `{SqliteLaws, Uuids, QuickXml}.
Context (Hnf : ∀ n, sql_fault n = None).

(** The document of a report that lists objects. *)
Definition objects_report (ctx : HrefContext.t) (c : string) (os : list CalendarObject.t) : Reply :=
  Propfind.multistatus_response
    (Multistatus.build (Report.add_objects ctx c true os Multistatus.new)).

(** An answer of a query reaches the handler. *)
Lemma run_answers P (p : M (AppResult (list CalendarObject.t))) w :
  answers P (run p w).1 w (run p w).2 →
  ∃ os w', run (unwrap_or [] p) w = (os, w') ∧ store w' = store w ∧
    (∀ o, o ∈ os ↔ o ∈ Db.calendar_objects (db (store w)) ∧ P o) ∧ NoDup os.
Proof.
  destruct (run p w) as [r w'] eqn:E. intros (Hs & os & Hr & Ho & Hnd & _). cbn in *. subst r.
  exists os, w'. split; [|done]. by erewrite run_unwrap_or by exact E.
Qed.

(** C34: A multiget answers with one response, with the data, for each object of the
    calendar whose UID one of the hrefs names, and nothing else; a calendar query with the
    objects that overlap its time range (all objects without one).  Neither changes
    anything. *)
Theorem report_objects_correct ctx c props hrefs time_range w :
  Db.wf (db (store w)) →
  let objects := Db.calendar_objects (db (store w)) in
  let rm := run (Report.handle_multiget ctx c props hrefs) w in
  let rq := run (Report.handle_query ctx c props time_range) w in
  (∃ os, rm.1 = objects_report ctx c os ∧ NoDup os ∧ store rm.2 = store w ∧
     ∀ o, o ∈ os ↔ o ∈ objects ∧ CalendarObject.calendar_id o = c ∧
                   CalendarObject.uid o ∈ Report.uids_of_hrefs hrefs) ∧
  (∃ os, rq.1 = objects_report ctx c os ∧ NoDup os ∧ store rq.2 = store w ∧
     ∀ o, o ∈ os ↔ o ∈ objects ∧ CalendarObject.calendar_id o = c ∧
                   match time_range with
                   | Some (start, end_) => overlaps start end_ o
                   | None => True
                   end).
Proof.
  intros Hwf objects rm rq. subst rm rq. split.
  - unfold Report.handle_multiget. rewrite run_bind.
    edestruct run_answers as (os & w' & -> & Hs & Ho & Hnd);
      [by apply run_get_objects_by_uids|].
    rewrite run_ret. by exists os.
  - unfold Report.handle_query. rewrite run_bind. destruct time_range as [[start end_]|].
    + destruct (run_list_objects Hnf c start end_ w Hwf) as [Hr _].
      edestruct run_answers as (os & w' & -> & Hs & Ho & Hnd); [exact Hr|].
      rewrite run_ret. by exists os.
    + destruct (run_list_objects Hnf c "" "" w Hwf) as [_ Hr].
      edestruct run_answers as (os & w' & -> & Hs & Ho & Hnd); [exact Hr|].
      rewrite run_ret. exists os. split; [done|]. split; [done|]. split; [done|].
      intros o. rewrite Ho. naive_solver.
Qed.

(** ** Sync *)

(** What a sync says about one change. *)
Definition change_ops (ctx : HrefContext.t) (c : string) (include_data : bool) (d : Db.t)
    (change : SyncChange.t) : list WriteOp :=
  let uid := SyncChange.object_uid change in
  let href := Properties.calendar_object_href_for_context ctx c uid in
  if decide (SyncChange.change_type change = "deleted") then Multistatus.response_ops href [] []
  else match objects_of d !! (c, uid) with
       | Some o =>
           Multistatus.response_ops href
             (Properties.calendar_object_props (HrefContext.username ctx) c o include_data) []
       | None => []
       end.

Lemma run_add_changes ctx c inc changes b w :
  Db.wf (db (store w)) →
  ∃ w', run (Report.add_changes ctx c inc changes b) w =
          (b ++ (changes ≫= change_ops ctx c inc (db (store w))), w') ∧ store w' = store w.
Proof.
  revert b w. induction changes as [|ch changes IH]; intros b w Hwf;
    cbn [Report.add_changes]; [rewrite run_ret; exists w; by rewrite app_nil_r|].
  rewrite bind_cons. unfold change_ops at 1. case_decide.
  - edestruct IH as (w' & -> & Hs); [done|]. exists w'. split; [|done].
    unfold Multistatus.add_response. by rewrite <- app_assoc.
  - rewrite run_bind, run_get_object by done.
    match goal with |- context [Report.add_changes ctx c inc changes ?b'] =>
      destruct (IH b' (tick w (store w))) as (w' & -> & Hs) end; [done|].
    exists w'. split; [|done]. cbn [tick store].
    destruct (objects_of _ !! _); [|done].
    unfold Multistatus.add_response. by rewrite <- app_assoc.
Qed.

(** The changes of a calendar since a token: those after the log entry with the token, or
    all of them if none has it. *)
Definition changes_since (c tok : string) (d : Db.t) (changes : list SyncChange.t) : Prop :=
  (∃ pre a, log_of c d = pre ++ a :: changes ∧ SyncChange.sync_token a = tok ∧
     ∀ e, e ∈ log_of c d → SyncChange.sync_token e = tok → e = a) ∨
  (tok ∉ SyncChange.sync_token <$> log_of c d ∧ changes = log_of c d).

Definition wants_data (props : list PropRequest.t) : bool :=
  existsb (λ p, bool_decide (PropRequest.local_name p = "calendar-data")) props.

(** The document of a sync: what [ops] says, then the calendar's current token. *)
Definition sync_report (cal : Calendar.t) (b : Multistatus.t) : Reply :=
  Propfind.multistatus_response (Multistatus.build
    (Multistatus.add_sync_token (Properties.ensure_sync_token_uri (Calendar.sync_token cal)) b)).

(** A sync, run to its end. *)
Lemma run_handle_sync ctx c props tok w :
  Db.wf (db (store w)) →
  let d := db (store w) in
  let r := run (Report.handle_sync ctx c props tok) w in
  let inc := wants_data props in
  (c ∉ Db.calendar_ids d → r.1 = text 404 "Calendar not found" ∧ store r.2 = store w) ∧
  (∀ cal, cal ∈ Db.calendars d → Calendar.id cal = c →
     (tok = "" →
        store r.2 = store w ∧
        ∃ os, r.1 = sync_report cal (Report.add_objects ctx c inc os Multistatus.new) ∧
          NoDup os ∧
          ∀ o, o ∈ os ↔ o ∈ Db.calendar_objects d ∧ CalendarObject.calendar_id o = c) ∧
     (∀ changes, tok ≠ "" → changes_since c tok d changes →
        store r.2 = store w ∧
        r.1 = sync_report cal (Multistatus.new ++ (changes ≫= change_ops ctx c inc d)))).
Proof.
  intros Hwf d r inc. subst r. unfold Report.handle_sync. rewrite run_bind.
  fold (wants_data props). fold inc.
  split; [|intros cal Hcal <-; split].
  - intros Hni. by rewrite run_get_calendar, head_filter_absent by done.
  - intros ->. rewrite run_get_calendar_some by done. cbn [Str.is_empty].
    rewrite run_bind, run_bind.
    destruct (run_list_objects Hnf (Calendar.id cal) "" "" (tick w (store w)) Hwf) as [_ Hr].
    edestruct run_answers as (os & w' & -> & Hs & Ho & Hnd); [exact Hr|].
    rewrite !run_ret. split; [exact Hs|]. by exists os.
  - intros changes Hne Hch. rewrite run_get_calendar_some by done.
    assert (Str.is_empty tok = false) as -> by (by destruct tok).
    rewrite run_bind, run_bind.
    assert (∃ w', run (unwrap_or [] (Events.get_sync_changes_since (Calendar.id cal) tok))
                    (tick w (store w)) = (changes, w') ∧ store w' = store w)
      as (w' & -> & Hs).
    { destruct Hch as [(pre & a & E & <- & Hu)|[Hni ->]].
      - destruct (run_sync_logged Hnf (tick w (store w)) (Calendar.id cal) pre a changes)
          as (w' & E' & Hs); [done..|].
        exists w'. split; [by erewrite run_unwrap_or by exact E'|exact Hs].
      - destruct (run_sync_unknown (tick w (store w)) (Calendar.id cal) tok)
          as (w' & E' & Hs); [done..|].
        exists w'. split; [by erewrite run_unwrap_or by exact E'|exact Hs]. }
    cbn beta iota.
    destruct (run_add_changes ctx (Calendar.id cal) inc changes Multistatus.new w')
      as (w2 & -> & Hs2); [by rewrite Hs|].
    rewrite run_ret. split; [by cbn; rewrite Hs2|]. cbn [fst]. by rewrite Hs.
Qed.
(** C20: A sync of a calendar that is not there is answered 404.  An initial sync (an empty
    token) lists every object of the calendar.  A later one says, for each change since
    the token in the order of the log, that the object is gone (a response with the href
    only), or what it is now, or nothing if it has been deleted since.  Both end with the
    calendar's current token, and nothing changes. *)
Theorem handle_sync_correct ctx c props tok w :
  Db.wf (db (store w)) →
  let d := db (store w) in
  let r := run (Report.handle_sync ctx c props tok) w in
  let inc := wants_data props in
  (c ∉ Db.calendar_ids d → r.1 = text 404 "Calendar not found" ∧ store r.2 = store w) ∧
  (∀ cal, cal ∈ Db.calendars d → Calendar.id cal = c →
     (tok = "" →
        store r.2 = store w ∧
        ∃ os, r.1 = sync_report cal (Report.add_objects ctx c inc os Multistatus.new) ∧
          NoDup os ∧
          ∀ o, o ∈ os ↔ o ∈ Db.calendar_objects d ∧ CalendarObject.calendar_id o = c) ∧
     (∀ changes, tok ≠ "" → changes_since c tok d changes →
        store r.2 = store w ∧
        r.1 = sync_report cal (Multistatus.new ++ (changes ≫= change_ops ctx c inc d)))).
Proof. apply run_handle_sync. Qed.
End reports.

(** ** On the simulated server *)

Module ReportExamples.
Import Sim.

Definition ctx : HrefContext.t := HrefContext.mk None "alice".

Lemma uids_of_own_hrefs_witness :
  Report.uids_of_hrefs ["/caldav/users/alice/cal/meeting.ics"; "/caldav/users/alice/cal/a b.ics"] =
    ["meeting"; "a b"].
Proof.
  apply (uids_of_own_hrefs ctx "cal" ["meeting"; "a b"]).
  repeat constructor.
Defined.

Lemma report_objects_correct_witness :
  ∃ os, (run (Report.handle_multiget ctx "cal" []
                ["/caldav/users/alice/cal/meeting.ics"; "/elsewhere/gone.ics"]) world).1 =
          objects_report ctx "cal" os ∧ meeting ∈ os ∧ NoDup os.
Proof.
  destruct (report_objects_correct nofault ctx "cal" []
    ["/caldav/users/alice/cal/meeting.ics"; "/elsewhere/gone.ics"] None world database_wf)
    as [(os & Hr & Hnd & _ & Ho) _].
  exists os. split; [exact Hr|]. split; [|exact Hnd]. apply Ho.
  split; [by left|]. split; [done|]. by vm_compute; left.
Defined.

(** The deletion of another object came after the meeting. *)
Definition synced : World Store :=
  mkWorld 100 (mkStore (Db.set_seq 2 (Db.set_changes
    (λ l, l ++ [SyncChange.mk 2 "cal" "lunch" "deleted" "data:,sync-2" now]) database)) ∅).

Lemma synced_wf : Db.wf (db (store synced)).
Proof. solve_wf. Qed.

Lemma handle_sync_correct_witness :
  (run (Report.handle_sync ctx "cal" [] "data:,sync-1") synced).1 =
    sync_report work (Multistatus.new ++
      Multistatus.response_ops "/caldav/users/alice/cal/lunch.ics" [] []).
Proof.
  destruct (handle_sync_correct nofault ctx "cal" [] "data:,sync-1" synced synced_wf) as [_ Hc].
  destruct (Hc work) as [_ Hd]; [by left|done|].
  destruct (Hd [SyncChange.mk 2 "cal" "lunch" "deleted" "data:,sync-2" now]) as [_ Hr]; [done| |exact Hr].
  left. exists [], (SyncChange.mk 1 "cal" "meeting" "created" "data:,sync-1" now).
  split; [done|]. split; [done|]. intros e He Ht.
  apply elem_of_cons in He as [->|He]; [done|].
  by apply list_elem_of_singleton in He as ->.
Defined.

(** A percent sign and two characters that are no hexadecimal number are dropped, a sign is
    read as a digit, and the two bytes of an escaped letter become two letters. *)
Example percent_decode_misreads :
  Report.percent_decode "100%zz" = "100%" ∧
  Report.percent_decode "%+5" = String (Ascii.ascii_of_nat 5) "" ∧
  Report.percent_decode "caf%C3%A9" = "cafÃ©".
Proof. by vm_compute. Qed.

(** A report above the limit is sent with its status and no body. *)
Lemma large_report_is_empty limit status headers body :
  (limit < Z.of_nat (String.length body))%Z →
  rebuffer limit (Respond (Response.mk status headers body)) =
    Respond (Response.mk status headers "").
Proof.
  intros Hl. unfold rebuffer, to_bytes_or_empty, to_bytes. cbn.
  by rewrite (proj2 (Z.leb_gt _ _) Hl).
Qed.
End ReportExamples.
