(* ===== verification/PropfindSpec.v ===== *)
(** * What PROPFIND promises

    The resources that a PROPFIND of a calendar, a calendar home or an email discovery
    path answers for, by its Depth, each with the properties that the request asks for;
    and who the email discovery path answers. *)
From Stdlib Require Import NArith ZArith.
From S2P Require Import Prelude RustStr Effects Models Db DbUsers DbCalendars DbEvents Http.
From S2P Require Import Xml.
From S2P Require Import Properties CaldavHandlers CaldavRouter Sim Integrity EventsSpec.
From S2P Require Import CalendarsSpec AccountsSpec QuerySpec ReportSpec.
From stdpp Require Import options.
Set Default Proof Using "Type*".

(** One response: what the request asks for, found and missing. *)
Definition resource_ops (propfind : PropfindRequest) (href : string)
    (props : list PropValue.t) : list WriteOp :=
  let '(found, missing) := Properties.filter_props propfind props in
  Multistatus.response_ops href found missing.

Lemma add_filtered_ops {A} propfind (href : A → string) props (items : list A) b :
  Propfind.add_filtered propfind href props items b =
    b ++ (items ≫= λ x, resource_ops propfind (href x) (props x)).
Proof.
  revert b. induction items as [|x items IH]; intros b; [by rewrite app_nil_r|].
  unfold Propfind.add_filtered in *. cbn [foldl]. rewrite bind_cons. unfold resource_ops at 1.
  destruct (Properties.filter_props propfind (props x)). rewrite IH, app_assoc. done.
Qed.

(** The document with these responses. *)
Definition document `{QuickXml} (ops : list WriteOp) : Reply :=
  Propfind.multistatus_response (Multistatus.build (Multistatus.new ++ ops)).

(** The properties that a request's body asks for. *)
Definition asked `{QuickXml} (request : Request.t) : PropfindRequest :=
  Parse.parse_propfind (to_bytes_or_empty (64 * 1024) (Request.body request)).

Definition deep (request : Request.t) : bool := (1 <=? Propfind.get_depth request)%N.

Lemma bind_ext_in {A B} (f g : A → list B) (l : list A) :
  (∀ x, x ∈ l → f x = g x) → l ≫= f = l ≫= g.
Proof.
  intros Hfg. induction l as [|x l IH]; [done|]. rewrite !bind_cons, Hfg by set_solver.
  f_equal. apply IH. set_solver.
Qed.

Section propfind.
Context `{SqliteLaws, Uuids, QuickXml, Argon2, Base64}.
Context (Hnf : ∀ n, sql_fault n = None).

(** The responses of a calendar and its objects. *)
Definition calendar_ops (ctx : HrefContext.t) (request : Request.t) (cal : Calendar.t) :
    list WriteOp :=
  resource_ops (asked request) (Properties.calendar_href_for_context ctx (Calendar.id cal))
    (Properties.calendar_props_for_context ctx cal).
Definition object_ops (ctx : HrefContext.t) (user : User.t) (request : Request.t)
    (o : CalendarObject.t) : list WriteOp :=
  let c := CalendarObject.calendar_id o in
  resource_ops (asked request)
    (Properties.calendar_object_href_for_context ctx c (CalendarObject.uid o))
    (Properties.calendar_object_props (User.username user) c o false).


(** The calendars a Depth 1 request lists for a user. *)
Definition listed (user_id : string) (request : Request.t) (d : Db.t)
    (cals : list Calendar.t) : Prop :=
  NoDup cals ∧ StronglySorted (key_le (λ c, Some (Calendar.name c))) cals ∧
  ∀ c, c ∈ cals ↔ deep request = true ∧ accessible user_id d c.

(** The listing of a home, as both kinds of homes run it. *)
Lemma run_home user_id request pf href props b w :
  ∃ cals w', store w' = store w ∧ listed user_id request (db (store w)) cals ∧
    run (if deep request then
           cals ← unwrap_or [] (Calendars.list_calendars_for_user user_id);
           mret (Propfind.add_filtered pf href props cals b)
         else mret b) w =
      (b ++ (cals ≫= λ c, resource_ops pf (href c) (props c)), w').
Proof.
  destruct (run_calendars_of Hnf user_id w) as (cals & w1 & E & Hs & Hin & Hnd & Hso).
  unfold listed. destruct (deep request).
  - exists cals, w1. split; [done|]. split.
    { split; [done|]. split; [done|]. intros c. rewrite Hin. tauto. }
    rewrite run_bind. erewrite run_unwrap_or by exact E. by rewrite run_ret, add_filtered_ops.
  - exists [], w. split; [done|]. split; [|by rewrite run_ret, app_nil_r].
    split; [constructor|]. split; [constructor|]. intros c. split; [by intros ?%elem_of_nil|].
    by intros [? _].
Qed.

(** C33: PROPFIND of a calendar home: one response for the home and, with Depth 1, one for
    each calendar the user owns or has a share of, in the order of their names, each
    with exactly the properties asked for; nothing changes. *)
Theorem propfind_home_correct user request w :
  let r := run (Propfind.handle_calendar_home user request) w in
  let name := User.username user in
  store r.2 = store w ∧
  ∃ cals, listed (User.id user) request (db (store w)) cals ∧
    r.1 = document
      (resource_ops (asked request) ("/caldav/users/" +:+ name +:+ "/")
         (Properties.calendar_home_props name) ++
       (cals ≫= λ c, resource_ops (asked request) (Properties.calendar_href name (Calendar.id c))
                       (Properties.calendar_props name c))).
Proof.
  intros r name. subst r. unfold Propfind.handle_calendar_home.
  fold (asked request) (deep request). rewrite run_bind.
  edestruct run_home as (cals & w1 & Hs & Hl & ->). rewrite run_ret.
  split; [exact Hs|]. exists cals. split; [exact Hl|]. cbn [fst]. unfold document.
  rewrite add_filtered_ops. cbn [mbind list_bind]. by rewrite app_nil_r, <- app_assoc.
Qed.

Lemma run_email_home user path request email w :
  let ctx := HrefContext.mk (Some (Propfind.encode_email_for_path email)) (User.username user) in
  let r := run (Propfind.handle_email_home user path (Propfind.get_depth request) email
                  (asked request)) w in
  store r.2 = store w ∧
  ∃ cals, listed (User.id user) request (db (store w)) cals ∧
    r.1 = document
      (resource_ops (asked request) path
         (Properties.email_home_props (User.username user) email path) ++
       (cals ≫= λ c, resource_ops (asked request)
                       (Properties.calendar_href_for_context ctx (Calendar.id c))
                       (Properties.calendar_props_for_context ctx c))).
Proof.
  intros ctx r. subst r. unfold Propfind.handle_email_home. fold (deep request) ctx.
  rewrite run_bind. edestruct run_home as (cals & w1 & Hs & Hl & ->). rewrite run_ret.
  split; [exact Hs|]. exists cals. split; [exact Hl|]. cbn [fst]. unfold document.
  rewrite add_filtered_ops. cbn [mbind list_bind]. by rewrite app_nil_r, <- app_assoc.
Qed.

(** What the email discovery path tells without any credentials: for an email that no
    account has, a 401; for one that an account has, the document of its home (cut to
    nothing above 512 KiB), with Depth 1 including every calendar of that account. *)
Theorem email_discovery_discloses email request w :
  Request.method request = "PROPFIND" → Router.extract_auth_header request = None →
  let owners := bfilter (λ u, bool_decide (User.email u = Some email)) (Db.users (db (store w))) in
  let r := run (Router.handle_caldav_email_discovery email request) w in
  store r.2 = store w ∧
  match owners with
  | [] => r.1 = Auth.unauthorized_response_fn
  | _ =>
      ∃ u cals, u ∈ owners ∧ listed (User.id u) request (db (store w)) cals ∧
        let encoded := Propfind.encode_email_for_path email in
        let path := "/calendar/dav/" +:+ encoded +:+ "/user/" in
        let ctx := HrefContext.mk (Some encoded) (User.username u) in
        r.1 = rebuffer (512 * 1024) (document
          (resource_ops (asked request) path
             (Properties.email_home_props (User.username u) email path) ++
           (cals ≫= λ c, resource_ops (asked request)
                           (Properties.calendar_href_for_context ctx (Calendar.id c))
                           (Properties.calendar_props_for_context ctx c))))
  end.
Proof.
  intros Hm Ha owners r. subst r. unfold Router.handle_caldav_email_discovery.
  rewrite Hm, Ha. rewrite decide_False, decide_True by done. fold (asked request).
  rewrite run_bind, run_get_user_by_email by done. fold owners.
  destruct (head (sql_scan (clock w) owners)) as [u|] eqn:E.
  - apply head_scan in E. rewrite run_bind.
    match goal with |- context [Propfind.handle_email_home u ?p _ _ _] =>
      destruct (run_email_home u p request email (tick w (store w))) as (Hs & cals & Hl & Hr) end.
    destruct (run (Propfind.handle_email_home _ _ _ _ _) _) as [resp w1]. cbn [fst snd] in *.
    rewrite run_ret. split; [exact Hs|]. destruct owners; [by apply elem_of_nil in E|].
    exists u, cals. split; [done|]. split; [done|]. cbn [fst]. by rewrite Hr.
  - apply head_scan_None in E as ->. by rewrite run_ret.
Qed.
End propfind.

(** ** On the simulated server *)

Module PropfindExamples.
Import Sim.

Definition propfind (depth : string) : Request.t :=
  Request.mk "PROPFIND" [("depth", Some depth)] (BodyBytes "prop").


Lemma propfind_home_correct_witness :
  (run (Propfind.handle_calendar_home carol (propfind "0")) world).1 =
    document (resource_ops (asked (propfind "0")) "/caldav/users/carol/"
                (Properties.calendar_home_props "carol")).
Proof.
  destruct (propfind_home_correct nofault carol (propfind "0") world) as (_ & cals & Hl & ->).
  destruct cals as [|c cals]; [by rewrite app_nil_r|].
  destruct Hl as (_ & _ & Hl). by destruct (proj1 (Hl c)) as [? _]; [left|].
Defined.

Lemma email_discovery_discloses_witness :
  (run (Router.handle_caldav_email_discovery "b@x.org" (propfind "1")) world).1 =
    Auth.unauthorized_response_fn.
Proof.
  destruct (email_discovery_discloses nofault "b@x.org" (propfind "1") world eq_refl eq_refl)
    as [_ Hr]. exact Hr.
Defined.

(** A request above the limit, or that cannot be read, asks for all properties. *)
Lemma large_propfind_is_allprop limit b :
  to_bytes limit b = None → Parse.parse_propfind (to_bytes_or_empty limit b) = AllProp.
Proof. intros Hb. unfold to_bytes_or_empty. by rewrite Hb. Qed.
End PropfindExamples.
