(* ===== verification/ReadOnly.v ===== *)
(** * The methods that change nothing *)
From Stdlib Require Import NArith ZArith.
From S2P Require Import Prelude RustStr Effects Models Db DbUsers DbCalendars DbEvents.
From S2P Require Import DbShares.
From S2P Require Import DbTokens Ical Http Xml Properties CaldavHandlers CaldavRouter.
From S2P Require Import Cli Closure Layer Sim.
From stdpp Require Import options.
Set Default Proof Using "Type*".

Section reads.
Context `{Sqlite, Argon2}.

Lemma reads_execute {R} (stmt : Stmt R) : query stmt → reads (execute stmt).
Proof.
  intros Hq n σ. split; [|done]. destruct (sql_fault n); [done|].
  specialize (Hq n (db σ)). destruct (stmt n (db σ)) as [r d]. simpl in *. subst d.
  apply with_db_id.
Qed.

#[export] Instance reads_query_closed : QueryClosed (λ A, @reads Store A).
Proof.
  split; [split|]; unfold holds; intros; [done|by apply reads_bind|done|by apply reads_execute].
Qed.

Lemma reads_read_closed : ReadClosed (λ A, @reads Store A).
Proof. apply _. Qed.
End reads.

#[export] Hint Resolve reads_read_closed : closure.

Section safe_methods.
Context `{Sqlite, Uuids, Argon2, Base64, QuickXml}.

(** The methods that may change something. *)
Definition changing : list string := ["PUT"; "DELETE"; "PROPPATCH"; "MKCALENDAR"].

Lemma reads_collection_method u x n c r :
  Request.method r ∉ changing → reads (Router.collection_method u x n c r).
Proof using All.
  intros Hm. unfold Router.collection_method.
  case_decide; [exact (closed_propfind_calendar (J := λ A, @reads Store A) u x c r)|].
  case_decide; [exact (closed_handle_report (J := λ A, @reads Store A) u x c r)|].
  by do 3 (case_decide; [exfalso; apply Hm; unfold changing; set_solver|]).
Qed.

Lemma reads_object_method c f r :
  Request.method r ∉ changing → reads (Router.object_method c f r).
Proof using All.
  intros Hm. unfold Router.object_method.
  case_decide; [exact (closed_handle_get (J := λ A, @reads Store A) c f)|].
  by do 2 (case_decide; [exfalso; apply Hm; unfold changing; set_solver|]).
Qed.

(** C21: A CalDAV request with any method but PUT, DELETE, PROPPATCH and MKCALENDAR
    changes nothing, on any route: no step of its handler changes the database or the
    sessions, whatever runs between its steps and whichever statements fail. *)
Theorem safe_methods_change_nothing e captures request p :
  Request.method request ∉ changing →
  Router.call e captures request = Some p → reads p.
Proof.
  intros Hm E.
  assert (holds (λ A, @reads Store A) p); [|done].
  unfold Router.call, Router.handle_email_calendar_collection, Router.handle_email_object,
    Router.handle_calendar_home, Router.handle_calendar_collection, Router.handle_object in E.
  repeat case_match; simplify_eq; closed_tac.
  all: apply closed_with_user; [closed_tac|intros u].
  all: try (apply closed_with_collection_access; by apply reads_collection_method).
  all: try (apply closed_with_object_access; by apply reads_object_method).
  all: closed_tac.
Qed.
End safe_methods.

Module ReadOnlyExamples.
Import Sim.

Definition get_meeting : Request.t := Request.mk "GET" [] (BodyBytes "").

Lemma safe_methods_change_nothing_witness :
  reads (Router.handle_object "alice" "cal" "meeting.ics" get_meeting).
Proof.
  apply (safe_methods_change_nothing Router.ObjectEndpoint ["alice"; "cal"; "meeting.ics"]
           get_meeting); [|reflexivity].
  vm_compute. set_solver.
Defined.
End ReadOnlyExamples.
