(* ===== verification/Ownership.v ===== *)
(** * Programs that own what they draw

    An identifier that a program has drawn and not stored yet is the program's own: no
    other program can store it.  [owned] is safety for an invariant that speaks of the
    identifiers held; a step may rely on the invariant with what all other programs hold
    (the frame) and must give it back with the same frame.  So what is proved of each
    program holds in every interleaving.  [SyncTokens] and [ETags] are the two uses. *)
From Stdlib Require Import NArith ZArith.
From S2P Require Import Prelude RustStr Effects Models Db DbUsers DbCalendars DbEvents.
From S2P Require Import DbShares DbTokens Cli Closure Layer ReadOnly.
From stdpp Require Import relations.
From stdpp Require Import options.
Set Default Proof Using "Type*".

(** An invariant of the step number, the identifiers held and the state (a family of them,
    for facts about the past): identifiers may be given up, and steps pass. *)
Class Holding {Ix S} (I : Ix → N → list string → S → Prop) : Prop :=
  holding_mono : ∀ x n n' held held' σ,
    I x n held σ → (n ≤ n')%N → held' ⊆+ held → I x n' held' σ.

Lemma submseteq_NoDup {A} (l k : list A) : l ⊆+ k → NoDup k → NoDup l.
Proof. intros [k' ->]%submseteq_Permutation [? _]%NoDup_app. done. Qed.

Section owned.
Context {Ix S : Type} (I : Ix → N → list string → S → Prop).

(** [p], holding [held], keeps the invariants in any frame; it ends holding something
    that [Q] accepts. *)
Fixpoint owned {A} (Q : list string → Prop) (held : list string) (p : prog S A) : Prop :=
  match p with
  | Ret _ => Q held
  | Step s k =>
      ∀ n σ, ∃ held',
        (∀ x frame, I x n (held ++ frame) σ → I x (N.succ n) (held' ++ frame) (s n σ).2) ∧
        owned Q held' (k (s n σ).1)
  end.

(** It ends holding at least [held']. *)
Definition triple (held : list string) {A} (p : prog S A) (held' : list string) : Prop :=
  owned (λ h, held' ⊆+ h) held p.

Lemma triple_ret {A} held (a : A) : triple held (mret a) held.
Proof. change (held ⊆+ held). reflexivity. Qed.

(** One action. *)
Lemma triple_atomic {R} held held' (s : N → S → R * S) :
  (∀ x n σ frame, I x n (held ++ frame) σ → I x (N.succ n) (held' ++ frame) (s n σ).2) →
  triple held (atomic s) held'.
Proof. intros Hs n σ. exists held'. split; [intros x frame; apply Hs|]. change (held' ⊆+ held'). reflexivity. Qed.

(** An identifier drawn is held. *)
Lemma triple_draw {R B} held held' (g : N → R) (name : R → string) (f : R → prog S B) :
  (∀ x n σ held, I x n held σ → I x (N.succ n) (name (g n) :: held) σ) →
  (∀ r, triple (name r :: held) (f r) held') →
  triple held (observe (λ n _, g n) ≫= f) held'.
Proof.
  intros Hg Hf n σ. exists (name (g n) :: held). split; [intros x frame; apply Hg|]. apply Hf.
Qed.

Context `{!Holding I}.

Lemma owned_weaken {A} (Q : list string → Prop) held held' (p : prog S A) :
  (∀ h h', h ⊆+ h' → Q h → Q h') → held ⊆+ held' → owned Q held p → owned Q held' p.
Proof.
  intros HQ Hh. destruct p as [a|R s k]; simpl; [by eapply HQ|].
  intros Hp n σ. destruct (Hp n σ) as (h & Hh' & Hk). exists h. split; [|done].
  intros x frame HI. apply Hh'. eapply holding_mono; [exact HI|lia|by apply submseteq_skips_r].
Qed.

Lemma triple_forget {A} held mid held' (p : prog S A) :
  triple mid p held' → mid ⊆+ held → triple held p held'.
Proof. intros Hp Hs. eapply owned_weaken; [|exact Hs|exact Hp]. intros. by etransitivity. Qed.

Lemma triple_bind {A B} held mid held' (p : prog S A) (f : A → prog S B) :
  triple held p mid → (∀ a, triple mid (f a) held') → triple held (p ≫= f) held'.
Proof.
  intros Hp Hf. unfold triple in *. revert held Hp.
  induction p as [a|R s k IH]; intros held Hp; simpl in *.
  - eapply triple_forget; [apply Hf|exact Hp].
  - intros n σ. destruct (Hp n σ) as (h & HI & Hk). exists h. split; [exact HI|]. by apply IH.
Qed.

Lemma triple_try {A B E} held mid held' (p : prog S (Result A E)) (f : A → prog S (Result B E)) :
  triple held p mid → (∀ a, triple mid (f a) held') → held' ⊆+ mid →
  triple held (try_bind p f) held'.
Proof.
  intros Hp Hf Hs. eapply triple_bind; [exact Hp|]. intros [a|e]; [apply Hf|].
  eapply triple_forget; [apply triple_ret|done].
Qed.

Lemma triple_with_err {A E F} (f : E → F) held held' (p : prog S (Result A E)) :
  triple held p held' → triple held (with_err f p) held'.
Proof. intros Hp. eapply triple_bind; [exact Hp|]. intros. apply triple_ret. Qed.

(** A program that only reads. *)
Lemma triple_reads {A} held (p : prog S A) : reads p → triple held p held.
Proof.
  unfold triple. induction p as [a|R s k IH]; intros Hr; simpl in *; [reflexivity|].
  intros n σ. destruct (Hr n σ) as [-> Hk]. exists held. split; [|by apply IH].
  intros x frame HI. eapply holding_mono; [exact HI|lia|done].
Qed.

Lemma triple_observe {R} held (f : N → S → R) : triple held (observe f) held.
Proof. by apply triple_reads. Qed.

(** Run alone. *)
Lemma owned_run {A} (Q : list string → Prop) held (p : prog S A) w :
  owned Q held p →
  ∃ held', Q held' ∧
    ∀ x, I x (clock w) held (store w) → I x (clock (run p w).2) held' (store (run p w).2).
Proof.
  revert held w. induction p as [a|R s k IH]; intros held w Hp; [by exists held|].
  unfold run in *. simpl in *.
  destruct (Hp (clock w) (store w)) as (h & HI & Hk).
  specialize (IH (s (clock w) (store w)).1 h
                (mkWorld (N.succ (clock w)) (s (clock w) (store w)).2) Hk).
  destruct (s (clock w) (store w)) as [r σ]. destruct IH as (h' & HQ & HI').
  exists h'. split; [done|]. intros x Hx. apply HI'. specialize (HI x []).
  rewrite !app_nil_r in HI. by apply HI.
Qed.

Lemma triple_run {A} held held' (p : prog S A) w x :
  triple held p held' → I x (clock w) held (store w) →
  I x (clock (run p w).2) held' (store (run p w).2).
Proof.
  intros Hp HI. destruct (owned_run _ _ _ w Hp) as (h & Hs & HI').
  eapply holding_mono; [by apply HI'|lia|done].
Qed.

(** *** Interleavings *)

(** Running programs and what each of them holds. *)
Definition pool_owned {A} (hs : list (list string)) (ps : list (prog S A)) : Prop :=
  Forall2 (λ h p, owned (λ _, True) h p) hs ps.

(** What one program holds, and the rest. *)
Lemma concat_insert (hs : list (list string)) i h :
  hs !! i = Some h →
  ∃ frame, concat hs ≡ₚ h ++ frame ∧ ∀ h', concat (<[i := h']> hs) ≡ₚ h' ++ frame.
Proof.
  revert i. induction hs as [|g hs IH]; intros [|i] Hi; simplify_eq/=.
  - by exists (concat hs).
  - destruct (IH i Hi) as (frame & E & E'). exists (g ++ frame).
    split; [|intros h'; specialize (E' h')]; [rewrite E|rewrite E'];
      by rewrite !(assoc_L (++)), (comm (++) g).
Qed.

Lemma pool_step {A} hs (ps : list (prog S A)) w i p p' w' :
  pool_owned hs ps → ps !! i = Some p → advance p w = Some (p', w') →
  ∃ hs', pool_owned hs' (<[i := p']> ps) ∧
    ∀ x, I x (clock w) (concat hs) (store w) → I x (clock w') (concat hs') (store w').
Proof.
  intros Hps Hi Ha. destruct p as [a|R s k]; [done|]. simpl in Ha.
  destruct (Forall2_lookup_r _ _ _ _ _ Hps Hi) as (h & Hh & Hp).
  destruct (concat_insert hs i h Hh) as (frame & E & E').
  destruct (Hp (clock w) (store w)) as (h' & HI & Hk).
  destruct (s (clock w) (store w)) as [r σ]. simplify_eq. cbn [clock store fst snd] in *.
  exists (<[i := h']> hs). split; [by apply Forall2_insert|].
  intros x Hx. eapply holding_mono; [apply (HI x frame)|lia|by rewrite E'].
  eapply holding_mono; [exact Hx|lia|by rewrite E].
Qed.

(** Every interleaving of programs that own what they draw keeps the invariants. *)
Lemma interleaving_owned {A} (starts : prog S A → Prop) hs ps ps' w w' :
  (∀ p, starts p → triple [] p []) →
  pool_owned hs ps → rtc (sched starts) (ps, w) (ps', w') →
  ∃ hs', pool_owned hs' ps' ∧
    ∀ x, I x (clock w) (concat hs) (store w) → I x (clock w') (concat hs') (store w').
Proof.
  intros Hst Hps Hr. remember (ps, w) as c eqn:Ec. remember (ps', w') as c' eqn:Ec'.
  revert hs ps w Ec Hps. induction Hr as [c|c1 c2 c3 Hs Hr IH]; intros hs ps w -> Hps; simplify_eq.
  { by exists hs. }
  inversion Hs as [p ? ? Hp|i p p' ? ? w1 Hi Ha]; simplify_eq.
  - destruct (IH eq_refl (hs ++ [[]]) _ _ eq_refl) as (hs' & Hps' & HI).
    + apply Forall2_app; [done|]. constructor; [|done]. specialize (Hst p Hp).
      unfold triple in Hst. clear -Hst. revert Hst. generalize (@nil string) at 2 3.
      induction p as [a|R s k IH]; [done|]. intros h Hp n σ.
      destruct (Hp n σ) as (h' & HI & Hk). exists h'. split; [done|]. by apply IH.
    + exists hs'. split; [done|]. rewrite concat_app in HI. cbn [concat] in HI.
      by rewrite !app_nil_r in HI.
  - destruct (pool_step hs ps w i p p' w1 Hps Hi Ha) as (h1 & Hps1 & HI1).
    destruct (IH eq_refl h1 _ _ eq_refl Hps1) as (hs' & Hps' & HI).
    exists hs'. split; [done|]. intros x Hx. by apply HI, HI1.
Qed.
End owned.

(** ** Statements of the data-access layer *)

Section statements.
Context `{Sqlite} {Ix : Type} (P : Ix → N → list string → Db.t → Prop) `{!Holding P}.

Definition held_db (x : Ix) (n : N) (held : list string) (σ : Store) : Prop :=
  P x n held (db σ).

#[export] Instance held_db_holding : Holding held_db.
Proof. intros x n n' held held' σ. apply (holding_mono (I := P)). Qed.

(** A statement that takes what it stores. *)
Lemma triple_execute {R} held held' (stmt : Stmt R) :
  (∀ x n d frame, P x n (held ++ frame) d → P x (N.succ n) (held' ++ frame) (stmt n d).2) →
  held' ⊆+ held → triple held_db held (execute stmt) held'.
Proof.
  intros Hs He. apply triple_atomic. intros x n σ frame HI.
  unfold held_db in *. destruct (sql_fault n) as [e|].
  - eapply (holding_mono (I := P)); [exact HI|lia|by apply submseteq_skips_r].
  - specialize (Hs x n (db σ) frame HI). by destruct (stmt n (db σ)).
Qed.

(** A statement that stores nothing that was drawn. *)
Definition stores_nothing {R} (stmt : Stmt R) : Prop :=
  ∀ x n held d, P x n held d → P x (N.succ n) held (stmt n d).2.

Lemma triple_free {R} held (stmt : Stmt R) :
  stores_nothing stmt → triple held_db held (execute stmt) held.
Proof. intros Hs. apply triple_execute; [|done]. intros x n d frame. apply Hs. Qed.

(** The programs that start and end with nothing held. *)
Definition balanced (A : Type) (p : M A) : Prop := triple held_db [] p [].

Lemma balanced_sessions {R} (s : N → Store → R * Store) :
  (∀ n σ, db (s n σ).2 = db σ) → balanced _ (atomic s).
Proof.
  intros Hs. apply triple_atomic. intros x n σ frame HI. unfold held_db in *. rewrite Hs.
  eapply (holding_mono (I := P)); [exact HI|lia|done].
Qed.

#[export] Instance balanced_read_closed `{Argon2} : ReadClosed balanced.
Proof.
  pose proof reads_read_closed as Hr.
  split; [split|..]; unfold holds, balanced; intros.
  1: apply triple_ret. 1: by eapply triple_bind; [apply _|..].
  1: apply triple_observe, _.
  all: apply triple_reads; [apply _|].
  all: match goal with |- reads ?p => change (holds (λ A, @reads Store A) p) end.
  all: eauto with closure.
Qed.
End statements.

Create HintDb owned.

(** Follows the form of a program; [draw] handles the draws that the invariant speaks of,
    and a drawn identifier is held until a statement stores it. *)
Ltac triple_tac draw :=
  lazymatch goal with
  | |- triple _ _ (try_bind _ _) _ =>
      eapply triple_try; [apply _|triple_tac draw|intros ?; triple_tac draw|solve_submseteq]
  | |- triple _ _ (mbind _ _) _ =>
      first [ draw; intros ?; triple_tac draw
            | eapply triple_bind; [apply _|triple_tac draw|intros ?; triple_tac draw] ]
  | |- triple _ _ (sql_try _) _ => apply triple_with_err; [apply _|triple_tac draw]
  | |- triple _ _ (with_err _ _) _ => apply triple_with_err; [apply _|triple_tac draw]
  | |- triple _ _ (observe _) _ => apply triple_observe; apply _
  | |- triple _ _ (mret _) _ => apply triple_ret
  | |- triple _ _ (match ?x with _ => _ end) _ => destruct x; triple_tac draw
  | |- triple _ _ (execute _) _ =>
      solve [ apply triple_free; [apply _|auto with owned] | eauto with owned
            | apply triple_reads, reads_execute; [apply _|by intros ??] ]
  | |- triple _ _ _ _ => solve [eauto with owned]
  end
with solve_submseteq := first [reflexivity | apply submseteq_nil_l | auto using submseteq_nil_l].
