(* ===== verification/AccessSpec.v ===== *)
(** * Who may do what: authentication and the access check of the CalDAV routes

    The routes of calendars and objects authenticate, then check that the calendar is
    one of the user's, then run the method.  The theorems give the outcome of each
    stage, and show that it fails closed when statements fail. *)
From Stdlib Require Import NArith ZArith.
From S2P Require Import Prelude RustStr Effects Models Db DbUsers DbCalendars DbEvents Ical.
From S2P Require Import Http.
From S2P Require Import Xml Properties CaldavHandlers CaldavRouter Closure Sim Integrity.
From S2P Require Import EventsSpec CalendarsSpec AccountsSpec ReadOnly.
From stdpp Require Import options.
Set Default Proof Using "Type*".

(** ** Credentials *)

(** The user name and password of an Authorization header. *)
Definition credentials `{Base64} (header : string) : option (string * string) :=
  encoded ← Str.strip_prefix "Basic " header;
  text ← b64_decode encoded ≫= Str.from_utf8;
  Str.split_once COLON text.

Definition accepted (r : AppResult (option User.t)) : Result User.t Reply :=
  match r with
  | Ok (Some u) => Ok u
  | _ => Err Auth.unauthorized_response_fn
  end.

Section authentication.
Context `{SqliteLaws, Argon2, Base64}.
Context (Hnf : ∀ n, sql_fault n = None).

(** The outcome of a login with a header. *)
Definition header_login (header : string) (d : Db.t) (r : Result User.t Reply) : Prop :=
  match credentials header with
  | None => r = Err Auth.unauthorized_response_fn
  | Some (name, pw) =>
      match login_candidates name d with
      | [] => r = Err Auth.unauthorized_response_fn
      | us => ∃ u, u ∈ us ∧ r = accepted (password_check pw u)
      end
  end.

Lemma run_header_login header w :
  let r := run (u ← Auth.try_basic_auth header;
                mret (match u with
                      | Some user => Ok user
                      | None => Err Auth.unauthorized_response_fn
                      end)) w in
  header_login header (db (store w)) r.1 ∧ store r.2 = store w.
Proof.
  intros r. subst r. unfold Auth.try_basic_auth, Auth.parse_basic_auth, header_login, credentials.
  rewrite run_bind, run_bind.
  destruct (Str.strip_prefix "Basic " header) as [enc|]; [|done]. cbn [mbind option_bind].
  destruct (b64_decode enc ≫= Str.from_utf8) as [text|]; [|done]. cbn [mbind option_bind].
  destruct (Str.split_once COLON text) as [[name pw]|]; [|done].
  destruct (run_verify_user Hnf name pw w) as [Hs Hr].
  destruct (run (Users.verify_user name pw) w) as [r w'] eqn:E.
  erewrite run_with_err by exact E. rewrite !run_ret. cbn [fst snd] in *. split; [|exact Hs].
  destruct (login_candidates name (db (store w))) as [|u us]; [by subst r|].
  destruct Hr as (u' & Hu & ->). exists u'. split; [done|].
  by destruct (password_check pw u') as [[u2|]|e].
Qed.
End authentication.

Section path_users.
Context `{SqliteLaws, Argon2, Base64}.
Context (Hnf : ∀ n, sql_fault n = None).

(** With credentials, whoever they name; without, the account that the URL names,
    without a password. *)
Definition request_user (header : option string) (named_by_url : list User.t)
    (d : Db.t) (r : Result User.t Reply) : Prop :=
  match header with
  | Some h => header_login h d r
  | None =>
      match named_by_url with
      | [] => r = Err Auth.unauthorized_response_fn
      | us => ∃ u, u ∈ us ∧ r = Ok u
      end
  end.

Lemma scanned_user n (us : list User.t) :
  match us with
  | [] => head (sql_scan n us) = None
  | _ => ∃ u, u ∈ us ∧ head (sql_scan n us) = Some u
  end.
Proof.
  destruct (head (sql_scan n us)) as [u|] eqn:E.
  - apply head_scan in E. destruct us as [|u' us]; [by apply elem_of_nil in E|]. eauto.
  - by apply head_scan_None in E as ->.
Qed.

(** C36: The user of a request on the routes by user name and by email.  With an
    Authorization header it is the account the credentials log in to, and anything wrong
    with them is answered 401.  Without one it is the account that the URL names (its
    username, or its email), for which no password is asked; an unknown one is answered
    401.  Nothing changes. *)
Theorem request_user_correct header name w :
  let rp := run (Router.auth_or_path_user header name) w in
  let re := run (Router.auth_or_email_user header name) w in
  let d := db (store w) in
  request_user header (named name d) d rp.1 ∧ store rp.2 = store w ∧
  request_user header (bfilter (λ u, bool_decide (User.email u = Some name)) (Db.users d)) d re.1 ∧
  store re.2 = store w.
Proof.
  intros rp re d. subst rp re.
  destruct header as [h|]; unfold Router.auth_or_path_user, Router.auth_or_email_user;
    cbn [request_user].
  - destruct (run_header_login Hnf h w) as [? ?]. done.
  - rewrite !run_bind, run_get_user_by_username, run_get_user_by_email by done.
    rewrite !run_ret. cbn [fst snd tick store]. fold d.
    pose proof (scanned_user (clock w) (named name d)) as Hn.
    pose proof (scanned_user (clock w)
      (bfilter (λ u, bool_decide (User.email u = Some name)) (Db.users d))) as He.
    split; [|split; [done|split; [|done]]].
    + destruct (named name d); [by rewrite Hn|]. destruct Hn as (u & Hu & ->). eauto.
    + destruct (bfilter _ _); [by rewrite He|]. destruct He as (u & Hu & ->). eauto.
Qed.
End path_users.

(** ** The gate of a route *)

Section gate.
Context `{Sqlite, Uuids, Argon2, Base64, QuickXml}.

(** The authentication of a route of calendars or objects, and its calendar. *)
Definition guarded (e : Router.Endpoint) (captures : list string) (request : Request.t) :
    option (M (Result User.t Reply) * string) :=
  let header := Router.extract_auth_header request in
  match e, captures with
  | Router.CalendarCollection, [username; calendar_id]
  | Router.ObjectEndpoint, [username; calendar_id; _] =>
      Some (Router.auth_or_path_user header username, calendar_id)
  | Router.EmailCalendarCollection, [email; calendar_id]
  | Router.EmailObject, [email; calendar_id; _] =>
      Some (Router.auth_or_email_user header email, calendar_id)
  | _, _ => None
  end.

(** The method such a route runs for an admitted user. *)
Definition method_of (e : Router.Endpoint) (captures : list string) (request : Request.t)
    (user : User.t) : M Reply :=
  match e, captures with
  | Router.CalendarCollection, [username; calendar_id] =>
      Router.collection_method user None username calendar_id request
  | Router.EmailCalendarCollection, [email; calendar_id] =>
      Router.collection_method user
        (Some (HrefContext.mk (Some (Propfind.encode_email_for_path email)) (User.username user)))
        (User.username user) calendar_id request
  | _, [_; calendar_id; filename] => Router.object_method calendar_id filename request
  | _, _ => mret Panicked
  end.

(** Only MKCALENDAR on a collection passes without the access check. *)
Definition checked (e : Router.Endpoint) (request : Request.t) : Prop :=
  e ∈ [Router.CalendarCollection; Router.EmailCalendarCollection] →
  Request.method request ≠ "MKCALENDAR".

Lemma guarded_call e captures request p auth cal :
  Router.call e captures request = Some p →
  guarded e captures request = Some (auth, cal) →
  Request.method request ≠ "OPTIONS" → checked e request →
  p = Router.with_user auth (λ user,
        Router.with_object_access user cal (method_of e captures request user)).
Proof.
  unfold Router.call, guarded, checked, Router.handle_calendar_collection, Router.handle_object,
    Router.handle_email_calendar_collection, Router.handle_email_object,
    Router.with_collection_access.
  intros Hc Hg Ho Hk. repeat case_match; simplify_eq/=; try done; destruct Hk; set_solver.
Qed.

Lemma guarded_with_user e captures request p auth cal :
  Router.call e captures request = Some p →
  guarded e captures request = Some (auth, cal) →
  Request.method request ≠ "OPTIONS" → ∃ k, p = Router.with_user auth k.
Proof.
  unfold Router.call, guarded, Router.handle_calendar_collection, Router.handle_object,
    Router.handle_email_calendar_collection, Router.handle_email_object.
  intros Hc Hg Ho. repeat case_match; simplify_eq; eauto.
Qed.

(** However authentication fails, it is with the same response. *)
Lemma auth_error e captures request auth cal w resp :
  guarded e captures request = Some (auth, cal) →
  (run auth w).1 = Err resp → resp = Auth.unauthorized_response_fn.
Proof.
  intros Hg. unfold guarded, Router.auth_or_path_user, Router.auth_or_email_user in Hg.
  repeat case_match; simplify_eq; rewrite run_bind;
    match goal with |- context [run ?q w] => destruct (run q w) as [r w1] end;
    rewrite run_ret; cbn; repeat case_match; naive_solver.
Qed.

Lemma reads_auth e captures request auth cal :
  guarded e captures request = Some (auth, cal) → reads auth.
Proof.
  intros Hg. change (holds (λ A, @reads Store A) auth).
  unfold guarded in Hg. repeat case_match; simplify_eq; eauto with closure.
Qed.

(** The check of [verify_calendar_access]. *)
Lemma run_verify_access_none `{!SqliteLaws} user cal w :
  (∀ c, accessible (User.id user) (db (store w)) c → Calendar.id c ≠ cal) →
  run (Router.verify_calendar_access user cal) w = (false, tick w (store w)).
Proof.
  intros Hno. unfold Router.verify_calendar_access, Calendars.list_calendars_for_user.
  destruct (sql_fault (clock w)) as [e|] eqn:Ef.
  - rewrite run_bind. by erewrite run_unwrap_or by by apply run_sql_try_fault.
  - rewrite run_bind. erewrite run_unwrap_or by by apply run_listing.
    rewrite run_ret. f_equal. apply not_true_iff_false. rewrite existsb_exists.
    intros (c & Hc%list_elem_of_In & E%bool_decide_eq_true).
    apply elem_of_listing, elem_of_user_rows in Hc. by apply (Hno c).
Qed.

Lemma run_verify_access `{!SqliteLaws} user cal w :
  sql_fault (clock w) = None →
  run (Router.verify_calendar_access user cal) w =
    (existsb (λ c, bool_decide (Calendar.id c = cal))
       (Calendars.owned_rows (User.id user) (db (store w)) ++
        Calendars.shared_rows (User.id user) (db (store w))), tick w (store w)).
Proof.
  intros Hf. unfold Router.verify_calendar_access, Calendars.list_calendars_for_user.
  rewrite run_bind. erewrite run_unwrap_or by by apply run_listing.
  rewrite run_ret. f_equal. apply eq_bool_prop_intro.
  rewrite !Is_true_true, !existsb_exists. setoid_rewrite <- list_elem_of_In.
  by setoid_rewrite elem_of_listing; setoid_rewrite elem_of_remove_dups.
Qed.

Lemma run_with_user auth (k : User.t → M Reply) w r w' :
  run auth w = (r, w') →
  run (Router.with_user auth k) w = match r with Ok u => run (k u) w' | Err resp => (resp, w') end.
Proof. intros E. unfold Router.with_user. rewrite run_bind, E. by destruct r. Qed.

(** C15: A request on a calendar or object route whose authentication fails is answered
    with the error response of the authentication (a 401) and changes nothing. *)
Theorem failed_authentication_is_401 e captures request p auth cal w :
  Router.call e captures request = Some p →
  guarded e captures request = Some (auth, cal) →
  Request.method request ≠ "OPTIONS" →
  (∀ u, (run auth w).1 ≠ Ok u) →
  status_of (run p w).1 = Some 401%Z ∧ store (run p w).2 = store w.
Proof.
  intros Hc Hg Ho Ha. destruct (guarded_with_user _ _ _ _ _ _ Hc Hg Ho) as [k ->].
  pose proof (λ resp, auth_error e captures request auth cal w resp) as He. pose proof (reads_run auth w) as Hs.
  destruct (run auth w) as [[u|resp] w1] eqn:E; [by destruct (Ha u)|].
  erewrite run_with_user by exact E. rewrite (He resp Hg) by done.
  split; [done|]. apply Hs. by eapply reads_auth.
Qed.

(** Shared with the compositions of components. *)
Lemma run_denied `{!SqliteLaws} e captures request p auth cal user w w1 :
  Router.call e captures request = Some p →
  guarded e captures request = Some (auth, cal) →
  Request.method request ≠ "OPTIONS" → checked e request →
  run auth w = (Ok user, w1) →
  (∀ c, accessible (User.id user) (db (store w)) c → Calendar.id c ≠ cal) →
  (run p w).1 = Router.access_denied ∧ store (run p w).2 = store w.
Proof.
  intros Hc Hg Ho Hk Ha Hno. rewrite (guarded_call _ _ _ _ _ _ Hc Hg Ho Hk).
  erewrite run_with_user by exact Ha. unfold Router.with_object_access.
  pose proof (reads_run auth w (reads_auth _ _ _ _ _ Hg)) as Hs. rewrite Ha in Hs. simpl in Hs.
  rewrite run_bind, run_verify_access_none by by rewrite Hs. by rewrite run_ret.
Qed.

(** C14: An authenticated user who neither owns the calendar of the route nor has a
    share of it is answered 403 and nothing changes, whatever the method (but OPTIONS,
    and MKCALENDAR on a collection) and whichever statements fail. *)
Theorem no_access_is_403 `{!SqliteLaws} e captures request p auth cal user w w1 :
  Router.call e captures request = Some p →
  guarded e captures request = Some (auth, cal) →
  Request.method request ≠ "OPTIONS" → checked e request →
  run auth w = (Ok user, w1) →
  (∀ c, accessible (User.id user) (db (store w)) c → Calendar.id c ≠ cal) →
  (run p w).1 = Router.access_denied ∧ store (run p w).2 = store w.
Proof. apply run_denied. Qed.

(** Shared with the compositions of components. *)
Lemma run_admitted `{!SqliteLaws} e captures request p auth cal user c w w1 :
  Router.call e captures request = Some p →
  guarded e captures request = Some (auth, cal) →
  Request.method request ≠ "OPTIONS" → checked e request →
  run auth w = (Ok user, w1) → sql_fault (clock w1) = None →
  accessible (User.id user) (db (store w)) c → Calendar.id c = cal →
  run p w = run (method_of e captures request user) (tick w1 (store w)).
Proof.
  intros Hc Hg Ho Hk Ha Hf Hacc Hid. rewrite (guarded_call _ _ _ _ _ _ Hc Hg Ho Hk).
  erewrite run_with_user by exact Ha. unfold Router.with_object_access.
  pose proof (reads_run auth w (reads_auth _ _ _ _ _ Hg)) as Hs. rewrite Ha in Hs. simpl in Hs.
  rewrite run_bind, run_verify_access, Hs by done.
  replace (existsb _ _) with true; [done|]. symmetry. apply existsb_exists.
  exists c. split; [|by apply bool_decide_eq_true].
  apply list_elem_of_In. apply elem_of_remove_dups, elem_of_user_rows. done.
Qed.

(** An authenticated user who owns the calendar or has a share of it (read-only or
    not) gets the method of the route, run on the unchanged store. *)
Theorem access_runs_method `{!SqliteLaws} e captures request p auth cal user c w w1 :
  Router.call e captures request = Some p →
  guarded e captures request = Some (auth, cal) →
  Request.method request ≠ "OPTIONS" → checked e request →
  run auth w = (Ok user, w1) → sql_fault (clock w1) = None →
  accessible (User.id user) (db (store w)) c → Calendar.id c = cal →
  run p w = run (method_of e captures request user) (tick w1 (store w)).
Proof. apply run_admitted. Qed.
End gate.

(** ** On the simulated server *)

Module AccessExamples.
Import Sim.

Definition get_as (header : option string) : Request.t :=
  Request.mk "GET" (option_list ((λ h, ("authorization", Some h)) <$> header)) (BodyBytes "").

(** Alice logs in with her email; without credentials the URL's Bob is taken at his word. *)
Lemma request_user_correct_witness :
  (run (Router.auth_or_path_user (Some "Basic a@x.org:pa") "bob") world).1 = Ok alice ∧
  (run (Router.auth_or_path_user (Some "Basic alice:wrong") "alice") world).1 =
    Err Auth.unauthorized_response_fn ∧
  (run (Router.auth_or_path_user None "bob") world).1 = Ok bob.
Proof.
  split; [|split].
  - destruct (request_user_correct nofault (Some "Basic a@x.org:pa") "bob" world)
      as [(u & Hu & Hr) _]. apply list_elem_of_singleton in Hu as ->. exact Hr.
  - destruct (request_user_correct nofault (Some "Basic alice:wrong") "alice" world)
      as [(u & Hu & Hr) _]. apply list_elem_of_singleton in Hu as ->. exact Hr.
  - destruct (request_user_correct nofault None "bob" world) as [(u & Hu & Hr) _].
    apply list_elem_of_singleton in Hu as ->. exact Hr.
Defined.

Definition route : list string := ["alice"; "cal"; "meeting.ics"].

Lemma failed_authentication_is_401_witness :
  ∃ p, Router.call Router.ObjectEndpoint route (get_as (Some "Basic alice:wrong")) = Some p ∧
       status_of (run p world).1 = Some 401%Z.
Proof.
  eexists. split; [reflexivity|].
  eapply (failed_authentication_is_401 Router.ObjectEndpoint route
            (get_as (Some "Basic alice:wrong")) _ _ _ world eq_refl eq_refl); [done|].
  intros u. by vm_compute.
Defined.

Lemma no_access_is_403_witness :
  ∃ p, Router.call Router.ObjectEndpoint route (get_as (Some "Basic carol:pc")) = Some p ∧
       (run p world).1 = Router.access_denied.
Proof.
  eexists. split; [reflexivity|].
  eapply (no_access_is_403 Router.ObjectEndpoint route
            (get_as (Some "Basic carol:pc")) _ _ _ carol world _ eq_refl eq_refl);
    [done|intros Hin; set_solver|vm_compute; reflexivity|].
  intros c [Hc [Ho|(s & Hs & _ & Hu)]].
  - apply list_elem_of_singleton in Hc as ->. discriminate Ho.
  - apply list_elem_of_singleton in Hs as ->. discriminate Hu.
Defined.

(** Bob, whose share is read-only, deletes Alice's meeting. *)
Definition delete_by_bob : Request.t :=
  Request.mk "DELETE" [("authorization", Some "Basic bob:pb")] (BodyBytes "").

Lemma access_runs_method_witness :
  ∃ p, Router.call Router.ObjectEndpoint route delete_by_bob = Some p ∧
       status_of (run p world).1 = Some 204%Z.
Proof.
  eexists. split; [reflexivity|].
  erewrite (access_runs_method Router.ObjectEndpoint route delete_by_bob _ _ "cal" bob work
              world _ eq_refl eq_refl);
    [vm_compute; reflexivity|done|intros Hin; set_solver|vm_compute; reflexivity|done| |done].
  split; [by left|]. right. exists share. split; [by left|done].
Defined.
End AccessExamples.
