(* ===== verification/Confinement.v ===== *)
(** * What a request leaves alone

    A CalDAV request for a calendar changes nothing of any other calendar, at no step and
    whichever statements fail; a request to the MCP server in its simple mode changes
    nothing but one calendar that its user may use, or a new one. *)
From Stdlib Require Import NArith ZArith.
From S2P Require Import Prelude RustStr Effects Models Db DbUsers DbCalendars DbEvents.
From S2P Require Import DbShares DbTokens Ical Http Xml Properties CaldavHandlers CaldavRouter.
From S2P Require Import Json McpTools Mcp Cli Closure Layer Sim Integrity EventsSpec.
From S2P Require Import CalendarsSpec AccountsSpec AccessSpec McpSpec ReadOnly.
From stdpp Require Import options.
Set Default Proof Using "Type*".

(** What the database holds of all calendars but [c], with the accounts and the tokens. *)
Definition elsewhere (c : string) (d : Db.t) :
    list User.t * list Calendar.t * list CalendarObject.t * list CalendarShare.t *
    list SyncChange.t * list McpToken.t :=
  (Db.users d,
   bfilter (λ x, bool_decide (Calendar.id x ≠ c)) (Db.calendars d),
   bfilter (λ x, bool_decide (CalendarObject.calendar_id x ≠ c)) (Db.calendar_objects d),
   bfilter (λ x, bool_decide (CalendarShare.calendar_id x ≠ c)) (Db.calendar_shares d),
   bfilter (λ x, bool_decide (SyncChange.calendar_id x ≠ c)) (Db.sync_changes d),
   Db.mcp_tokens d).

(** No step of the program, in whatever state, changes anything elsewhere. *)
Fixpoint within (c : string) {A} (p : M A) : Prop :=
  match p with
  | Ret _ => True
  | Step s k =>
      ∀ n σ, elsewhere c (db (s n σ).2) = elsewhere c (db σ) ∧ within c (k (s n σ).1)
  end.

Lemma within_bind c {A B} (p : M A) (f : A → M B) :
  within c p → (∀ a, within c (f a)) → within c (p ≫= f).
Proof.
  induction p as [a|R s k IH]; intros Hp Hf; simpl in *; [apply Hf|].
  intros n σ. destruct (Hp n σ) as [Hσ Hk]. split; [done|]. by apply IH.
Qed.

Lemma within_run c {A} (p : M A) w :
  within c p → elsewhere c (db (store (run p w).2)) = elsewhere c (db (store w)).
Proof.
  revert w. induction p as [a|R s k IH]; intros w Hp; [done|]. unfold run. simpl in *.
  destruct (Hp (clock w) (store w)) as [Hσ Hk].
  destruct (s (clock w) (store w)) as [r σ]. simpl in *. fold (@run Store A).
  by rewrite (IH r (mkWorld (N.succ (clock w)) σ)).
Qed.

(** ** The functions of the data-access layer *)

Section layer.
Context `{Sqlite, Uuids, Argon2, Rng} (c : string).

Definition confined (A : Type) (p : M A) : Prop := within c p.

Lemma confined_execute {R} (stmt : Stmt R) :
  (∀ n d, elsewhere c (stmt n d).2 = elsewhere c d) → holds confined (execute stmt).
Proof.
  intros Hs n σ. split; [|done]. destruct (sql_fault n); [done|].
  specialize (Hs n (db σ)). by destruct (stmt n (db σ)).
Qed.

#[export] Instance confined_query_closed : QueryClosed confined.
Proof.
  split; [split|]; unfold holds, confined; [done|intros; by apply within_bind|done|].
  intros R stmt Hq. apply confined_execute. intros n d. by rewrite Hq.
Qed.

(** A row of the calendar, added at the end, or rows of it changed in place. *)
Lemma bfilter_snoc_other {A} (f : A → string) (l : list A) x :
  f x = c → bfilter (λ y, bool_decide (f y ≠ c)) (l ++ [x]) = bfilter (λ y, bool_decide (f y ≠ c)) l.
Proof.
  intros Hx. rewrite bfilter_app, bfilter_cons, bool_decide_false by tauto. apply app_nil_r.
Qed.

Lemma bfilter_fmap_other {A} (f : A → string) (g : A → A) (l : list A) :
  (∀ x, f (g x) = f x) → (∀ x, f x ≠ c → g x = x) →
  bfilter (λ y, bool_decide (f y ≠ c)) (g <$> l) = bfilter (λ y, bool_decide (f y ≠ c)) l.
Proof.
  intros Hf Hg. induction l as [|x l IH]; [done|].
  rewrite fmap_cons, !bfilter_cons, IH, Hf. case_bool_decide as E; [|done]. by rewrite Hg.
Qed.

Lemma bfilter_within {A} (f : A → string) P (l : list A) :
  (∀ x, f x ≠ c → P x = true) →
  bfilter (λ y, bool_decide (f y ≠ c)) (bfilter P l) = bfilter (λ y, bool_decide (f y ≠ c)) l.
Proof.
  intros HP. rewrite bfilter_bfilter. apply bfilter_ext. intros x _.
  case_bool_decide as E; [by rewrite HP|apply andb_false_r].
Qed.

(** *** Statements about the calendar *)

#[local] Ltac confined_tac :=
  apply confined_execute; intros ? ?; unfold elsewhere;
  repeat case_bool_decide; cbn -[bfilter fmap]; try done.

Lemma confined_insert_object id u e x f :
  holds confined (execute (Events.insert_object id c u e x f)).
Proof.
  unfold Events.insert_object. confined_tac. by rewrite bfilter_snoc_other.
Qed.

Lemma confined_update_object u e x f : holds confined (execute (Events.update_object c u e x f)).
Proof.
  confined_tac. rewrite bfilter_fmap_other; [done|..]; intros o; unfold Events.is_object;
    case_bool_decide as E; try done. unfold CalendarObject.key in E. by simplify_eq.
Qed.

Lemma confined_delete_object u : holds confined (execute (Events.delete_by_uid c u)).
Proof.
  confined_tac. rewrite bfilter_within; [done|]. intros o Ho. unfold Events.is_object.
  rewrite bool_decide_false; [done|]. unfold CalendarObject.key. by intros [= ? _].
Qed.

Lemma confined_log u k t : holds confined (execute (Events.insert_sync_change c u k t)).
Proof.
  unfold Events.insert_sync_change. confined_tac. by rewrite bfilter_snoc_other.
Qed.

Lemma confined_update_tokens a b : holds confined (execute (Calendars.update_tokens a b c)).
Proof.
  confined_tac. rewrite bfilter_fmap_other; [done|..]; intros x; by case_decide.
Qed.

Lemma confined_update_properties n d x z :
  holds confined (execute (Calendars.update_properties n d x z c)).
Proof.
  confined_tac. rewrite bfilter_fmap_other; [done|..]; intros y; by case_decide.
Qed.

Lemma confined_insert_calendar o n d x z a b :
  holds confined (execute (Calendars.insert_calendar c o n d x z a b)).
Proof.
  unfold Calendars.insert_calendar. confined_tac. by rewrite bfilter_snoc_other.
Qed.

Lemma confined_delete_by_id : holds confined (execute (Calendars.delete_by_id c)).
Proof.
  unfold Calendars.delete_by_id. confined_tac; case_decide; try done.
  unfold Calendars.without_calendar; cbn -[bfilter]. rewrite !bfilter_within; try done; intros x Hx; by apply bool_decide_eq_true.
Qed.

#[local] Hint Resolve confined_insert_object confined_update_object confined_delete_object
  confined_log confined_update_tokens confined_update_properties confined_insert_calendar
  confined_delete_by_id confined_query_closed : closure.

#[local] Ltac step_tac :=
  repeat lazymatch goal with
  | |- holds _ (sql_try _) => apply closed_with_err
  | |- _ => closed_step || (progress cbn beta iota zeta) || solve [eauto 4 with closure]
  end.

(** *** Functions *)

Lemma confined_bump_ctag : holds confined (Calendars.bump_ctag c).
Proof. unfold Calendars.bump_ctag, Calendars.new_sync_token, now_v7. step_tac. Qed.
#[local] Hint Resolve confined_bump_ctag : closure.

Lemma confined_create_calendar_with_id o n d x z :
  holds confined (Calendars.create_calendar_with_id c o n d x z).
Proof.
  unfold Calendars.create_calendar_with_id, Calendars.new_sync_token, now_v7. step_tac.
Qed.

Lemma confined_update_calendar n d x z : holds confined (Calendars.update_calendar c n d x z).
Proof. unfold Calendars.update_calendar. step_tac. Qed.

Lemma confined_delete_calendar : holds confined (Calendars.delete_calendar c).
Proof. unfold Calendars.delete_calendar. step_tac. Qed.

Lemma confined_upsert_object u x f : holds confined (Events.upsert_object c u x f).
Proof.
  unfold Events.upsert_object, Events.log_sync_change, Events.new_etag,
    Calendars.new_sync_token, new_v4, now_v7. step_tac.
Qed.

Lemma confined_delete u : holds confined (Events.delete_object c u).
Proof.
  unfold Events.delete_object, Events.log_sync_change, Calendars.new_sync_token, now_v7.
  step_tac.
Qed.
End layer.

#[export] Hint Resolve confined_create_calendar_with_id confined_update_calendar
  confined_delete_calendar confined_upsert_object confined_delete : confinement.

(** ** The CalDAV routes of a calendar *)

Section routes.
Context `{SqliteLaws, Uuids, Argon2, Rng, Base64, QuickXml, Chrono}.

(** The calendar that a lookup by id gives has that id. *)
Lemma within_get_calendar c {B} (k : AppResult (option Calendar.t) → M B) :
  (∀ r, (∀ cal, r = Ok (Some cal) → Calendar.id cal = c) → within c (k r)) →
  within c (Calendars.get_calendar_by_id c ≫= k).
Proof.
  intros Hk n σ. cbn. destruct (sql_fault n) as [e|]; cbn; (split; [done|]); apply Hk; [done|].
  intros cal [= Hh]. apply head_scan in Hh. apply elem_of_bfilter in Hh as [Hid _].
  by apply bool_decide_eq_true in Hid.
Qed.

#[local] Ltac route_tac :=
  repeat lazymatch goal with
  | |- _ => closed_step || (progress cbn beta iota zeta)
            || solve [eauto 4 with closure confinement typeclass_instances]
  end.

Lemma confined_collection_method u ctx n c r :
  holds (confined c) (Router.collection_method u ctx n c r).
Proof using All.
  unfold Router.collection_method. repeat case_decide.
  - apply (closed_propfind_calendar (J := confined c)).
  - apply (closed_handle_report (J := confined c)).
  - apply within_get_calendar. intros r' Hr.
    destruct r' as [[cal|]|e]; [|done..]. rewrite (Hr cal eq_refl).
    lazymatch goal with |- within c ?p => change (holds (confined c) p) end. route_tac.
  - unfold MkCalendar.handle_mkcalendar. route_tac.
  - unfold Delete.handle_delete_calendar. route_tac.
  - apply closed_ret.
Qed.

Lemma confined_object_method c f r : holds (confined c) (Router.object_method c f r).
Proof using All.
  unfold Router.object_method. repeat case_decide.
  - apply (closed_handle_get (J := confined c)).
  - unfold Put.handle_put, Put.check_if_match. route_tac.
  - unfold Delete.handle_delete_object. route_tac.
  - apply closed_ret.
Qed.

(** C12: A CalDAV request on a route of a calendar changes nothing of any other calendar
    (its properties, tokens, objects, shares and log), no account and no MCP token: no
    step of its handler does, whatever the method, the user and the body, whatever runs
    between its steps and whichever statements fail. *)
Theorem caldav_request_confined e captures request p auth c :
  Router.call e captures request = Some p →
  guarded e captures request = Some (auth, c) → within c p.
Proof using All.
  change (within c p) with (holds (confined c) p). intros Hc Hg.
  unfold Router.call, guarded, Router.handle_calendar_collection, Router.handle_object,
    Router.handle_email_calendar_collection, Router.handle_email_object in *.
  repeat case_match; simplify_eq; try apply closed_ret;
    (apply (closed_with_user (J := confined c)); [eauto with closure typeclass_instances|]);
    intros u;
    first [ apply (closed_with_collection_access (J := confined c))
          | apply (closed_with_object_access (J := confined c)) ];
    first [ apply confined_collection_method | apply confined_object_method ].
Qed.
End routes.

(** ** The simple mode of the MCP server *)

Section simple_mode.
Context `{SqliteLaws, Uuids, Argon2, Rng, Chrono, Serde}.

(** Between the two databases, only one calendar has changed: one that the user may use,
    or one that was not there. *)
Definition touches_own (user : string) (d d' : Db.t) : Prop :=
  d' = d ∨
  ∃ c, (c ∉ Db.calendar_ids d ∨ ∃ cal, accessible user d cal ∧ Calendar.id cal = c) ∧
       elsewhere c d' = elsewhere c d.

(** A new calendar with a given id: the row that comes back has that id, and if the id was
    taken nothing changes. *)
Lemma run_new_calendar id o n x y z w :
  let r := run (Calendars.create_calendar_with_id id o n x y z) w in
  elsewhere id (db (store r.2)) = elsewhere id (db (store w)) ∧
  (∀ cal, r.1 = Ok cal → Calendar.id cal = id) ∧
  (id ∈ Db.calendar_ids (db (store w)) → db (store r.2) = db (store w) ∧ ∃ e, r.1 = Err e).
Proof using All.
  intros r. split.
  { apply within_run, (confined_create_calendar_with_id id). }
  subst r. unfold Calendars.create_calendar_with_id, Calendars.new_sync_token, now_v7.
  rewrite run_bind, run_bind, run_observe, run_ret, run_try. cbn [clock store].
  set (w1 := mkWorld _ _).
  destruct (sql_fault (clock w1)) as [e|] eqn:Ef.
  { erewrite run_sql_try_fault by exact Ef. split; [done|]. intros _. by split; [|eexists]. }
  rewrite run_sql_try by exact Ef. cbn [fst snd].
  set (stmt := Calendars.insert_calendar _ _ _ _ _ _ _ _ _ _).
  assert (id ∈ Db.calendar_ids (db (store w)) → stmt =
            (Err (unique_failed "calendars.id"), db (store w))) as Hin.
  { intros Hin. subst stmt. unfold Calendars.insert_calendar. by rewrite bool_decide_true. }
  destruct stmt as [[u|e] d'] eqn:Es; cbn [map_err fst snd].
  - split; [|intros Hid; by apply Hin in Hid].
    intros cal. unfold Calendars.get_calendar_by_id. set (w2 := tick w1 _).
    destruct (sql_fault (clock w2)) as [e|] eqn:Ef2; rewrite run_try.
    + by erewrite run_sql_try_fault by exact Ef2.
    + rewrite run_sql_try by exact Ef2. cbn. destruct (head _) as [cal'|] eqn:Eh; [|done].
      rewrite run_ret. intros [= <-]. apply head_scan, elem_of_bfilter in Eh as [Hid _].
      by apply bool_decide_eq_true in Hid.
  - split; [done|]. intros Hid. specialize (Hin Hid). injection Hin as _ ->.
    split; [done|by eexists].
Qed.

(** A tool of the simple mode: it finds the calendar first, and then stays in it. *)
Lemma run_resolved user (k : string → M (Result json string)) w :
  (∀ c, holds (confined c) (k c)) →
  touches_own user (db (store w))
    (db (store (run (calendar_id ←? SimpleTools.resolve_calendar user; k calendar_id) w).2)).
Proof using All.
  intros Hk. rewrite run_try. unfold SimpleTools.resolve_calendar. rewrite run_try.
  unfold Calendars.list_calendars_for_user.
  destruct (sql_fault (clock w)) as [e|] eqn:Ef.
  { erewrite run_with_err by by apply run_sql_try_fault. by left. }
  erewrite run_with_err by by apply run_listing. cbn [map_err].
  match goal with |- context [match ?l with [] => _ | _ => _ end] => set (cals := l) end.
  assert (∀ cal, cal ∈ cals → accessible user (db (store w)) cal) as Hcals.
  { intros cal. subst cals. by rewrite elem_of_listing, elem_of_user_rows. }
  destruct cals as [|cal cals].
  - rewrite run_try. unfold Calendars.create_calendar, now_v7, with_err at 1.
    rewrite run_bind, run_bind, run_observe. cbn [tick clock store].
    set (id := uuid_v7 _). set (w1 := mkWorld _ _).
    match goal with |- context [run (Calendars.create_calendar_with_id id ?o ?n ?x ?y ?z) w1] =>
      pose proof (run_new_calendar id o n x y z w1) as (He & Hid & Hin) end.
    destruct (run (Calendars.create_calendar_with_id id _ _ _ _ _) w1) as [r w2].
    cbn [fst snd] in He, Hid, Hin. rewrite run_ret.
    destruct (decide (id ∈ Db.calendar_ids (db (store w)))) as [Hi|Hi].
    + destruct (Hin Hi) as [E [e ->]]. cbn [map_err]. left. exact E.
    + right. exists id. split; [by left|]. destruct r as [cal|e]; cbn [map_err]; [|exact He].
      rewrite run_ret, (Hid cal eq_refl). etransitivity; [apply within_run, Hk|exact He].
  - rewrite run_ret. right. exists (Calendar.id cal). split.
    + right. exists cal. split; [apply Hcals; by left|done].
    + etransitivity; [apply within_run, Hk|done].
Qed.

#[local] Ltac tool_tac :=
  repeat lazymatch goal with
  | |- _ => closed_step || (progress cbn beta iota zeta)
            || solve [eauto 4 with closure confinement typeclass_instances]
  end.

(** Arguments are checked before. *)
Lemma touches_required {A} user (o : option A) msg (k : A → M (Result json string)) w :
  (∀ a w', store w' = store w → touches_own user (db (store w)) (db (store (run (k a) w').2))) →
  touches_own user (db (store w)) (db (store (run (a ←? required o msg; k a) w).2)).
Proof.
  intros Hk. rewrite run_try. unfold required. rewrite run_ret.
  destruct o as [a|]; [by apply Hk|by left].
Qed.

Lemma simple_tool_confined user tool args w :
  touches_own user (db (store w))
    (db (store (run (SimpleTools.dispatch user tool args) w).2)).
Proof using All.
  unfold SimpleTools.dispatch. repeat case_decide; [..|by left].
  - unfold SimpleTools.handle_add. do 3 (apply touches_required; intros ? ? Hs; rewrite <- Hs; clear Hs).
    apply run_resolved. intros c. unfold Builder.generate_uid, now_stamp, new_v4. tool_tac.
  - unfold SimpleTools.handle_delete. apply touches_required; intros ? ? Hs; rewrite <- Hs.
    apply run_resolved. intros c. tool_tac.
  - unfold SimpleTools.handle_list. apply run_resolved. intros c.
    unfold EventTools.query_objects. tool_tac.
Qed.

(** C13: A request to the MCP server in its simple mode, whichever statements fail: either
    the database is as before, or the request carries the token of a user and all that
    has changed is one calendar (its properties, objects, shares and log) that the user
    owns or has a share of, or that was not there before. *)
Theorem simple_mode_confined request w :
  let d := db (store w) in
  let d' := db (store (run (McpRouter.serve "simple" request) w).2) in
  d' = d ∨
  ∃ raw k, bearer request = Some raw ∧ k ∈ Db.mcp_tokens d ∧
    accepts (datetime_now (clock w)) raw k ∧ touches_own (McpToken.user_id k) d d'.
Proof using All.
  intros d d'. subst d d'.
  destruct (run_serve "simple" request w) as [[_ Hs]|(raw & u & k & w1 & Hb & Hk & Hu & Ha & Hs & Hr)].
  { left. by rewrite Hs. }
  rewrite Hr.
  enough (touches_own u (db (store w1)) (db (store (run (McpRouter.mcp_route "simple" u request) w1).2)))
    as Ht.
  { rewrite Hs in Ht. right. exists raw, k. by rewrite Hu. }
  unfold McpRouter.mcp_route. repeat case_decide; try by left.
  - unfold Transport.handle_post. destruct (to_bytes _ _) as [body|]; [|by left].
    destruct (JsonRpc.from_slice body) as [rpc|e]; [|by left].
    rewrite run_bind.
    assert (touches_own u (db (store w1))
              (db (store (run (Handlers.handle_request u rpc "simple") w1).2))) as Ht.
    { unfold Handlers.handle_request. repeat case_decide; try by left.
      unfold Handlers.handle_tools_call. destruct (Json.get_str _ _) as [tool|]; [|by left].
      rewrite run_bind. unfold Tools.dispatch. rewrite decide_True by done.
      pose proof (simple_tool_confined u tool
        (default (JObject []) (Json.get "arguments" (JsonRpc.params rpc))) w1) as Ht.
      by destruct (run (SimpleTools.dispatch _ _ _) w1). }
    destruct (run (Handlers.handle_request u rpc "simple") w1) as [answer w2].
    destruct (JsonRpc.id rpc); [|exact Ht]. rewrite run_bind. by case_decide.
  - left. unfold Transport.handle_delete. rewrite run_bind.
    by destruct (Request.header "mcp-session-id" request).
Qed.
End simple_mode.

(** ** On the simulated server *)

Module ConfinementExamples.
Import Sim.

Lemma caldav_request_confined_witness :
  within "cal" (Router.handle_object "bob" "cal" "meeting.ics"
                  (Request.mk "DELETE" [] (BodyBytes ""))).
Proof.
  by eapply (caldav_request_confined Router.ObjectEndpoint ["bob"; "cal"; "meeting.ics"]).
Defined.

(** Any body asks for a new event. *)
#[local] Instance adding : Serde := {|
  json_from_slice := λ _, Ok (rpc "tools/call"
    (JObject [("name", JString "add_event");
              ("arguments", JObject [("title", JString "Tea");
                 ("start", JString "20260301T160000Z"); ("end", JString "20260301T170000Z")])]));
  request_error := λ _, "";
  json_to_vec := show;
  json_pretty := show;
|}.

(** Bob, who may only read Alice's calendar, adds an event to it: it is his first. *)
Lemma simple_mode_confined_witness :
  let d' := db (store (run (McpRouter.serve "simple"
              (McpExamples.post "mcp_r7" "add")) McpExamples.mcp_world).2) in
  length (Db.calendar_objects d') = 2 ∧ touches_own "bob-id" (db (store McpExamples.mcp_world)) d'.
Proof.
  destruct (simple_mode_confined (McpExamples.post "mcp_r7" "add") McpExamples.mcp_world)
    as [E|(raw & k & _ & Hk & _ & Ht)].
  - apply (f_equal (λ d, length (Db.calendar_objects d))) in E. by vm_compute in E.
  - apply list_elem_of_singleton in Hk as ->. split; [by vm_compute|exact Ht].
Defined.
End ConfinementExamples.
