(* ===== verification/Server.v ===== *)
(** * The whole server: integrity in every interleaving

    The CalDAV router, the MCP router and the command line share one database.  A
    [Task] is anything one of them runs; tasks start at any time and their steps
    interleave arbitrarily, under any schedule of database faults. *)
From Stdlib Require Import NArith ZArith.
From S2P Require Import Prelude RustStr Effects Models Db DbUsers DbCalendars DbEvents.
From S2P Require Import DbShares DbTokens Ical Http Xml Properties CaldavHandlers CaldavRouter.
From S2P Require Import Json McpTools Mcp Cli Closure Layer Sim Integrity.
From stdpp Require Import relations.
From stdpp Require Import options.
Set Default Proof Using "Type*".

Module Server.
Section server.
Context `{Sqlite, Uuids, Argon2, Base64, QuickXml, Rng, Chrono, Serde}.

Inductive Task : Type :=
| CaldavRequest (e : Router.Endpoint) (captures : list string) (request : Request.t)
| McpRequest (tool_mode : string) (request : Request.t)
| CliCommand (c : Cli.Command).

(** What a task ends with: the HTTP answer, or the lines a command prints. *)
Inductive Answer : Type :=
| CaldavReplied (r : Reply)
| McpReplied (r : Reply)
| NotRouted
| Printed (r : Result (list string) CliError).

Definition run_task (t : Task) : M Answer :=
  match t with
  | CaldavRequest e captures request =>
      match Router.call e captures request with
      | Some p => r ← p; mret (CaldavReplied r)
      | None => mret NotRouted
      end
  | McpRequest tool_mode request => r ← McpRouter.serve tool_mode request; mret (McpReplied r)
  | CliCommand c => r ← Cli.run_command c; mret (Printed r)
  end.

Definition starts (p : M Answer) : Prop := ∃ t, p = run_task t.
End server.
End Server.

(** Executions of the server: tasks started at any time, their steps interleaved. *)
Abbreviation serves := (rtc (sched Server.starts)).

(** A server that starts on a new database. *)
Definition start : World Store := mkWorld 0 (mkStore Db.empty ∅).

Section integrity_of_server.
Context `{Sqlite, Uuids, Argon2, Base64, QuickXml, Rng, Chrono, Serde}.

(** Every task has every property the interface accepts. *)
Lemma closed_run_task `{!WriteClosed J} t : holds J (Server.run_task t).
Proof.
  destruct t as [e captures r|m r|c]; cbn [Server.run_task].
  - destruct (Router.call e captures r) eqn:E; [|apply closed_ret].
    apply closed_bind; [by eapply closed_call|]. intros. apply closed_ret.
  - apply closed_bind; [apply closed_mcp_serve|]. intros. apply closed_ret.
  - apply closed_bind; [apply closed_run_command|]. intros. apply closed_ret.
Qed.

(** Any interleaving of tasks, with any faults. *)
Lemma interleaved_wf w w' pool pool' :
  Db.wf (db (store w)) →
  (∀ p, p ∈ pool → Server.starts p) →
  serves (pool, w) (pool', w') →
  Db.wf (db (store w')).
Proof.
  intros Hwf Hpool Hr.
  eapply (interleaving_safe (db_inv (λ _, Db.wf)) (λ _, True) Server.starts) in Hr as [HI _]; [exact HI|..].
  - intros p n [t ->]. apply (closed_run_task (J := keeps)).
  - exact Hwf.
  - apply Forall_forall. intros p Hp. destruct (Hpool p Hp) as [t ->].
    apply (closed_run_task (J := keeps)).
Qed.

(** C1: The integrity the schema declares (primary keys, uniqueness, references, checks,
    the log's counter) holds at every moment of every execution of the server: any
    number of CalDAV requests, MCP requests and commands, started at any time, their
    statements interleaved in any way, with any of the statements failing. *)
Theorem server_keeps_integrity w w' pool pool' :
  Db.wf (db (store w)) →
  (∀ p, p ∈ pool → Server.starts p) →
  serves (pool, w) (pool', w') →
  Db.wf (db (store w')).
Proof. apply interleaved_wf. Qed.
End integrity_of_server.

(** ** On the simulated server *)

Module ServerExamples.
Import Sim.

Definition delete_meeting : Server.Task :=
  Server.CaldavRequest Router.ObjectEndpoint ["alice"; "cal"; "meeting.ics"]
    (Request.mk "DELETE" [] (BodyBytes "")).

(** Alice's meeting is deleted while nothing else runs. *)
Lemma server_keeps_integrity_witness :
  Db.wf (db (store (run (Server.run_task delete_meeting) world).2)).
Proof.
  apply (server_keeps_integrity world _ [] [Ret (run (Server.run_task delete_meeting) world).1]).
  - exact database_wf.
  - intros p Hp. by apply elem_of_nil in Hp.
  - eapply rtc_l.
    + apply (sched_start _ (Server.run_task delete_meeting)). by exists delete_meeting.
    + pose proof (run_sched Server.starts (Server.run_task delete_meeting) [] world) as Hr.
      by destruct (run (Server.run_task delete_meeting) world).
Defined.
End ServerExamples.
