(* ===== verification/Refusals.v ===== *)
(** * Requests that are refused

    An execution of a program is what it does in some interleaving: the states before and
    after each of its own steps, and its result.  A request to either server that ends in
    a 4xx status has changed nothing in any of its executions. *)
From Stdlib Require Import NArith ZArith.
From S2P Require Import Prelude RustStr Effects Models Db DbUsers DbCalendars DbEvents.
From S2P Require Import DbShares DbTokens Ical Http Xml Properties CaldavHandlers CaldavRouter.
From S2P Require Import Json McpTools Mcp Cli Closure Layer Sim ReadOnly HandlersSpec Server.
From stdpp Require Import relations.
From stdpp Require Import options.
Set Default Proof Using "Type*".

(** ** Executions *)

Section executions.
Context {S : Type}.
Implicit Types (ss : list (S * S)).

(** In some interleaving the program ends with [a], and [ss] are the states before and
    after its steps.  In between, other programs may have done anything. *)
Fixpoint execution {A} (p : prog S A) ss (a : A) : Prop :=
  match p with
  | Ret b => ss = [] ∧ a = b
  | Step s k =>
      ∃ n σ ss', ss = (σ, (s n σ).2) :: ss' ∧ execution (k (s n σ).1) ss' a
  end.

(** A program of a pool that comes to its end has had an execution. *)
Lemma sched_execution {A} (starts : prog S A → Prop) i p a c c' :
  rtc (sched starts) c c' → c.1 !! i = Some p → c'.1 !! i = Some (Ret a) →
  ∃ ss, execution p ss a.
Proof.
  intros Hr. revert p. induction Hr as [c|c1 c2 c3 Hs _ IH]; intros p Hp Ha.
  - exists []. rewrite Hp in Ha. by injection Ha as ->.
  - destruct Hs as [q ps w _|j q q' ps w w' Hq Hadv]; cbn [fst] in Hp.
    + apply IH; [|done]. by apply lookup_app_l_Some.
    + destruct (decide (i = j)) as [<-|Hij].
      * simplify_eq. destruct q as [b|R s k]; [done|]. cbn in Hadv.
        destruct (s (clock w) (store w)) as [r σ] eqn:Es. simplify_eq.
        destruct (IH (k r)) as [ss Hss]; [|done|].
        { cbn. apply list_lookup_insert_eq. by eapply lookup_lt_Some. }
        exists ((store w, σ) :: ss), (clock w), (store w), ss. by rewrite Es.
      * apply IH; [|done]. cbn. by rewrite list_lookup_insert_ne.
Qed.

(** So has a program that runs alone. *)
Lemma run_execution {A} (p : prog S A) w :
  ∃ ss, execution p ss (run p w).1 ∧ (Forall (λ x, x.2 = x.1) ss → store (run p w).2 = store w).
Proof.
  revert w. induction p as [a|R s k IH]; intros w; [exists []; by split|].
  change (run (Step s k) w) with
    (let '(r, σ) := s (clock w) (store w) in run (k r) (mkWorld (N.succ (clock w)) σ)).
  destruct (s (clock w) (store w)) as [r σ] eqn:Es.
  destruct (IH r (mkWorld (N.succ (clock w)) σ)) as (ss & He & Hss).
  exists ((store w, σ) :: ss). split.
  - exists (clock w), (store w), ss. by rewrite Es.
  - intros [Hσ Hf]%Forall_cons. rewrite (Hss Hf). exact Hσ.
Qed.

Lemma execution_bind {A B} (p : prog S A) (f : A → prog S B) ss b :
  execution (p ≫= f) ss b →
  ∃ ss1 ss2 a, ss = ss1 ++ ss2 ∧ execution p ss1 a ∧ execution (f a) ss2 b.
Proof.
  revert ss. induction p as [a|R s k IH]; intros ss Hp; [by exists [], ss, a|].
  destruct Hp as (n & σ & ss' & -> & Hp). apply IH in Hp as (ss1 & ss2 & a & -> & H1 & H2).
  exists ((σ, (s n σ).2) :: ss1), ss2, a. split; [done|]. split; [|done].
  by exists n, σ, ss1.
Qed.

Lemma execution_reads {A} (p : prog S A) ss a :
  reads p → execution p ss a → Forall (λ x, x.2 = x.1) ss.
Proof.
  revert ss. induction p as [b|R s k IH]; intros ss Hr; [by intros [-> _]|].
  intros (n & σ & ss' & -> & Hp). destruct (Hr n σ) as [Hσ Hk].
  constructor; [exact Hσ|]. by eapply IH.
Qed.

(** ** Results without effect *)

(** No execution ends with a result in [Q]. *)
Definition never {A} (Q : A → Prop) (p : prog S A) : Prop := ∀ ss a, execution p ss a → ¬ Q a.

(** An execution that ends with a result in [Q] has changed nothing. *)
Definition inert {A} (Q : A → Prop) (p : prog S A) : Prop :=
  ∀ ss a, execution p ss a → Q a → Forall (λ x, x.2 = x.1) ss.

Lemma never_inert {A} (Q : A → Prop) p : never Q p → inert Q p.
Proof. intros Hn ss a He Ha. by destruct (Hn ss a). Qed.

Lemma inert_ret {A} (Q : A → Prop) a : inert Q (mret a).
Proof. by intros ss b [-> _]. Qed.

Lemma never_ret {A} (Q : A → Prop) a : ¬ Q a → never Q (mret a).
Proof. by intros Ha ss b [_ ->]. Qed.

Lemma never_bind {A B} (Q : B → Prop) (p : prog S A) f : (∀ a, never Q (f a)) → never Q (p ≫= f).
Proof. intros Hf ss b (ss1 & ss2 & a & -> & _ & Hb)%execution_bind. by eapply Hf. Qed.

Lemma inert_reads {A} (Q : A → Prop) (p : prog S A) : reads p → inert Q p.
Proof. intros Hr ss a He _. by eapply execution_reads. Qed.

(** First what changes nothing, then anything inert. *)
Lemma inert_after {A B} (Q : B → Prop) (p : prog S A) f :
  reads p → (∀ a, inert Q (f a)) → inert Q (p ≫= f).
Proof.
  intros Hr Hf ss b (ss1 & ss2 & a & -> & Ha & Hb)%execution_bind HQ.
  apply Forall_app_2; [by eapply execution_reads|by eapply Hf].
Qed.

(** The result in [Q] follows from one in [P], for which nothing is changed. *)
Lemma inert_bind {A B} (P : A → Prop) (Q : B → Prop) (p : prog S A) f :
  inert P p → (∀ a, P a ∧ inert Q (f a) ∨ never Q (f a)) → inert Q (p ≫= f).
Proof.
  intros Hp Hf ss b (ss1 & ss2 & a & -> & Ha & Hb)%execution_bind HQ.
  destruct (Hf a) as [[HP Hi]|Hn]; [|by destruct (Hn ss2 b)].
  apply Forall_app_2; [by eapply Hp|by eapply Hi].
Qed.
End executions.

(** ** The handlers that change the store *)

Section handlers.
Context `{Sqlite, Uuids, Argon2, Rng, Base64, QuickXml, Chrono, Serde}.

Definition refusal (r : Reply) : Prop := ∃ s, status_of r = Some s ∧ (400 ≤ s < 500)%Z.

Lemma not_refusal_text s b : (s < 400 ∨ 500 ≤ s)%Z → ¬ refusal (text s b).
Proof. intros Hs (s' & [= <-] & ?). lia. Qed.

Lemma not_refusal_build s hs b : (s < 400 ∨ 500 ≤ s)%Z → ¬ refusal (build s hs b).
Proof.
  intros Hs (s' & E & ?). unfold build in E. destruct (forallb _ _); [|done].
  injection E as <-. lia.
Qed.

(** A row that is not found is reported before anything is changed. *)
Definition not_found {A} (r : AppResult A) : Prop := ∃ msg, r = Err (AppError.NotFound msg).

(** A deletion, with what follows it: an error of the statement or no row deleted changes
    nothing. *)
Lemma inert_delete {A} (stmt : Stmt nat) (f : nat → M (AppResult A)) :
  (∀ n d, match (stmt n d).1 with Ok (S _) => True | _ => (stmt n d).2 = d end) →
  inert not_found (f 0) →
  (∀ rows, never not_found (f (S rows))) → inert not_found (rows ←? sql_try stmt; f rows).
Proof.
  intros Hs Hnone Hf. set (unmatched := λ r : Result nat AppError.t,
    match r with Ok (S _) => False | _ => True end).
  apply (inert_bind unmatched).
  - intros ss r Hr Hu. apply execution_bind in Hr as (ss1 & ss2 & r' & -> & Hr & [-> ->]).
    rewrite app_nil_r. destruct Hr as (n & σ & ss' & -> & -> & ->). constructor; [|done].
    cbn in Hu |- *. destruct (sql_fault n); [done|]. specialize (Hs n (db σ)).
    destruct (stmt n (db σ)) as [[[|rows]|e] d]; cbn in *; try done; rewrite Hs; apply with_db_id.
  - intros [[|rows]|e]; [by left|by right|left]. split; [done|apply inert_ret].
Qed.

(** The error of a statement is not that a row is not found. *)
Lemma never_sql {R} (stmt : Stmt R) : never not_found (sql_try stmt).
Proof. apply never_bind. intros [r|e]; by apply never_ret; intros [msg ?]. Qed.

Lemma never_try {A B} (p : M (AppResult A)) (f : A → M (AppResult B)) :
  never not_found p → (∀ a, never not_found (f a)) → never not_found (try_bind p f).
Proof.
  intros Hp Hf ss b (ss1 & ss2 & r & -> & Hr & Hb)%execution_bind. destruct r as [a|e].
  - by eapply Hf.
  - destruct Hb as [_ ->]. intros [msg [= ->]]. eapply Hp; [exact Hr|by eexists].
Qed.

Lemma inert_delete_object c uid : inert not_found (Events.delete_object c uid).
Proof.
  apply inert_delete.
  - intros n d. cbn. destruct (length _) eqn:E; [|done]. apply length_zero_iff_nil in E.
    unfold Db.set_objects. rewrite bfilter_all; [by destruct d|]. intros o Ho.
    destruct (Events.is_object c uid o) eqn:Eo; [|done].
    assert (o ∈ []) as []%elem_of_nil. rewrite <- E. by apply elem_of_bfilter.
  - apply inert_ret.
  - intros rows. rewrite decide_False by done. apply never_bind. intros tok.
    apply never_try; [apply never_sql|]. intros _. apply never_try.
    + apply never_bind. intros new. apply never_try; [apply never_sql|]. intros _.
      by apply never_ret; intros [msg ?].
    + intros _. by apply never_ret; intros [msg ?].
Qed.

Lemma inert_delete_calendar c : inert not_found (Calendars.delete_calendar c).
Proof.
  apply inert_delete.
  - intros n d. cbn. by destruct (length _).
  - apply inert_ret.
  - intros rows. rewrite decide_False by done. by apply never_ret; intros [msg ?].
Qed.

(** A handler's answer to the result of a deletion. *)
Lemma inert_answer {A} (p : M (AppResult A)) (f : AppResult A → Reply) :
  inert not_found p → (∀ r, refusal (f r) → not_found r) → inert refusal (r ← p; mret (f r)).
Proof.
  intros Hp Hf ss b (ss1 & ss2 & r & -> & Hr & [-> ->])%execution_bind Hb.
  rewrite app_nil_r. eapply Hp; [exact Hr|by apply Hf].
Qed.

(** An answer that is never a refusal, whatever the result. *)
Lemma inert_accepts {A} (p : M A) (f : A → Reply) :
  (∀ a, ¬ refusal (f a)) → inert refusal (a ← p; mret (f a)).
Proof. intros Hf. apply never_inert, never_bind. intros a. apply never_ret, Hf. Qed.

#[local] Ltac not_refusal := first [apply not_refusal_text | apply not_refusal_build]; lia.

Lemma inert_put c file request : inert refusal (Put.handle_put c file request).
Proof using All.
  unfold Put.handle_put. destruct (to_bytes _ _) as [body|]; [|apply inert_ret].
  destruct (Str.from_utf8 body) as [data|]; [|apply inert_ret].
  apply inert_after; [|intros [resp|]; [apply inert_ret|]].
  - change (holds (λ A, @reads Store A)
      (Put.check_if_match (Request.header "if-match" request) c
         (default (Str.trim_end_matches ICS file) (IcalFields.uid (Parser.extract_fields data))))).
    unfold Put.check_if_match. closed_tac.
  - apply inert_accepts. intros [[obj is_new]|e]; [|not_refusal].
    destruct is_new; not_refusal.
Qed.

Lemma inert_delete_method c file : inert refusal (Delete.handle_delete_object c file).
Proof.
  apply inert_answer; [apply inert_delete_object|].
  intros [u|e] Hr; [by apply not_refusal_text in Hr; [|lia]|]. destruct e; try by eexists.
  all: by apply not_refusal_text in Hr; [|lia].
Qed.

Lemma inert_delete_collection c : inert refusal (Delete.handle_delete_calendar c).
Proof.
  apply inert_answer; [apply inert_delete_calendar|].
  intros [u|e] Hr; [by apply not_refusal_text in Hr; [|lia]|]. destruct e; try by eexists.
  all: by apply not_refusal_text in Hr; [|lia].
Qed.

Lemma inert_mkcalendar u n c request : inert refusal (MkCalendar.handle_mkcalendar u n c request).
Proof using All.
  unfold MkCalendar.handle_mkcalendar. case_decide; [|apply inert_ret].
  apply inert_after; [apply (closed_calendar_by_id (J := λ A, @reads Store A))|].
  intros [[cal|]|e]; [apply inert_ret|..]; apply inert_accepts;
    intros [cal|e']; not_refusal.
Qed.

Lemma inert_proppatch u x c request : inert refusal (PropPatch.handle_proppatch u x c request).
Proof using All.
  unfold PropPatch.handle_proppatch.
  apply inert_after; [apply (closed_calendar_by_id (J := λ A, @reads Store A))|].
  intros [[cal|]|e]; [|apply inert_ret..]. apply inert_accepts. intros [cal'|e]; not_refusal.
Qed.

(** ** The two servers *)

Lemma inert_collection_method u x n c request :
  inert refusal (Router.collection_method u x n c request).
Proof using All.
  unfold Router.collection_method. repeat case_decide.
  - apply inert_reads, (closed_propfind_calendar (J := λ A, @reads Store A)).
  - apply inert_reads, (closed_handle_report (J := λ A, @reads Store A)).
  - apply inert_proppatch.
  - apply inert_mkcalendar.
  - apply inert_delete_collection.
  - apply inert_ret.
Qed.

Lemma inert_object_method c file request : inert refusal (Router.object_method c file request).
Proof using All.
  unfold Router.object_method. repeat case_decide.
  - apply inert_reads, (closed_handle_get (J := λ A, @reads Store A)).
  - apply inert_put.
  - apply inert_delete_method.
  - apply inert_ret.
Qed.

Lemma inert_with_user auth k :
  reads auth → (∀ u, inert refusal (k u)) → inert refusal (Router.with_user auth k).
Proof.
  intros Ha Hk. apply inert_after; [exact Ha|]. intros [u|resp]; [apply Hk|apply inert_ret].
Qed.

Lemma inert_checked u c k :
  inert refusal k →
  inert refusal (access ← Router.verify_calendar_access u c;
                 if access : bool then k else mret Router.access_denied).
Proof using All.
  intros Hk. apply inert_after;
    [apply (closed_verify_calendar_access (J := λ A, @reads Store A))|].
  intros []; [exact Hk|apply inert_ret].
Qed.

Lemma inert_collection_access u c request k :
  inert refusal k → inert refusal (Router.with_collection_access u c request k).
Proof using All.
  intros Hk. unfold Router.with_collection_access.
  destruct (decide _); [exact Hk|by apply inert_checked].
Qed.

Lemma inert_caldav e captures request p :
  Router.call e captures request = Some p → inert refusal p.
Proof using All.
  intros E. unfold Router.call, Router.handle_email_calendar_collection,
    Router.handle_email_object, Router.handle_calendar_home,
    Router.handle_calendar_collection, Router.handle_object in E.
  repeat case_match; simplify_eq;
    try (apply inert_with_user; [|intros u; first
      [ apply inert_checked, inert_object_method
      | apply inert_collection_access, inert_collection_method
      | idtac ]]).
  all: try apply inert_reads.
  all: lazymatch goal with |- reads ?p => change (holds (λ A, @reads Store A) p) end.
  all: closed_tac.
Qed.

Lemma inert_serve mode request : inert refusal (McpRouter.serve mode request).
Proof using All.
  unfold McpRouter.serve, McpRouter.require_bearer_auth.
  destruct (Request.header _ _) as [h|]; [|apply inert_ret].
  destruct (Str.strip_prefix _ _) as [token|]; [|apply inert_ret].
  apply inert_after; [apply (closed_validate_token (J := λ A, @reads Store A))|].
  intros [[u|]|e]; [|apply inert_ret..].
  unfold McpRouter.mcp_route. repeat case_decide; [| |apply inert_accepts; intros; not_refusal|].
  - unfold Transport.handle_post. destruct (to_bytes _ _) as [body|]; [|apply inert_ret].
    destruct (JsonRpc.from_slice body) as [rpc|e]; [|apply inert_ret].
    apply never_inert, never_bind. intros answer. destruct (JsonRpc.id rpc).
    + apply never_bind. intros session. apply never_ret. not_refusal.
    + apply never_ret. not_refusal.
  - apply inert_ret.
  - apply inert_ret.
Qed.

(** An HTTP answer with a 4xx status. *)
Definition refused (a : Server.Answer) : Prop :=
  match a with
  | Server.CaldavReplied r | Server.McpReplied r => refusal r
  | Server.NotRouted | Server.Printed _ => False
  end.

(** C7: A request that is refused has changed nothing: in every interleaving with other
    requests and commands, and whichever statements fail, if a CalDAV or MCP request is
    answered with a 4xx status, then none of its steps has changed the database or the
    sessions.  (A 5xx may leave a part of the request's work behind, see [Faults].) *)
Theorem refused_requests_change_nothing t ss a :
  execution (Server.run_task t) ss a → refused a → Forall (λ x, x.2 = x.1) ss.
Proof using All.
  intros He Ha. destruct t as [e captures request|mode request|command]; cbn in He.
  - destruct (Router.call e captures request) as [p|] eqn:Ep; [|by destruct He as [-> _]].
    apply execution_bind in He as (ss1 & ss2 & r & -> & Hr & [-> ->]).
    rewrite app_nil_r. by eapply inert_caldav.
  - apply execution_bind in He as (ss1 & ss2 & r & -> & Hr & [-> ->]).
    rewrite app_nil_r. by eapply inert_serve.
  - by apply execution_bind in He as (ss1 & ss2 & r & -> & Hr & [-> ->]).
Qed.
End handlers.

(** ** On the simulated server *)

Module RefusalsExamples.
Import Sim HandlersExamples.

(** Bob saves the meeting with the ETag of another version. *)
Definition stale_put : Server.Task :=
  Server.CaldavRequest Router.ObjectEndpoint ["alice"; "cal"; "meeting.ics"]
    (Request.mk "PUT" [("authorization", Some "Basic bob:pb"); ("if-match", Some "old")]
       (BodyBytes "NEW")).

Lemma refused_requests_change_nothing_witness :
  let r := run (Server.run_task stale_put) world in
  r.1 = Server.CaldavReplied (text 412 "ETag mismatch") ∧
  ∃ ss, execution (Server.run_task stale_put) ss r.1 ∧ Forall (λ x, x.2 = x.1) ss ∧
        store r.2 = store world.
Proof.
  intros r. assert (r.1 = Server.CaldavReplied (text 412 "ETag mismatch")) as E by by vm_compute.
  split; [exact E|]. destruct (run_execution (Server.run_task stale_put) world) as (ss & He & Hs).
  fold r in He, Hs. exists ss. split; [exact He|].
  assert (Forall (λ x, x.2 = x.1) ss) as Hf.
  { eapply refused_requests_change_nothing; [exact He|]. rewrite E. exists 412%Z. by split; [|lia]. }
  split; [exact Hf|by apply Hs].
Defined.
End RefusalsExamples.
