(* ===== verification/ObjectStore.v ===== *)
(** * The object methods as an abstract store

    What a client of one calendar is promised, without the database: a map from UID to
    (ETag, data), and the ETags that were ever handed out.  [request_step] is the
    specification of one request as a relation between stores; the theorems show that
    any sequence of GET, PUT, DELETE and other requests to [Router.object_method]
    implements a run of it, and draw consequences that only the specification needs. *)
From Stdlib Require Import NArith ZArith.
From S2P Require Import Prelude RustStr Effects Models Db DbUsers DbCalendars DbEvents Ical.
From S2P Require Import Http Xml Properties CaldavHandlers CaldavRouter Closure Sim Layer.
From S2P Require Import Integrity.
From S2P Require Import EventsSpec HandlersSpec.
From stdpp Require Import options.
Set Default Proof Using "Type*".

(** ** The specification *)

Module ObjectStore.

Record t : Type := mk {
  entries : gmap string (string * string);
  (** every ETag that has been given to an object *)
  issued : list string;
}.

(** A request to an object of the calendar: the file name of its path, and the rest. *)
Definition Req : Type := string * Request.t.

(** If-Match admits the entry there is, if any. *)
Definition admits (if_match : option string) (entry : option (string * string)) : bool :=
  match if_match with
  | None => true
  | Some e => bool_decide (e = "*") || bool_decide (fst <$> entry = Some e)
  end.

Definition name_of (file : string) : string := Str.trim_end_matches ICS file.

Inductive request_step : t → Req → Reply → t → Prop :=
| get_found s file r etag data :
    Request.method r = "GET" → entries s !! name_of file = Some (etag, data) →
    request_step s (file, r) (object_reply etag data) s
| get_missing s file r :
    Request.method r = "GET" → entries s !! name_of file = None →
    request_step s (file, r) (text 404 "Object not found") s
| put_unreadable s file r msg :
    Request.method r = "PUT" → put_text r = None →
    request_step s (file, r) (text 400 msg) s
| put_refused s file r data msg :
    Request.method r = "PUT" → put_text r = Some data →
    admits (Request.header "if-match" r) (entries s !! put_uid file data) = false →
    request_step s (file, r) (text 412 msg) s
| put_stored s file r data etag :
    Request.method r = "PUT" → put_text r = Some data →
    let entry := entries s !! put_uid file data in
    admits (Request.header "if-match" r) entry = true →
    etag ∉ issued s → etag ≠ "*" →
    request_step s (file, r)
      (Respond (Response.mk (if entry then 204 else 201) [("etag", etag)] ""))
      (mk (<[put_uid file data := (etag, data)]> (entries s)) (etag :: issued s))
| delete_missing s file r :
    Request.method r = "DELETE" → entries s !! name_of file = None →
    request_step s (file, r) (text 404 "Object not found") s
| delete_done s file r entry :
    Request.method r = "DELETE" → entries s !! name_of file = Some entry →
    request_step s (file, r) (text 204 "")
      (mk (delete (name_of file) (entries s)) (issued s))
| other_method s file r :
    Request.method r ∉ ["GET"; "PUT"; "DELETE"] →
    request_step s (file, r) Router.method_not_allowed s.

Inductive requests_run : t → list Req → list Reply → t → Prop :=
| run_nil s : requests_run s [] [] s
| run_cons s s' s'' r rs reply replies :
    request_step s r reply s' → requests_run s' rs replies s'' →
    requests_run s (r :: rs) (reply :: replies) s''.

(** An ETag stands for one content: once a client has seen the ETag [e] with the data
    [d] under a UID, it never meets it there with other data. *)
Definition seen (s : t) (uid e d : string) : Prop :=
  e ∈ issued s ∧ ∀ d', entries s !! uid = Some (e, d') → d' = d.

Lemma seen_step s r reply s' uid e d :
  request_step s r reply s' → seen s uid e d → seen s' uid e d.
Proof.
  intros Hs [He Hd]. destruct Hs; try done; split; simpl; [by right| |done|].
  - intros d'. rewrite lookup_insert_Some. intros [[_ [= -> ->]]|[_ Hl]]; [done|by apply Hd].
  - intros d'. rewrite lookup_delete_Some. intros [_ Hl]. by apply Hd.
Qed.

Lemma seen_run s rs replies s' uid e d :
  requests_run s rs replies s' → seen s uid e d → seen s' uid e d.
Proof.
  induction 1 as [|s1 s2 s3 r rs reply replies Hs _ IH]; intros He; [done|].
  by eapply IH, seen_step.
Qed.
End ObjectStore.

(** ** The implementation *)

Section implementation.
Context `{SqliteLaws, UuidLaws}.
Context (Hnf : ∀ n, sql_fault n = None).
Context (Hv4 : ∀ n, valid_header_value (uuid_v4 n) = true).

(** The requests of a calendar's clients, served one after the other. *)
Fixpoint serve_all (c : string) (rs : list ObjectStore.Req) : M (list Reply) :=
  match rs with
  | [] => mret []
  | (file, r) :: rs =>
      reply ← Router.object_method c file r;
      replies ← serve_all c rs;
      mret (reply :: replies)
  end.

Definition entry_of (o : CalendarObject.t) : string * string :=
  (CalendarObject.etag o, CalendarObject.ical_data o).

(** The store that the rows of calendar [c] implement. *)
Record implements (c : string) (s : ObjectStore.t) (w : World Store) : Prop := {
  im_wf : Db.wf (db (store w));
  im_calendar : c ∈ Db.calendar_ids (db (store w));
  im_entries : ∀ uid,
    ObjectStore.entries s !! uid = entry_of <$> objects_of (db (store w)) !! (c, uid);
  im_etags : ∀ uid o, objects_of (db (store w)) !! (c, uid) = Some o →
    valid_header_value (CalendarObject.etag o) = true;
  im_stored : ∀ uid o, objects_of (db (store w)) !! (c, uid) = Some o →
    CalendarObject.etag o ∈ ObjectStore.issued s;
  im_ids : ∀ n, (clock w ≤ n)%N →
    uuid_v7 n ∉ CalendarObject.id <$> Db.calendar_objects (db (store w));
  im_issued : ∀ n, (clock w ≤ n)%N →
    Events.etag_of_uuid (uuid_v4 n) ∉ ObjectStore.issued s;
}.

(** The objects of other calendars. *)
Definition others_kept (c : string) (w w' : World Store) : Prop :=
  ∀ k, k.1 ≠ c → objects_of (db (store w')) !! k = objects_of (db (store w)) !! k.

Lemma etag_of_uuid_inj u v : Events.etag_of_uuid u = Events.etag_of_uuid v → u = v.
Proof. intros [= E]. by apply str_app_inj_r in E. Qed.

(** A later moment of an unchanged database. *)
Lemma implements_later c s w w' :
  implements c s w → store w' = store w → (clock w ≤ clock w')%N → implements c s w'.
Proof.
  intros [Hwf Hc He Hv Hst Hi Hs] Es Hcl. split; rewrite ?Es; try done.
  - intros n Hn. apply Hi. lia.
  - intros n Hn. apply Hs. lia.
Qed.

(** An id of the new database is an old one or the new object's. *)
Lemma ids_after_insert d d' k o :
  Db.wf d → Db.wf d' → objects_of d' = <[k := o]> (objects_of d) →
  ∀ i, i ∈ CalendarObject.id <$> Db.calendar_objects d' →
       i = CalendarObject.id o ∨ i ∈ CalendarObject.id <$> Db.calendar_objects d.
Proof.
  intros Hwf Hwf' E i (o' & -> & Ho')%list_elem_of_fmap.
  assert (objects_of d' !! CalendarObject.key o' = Some o') as Hl
    by (by apply lookup_objects_of).
  rewrite E, lookup_insert_Some in Hl. destruct Hl as [[_ ->]|[_ Hl]]; [by left|right].
  apply lookup_objects_of in Hl as [Hl _]; [|done]. by apply list_elem_of_fmap_2.
Qed.

Lemma admits_if_match m old :
  ObjectStore.admits m (entry_of <$> old) = if_match_ok m old.
Proof.
  destruct m as [e|]; [|done]. unfold ObjectStore.admits, if_match_ok.
  destruct old as [o|]; simpl; repeat case_bool_decide; naive_solver.
Qed.

Lemma noted_calendars_ids c uid kind σ σ' :
  noted c uid kind σ σ' → Db.calendar_ids (db σ') = Db.calendar_ids (db σ).
Proof.
  intros [(n & tok & E) _ _ _ _ _ _]. unfold Db.calendar_ids. rewrite E. unfold bumped.
  rewrite <- list_fmap_compose. apply list_fmap_ext. intros ? x _. simpl. by case_decide.
Qed.

(** *** The steps *)

Lemma get_implements c s w file r :
  implements c s w → Request.method r = "GET" →
  let res := run (Router.object_method c file r) w in
  ObjectStore.request_step s (file, r) res.1 s ∧ implements c s res.2 ∧
  store res.2 = store w.
Proof.
  intros Him Hm res. subst res. unfold Router.object_method. rewrite decide_True by done.
  pose proof Him as [Hwf _ He Hv _ _ _]. rewrite run_handle_get by done. cbn [fst snd].
  split; [|split; [eapply implements_later; [done|done|simpl; lia]|done]].
  specialize (He (ObjectStore.name_of file)). unfold ObjectStore.name_of in He.
  destruct (objects_of _ !! _) as [o|] eqn:Ho.
  - unfold build. cbn [forallb snd]. rewrite (Hv _ _ Ho). by eapply ObjectStore.get_found.
  - by apply ObjectStore.get_missing.
Qed.

Lemma put_refusal_implements c s w file r :
  implements c s w → Request.method r = "PUT" →
  match put_text r with
  | None => True
  | Some data => ObjectStore.admits (Request.header "if-match" r)
                   (ObjectStore.entries s !! put_uid file data) = false
  end →
  let res := run (Router.object_method c file r) w in
  ObjectStore.request_step s (file, r) res.1 s ∧ implements c s res.2 ∧
  store res.2 = store w.
Proof.
  intros Him Hm Hno res. subst res. unfold Router.object_method.
  rewrite decide_False, decide_True by (done || by rewrite Hm).
  pose proof (run_clock (Put.handle_put c file r) w) as Hcl.
  pose proof (put_text_cases c file r) as E. pose proof Him as [Hwf _ He _ _ _ _].
  destruct (put_text r) as [data|] eqn:Ht.
  - rewrite He, admits_if_match in Hno.
    rewrite E, run_bind in Hcl |- *.
    destruct (run_check_if_match Hnf (Request.header "if-match" r) c (put_uid file data) w Hwf)
      as (x & w1 & Hr & Hs & _ & Hok). rewrite Hr in Hcl |- *.
    rewrite Hno in Hok. destruct Hok as [msg ->]. rewrite run_ret in Hcl |- *.
    split; [|split; [by eapply implements_later|done]].
    eapply ObjectStore.put_refused; [done..|]. by rewrite He, admits_if_match.
  - destruct E as [msg E]. rewrite E, run_ret in Hcl |- *.
    split; [by apply ObjectStore.put_unreadable|]. split; [|done].
    by eapply implements_later.
Qed.

Lemma put_stored_implements c s w file r data :
  implements c s w → (Db.sync_seq (db (store w)) < 2 ^ 63 - 1)%Z →
  Request.method r = "PUT" → put_text r = Some data →
  ObjectStore.admits (Request.header "if-match" r)
    (ObjectStore.entries s !! put_uid file data) = true →
  let res := run (Router.object_method c file r) w in
  ∃ s', ObjectStore.request_step s (file, r) res.1 s' ∧ implements c s' res.2 ∧
    Db.sync_seq (db (store res.2)) = (Db.sync_seq (db (store w)) + 1)%Z ∧
    others_kept c w res.2.
Proof.
  intros Him Hseq Hm Ht Had res. subst res. unfold Router.object_method.
  rewrite decide_False, decide_True by (done || by rewrite Hm).
  pose proof Him as [Hwf Hc He Hv Hst Hi Hs].
  pose proof Had as Hif. rewrite He, admits_if_match in Hif.
  destruct (run_accepted_put Hnf c file r data w Hwf (conj Hc Hseq) Hi Hv4 Ht Hif)
    as (obj & w' & -> & Hobj & Hwf' & Hdata & _ & (n & Hn & Hetag) & Hold & Hnew & Hnoted).
  set (uid := put_uid file data) in *. cbn [fst snd].
  assert (CalendarObject.etag obj ∉ ObjectStore.issued s) as Hni
    by (rewrite Hetag; apply Hs; lia).
  exists (ObjectStore.mk (<[uid := (CalendarObject.etag obj, data)]> (ObjectStore.entries s))
            (CalendarObject.etag obj :: ObjectStore.issued s)).
  split; [|split; [|split; [by apply (noted_seq _ _ _ _ _ Hnoted)|]]].
  - replace (if objects_of (db (store w)) !! (c, uid) then 204%Z else 201%Z)
      with (if ObjectStore.entries s !! uid then 204%Z else 201%Z)
      by (rewrite He; by destruct (objects_of _ !! _)).
    apply ObjectStore.put_stored; try done. rewrite Hetag. done.
  - split; cbn [ObjectStore.entries ObjectStore.issued]; [done|..].
    + by rewrite (noted_calendars_ids _ _ _ _ _ Hnoted).
    + intros u. rewrite Hobj. destruct (decide (u = uid)) as [->|Hne].
      * rewrite !lookup_insert_eq. simpl. unfold entry_of. by rewrite Hdata.
      * rewrite !lookup_insert_ne by congruence. apply He.
    + intros u o. rewrite Hobj, lookup_insert_Some. intros [[_ <-]|[_ Ho]]; [|by eapply Hv].
      rewrite Hetag. apply valid_etag, Hv4.
    + intros u o. rewrite Hobj, lookup_insert_Some. intros [[_ <-]|[_ Ho]]; [by left|].
      right. by eapply Hst.
    + intros k Hk Hin. apply (ids_after_insert _ _ _ _ Hwf Hwf' Hobj) in Hin as [E|Hin].
      * destruct (objects_of (db (store w)) !! (c, uid)) as [o|] eqn:Ho.
        -- rewrite (Hold o eq_refl) in E. apply (Hi k); [lia|]. rewrite E.
           apply lookup_objects_of in Ho as [Ho _]; [|done]. by apply list_elem_of_fmap_2.
        -- destruct (Hnew eq_refl) as (j & Hj & Ej). rewrite Ej in E.
           apply uuid_v7_inj in E. lia.
      * apply (Hi k); [lia|done].
    + intros k Hk [E|Hin]%elem_of_cons; [|apply (Hs k); [lia|done]].
      rewrite Hetag in E. apply etag_of_uuid_inj, uuid_v4_inj in E. lia.
  - intros k Hk. rewrite Hobj. apply lookup_insert_ne. by intros <-.
Qed.

Lemma delete_implements c s w file r :
  implements c s w → (Db.sync_seq (db (store w)) < 2 ^ 63 - 1)%Z →
  Request.method r = "DELETE" →
  let res := run (Router.object_method c file r) w in
  ∃ s', ObjectStore.request_step s (file, r) res.1 s' ∧ implements c s' res.2 ∧
    (Db.sync_seq (db (store res.2)) ≤ Db.sync_seq (db (store w)) + 1)%Z ∧
    others_kept c w res.2.
Proof.
  intros Him Hseq Hm res. subst res. unfold Router.object_method.
  rewrite 2!decide_False, decide_True by (done || by rewrite Hm).
  pose proof Him as [Hwf Hc He Hv Hst Hi Hs].
  pose proof (run_clock (Delete.handle_delete_object c file) w) as Hcl.
  pose proof (keeps_run _ w (keeps_delete_object c (ObjectStore.name_of file)) Hwf) as Hwf'.
  unfold Delete.handle_delete_object in *. fold (ObjectStore.name_of file) in *.
  rewrite run_bind in Hcl |- *.
  destruct (run_delete_object Hnf w c (ObjectStore.name_of file) Hwf Hseq)
    as (x & w' & Hrun & Hobj & Hx).
  rewrite Hrun in Hcl, Hwf' |- *. specialize (He (ObjectStore.name_of file)) as Hname.
  destruct (objects_of (db (store w)) !! (c, ObjectStore.name_of file)) as [o|] eqn:Ho;
    destruct Hx as [-> Hx]; rewrite run_ret in Hcl |- *; cbn [fst snd] in *.
  - eexists. split; [by eapply ObjectStore.delete_done|].
    split; [|split; [rewrite (noted_seq _ _ _ _ _ Hx); lia|]].
    + split; cbn [ObjectStore.entries ObjectStore.issued]; [done|..].
      * by rewrite (noted_calendars_ids _ _ _ _ _ Hx).
      * intros u. rewrite Hobj. destruct (decide (u = ObjectStore.name_of file)) as [->|Hne].
        -- by rewrite !lookup_delete_eq.
        -- rewrite !lookup_delete_ne by congruence. apply He.
      * intros u o'. rewrite Hobj, lookup_delete_Some. intros [_ Ho']. by eapply Hv.
      * intros u o'. rewrite Hobj, lookup_delete_Some. intros [_ Ho']. by eapply Hst.
      * intros k Hk (o' & E & Ho')%list_elem_of_fmap. apply (Hi k); [lia|]. rewrite E.
        assert (objects_of (db (store w')) !! CalendarObject.key o' = Some o') as Hl
          by (by apply lookup_objects_of).
        rewrite Hobj, lookup_delete_Some in Hl. destruct Hl as [_ Hl].
        apply lookup_objects_of in Hl as [Hl _]; [|done]. by apply list_elem_of_fmap_2.
      * intros k Hk. apply Hs. lia.
    + intros k Hk. rewrite Hobj. apply lookup_delete_ne. by intros <-.
  - exists s. split; [by apply ObjectStore.delete_missing|].
    split; [by eapply implements_later|]. unfold others_kept. rewrite Hx. split; [lia|done].
Qed.

(** One request of any kind. *)
Lemma request_implements c s w file r :
  implements c s w → (Db.sync_seq (db (store w)) < 2 ^ 63 - 1)%Z →
  let res := run (Router.object_method c file r) w in
  ∃ s', ObjectStore.request_step s (file, r) res.1 s' ∧ implements c s' res.2 ∧
    (Db.sync_seq (db (store res.2)) ≤ Db.sync_seq (db (store w)) + 1)%Z ∧
    others_kept c w res.2.
Proof.
  intros Him Hseq res.
  assert (∀ s', ObjectStore.request_step s (file, r) res.1 s' ∧ implements c s' res.2 ∧
            store res.2 = store w → ∃ s', ObjectStore.request_step s (file, r) res.1 s' ∧
            implements c s' res.2 ∧
            (Db.sync_seq (db (store res.2)) ≤ Db.sync_seq (db (store w)) + 1)%Z ∧
            others_kept c w res.2) as Hsame.
  { intros s' (? & ? & E). exists s'. split; [done|]. split; [done|].
    unfold others_kept. rewrite E. split; [lia|done]. }
  destruct (decide (Request.method r = "GET")) as [Hm|Hg];
    [by eapply Hsame, get_implements|].
  destruct (decide (Request.method r = "DELETE")) as [Hm|Hd]; [by apply delete_implements|].
  destruct (decide (Request.method r = "PUT")) as [Hm|Hp].
  - destruct (put_text r) as [data|] eqn:Ht;
      [destruct (ObjectStore.admits (Request.header "if-match" r)
                   (ObjectStore.entries s !! put_uid file data)) eqn:Ha|].
    + destruct (put_stored_implements c s w file r data Him Hseq Hm Ht Ha)
        as (s' & ? & ? & E & ?). exists s'. subst res. rewrite E. split_and!; [done..|lia|done].
    + eapply Hsame, put_refusal_implements; [done..|]. by rewrite Ht.
    + eapply Hsame, put_refusal_implements; [done..|]. by rewrite Ht.
  - apply (Hsame s). subst res. unfold Router.object_method.
    rewrite !decide_False by done. split; [|done].
    apply ObjectStore.other_method. set_solver.
Qed.

(** A sequence of requests implements a run of the specification. *)
Lemma serve_all_implements c rs : ∀ s w,
  implements c s w →
  (Db.sync_seq (db (store w)) + Z.of_nat (length rs) < 2 ^ 63)%Z →
  let res := run (serve_all c rs) w in
  ∃ s', ObjectStore.requests_run s rs res.1 s' ∧ implements c s' res.2 ∧
    (Db.sync_seq (db (store res.2)) ≤ Db.sync_seq (db (store w)) + Z.of_nat (length rs))%Z ∧
    others_kept c w res.2.
Proof.
  induction rs as [|[file r] rs IH]; intros s w Him Hseq; cbn [serve_all length] in *.
  - exists s. split; [constructor|]. split; [done|]. split; [simpl; lia|done].
  - rewrite run_bind.
    destruct (request_implements c s w file r) as (s1 & Hst & Him1 & Hle & Hk1); [done|lia|].
    destruct (run (Router.object_method c file r) w) as [reply w1]. cbn [fst snd] in *.
    destruct (IH s1 w1 Him1) as (s2 & Hrs & Him2 & Hle2 & Hk2); [lia|].
    rewrite run_bind. destruct (run (serve_all c rs) w1) as [replies w2]. cbn [fst snd] in *.
    rewrite run_ret. exists s2. split; [by econstructor|]. split; [done|].
    split; [simpl; lia|]. intros k Hk. by rewrite Hk2, Hk1.
Qed.

(** C3: Any sequence of requests to the objects of a calendar (GET, PUT with or without
    If-Match, DELETE, other methods, with any bodies) is answered as the abstract store
    of UIDs, ETags and data answers it, and leaves the rows that implement the store's
    next state; ETags are never given twice, and the objects of other calendars stay as
    they are.  So whatever the abstract store promises, clients of the server get. *)
Theorem object_store_refinement c rs s w :
  implements c s w →
  (Db.sync_seq (db (store w)) + Z.of_nat (length rs) < 2 ^ 63)%Z →
  let res := run (serve_all c rs) w in
  ∃ s', ObjectStore.requests_run s rs res.1 s' ∧ implements c s' res.2 ∧
    others_kept c w res.2.
Proof.
  intros Him Hseq. destruct (serve_all_implements c rs s w Him Hseq) as (s' & ? & ? & _ & ?).
  by exists s'.
Qed.

(** C8: Optimistic locking, for requests served one after the other: a client reads an
    object, any other requests [rs] are served, then the client sends a PUT with the
    ETag it read.  The PUT is accepted exactly if the object still is what the client
    read, data and all; otherwise it is answered 412 and changes nothing. *)
Theorem optimistic_locking c rs s w file put data o :
  implements c s w →
  (Db.sync_seq (db (store w)) + Z.of_nat (length rs) < 2 ^ 63 - 1)%Z →
  Request.method put = "PUT" → put_text put = Some data →
  let k := (c, put_uid file data) in
  objects_of (db (store w)) !! k = Some o →
  Request.header "if-match" put = Some (CalendarObject.etag o) → CalendarObject.etag o ≠ "*" →
  let w1 := (run (serve_all c rs) w).2 in
  let res := run (Router.object_method c file put) w1 in
  if decide (entry_of <$> objects_of (db (store w1)) !! k = Some (entry_of o)) then
    status_of res.1 = Some 204%Z ∧
    CalendarObject.ical_data <$> objects_of (db (store res.2)) !! k = Some data
  else status_of res.1 = Some 412%Z ∧ store res.2 = store w1.
Proof.
  intros Him Hseq Hm Ht k Ho Hif Hstar w1 res. subst res.
  destruct (serve_all_implements c rs s w Him) as (s1 & Hrun & Him1 & Hle & _); [lia|].
  fold w1 in Hrun, Him1, Hle.
  assert (ObjectStore.seen s1 (put_uid file data) (CalendarObject.etag o)
            (CalendarObject.ical_data o)) as [_ Hseen].
  { eapply ObjectStore.seen_run; [exact Hrun|]. split; [by eapply im_stored|].
    intros d'. rewrite (im_entries _ _ _ Him). fold k. rewrite Ho. by intros [= ->]. }
  pose proof (im_entries _ _ _ Him1 (put_uid file data)) as He. fold k in He.
  rewrite He in Hseen.
  assert (ObjectStore.admits (Request.header "if-match" put)
            (ObjectStore.entries s1 !! put_uid file data) =
          bool_decide (entry_of <$> objects_of (db (store w1)) !! k = Some (entry_of o))) as Ha.
  { rewrite He, Hif. unfold ObjectStore.admits. rewrite bool_decide_false by done. cbn [orb].
    apply bool_decide_ext. split; [|by intros ->].
    destruct (objects_of (db (store w1)) !! k) as [o1|]; [|done].
    unfold entry_of in *. simpl in *. intros [= E]. rewrite E in *.
    by rewrite (Hseen _ eq_refl). }
  pose proof Ha as Hok. rewrite He, admits_if_match in Hok.
  assert (Router.object_method c file put = Put.handle_put c file put) as ->.
  { unfold Router.object_method. by rewrite decide_False, decide_True by (done || by rewrite Hm). }
  case_decide as Hd.
  - rewrite bool_decide_true in Hok by done.
    destruct (run_accepted_put Hnf c file put data w1) as (obj & w' & -> & Hobj & _ & Hdata & _);
      [by apply Him1|split; [by eapply im_calendar|lia]|by apply Him1|done..|].
    fold k. destruct (objects_of (db (store w1)) !! k); [|done].
    split; [done|]. cbn [snd]. rewrite Hobj. fold k. by rewrite lookup_insert_eq, <- Hdata.
  - rewrite bool_decide_false in Hok by done.
    pose proof (run_refused_put Hnf c file put w1 (im_wf _ _ _ Him1)) as Hr. cbn zeta in Hr.
    rewrite Ht in Hr. by apply Hr.
Qed.
End implementation.

(** ** On the simulated server *)

Module ObjectStoreExamples.
Import Sim HandlersExamples.

Definition etag1 : string := CalendarObject.etag meeting.

Definition store1 : ObjectStore.t :=
  ObjectStore.mk {[ "meeting" := (etag1, "DATA") ]} [etag1].

Lemma objects_database k o :
  objects_of database !! k = Some o → k = ("cal", "meeting") ∧ o = meeting.
Proof.
  intros Ho. apply lookup_objects_of in Ho as [Ho <-]; [|exact database_wf].
  apply list_elem_of_singleton in Ho as ->. done.
Qed.

Lemma store1_implemented : implements "cal" store1 world.
Proof.
  split.
  - exact database_wf.
  - apply sim_ready.
  - intros uid. change (db (store world)) with database.
    destruct (decide (uid = "meeting")) as [->|Hne]; [reflexivity|].
    cbn [ObjectStore.entries store1]. rewrite lookup_singleton_ne by congruence.
    destruct (objects_of database !! ("cal", uid)) as [o|] eqn:Ho; [|done].
    apply objects_database in Ho as [[= ->] _]. done.
  - by intros uid o [_ ->]%objects_database.
  - intros uid o [_ ->]%objects_database. by left.
  - exact sim_fresh.
  - intros n _. apply not_elem_of_cons. split; [|apply not_elem_of_nil].
    intros E. by vm_compute in E.
Qed.

(** Bob saves the meeting again, between Alice's GET and her PUT. *)
Definition save_meeting : ObjectStore.Req := ("meeting.ics", put [] "NEW").
Definition alice_put : Request.t := put [("if-match", Some etag1)] "MINE".

Lemma object_store_refinement_witness :
  let res := run (serve_all "cal" [save_meeting; ("meeting.ics", alice_put)]) world in
  ∃ s', ObjectStore.requests_run store1 [save_meeting; ("meeting.ics", alice_put)] res.1 s'.
Proof.
  destruct (object_store_refinement nofault sim_visible "cal"
              [save_meeting; ("meeting.ics", alice_put)] store1 world store1_implemented)
    as (s' & Hrun & _); [by vm_compute|]. by exists s'.
Defined.

Lemma optimistic_locking_witness :
  let w1 := (run (serve_all "cal" [save_meeting]) world).2 in
  status_of (run (Router.object_method "cal" "meeting.ics" alice_put) w1).1 = Some 412%Z.
Proof.
  pose proof (optimistic_locking nofault sim_visible "cal" [save_meeting] store1 world
                "meeting.ics" alice_put "MINE" meeting store1_implemented eq_refl eq_refl
                eq_refl eq_refl eq_refl) as Hl.
  cbn zeta in Hl. rewrite decide_False in Hl by (by vm_compute). by apply Hl.
Defined.
End ObjectStoreExamples.
