(* ===== verification/Faults.v ===== *)
(** * What requests leave behind when statements fail

    The statements of a request are not one transaction: a failure between two of them
    leaves what the first ones did.  [outcome] is a small program logic over stores in
    which every statement may fail, at any step number; with it, the theorems say what a
    PUT, DELETE, MKCALENDAR or PROPPATCH can leave behind, and that what is acknowledged
    has happened. *)
From Stdlib Require Import NArith ZArith.
From S2P Require Import Prelude RustStr Effects Models Db DbUsers DbCalendars DbEvents Ical.
From S2P Require Import Http Xml Properties CaldavHandlers CaldavRouter Sim Layer Integrity.
From S2P Require Import Closure ReadOnly EventsSpec CalendarsSpec HandlersSpec.
From stdpp Require Import options.
Set Default Proof Using "Type*".

(** ** Programs under faults *)

Section logic.
Context `{Sqlite}.

(** However the program is run on [σ], it ends with a result and a store of which [Q]
    holds. *)
Definition outcome {A} (p : M A) (σ : Store) (Q : A → Store → Prop) : Prop :=
  ∀ n, Q (run p (mkWorld n σ)).1 (store (run p (mkWorld n σ)).2).

Lemma outcome_ret {A} (a : A) σ (Q : A → Store → Prop) : Q a σ → outcome (mret a) σ Q.
Proof. by intros HQ n. Qed.

Lemma outcome_bind {A B} (p : M A) (f : A → M B) σ Q :
  outcome p σ (λ a σ', outcome (f a) σ' Q) → outcome (p ≫= f) σ Q.
Proof.
  intros Hp n. specialize (Hp n). rewrite run_bind.
  destruct (run p (mkWorld n σ)) as [a [m σ']]. apply Hp.
Qed.

Lemma outcome_try {A B E} (p : M (Result A E)) (f : A → M (Result B E)) σ Q :
  outcome p σ (λ r σ', match r with Ok a => outcome (f a) σ' Q | Err e => Q (Err e) σ' end) →
  outcome (try_bind p f) σ Q.
Proof.
  intros Hp. apply outcome_bind. intros n. specialize (Hp n).
  destruct (run p (mkWorld n σ)) as [[a|e] w]; [exact Hp|by apply outcome_ret].
Qed.

Lemma outcome_try_assoc {A B C E} (p : M (Result A E)) (f : A → M (Result B E))
    (g : B → M (Result C E)) σ Q :
  outcome (try_bind p (λ a, try_bind (f a) g)) σ Q → outcome (try_bind (try_bind p f) g) σ Q.
Proof. intros Hp n. rewrite run_try_assoc. apply Hp. Qed.

Lemma outcome_try_bind {A B C E} (p : M A) (f : A → M (Result B E))
    (g : B → M (Result C E)) σ Q :
  outcome (p ≫= λ a, try_bind (f a) g) σ Q → outcome (try_bind (p ≫= f) g) σ Q.
Proof. intros Hp n. specialize (Hp n). rewrite run_bind in Hp. by rewrite run_try_bind. Qed.

Lemma outcome_observe {R} (g : N → Store → R) σ Q :
  (∀ n, Q (g n σ) σ) → outcome (observe g) σ Q.
Proof. intros HQ n. rewrite run_observe. apply HQ. Qed.

(** A statement takes effect, or fails and has none. *)
Lemma outcome_stmt {R} (stmt : Stmt R) σ Q :
  (∀ e, Q (Err (AppError.Database e)) σ) →
  (∀ n, Q (map_err AppError.Database (stmt n (db σ)).1) (with_db (stmt n (db σ)).2 σ)) →
  outcome (sql_try stmt) σ Q.
Proof.
  intros He Hs n. destruct (sql_fault n) as [e|] eqn:Ef.
  - rewrite (run_sql_try_fault _ _ e) by done. apply He.
  - rewrite run_sql_try by done. apply Hs.
Qed.

Lemma outcome_weaken {A} (p : M A) σ (Q Q' : A → Store → Prop) :
  outcome p σ Q → (∀ a σ', Q a σ' → Q' a σ') → outcome p σ Q'.
Proof. intros Hp HQ n. apply HQ, Hp. Qed.
End logic.

(** ** The object functions *)

Section objects.
Context `{SqliteLaws, Uuids}.

Lemma outcome_get_object c uid σ Q :
  Db.wf (db σ) → (∀ e, Q (Err e) σ) → Q (Ok (objects_of (db σ) !! (c, uid))) σ →
  outcome (Events.get_object_by_uid c uid) σ Q.
Proof.
  intros Hwf He HQ. apply outcome_stmt; [by intros e|]. intros n. simpl.
  rewrite with_db_id, filter_object by done.
  rewrite scan_short by (destruct (objects_of _ !! _); simpl; lia).
  by destruct (objects_of _ !! _).
Qed.

(** A step of the server between which the objects stay. *)
Definition same_objects (σ σ' : Store) : Prop :=
  Db.calendar_objects (db σ') = Db.calendar_objects (db σ) ∧ Db.wf (db σ').

(** The end of a mutation: the log entry and the calendar's new tokens.  Either both are
    written, or the function fails; the objects stay. *)
Lemma outcome_note {B} c uid kind (f : M (AppResult B)) σ (Q : AppResult B → Store → Prop) t :
  Db.wf (db σ) →
  (∀ e σ', same_objects σ σ' → Q (Err (AppError.Database e)) σ') →
  (∀ σ', same_objects σ σ' → noted c uid kind σ σ' → outcome f σ' Q) →
  outcome (_ ←? Events.log_sync_change c uid kind t; _ ←? Calendars.bump_ctag c; f) σ Q.
Proof.
  intros Hwf He Hf. apply outcome_try, outcome_stmt; [intros e; by apply He|]. intros n.
  pose proof (sound_insert_sync_change c uid kind t n (db σ) Hwf) as Hwf1.
  unfold Events.insert_sync_change in *. case_bool_decide; [|by apply He].
  case_bool_decide; [by apply He|]. case_bool_decide; [|by apply He]. cbn [map_err].
  unfold Calendars.bump_ctag. apply outcome_try. unfold Calendars.new_sync_token, now_v7.
  apply outcome_bind, outcome_bind, outcome_observe. intros m. apply outcome_ret.
  apply outcome_try, outcome_stmt; [intros e; by apply He|]. intros k.
  apply outcome_ret. apply Hf; [|split; simpl; eauto; done].
  split; [done|]. by apply (sound_update_tokens _ _ c).
Qed.

Lemma objects_of_calendar_objects d d' :
  Db.calendar_objects d' = Db.calendar_objects d → objects_of d' = objects_of d.
Proof. intros E. unfold objects_of. by rewrite E. Qed.

(** Noting a change of the objects notes it of the store before. *)
Lemma noted_from c uid kind σ g σ' :
  noted c uid kind (with_db (Db.set_objects g (db σ)) σ) σ' → noted c uid kind σ σ'.
Proof. intros []. by split. Qed.

(** The objects are as they were, or with the new object. *)
Definition saved_or_not (c uid data : string) (σ σ' : Store) : Prop :=
  objects_of (db σ') = objects_of (db σ) ∨
  ∃ obj, CalendarObject.ical_data obj = data ∧
         objects_of (db σ') = <[(c, uid) := obj]> (objects_of (db σ)).

(** The object is saved and noted. *)
Definition saved (c uid data : string) (r : CalendarObject.t * bool) (σ σ' : Store) : Prop :=
  let old := objects_of (db σ) !! (c, uid) in
  r.2 = is_none old ∧ CalendarObject.ical_data r.1 = data ∧
  objects_of (db σ') = <[(c, uid) := r.1]> (objects_of (db σ)) ∧
  noted c uid (if old then "modified" else "created") σ σ'.

(** After the write of the object: noting it and reading it back. *)
Lemma outcome_saved c uid data kind t obj (is_new : bool) σ σ1 :
  Db.wf (db σ1) → (∀ σ', noted c uid kind σ1 σ' → noted c uid kind σ σ') →
  objects_of (db σ1) = <[(c, uid) := obj]> (objects_of (db σ)) →
  CalendarObject.ical_data obj = data →
  let old := objects_of (db σ) !! (c, uid) in
  is_new = is_none old → kind = (if old then "modified" else "created") →
  outcome (_ ←? Events.log_sync_change c uid kind t; _ ←? Calendars.bump_ctag c;
           obj ←? Events.get_object_by_uid c uid;
           mret (match obj with
                 | Some obj => Ok (obj, is_new)
                 | None => Err (AppError.Internal "Object upserted but not found")
                 end)) σ1
    (λ r σ', match r with
             | Ok s => saved c uid data s σ σ'
             | Err _ => saved_or_not c uid data σ σ'
             end).
Proof.
  intros Hwf Hn Hobj Hdata old Hnew Hkind.
  assert (∀ σ', same_objects σ1 σ' →
    objects_of (db σ') = <[(c, uid) := obj]> (objects_of (db σ))) as Hsame.
  { intros σ' [E _]. by rewrite (objects_of_calendar_objects _ _ E). }
  apply outcome_note; [done|..].
  - intros e σ' Hs. right. exists obj. auto.
  - intros σ' Hs Hnoted. apply outcome_try, outcome_get_object; [apply Hs|..].
    + intros e. right. exists obj. auto.
    + rewrite (Hsame _ Hs), lookup_insert_eq. apply outcome_ret.
      unfold saved. fold old. rewrite <- Hkind. auto.
Qed.

(** A save under faults. *)
Lemma outcome_upsert_object c uid data f σ :
  Db.wf (db σ) →
  outcome (Events.upsert_object c uid data f) σ
    (λ r σ', match r with
             | Ok s => saved c uid data s σ σ'
             | Err _ => saved_or_not c uid data σ σ'
             end).
Proof.
  intros Hwf. unfold Events.upsert_object.
  apply outcome_try, outcome_get_object; [done|by intros; left|].
  destruct (objects_of (db σ) !! (c, uid)) as [o|] eqn:Ho; cbn [is_none];
    unfold Events.new_etag, Calendars.new_sync_token, new_v4, now_v7;
    apply outcome_bind, outcome_bind, outcome_observe; intros m; apply outcome_ret;
    apply outcome_bind, outcome_bind, outcome_observe; intros k; apply outcome_ret.
  - apply outcome_try_assoc, outcome_try, outcome_stmt; [by intros; left|]. intros n.
    eapply outcome_saved; rewrite ?Ho; try done.
    + by apply sound_update_object.
    + intros σ' Hn. exact (noted_from _ _ _ _ _ _ Hn).
    + by apply objects_of_update.
    + done.
  - apply outcome_try_bind, outcome_bind, outcome_observe. intros i.
    apply outcome_try_assoc, outcome_try, outcome_stmt; [by intros; left|]. intros n.
    pose proof (objects_of_insert n (db σ) (uuid_v7 i) c uid (Events.etag_of_uuid (uuid_v4 m))
                  data f Hwf Ho) as Hins.
    pose proof (sound_insert_object (uuid_v7 i) c uid (Events.etag_of_uuid (uuid_v4 m)) data f n
                  (db σ) Hwf) as Hwf1.
    unfold Events.insert_object in *. case_bool_decide; [by left|].
    case_bool_decide; [by left|]. case_bool_decide; [|by left]. cbn [map_err fst snd] in *.
    destruct Hins as [_ Hm]; [done..|].
    eapply outcome_saved; rewrite ?Ho; try done.
    intros σ' Hn. exact (noted_from _ _ _ _ _ _ Hn).
Qed.

(** A deletion under faults. *)
Lemma outcome_delete_object c uid σ :
  Db.wf (db σ) →
  let objects := objects_of (db σ) in
  outcome (Events.delete_object c uid) σ
    (λ r σ', match r with
             | Ok _ => objects !! (c, uid) ≠ None ∧
                       objects_of (db σ') = delete (c, uid) objects ∧
                       noted c uid "deleted" σ σ'
             | Err (AppError.NotFound _) => objects !! (c, uid) = None ∧ σ' = σ
             | Err _ => objects_of (db σ') = objects ∨
                        objects_of (db σ') = delete (c, uid) objects
             end).
Proof.
  intros Hwf objects. unfold Events.delete_object.
  apply outcome_try, outcome_stmt; [by intros; left|]. intros n.
  destruct (objects_of_delete n (db σ) c uid Hwf) as [Hm Hrows]. rewrite Hrows.
  fold objects in Hm |- *.
  destruct (objects !! (c, uid)) as [o|] eqn:Ho; cbn [map_err is_some_b is_none negb].
  - rewrite decide_False by done. unfold Calendars.new_sync_token, now_v7.
    apply outcome_bind, outcome_bind, outcome_observe; intros k; apply outcome_ret.
    assert (∀ σ', same_objects (with_db (Events.delete_by_uid c uid n (db σ)).2 σ) σ' →
      objects_of (db σ') = delete (c, uid) objects) as Hsame.
    { intros σ' [E _]. by rewrite (objects_of_calendar_objects _ _ E). }
    apply (outcome_note c uid "deleted"); [by apply sound_delete_object|..].
    + intros e σ' Hs. right. by apply Hsame.
    + intros σ' Hs Hn. apply outcome_ret. split; [done|]. split; [by apply Hsame|].
      exact (noted_from _ _ _ _ _ _ Hn).
  - rewrite decide_True by done. apply outcome_ret. split; [done|].
    by rewrite delete_absent, with_db_id by done.
Qed.

(** ** The methods *)

(** The store a PUT leaves: its body's object saved (and the change noted), or not. *)
Definition put_acknowledged (c file : string) (request : Request.t) (σ σ' : Store) : Prop :=
  ∃ data obj is_new, put_text request = Some data ∧
    saved c (put_uid file data) data (obj, is_new) σ σ'.

Lemma outcome_check_if_match m c uid σ :
  Db.wf (db σ) →
  outcome (Put.check_if_match m c uid) σ
    (λ r σ', σ' = σ ∧ match r with
                      | Some resp => ∃ s msg, resp = text s msg ∧ (s = 412 ∨ s = 500)%Z
                      | None => if_match_ok m (objects_of (db σ) !! (c, uid)) = true
                      end).
Proof.
  intros Hwf. unfold Put.check_if_match, if_match_ok. destruct m as [e|];
    [|by apply outcome_ret].
  case_decide as He; [apply outcome_ret; by rewrite bool_decide_true|].
  apply outcome_bind, outcome_get_object; [done| |].
  - intros err. apply outcome_ret. split; [done|]. eauto.
  - apply outcome_ret. split; [done|]. destruct (objects_of _ !! _) as [o|]; [|eauto].
    case_decide as Ho; [|eauto]. rewrite (bool_decide_true (_ = e)) by done. apply orb_true_r.
Qed.

(** A PUT under faults. *)
Lemma outcome_put c file request σ :
  Db.wf (db σ) →
  outcome (Put.handle_put c file request) σ
    (λ r σ',
      match status_of r with
      | Some s =>
          (s ∈ [201; 204]%Z ∧ put_acknowledged c file request σ σ') ∨
          (s ∈ [400; 412]%Z ∧ σ' = σ) ∨
          (s = 500%Z ∧ ∃ data, put_text request = Some data ∧
             saved_or_not c (put_uid file data) data σ σ')
      | None => put_acknowledged c file request σ σ'
      end).
Proof.
  intros Hwf. pose proof (put_text_cases c file request) as E.
  destruct (put_text request) as [data|] eqn:Ht.
  - rewrite E. apply outcome_bind.
    eapply outcome_weaken; [by apply outcome_check_if_match|]. intros [resp|] σ1 [-> Hr].
    + destruct Hr as (s & msg & -> & [-> | ->]); apply outcome_ret; right.
      * left. split; [set_solver|done].
      * right. split; [done|]. exists data. split; [done|by left].
    + apply outcome_bind. eapply outcome_weaken; [by apply outcome_upsert_object|].
      intros [[obj is_new]|e] σ' Hs; apply outcome_ret.
      * assert (put_acknowledged c file request σ σ') as Ha by (exists data, obj, is_new; auto).
        unfold build. destruct (forallb _ _); [|done]. left. split; [|done].
        destruct is_new; set_solver.
      * right. right. split; [done|]. by exists data.
  - destruct E as [msg ->]. apply outcome_ret. right. left. split; [set_solver|done].
Qed.

(** C5: What a PUT answers is true even when statements fail, at any point.  A 201 or 204
    means that the body is stored under its UID and that the calendar's tokens and its
    log have been updated; a 400 or 412, that nothing has changed; a 500, that the
    objects are as they were or have the new object, and never anything else. *)
Theorem put_under_faults c file request w :
  Db.wf (db (store w)) →
  let r := run (Put.handle_put c file request) w in
  match status_of r.1 with
  | Some s =>
      (s ∈ [201; 204]%Z ∧ put_acknowledged c file request (store w) (store r.2)) ∨
      (s ∈ [400; 412]%Z ∧ store r.2 = store w) ∨
      (s = 500%Z ∧ ∃ data, put_text request = Some data ∧
         saved_or_not c (put_uid file data) data (store w) (store r.2))
  | None => put_acknowledged c file request (store w) (store r.2)
  end.
Proof. destruct w as [n σ]. intros Hwf. by apply outcome_put. Qed.

(** C27: What a DELETE of an object answers is true even when statements fail: a 204 means
    that the object was there, is gone, and that its deletion is in the log; a 404, that
    it was not there and nothing has changed; a 500, that the object may still be there
    or be gone, and that every other object is as it was. *)
Theorem delete_under_faults c file w :
  Db.wf (db (store w)) →
  let objects := objects_of (db (store w)) in
  let k := (c, Str.trim_end_matches ICS file) in
  let r := run (Delete.handle_delete_object c file) w in
  (r.1 = text 204 "" ∧ objects !! k ≠ None ∧ objects_of (db (store r.2)) = delete k objects ∧
     noted c k.2 "deleted" (store w) (store r.2)) ∨
  (r.1 = text 404 "Object not found" ∧ objects !! k = None ∧ store r.2 = store w) ∨
  (r.1 = text 500 "Internal error" ∧
     (objects_of (db (store r.2)) = objects ∨ objects_of (db (store r.2)) = delete k objects)).
Proof.
  intros Hwf objects k r.
  assert (outcome (Delete.handle_delete_object c file) (store w) (λ r σ',
    (r = text 204 "" ∧ objects !! k ≠ None ∧ objects_of (db σ') = delete k objects ∧
       noted c k.2 "deleted" (store w) σ') ∨
    (r = text 404 "Object not found" ∧ objects !! k = None ∧ σ' = store w) ∨
    (r = text 500 "Internal error" ∧
       (objects_of (db σ') = objects ∨ objects_of (db σ') = delete k objects)))) as Ho;
    [|subst r; destruct w; apply Ho].
  apply outcome_bind. eapply outcome_weaken; [by apply outcome_delete_object|].
  intros [u|[]] σ' Hr; apply outcome_ret; naive_solver.
Qed.
End objects.

(** ** The methods of collections *)

Section collections.
Context `{SqliteLaws, Uuids, Argon2, QuickXml}.

Lemma outcome_get_calendar c σ Q :
  Db.wf (db σ) → (∀ e, Q (Err (AppError.Database e)) σ) →
  (c ∉ Db.calendar_ids (db σ) → Q (Ok None) σ) →
  (∀ cal, cal ∈ Db.calendars (db σ) → Calendar.id cal = c → Q (Ok (Some cal)) σ) →
  outcome (Calendars.get_calendar_by_id c) σ Q.
Proof.
  intros Hwf He Hn Hs. apply outcome_stmt; [done|]. intros n. cbn. rewrite with_db_id.
  destruct (decide (c ∈ Db.calendar_ids (db σ))) as [Hin|Hni].
  - apply list_elem_of_fmap in Hin as (cal & -> & Hcal).
    rewrite head_filter_key by (done || apply Hwf). by apply Hs.
  - rewrite head_filter_absent by done. by apply Hn.
Qed.

(** What an acknowledged method does to a calendar: the status and the change. *)
Inductive collection_change (user : User.t) (c : string) (request : Request.t) :
    Z → Store → Store → Prop :=
| change_made σ tok at_ :
    Request.method request = "MKCALENDAR" → c ∉ Db.calendar_ids (db σ) →
    collection_change user c request 201 σ
      (with_db (Db.set_calendars (λ l, l ++ [made_calendar c (User.id user)
         (to_bytes_or_empty (64 * 1024) (Request.body request)) tok at_]) (db σ)) σ)
| change_removed σ :
    Request.method request = "DELETE" → c ∈ Db.calendar_ids (db σ) →
    collection_change user c request 204 σ (with_db (Calendars.without_calendar c (db σ)) σ)
| change_patched σ n :
    Request.method request = "PROPPATCH" → c ∈ Db.calendar_ids (db σ) →
    collection_change user c request 207 σ
      (with_db (Db.set_calendars (fmap (λ cal,
         if decide (Calendar.id cal = c)
         then patched_calendar n (to_bytes_or_empty (64 * 1024) (Request.body request)) cal
         else cal)) (db σ)) σ).

(** How a method may end: the change is acknowledged, made but answered 500, or not made
    and not acknowledged. *)
Definition collection_end (user : User.t) (c : string) (request : Request.t) (σ : Store)
    (r : Reply) (σ' : Store) : Prop :=
  (∃ s, status_of r = Some s ∧ collection_change user c request s σ σ') ∨
  (status_of r = Some 500%Z ∧ ∃ s, collection_change user c request s σ σ') ∨
  (σ' = σ ∧ ∀ s, (Request.method request, s) ∈
     [("MKCALENDAR", 201); ("DELETE", 204); ("PROPPATCH", 207)]%Z → status_of r ≠ Some s).

(** An answer without effect. *)
Lemma end_unchanged user c request σ r :
  (∀ s, (Request.method request, s) ∈
     [("MKCALENDAR", 201); ("DELETE", 204); ("PROPPATCH", 207)]%Z → status_of r ≠ Some s) →
  collection_end user c request σ r σ.
Proof. by right; right. Qed.

(** A status that no method acknowledges with. *)
Lemma end_refused user c request σ s body :
  bool_decide (s ∈ [201; 204; 207]%Z) = false → collection_end user c request σ (text s body) σ.
Proof.
  intros Hs%bool_decide_eq_false. apply end_unchanged. intros s' Hs' [= ->]. apply Hs.
  revert Hs'. rewrite !elem_of_cons. intros [[= _ ->]|[[= _ ->]|[[= _ ->]|[]%elem_of_nil]]]; auto.
Qed.

(** A creation under faults. *)
Lemma outcome_create_calendar c owner name descr color tz σ :
  Db.wf (db σ) →
  outcome (Calendars.create_calendar_with_id c owner name descr color tz) σ (λ r σ',
    (σ' = σ ∧ ∃ e, r = Err e) ∨
    (c ∉ Db.calendar_ids (db σ) ∧ ∃ tok at_, σ' = with_db (Db.set_calendars (λ l,
       l ++ [Calendar.mk c owner name descr color tz tok tok at_ at_]) (db σ)) σ)).
Proof.
  intros Hwf. unfold Calendars.create_calendar_with_id, Calendars.new_sync_token, now_v7.
  apply outcome_bind, outcome_bind, outcome_observe. intros m. apply outcome_ret.
  set (tok := Calendars.sync_token_of_uuid _).
  apply outcome_try, outcome_stmt; [intros e; left; by eauto|]. intros n.
  pose proof (sound_insert_calendar c owner name descr color tz tok tok n (db σ) Hwf) as Hwf'.
  unfold Calendars.insert_calendar in *.
  case_bool_decide as Hin; cbn [map_err fst snd] in *; [left; rewrite with_db_id; by eauto|].
  case_bool_decide; cbn [map_err fst snd] in *; [|left; rewrite with_db_id; by eauto].
  apply outcome_try, outcome_get_calendar; [done|..]; intros; try apply outcome_ret;
    right; (split; [done|by do 2 eexists]).
Qed.

(** An update under faults. *)
Lemma outcome_update_calendar cal name descr color tz σ :
  Db.wf (db σ) → cal ∈ Db.calendars (db σ) →
  outcome (Calendars.update_calendar (Calendar.id cal) name descr color tz) σ (λ r σ',
    (σ' = σ ∧ ∃ e, r = Err e) ∨
    ∃ n, σ' = with_db (Db.set_calendars (fmap (λ c',
       if decide (Calendar.id c' = Calendar.id cal)
       then updated_calendar n name descr color tz c' else c')) (db σ)) σ).
Proof.
  intros Hwf Hcal. unfold Calendars.update_calendar.
  apply outcome_try, outcome_get_calendar; [done|intros e; left; by eauto|..].
  { intros _. apply outcome_ret. left. by eauto. }
  intros cal' Hcal' E.
  rewrite (NoDup_fmap_inj Calendar.id _ _ _ (Db.wf_calendar_id _ Hwf) Hcal' Hcal E).
  apply outcome_try, outcome_ret. cbn [ok_or].
  apply outcome_try, outcome_stmt; [intros e; left; by eauto|]. intros n.
  rewrite (surjective_pairing (Calendars.update_properties _ _ _ _ _ _ _)).
  rewrite update_properties_patches by done. cbn [fst map_err].
  apply outcome_try, outcome_get_calendar;
    [|intros; try apply outcome_ret; right; by eexists..].
  rewrite <- update_properties_patches by done. by apply sound_update_properties.
Qed.

Lemma outcome_mkcalendar user n c request σ :
  Db.wf (db σ) → Request.method request = "MKCALENDAR" →
  outcome (MkCalendar.handle_mkcalendar user n c request) σ (collection_end user c request σ).
Proof using All.
  intros Hwf Hm. unfold MkCalendar.handle_mkcalendar.
  case_decide; [|by apply outcome_ret, end_refused].
  assert (outcome (r ← Calendars.create_calendar_with_id c (User.id user)
      (default c (MkCalendar.extract_displayname (to_bytes_or_empty (64 * 1024) (Request.body request))))
      "" (default "#0E61B9" (MkCalendar.extract_calendar_color
            (to_bytes_or_empty (64 * 1024) (Request.body request)))) "UTC";
    mret (match r with
          | Ok _ => text 201 "Calendar created"
          | Err _ => text 500 "Failed to create calendar"
          end)) σ (collection_end user c request σ)) as Hcreate.
  { apply outcome_bind. eapply outcome_weaken; [by apply outcome_create_calendar|].
    intros r σ' [[-> [e ->]]|(Hni & tok & at_ & ->)]; apply outcome_ret; [by apply end_refused|].
    destruct r as [cal|e]; [left; exists 201%Z|right; left; split; [done|exists 201%Z]].
    - split; [done|]. by apply change_made.
    - by apply change_made. }
  apply outcome_bind, outcome_get_calendar; [done|intros e; exact Hcreate|intros _; exact Hcreate|].
  intros cal _ _. by apply outcome_ret, end_refused.
Qed.

Lemma outcome_delete_calendar user c request σ :
  Db.wf (db σ) → Request.method request = "DELETE" →
  outcome (Delete.handle_delete_calendar c) σ (collection_end user c request σ).
Proof using All.
  intros Hwf Hm. apply outcome_bind. unfold Calendars.delete_calendar.
  apply outcome_try, outcome_stmt; [intros e; by apply outcome_ret, end_refused|].
  intros n. destruct (decide (c ∈ Db.calendar_ids (db σ))) as [Hin|Hni].
  - rewrite delete_by_id_present by done. cbn [map_err fst snd]. rewrite decide_False by done.
    apply outcome_ret, outcome_ret. left. exists 204%Z. split; [done|]. by apply change_removed.
  - rewrite delete_by_id_absent by done. cbn [map_err fst snd]. rewrite decide_True by done.
    rewrite with_db_id. by apply outcome_ret, outcome_ret, end_refused.
Qed.

Lemma outcome_proppatch user ctx c request σ :
  Db.wf (db σ) → Request.method request = "PROPPATCH" →
  outcome (PropPatch.handle_proppatch user ctx c request) σ (collection_end user c request σ).
Proof using All.
  intros Hwf Hm. unfold PropPatch.handle_proppatch.
  apply outcome_bind, outcome_get_calendar; [done|intros; by apply outcome_ret, end_refused..|].
  intros cal Hcal <-. apply outcome_bind. eapply outcome_weaken; [by apply outcome_update_calendar|].
  intros r σ' [[-> [e ->]]|(n & ->)]; apply outcome_ret; [by apply end_refused|].
  assert (Calendar.id cal ∈ Db.calendar_ids (db σ)) as Hin by by apply list_elem_of_fmap_2.
  destruct r as [cal'|e]; [left; exists 207%Z|right; left; split; [done|exists 207%Z]].
  - split; [done|]. by apply change_patched.
  - by apply change_patched.
Qed.

(** C6: What the methods of a calendar collection answer is true even when statements
    fail, at any point.  A 201 of MKCALENDAR means that the user's new calendar is there,
    with the body's name and colour; a 204 of DELETE, that the calendar is gone with all
    that belongs to it; a 207 of PROPPATCH, that exactly the properties of the body have
    changed; a 500, that this has happened or nothing; and any other answer, to any
    method, that nothing has changed. *)
Theorem collection_under_faults user ctx n c request w :
  Db.wf (db (store w)) →
  let r := run (Router.collection_method user ctx n c request) w in
  collection_end user c request (store w) r.1 (store r.2).
Proof using All.
  intros Hwf r. subst r.
  assert (outcome (Router.collection_method user ctx n c request) (store w)
            (collection_end user c request (store w))) as Ho; [|destruct w; apply Ho].
  assert (∀ p m, reads p → Request.method request = m →
    bool_decide (m ∈ ["MKCALENDAR"; "DELETE"; "PROPPATCH"]) = false →
    outcome p (store w) (collection_end user c request (store w))) as Hreads.
  { intros p m Hp <- Hm%bool_decide_eq_false k. rewrite reads_run by done. apply end_unchanged.
    intros s Hs. exfalso. apply Hm. revert Hs. rewrite !elem_of_cons.
    intros [[= -> _]|[[= -> _]|[[= -> _]|[]%elem_of_nil]]]; auto. }
  unfold Router.collection_method. repeat case_decide.
  - by eapply Hreads; [apply (closed_propfind_calendar (J := λ A, @reads Store A))|..].
  - by eapply Hreads; [apply (closed_handle_report (J := λ A, @reads Store A))|..].
  - by apply outcome_proppatch.
  - by apply outcome_mkcalendar.
  - by apply outcome_delete_calendar.
  - apply outcome_ret. by apply end_refused.
Qed.
End collections.

Module FaultsExamples.
Import Sim HandlersExamples.

(** The log entry of a save fails: the answer is a 500. *)
Lemma put_under_faults_witness :
  let r := run (@Put.handle_put (failing_at 104) uuids "cal" "meeting.ics" (put [] "NEW")) world in
  status_of r.1 = Some 500%Z ∧
  saved_or_not "cal" "meeting" "NEW" (store world) (store r.2).
Proof.
  pose proof (@put_under_faults (failing_at 104) (failing_at_laws 104) uuids "cal" "meeting.ics"
                (put [] "NEW") world database_wf) as Hp.
  cbv zeta in Hp |- *. match type of Hp with context [run ?p ?w] =>
    assert (status_of (run p w).1 = Some 500%Z) as E by by vm_compute end.
  rewrite E in Hp. split; [exact E|].
  destruct Hp as [[Hs _]|[[Hs _]|(_ & data & Ht & Hd)]];
    [apply (bool_decide_pack _) in Hs; vm_compute in Hs; destruct Hs..|].
  vm_compute in Ht. injection Ht as <-. exact Hd.
Defined.

(** The log entry of a deletion fails: the answer is a 500 again. *)
Lemma delete_under_faults_witness :
  let r := run (@Delete.handle_delete_object (failing_at 102) uuids "cal" "meeting.ics") world in
  r.1 = text 500 "Internal error" ∧
  (objects_of (db (store r.2)) = objects_of database ∨
   objects_of (db (store r.2)) = delete ("cal", "meeting") (objects_of database)).
Proof.
  pose proof (@delete_under_faults (failing_at 102) (failing_at_laws 102) uuids "cal"
                "meeting.ics" world database_wf) as Hd.
  cbv zeta in Hd |- *. match type of Hd with context [run ?p ?w] =>
    assert ((run p w).1 = text 500 "Internal error") as E by by vm_compute end.
  rewrite E in Hd. split; [exact E|].
  destruct Hd as [[Ht _]|[[Ht _]|[_ Hd]]]; [by vm_compute in Ht..|exact Hd].
Defined.

(** Alice's MKCALENDAR, whose new row cannot be read back: the answer is a 500, and the
    calendar is there. *)
Lemma collection_under_faults_witness :
  let request := Request.mk "MKCALENDAR" [] (BodyBytes "") in
  let r := run (@Router.collection_method (failing_at 103) uuids quick_xml alice None "alice" "home"
                  request) world in
  status_of r.1 = Some 500%Z ∧ "home" ∈ Db.calendar_ids (db (store r.2)) ∧
  @collection_end (failing_at 103) quick_xml alice "home" request (store world) r.1 (store r.2).
Proof.
  intros request r. split; [by vm_compute|]. split.
  - apply (bool_decide_unpack _). by vm_compute.
  - exact (@collection_under_faults (failing_at 103) (failing_at_laws 103) uuids argon2 quick_xml
             alice None "alice" "home" request world database_wf).
Defined.

(** A PROPPATCH whose look-up fails is answered that the calendar, which is there, is not
    found. *)
Example failed_lookup_is_404 :
  run (@PropPatch.handle_proppatch (failing_at 100) quick_xml alice None "cal"
         (Request.mk "PROPPATCH" [] (BodyBytes ""))) world =
    (text 404 "Calendar not found", tick world (store world)) ∧
  "cal" ∈ Db.calendar_ids database.
Proof. split; [by vm_compute|by left]. Qed.
End FaultsExamples.
