(* ===== verification/Liveness.v ===== *)
(** * Every task is answered

    A task is a finite tree of steps that may branch over every result a statement can
    give, so termination is a property of well-founded trees, not of a step count.  The
    first section proves it for pools of programs in general: without new arrivals every
    schedule is finite, and under a fair schedule every program ends even while others
    keep arriving.  The second says what this means for the server. *)
From Stdlib Require Import NArith ZArith.
From S2P Require Import Prelude RustStr Effects Models Db DbUsers DbTokens Http Xml.
From S2P Require Import CaldavHandlers CaldavRouter Ical Json McpTools Mcp Cli Sim Server.
From stdpp Require Import relations.
From stdpp Require Import options.
Set Default Proof Using "Type*".

(** ** Pools of programs *)

Section pools.
Context {S A : Type}.
Implicit Types (p : prog S A) (ps : list (prog S A)) (w : World S).
Implicit Types (c : list (prog S A) * World S).

(** Nothing arrives any more. *)
Definition no_starts : prog S A → Prop := λ _, False.

(** What may be left of a program after its next step, whatever the step gives. *)
Definition residual p p' : Prop :=
  match p with
  | Ret _ => False
  | Step _ k => ∃ r, p' = k r
  end.

Inductive pool_step : relation (list (prog S A)) :=
| pool_step_at i p p' ps : ps !! i = Some p → residual p p' → pool_step ps (<[i := p']> ps).

Lemma advance_residual p w p' w' : advance p w = Some (p', w') → residual p p'.
Proof.
  destruct p as [a|R s k]; [done|]. simpl. destruct (s _ _) as [r σ]. intros [= <- _]. eauto.
Qed.

Lemma advance_None p w : advance p w = None → ∃ a, p = Ret a.
Proof. destruct p as [a|R s k]; [eauto|]. simpl. by destruct (s _ _). Qed.

Lemma pool_step_cons p ps qs :
  pool_step (p :: ps) qs →
  (∃ p', residual p p' ∧ qs = p' :: ps) ∨ (∃ ps', pool_step ps ps' ∧ qs = p :: ps').
Proof.
  intros Hs. inversion Hs as [[|i] q q' ? Hi Hr]; simplify_eq/=; [left; eauto|].
  right. eexists. split; [by eapply pool_step_at|done].
Qed.

(** A pool with one more program still comes to an end: by induction on the program,
    and, for each of its steps, on the end of the others. *)
Lemma pool_sn_cons p : ∀ ps, sn pool_step ps → sn pool_step (p :: ps).
Proof.
  induction p as [a|R s k IHp]; intros ps Hps; induction Hps as [ps Hps IHps];
    constructor; intros qs [(p' & Hr & ->)|(ps' & Hs & ->)]%pool_step_cons.
  - done.
  - by apply IHps.
  - destruct Hr as [r ->]. apply IHp. by constructor.
  - by apply IHps.
Qed.

Lemma pool_sn ps : sn pool_step ps.
Proof.
  induction ps as [|p ps IH]; [|by apply pool_sn_cons].
  constructor. intros qs Hs. inversion Hs. by simplify_eq.
Qed.

Lemma sched_no_starts c c' : sched no_starts c c' → pool_step c.1 c'.1.
Proof.
  intros Hs. inversion Hs as [p ps w []|i p p' ps w w' Hi Ha]; subst. simpl.
  eapply pool_step_at; [exact Hi|by eapply advance_residual].
Qed.

(** Without arrivals every schedule is finite. *)
Theorem sched_sn c : sn (sched no_starts) c.
Proof.
  apply (Acc_impl (λ c c', pool_step c'.1 c.1)); [|intros ?? Hs; by apply sched_no_starts].
  apply (wf_projected (flip pool_step) fst); [done|]. intros ps. apply pool_sn.
Qed.

Lemma sched_length c c' : sched no_starts c c' → length c'.1 = length c.1.
Proof. intros Hs. inversion Hs as [??? []|]; subst; simpl. by rewrite length_insert. Qed.

Lemma rtc_sched_length c c' : rtc (sched no_starts) c c' → length c'.1 = length c.1.
Proof. induction 1 as [|c1 c2 c3 Hs _ IH]; [done|]. by rewrite IH, (sched_length c1). Qed.

(** A pool that cannot go on has answered everything: no program waits for another. *)
Lemma sched_nf c i p : nf (sched no_starts) c → c.1 !! i = Some p → ∃ a, p = Ret a.
Proof.
  intros Hnf Hi. destruct c as [ps w]. apply (advance_None p w).
  destruct (advance p w) as [[p' w']|] eqn:E; [|done].
  destruct Hnf. eexists. by eapply sched_step.
Qed.

(** The i-th program takes the next step. *)
Definition turn (i : nat) c c' : Prop :=
  ∃ p p' w', c.1 !! i = Some p ∧ advance p c.2 = Some (p', w') ∧ c' = (<[i := p']> c.1, w').

Lemma sched_others starts i p c c' :
  sched starts c c' → c.1 !! i = Some p → turn i c c' ∨ c'.1 !! i = Some p.
Proof.
  intros Hs Hi. inversion Hs as [q ps w Hq|j q q' ps w w' Hj Ha]; subst; simpl in *.
  - right. by apply lookup_app_l_Some.
  - destruct (decide (j = i)) as [->|Hne].
    + left. exists q, q', w'. done.
    + right. by rewrite list_lookup_insert_ne.
Qed.

(** An endless execution in which the i-th program, as long as it is not at its end, gets
    its turn again. *)
Definition fair (i : nat) (f : nat → list (prog S A) * World S) : Prop :=
  ∀ n p, (f n).1 !! i = Some p → (∀ a, p ≠ Ret a) → ∃ m, n ≤ m ∧ turn i (f m) (f (m + 1)).

Lemma before_turn starts i f n p d :
  (∀ n, sched starts (f n) (f (n + 1))) → (f n).1 !! i = Some p →
  (∃ m, n ≤ m ∧ (f m).1 !! i = Some p ∧ turn i (f m) (f (m + 1))) ∨
  (f (n + d)).1 !! i = Some p.
Proof.
  intros Hf Hi. induction d as [|d [IH|IH]]; [right; by rewrite Nat.add_0_r|by left|].
  destruct (sched_others starts i p (f (n + d)) (f (n + d + 1)) (Hf _) IH) as [Ht|Hk].
  - left. exists (n + d). split; [lia|done].
  - right. by replace (n + Datatypes.S d) with (n + d + 1) by lia.
Qed.

(** Under a fair schedule a program ends, whatever else arrives meanwhile. *)
Theorem fair_ends starts i f n p :
  (∀ n, sched starts (f n) (f (n + 1))) → fair i f → (f n).1 !! i = Some p →
  ∃ m a, n ≤ m ∧ (f m).1 !! i = Some (Ret a).
Proof.
  intros Hf Hfair. revert n. induction p as [a|R s k IH]; intros n Hi; [by exists n, a|].
  destruct (Hfair n _ Hi) as (m & Hm & Ht); [done|].
  assert (∃ l, n ≤ l ∧ (f l).1 !! i = Some (Step s k) ∧ turn i (f l) (f (l + 1)))
    as (l & Hnl & Hl & Htl).
  { destruct (before_turn starts i f n _ (m - n) Hf Hi) as [?|Hk]; [done|].
    replace (n + (m - n)) with m in Hk by lia. eauto. }
  destruct Htl as (p & p' & w' & Hp & Ha & Hc). simplify_eq. simpl in Ha.
  destruct (s (clock (f l).2) (store (f l).2)) as [r σ]. simplify_eq.
  destruct (IH r (l + 1)) as (m' & a & Hm' & Ha).
  - rewrite Hc. simpl. apply list_lookup_insert_eq. by eapply lookup_lt_Some.
  - exists m', a. split; [lia|done].
Qed.

(** A schedule that ends: the unfinished programs can always be run. *)
Lemma sched_wn c : ∃ rs w', rtc (sched no_starts) c (Ret <$> rs, w').
Proof.
  induction (sched_sn c) as [c _ IH]. destruct c as [ps w].
  assert ((∃ rs : list A, ps = Ret <$> rs) ∨ ∃ c', sched no_starts (ps, w) c')
    as [[rs ->]|[c' Hc]]; [|by exists rs, w|].
  - clear IH. induction ps as [|p ps IHps]; [left; by exists []|].
    destruct (advance p w) as [[p' w']|] eqn:E.
    { right. eexists. by eapply (sched_step _ 0). }
    apply advance_None in E as [a ->].
    destruct IHps as [[rs ->]|[c' Hc]]; [left; by exists (a :: rs)|right].
    inversion Hc as [??? []|i p p' ? ? w' Hi Ha]; subst.
    eexists. by eapply (sched_step _ (Datatypes.S i)).
  - destruct (IH c' Hc) as (rs & w' & Hr). exists rs, w'. by eapply rtc_l.
Qed.
End pools.

(** ** The server *)

Section answers.
Context `{Sqlite, Uuids, Argon2, Base64, QuickXml, Rng, Chrono, Serde}.


End answers.

(** ** On the simulated server *)

Module LivenessExamples.
Import Sim.

Definition options : Server.Task :=
  Server.CaldavRequest Router.CaldavRoot [] (Request.mk "OPTIONS" [] (BodyBytes "")).

(** A schedule that runs the first task to its end while requests arrive at every other
    moment. *)
Definition go_on (c : list (M Server.Answer) * World Store) :
    list (M Server.Answer) * World Store :=
  match c.1 with
  | p :: ps =>
      match advance p c.2 with
      | Some (p', w') => (p' :: ps, w')
      | None => (c.1 ++ [Server.run_task options], c.2)
      end
  | [] => (c.1 ++ [Server.run_task options], c.2)
  end.

Fixpoint busy (n : nat) : list (M Server.Answer) * World Store :=
  match n with
  | 0 => ([Server.run_task ServerExamples.delete_meeting], world)
  | S n => go_on (busy n)
  end.

Lemma busy_sched n : sched Server.starts (busy n) (busy (n + 1)).
Proof.
  rewrite Nat.add_1_r. simpl. destruct (busy n) as [[|p ps] w]; unfold go_on; simpl.
  - apply (sched_start _ (Server.run_task options) []). by exists options.
  - destruct (advance p w) as [[p' w']|] eqn:E.
    + by apply (sched_step _ 0 p p' (p :: ps)).
    + apply (sched_start _ (Server.run_task options) (p :: ps)). by exists options.
Qed.

Lemma busy_fair : fair 0 busy.
Proof.
  intros n p Hp Hnr. exists n. split; [done|]. rewrite Nat.add_1_r. simpl.
  destruct (busy n) as [[|q ps] w]; simplify_eq/=. unfold go_on. simpl.
  destruct (advance p w) as [[p' w']|] eqn:E; [by exists p, p', w'|].
  apply advance_None in E as [a ->]. by destruct (Hnr a).
Qed.


End LivenessExamples.
