(* ===== verification/Replies.v ===== *)
(** * Every CalDAV request gets a proper reply

    A handler panics where it unwraps a response that was given an invalid header
    value.  The only data in headers are ETags, so the handlers are safe as long as
    every stored ETag is a valid header value; that is an invariant of the database,
    since ETags are drawn UUIDs in quotes.  [answers] is the judgement that a handler
    keeps the invariant and ends in a reply with one of the statuses of [statuses]. *)
From Stdlib Require Import NArith ZArith.
From S2P Require Import Prelude RustStr Effects Models Db DbUsers DbCalendars DbEvents.
From S2P Require Import DbShares DbTokens Ical Http Xml Properties CaldavHandlers CaldavRouter.
From S2P Require Import Json McpTools Mcp Cli Closure Layer Sim EventsSpec HandlersSpec.
From S2P Require Import Server.
From stdpp Require Import relations.
From stdpp Require Import options.
Set Default Proof Using "Type*".

Create HintDb replies.

(** The statuses the CalDAV server uses. *)
Definition statuses : list Z :=
  [200; 201; 204; 207; 301; 400; 401; 403; 404; 405; 412; 500]%Z.

(** A response, not a panic, with one of the statuses. *)
Definition proper (r : Reply) : bool :=
  match status_of r with Some s => bool_decide (s ∈ statuses) | None => false end.

(** Every stored ETag may be sent in a header. *)
Definition etag_ok (o : CalendarObject.t) : Prop :=
  valid_header_value (CalendarObject.etag o) = true.
Definition etags_ok (d : Db.t) : Prop := Forall etag_ok (Db.calendar_objects d).

(** The text of a UUID may be sent in a header. *)
Class UuidText `{Uuids} : Prop := uuid_v4_valid : ∀ n, valid_header_value (uuid_v4 n) = true.

(** ** The invariant *)

Section invariant.
Context `{Sqlite, UuidText}.

Lemma etags_same {R} (stmt : Stmt R) :
  (∀ n d, Db.calendar_objects (stmt n d).2 = Db.calendar_objects d) → preserves etags_ok stmt.
Proof. intros Hs n d Hd. unfold etags_ok. by rewrite Hs. Qed.

Lemma etags_shrink {R} (stmt : Stmt R) p :
  (∀ n d, Db.calendar_objects (stmt n d).2 = bfilter p (Db.calendar_objects d)) →
  preserves etags_ok stmt.
Proof.
  intros Hs n d Hd. unfold etags_ok in *. rewrite Hs, Forall_forall in *.
  intros o [_ Ho]%elem_of_bfilter. by apply Hd.
Qed.

Lemma etags_insert_object id c u n data f :
  preserves etags_ok (Events.insert_object id c u (Events.etag_of_uuid (uuid_v4 n)) data f).
Proof.
  intros m d Hd. unfold Events.insert_object. repeat case_bool_decide; try done.
  apply Forall_app. split; [done|]. constructor; [|done]. apply valid_etag, uuid_v4_valid.
Qed.

Lemma etags_update_object c u n data f :
  preserves etags_ok (Events.update_object c u (Events.etag_of_uuid (uuid_v4 n)) data f).
Proof.
  intros m d Hd. apply Forall_fmap. eapply Forall_impl; [exact Hd|]. intros o Ho. simpl.
  destruct (Events.is_object c u o); [|done]. apply valid_etag, uuid_v4_valid.
Qed.

Ltac etags_same_tac :=
  apply etags_same; intros ? ?;
  unfold Users.insert_user, Calendars.insert_calendar, Events.insert_sync_change,
    Shares.upsert_share, Tokens.insert_token; repeat case_bool_decide; reflexivity.

Lemma etags_delete_by_id id : preserves etags_ok (Calendars.delete_by_id id).
Proof.
  intros n d Hd. cbn. case_decide; [done|].
  eapply (etags_shrink (λ _ d, (Ok tt, Calendars.without_calendar id d))); [done|exact n|done].
Qed.

#[export] Instance etags_closed : StmtClosed (kept etags_ok).
Proof.
  split; unfold holds; try (intros; apply kept_execute; etags_same_tac).
  - apply _.
  - intros B f Hf. by apply yields_draw.
  - intros B f Hf. by apply yields_draw.
  - intros R s Hs. by apply kept_sessions.
  - intros id. apply kept_execute, etags_delete_by_id.
  - intros. apply kept_execute, etags_insert_object.
  - intros. apply kept_execute, etags_update_object.
  - intros c u. by eapply kept_execute, etags_shrink.
Qed.
End invariant.

#[export] Hint Resolve etags_closed layer_write_closed layer_read_closed kept_query_closed kept_prog_closed : replies.

(** ** Rules for replies *)

Definition answers (p : M Reply) : Prop := yields etags_ok proper p.

Section rules.
Context `{Sqlite, UuidText}.

Lemma answers_ret r : proper r → answers (mret r).
Proof. intros Hr. by apply (yields_ret _ proper). Qed.

Lemma answers_bind {A} (p : M A) (f : A → M Reply) :
  holds (kept etags_ok) p → (∀ a, answers (f a)) → answers (p ≫= f).
Proof. apply kept_bind. Qed.

(** An object that a query returns has a proper ETag. *)
Definition found_ok (r : AppResult (option CalendarObject.t)) : Prop :=
  match r with Ok (Some o) => etag_ok o | _ => True end.
Definition saved_ok (r : AppResult (CalendarObject.t * bool)) : Prop :=
  match r with Ok (o, _) => etag_ok o | Err _ => True end.

Lemma yields_get_object `{!SqliteLaws} c u :
  yields etags_ok found_ok (Events.get_object_by_uid c u).
Proof.
  intros n. apply safe_sql_try; [by intros ???|done|]. intros m d _ Hd. split; [done|].
  simpl. destruct (head _) as [o|] eqn:E; [|done]. simpl.
  apply head_Some_elem_of, elem_of_scan, elem_of_bfilter in E as [_ Ho].
  unfold etags_ok in Hd. rewrite Forall_forall in Hd. by apply Hd.
Qed.

Lemma yields_new_etag {B} P (Q : B → Prop) (f : string → M B) :
  (∀ n, yields P Q (f (Events.etag_of_uuid (uuid_v4 n)))) → yields P Q (Events.new_etag ≫= f).
Proof. exact (yields_draw P Q uuid_v4 (λ u, f (Events.etag_of_uuid u))). Qed.

Lemma yields_new_sync_token {B} P (Q : B → Prop) (f : string → M B) :
  (∀ n, yields P Q (f (Calendars.sync_token_of_uuid (uuid_v7 n)))) →
  yields P Q (Calendars.new_sync_token ≫= f).
Proof. exact (yields_draw P Q uuid_v7 (λ u, f (Calendars.sync_token_of_uuid u))). Qed.

Lemma yields_upsert_object `{!SqliteLaws} c u data fields :
  yields etags_ok saved_ok (Events.upsert_object c u data fields).
Proof.
  unfold Events.upsert_object. apply kept_try; [apply layer_object_by_uid|done|].
  intros existing. cbn zeta.
  apply yields_new_etag; intros n. apply yields_new_sync_token; intros m.
  apply kept_try; [apply layer_save|done|intros _].
  apply kept_try; [apply layer_bump_ctag|done|]. intros _.
  eapply yields_bind; [apply yields_get_object|]. intros [[o|]|e] Ho; by apply yields_ret.
Qed.
End rules.

(** One step of a derivation of [answers], by the form of the handler. *)
Ltac answers_step :=
  lazymatch goal with
  | |- answers (mret _) => apply answers_ret
  | |- Is_true (proper (match ?x with _ => _ end)) => destruct x
  | |- Is_true (proper _) => exact I
  | |- answers (mbind _ _) => apply answers_bind; [|intros ?]
  | |- answers (match ?x with _ => _ end) => destruct x
  | |- answers (let '_ := ?x in _) => destruct x
  | |- holds _ _ => closed_step
  end.

Ltac answers_tac :=
  repeat (answers_step || (progress cbn beta iota zeta) ||
          solve [eauto 4 with closure replies]).

(** ** The methods *)

Set Default Proof Using "All".

Section methods.
Context `{SqliteLaws, UuidText, QuickXml, Argon2, Rng}.

Lemma answers_get c f : answers (Get.handle_get c f).
Proof.
  unfold Get.handle_get. eapply yields_bind; [apply yields_get_object|].
  intros [[o|]|e] Ho; apply answers_ret; try exact I.
  unfold proper, build. cbn [forallb snd]. simpl in Ho. by rewrite Ho.
Qed.

(** The response that ends a request early, if there is one. *)
Definition early_ok {A} (r : A → option Reply) (a : A) : Prop :=
  match r a with Some resp => proper resp | None => True end.

Lemma yields_check_if_match m c u :
  yields etags_ok (early_ok id) (Put.check_if_match m c u).
Proof.
  unfold Put.check_if_match. destruct m as [e|]; [|by apply yields_ret].
  case_decide; [by apply yields_ret|].
  apply kept_bind; [apply layer_object_by_uid|].
  intros [[o|]|e']; apply yields_ret; [by case_decide|done..].
Qed.

Lemma answers_put c f r : answers (Put.handle_put c f r).
Proof.
  unfold Put.handle_put. destruct (to_bytes _ _) as [b|]; [|by apply answers_ret].
  destruct (Str.from_utf8 b) as [data|]; [|by apply answers_ret].
  eapply yields_bind; [apply yields_check_if_match|].
  intros [resp|] Hr; [by apply answers_ret|].
  eapply yields_bind; [apply yields_upsert_object|].
  intros [[o is_new]|e] Ho; apply answers_ret; [|done].
  unfold proper, build. cbn [forallb snd]. simpl in Ho. rewrite Ho. by destruct is_new.
Qed.

Lemma answers_object_method c f r : answers (Router.object_method c f r).
Proof.
  unfold Router.object_method. case_decide; [apply answers_get|].
  case_decide; [apply answers_put|]. case_decide; [|by apply answers_ret].
  unfold Delete.handle_delete_object. answers_tac.
Qed.

Lemma answers_propfind_calendar u x c r : answers (Propfind.handle_calendar u x c r).
Proof. unfold Propfind.handle_calendar. answers_tac. Qed.

Lemma answers_propfind_home u r : answers (Propfind.handle_calendar_home u r).
Proof. unfold Propfind.handle_calendar_home. answers_tac. Qed.

Lemma answers_email_home u p d e q : answers (Propfind.handle_email_home u p d e q).
Proof. unfold Propfind.handle_email_home. answers_tac. Qed.

(** Buffering a response again keeps its status. *)
Lemma proper_rebuffer limit r : proper r → proper (rebuffer limit r).
Proof. by destruct r. Qed.

Lemma answers_rebuffer limit (p : M Reply) :
  answers p → answers (r ← p; mret (rebuffer limit r)).
Proof.
  intros Hp. eapply yields_bind; [exact Hp|]. intros r Hr. apply answers_ret.
  by apply proper_rebuffer.
Qed.

Lemma answers_report u x c r : answers (Report.handle_report u x c r).
Proof.
  unfold Report.handle_report. destruct (Parse.parse_report _) as [report|];
    [|by apply answers_ret].
  apply answers_rebuffer. destruct report;
    unfold Report.handle_multiget, Report.handle_query, Report.handle_sync; answers_tac.
  apply closed_add_changes.
Qed.

Lemma answers_collection_method u x n c r : answers (Router.collection_method u x n c r).
Proof.
  unfold Router.collection_method. case_decide; [apply answers_propfind_calendar|].
  case_decide; [apply answers_report|].
  repeat case_decide; unfold PropPatch.handle_proppatch, MkCalendar.handle_mkcalendar,
    Delete.handle_delete_calendar; answers_tac.
Qed.
End methods.

#[export] Hint Resolve answers_object_method answers_collection_method answers_propfind_home
  answers_email_home : replies.

(** ** The routes *)

Section routes.
Context `{SqliteLaws, UuidText, QuickXml, Argon2, Rng, Base64}.

(** An authentication that fails does so with a proper response. *)
Definition refusal_ok (r : Result User.t Reply) : Prop :=
  match r with Ok _ => True | Err resp => proper resp end.

Lemma yields_header_auth h :
  yields etags_ok refusal_ok
    (u ← Auth.try_basic_auth h;
     mret (match u with
           | Some user => Ok user
           | None => Err Auth.unauthorized_response_fn
           end)).
Proof.
  apply kept_bind; [apply closed_try_basic_auth|]. intros [u|]; by apply yields_ret.
Qed.

Lemma yields_path_auth h name : yields etags_ok refusal_ok (Router.auth_or_path_user h name).
Proof.
  destruct h; [apply yields_header_auth|].
  apply kept_bind; [apply layer_user_by_username|]. intros [[u|]|e]; by apply yields_ret.
Qed.

Lemma yields_email_auth h mail : yields etags_ok refusal_ok (Router.auth_or_email_user h mail).
Proof.
  destruct h; [apply yields_header_auth|].
  apply kept_bind; [apply layer_user_by_email|]. intros [[u|]|e]; by apply yields_ret.
Qed.

Lemma answers_with_user auth k :
  yields etags_ok refusal_ok auth → (∀ u, answers (k u)) → answers (Router.with_user auth k).
Proof.
  intros Ha Hk. eapply yields_bind; [exact Ha|]. intros [u|resp] Hr; [apply Hk|].
  by apply answers_ret.
Qed.

Lemma answers_object_access u c k : answers k → answers (Router.with_object_access u c k).
Proof. intros Hk. unfold Router.with_object_access. answers_tac. Qed.

Lemma answers_collection_access u c r k :
  answers k → answers (Router.with_collection_access u c r k).
Proof. intros Hk. unfold Router.with_collection_access. answers_tac. Qed.

Lemma answers_root_propfind p h : answers (Router.root_propfind p h).
Proof. unfold Router.root_propfind, Router.inline_auth. answers_tac. Qed.

Lemma answers_email_discovery e r : answers (Router.handle_caldav_email_discovery e r).
Proof.
  unfold Router.handle_caldav_email_discovery. cbn zeta.
  case_decide; [by apply answers_ret|]. case_decide; [|by apply answers_ret].
  destruct (Router.extract_auth_header r); [answers_tac|].
  apply kept_bind; [apply layer_user_by_email|].
  intros [[u|]|err]; [apply answers_rebuffer, answers_email_home|by apply answers_ret..].
Qed.

(** The redirect of the principal route copies the user name of the path into a header. *)
Definition plain_route (e : Router.Endpoint) (captures : list string) : Prop :=
  match e, captures with
  | Router.PrincipalDiscovery, [username] => valid_header_value username = true
  | _, _ => True
  end.

Lemma answers_principal u r :
  valid_header_value u = true → answers (Router.handle_principal_discovery u r).
Proof.
  intros Hu. unfold Router.handle_principal_discovery. case_decide; apply answers_ret; [exact I|].
  unfold proper, build. cbn [forallb snd]. by rewrite !valid_header_app, Hu.
Qed.

Ltac answers_route :=
  unfold Router.handle_email_calendar_collection, Router.handle_email_object,
    Router.handle_calendar_home, Router.handle_calendar_collection, Router.handle_object;
  case_decide; [by apply answers_ret|];
  apply answers_with_user;
  [ lazymatch goal with
    | |- yields _ _ (Router.auth_or_path_user _ _) => apply yields_path_auth
    | |- _ => apply yields_email_auth
    end | intros u ];
  lazymatch goal with
  | |- answers (Router.with_object_access _ _ _) =>
      apply answers_object_access, answers_object_method
  | |- answers (Router.with_collection_access _ _ _ _) =>
      apply answers_collection_access, answers_collection_method
  | |- _ => case_decide; [apply answers_propfind_home|by apply answers_ret]
  end.

Ltac answers_root :=
  unfold Router.handle_server_root, Router.handle_caldav_root, Router.handle_fallback_discovery;
  case_decide; [by apply answers_ret|];
  case_decide; [apply answers_root_propfind|by apply answers_ret].

Lemma answers_call e captures r p :
  plain_route e captures → Router.call e captures r = Some p → answers p.
Proof.
  intros Hr E. unfold Router.call in E.
  destruct e; try (injection E as <-);
    [|answers_root|answers_root| |answers_root|..];
    destruct captures as [|x1 [|x2 [|x3 [|]]]]; try discriminate; try (injection E as <-).
  all: try (apply answers_ret; unfold WellKnown.handle_well_known; by case_decide).
  all: lazymatch goal with
       | |- answers (Router.handle_principal_discovery _ _) => by apply answers_principal
       | |- answers (Router.handle_caldav_email_discovery _ _) => apply answers_email_discovery
       | |- _ => answers_route
       end.
Qed.
End routes.

(** ** The server *)

Section server.
Context `{SqliteLaws, UuidText, QuickXml, Argon2, Rng, Base64, Chrono, Serde}.

(** The tasks that start: any, except a principal redirect for a user name that is not
    a header value. *)
Definition plain_task (t : Server.Task) : Prop :=
  match t with Server.CaldavRequest e captures _ => plain_route e captures | _ => True end.

Definition plain_starts (p : M Server.Answer) : Prop :=
  ∃ t, plain_task t ∧ p = Server.run_task t.

(** A CalDAV task's answer, if it is a reply, is a proper one. *)
Definition answer_ok (a : Server.Answer) : Prop :=
  match a with Server.CaldavReplied r => proper r | _ => True end.

Lemma yields_task t : plain_task t → yields etags_ok answer_ok (Server.run_task t).
Proof.
  intros Ht. destruct t as [e captures r|m r|c]; cbn [Server.run_task].
  - destruct (Router.call e captures r) as [p|] eqn:E; [|by apply yields_ret].
    apply (yields_bind etags_ok proper); [by eapply answers_call|].
    intros a Ha. by apply yields_ret.
  - apply kept_bind; [apply closed_mcp_serve|]. intros a. by apply yields_ret.
  - apply kept_bind; [apply closed_run_command|]. intros a. by apply yields_ret.
Qed.

(** C17: No CalDAV request makes its handler panic, and every one that is answered gets a
    response with one of the twelve statuses of the protocol: in every interleaving of
    CalDAV requests, MCP requests and commands, with any statements failing, from any
    database whose ETags are valid header values (which then stay so).  The one
    exception is the principal redirect for a user name with control characters. *)
Theorem caldav_replies_proper w w' pool pool' i r :
  etags_ok (db (store w)) → (∀ p, p ∈ pool → plain_starts p) →
  rtc (sched plain_starts) (pool, w) (pool', w') →
  etags_ok (db (store w')) ∧
  (pool' !! i = Some (Ret (Server.CaldavReplied r)) → proper r).
Proof.
  intros Hw Hpool Hr.
  eapply (interleaving_safe (db_inv (λ _, etags_ok)) answer_ok plain_starts) in Hr
    as [HI Hps]; [|intros p n (t & Ht & ->); by apply yields_task|exact Hw|].
  - split; [exact HI|]. intros Hi. by apply (Forall_lookup_1 _ _ _ _ Hps Hi).
  - apply Forall_forall. intros p (t & Ht & ->)%Hpool. by apply yields_task.
Qed.
End server.

Module RepliesExamples.
Import Sim.

#[export] Instance uuid_text : UuidText.
Proof. exact HandlersExamples.sim_visible. Qed.

(** A GET of the meeting, run while nothing else is. *)
Definition get_meeting : Server.Task :=
  Server.CaldavRequest Router.ObjectEndpoint ["alice"; "cal"; "meeting.ics"]
    (Request.mk "GET" [] (BodyBytes "")).

Lemma caldav_replies_proper_witness :
  ∃ r, (run (Server.run_task get_meeting) world).1 = Server.CaldavReplied r ∧ proper r.
Proof.
  pose proof (run_sched plain_starts (Server.run_task get_meeting) [] world) as Hr.
  destruct (run (Server.run_task get_meeting) world) as [a w'] eqn:E.
  destruct a as [r| | |]; [|by vm_compute in E..].
  exists r. split; [done|].
  eapply (caldav_replies_proper world w' [] [Ret (Server.CaldavReplied r)] 0 r); [| | |done].
  - by repeat constructor.
  - intros p Hp. by apply elem_of_nil in Hp.
  - eapply rtc_l; [|exact Hr].
    apply (sched_start _ (Server.run_task get_meeting)). by exists get_meeting.
Defined.
End RepliesExamples.
