(* ===== verification/EndToEnd.v ===== *)
(** * The parts together

    What one front end sets up, another one honours: an account made on the command line
    works over CalDAV, a token made there opens the MCP server, and a calendar shared or
    unshared with an MCP tool opens or closes the CalDAV routes of its objects. *)
From Stdlib Require Import NArith ZArith.
From S2P Require Import Prelude RustStr Effects Models Db DbUsers DbCalendars DbEvents.
From S2P Require Import DbShares DbTokens Ical Http Xml Properties CaldavHandlers CaldavRouter.
From S2P Require Import Json McpTools Mcp Cli Closure Layer Sim Integrity EventsSpec.
From S2P Require Import CalendarsSpec AccountsSpec HandlersSpec AccessSpec McpSpec ReadOnly.
From stdpp Require Import options.
Set Default Proof Using "Type*".

Section compositions.
Context `{SqliteLaws, Uuids, Argon2Laws, Base64, QuickXml, Rng, Chrono, Serde}.
Context (Hnf : ∀ n, sql_fault n = None).

(** ** A token from the command line *)

Lemma run_find_user name u w :
  Db.wf (db (store w)) → u ∈ Db.users (db (store w)) → User.username u = name →
  run (Cli.find_user name) w = (Ok u, tick w (store w)).
Proof.
  intros Hwf Hu Hn. unfold Cli.find_user, Cli.app. rewrite run_try.
  erewrite run_with_err by by apply run_get_user_by_username.
  rewrite (named_unique name (db (store w)) u) by done. cbn [map_err].
  rewrite scan_short by (simpl; lia). by rewrite run_ret.
Qed.

(** C23: The command [create-token] for a user prints a raw token which the MCP server then
    takes for that user: every request that carries it as its bearer token is served,
    on the unchanged store, for that user and no other. *)
Theorem printed_token_opens_mcp name label u w :
  Db.wf (db (store w)) → u ∈ Db.users (db (store w)) → User.username u = name →
  let n := N.succ (clock w) in
  uuid_v7 n ∉ McpToken.id <$> Db.mcp_tokens (db (store w)) →
  let raw := "mcp_" +:+ random_base64 (N.succ n) in
  (∃ h, argon2_hash (N.succ (N.succ n)) raw = Ok h) →
  (∀ k, k ∈ Db.mcp_tokens (db (store w)) →
     phc_error (McpToken.token_hash k) = None ∧
     argon2_verify raw (McpToken.token_hash k) = false) →
  ∃ lines w',
    run (Cli.run_command (Cli.CreateToken name label)) w = (Ok lines, w') ∧
    "  Token: " +:+ raw ∈ lines ∧
    ∀ mode request, bearer request = Some raw →
      run (McpRouter.serve mode request) w' =
        run (McpRouter.mcp_route mode (User.id u) request) (tick w' (store w')).
Proof.
  intros Hwf Hu Hn n Hid raw Hh Hall.
  destruct (run_create_token Hnf (User.id u) label (tick w (store w)))
    as (k & w' & Hrun & _ & Hlabel & _ & _ & Hv); [done|by apply list_elem_of_fmap_2|done..|].
  change ((run (Tokens.validate_token raw) w').1 = Ok (Some (User.id u))) in Hv.
  eexists _, w'. split; [|split].
  - cbn [Cli.run_command]. unfold Cli.cmd_create_token. rewrite run_try, (run_find_user name u) by done.
    rewrite run_try. unfold Cli.app. erewrite run_with_err by exact Hrun. cbn [map_err].
    by rewrite run_ret.
  - do 3 right. by left.
  - intros mode request Hb. unfold McpRouter.serve, McpRouter.require_bearer_auth.
    unfold bearer in Hb. destruct (Request.header "authorization" request) as [h|]; [|done].
    cbn [mbind option_bind] in Hb. rewrite Hb, run_bind.
    rewrite run_validate_token in Hv |- * by apply Hnf. cbn [fst] in Hv. by rewrite Hv.
Qed.

(** ** An account from the command line *)

Lemma run_login header name pw u w :
  credentials header = Some (name, pw) →
  (run (Users.verify_user name pw) w).1 = Ok (Some u) →
  ∃ w1, run (Router.auth_or_path_user (Some header) name) w = (Ok u, w1) ∧ store w1 = store w.
Proof.
  intros Hc Hv. destruct (run_verify_user Hnf name pw w) as [Hs _].
  unfold credentials in Hc. cbn [Router.auth_or_path_user].
  unfold Auth.try_basic_auth, Auth.parse_basic_auth. rewrite run_bind, run_bind.
  destruct (Str.strip_prefix "Basic " header) as [enc|]; [|done]. cbn [mbind option_bind] in Hc.
  destruct (b64_decode enc ≫= Str.from_utf8) as [txt|]; [|done]. cbn [mbind option_bind] in Hc.
  rewrite Hc. destruct (run (Users.verify_user name pw) w) as [r w1] eqn:E.
  erewrite run_with_err by exact E. rewrite !run_ret. cbn [fst snd] in *. subst r.
  exists w1. done.
Qed.

(** C24: An account that the command [create-user] makes works over CalDAV at once: the
    request MKCALENDAR under its name, with its password in the Authorization header and
    the name of a calendar that no user has, is answered 201 and makes a calendar that
    the account owns. *)
Theorem new_account_makes_calendar name email pw header id request w :
  Db.wf (db (store w)) → uuid_v7 (clock w) ∉ Db.user_ids (db (store w)) →
  (∃ h, argon2_hash (N.succ (clock w)) pw = Ok h) →
  name ∉ User.username <$> Db.users (db (store w)) →
  credentials header = Some (name, pw) →
  Router.extract_auth_header request = Some header →
  Request.method request = "MKCALENDAR" → id ∉ Db.calendar_ids (db (store w)) →
  ∃ lines u w',
    run (Cli.run_command (Cli.CreateUser name pw email)) w = (Ok lines, w') ∧
    "  ID:       " +:+ User.id u ∈ lines ∧
    let r := run (Router.handle_calendar_collection name id request) w' in
    r.1 = text 201 "Calendar created" ∧
    ∃ cal, cal ∈ Db.calendars (db (store r.2)) ∧ Calendar.id cal = id ∧
           Calendar.owner_id cal = User.id u.
Proof.
  intros Hwf Hid Hh Hnew Hc Ha Hm Hcal.
  pose proof (run_create_user Hnf name email pw w Hwf Hid Hh) as Hcr. cbn zeta in Hcr.
  rewrite decide_False in Hcr by done. destruct Hcr as (u & Hr & Hn & He & Hus & Hv).
  pose proof (keeps_run _ w (closed_create_user (J := keeps) name email pw) Hwf) as Hwf'.
  destruct (run (Users.create_user name email pw) w) as [r w'] eqn:E.
  cbn [fst snd] in *. subst r.
  eexists _, u, w'. split; [|split].
  - cbn [Cli.run_command]. unfold Cli.cmd_create_user, Cli.app. rewrite run_try.
    erewrite run_with_err by exact E. cbn [map_err]. by rewrite run_ret.
  - right. by left.
  - destruct (run_login header name pw u w' Hc Hv) as (w1 & Hl & Hs).
    unfold Router.handle_calendar_collection. rewrite Hm, Ha.
    rewrite decide_False by done. erewrite run_with_user by exact Hl.
    unfold Router.with_collection_access, Router.collection_method. rewrite Hm.
    rewrite decide_True by done. do 3 (rewrite decide_False by done).
    rewrite decide_True by done.
    pose proof (run_mkcalendar Hnf u name id request w1) as Hmk. cbn zeta in Hmk.
    rewrite Hs, Hus in Hmk. rewrite decide_False, decide_False in Hmk by (done || tauto).
    destruct Hmk as (Hr & tok & at_ & Hst).
    + by rewrite <- Hus.
    + cbn. unfold Db.user_ids. cbn. rewrite fmap_app. set_solver.
    + split; [exact Hr|]. rewrite Hst.
      eexists. split; [cbn; apply elem_of_app; right; by apply list_elem_of_singleton|done].
Qed.

(** ** Sharing with a tool *)

(** The route's request gets past the access check for the user it authenticates. *)
Definition admitted (user : User.t) (c : string) (w : World Store) : Prop :=
  ∀ e captures request p auth w1,
    Router.call e captures request = Some p →
    guarded e captures request = Some (auth, c) →
    Request.method request ≠ "OPTIONS" → checked e request →
    run auth w = (Ok user, w1) →
    run p w = run (method_of e captures request user) (tick w1 (store w)).

(** It is refused there, and changes nothing. *)
Definition refused (user : User.t) (c : string) (w : World Store) : Prop :=
  ∀ e captures request p auth w1,
    Router.call e captures request = Some p →
    guarded e captures request = Some (auth, c) →
    Request.method request ≠ "OPTIONS" → checked e request →
    run auth w = (Ok user, w1) →
    (run p w).1 = Router.access_denied ∧ store (run p w).2 = store w.

Lemma accessible_admitted user c cal w :
  accessible (User.id user) (db (store w)) cal → Calendar.id cal = c → admitted user c w.
Proof. intros Ha Hc e captures request p auth w1 ? ? ? ? ?. by eapply run_admitted. Qed.

Lemma inaccessible_refused user c w :
  (∀ cal, accessible (User.id user) (db (store w)) cal → Calendar.id cal ≠ c) →
  refused user c w.
Proof. intros Hno e captures request p auth w1 ? ? ? ? ?. by eapply run_denied. Qed.

Lemma run_found_user name u w {A} (k : User.t → M (Result A string)) :
  Db.wf (db (store w)) → u ∈ Db.users (db (store w)) → User.username u = name →
  run (found ←? with_err (describe "Database error") (Users.get_user_by_username name);
       target ←? required found (SharingTools.user_not_found name); k target) w =
    run (k u) (tick w (store w)).
Proof.
  intros Hwf Hu Hn. rewrite run_try. erewrite run_with_err by by apply run_get_user_by_username.
  rewrite (named_unique name (db (store w)) u) by done. rewrite scan_short by (simpl; lia).
  cbn [map_err head]. by rewrite run_required_some.
Qed.

(** C25: The tool [share_calendar], called by any token's user for any calendar, gives the named
    user the requests of the calendar's CalDAV routes: after it, they get past the access
    check and run their method. *)
Theorem share_tool_opens_calendar caller args c name perm p u w :
  Db.wf (db (store w)) →
  Json.index_str "calendar_id" args = Some c → Json.index_str "username" args = Some name →
  Json.index_str "permission" args = Some perm → Permission.from_str_value perm = Some p →
  c ∈ Db.calendar_ids (db (store w)) →
  u ∈ Db.users (db (store w)) → User.username u = name →
  uuid_v7 (N.succ (clock w)) ∉ CalendarShare.id <$> Db.calendar_shares (db (store w)) →
  ∃ w',
    run (SharingTools.share_calendar caller args) w =
      (Ok (JObject [("calendar_id", JString c); ("shared_with", JString name);
                    ("permission", JString perm)]), w') ∧
    admitted u c w'.
Proof.
  intros Hwf Ec En Ep Hp Hc Hu Hname Hid.
  destruct (run_share_calendar Hnf c (User.id u) p (tick w (store w)))
    as (w' & Hrun & (g & Hg) & Hmem & _); [done|done|by apply list_elem_of_fmap_2|done|].
  exists w'. split.
  - unfold SharingTools.share_calendar. rewrite Ec, En, Ep, !run_required_some.
    rewrite Hp, run_required_some, (run_found_user name u) by done.
    rewrite run_try. erewrite run_with_err by exact Hrun. cbn [map_err]. rewrite run_ret.
    unfold new_share. apply Permission.from_str_value_Some in Hp as ->.
    by destruct (share_of _ _ _).
  - apply list_elem_of_fmap in Hc as (cal & -> & Hcal).
    apply (accessible_admitted u _ cal); [|done]. split; [by rewrite Hg|]. right.
    eexists. split; [apply Hmem; by left|]. unfold new_share.
    by destruct (share_of _ _ _).
Qed.

(** The rows that unsharing removes. *)
Lemma run_unshare_calendar c user_id w :
  Db.wf (db (store w)) →
  let shared := existsb (Shares.is_share c user_id) (Db.calendar_shares (db (store w))) in
  run (Shares.unshare_calendar c user_id) w =
    (if shared then Ok tt else Err (AppError.NotFound "Share not found"),
     tick w (with_db (Db.set_shares (bfilter (λ s, negb (Shares.is_share c user_id s)))
                        (db (store w))) (store w))).
Proof.
  intros Hwf shared. unfold Shares.unshare_calendar. rewrite run_try, run_sql_try by apply Hnf.
  cbn [Shares.delete_share fst snd map_err]. rewrite run_ret. f_equal.
  rewrite share_rows by done. unfold share_of, shared. clear shared.
  induction (Db.calendar_shares (db (store w))) as [|s l IH]; [done|].
  rewrite bfilter_cons. cbn [existsb]. by destruct (Shares.is_share c user_id s).
Qed.

(** C26: The tool [unshare_calendar] takes the access back: after it, every request of the named
    user to the calendar's CalDAV routes is answered 403 and changes nothing, unless the
    user owns the calendar.  Where there was no share it reports an error. *)
Theorem unshare_tool_closes_calendar caller args c name u w :
  Db.wf (db (store w)) →
  Json.index_str "calendar_id" args = Some c → Json.index_str "username" args = Some name →
  u ∈ Db.users (db (store w)) → User.username u = name →
  let shared := existsb (Shares.is_share c (User.id u)) (Db.calendar_shares (db (store w))) in
  let r := run (SharingTools.unshare_calendar caller args) w in
  r.1 = (if shared then
           Ok (JObject [("unshared", JBool true); ("calendar_id", JString c);
                        ("username", JString name)])
         else Err "Failed to unshare calendar: not found: Share not found") ∧
  (owns (User.id u) c (db (store w)) = false → refused u c r.2).
Proof.
  intros Hwf Ec En Hu Hname shared r. subst r. unfold SharingTools.unshare_calendar.
  rewrite Ec, En, !run_required_some, (run_found_user name u) by done.
  rewrite run_try. erewrite run_with_err by by apply run_unshare_calendar.
  cbn [tick store clock]. fold shared. destruct shared; cbn [map_err]; rewrite ?run_ret;
    (split; [done|]); intros Ho; apply inaccessible_refused;
    intros cal (Hcal & Hacc) <-; cbn [snd store db with_db] in *;
    (destruct Hacc as [Hown|(s & Hs & Hid & Hus)];
      [|apply elem_of_bfilter in Hs as [Hs _]; unfold Shares.is_share in Hs;
        rewrite bool_decide_true in Hs; [done|unfold CalendarShare.key; by rewrite Hid, Hus]]);
    apply not_true_iff_false in Ho; apply Ho; unfold owns; apply existsb_exists;
    exists cal; (split; [by apply list_elem_of_In|by apply bool_decide_eq_true]).
Qed.
End compositions.

(** ** On the simulated server *)

Module EndToEndExamples.
Import Sim.

Definition laptop_request : Request.t :=
  Request.mk "GET" [("authorization", Some "Bearer mcp_r102")] (BodyBytes "").

Lemma printed_token_opens_mcp_witness :
  ∃ lines w',
    run (Cli.run_command (Cli.CreateToken "bob" "laptop")) world = (Ok lines, w') ∧
    "  Token: mcp_r102" ∈ lines ∧
    run (McpRouter.serve "full" laptop_request) w' =
      run (McpRouter.mcp_route "full" "bob-id" laptop_request) (tick w' (store w')).
Proof.
  destruct (printed_token_opens_mcp nofault "bob" "laptop" bob world database_wf)
    as (lines & w' & Hr & Hl & Hs).
  - right. by left.
  - done.
  - apply not_elem_of_nil.
  - by eexists.
  - by intros k Hk%elem_of_nil.
  - exists lines, w'. split; [exact Hr|]. split; [exact Hl|]. by apply Hs.
Defined.

Definition mkcalendar_as (header : string) : Request.t :=
  Request.mk "MKCALENDAR" [("authorization", Some header)] (BodyBytes "").

Lemma new_account_makes_calendar_witness :
  ∃ lines u w',
    run (Cli.run_command (Cli.CreateUser "dora" "pw" None)) world = (Ok lines, w') ∧
    "  ID:       " +:+ User.id u ∈ lines ∧
    (run (Router.handle_calendar_collection "dora" "home" (mkcalendar_as "Basic dora:pw")) w').1 =
      text 201 "Calendar created".
Proof.
  destruct (new_account_makes_calendar nofault "dora" None "pw" "Basic dora:pw" "home"
              (mkcalendar_as "Basic dora:pw") world database_wf)
    as (lines & u & w' & Hr & Hl & Hm & _).
  - by apply (bool_decide_unpack _); vm_compute.
  - by eexists.
  - by apply (bool_decide_unpack _); vm_compute.
  - by vm_compute.
  - done.
  - done.
  - by apply (bool_decide_unpack _); vm_compute.
  - by exists lines, u, w'.
Defined.

Definition share_args : json :=
  JObject [("calendar_id", JString "cal"); ("username", JString "carol");
           ("permission", JString "read")].

Lemma share_tool_opens_calendar_witness :
  ∃ j w', run (SharingTools.share_calendar "bob-id" share_args) world = (Ok j, w') ∧
          admitted carol "cal" w'.
Proof.
  destruct (share_tool_opens_calendar nofault "bob-id" share_args "cal" "carol" "read"
              Permission.Read carol world database_wf) as (w' & Hr & Ha);
    try done; [by left|by do 2 right; left| |by eexists _, w'].
  by apply (bool_decide_unpack _); vm_compute.
Defined.

Definition unshare_args : json :=
  JObject [("calendar_id", JString "cal"); ("username", JString "bob")].

Lemma unshare_tool_closes_calendar_witness :
  refused bob "cal" (run (SharingTools.unshare_calendar "carol-id" unshare_args) world).2.
Proof.
  apply (unshare_tool_closes_calendar nofault "carol-id" unshare_args "cal" "bob" bob world
           database_wf); try done. right. by left.
Defined.
End EndToEndExamples.
