(* ===== verification/SyncTokens.v ===== *)
(** * Sync tokens over the life of the server

    A calendar stores the token of its last [bump_ctag]; the log stores, with each
    change, a token drawn separately.  [tokens_inv] is the resulting invariant: the
    two kinds of tokens never meet, in any interleaving of requests and with any
    faults.  Its consequence is what a client that presents a token that a calendar had
    gets: [get_sync_changes_since] does not find the token in the log and returns the
    whole history. *)
From Stdlib Require Import NArith ZArith.
From S2P Require Import Prelude RustStr Effects Models Db DbUsers DbCalendars DbEvents.
From S2P Require Import DbShares.
From S2P Require Import DbTokens Ical Http Xml Properties CaldavHandlers CaldavRouter Json.
From S2P Require Import McpTools Mcp Cli Closure Layer Sim Integrity EventsSpec ReadOnly.
From S2P Require Import Ownership Server.
From stdpp Require Import relations.
From stdpp Require Import options.
Set Default Proof Using "Type*".

Section tokens_inv.
Context `{Uuids}.
(** The tokens that clients hold from earlier moments. *)
Context (seen : list string).

Definition calendar_tokens (d : Db.t) : list string :=
  seen ++ (Calendar.sync_token <$> Db.calendars d).
Definition log_tokens (d : Db.t) : list string := SyncChange.sync_token <$> Db.sync_changes d.
Definition token_at (n : N) : string := Calendars.sync_token_of_uuid (uuid_v7 n).

(** Before step [n], with [held] the tokens drawn and not stored yet. *)
Record tokens_inv (n : N) (held : list string) (d : Db.t) : Prop := {
  ti_future : ∀ k, (n ≤ k)%N →
    token_at k ∉ calendar_tokens d ∧ token_at k ∉ log_tokens d ∧ token_at k ∉ held;
  ti_held : ∀ t, t ∈ held → t ∉ calendar_tokens d ∧ t ∉ log_tokens d;
  ti_distinct : NoDup held;
  ti_apart : ∀ t, t ∈ calendar_tokens d → t ∉ log_tokens d;
  ti_drawn : ∀ t, t ∈ calendar_tokens d ∨ t ∈ held → ∃ k, t = token_at k;
}.

(** A change of the database that adds no token. *)
Lemma tokens_inv_shrink n held d d' :
  tokens_inv n held d →
  (∀ t, t ∈ calendar_tokens d' → t ∈ calendar_tokens d) →
  (∀ t, t ∈ log_tokens d' → t ∈ log_tokens d) → tokens_inv (N.succ n) held d'.
Proof.
  intros [Hf Hh Hnd Ha Hd] Hc Hl. split; [|naive_solver..].
  intros k Hk. destruct (Hf k) as (?&?&?); [lia|]. naive_solver.
Qed.

(** A held token becomes a calendar's. *)
Lemma tokens_inv_calendar n held t d d' :
  tokens_inv n (t :: held) d →
  (∀ t', t' ∈ calendar_tokens d' → t' = t ∨ t' ∈ calendar_tokens d) →
  log_tokens d' = log_tokens d → tokens_inv (N.succ n) held d'.
Proof.
  intros [Hf Hh [Ht Hnd]%NoDup_cons Ha Hd] Hc Hl. split; rewrite ?Hl; [| |done| |].
  - intros k Hk. destruct (Hf k) as (?&?&?); [lia|]. set_solver.
  - intros t' Ht'. destruct (Hh t') as [??]; [by right|]. split; [|done].
    intros [->|?]%Hc; naive_solver.
  - intros t' [->|?]%Hc; [|by apply Ha]. apply Hh. by left.
  - intros t' [[->|?]%Hc|?]; apply Hd; [right; by left|by left|right; by right].
Qed.

(** A held token becomes a log entry's. *)
Lemma tokens_inv_log n held t d d' :
  tokens_inv n (t :: held) d →
  calendar_tokens d' = calendar_tokens d →
  (∀ t', t' ∈ log_tokens d' → t' = t ∨ t' ∈ log_tokens d) →
  tokens_inv (N.succ n) held d'.
Proof.
  intros [Hf Hh [Ht Hnd]%NoDup_cons Ha Hd] Hc Hl. split; rewrite ?Hc; [| |done| |].
  - intros k Hk. destruct (Hf k) as (?&?&?); [lia|]. set_solver.
  - intros t' Ht'. destruct (Hh t') as [??]; [by right|]. split; [done|].
    intros [->|?]%Hl; naive_solver.
  - intros t' Ht' [->|?]%Hl; [|by eapply Ha]. destruct (Hh t) as [? _]; [by left|done].
  - intros t' [?|?]; apply Hd; [by left|right; by right].
Qed.
End tokens_inv.

#[export] Instance tokens_inv_holding `{Uuids} : Holding tokens_inv.
Proof.
  intros seen n n' held held' d [Hf Hh Hnd Ha Hd] Hn Hs.
  assert (∀ t, t ∈ held' → t ∈ held) as Hsub by (intros t Ht; by eapply elem_of_submseteq).
  split; [|naive_solver|by eapply submseteq_NoDup|done|naive_solver].
  intros k Hk. destruct (Hf k) as (?&?&?); [lia|]. naive_solver.
Qed.

(** ** The draws and statements *)

Section rules.
Context `{Sqlite, Uuids}.
Local Abbreviation tokens := (held_db tokens_inv).

(** A drawn token is held. *)
Lemma triple_draw_token `{!UuidLaws} {B} held held' (f : string → M B) :
  (∀ t, triple tokens (t :: held) (f t) held') →
  triple tokens held (Calendars.new_sync_token ≫= f) held'.
Proof.
  intros Hf. apply (triple_draw _ _ _ uuid_v7 Calendars.sync_token_of_uuid
                      (λ u, f (Calendars.sync_token_of_uuid u))); [|intros r; apply Hf].
  intros seen n σ h [Hfu Hh Hnd Ha Hd]. fold (token_at n). split; [| | |done|].
  - intros k Hk. destruct (Hfu k) as (?&?&?); [lia|]. split; [done|]. split; [done|].
    rewrite not_elem_of_cons. split; [|done]. intros E.
    apply str_app_inj_l, uuid_v7_inj in E. lia.
  - intros t [->|Hin]%elem_of_cons; [|by apply Hh]. destruct (Hfu n) as (?&?&?); [lia|done].
  - apply NoDup_cons. split; [|done]. by destruct (Hfu n) as (?&?&?).
  - intros t [?|[->|?]%elem_of_cons]; [apply Hd; by left|by exists n|apply Hd; by right].
Qed.

(** The two statements that store a calendar's token, and the one that logs one. *)
Lemma triple_insert_calendar id o n d c tz ct t :
  triple tokens [t] (execute (Calendars.insert_calendar id o n d c tz ct t)) [].
Proof.
  apply triple_execute; [apply _| |apply submseteq_nil_l]. intros seen k db frame Hd.
  unfold Calendars.insert_calendar.
  repeat case_bool_decide; cbn [snd];
    (eapply tokens_inv_calendar; [exact Hd| |done]); [naive_solver| |naive_solver].
  intros t'. unfold calendar_tokens, Db.set_calendars. cbn.
  rewrite fmap_app, !elem_of_app. cbn. rewrite list_elem_of_singleton. naive_solver.
Qed.

Lemma triple_update_tokens ct t id :
  triple tokens [t] (execute (Calendars.update_tokens ct t id)) [].
Proof.
  apply triple_execute; [apply _| |apply submseteq_nil_l]. intros seen k db frame Hd.
  cbn [Calendars.update_tokens snd]. eapply tokens_inv_calendar; [exact Hd| |done].
  intros t'. unfold calendar_tokens, Db.set_calendars. cbn.
  rewrite <- list_fmap_compose, !elem_of_app, !list_elem_of_fmap.
  intros [?|(c & -> & Hc)]; [by right; left|]. cbn.
  case_decide; [by left|right; right; by exists c].
Qed.

Lemma triple_log c u kind t :
  triple tokens [t] (execute (Events.insert_sync_change c u kind t)) [].
Proof.
  apply triple_execute; [apply _| |apply submseteq_nil_l]. intros seen k db frame Hd.
  unfold Events.insert_sync_change.
  repeat case_bool_decide; cbn [snd];
    (eapply tokens_inv_log; [exact Hd|done|]); try naive_solver.
  intros t'. unfold log_tokens, Db.set_changes, Db.set_seq. cbn.
  rewrite fmap_app. cbn. set_solver.
Qed.
End rules.

(** ** The functions of the data-access layer *)

Section layer.
Context `{Sqlite, Uuids, Argon2, Rng, !UuidLaws}.

Local Abbreviation tokens := (held_db tokens_inv).
Local Abbreviation token_free stmt := (stores_nothing tokens_inv stmt).
Local Abbreviation keeps_tokens p := (balanced tokens_inv _ p).

Lemma fmap_bfilter_sub {A B} (f : A → B) P (l : list A) x :
  x ∈ f <$> bfilter P l → x ∈ f <$> l.
Proof.
  rewrite !list_elem_of_fmap. intros (y & -> & Hy). apply elem_of_bfilter in Hy as [_ Hy]. eauto.
Qed.

Lemma elem_of_app_sub {A} (k l' l : list A) x :
  (x ∈ l' → x ∈ l) → x ∈ k ++ l' → x ∈ k ++ l.
Proof. rewrite !elem_of_app. naive_solver. Qed.

(** The statements that write no token. *)
Ltac token_free_tac :=
  intros ? ? ? ? ?; cbn -[fmap]; repeat case_bool_decide;
  (eapply tokens_inv_shrink; [eassumption|..]);
  unfold calendar_tokens, log_tokens; cbn -[fmap]; try done;
  intros ?; try (apply elem_of_app_sub); try apply fmap_bfilter_sub.

Lemma free_insert_user i u e h : token_free (Users.insert_user i u e h).
Proof. unfold Users.insert_user. token_free_tac. Qed.

Lemma free_update_password h u : token_free (Users.update_password_hash h u).
Proof. token_free_tac. Qed.

Lemma free_update_properties n d c tz i : token_free (Calendars.update_properties n d c tz i).
Proof.
  token_free_tac. rewrite <- list_fmap_compose. intros Ht.
  erewrite list_fmap_ext; [exact Ht|]. intros k c' _. simpl. by case_decide.
Qed.

Lemma free_delete_calendar i : token_free (Calendars.delete_by_id i).
Proof.
  assert (token_free (λ _ d, (Ok tt, Calendars.without_calendar i d))) as Hf by token_free_tac.
  intros x n held d Hd. cbn. case_decide; [|by apply Hf].
  by eapply tokens_inv_shrink; [exact Hd|..].
Qed.

Lemma free_insert_object i c u e x f : token_free (Events.insert_object i c u e x f).
Proof. unfold Events.insert_object. token_free_tac. Qed.

Lemma free_update_object c u e x f : token_free (Events.update_object c u e x f).
Proof. token_free_tac. Qed.

Lemma free_delete_object c u : token_free (Events.delete_by_uid c u).
Proof. token_free_tac. Qed.

Lemma free_upsert_share i c u p : token_free (Shares.upsert_share i c u p).
Proof. unfold Shares.upsert_share. token_free_tac. Qed.

Lemma free_delete_share c u : token_free (Shares.delete_share c u).
Proof. token_free_tac. Qed.

Lemma free_insert_token i u h n : token_free (Tokens.insert_token i u h n).
Proof. unfold Tokens.insert_token. token_free_tac. Qed.

Lemma free_delete_token i : token_free (Tokens.delete_by_id i).
Proof. token_free_tac. Qed.

#[local] Hint Resolve free_insert_user free_update_password free_update_properties
  free_delete_calendar free_insert_object free_update_object free_delete_object
  free_upsert_share free_delete_share free_insert_token free_delete_token
  triple_insert_calendar triple_update_tokens triple_log : owned.

#[local] Ltac token_tac := triple_tac ltac:(apply triple_draw_token).

Lemma triple_bump_ctag c : triple tokens [] (Calendars.bump_ctag c) [].
Proof. unfold Calendars.bump_ctag. token_tac. Qed.
#[local] Hint Resolve triple_bump_ctag : owned.

Lemma triple_create_calendar_with_id i o n d c tz :
  triple tokens [] (Calendars.create_calendar_with_id i o n d c tz) [].
Proof.
  unfold Calendars.create_calendar_with_id, Calendars.get_calendar_by_id. token_tac.
Qed.

Lemma triple_upsert_object c u x f : triple tokens [] (Events.upsert_object c u x f) [].
Proof.
  unfold Events.upsert_object, Events.get_object_by_uid, Events.new_etag,
    Events.log_sync_change, new_v4, now_v7.
  token_tac.
Qed.

Lemma triple_delete_object c u : triple tokens [] (Events.delete_object c u) [].
Proof.
  unfold Events.delete_object, Events.log_sync_change. token_tac.
Qed.

Lemma balanced_create_calendar o n d c tz : keeps_tokens (Calendars.create_calendar o n d c tz).
Proof.
  eapply triple_bind; [apply _|apply triple_observe, _|]. intros. apply triple_create_calendar_with_id.
Qed.

Lemma balanced_update_calendar i n d c tz : keeps_tokens (Calendars.update_calendar i n d c tz).
Proof.
  unfold balanced, Calendars.update_calendar, Calendars.get_calendar_by_id. token_tac.
Qed.

Lemma balanced_create_user u e pw : keeps_tokens (Users.create_user u e pw).
Proof.
  unfold balanced, Users.create_user, Users.hash_password, Users.get_user_by_username, now_v7.
  token_tac.
Qed.

Lemma balanced_create_token u n : keeps_tokens (Tokens.create_token u n).
Proof.
  unfold balanced, Tokens.create_token, Tokens.generate_raw_token, Tokens.hash_token, now_v7.
  token_tac.
Qed.

Lemma balanced_share_calendar c u p : keeps_tokens (Shares.share_calendar c u p).
Proof. unfold balanced, Shares.share_calendar, now_v7. token_tac. Qed.

#[export] Instance tokens_write_closed : WriteClosed (balanced tokens_inv).
Proof.
  split; [apply _|..]; unfold holds; intros.
  - by apply balanced_sessions; [apply _|].
  - apply balanced_create_user.
  - unfold balanced, Users.reset_password, Users.hash_password. token_tac.
  - apply balanced_create_calendar.
  - apply triple_create_calendar_with_id.
  - apply balanced_update_calendar.
  - unfold balanced, Calendars.delete_calendar. token_tac.
  - apply triple_upsert_object.
  - apply triple_delete_object.
  - apply balanced_share_calendar.
  - unfold balanced, Shares.unshare_calendar. token_tac.
  - apply balanced_create_token.
  - unfold balanced, Tokens.delete_token. token_tac.
Qed.
End layer.

(** ** Over the life of the server *)

Section histories.
Context `{SqliteLaws, UuidLaws, Argon2, Base64, QuickXml, Rng, Chrono, Serde}.

Lemma tasks_own_tokens p : Server.starts p → triple (held_db tokens_inv) [] p [].
Proof using All. intros [t ->]. apply (closed_run_task (J := balanced tokens_inv)). Qed.

Lemma tokens_inv_empty : tokens_inv [] 0 [] Db.empty.
Proof using All. split; try apply NoDup_nil_2; set_solver. Qed.

Lemma serves_wf ps w : serves ([], start) (ps, w) → Db.wf (db (store w)).
Proof using All.
  intros Hr. eapply interleaved_wf; [|..|exact Hr]; [exact Db.wf_empty|].
  by intros p Hp%elem_of_nil.
Qed.

(** At every moment, with what the running tasks hold. *)
Lemma serves_tokens ps w :
  serves ([], start) (ps, w) →
  ∃ hs, pool_owned (held_db tokens_inv) hs ps ∧
        tokens_inv [] (clock w) (concat hs) (db (store w)).
Proof using All.
  intros Hr. destruct (interleaving_owned (held_db tokens_inv) Server.starts [] [] ps start w)
    as (hs & Hps & HI); [apply tasks_own_tokens|constructor|exact Hr|].
  exists hs. split; [done|]. exact (HI [] tokens_inv_empty).
Qed.

(** A token that a calendar had at some time never gets into the log. *)
Lemma serves_never_logged ps w ps' w' cal :
  serves ([], start) (ps, w) → serves (ps, w) (ps', w') →
  cal ∈ Db.calendars (db (store w)) →
  Calendar.sync_token cal ∉ log_tokens (db (store w')).
Proof using All.
  intros Hr Hr' Hcal. destruct (serves_tokens ps w Hr) as (hs & Hps & [Hf Hh Hnd Ha Hd]).
  destruct (interleaving_owned (held_db tokens_inv) Server.starts hs ps ps' w w')
    as (hs' & _ & HI); [apply tasks_own_tokens|done|exact Hr'|].
  destruct (HI (calendar_tokens [] (db (store w)))) as [_ _ _ Hap _].
  - unfold calendar_tokens, held_db in *.
    split; [setoid_rewrite elem_of_app; naive_solver..|done|
            setoid_rewrite elem_of_app; naive_solver|setoid_rewrite elem_of_app; naive_solver].
  - apply Hap, elem_of_app. left. by apply list_elem_of_fmap_2.
Qed.

(** A calendar's token is one that was drawn for it. *)
Lemma serves_drawn ps w cal :
  serves ([], start) (ps, w) → cal ∈ Db.calendars (db (store w)) →
  ∃ k, Calendar.sync_token cal = token_at k.
Proof using All.
  intros Hr Hcal. destruct (serves_tokens ps w Hr) as (hs & _ & [_ _ _ _ Hd]).
  apply Hd. left. by apply list_elem_of_fmap_2.
Qed.

(** C11: At any moment of any execution of the server on a new database, tasks interleaved
    in any way and with any faults: a client that presents a sync token that a calendar
    had at any time so far, one the server advertised, does not get the changes since:
    the token is not in the log, and [get_sync_changes_since], run alone, returns the
    calendar's whole history. *)
Theorem advertised_token_gets_whole_history ps w ps' w' cal c :
  serves ([], start) (ps, w) → serves (ps, w) (ps', w') →
  cal ∈ Db.calendars (db (store w)) →
  sql_fault (clock w') = None → sql_fault (N.succ (clock w')) = None →
  ∃ w'', run (Events.get_sync_changes_since c (Calendar.sync_token cal)) w' =
           (Ok (log_of c (db (store w'))), w'') ∧ store w'' = store w'.
Proof using All.
  intros Hr Hr' Hcal Hf Hf'. apply run_sync_unknown; [done..| |].
  - eapply serves_wf. by etransitivity.
  - intros Hin%fmap_bfilter_sub. by eapply serves_never_logged.
Qed.

(** *** Tasks one after the other *)

Definition run_tasks (ts : list Server.Task) : M unit :=
  foldr (λ t p, Server.run_task t ≫= λ _, p) (mret tt) ts.

Definition after (ts : list Server.Task) : World Store := (run (run_tasks ts) start).2.

Lemma closed_run_tasks `{!WriteClosed J} ts : holds J (run_tasks ts).
Proof using All.
  induction ts as [|t ts IH]; [apply closed_ret|].
  apply closed_bind; [apply closed_run_task|done].
Qed.

Lemma after_app ts ts' : after (ts ++ ts') = (run (run_tasks ts') (after ts)).2.
Proof using All.
  unfold after. generalize start. induction ts as [|t ts IH]; intros w; [done|]. simpl.
  rewrite !run_bind. destruct (run (Server.run_task t) w) as [a w']. by rewrite IH.
Qed.

(** One order of execution. *)
Lemma run_tasks_serves ts ps w :
  ∃ ps', serves (ps, w) (ps', (run (run_tasks ts) w).2).
Proof using All.
  revert ps w. induction ts as [|t ts IH]; intros ps w; [by exists ps|].
  simpl. rewrite run_bind. pose proof (run_sched Server.starts (Server.run_task t) ps w) as Hr.
  destruct (run (Server.run_task t) w) as [a w'].
  destruct (IH (ps ++ [Ret a]) w') as [ps' Hr']. exists ps'.
  eapply rtc_l; [apply (sched_start _ (Server.run_task t)); by exists t|].
  etransitivity; [exact Hr|exact Hr'].
Qed.

Lemma after_serves ts : ∃ ps, serves ([], start) (ps, after ts).
Proof using All. apply run_tasks_serves. Qed.

Lemma after_app_serves ts ts' ps : ∃ ps', serves (ps, after ts) (ps', after (ts ++ ts')).
Proof using All. rewrite after_app. apply run_tasks_serves. Qed.

Lemma after_wf ts : Db.wf (db (store (after ts))).
Proof using All. destruct (after_serves ts) as [ps Hr]. by eapply serves_wf. Qed.

Lemma after_drawn ts cal :
  cal ∈ Db.calendars (db (store (after ts))) → ∃ k, Calendar.sync_token cal = token_at k.
Proof using All. destruct (after_serves ts) as [ps Hr]. by eapply serves_drawn. Qed.

Lemma after_never_logged ts ts' cal :
  cal ∈ Db.calendars (db (store (after ts))) →
  Calendar.sync_token cal ∉ log_tokens (db (store (after (ts ++ ts')))).
Proof using All.
  destruct (after_serves ts) as [ps Hr], (after_app_serves ts ts' ps) as [ps' Hr'].
  by eapply serves_never_logged.
Qed.

(** The same of a calendar's current token, tasks one after the other. *)
Corollary current_token_gets_whole_history ts cal :
  sql_fault (clock (after ts)) = None → sql_fault (N.succ (clock (after ts))) = None →
  cal ∈ Db.calendars (db (store (after ts))) →
  ∃ w', run (Events.get_sync_changes_since (Calendar.id cal) (Calendar.sync_token cal))
          (after ts) = (Ok (log_of (Calendar.id cal) (db (store (after ts)))), w') ∧
        store w' = store (after ts).
Proof using All.
  intros Hf Hf' Hcal. destruct (after_serves ts) as [ps Hr].
  apply run_sync_unknown; [done..|apply after_wf|].
  intros Hin%fmap_bfilter_sub. by eapply (serves_never_logged ps _ ps).
Qed.
End histories.

(** ** On the simulated server *)

Module SyncTokensExamples.
Import Sim.

(** A user is created, who then creates a calendar and saves an object in it. *)
Definition history : list Server.Task :=
  let auth := ("authorization", Some "Basic dora:pw") in
  [ Server.CliCommand (Cli.CreateUser "dora" "pw" None);
    Server.CaldavRequest Router.CalendarCollection ["dora"; "home"]
      (Request.mk "MKCALENDAR" [auth] (BodyBytes ""));
    Server.CaldavRequest Router.ObjectEndpoint ["dora"; "home"; "lunch.ics"]
      (Request.mk "PUT" [auth] (BodyBytes "DATA")) ].

Lemma advertised_token_gets_whole_history_witness :
  ∃ cal w', cal ∈ Db.calendars (db (store (after (take 2 history)))) ∧
    run (Events.get_sync_changes_since "home" (Calendar.sync_token cal)) (after history) =
      (Ok (Db.sync_changes (db (store (after history)))), w') ∧
    length (Db.sync_changes (db (store (after history)))) = 1.
Proof.
  destruct (Db.calendars (db (store (after (take 2 history))))) as [|cal l] eqn:E;
    [by vm_compute in E|].
  assert (cal ∈ Db.calendars (db (store (after (take 2 history))))) as Hin by (rewrite E; left).
  destruct (after_serves (take 2 history)) as [ps Hr].
  destruct (after_app_serves (take 2 history) (drop 2 history) ps) as [ps' Hr'].
  destruct (advertised_token_gets_whole_history ps _ ps' _ cal "home" Hr Hr' Hin
              (nofault _) (nofault _)) as (w' & Hg & _).
  exists cal, w'. split; [by left|]. split; [exact Hg|by vm_compute].
Defined.
End SyncTokensExamples.
