(* ===== verification/ETags.v ===== *)
(** * ETags identify versions

    A client that holds an ETag relies on it: the server must never give the same ETag to
    another object, nor to other content of the same object, however its requests
    interleave and whichever statements fail.  [etags_inv] is the invariant, with the
    ETags that running requests have drawn and not stored yet, and with the objects seen
    at an earlier moment. *)
From Stdlib Require Import NArith ZArith.
From S2P Require Import Prelude RustStr Effects Models Db DbUsers DbCalendars DbEvents.
From S2P Require Import DbShares DbTokens Ical Http Xml Properties CaldavHandlers CaldavRouter.
From S2P Require Import Json McpTools Mcp Cli Closure Layer Sim Integrity EventsSpec ReadOnly.
From S2P Require Import Ownership Server SyncTokens.
From stdpp Require Import relations.
From stdpp Require Import options.
Set Default Proof Using "Type*".

(** What an ETag stands for. *)
Definition version (o : CalendarObject.t) : string * string * string :=
  (CalendarObject.key o, CalendarObject.ical_data o).

Section etags_inv.
Context `{Uuids}.

Definition etag_at (n : N) : string := Events.etag_of_uuid (uuid_v4 n).

(** The objects seen earlier and those there now. *)
Definition known (seen : list CalendarObject.t) (d : Db.t) : list CalendarObject.t :=
  seen ++ Db.calendar_objects d.

Record etags_inv (seen : list CalendarObject.t) (n : N) (held : list string) (d : Db.t) :
    Prop := {
  ei_future : ∀ k, (n ≤ k)%N →
    etag_at k ∉ CalendarObject.etag <$> known seen d ∧ etag_at k ∉ held;
  ei_held : ∀ e, e ∈ held → e ∉ CalendarObject.etag <$> known seen d;
  ei_distinct : NoDup held;
  ei_version : ∀ o o', o ∈ known seen d → o' ∈ known seen d →
    CalendarObject.etag o = CalendarObject.etag o' → version o = version o';
}.

#[export] Instance etags_inv_holding : Holding etags_inv.
Proof.
  intros seen n n' held held' d [Hf Hh Hnd Hv] Hn Hs.
  assert (∀ t, t ∈ held' → t ∈ held) as Hsub by (intros t Ht; by eapply elem_of_submseteq).
  split; [|naive_solver|by eapply submseteq_NoDup|done].
  intros k Hk. destruct (Hf k) as (?&?); [lia|]. naive_solver.
Qed.

Lemma etags_known_sub seen d d' :
  (∀ o, o ∈ Db.calendar_objects d' → o ∈ Db.calendar_objects d) →
  ∀ o, o ∈ known seen d' → o ∈ known seen d.
Proof. unfold known. intros Hs o. rewrite !elem_of_app. naive_solver. Qed.

(** A change of the database that adds no object and changes none. *)
Lemma etags_inv_shrink seen n held d d' :
  etags_inv seen n held d →
  (∀ o, o ∈ Db.calendar_objects d' → o ∈ Db.calendar_objects d) →
  etags_inv seen (N.succ n) held d'.
Proof.
  intros [Hf Hh Hnd Hv] Hs. pose proof (etags_known_sub seen d d' Hs) as Hk.
  assert (∀ e, e ∈ CalendarObject.etag <$> known seen d' →
               e ∈ CalendarObject.etag <$> known seen d) as He.
  { intros e. rewrite !list_elem_of_fmap. naive_solver. }
  split; [|naive_solver..]. intros k Hn. destruct (Hf k) as (?&?); [lia|]. naive_solver.
Qed.

(** A held ETag is stored, with one version. *)
Lemma etags_inv_store seen n held e v d d' :
  etags_inv seen n (e :: held) d →
  (∀ o, o ∈ Db.calendar_objects d' →
     o ∈ Db.calendar_objects d ∨ (CalendarObject.etag o = e ∧ version o = v)) →
  etags_inv seen (N.succ n) held d'.
Proof.
  intros [Hf Hh [He Hnd]%NoDup_cons Hv] Hs.
  assert (∀ o, o ∈ known seen d' →
     o ∈ known seen d ∨ (CalendarObject.etag o = e ∧ version o = v)) as Hk.
  { unfold known. intros o. rewrite !elem_of_app. naive_solver. }
  assert (∀ x, x ∈ CalendarObject.etag <$> known seen d' →
               x = e ∨ x ∈ CalendarObject.etag <$> known seen d) as Hx.
  { intros x. rewrite !list_elem_of_fmap. intros (o & -> & Ho). naive_solver. }
  assert (∀ o, o ∈ known seen d → CalendarObject.etag o ≠ e) as Hne.
  { intros o Ho E. apply (Hh e); [by left|]. rewrite <- E. by apply list_elem_of_fmap_2. }
  split; [| |done|].
  - intros k Hn. destruct (Hf k) as (?&?); [lia|]. set_solver.
  - intros x Hin [->|Hx']%Hx; [done|]. by apply (Hh x); [right|].
  - intros o o' [Ho|[Ho Hvo]]%Hk [Ho'|[Ho' Hvo']]%Hk E; [by apply Hv|..|congruence].
    + exfalso. apply (Hne o Ho). congruence.
    + exfalso. apply (Hne o' Ho'). congruence.
Qed.
End etags_inv.

(** ** The draws and statements *)

Section rules.
Context `{Sqlite, Uuids, Argon2, Rng}.
Local Abbreviation etags := (held_db etags_inv).
Local Abbreviation etag_free stmt := (stores_nothing etags_inv stmt).

Lemma triple_draw_etag `{!UuidLaws} {B} held held' (f : string → M B) :
  (∀ e, triple etags (e :: held) (f e) held') →
  triple etags held (Events.new_etag ≫= f) held'.
Proof.
  intros Hf. apply (triple_draw _ _ _ uuid_v4 Events.etag_of_uuid
                      (λ u, f (Events.etag_of_uuid u))); [|intros r; apply Hf].
  intros seen n σ h [Hfu Hh Hnd Hv]. fold (etag_at n).
  destruct (Hfu n) as [Hn Hn']; [lia|]. split; [| |by apply NoDup_cons|done].
  - intros k Hk. destruct (Hfu k) as (?&?); [lia|]. split; [done|].
    rewrite not_elem_of_cons. split; [|done]. intros [= E].
    apply str_app_inj_r, uuid_v4_inj in E. lia.
  - intros t [->|Hin]%elem_of_cons; [done|by apply Hh].
Qed.

(** The two statements that store an ETag. *)
Lemma triple_insert_object id c u e data f :
  triple etags [e] (execute (Events.insert_object id c u e data f)) [].
Proof.
  apply triple_execute; [apply _| |apply submseteq_nil_l]. intros seen k d frame Hd.
  unfold Events.insert_object.
  repeat case_bool_decide; cbn [snd];
    (eapply (etags_inv_store _ _ _ _ (c, u, data)); [exact Hd|]); try naive_solver.
  intros o. cbn [Db.calendar_objects Db.set_objects].
  rewrite elem_of_app, list_elem_of_singleton. intros [?| ->]; [by left|by right].
Qed.

Lemma triple_update_object c u e data f :
  triple etags [e] (execute (Events.update_object c u e data f)) [].
Proof.
  apply triple_execute; [apply _| |apply submseteq_nil_l]. intros seen k d frame Hd.
  eapply (etags_inv_store _ _ _ _ (c, u, data)); [exact Hd|].
  intros o. cbn [Events.update_object snd Db.calendar_objects Db.set_objects].
  intros (o' & -> & Ho')%list_elem_of_fmap. unfold Events.is_object.
  case_bool_decide as E; [right|by left]. split; [done|]. unfold version.
  unfold CalendarObject.key in *. cbn. by rewrite E.
Qed.

Lemma etag_free_sub {R} (stmt : Stmt R) :
  (∀ n d o, o ∈ Db.calendar_objects (stmt n d).2 → o ∈ Db.calendar_objects d) →
  etag_free stmt.
Proof. intros Hs seen n held d Hd. eapply etags_inv_shrink; [exact Hd|apply Hs]. Qed.

(** The other statements leave the objects or remove some. *)
#[local] Ltac etag_free_tac :=
  apply etag_free_sub; intros ? ? ?;
  unfold Users.insert_user, Calendars.insert_calendar, Events.insert_sync_change,
    Shares.upsert_share, Tokens.insert_token, Calendars.delete_by_id;
  repeat case_bool_decide; cbn [snd]; try case_decide; try done;
  let Hin := fresh in intros Hin; by apply elem_of_bfilter in Hin as [_ Hin].

#[local] Hint Extern 1 (stores_nothing _ _) => etag_free_tac : owned.
#[local] Hint Resolve triple_insert_object triple_update_object : owned.

#[local] Ltac etag_tac := triple_tac ltac:(apply triple_draw_etag).

Lemma etags_bump_ctag c : triple etags [] (Calendars.bump_ctag c) [].
Proof. unfold Calendars.bump_ctag, Calendars.new_sync_token, now_v7. etag_tac. Qed.
#[local] Hint Resolve etags_bump_ctag : owned.

Lemma etags_create_calendar_with_id i o n d c tz :
  triple etags [] (Calendars.create_calendar_with_id i o n d c tz) [].
Proof.
  unfold Calendars.create_calendar_with_id, Calendars.get_calendar_by_id,
    Calendars.new_sync_token, now_v7. etag_tac.
Qed.
#[local] Hint Resolve etags_create_calendar_with_id : owned.

Context `{!UuidLaws}.

Lemma etags_upsert_object c u x f : triple etags [] (Events.upsert_object c u x f) [].
Proof.
  unfold Events.upsert_object, Events.get_object_by_uid, Calendars.new_sync_token,
    Events.log_sync_change, now_v7. etag_tac.
Qed.

#[export] Instance etags_write_closed : WriteClosed (balanced etags_inv).
Proof.
  split; [apply _|..]; unfold holds, balanced; intros.
  - by apply balanced_sessions; [apply _|].
  - unfold Users.create_user, Users.hash_password, Users.get_user_by_username, now_v7. etag_tac.
  - unfold Users.reset_password, Users.hash_password. etag_tac.
  - unfold Calendars.create_calendar, now_v7. etag_tac.
  - apply etags_create_calendar_with_id.
  - unfold Calendars.update_calendar, Calendars.get_calendar_by_id. etag_tac.
  - unfold Calendars.delete_calendar. etag_tac.
  - apply etags_upsert_object.
  - unfold Events.delete_object, Events.log_sync_change, Calendars.new_sync_token, now_v7.
    etag_tac.
  - unfold Shares.share_calendar, now_v7. etag_tac.
  - unfold Shares.unshare_calendar. etag_tac.
  - unfold Tokens.create_token, Tokens.generate_raw_token, Tokens.hash_token, now_v7. etag_tac.
  - unfold Tokens.delete_token. etag_tac.
Qed.
End rules.

(** ** Over the life of the server *)

Section histories.
Context `{SqliteLaws, UuidLaws, Argon2, Base64, QuickXml, Rng, Chrono, Serde}.

Lemma tasks_own_etags p : Server.starts p → triple (held_db etags_inv) [] p [].
Proof using All. intros [t ->]. apply (closed_run_task (J := balanced etags_inv)). Qed.

Lemma etags_inv_empty : etags_inv [] 0 [] Db.empty.
Proof using All. split; try apply NoDup_nil_2; set_solver. Qed.

(** C4: An ETag stands for one version of one object, for ever: at any two moments of any
    execution of the server on a new database, requests interleaved in any way and with
    any faults, two objects with the same ETag are the same object of the same calendar
    with the same data. *)
Theorem etags_identify_versions ps w ps' w' o o' :
  serves ([], start) (ps, w) → serves (ps, w) (ps', w') →
  o ∈ Db.calendar_objects (db (store w)) → o' ∈ Db.calendar_objects (db (store w')) →
  CalendarObject.etag o = CalendarObject.etag o' →
  CalendarObject.key o = CalendarObject.key o' ∧
  CalendarObject.ical_data o = CalendarObject.ical_data o'.
Proof using All.
  intros Hr Hr' Ho Ho' E.
  destruct (interleaving_owned (held_db etags_inv) Server.starts [] [] ps start w)
    as (hs & Hps & HI); [apply tasks_own_etags|constructor|exact Hr|].
  destruct (HI [] etags_inv_empty) as [Hf Hh Hnd Hv]. clear HI.
  destruct (interleaving_owned (held_db etags_inv) Server.starts hs ps ps' w w')
    as (hs' & _ & HI); [apply tasks_own_etags|done|exact Hr'|].
  destruct (HI (Db.calendar_objects (db (store w)))) as [_ _ _ Hv'].
  - unfold held_db, known in *. cbn [app] in *.
    split; unfold known; [| |done|].
    + intros k Hk. destruct (Hf k Hk). rewrite fmap_app, elem_of_app. tauto.
    + intros e He. specialize (Hh e He). rewrite fmap_app, elem_of_app. tauto.
    + intros x y [Hx|Hx]%elem_of_app [Hy|Hy]%elem_of_app; by apply Hv.
  - specialize (Hv' o o'). unfold known in Hv'.
    rewrite !elem_of_app in Hv'. specialize (Hv' (or_introl Ho) (or_intror Ho') E).
    split; [exact (f_equal fst Hv')|exact (f_equal snd Hv')].
Qed.
End histories.

(** ** On the simulated server *)

Module ETagsExamples.
Import Sim.

(** The object that a PUT stored is still there, with its ETag, after another PUT. *)
Lemma etags_identify_versions_witness :
  ∃ o o', o ∈ Db.calendar_objects (db (store (after SyncTokensExamples.history))) ∧
    o' ∈ Db.calendar_objects (db (store (after (SyncTokensExamples.history ++
      [Server.CaldavRequest Router.ObjectEndpoint ["dora"; "home"; "tea.ics"]
         (Request.mk "PUT" [("authorization", Some "Basic dora:pw")] (BodyBytes "TEA"))])))) ∧
    CalendarObject.ical_data o = "DATA" ∧ CalendarObject.ical_data o' = "DATA".
Proof.
  set (tea := [Server.CaldavRequest _ _ _]).
  destruct (after_serves SyncTokensExamples.history) as [ps Hr].
  destruct (after_app_serves SyncTokensExamples.history tea ps) as [ps' Hr'].
  destruct (Db.calendar_objects (db (store (after SyncTokensExamples.history)))) as [|o l] eqn:E;
    [by vm_compute in E|].
  destruct (Db.calendar_objects (db (store (after (SyncTokensExamples.history ++ tea)))))
    as [|o' l'] eqn:E'; [by vm_compute in E'|].
  destruct (etags_identify_versions ps _ ps' _ o o' Hr Hr') as [_ Hd].
  - rewrite E. by left.
  - rewrite E'. by left.
  - vm_compute in E, E'. by injection E as <- _; injection E' as <- _.
  - exists o, o'. split; [by left|]. split; [by left|].
    assert (CalendarObject.ical_data o = "DATA") as Ho
      by (vm_compute in E; by injection E as <- _).
    split; [exact Ho|by rewrite <- Hd].
Defined.
End ETagsExamples.
