(* ===== verification/SyncLog.v ===== *)
(** * The log of changes is complete

    [tracked]: the objects that are there are exactly those whose last log entry is not a
    deletion.  Each function of the data-access layer keeps this when no statement fails
    and the log has room, so it holds after any tasks served one after the other. *)
From Stdlib Require Import NArith ZArith.
From S2P Require Import Prelude RustStr Effects Models Db DbUsers DbCalendars DbEvents.
From S2P Require Import DbShares DbTokens Ical Http Xml Properties CaldavHandlers CaldavRouter.
From S2P Require Import Json McpTools Mcp Cli Closure Layer Sim Integrity EventsSpec.
From S2P Require Import CalendarsSpec QuerySpec ReportSpec ReadOnly Server SyncTokens.
From stdpp Require Import options.
Set Default Proof Using "Type*".

(** ** The invariant *)

(** The entries of a log about one object. *)
Definition about (uid : string) (l : list SyncChange.t) : list SyncChange.t :=
  bfilter (λ e, bool_decide (SyncChange.object_uid e = uid)) l.

Lemma about_app uid l l' : about uid (l ++ l') = about uid l ++ about uid l'.
Proof. apply bfilter_app. Qed.

Lemma about_one uid e :
  about uid [e] = if decide (SyncChange.object_uid e = uid) then [e] else [].
Proof.
  unfold about. rewrite bfilter_cons. case_decide; [by rewrite bool_decide_true|].
  by rewrite bool_decide_false.
Qed.

Lemma last_about_snoc uid l e :
  last (about uid (l ++ [e])) =
    if decide (SyncChange.object_uid e = uid) then Some e else last (about uid l).
Proof.
  rewrite about_app, about_one. case_decide; [apply last_snoc|by rewrite app_nil_r].
Qed.

(** The last entry of the log about an object, and whether it says that the object is
    there. *)
Definition last_change (c uid : string) (d : Db.t) : option SyncChange.t :=
  last (about uid (log_of c d)).

Definition alive (e : option SyncChange.t) : bool :=
  match e with
  | Some e => bool_decide (SyncChange.change_type e ≠ "deleted")
  | None => false
  end.

Definition tracked (d : Db.t) : Prop :=
  ∀ c uid, is_some_b (objects_of d !! (c, uid)) = alive (last_change c uid d).

Lemma tracked_empty : tracked Db.empty.
Proof. done. Qed.

(** The objects and the log are as before. *)
Definition same_log (d d' : Db.t) : Prop :=
  Db.calendar_objects d' = Db.calendar_objects d ∧
  Db.sync_changes d' = Db.sync_changes d ∧ Db.sync_seq d' = Db.sync_seq d.

Lemma tracked_same d d' : same_log d d' → tracked d → tracked d'.
Proof.
  intros (Ho & Hl & _) Ht c uid. unfold last_change, log_of, objects_of. rewrite Ho, Hl. apply Ht.
Qed.

Section changes.
Context `{Sqlite}.

(** One entry more, about the object that was saved or deleted. *)
Lemma last_change_noted c uid kind σ σ' c' uid' :
  noted c uid kind σ σ' →
  ∃ e, SyncChange.change_type e = kind ∧ 
       last_change c' uid' (db σ') =
         if decide ((c', uid') = (c, uid)) then Some e else last_change c' uid' (db σ).
Proof.
  intros [_ (n & tok & E) _ _ _ _ _].
  eexists (SyncChange.mk _ c uid kind tok (datetime_now n)). split; [done|].
  unfold last_change, log_of. rewrite E, bfilter_app, bfilter_cons.
  destruct (decide (c = c')) as [->|Hc].
  - rewrite bool_decide_true by done. change (bfilter _ []) with (@nil SyncChange.t).
    rewrite last_about_snoc. simpl.
    repeat case_decide; naive_solver.
  - rewrite bool_decide_false by done. change (bfilter _ []) with (@nil SyncChange.t).
    rewrite app_nil_r. by rewrite decide_False by naive_solver.
Qed.

Lemma tracked_saved c uid obj kind σ σ' :
  kind ≠ "deleted" → noted c uid kind σ σ' →
  objects_of (db σ') = <[(c, uid) := obj]> (objects_of (db σ)) →
  tracked (db σ) → tracked (db σ').
Proof.
  intros Hk Hn Ho Ht c' uid'. destruct (last_change_noted _ _ _ _ _ c' uid' Hn) as (e & He & ->).
  rewrite Ho. case_decide as E; [injection E as -> ->; rewrite lookup_insert_eq|].
  - simpl. by rewrite bool_decide_true by (by rewrite He).
  - rewrite lookup_insert_ne by done. apply Ht.
Qed.

Lemma tracked_deleted c uid σ σ' :
  noted c uid "deleted" σ σ' →
  objects_of (db σ') = delete (c, uid) (objects_of (db σ)) →
  tracked (db σ) → tracked (db σ').
Proof.
  intros Hn Ho Ht c' uid'. destruct (last_change_noted _ _ _ _ _ c' uid' Hn) as (e & He & ->).
  rewrite Ho. case_decide as E; [injection E as -> ->; rewrite lookup_delete_eq|].
  - simpl. by rewrite bool_decide_false by (rewrite He; tauto).
  - rewrite lookup_delete_ne by done. apply Ht.
Qed.

(** A calendar goes with its objects and its entries. *)
Lemma tracked_delete_calendar id n d :
  Db.wf d → tracked d → tracked (Calendars.delete_by_id id n d).2.
Proof.
  intros Hwf Ht c uid. specialize (Ht c uid).
  pose proof (sound_delete_calendar id n d Hwf) as Hwf'.
  rewrite delete_by_id_cascade in * by done.
  assert (objects_of (Calendars.without_calendar id d) !! (c, uid) =
            if decide (c = id) then None else objects_of d !! (c, uid)) as ->.
  { apply option_eq. intros o. rewrite lookup_objects_of by done.
    simpl. rewrite elem_of_bfilter, bool_decide_eq_true.
    destruct (decide (c = id)) as [->|Hne].
    - split; [|done]. unfold CalendarObject.key. intros [[? ?] [= ? ?]]. congruence.
    - rewrite lookup_objects_of by done. unfold CalendarObject.key.
      split; [naive_solver|]. intros [? [= <- <-]]. naive_solver. }
  assert (log_of c (Calendars.without_calendar id d) =
            if decide (c = id) then [] else log_of c d) as E.
  { unfold log_of. simpl. rewrite bfilter_bfilter. destruct (decide (c = id)) as [->|Hne].
    - apply bfilter_none. intros e _. by destruct (decide (SyncChange.calendar_id e = id));
        repeat case_bool_decide.
    - apply bfilter_ext. intros e _. repeat case_bool_decide; naive_solver. }
  unfold last_change. rewrite E. by destruct (decide (c = id)).
Qed.
End changes.

(** ** Programs *)

(** The log's counter never decreases, at any step. *)
Section counter.
Context `{Sqlite, Uuids}.

Definition seq_grows (A : Type) (p : M A) : Prop :=
  ∀ w, (Db.sync_seq (db (store w)) ≤ Db.sync_seq (db (store (run p w).2)))%Z.

Lemma seq_grows_execute {R} (stmt : Stmt R) :
  (∀ n d, Db.sync_seq d ≤ Db.sync_seq (stmt n d).2)%Z → seq_grows _ (execute stmt).
Proof.
  intros Hs w. destruct (sql_fault (clock w)) as [e|] eqn:Ef.
  - by erewrite run_execute_fault by exact Ef.
  - rewrite run_execute by exact Ef. apply Hs.
Qed.

#[local] Ltac counter_tac :=
  apply seq_grows_execute; intros ? ?;
  unfold Users.insert_user, Calendars.insert_calendar, Events.insert_object,
    Events.insert_sync_change, Shares.upsert_share, Tokens.insert_token,
    Calendars.delete_by_id;
  repeat case_bool_decide; cbn [snd]; try case_decide; simpl; lia.

#[export] Instance seq_grows_closed : StmtClosed seq_grows.
Proof.
  split; [split; [split|]|..]; unfold holds; try (intros; counter_tac).
  - by intros A a w.
  - intros A B p f Hp Hf w. rewrite run_bind. specialize (Hp w). destruct (run p w) as [a w'].
    etransitivity; [exact Hp|apply Hf].
  - by intros R f w.
  - intros R stmt Hq. apply seq_grows_execute. intros n d. by rewrite Hq.
  - intros B f Hf w. unfold new_v4. rewrite run_bind, run_observe. apply (Hf _ (tick w (store w))).
  - intros B f Hf w. unfold now_v7. rewrite run_bind, run_observe. apply (Hf _ (tick w (store w))).
  - intros R s Hs w. rewrite run_atomic. cbn [store snd]. by rewrite Hs.
Qed.
End counter.

(** Programs that leave the objects and the log as they are. *)
Section quiet.
Context `{Sqlite, Uuids, Argon2, Rng}.

Definition quiet (A : Type) (p : M A) : Prop :=
  ∀ w, same_log (db (store w)) (db (store (run p w).2)).

Lemma same_log_trans d d' d'' : same_log d d' → same_log d' d'' → same_log d d''.
Proof. unfold same_log. intros (-> & -> & ->) (-> & -> & ->). done. Qed.

Lemma quiet_execute {R} (stmt : Stmt R) :
  (∀ n d, same_log d (stmt n d).2) → holds quiet (execute stmt).
Proof.
  intros Hs w. destruct (sql_fault (clock w)) as [e|] eqn:Ef.
  - by erewrite run_execute_fault by exact Ef.
  - rewrite run_execute by exact Ef. apply Hs.
Qed.

#[export] Instance quiet_query_closed : QueryClosed quiet.
Proof.
  split; [split|]; unfold holds.
  - by intros A a w.
  - intros A B p f Hp Hf w. rewrite run_bind. specialize (Hp w). destruct (run p w) as [a w'].
    eapply same_log_trans; [exact Hp|apply Hf].
  - by intros R f w.
  - intros R stmt Hq. apply quiet_execute. intros n d. by rewrite Hq.
Qed.

#[local] Hint Resolve quiet_query_closed : closure.

#[local] Ltac quiet_tac :=
  repeat match goal with
  | |- holds _ (execute _) =>
      apply quiet_execute; intros ? ?;
      unfold Users.insert_user, Calendars.insert_calendar, Shares.upsert_share,
        Tokens.insert_token; repeat case_bool_decide; done
  | |- holds _ (sql_try _) => apply closed_with_err
  | |- _ => closed_step || (progress cbn beta iota zeta) || solve [eauto 4 with closure]
  end.

Lemma quiet_bump_ctag c : holds quiet (Calendars.bump_ctag c).
Proof. unfold Calendars.bump_ctag, Calendars.new_sync_token, now_v7. quiet_tac. Qed.

Lemma quiet_create_user u e pw : holds quiet (Users.create_user u e pw).
Proof. unfold Users.create_user, Users.hash_password, now_v7. quiet_tac. Qed.

Lemma quiet_reset_password u pw : holds quiet (Users.reset_password u pw).
Proof. unfold Users.reset_password, Users.hash_password. quiet_tac. Qed.

Lemma quiet_create_calendar_with_id id o n d c tz :
  holds quiet (Calendars.create_calendar_with_id id o n d c tz).
Proof.
  unfold Calendars.create_calendar_with_id, Calendars.new_sync_token, now_v7. quiet_tac.
Qed.

Lemma quiet_create_calendar o n d c tz : holds quiet (Calendars.create_calendar o n d c tz).
Proof.
  unfold Calendars.create_calendar, now_v7. quiet_tac. apply quiet_create_calendar_with_id.
Qed.

Lemma quiet_update_calendar id n d c tz : holds quiet (Calendars.update_calendar id n d c tz).
Proof. unfold Calendars.update_calendar. quiet_tac. Qed.

Lemma quiet_share_calendar c u p : holds quiet (Shares.share_calendar c u p).
Proof. unfold Shares.share_calendar, now_v7. quiet_tac. Qed.

Lemma quiet_unshare_calendar c u : holds quiet (Shares.unshare_calendar c u).
Proof. unfold Shares.unshare_calendar. quiet_tac. Qed.

Lemma quiet_create_token u n : holds quiet (Tokens.create_token u n).
Proof.
  unfold Tokens.create_token, Tokens.generate_raw_token, Tokens.hash_token, now_v7. quiet_tac.
Qed.

Lemma quiet_delete_token t : holds quiet (Tokens.delete_token t).
Proof. unfold Tokens.delete_token. quiet_tac. Qed.

Lemma quiet_sessions R (s : N → Store → R * Store) :
  (∀ n σ, db (s n σ).2 = db σ) → holds quiet (atomic s).
Proof. intros Hs w. rewrite run_atomic. cbn [store snd]. by rewrite Hs. Qed.
End quiet.

#[export] Hint Resolve quiet_create_user quiet_reset_password quiet_create_calendar_with_id
  quiet_create_calendar quiet_update_calendar quiet_share_calendar quiet_unshare_calendar
  quiet_create_token quiet_delete_token quiet_sessions : quiet.

(** ** The functions keep the log complete *)

Section tracking.
Context `{SqliteLaws, Uuids, Argon2, Rng}.
(** No statement fails for a reason outside the schema. *)
Context (Hnf : ∀ n, sql_fault n = None).

Definition room (d : Db.t) : Prop := (Db.sync_seq d < 2 ^ 63 - 1)%Z.

(** Run alone from a well-formed database, the program keeps the log complete, as long
    as the log had room to the end. *)
Definition keeps_log {A} (p : M A) : Prop :=
  ∀ w, Db.wf (db (store w)) → room (db (store (run p w).2)) →
       tracked (db (store w)) → tracked (db (store (run p w).2)).

Definition tracks (A : Type) (p : M A) : Prop :=
  holds keeps p ∧ holds seq_grows p ∧ keeps_log p.

Lemma tracks_quiet {A} (p : M A) :
  holds keeps p → holds seq_grows p → holds quiet p → holds tracks p.
Proof.
  intros Hk Hg Hq. split; [done|]. split; [done|]. intros w _ _. by apply tracked_same.
Qed.

Lemma upsert_keeps_log c uid data f : keeps_log (Events.upsert_object c uid data f).
Proof.
  intros w Hwf Hroom Ht.
  assert (room (db (store w))) as Hseq.
  { pose proof (layer_upsert_object (J := seq_grows) c uid data f w). unfold room in *. lia. }
  destruct (objects_of (db (store w)) !! (c, uid)) as [o|] eqn:Ho.
  - assert (log_ready c (db (store w))) as Hr.
    { split; [|done]. apply lookup_objects_of in Ho as [Hin [= <- _]]; [|done].
      pose proof (Db.wf_object_calendar _ Hwf) as Hc. rewrite Forall_forall in Hc. by apply Hc. }
    destruct (run_upsert_update Hnf w c uid data f o Hwf Hr Ho)
      as (obj & w' & -> & Hm & _ & _ & _ & _ & _ & _ & Hn).
    by eapply (tracked_saved _ _ obj "modified").
  - destruct (decide (c ∈ Db.calendar_ids (db (store w)) ∧
      uuid_v7 (insert_step w) ∉ CalendarObject.id <$> Db.calendar_objects (db (store w))))
      as [[Hc Hid]|Hno].
    + destruct (run_upsert_insert Hnf w c uid data f Hwf (conj Hc Hseq) Ho Hid)
        as (obj & w' & -> & Hm & _ & _ & _ & _ & _ & Hn).
      by eapply (tracked_saved _ _ obj "created").
    + destruct (run_upsert_refused Hnf w c uid data f Hwf Ho) as (e & w' & -> & Hs);
        [|cbn [snd]; by rewrite Hs].
      apply not_and_l in Hno as [Hno|Hno]; [by left|right; by apply dec_stable].
Qed.

Lemma delete_keeps_log c uid : keeps_log (Events.delete_object c uid).
Proof.
  intros w Hwf Hroom Ht.
  assert (room (db (store w))) as Hseq.
  { pose proof (layer_delete_object (J := seq_grows) c uid w). unfold room in *. lia. }
  destruct (run_delete_object Hnf w c uid Hwf Hseq) as (r & w' & -> & Hm & Hr).
  destruct (objects_of (db (store w)) !! (c, uid)) as [o|].
  - destruct Hr as [_ Hn]. by eapply tracked_deleted.
  - destruct Hr as [_ Hs]. cbn [snd]. by rewrite Hs.
Qed.

Lemma delete_calendar_keeps_log id : keeps_log (Calendars.delete_calendar id).
Proof.
  intros w Hwf _ Ht. unfold Calendars.delete_calendar.
  rewrite run_try, run_sql_try by apply Hnf.
  pose proof (tracked_delete_calendar id (clock w) _ Hwf Ht) as Ht'.
  destruct (Calendars.delete_by_id id (clock w) (db (store w))) as [[r|e] d'];
    exact Ht'.
Qed.

#[export] Instance tracks_prog_closed : ProgClosed tracks.
Proof using All.
  split; unfold holds.
  - intros A a. split; [apply closed_ret|]. split; [apply closed_ret|]. by intros w.
  - intros A B p f (Hk & Hg & Hp) Hf.
    split; [apply closed_bind; [exact Hk|apply Hf]|].
    split; [apply closed_bind; [exact Hg|apply Hf]|].
    intros w Hwf. pose proof (keeps_run p w Hk Hwf) as Hwf'. specialize (Hp w Hwf).
    rewrite run_bind. destruct (run p w) as [a w']. cbn [snd] in *.
    destruct (Hf a) as (_ & Hg' & Hf'). intros Hroom Ht. apply Hf'; [done..|].
    apply Hp; [|done]. specialize (Hg' w'). unfold room in *. lia.
  - intros R f. apply tracks_quiet; apply closed_observe.
Qed.

#[export] Instance tracks_read_closed : ReadClosed tracks.
Proof using All.
  split; [apply _|..]; intros; apply tracks_quiet;
    eauto using read_prog with closure typeclass_instances.
Qed.

#[export] Instance tracks_write_closed : WriteClosed tracks.
Proof using All.
  split; [apply _|..]; intros;
    try (apply tracks_quiet; eauto with closure quiet typeclass_instances; fail).
  - apply tracks_quiet; [by apply closed_sessions..|by apply quiet_sessions].
  - split; [|split; [|apply delete_calendar_keeps_log]]; apply closed_delete_calendar.
  - split; [|split; [|apply upsert_keeps_log]]; apply closed_upsert_object.
  - split; [|split; [|apply delete_keeps_log]]; apply closed_delete_object.
Qed.
End tracking.

(** ** After a sequence of tasks *)

Section histories.
Context `{SqliteLaws, UuidLaws, Argon2, Base64, QuickXml, Rng, Chrono, Serde}.
Context (Hnf : ∀ n, sql_fault n = None).

Lemma after_room ts ts' :
  room (db (store (after (ts ++ ts')))) → room (db (store (after ts))).
Proof using All.
  rewrite after_app. pose proof (closed_run_tasks (J := seq_grows) ts' (after ts)) as Hg.
  unfold room. unfold holds, seq_grows in Hg. lia.
Qed.

(** Whatever tasks were served one after the other since the database was created: the
    objects that are there are those whose last log entry is not a deletion. *)
Lemma after_tracked ts : room (db (store (after ts))) → tracked (db (store (after ts))).
Proof using All.
  intros Hroom. pose proof (tracks_write_closed Hnf) as Hw.
  destruct (closed_run_tasks (J := tracks) ts) as (_ & _ & Hk).
  apply (Hk (mkWorld 0 (mkStore Db.empty ∅))); [exact Db.wf_empty|exact Hroom|exact tracked_empty].
Qed.
End histories.
