(* ===== verification/Reachable.v ===== *)
(** * From reachable states

    What was proved of a database that satisfies the schema and in which identifiers yet
    to be drawn are fresh holds of every state that the server reaches: [ids_inv] shows
    that no identifier yet to be drawn is in the database.  With that, an event saved on
    one route is served on any other. *)
From Stdlib Require Import NArith ZArith.
From S2P Require Import Prelude RustStr Effects Models Db DbUsers DbCalendars DbEvents.
From S2P Require Import DbShares DbTokens Ical Http Xml Properties CaldavHandlers CaldavRouter.
From S2P Require Import Json McpTools Mcp Cli Closure Layer Sim Integrity EventsSpec.
From S2P Require Import CalendarsSpec HandlersSpec McpSpec AccessSpec ReadOnly Ownership.
From S2P Require Import Server.
From S2P Require Import SyncTokens SyncLog.
From stdpp Require Import relations.
From stdpp Require Import options.
Set Default Proof Using "Type*".

(** ** Identifiers yet to be drawn *)

(** The primary keys that [Uuid::now_v7()] gives. *)
Definition drawn_ids (d : Db.t) : list string :=
  (User.id <$> Db.users d) ++ (CalendarObject.id <$> Db.calendar_objects d) ++
  (CalendarShare.id <$> Db.calendar_shares d) ++ (McpToken.id <$> Db.mcp_tokens d).

Section ids_inv.
Context `{Uuids}.

Definition ids_inv (_ : unit) (n : N) (held : list string) (d : Db.t) : Prop :=
  ∀ k, (n ≤ k)%N → uuid_v7 k ∉ drawn_ids d ∧ uuid_v7 k ∉ held.

#[export] Instance ids_inv_holding : Holding ids_inv.
Proof.
  intros [] n n' held held' d Hi Hn Hs k Hk. destruct (Hi k) as [? Hh]; [lia|].
  split; [done|]. intros Hin. by eapply Hh, elem_of_submseteq.
Qed.

(** A statement may store an identifier that is held. *)
Lemma ids_inv_store x n id held d d' :
  ids_inv x n (id :: held) d →
  (∀ i, i ∈ drawn_ids d' → i = id ∨ i ∈ drawn_ids d) → ids_inv x (N.succ n) held d'.
Proof.
  intros Hi Hs k Hk. destruct (Hi k) as [Hd Hh]; [lia|].
  apply not_elem_of_cons in Hh as [Hne Hh]. split; [|done]. by intros [?|?]%Hs.
Qed.

Lemma ids_inv_sub x n held d d' :
  ids_inv x n held d → (∀ i, i ∈ drawn_ids d' → i ∈ drawn_ids d) →
  ids_inv x (N.succ n) held d'.
Proof.
  intros Hi Hs k Hk. destruct (Hi k) as [Hd Hh]; [lia|]. split; [|done]. by intros ?%Hs.
Qed.
End ids_inv.

Section rules.
Context `{Sqlite, Uuids, Argon2, Rng, !UuidLaws}.
Local Abbreviation ids := (held_db ids_inv).

Lemma triple_draw_id {B} held held' (f : string → M B) :
  (∀ id, triple ids (id :: held) (f id) held') → triple ids held (now_v7 ≫= f) held'.
Proof.
  intros Hf. apply (triple_draw _ _ _ uuid_v7 id f); [|exact Hf].
  intros x n σ h Hi k Hk. destruct (Hi k) as [? Hh]; [lia|]. split; [done|].
  apply not_elem_of_cons. split; [|done]. unfold id. intros ?%uuid_v7_inj. lia.
Qed.

Lemma triple_stores {R} id (stmt : Stmt R) :
  (∀ n d i, i ∈ drawn_ids (stmt n d).2 → i = id ∨ i ∈ drawn_ids d) →
  triple ids [id] (execute stmt) [].
Proof.
  intros Hs. apply triple_execute; [apply _| |apply submseteq_nil_l].
  intros x n d frame Hd. eapply ids_inv_store; [exact Hd|apply Hs].
Qed.

Lemma ids_free {R} (stmt : Stmt R) :
  (∀ n d i, i ∈ drawn_ids (stmt n d).2 → i ∈ drawn_ids d) → stores_nothing ids_inv stmt.
Proof. intros Hs x n held d Hd. eapply ids_inv_sub; [exact Hd|apply Hs]. Qed.

Lemma elem_of_drawn_ids d i :
  i ∈ drawn_ids d ↔ i ∈ User.id <$> Db.users d ∨
    i ∈ CalendarObject.id <$> Db.calendar_objects d ∨
    i ∈ CalendarShare.id <$> Db.calendar_shares d ∨ i ∈ McpToken.id <$> Db.mcp_tokens d.
Proof. unfold drawn_ids. by rewrite !elem_of_app. Qed.

(** The four statements that store one. *)
Lemma ids_insert_user id u e h : triple ids [id] (execute (Users.insert_user id u e h)) [].
Proof.
  apply triple_stores. intros n d i. rewrite !elem_of_drawn_ids. unfold Users.insert_user.
  repeat case_bool_decide; cbn -[fmap]; try tauto. rewrite fmap_app, elem_of_app.
  cbn. rewrite list_elem_of_singleton. tauto.
Qed.

Lemma ids_insert_object id c u e data f :
  triple ids [id] (execute (Events.insert_object id c u e data f)) [].
Proof.
  apply triple_stores. intros n d i. rewrite !elem_of_drawn_ids. unfold Events.insert_object.
  repeat case_bool_decide; cbn -[fmap]; try tauto. rewrite fmap_app, elem_of_app.
  cbn. rewrite list_elem_of_singleton. tauto.
Qed.

Lemma ids_insert_token id u h nm : triple ids [id] (execute (Tokens.insert_token id u h nm)) [].
Proof.
  apply triple_stores. intros n d i. rewrite !elem_of_drawn_ids. unfold Tokens.insert_token.
  repeat case_bool_decide; cbn -[fmap]; try tauto. rewrite fmap_app, elem_of_app.
  cbn. rewrite list_elem_of_singleton. tauto.
Qed.

Lemma ids_upsert_share id c u p : triple ids [id] (execute (Shares.upsert_share id c u p)) [].
Proof.
  apply triple_stores. intros n d i. rewrite !elem_of_drawn_ids. unfold Shares.upsert_share.
  repeat case_bool_decide; cbn -[fmap]; try tauto.
  - rewrite <- list_fmap_compose. intros Hi.
    rewrite (list_fmap_ext _ CalendarShare.id) in Hi; [tauto|].
    intros k s _. simpl. by destruct (Shares.is_share c u s).
  - rewrite fmap_app, elem_of_app. cbn. rewrite list_elem_of_singleton. tauto.
Qed.

(** The others keep the rows' identifiers or remove rows. *)
Lemma fmap_same_ids {A} (f : A → string) (g : A → A) (l : list A) i :
  (∀ x, f (g x) = f x) → i ∈ f <$> (g <$> l) → i ∈ f <$> l.
Proof. intros Hg. by rewrite fmap_fmap_same. Qed.

#[local] Ltac ids_free_tac :=
  apply ids_free; intros ? ? ?; rewrite !elem_of_drawn_ids;
  unfold Calendars.insert_calendar, Events.insert_sync_change, Users.update_password_hash,
    Events.update_object, Calendars.delete_by_id, Calendars.without_calendar,
    Events.delete_by_uid;
  repeat (case_bool_decide || case_decide); cbn -[fmap]; try tauto;
  intros [Hi|[Hi|[Hi|Hi]]]; try tauto;
  first [ apply fmap_bfilter_sub in Hi; tauto
        | apply fmap_same_ids in Hi; [tauto|]; intros; simpl; by repeat case_match ].

#[local] Hint Extern 1 (stores_nothing _ _) => ids_free_tac : owned.
#[local] Hint Resolve ids_insert_user ids_insert_object ids_insert_token ids_upsert_share : owned.

#[local] Ltac ids_tac := triple_tac ltac:(apply triple_draw_id).

(** A sync token's draw stays with the program, which does not store it as an id. *)
Lemma ids_new_sync_token held : triple ids held Calendars.new_sync_token held.
Proof. apply triple_bind with held; [apply _|apply triple_observe, _|]. intros. apply triple_ret. Qed.
#[local] Hint Resolve ids_new_sync_token : owned.

Lemma ids_bump_ctag c : triple ids [] (Calendars.bump_ctag c) [].
Proof. unfold Calendars.bump_ctag. ids_tac. Qed.
#[local] Hint Resolve ids_bump_ctag : owned.

Lemma ids_create_calendar_with_id i o n d c tz :
  triple ids [] (Calendars.create_calendar_with_id i o n d c tz) [].
Proof.
  unfold Calendars.create_calendar_with_id, Calendars.get_calendar_by_id. ids_tac.
Qed.

Lemma ids_create_calendar o n d c tz : triple ids [] (Calendars.create_calendar o n d c tz) [].
Proof.
  apply triple_bind with []; [apply _|apply triple_observe, _|].
  intros. apply ids_create_calendar_with_id.
Qed.

Lemma ids_upsert_object c u x f : triple ids [] (Events.upsert_object c u x f) [].
Proof.
  unfold Events.upsert_object, Events.get_object_by_uid, Events.new_etag,
    Events.log_sync_change, new_v4. ids_tac.
Qed.

#[export] Instance ids_write_closed : WriteClosed (balanced ids_inv).
Proof.
  split; [apply _|..]; unfold holds, balanced; intros.
  - by apply balanced_sessions; [apply _|].
  - unfold Users.create_user, Users.hash_password, Users.get_user_by_username. ids_tac.
  - unfold Users.reset_password, Users.hash_password. ids_tac.
  - apply ids_create_calendar.
  - apply ids_create_calendar_with_id.
  - unfold Calendars.update_calendar, Calendars.get_calendar_by_id. ids_tac.
  - unfold Calendars.delete_calendar. ids_tac.
  - apply ids_upsert_object.
  - unfold Events.delete_object, Events.log_sync_change. ids_tac.
  - unfold Shares.share_calendar. ids_tac.
  - unfold Shares.unshare_calendar. ids_tac.
  - unfold Tokens.create_token, Tokens.generate_raw_token, Tokens.hash_token. ids_tac.
  - unfold Tokens.delete_token. ids_tac.
Qed.
End rules.

(** ** Every state the server reaches *)

Section reachable.
Context `{SqliteLaws, UuidLaws, Argon2, Base64, QuickXml, Rng, Chrono, Serde}.

Lemma tasks_own_ids p : Server.starts p → triple (held_db ids_inv) [] p [].
Proof using All. intros [t ->]. apply (closed_run_task (J := balanced ids_inv)). Qed.

(** No identifier yet to be drawn is in the database. *)
Lemma serves_fresh ps w n :
  serves ([], start) (ps, w) → (clock w ≤ n)%N → uuid_v7 n ∉ drawn_ids (db (store w)).
Proof using All.
  intros Hr Hn.
  destruct (interleaving_owned (held_db ids_inv) Server.starts [] [] ps start w)
    as (hs & _ & HI); [apply tasks_own_ids|constructor|exact Hr|].
  apply (HI tt); [|done]. intros k _. split; apply not_elem_of_nil.
Qed.

Lemma serves_fresh_objects ps w n :
  serves ([], start) (ps, w) → (clock w ≤ n)%N →
  uuid_v7 n ∉ CalendarObject.id <$> Db.calendar_objects (db (store w)).
Proof using All.
  intros Hr Hn Hin. eapply serves_fresh; [exact Hr|exact Hn|].
  apply elem_of_drawn_ids. by right; left.
Qed.
End reachable.

(** ** An event saved is an event served *)

Section saved.
Context `{SqliteLaws, UuidLaws, Argon2, Base64, QuickXml, Rng, Chrono, Serde}.
Context (Hnf : ∀ n, sql_fault n = None).

(** A request [r] for the file of calendar [c] on one of the two routes of objects, run as
    [p] for the user whom its authentication [auth] gives. *)
Record object_request (c file : string) (r : Request.t) (p : M Reply)
    (auth : M (Result User.t Reply)) : Prop := {
  or_route : ∃ e x, e ∈ [Router.ObjectEndpoint; Router.EmailObject] ∧
    Router.call e [x; c; file] r = Some p ∧ guarded e [x; c; file] r = Some (auth, c);
  or_method : Request.method r ≠ "OPTIONS";
}.

(** The user may use the calendar. *)
Definition may_use (user : User.t) (c : string) (w : World Store) : Prop :=
  ∃ cal, accessible (User.id user) (db (store w)) cal ∧ Calendar.id cal = c.

Lemma run_object_request c file r p auth user w w1 :
  object_request c file r p auth → run auth w = (Ok user, w1) → may_use user c w →
  run p w = run (Router.object_method c file r) (tick w1 (store w)).
Proof using All.
  intros [(e & x & He & Hc & Hg) Ho] Ha (cal & Hacc & Hid).
  rewrite (run_admitted e [x; c; file] r p auth c user cal w w1); try done.
  - f_equal. apply elem_of_cons in He as [->|He%list_elem_of_singleton]; [done|by subst e].
  - intros Hk. exfalso.
    apply elem_of_cons in He as [->|He%list_elem_of_singleton]; [|subst e];
      apply elem_of_cons in Hk as [?|Hk%list_elem_of_singleton]; done.
Qed.

(** A GET of a stored object's file. *)
Lemma run_served c uid obj r p auth user w w1 :
  Db.wf (db (store w)) → objects_of (db (store w)) !! (c, uid) = Some obj →
  (∃ n, CalendarObject.etag obj = Events.etag_of_uuid (uuid_v4 n)) →
  (∀ n, valid_header_value (uuid_v4 n) = true) → plain_uid uid →
  object_request c (file_of uid) r p auth → Request.method r = "GET" →
  run auth w = (Ok user, w1) → may_use user c w →
  (run p w).1 = object_reply (CalendarObject.etag obj) (CalendarObject.ical_data obj).
Proof using All.
  intros Hwf Hobj [n He] Hv4 Hp Hreq Hm Ha Huse.
  rewrite (run_object_request c (file_of uid) r p auth user w w1 Hreq Ha Huse).
  unfold Router.object_method. rewrite decide_True by done.
  rewrite run_handle_get by done. cbn [tick store].
  rewrite uid_of_file, Hobj by done. unfold build. cbn [fst forallb snd].
  by rewrite He, valid_etag, <- He by apply Hv4.
Qed.

(** What every reader of calendar [c] then gets for a UID: the body and the ETag from a GET
    on either route, and the fields with both from the MCP tool [get_event]. *)
Definition served_as (c uid etag data : string) (f : ObjectFields.t) (w : World Store) : Prop :=
  (∀ r p auth user w1,
     object_request c (file_of uid) r p auth → Request.method r = "GET" →
     run auth w = (Ok user, w1) → may_use user c w → (run p w).1 = object_reply etag data) ∧
  (∀ user args, Json.index_str "calendar_id" args = Some c →
     Json.index_str "event_uid" args = Some uid →
     (run (EventTools.get_event user args) w).1 = Ok (event_answer c uid f etag data)).

Lemma stored_served c uid obj w :
  Db.wf (db (store w)) → objects_of (db (store w)) !! (c, uid) = Some obj →
  (∃ n, CalendarObject.etag obj = Events.etag_of_uuid (uuid_v4 n)) →
  (∀ n, valid_header_value (uuid_v4 n) = true) → plain_uid uid →
  served_as c uid (CalendarObject.etag obj) (CalendarObject.ical_data obj) (fields_of obj) w.
Proof using All.
  intros Hwf Hobj He Hv4 Hp. split; [intros; by eapply run_served|intros; by apply run_get_event].
Qed.

(** The end of a UID that the server generates. *)
Lemma plain_generated s : plain_uid (s +:+ "@caldav-server").
Proof using.
  unfold plain_uid. induction s as [|a s IH]; [done|].
  change (String a s +:+ "@caldav-server") with (String a (s +:+ "@caldav-server")).
  cbn [Str.strip_suffix]. rewrite decide_False; [by rewrite IH|].
  intros E%(f_equal String.length). cbn in E. rewrite RustStr.str_length_app in E. cbn in E. lia.
Qed.

(** C9: In every state that the server reaches from a new database, by requests
    interleaved in any way: a PUT on an object route, by a user who may use the calendar,
    whose body is readable text and whose If-Match admits the stored object, is answered
    201 (no object with the UID before) or 204 with the new ETag, and stores its body
    under the UID that the data carries (the file name's only if it carries none); every
    other object is as before.  A GET of that UID's file on any object route, by any user
    who may use the calendar, then answers with the body, byte for byte, and that ETag;
    the MCP tool [get_event] answers with both and the fields extracted from the body. *)
Theorem saved_event_is_served ps w c file r p auth user w1 data :
  serves ([], start) (ps, w) → room (db (store w)) →
  (∀ n, valid_header_value (uuid_v4 n) = true) →
  object_request c file r p auth → run auth w = (Ok user, w1) → may_use user c w →
  Request.method r = "PUT" → put_text r = Some data →
  let uid := put_uid file data in
  let objects := objects_of (db (store w)) in
  if_match_ok (Request.header "if-match" r) (objects !! (c, uid)) = true → plain_uid uid →
  ∃ etag w',
    run p w =
      (Respond (Response.mk (if objects !! (c, uid) then 204 else 201) [("etag", etag)] ""), w') ∧
    (∀ k, k ≠ (c, uid) → objects_of (db (store w')) !! k = objects !! k) ∧
    served_as c uid etag data (Put.object_fields (Parser.extract_fields data)) w'.
Proof using All.
  intros Hr Hroom Hv4 Hreq Ha Huse Hm Ht uid objects Hif Hp.
  rewrite (run_object_request c file r p auth user w w1 Hreq Ha Huse).
  pose proof (run_clock auth w) as Hcl. rewrite Ha in Hcl. cbn [snd] in Hcl.
  unfold Router.object_method at 1. rewrite decide_False, decide_True by (done || by rewrite Hm).
  destruct (run_accepted_put Hnf c file r data (tick w1 (store w)))
    as (obj & w' & Hrun & Hobj & Hwf' & Hdata & Hf & (n & _ & He) & _); cbn [tick store clock].
  - by eapply serves_wf.
  - destruct Huse as (cal & [Hcal _] & <-). split; [by apply list_elem_of_fmap_2|exact Hroom].
  - intros n Hn. eapply serves_fresh_objects; [exact Hr|lia].
  - done.
  - done.
  - exact Hif.
  - cbn [tick store] in Hobj. exists (CalendarObject.etag obj), w'. split; [exact Hrun|]. split.
    + intros k Hk. rewrite Hobj. by apply lookup_insert_ne.
    + rewrite <- Hdata at 1. rewrite <- Hf.
      apply stored_served; [done|by rewrite Hobj, lookup_insert_eq|by exists n|done..].
Qed.

(** C10: In every state that the server reaches: the MCP tool [create_event], for a calendar
    that is there, stores the event it builds from its arguments under a new UID and
    answers with the UID and the ETag; and that event is then served over CalDAV, on any
    object route, to any user who may use the calendar, and by the tool [get_event]. *)
Theorem tool_event_is_served ps w user args c title start_ end_ :
  serves ([], start) (ps, w) → room (db (store w)) →
  (∀ n, valid_header_value (uuid_v4 n) = true) → c ∈ Db.calendar_ids (db (store w)) →
  Json.index_str "calendar_id" args = Some c → Json.index_str "title" args = Some title →
  Json.index_str "start" args = Some start_ → Json.index_str "end" args = Some end_ →
  let uid := uuid_v4 (clock w) +:+ "@caldav-server" in
  let data := Builder.build_vevent (utc_now (N.succ (clock w))) uid title start_ end_
                (Json.index_str "description" args) (Json.index_str "location" args)
                (Json.index_str "timezone" args) in
  ∃ etag w',
    run (EventTools.create_event user args) w =
      (Ok (JObject [("uid", JString uid); ("calendar_id", JString c); ("title", JString title);
                    ("start", JString start_); ("end", JString end_);
                    ("etag", JString etag)]), w') ∧
    (∀ k, k ≠ (c, uid) → objects_of (db (store w')) !! k = objects_of (db (store w)) !! k) ∧
    served_as c uid etag data (EventTools.event_fields title start_ end_) w'.
Proof using All.
  intros Hr Hroom Hv4 Hc Ec Et Es Ee uid data.
  destruct (run_create_event Hnf user args c title start_ end_ w)
    as (obj & w' & Hrun & Hobj & Hwf' & Hdata & Hf & He); try done.
  - by eapply serves_wf.
  - intros n Hn. by eapply serves_fresh_objects.
  - exists (CalendarObject.etag obj), w'. split; [exact Hrun|]. split.
    + intros k Hk. rewrite Hobj. by apply lookup_insert_ne.
    + fold uid data in Hdata. rewrite <- Hdata, <- Hf.
      apply stored_served; [done|by rewrite Hobj, lookup_insert_eq|done|done|].
      apply plain_generated.
Qed.
End saved.

(** ** On the simulated server *)

Module ReachableExamples.
Import Sim.

Definition ask (method body : string) : Request.t :=
  Request.mk method [("authorization", Some "Basic dora:pw")] (BodyBytes body).

Definition dora : User.t := User.mk "v7-0" "dora" None "argon2:pw" now.

Lemma dora_may_use w cal :
  head (Db.calendars (db (store w))) = Some cal →
  Calendar.id cal = "home" → Calendar.owner_id cal = "v7-0" → may_use dora "home" w.
Proof.
  intros Hh Hid Ho. exists cal. split; [|exact Hid]. split; [|by left].
  by apply head_Some_elem_of.
Qed.

Definition get_tea (file : string) : M Reply :=
  Router.handle_object "dora" "home" file (ask "GET" "").

Lemma a_request file method body :
  bool_decide (method = "OPTIONS") = false →
  object_request "home" file (ask method body)
    (Router.handle_object "dora" "home" file (ask method body))
    (Router.auth_or_path_user (Some "Basic dora:pw") "dora").
Proof.
  intros Hm%bool_decide_eq_false. split; [|done].
  exists Router.ObjectEndpoint, "dora". split; [by left|done].
Qed.

(** Dora, whose calendar has one event, saves another and reads it. *)
Lemma saved_event_is_served_witness :
  ∃ etag w',
    run (Router.handle_object "dora" "home" "tea.ics" (ask "PUT" "TEA"))
      (after SyncTokensExamples.history) =
      (Respond (Response.mk 201 [("etag", etag)] ""), w') ∧
    (run (Router.handle_object "dora" "home" "tea.ics" (ask "GET" "")) w').1 =
      object_reply etag "TEA".
Proof.
  set (w := after SyncTokensExamples.history).
  destruct (after_serves SyncTokensExamples.history) as [ps Hr].
  set (auth := Router.auth_or_path_user (Some "Basic dora:pw") "dora").
  set (save := Router.handle_object "dora" "home" "tea.ics" (ask "PUT" "TEA")).
  destruct (saved_event_is_served nofault ps w "home" "tea.ics" (ask "PUT" "TEA") save auth
              dora (run auth w).2 "TEA" Hr)
    as (etag & w' & Hrun & _ & Hget).
  - by vm_compute.
  - apply HandlersExamples.sim_visible.
  - by apply a_request.
  - by vm_compute.
  - by eapply dora_may_use; vm_compute.
  - done.
  - by vm_compute.
  - by vm_compute.
  - by vm_compute.
  - exists etag, w'. split; [exact Hrun|].
    assert (w' = (run save w).2) as -> by (by rewrite Hrun).
    apply (proj1 Hget (ask "GET" "") (Router.handle_object "dora" "home" "tea.ics" (ask "GET" ""))
             auth dora (run auth (run save w).2).2).
    + by apply a_request.
    + done.
    + by vm_compute.
    + by eapply dora_may_use; vm_compute.
Defined.

(** The model's tool makes an event in Dora's calendar, which she reads over CalDAV. *)
Definition tea : json :=
  JObject [("calendar_id", JString "home"); ("title", JString "Tea");
           ("start", JString "20260302T160000Z"); ("end", JString "20260302T170000Z")].

Lemma tool_event_is_served_witness :
  let w := after SyncTokensExamples.history in
  let uid := "v4-" +:+ pretty (clock w) +:+ "@caldav-server" in
  ∃ etag data w',
    run (EventTools.create_event "v7-0" tea) w =
      (Ok (JObject [("uid", JString uid); ("calendar_id", JString "home");
                    ("title", JString "Tea"); ("start", JString "20260302T160000Z");
                    ("end", JString "20260302T170000Z"); ("etag", JString etag)]), w') ∧
    (run (get_tea (file_of uid)) w').1 = object_reply etag data.
Proof.
  set (w := after SyncTokensExamples.history).
  destruct (after_serves SyncTokensExamples.history) as [ps Hr].
  set (auth := Router.auth_or_path_user (Some "Basic dora:pw") "dora").
  destruct (tool_event_is_served nofault ps w "v7-0" tea "home" "Tea" "20260302T160000Z"
              "20260302T170000Z" Hr) as (etag & w' & Hrun & _ & Hget & _).
  - by vm_compute.
  - apply HandlersExamples.sim_visible.
  - apply (bool_decide_unpack _). by vm_compute.
  - done.
  - done.
  - done.
  - done.
  - eexists etag, _, w'. split; [exact Hrun|].
    assert (w' = (run (EventTools.create_event "v7-0" tea) w).2) as -> by (by rewrite Hrun).
    eapply (Hget (ask "GET" "") _ auth dora
             (run auth (run (EventTools.create_event "v7-0" tea) w).2).2).
    + by apply a_request.
    + done.
    + by vm_compute.
    + by eapply dora_may_use; vm_compute.
Defined.
End ReachableExamples.
