(* ===== verification/Convergence.v ===== *)
(** * Clients that synchronise converge

    A client keeps a copy of a calendar and, with it, the sync token of the last report
    it read.  [SyncClient] is such a client, reading the documents the server writes.  The
    log of changes is complete ([SyncLog.tracked]), so a client that applies the report
    for its token holds what the server holds. *)
From Stdlib Require Import NArith ZArith.
From S2P Require Import Prelude RustStr Effects Models Db DbUsers DbCalendars DbEvents.
From S2P Require Import DbShares DbTokens Ical Http Xml Properties CaldavHandlers CaldavRouter.
From S2P Require Import Json McpTools Mcp Cli Closure Layer Sim Integrity EventsSpec.
From S2P Require Import CalendarsSpec QuerySpec ReportSpec ReadOnly Server SyncTokens.
From S2P Require Import XmlSpec SyncLog.
From stdpp Require Import options.
Set Default Proof Using "Type*".

(** ** A client *)

Module SyncClient.

(** The client's copy, by href: the ETag and, if it asks for them, the data; the token
    to present next; and what it has read of the current response. *)
Record t : Type := mk {
  copy : gmap string (string * option string);
  token : string;
  href : string;
  etag : option string;
  data : option string;
  element : string;
}.

(** Between two responses. *)
Definition idle (copy : gmap string (string * option string)) (token : string) : t :=
  mk copy token "" None None "".

(** At the end of a response: a member with an ETag is stored, one without is gone. *)
Definition commit (st : t) : t :=
  idle (match etag st with
        | Some e => <[href st := (e, data st)]> (copy st)
        | None => delete (href st) (copy st)
        end) (token st).

Definition enter (name : string) (st : t) : t :=
  mk (copy st) (token st) (href st) (etag st) (data st) name.

Definition read_text (text : string) (st : t) : t :=
  if String.eqb (element st) "D:href" then
    mk (copy st) (token st) text (etag st) (data st) (element st)
  else if String.eqb (element st) "D:getetag" then
    mk (copy st) (token st) (href st) (Some text) (data st) (element st)
  else if String.eqb (element st) "C:calendar-data" then
    mk (copy st) (token st) (href st) (etag st) (Some text) (element st)
  else if String.eqb (element st) "D:sync-token" then
    mk (copy st) text (href st) (etag st) (data st) (element st)
  else st.

Definition step (st : t) (op : WriteOp) : t :=
  match op with
  | WStart name _ => enter name st
  | WText text => read_text text st
  | WEnd name => if String.eqb name "D:response" then commit st else enter "" st
  | WDecl | WEmpty _ | WRaw _ => st
  end.

Definition read (st : t) (ops : list WriteOp) : t := foldl step st ops.

Lemma read_app st ops ops' : read st (ops ++ ops') = read (read st ops) ops'.
Proof. apply foldl_app. Qed.

(** What the copy holds of an object. *)
Definition entry (include_data : bool) (o : CalendarObject.t) : string * option string :=
  (CalendarObject.etag o, if include_data then Some (CalendarObject.ical_data o) else None).

(** A state between responses, with any element left. *)
Definition at_rest (m : gmap string (string * option string)) (tok el : string) : t :=
  enter el (idle m tok).

Lemma read_new m tok el : read (at_rest m tok el) Multistatus.new = at_rest m tok "D:multistatus".
Proof. reflexivity. Qed.

Lemma read_gone m tok el h :
  read (at_rest m tok el) (Multistatus.response_ops h [] []) = at_rest (delete h m) tok "".
Proof. reflexivity. Qed.

Lemma read_member m tok el h user c inc o :
  read (at_rest m tok el)
    (Multistatus.response_ops h (Properties.calendar_object_props user c o inc) []) =
  at_rest (<[h := entry inc o]> m) tok "".
Proof. by destruct inc. Qed.

Lemma read_sync_token m tok el tok' b :
  (∃ m' el', read (at_rest m tok el) b = at_rest m' tok el') →
  read (at_rest m tok el) (Multistatus.add_sync_token tok' b) =
    at_rest (copy (read (at_rest m tok el) b)) tok' "".
Proof.
  intros (m' & el' & E). unfold Multistatus.add_sync_token. by rewrite read_app, E.
Qed.
End SyncClient.

(** ** Reading a report *)

Lemma object_href_inj ctx c uid uid' :
  Properties.calendar_object_href_for_context ctx c uid =
    Properties.calendar_object_href_for_context ctx c uid' → uid = uid'.
Proof.
  unfold Properties.calendar_object_href_for_context, Properties.calendar_object_href.
  destruct (HrefContext.email ctx); intros E; do 5 apply str_app_inj_l in E;
    by apply str_app_inj_r in E.
Qed.

Section reading.
Context (ctx : HrefContext.t) (c : string) (inc : bool) (d : Db.t).
Local Abbreviation href := (Properties.calendar_object_href_for_context ctx c).

(** The copy after one change. *)
Definition apply_change (m : gmap string (string * option string)) (e : SyncChange.t) :
    gmap string (string * option string) :=
  let uid := SyncChange.object_uid e in
  if decide (SyncChange.change_type e = "deleted") then delete (href uid) m
  else match objects_of d !! (c, uid) with
       | Some o => <[href uid := SyncClient.entry inc o]> m
       | None => m
       end.

Lemma read_change m tok el e :
  ∃ el', SyncClient.read (SyncClient.at_rest m tok el) (change_ops ctx c inc d e) =
           SyncClient.at_rest (apply_change m e) tok el'.
Proof.
  unfold change_ops, apply_change. case_decide; [by eexists|].
  destruct (objects_of d !! _); eexists; [apply SyncClient.read_member|done].
Qed.

Lemma read_changes m tok el changes :
  ∃ el', SyncClient.read (SyncClient.at_rest m tok el) (changes ≫= change_ops ctx c inc d) =
           SyncClient.at_rest (foldl apply_change m changes) tok el'.
Proof.
  revert m el. induction changes as [|e changes IH]; intros m el; [by eexists|].
  rewrite bind_cons, SyncClient.read_app. destruct (read_change m tok el e) as [el' ->].
  apply IH.
Qed.

(** The copy after one object of a listing. *)
Definition apply_object (m : gmap string (string * option string)) (o : CalendarObject.t) :
    gmap string (string * option string) :=
  <[href (CalendarObject.uid o) := SyncClient.entry inc o]> m.

Lemma read_objects m tok el os b :
  (∃ el', SyncClient.read (SyncClient.at_rest m tok el) b = SyncClient.at_rest m tok el') →
  ∃ el', SyncClient.read (SyncClient.at_rest m tok el) (Report.add_objects ctx c inc os b) =
    SyncClient.at_rest (foldl apply_object m os) tok el'.
Proof.
  unfold Report.add_objects. generalize m at 2 4 as m'. revert b.
  induction os as [|o os IH]; intros b m' [el' E]; [by eexists|]. simpl. apply IH.
  unfold Multistatus.add_response. rewrite SyncClient.read_app, E.
  eexists. apply SyncClient.read_member.
Qed.

(** A listing, object by object. *)
Lemma lookup_objects os h e :
  (∀ o o', o ∈ os → o' ∈ os → CalendarObject.uid o = CalendarObject.uid o' → o = o') →
  foldl apply_object ∅ os !! h = Some e ↔
    ∃ o, o ∈ os ∧ h = href (CalendarObject.uid o) ∧ e = SyncClient.entry inc o.
Proof.
  revert h e. induction os as [|o os IH] using rev_ind; intros h e Hu.
  - split; [done|]. by intros (o & Ho%elem_of_nil & _).
  - rewrite foldl_snoc. unfold apply_object at 1.
    rewrite lookup_insert_Some, IH by (intros; apply Hu; rewrite ?elem_of_app; tauto).
    setoid_rewrite elem_of_app. setoid_rewrite list_elem_of_singleton. split.
    + intros [[<- <-]|(Hne & o' & ? & -> & ->)]; [by exists o; auto|by exists o'; auto].
    + intros (o' & [Ho|Ho] & -> & ->); [|subst o'; by left].
      destruct (decide (CalendarObject.uid o = CalendarObject.uid o')) as [E|E].
      * left. rewrite E. split; [done|]. f_equal.
        apply Hu; [by apply elem_of_app; right; left|by apply elem_of_app; left|done].
      * right. split; [by intros ?%object_href_inj|]. by exists o'.
Qed.

Lemma apply_change_other m e h :
  h ≠ href (SyncChange.object_uid e) → apply_change m e !! h = m !! h.
Proof.
  intros Hne. unfold apply_change. case_decide; [by rewrite lookup_delete_ne by done|].
  destruct (objects_of d !! _); [by rewrite lookup_insert_ne by done|done].
Qed.

Lemma apply_changes_other m changes h :
  (∀ e, e ∈ changes → h ≠ href (SyncChange.object_uid e)) →
  foldl apply_change m changes !! h = m !! h.
Proof.
  revert m. induction changes as [|e changes IH]; intros m Hh; [done|]. simpl.
  rewrite IH by (intros e' He'; apply Hh; by right). apply apply_change_other, Hh. by left.
Qed.

(** The last change of an object decides. *)
Lemma apply_changes_last m changes uid e :
  last (about uid changes) = Some e →
  bool_decide (SyncChange.change_type e ≠ "deleted") = is_some_b (objects_of d !! (c, uid)) →
  foldl apply_change m changes !! href uid =
    SyncClient.entry inc <$> objects_of d !! (c, uid).
Proof.
  induction changes as [|e' changes IH] using rev_ind; [done|].
  rewrite last_about_snoc, foldl_snoc. intros Hl Ed.
  destruct (decide (SyncChange.object_uid e' = uid)) as [Eu|Eu].
  - injection Hl as ->. subst uid. unfold apply_change at 1. cbn zeta.
    destruct (decide (SyncChange.change_type e = "deleted")) as [Ek|Ek].
    + rewrite bool_decide_false in Ed by naive_solver. rewrite lookup_delete_eq.
      by destruct (objects_of d !! _).
    + destruct (objects_of d !! _) as [o|]; [by rewrite lookup_insert_eq|].
      by rewrite bool_decide_true in Ed.
  - rewrite apply_change_other; [by apply IH|]. intros E%object_href_inj. congruence.
Qed.
End reading.

(** ** Copies in step with the calendar *)

Section mirrors.
Context (ctx : HrefContext.t) (c : string) (inc : bool).
Local Abbreviation href := (Properties.calendar_object_href_for_context ctx c).

(** The copy holds exactly the calendar's objects, under their hrefs. *)
Record mirrors (d : Db.t) (m : gmap string (string * option string)) : Prop := {
  mirrors_object : ∀ uid, m !! href uid = SyncClient.entry inc <$> objects_of d !! (c, uid);
  mirrors_only : ∀ h e, m !! h = Some e → ∃ uid, h = href uid;
}.

Lemma apply_changes_only d m changes h e :
  (∀ h e, m !! h = Some e → ∃ uid, h = href uid) →
  foldl (apply_change ctx c inc d) m changes !! h = Some e → ∃ uid, h = href uid.
Proof.
  intros Hm Hl.
  destruct (decide (Exists (λ x, h = href (SyncChange.object_uid x)) changes)) as [Hx|Hx].
  - apply Exists_exists in Hx as (x & _ & ->). by eexists.
  - rewrite apply_changes_other in Hl; [by eapply Hm|].
    intros x Hin ->. apply Hx, Exists_exists. by exists x.
Qed.

(** The changes of a complete log, from an entry on, bring a copy up to date that agrees
    on the objects they do not mention. *)
Lemma changes_mirror d m changes pre :
  tracked d → log_of c d = pre ++ changes →
  (∀ uid, about uid changes = [] →
     m !! href uid = SyncClient.entry inc <$> objects_of d !! (c, uid)) →
  (∀ h e, m !! h = Some e → ∃ uid, h = href uid) →
  mirrors d (foldl (apply_change ctx c inc d) m changes).
Proof.
  intros Ht El Hm Ho. split; [|intros h e; by apply apply_changes_only].
  intros uid. specialize (Ht c uid). unfold last_change in Ht. rewrite El, about_app in Ht.
  destruct (about uid changes) as [|x l] eqn:Ea.
  - rewrite apply_changes_other; [by apply Hm|]. intros x Hx E%object_href_inj.
    assert (x ∈ about uid changes) as Hin; [|by rewrite Ea in Hin; apply elem_of_nil in Hin].
    apply elem_of_bfilter. by rewrite bool_decide_true.
  - destruct (last (x :: l)) as [y|] eqn:El'; [|by apply last_None in El'].
    rewrite last_app, El' in Ht. eapply apply_changes_last; [by rewrite Ea|]. by rewrite Ht.
Qed.

(** A listing of all objects gives a copy of its own. *)
Lemma objects_mirror d os :
  Db.wf d →
  (∀ o, o ∈ os ↔ o ∈ Db.calendar_objects d ∧ CalendarObject.calendar_id o = c) →
  mirrors d (foldl (apply_object ctx c inc) ∅ os).
Proof.
  intros Hwf Hos.
  assert (∀ o, o ∈ os ↔ objects_of d !! (c, CalendarObject.uid o) = Some o) as Hos'.
  { intros o. rewrite Hos, lookup_objects_of by done. unfold CalendarObject.key.
    split; [intros [? <-]; done|intros [? [= <-]]; done]. }
  assert (∀ o o', o ∈ os → o' ∈ os → CalendarObject.uid o = CalendarObject.uid o' → o = o')
    as Hu.
  { intros o o' Ho%Hos' Ho'%Hos' E. rewrite E in Ho. by simplify_eq. }
  split.
  - intros uid. apply option_eq. intros e. rewrite lookup_objects, fmap_Some by done. split.
    + intros (o & Ho%Hos' & E%object_href_inj & ->). subst uid. by exists o.
    + intros (o & Ho & ->). exists o.
      assert (CalendarObject.uid o = uid) as <-
        by (by apply lookup_objects_of in Ho as [_ [= _ ?]]).
      split; [by apply Hos'|done].
  - intros h e (o & _ & -> & _)%lookup_objects; [|done]. by eexists.
Qed.
End mirrors.

(** ** The protocol *)

Section protocol.
Context `{SqliteLaws, UuidLaws, Argon2, Base64, QuickXml, Rng, Chrono, Serde}.
(** No statement fails for a reason outside the schema. *)
Context (Hnf : ∀ n, sql_fault n = None).

(** The client's copy is the calendar's content, its token the calendar's. *)
Definition in_step (ctx : HrefContext.t) (inc : bool) (cal : Calendar.t) (d : Db.t)
    (st : SyncClient.t) : Prop :=
  ∃ m el, st = SyncClient.at_rest m (Calendar.sync_token cal) el ∧
          mirrors ctx (Calendar.id cal) inc d m.

(** A sync request for a token, in its standard form. *)
Definition asks_sync (props : list PropRequest.t) (tok : string) (request : Request.t) : Prop :=
  Forall plain_prop props ∧
  ∃ body, to_bytes (256 * 1024) (Request.body request) = Some body ∧ body ≠ "" ∧
          xml_read body = report_events (SyncCollection props tok).

(** The answer that carries a document. *)
Definition carries (doc : list WriteOp) : Reply :=
  rebuffer (512 * 1024) (Propfind.multistatus_response (xml_write doc)).

Lemma run_sync_report user ctx c props tok request w :
  asks_sync props tok request →
  run (Report.handle_report user (Some ctx) c request) w =
    let '(r, w') := run (Report.handle_sync ctx c props tok) w in
    (rebuffer (512 * 1024) r, w').
Proof.
  intros [Hp (body & Hb & Hne & Hx)]. unfold Report.handle_report, to_bytes_or_empty.
  rewrite Hb. cbn [default]. rewrite (parse_report_events body (SyncCollection props tok)) by done.
  rewrite run_bind. unfold id. by destruct (run (Report.handle_sync ctx c props tok) w).
Qed.

Lemma ensure_token k : Properties.ensure_sync_token_uri (token_at k) = token_at k.
Proof. done. Qed.

(** The document of a sync, read to its end. *)
Lemma read_document b m tok tok' m' el el' :
  SyncClient.read (SyncClient.at_rest m tok el) b = SyncClient.at_rest m' tok el' →
  SyncClient.read (SyncClient.at_rest m tok el)
    (Multistatus.add_sync_token tok' b ++ [WEnd "D:multistatus"]) =
    SyncClient.at_rest m' tok' "".
Proof.
  intros E. unfold Multistatus.add_sync_token. by rewrite !SyncClient.read_app, E.
Qed.

(** The first sync of a client that holds nothing. *)
Lemma initial_sync_in_step user ctx props request w cal k :
  Db.wf (db (store w)) → cal ∈ Db.calendars (db (store w)) →
  Calendar.sync_token cal = token_at k → asks_sync props "" request →
  ∃ doc,
    (run (Report.handle_report user (Some ctx) (Calendar.id cal) request) w).1 = carries doc ∧
    in_step ctx (wants_data props) cal (db (store w))
      (SyncClient.read (SyncClient.idle ∅ "") doc).
Proof using All.
  intros Hwf Hcal Hk Hask. rewrite (run_sync_report _ _ _ _ _ _ _ Hask).
  destruct (run_handle_sync Hnf ctx (Calendar.id cal) props "" w Hwf) as [_ Hs].
  destruct (Hs cal Hcal eq_refl) as [Hi _]. destruct (Hi eq_refl) as (_ & os & Hr & _ & Hos).
  destruct (run (Report.handle_sync _ _ _ _) w) as [r w']. cbn [fst] in Hr |- *. subst r.
  eexists. split; [reflexivity|]. rewrite Hk, ensure_token.
  destruct (read_objects ctx (Calendar.id cal) (wants_data props) ∅ "" "" os Multistatus.new)
    as [el E]; [by eexists|].
  apply (read_document _ _ _ (token_at k)) in E.
  eexists _, _. split; [by rewrite Hk|]. by apply objects_mirror.
Qed.

(** A later sync of a client with a token that is not in the log, whose members the log
    knows. *)
Lemma delta_sync_in_step user ctx props request w cal k m tok el :
  Db.wf (db (store w)) → tracked (db (store w)) → cal ∈ Db.calendars (db (store w)) →
  Calendar.sync_token cal = token_at k →
  tok ≠ "" → tok ∉ log_tokens (db (store w)) →
  (∀ h e, m !! h = Some e → ∃ x, x ∈ log_of (Calendar.id cal) (db (store w)) ∧
     h = Properties.calendar_object_href_for_context ctx (Calendar.id cal)
           (SyncChange.object_uid x)) →
  asks_sync props tok request →
  ∃ doc,
    (run (Report.handle_report user (Some ctx) (Calendar.id cal) request) w).1 = carries doc ∧
    in_step ctx (wants_data props) cal (db (store w))
      (SyncClient.read (SyncClient.at_rest m tok el) doc).
Proof using All.
  intros Hwf Ht Hcal Hk Hne Hni Hm Hask. rewrite (run_sync_report _ _ _ _ _ _ _ Hask).
  destruct (run_handle_sync Hnf ctx (Calendar.id cal) props tok w Hwf) as [_ Hs].
  destruct (Hs cal Hcal eq_refl) as [_ Hd].
  destruct (Hd (log_of (Calendar.id cal) (db (store w))) Hne) as (_ & Hr).
  { right. split; [|done]. intros Hin%fmap_bfilter_sub. by apply Hni. }
  destruct (run (Report.handle_sync _ _ _ _) w) as [r w']. cbn [fst] in Hr |- *. subst r.
  eexists. split; [reflexivity|]. rewrite Hk, ensure_token.
  destruct (read_changes ctx (Calendar.id cal) (wants_data props) (db (store w)) m tok
              "D:multistatus" (log_of (Calendar.id cal) (db (store w)))) as [el' E].
  assert (SyncClient.read (SyncClient.at_rest m tok el)
    (Multistatus.new ++ (log_of (Calendar.id cal) (db (store w)) ≫=
       change_ops ctx (Calendar.id cal) (wants_data props) (db (store w)))) = _) as E'
    by (rewrite SyncClient.read_app, SyncClient.read_new; exact E).
  apply (read_document _ _ _ (token_at k)) in E'.
  eexists _, _. split; [by rewrite Hk|]. eapply (changes_mirror _ _ _ _ _ _ []); [done..| |].
  - intros uid Ha. pose proof (Ht (Calendar.id cal) uid) as Hu.
    unfold last_change in Hu. rewrite Ha in Hu. cbn in Hu.
    destruct (objects_of _ !! _); [done|]. apply eq_None_not_Some. intros [e He].
    apply Hm in He as (x & Hx & Eh%object_href_inj).
    assert (x ∈ about uid (log_of (Calendar.id cal) (db (store w)))) as Hin.
    { apply elem_of_bfilter. by rewrite bool_decide_true. }
    rewrite Ha in Hin. by apply elem_of_nil in Hin.
  - intros h e He. apply Hm in He as (x & _ & ->). by eexists.
Qed.

(** A member of a copy in step is in a complete log. *)
Lemma member_logged ctx c inc d m h e :
  tracked d → mirrors ctx c inc d m → m !! h = Some e →
  ∃ x, x ∈ log_of c d ∧
       h = Properties.calendar_object_href_for_context ctx c (SyncChange.object_uid x).
Proof.
  intros Ht [Ho Hh] He. destruct (Hh h e He) as [uid ->]. rewrite Ho in He.
  specialize (Ht c uid). destruct (objects_of d !! (c, uid)); [|done]. cbn in Ht.
  unfold last_change in Ht. destruct (last (about uid (log_of c d))) as [x|] eqn:El; [|done].
  apply last_Some_elem_of, elem_of_bfilter in El as [Hu%bool_decide_eq_true Hx].
  exists x. by rewrite Hu.
Qed.

End protocol.

(** ** On the simulated server *)

Module ConvergenceExamples.
Import Sim.

(** A request names the token it asks for. *)
#[local] Instance sync_reader : QuickXml := {
  xml_read := λ body, report_events (SyncCollection [PropRequest.mk DAV_NS "getetag"]
                        (if decide (body = "initial") then "" else body));
  xml_write := λ ops, String.concat "" (write_op <$> ops);
}.

Definition as_dora : list (string * option string) := [("authorization", Some "Basic dora:pw")].

Definition object_request (method file : string) : Server.Task :=
  Server.CaldavRequest Router.ObjectEndpoint ["dora"; "home"; file]
    (Request.mk method as_dora (BodyBytes "DATA")).

(** Dora makes a calendar and saves two objects in it. *)
Definition morning : list Server.Task :=
  [ Server.CliCommand (Cli.CreateUser "dora" "pw" None);
    Server.CaldavRequest Router.CalendarCollection ["dora"; "home"]
      (Request.mk "MKCALENDAR" as_dora (BodyBytes ""));
    object_request "PUT" "lunch.ics"; object_request "PUT" "tea.ics" ].

(** She deletes one, changes the other and adds a third. *)
Definition afternoon : list Server.Task :=
  [ object_request "DELETE" "lunch.ics"; object_request "PUT" "tea.ics";
    object_request "PUT" "dinner.ics" ].

Definition dora : HrefContext.t := HrefContext.mk None "dora".
Definition getetag : list PropRequest.t := [PropRequest.mk DAV_NS "getetag"].

Definition home_at (w : World Store) : Calendar.t :=
  default work (head (Db.calendars (db (store w)))).

Definition sync_for (body : string) : Request.t := Request.mk "REPORT" as_dora (BodyBytes body).

Lemma asks_for body :
  to_bytes (256 * 1024) (BodyBytes body) = Some body → body ≠ "" →
  asks_sync getetag (if decide (body = "initial") then "" else body) (sync_for body).
Proof.
  intros Hb Hne. split; [|by exists body].
  apply Forall_singleton. by split_and!; [vm_compute..|apply (bool_decide_unpack _)].
Qed.

Lemma home_in ts :
  bool_decide (Db.calendars (db (store (after ts))) = [home_at (after ts)]) = true →
  home_at (after ts) ∈ Db.calendars (db (store (after ts))).
Proof. intros ->%bool_decide_eq_true. by left. Qed.


(** Without the hypothesis that the calendar was not deleted: the client's copy is not
    brought up to date when the calendar was deleted and made again under its name, since
    the log went with it. *)
Definition remade : list Server.Task :=
  [ Server.CaldavRequest Router.CalendarCollection ["dora"; "home"]
      (Request.mk "DELETE" as_dora (BodyBytes ""));
    Server.CaldavRequest Router.CalendarCollection ["dora"; "home"]
      (Request.mk "MKCALENDAR" as_dora (BodyBytes "")) ].

Lemma remade_calendar_keeps_members :
  let w := after (morning ++ remade) in
  let doc := Multistatus.add_sync_token (Calendar.sync_token (home_at w)) Multistatus.new ++
               [WEnd "D:multistatus"] in
  (run (Report.handle_report alice (Some dora) "home" (sync_for "data:,sync-v7-28")) w).1 =
    carries doc ∧
  Db.calendar_objects (db (store w)) = [] ∧
  ∀ m el, SyncClient.copy (SyncClient.read (SyncClient.at_rest m "data:,sync-v7-28" el) doc) = m.
Proof. split; [by vm_compute|]. split; [by vm_compute|done]. Qed.
End ConvergenceExamples.
