(* ===== verification/Races.v ===== *)
(** * What interleaving and faults can break

    Executions of the whole server on the simulated environment, found by running
    schedules: [follow] is an executable scheduler whose runs are runs of [sched].
    The check of If-Match and the save it guards are separate statements, and so are a
    save or a deletion and its entry in the log. *)
From Stdlib Require Import NArith ZArith.
From S2P Require Import Prelude RustStr Effects Models Db DbUsers DbTokens DbCalendars.
From S2P Require Import DbEvents.
From S2P Require Import Ical Http Xml Properties CaldavHandlers CaldavRouter Json McpTools Mcp.
From S2P Require Import Cli Sim.
From S2P Require Import EventsSpec HandlersSpec ReportSpec Server ObjectStore SyncLog.
From S2P Require Import Convergence.
From stdpp Require Import relations.
From stdpp Require Import options.
Set Default Proof Using "Type*".

Section follow.
Context {S A : Type}.

(** Runs the programs of a pool in the order of the list, a step each time; a program
    that is finished or absent is passed over. *)
Fixpoint follow (turns : list nat) (c : list (prog S A) * World S) :
    list (prog S A) * World S :=
  match turns with
  | [] => c
  | i :: turns =>
      follow turns
        match c.1 !! i ≫= λ p, advance p c.2 with
        | Some (p', w') => (<[i := p']> c.1, w')
        | None => c
        end
  end.

Lemma follow_sched starts turns c : rtc (sched starts) c (follow turns c).
Proof.
  revert c. induction turns as [|i turns IH]; intros [ps w]; [done|]. cbn [follow fst snd].
  destruct (ps !! i) as [p|] eqn:Hi; cbn [mbind option_bind]; [|apply IH].
  destruct (advance p w) as [[p' w']|] eqn:Ha; [|apply IH].
  eapply rtc_l; [by eapply sched_step|apply IH].
Qed.
End follow.

Module Races.
Import Sim HandlersExamples.

Definition put_meeting (user data : string) : Server.Task :=
  Server.CaldavRequest Router.ObjectEndpoint ["alice"; "cal"; "meeting.ics"]
    (Request.mk "PUT" [("authorization", Some ("Basic " +:+ user));
                       ("if-match", Some (CalendarObject.etag meeting))] (BodyBytes data)).

Definition both : list (M Server.Answer) :=
  Server.run_task <$> [put_meeting "alice:pa" "ALICE"; put_meeting "bob:pb" "BOB"].

(** Alice up to her check of If-Match, Bob to his end, Alice to hers. *)
Definition lost_order : list nat := replicate 3 0 ++ replicate 20 1 ++ replicate 20 0.

(** A lost update: two PUTs that carry the same current ETag may both be answered 204.
    In this interleaving of two requests Bob's save is acknowledged and then overwritten by
    Alice's, although her If-Match names the ETag of the object before Bob's. *)
Theorem concurrent_puts_lose_update :
  ∃ r1 r2 w',
    rtc (sched Server.starts) (both, world)
      ([Ret (Server.CaldavReplied r1); Ret (Server.CaldavReplied r2)], w') ∧
    status_of r1 = Some 204%Z ∧ status_of r2 = Some 204%Z ∧
    CalendarObject.ical_data <$> objects_of (db (store w')) !! ("cal", "meeting") =
      Some "ALICE".
Proof.
  pose proof (follow_sched Server.starts lost_order (both, world)) as Hr.
  destruct (follow lost_order (both, world)) as [ps w'] eqn:E.
  vm_compute in E. injection E as <- <-.
  eexists _, _, _. split; [exact Hr|]. by vm_compute.
Qed.

(** A change that no sync tells: when the entry in the log fails, after the object has been
    saved, the PUT is answered 500 while its body is stored, and the log and the calendar's
    token do not show it. *)
Theorem failed_log_hides_change :
  let r := run (@Put.handle_put (failing_at 104) uuids "cal" "meeting.ics" (put [] "NEW")) world in
  status_of r.1 = Some 500%Z ∧
  CalendarObject.ical_data <$> objects_of (db (store r.2)) !! ("cal", "meeting") =
    Some "NEW" ∧
  Db.sync_changes (db (store r.2)) = Db.sync_changes database ∧
  Db.calendars (db (store r.2)) = Db.calendars database.
Proof. by vm_compute. Qed.

(** Alice's deletion and Bob's save of the same object. *)
Definition delete_and_put : list (M Server.Answer) :=
  Server.run_task <$>
    [ Server.CaldavRequest Router.ObjectEndpoint ["alice"; "cal"; "meeting.ics"]
        (Request.mk "DELETE" [("authorization", Some "Basic alice:pa")] (BodyBytes ""));
      Server.CaldavRequest Router.ObjectEndpoint ["alice"; "cal"; "meeting.ics"]
        (Request.mk "PUT" [("authorization", Some "Basic bob:pb")] (BodyBytes "BOB")) ].

(** The document of a sync with the whole history of the calendar. *)
Definition history_report (d : Db.t) : list WriteOp :=
  Multistatus.add_sync_token (default "" (Calendar.sync_token <$> head (Db.calendars d)))
    (Multistatus.new ++ (log_of "cal" d ≫=
       change_ops (HrefContext.mk None "alice") "cal" false d)) ++ [WEnd "D:multistatus"].

(** A save that every sync hides: Alice deletes the object's row, then Bob saves it anew,
    with its entry in the log, and only then is Alice's deletion logged.  Both are
    acknowledged and the object is there; but its last change in the log is a deletion, and
    a client that reads the report for the calendar's token drops it, whatever its copy held
    before.  So what holds of requests served one after the other ([SyncLog.tracked],
    [Convergence]) does not hold of interleaved ones. *)
Theorem concurrent_delete_hides_put :
  ∃ r1 r2 w', let d := db (store w') in
    rtc (sched Server.starts) (delete_and_put, world)
      ([Ret (Server.CaldavReplied r1); Ret (Server.CaldavReplied r2)], w') ∧
    status_of r1 = Some 204%Z ∧ status_of r2 = Some 201%Z ∧
    CalendarObject.ical_data <$> objects_of d !! ("cal", "meeting") = Some "BOB" ∧
    alive (last_change "cal" "meeting" d) = false ∧
    (run (Report.handle_sync (HrefContext.mk None "alice") "cal" []
            (default "" (Calendar.sync_token <$> head (Db.calendars d)))) w').1 =
      Propfind.multistatus_response (xml_write (history_report d)) ∧
    ∀ m tok el, SyncClient.copy (SyncClient.read (SyncClient.at_rest m tok el) (history_report d))
                  !! "/caldav/users/alice/cal/meeting.ics" = None.
Proof.
  pose proof (follow_sched Server.starts lost_order (delete_and_put, world)) as Hr.
  destruct (follow lost_order (delete_and_put, world)) as [ps w'] eqn:E.
  vm_compute in E. injection E as <- <-.
  eexists _, _, _. split; [exact Hr|]. repeat (split; [by vm_compute|]).
  intros m tok el. set (ops := history_report _). vm_compute in ops. subst ops. cbn.
  apply lookup_delete_eq.
Qed.
End Races.
