(* ===== verification/TestKit.v ===== *)
(** * The program's own tests, on the model: the kit

    The tests of [src/] are programs over the model here, run on an empty store.  The
    packages they go through have executable stand-ins: a reader and a writer of XML and of
    JSON text for the documents that the tests use, path matching by the program's
    route table, credentials in the clear.  Each test file ends with the lemma that
    all its tests pass. *)
From Stdlib Require Import Ascii NArith ZArith.
From S2P Require Import Prelude RustStr Effects Models Db DbUsers Ical Http Xml CaldavHandlers.
From S2P Require Import CaldavRouter Json Mcp Sim.
From stdpp Require Import pretty.
From stdpp Require Import options.

Declare Scope test_scope.
Delimit Scope test_scope with test.
Notation "a ==? b" := (bool_decide (a = b)) (at level 70, no associativity) : test_scope.
Notation "a !=? b" := (negb (bool_decide (a = b))) (at level 70, no associativity) : test_scope.
Open Scope test_scope.

(** Texts with double quotes are written with single ones. *)
Definition dq (s : string) : string := Str.replace_char "'" (String DQ "") s.

(** ** XML text *)

Module XmlText.

Definition local_name (name : string) : string :=
  match Str.split_once COLON name with Some (_, l) => l | None => name end.

(** Up to the first space or line end. *)
Fixpoint word (s : string) : string * string :=
  match s with
  | "" => ("", "")
  | String c s' =>
      if bool_decide (c ∈ [" "%char; NL; CR; TAB]) then ("", s)
      else let '(w, rest) := word s' in (String c w, rest)
  end.

Fixpoint attributes (fuel : nat) (s : string) : list (string * string) :=
  match fuel with
  | 0 => []
  | S fuel =>
      match Str.split_once "=" (Str.trim_start s) with
      | Some (key, String q rest) =>
          match Str.split_once q rest with
          | Some (value, rest) => (key, value) :: attributes fuel rest
          | None => []
          end
      | _ => []
      end
  end.

Definition start (inside : string) : BytesStart.t :=
  let '(name, rest) := word inside in
  BytesStart.mk name (local_name name) (attributes (String.length rest) rest).

Definition markup (inside : string) : Event :=
  if Str.starts_with "?" inside || Str.starts_with "!" inside then EvOther
  else match Str.strip_prefix "/" inside with
       | Some name => EvEnd (local_name (Str.trim name))
       | None =>
           match Str.strip_suffix "/" inside with
           | Some e => EvEmpty (start e)
           | None => EvStart (start inside)
           end
       end.

(** The named entities. *)
Definition entities : list (string * string) :=
  [("&lt;", "<"); ("&gt;", ">"); ("&amp;", "&"); ("&apos;", "'"); ("&quot;", String DQ "")].

Fixpoint unescape (fuel : nat) (s : string) : string :=
  match fuel, s with
  | S fuel, String c s' =>
      match Str.first_some (λ e, (e.2,.) <$> Str.strip_prefix e.1 s) entities with
      | Some (t, rest) => t +:+ unescape fuel rest
      | None => String c (unescape fuel s')
      end
  | _, _ => ""
  end.

Definition escape (s : string) : string :=
  foldl (λ s e, match e.2 with String c _ => Str.replace_char c e.1 s | "" => s end) s
    [("&amp;", "&"); ("&lt;", "<"); ("&gt;", ">"); ("&apos;", "'"); ("&quot;", String DQ "")].

(** The text up to the next tag. *)
Definition text_event (t : string) : list Event :=
  let t := Str.trim t in
  if Str.is_empty t then [] else [EvText (unescape (String.length t) t)].

Fixpoint read_fuel (fuel : nat) (s : string) : list Event :=
  match fuel with
  | 0 => []
  | S fuel =>
      match Str.split_once "<" s with
      | None => text_event s
      | Some (t, rest) =>
          text_event t ++
          match Str.split_once ">" rest with
          | Some (inside, rest) => markup inside :: read_fuel fuel rest
          | None => [EvError]
          end
      end
  end.

Definition read (s : string) : list Event := read_fuel (String.length s) s.

Definition attribute (a : string * string) : string :=
  " " +:+ a.1 +:+ "=" +:+ String DQ (escape a.2 +:+ String DQ "").

Definition write_op (op : WriteOp) : string :=
  match op with
  | WDecl => dq "<?xml version='1.0' encoding='utf-8'?>"
  | WStart name attrs =>
      "<" +:+ name +:+ String.concat "" (attribute <$> attrs) +:+ ">"
  | WText text => escape text
  | WEnd name => "</" +:+ name +:+ ">"
  | WEmpty name => "<" +:+ name +:+ "/>"
  | WRaw bytes => bytes
  end.
End XmlText.

#[export] Instance xml_text : QuickXml := {
  xml_read := XmlText.read;
  xml_write := λ ops, String.concat "" (XmlText.write_op <$> ops);
}.

(** ** JSON text *)

Module JsonText.

Definition escapes : list (ascii * ascii) :=
  [(DQ, DQ); ("\", "\"); (NL, "n"); (CR, "r"); (TAB, "t")]%char.

Fixpoint escape (s : string) : string :=
  match s with
  | "" => ""
  | String c s' =>
      match head (bfilter (λ e, bool_decide (e.1 = c)) escapes) with
      | Some (_, e) => String "\" (String e (escape s'))
      | None => String c (escape s')
      end
  end.

Definition quoted (s : string) : string := String DQ (escape s +:+ String DQ "").

Fixpoint show (v : json) : string :=
  match v with
  | JNull => "null"
  | JBool b => if b then "true" else "false"
  | JNumber (PosInt n) => pretty n
  | JNumber (NegInt z) => pretty z
  | JNumber (Float t) => t
  | JString s => quoted s
  | JArray items => "[" +:+ String.concat "," (show <$> items) +:+ "]"
  | JObject members =>
      "{" +:+ String.concat "," ((λ '(k, v), quoted k +:+ ":" +:+ show v) <$> members) +:+ "}"
  end.

(** The rest of a string, after its opening quote. *)
Fixpoint string_rest (s : string) : option (string * string) :=
  match s with
  | "" => None
  | String c s' =>
      if bool_decide (c = DQ) then Some ("", s')
      else if bool_decide (c = "\"%char) then
        match s' with
        | "" => None
        | String e s'' =>
            '(t, rest) ← string_rest s'';
            '(c, _) ← head (bfilter (λ x, bool_decide (x.2 = e)) escapes);
            Some (String c t, rest)
        end
      else '(t, rest) ← string_rest s'; Some (String c t, rest)
  end.

Fixpoint digits (acc : N) (s : string) : N * string :=
  match s with
  | String c s' =>
      if Str.byte_in 48 57 c then digits (acc * 10 + (N_of_ascii c - 48))%N s' else (acc, s)
  | "" => (acc, s)
  end.

(** Items between separators, up to the closing character. *)
Fixpoint items {A} (item : string → option (A * string)) (close : ascii) (fuel : nat)
    (s : string) : option (list A * string) :=
  match fuel with
  | 0 => None
  | S fuel =>
      '(a, rest) ← item s;
      match Str.trim_start rest with
      | String c rest =>
          if bool_decide (c = close) then Some ([a], rest)
          else if bool_decide (c = ","%char) then
            '(l, rest) ← items item close fuel rest; Some (a :: l, rest)
          else None
      | "" => None
      end
  end.

(** Perhaps no item at all. *)
Definition sequence {A} (item : string → option (A * string)) (close : ascii) (s : string) :
    option (list A * string) :=
  match Str.strip_prefix (String close "") (Str.trim_start s) with
  | Some rest => Some ([], rest)
  | None => items item close (String.length s) s
  end.

Definition member (value : string → option (json * string)) (s : string) :
    option ((string * json) * string) :=
  match Str.strip_prefix (String DQ "") (Str.trim_start s) with
  | Some s =>
      '(k, rest) ← string_rest s;
      rest ← Str.strip_prefix ":" (Str.trim_start rest);
      '(v, rest) ← value rest; Some ((k, v), rest)
  | None => None
  end.

Fixpoint value (fuel : nat) (s : string) : option (json * string) :=
  match fuel with
  | 0 => None
  | S fuel =>
      let s := Str.trim_start s in
      match Str.first_some (λ w, (w.2,.) <$> Str.strip_prefix w.1 s)
              [("null", JNull); ("true", JBool true); ("false", JBool false)], s with
      | Some r, _ => Some r
      | None, String c s' =>
          if bool_decide (c = DQ) then '(t, rest) ← string_rest s'; Some (JString t, rest)
          else if bool_decide (c = "["%char) then
            '(l, rest) ← sequence (value fuel) "]" s'; Some (JArray l, rest)
          else if bool_decide (c = "{"%char) then
            '(l, rest) ← sequence (member (value fuel)) "}" s'; Some (JObject l, rest)
          else if bool_decide (c = "-"%char) then
            let '(n, rest) := digits 0 s' in Some (JNumber (NegInt (- Z.of_N n)), rest)
          else if Str.byte_in 48 57 c then
            let '(n, rest) := digits 0 s in Some (JNumber (PosInt n), rest)
          else None
      | None, "" => None
      end
  end.

Definition from_slice (s : string) : Result json string :=
  match value (String.length s) s with
  | Some (v, rest) => if Str.is_empty (Str.trim rest) then Ok v else Err "trailing characters"
  | None => Err "expected value"
  end.
End JsonText.

#[export] Instance json_text : Serde := {
  json_from_slice := JsonText.from_slice;
  request_error := λ _, "invalid request";
  json_to_vec := JsonText.show;
  json_pretty := JsonText.show;
}.

(** ** The other packages *)

#[export] Existing Instances Sim.sqlite Sim.argon2 Sim.rng Sim.chrono Sim.base64.

(** Identifiers of the usual length, that differ in their last digits. *)
Definition uuid_text (version : string) (n : N) : string :=
  let digits := pretty n in
  "00000000-0000-" +:+ version +:+ "000-8000-" +:+
    String.concat "" (replicate (12 - String.length digits) "0") +:+ digits.

#[export] Instance test_uuids : Uuids := { uuid_v4 := uuid_text "4"; uuid_v7 := uuid_text "7" }.

(** ** Tests *)

(** A test ends well, or in a failed [unwrap] or assertion. *)
Definition TestM (A : Type) : Type := M (Result A string).
Definition Test : Type := TestM unit.

Definition unwrap {A E} (p : M (Result A E)) : TestM A := with_err (λ _, "unwrap of an error") p.
Definition unwrap_some {A} (o : option A) : TestM A := mret (ok_or o "unwrap of none").

(** [.await.unwrap().unwrap()]. *)
Definition unwrap2 {A E} (p : M (Result (option A) E)) : TestM A := o ←? unwrap p; unwrap_some o.

(** A call whose error is looked at. *)
Definition attempt {A} (p : M A) : TestM A := a ← p; mret (Ok a).

Definition check (assertions : list bool) : Test :=
  mret (if forallb id assertions then Ok tt else Err "assertion failed").

(** A test starts on the pool of [test_pool]: the empty schema. *)
Definition passes (t : Test) : bool :=
  is_some_b (result_ok (run t (mkWorld 0 (mkStore Db.empty ∅))).1).

(** The names of the tests that fail. *)
Definition failures (tests : list (string * Test)) : list string :=
  fst <$> bfilter (λ t, negb (passes t.2)) tests.

Definition is_not_found {A} (r : AppResult A) : bool :=
  match r with Err (AppError.NotFound _) => true | _ => false end.
Definition is_conflict {A} (r : AppResult A) : bool :=
  match r with Err (AppError.Conflict _) => true | _ => false end.

(** ** HTTP *)

Definition hex (c : ascii) : option N :=
  let n := N_of_ascii c in
  if Str.byte_in 48 57 c then Some (n - 48)%N
  else if Str.byte_in 65 70 c then Some (n - 55)%N
  else if Str.byte_in 97 102 c then Some (n - 87)%N
  else None.

Fixpoint decoded (s : string) : string :=
  match s with
  | String c (String a (String b s' as s2) as s1) =>
      if bool_decide (c = PERCENT) then
        match hex a, hex b with
        | Some h, Some l => String (ascii_of_N (h * 16 + l)) (decoded s')
        | _, _ => String c (decoded s1)
        end
      else String c (decoded s1)
  | String c s' => String c (decoded s')
  | "" => ""
  end.

(** The captures of a path that matches a template, segment by segment. *)
Fixpoint captures (template path : list string) : option (list string) :=
  match template, path with
  | [], [] => Some []
  | t :: template, p :: path =>
      if Str.starts_with "{" t then
        if Str.is_empty p then None else cons (decoded p) <$> captures template path
      else if decide (t = p) then captures template path else None
  | _, _ => None
  end.

Definition route (uri : string) : option (Router.Endpoint * list string) :=
  Str.first_some (λ r : string * Router.Endpoint,
    (r.2,.) <$> captures (Str.split SLASH r.1) (Str.split SLASH uri)) Router.routes.

Fixpoint lower (s : string) : string :=
  match s with
  | "" => ""
  | String c s' =>
      String (if Str.byte_in 65 90 c then ascii_of_N (N_of_ascii c + 32) else c) (lower s')
  end.

Definition request (method : string) (headers : list (string * string)) (body : string) :
    Request.t :=
  Request.mk method ((λ h, (lower h.1, Some h.2)) <$> headers) (BodyBytes body).

Definition response (r : Reply) : TestM Response.t :=
  mret (match r with Respond resp => Ok resp | Panicked => Err "the handler panicked" end).

(** [router(pool).oneshot(req).await.unwrap()] of the CalDAV router. *)
Definition oneshot (method uri : string) (headers : list (string * string)) (body : string) :
    TestM Response.t :=
  match route uri with
  | Some (e, cs) =>
      p ←? unwrap_some (Router.call e cs (request method headers body));
      r ←? attempt p; response r
  | None => response (text 404 "")
  end.

Definition get_header (name : string) (r : Response.t) : option string :=
  response_header (lower name) (Respond r).

Definition basic_auth_header (username password : string) : string :=
  "Basic " +:+ username +:+ ":" +:+ password.

Definition has_status (s : Z) (r : Response.t) : bool := bool_decide (Response.status r = s).
Definition body_has (s : string) (r : Response.t) : bool := Str.contains s (Response.body r).

(** *** JSON values in assertions *)

Definition path (keys : list string) (v : json) : json := foldl (λ v k, Json.index k v) v keys.
Definition as_i64 (v : json) : option Z :=
  match v with
  | JNumber (PosInt n) => Some (Z.of_N n)
  | JNumber (NegInt z) => Some z
  | _ => None
  end.
Definition as_bool (v : json) : option bool := match v with JBool b => Some b | _ => None end.
Definition as_array (v : json) : option (list json) :=
  match v with JArray l => Some l | _ => None end.
