(* ===== verification/UnitTests.v ===== *)
(** * The unit tests of the parts without a database

    [src/ical/parser.rs], [src/ical/builder.rs], [src/caldav/xml/], [src/error.rs],
    [src/config.rs], [src/db/models.rs], [src/mcp/jsonrpc.rs] and [src/mcp/session.rs],
    each in a Module, each Module ending with the lemma that its tests pass. *)
From Stdlib Require Import Ascii NArith ZArith.
From S2P Require Import Prelude RustStr Effects Models Db Ical Http Xml Properties Json Mcp.
From S2P Require Import Cli.
From S2P Require Import TestKit.
From stdpp Require Import options.
Open Scope test_scope.

(** A text of lines that end in CRLF, the last one aside. *)
Definition crlf (ls : list string) : string := String.concat CRLF ls.

Module ParserTests.
Import Parser IcalFields.

Definition test_extract_simple_event : Test :=
  let fields := extract_fields (crlf
    ["BEGIN:VCALENDAR"; "VERSION:2.0"; "BEGIN:VEVENT"; "UID:event-123@example.com";
     "DTSTART:20260301T090000Z"; "DTEND:20260301T100000Z"; "SUMMARY:Team Meeting";
     "END:VEVENT"; "END:VCALENDAR"]) in
  check [uid fields ==? Some "event-123@example.com";
         dtstart fields ==? Some "20260301T090000Z";
         dtend fields ==? Some "20260301T100000Z";
         summary fields ==? Some "Team Meeting";
         component_type fields ==? "VEVENT"].

Definition test_extract_with_parameters : Test :=
  let fields := extract_fields (crlf
    ["BEGIN:VCALENDAR"; "BEGIN:VEVENT"; "UID:event-456@example.com";
     "DTSTART;TZID=America/New_York:20260301T090000";
     "DTEND;TZID=America/New_York:20260301T100000"; "SUMMARY;LANGUAGE=en:Lunch Break";
     "END:VEVENT"; "END:VCALENDAR"]) in
  check [uid fields ==? Some "event-456@example.com";
         dtstart fields ==? Some "20260301T090000";
         summary fields ==? Some "Lunch Break"].

Definition test_extract_vtodo : Test :=
  let fields := extract_fields (crlf
    ["BEGIN:VCALENDAR"; "BEGIN:VTODO"; "UID:todo-1@example.com"; "DUE:20260315T170000Z";
     "SUMMARY:Buy groceries"; "END:VTODO"; "END:VCALENDAR"]) in
  check [uid fields ==? Some "todo-1@example.com";
         dtend fields ==? Some "20260315T170000Z";
         component_type fields ==? "VTODO"].

Definition test_unfold_lines : Test :=
  let lines := unfold_lines
    (crlf ["SUMMARY:This is a long"; " summary that wraps"; ""]) in
  check [existsb (λ l, l ==? "SUMMARY:This is a longsummary that wraps") lines].

Definition test_uid_outside_component : Test :=
  let fields := extract_fields (crlf
    ["BEGIN:VCALENDAR"; "UID:cal-level-uid@example.com"; "BEGIN:VEVENT";
     "DTSTART:20260301T090000Z"; "END:VEVENT"; "END:VCALENDAR"]) in
  check [uid fields ==? Some "cal-level-uid@example.com"].

Lemma parser_tests_pass :
  failures
    [("extract_simple_event", test_extract_simple_event);
     ("extract_with_parameters", test_extract_with_parameters);
     ("extract_vtodo", test_extract_vtodo);
     ("unfold_lines", test_unfold_lines);
     ("uid_outside_component", test_uid_outside_component)] = [].
Proof. by vm_compute. Qed.
End ParserTests.

Module BuilderTests.

Definition now : string := "20260301T090000Z".

(** [build_vevent], at a fixed time. *)
Definition build (uid title start end_ : string) (description location timezone : option string) :
    string :=
  Builder.build_vevent now uid title start end_ description location timezone.

Definition has (s ical : string) : bool := Str.contains s ical.
Definition lacks (s ical : string) : bool := negb (Str.contains s ical).

Definition test_build_vevent : Test :=
  let ical := build "test-uid@example.com" "Test Event" "20260301T090000Z" "20260301T100000Z"
                (Some "A description") (Some "Room 101") None in
  check [has "BEGIN:VCALENDAR" ical; has "END:VCALENDAR" ical; has "BEGIN:VEVENT" ical;
         has "UID:test-uid@example.com" ical; has "SUMMARY:Test Event" ical;
         has "DTSTART:20260301T090000Z" ical; has "DESCRIPTION:A description" ical;
         has "LOCATION:Room 101" ical; lacks "VTIMEZONE" ical].

Definition test_build_vevent_minimal : Test :=
  let ical := build "min-uid@example.com" "Minimal" "20260301T090000Z" "20260301T100000Z"
                None None None in
  check [has "UID:min-uid@example.com" ical; lacks "DESCRIPTION:" ical; lacks "LOCATION:" ical].

Definition test_build_vevent_with_timezone : Test :=
  let ical := build "tz-uid@example.com" "TZ Event" "20260301T090000" "20260301T100000"
                None None (Some "America/Los_Angeles") in
  check [has "BEGIN:VTIMEZONE" ical; has "TZID:America/Los_Angeles" ical;
         has "DTSTART;TZID=America/Los_Angeles:20260301T090000" ical;
         has "DTEND;TZID=America/Los_Angeles:20260301T100000" ical;
         lacks "DTSTART:20260301" ical].

Definition test_generate_uid : Test :=
  uid ←? attempt Builder.generate_uid;
  check [has "@caldav-server" uid; (20 <? String.length uid)%nat].

Definition test_generate_uid_unique : Test :=
  uid1 ←? attempt Builder.generate_uid;
  uid2 ←? attempt Builder.generate_uid;
  check [uid1 !=? uid2].

Definition test_build_vevent_with_eastern_timezone : Test :=
  let ical := build "tz-east@example.com" "Eastern Event" "20260301T090000" "20260301T100000"
                None None (Some "America/New_York") in
  check [has "TZID:America/New_York" ical; has "TZOFFSETFROM:-0500" ical;
         has "TZOFFSETTO:-0400" ical].

Definition test_build_vevent_with_chicago_timezone : Test :=
  let ical := build "tz-chicago@example.com" "Chicago Event" "20260301T090000"
                "20260301T100000" None None (Some "America/Chicago") in
  check [has "TZID:America/Chicago" ical; has "TZOFFSETFROM:-0600" ical;
         has "TZOFFSETTO:-0500" ical].

Definition test_build_vevent_with_london_timezone : Test :=
  let ical := build "tz-london@example.com" "London Event" "20260601T090000"
                "20260601T100000" None None (Some "Europe/London") in
  check [has "TZID:Europe/London" ical; has "TZOFFSETFROM:+0000" ical;
         has "TZOFFSETTO:+0100" ical].

Definition test_build_vevent_with_paris_timezone : Test :=
  let ical := build "tz-paris@example.com" "Paris Event" "20260601T090000" "20260601T100000"
                None None (Some "Europe/Paris") in
  check [has "TZID:Europe/Paris" ical; has "TZOFFSETFROM:+0100" ical;
         has "TZOFFSETTO:+0200" ical].

Definition test_build_vevent_with_tokyo_timezone : Test :=
  let ical := build "tz-tokyo@example.com" "Tokyo Event" "20260601T090000" "20260601T100000"
                None None (Some "Asia/Tokyo") in
  check [has "TZID:Asia/Tokyo" ical; has "TZOFFSETFROM:+0900" ical].

Definition test_build_vevent_with_unknown_timezone : Test :=
  let ical := build "tz-unknown@example.com" "Unknown TZ Event" "20260601T090000"
                "20260601T100000" None None (Some "Pacific/Fake") in
  check [has "TZID:Pacific/Fake" ical; has "TZOFFSETFROM:+0000" ical].

Definition test_build_vevent_with_denver_timezone : Test :=
  let ical := build "tz-denver@example.com" "Denver Event" "20260301T090000"
                "20260301T100000" None None (Some "America/Denver") in
  check [has "TZID:America/Denver" ical; has "TZOFFSETFROM:-0700" ical;
         has "TZOFFSETTO:-0600" ical].

Definition test_build_vevent_with_phoenix_timezone : Test :=
  let ical := build "tz-phoenix@example.com" "Phoenix Event" "20260601T090000"
                "20260601T100000" None None (Some "America/Phoenix") in
  check [has "TZID:America/Phoenix" ical; has "TZOFFSETFROM:-0700" ical].

Definition test_vevent_output_ends_with_crlf : Test :=
  let ical := build "crlf@test.com" "CRLF Test" "20260101T000000Z" "20260101T010000Z"
                None None None in
  check [is_some_b (Str.strip_suffix CRLF ical)].

Lemma builder_tests_pass :
  failures
    [("build_vevent", test_build_vevent);
     ("build_vevent_minimal", test_build_vevent_minimal);
     ("build_vevent_with_timezone", test_build_vevent_with_timezone);
     ("generate_uid", test_generate_uid);
     ("generate_uid_unique", test_generate_uid_unique);
     ("build_vevent_with_eastern_timezone", test_build_vevent_with_eastern_timezone);
     ("build_vevent_with_chicago_timezone", test_build_vevent_with_chicago_timezone);
     ("build_vevent_with_london_timezone", test_build_vevent_with_london_timezone);
     ("build_vevent_with_paris_timezone", test_build_vevent_with_paris_timezone);
     ("build_vevent_with_tokyo_timezone", test_build_vevent_with_tokyo_timezone);
     ("build_vevent_with_unknown_timezone", test_build_vevent_with_unknown_timezone);
     ("build_vevent_with_denver_timezone", test_build_vevent_with_denver_timezone);
     ("build_vevent_with_phoenix_timezone", test_build_vevent_with_phoenix_timezone);
     ("vevent_output_ends_with_crlf", test_vevent_output_ends_with_crlf)] = [].
Proof. by vm_compute. Qed.
End BuilderTests.

Module MultistatusTests.

Definition built (b : Multistatus.t) : string := Multistatus.build b.
Definition has (s xml : string) : bool := Str.contains (dq s) xml.

Definition test_empty_multistatus : Test :=
  let xml := built Multistatus.new in
  check [has "D:multistatus" xml; has "xmlns:D='DAV:'" xml;
         has "xmlns:C='urn:ietf:params:xml:ns:caldav'" xml].

Definition test_response_with_text_prop : Test :=
  let xml := built (Multistatus.add_response "/caldav/"
    [PropValue.mk "displayname" DAV_NS (Text "My Calendar")] [] Multistatus.new) in
  check [has "<D:displayname>My Calendar</D:displayname>" xml;
         has "<D:href>/caldav/</D:href>" xml; has "HTTP/1.1 200 OK" xml].

Definition test_response_with_not_found_props : Test :=
  let xml := built (Multistatus.add_response "/caldav/" [] ["D:missing-prop"] Multistatus.new) in
  check [has "D:missing-prop" xml; has "HTTP/1.1 404 Not Found" xml].

Definition test_prefix_name_mapping : Test :=
  check [Multistatus.prefix_name DAV_NS "displayname" ==? "D:displayname";
         Multistatus.prefix_name CALDAV_NS "calendar-data" ==? "C:calendar-data";
         Multistatus.prefix_name APPLE_NS "calendar-color" ==? "A:calendar-color";
         Multistatus.prefix_name CS_NS "getctag" ==? "CS:getctag"].

Lemma multistatus_tests_pass :
  failures
    [("empty_multistatus", test_empty_multistatus);
     ("response_with_text_prop", test_response_with_text_prop);
     ("response_with_not_found_props", test_response_with_not_found_props);
     ("prefix_name_mapping", test_prefix_name_mapping)] = [].
Proof. by vm_compute. Qed.
End MultistatusTests.

Module ParseTests.
Import PropRequest.

Definition decl : string := dq "<?xml version='1.0' encoding='utf-8'?>".

(** A body: the declaration, then the lines. *)
Definition xml (ls : list string) : string :=
  decl +:+ String.concat (String NL "        ") ("" :: (dq <$> ls)).

(** The properties asked for, if it is some. *)
Definition props_of (r : PropfindRequest) : option (list PropRequest.t) :=
  match r with Props ps => Some ps | _ => None end.

Definition test_parse_empty_propfind : Test :=
  check [Parse.parse_propfind "" ==? AllProp].

Definition test_parse_allprop : Test :=
  check [Parse.parse_propfind (xml
    ["<D:propfind xmlns:D='DAV:'>"; "    <D:allprop/>"; "</D:propfind>"]) ==? AllProp].

Definition test_parse_specific_props : Test :=
  props ←? unwrap_some (props_of (Parse.parse_propfind (xml
    ["<D:propfind xmlns:D='DAV:' xmlns:C='urn:ietf:params:xml:ns:caldav'>";
     "    <D:prop>"; "        <D:displayname/>"; "        <D:resourcetype/>";
     "        <C:calendar-home-set/>"; "    </D:prop>"; "</D:propfind>"])));
  check [(local_name <$> props) ==? ["displayname"; "resourcetype"; "calendar-home-set"]].

Definition test_parse_calendar_multiget : Test :=
  result ←? unwrap_some (Parse.parse_report (xml
    ["<C:calendar-multiget xmlns:D='DAV:' xmlns:C='urn:ietf:params:xml:ns:caldav'>";
     "    <D:prop>"; "        <D:getetag/>"; "        <C:calendar-data/>"; "    </D:prop>";
     "    <D:href>/caldav/users/alice/work/event1.ics</D:href>";
     "    <D:href>/caldav/users/alice/work/event2.ics</D:href>"; "</C:calendar-multiget>"]));
  match result with
  | CalendarMultiget props hrefs =>
      check [length props ==? 2; length hrefs ==? 2;
             Str.contains "event1.ics" (default "" (head hrefs))]
  | _ => check [false]
  end.

Definition test_parse_calendar_query_with_time_range : Test :=
  result ←? unwrap_some (Parse.parse_report (xml
    ["<C:calendar-query xmlns:D='DAV:' xmlns:C='urn:ietf:params:xml:ns:caldav'>";
     "    <D:prop>"; "        <D:getetag/>"; "        <C:calendar-data/>"; "    </D:prop>";
     "    <C:filter>"; "        <C:comp-filter name='VCALENDAR'>";
     "            <C:comp-filter name='VEVENT'>";
     "                <C:time-range start='20260301T000000Z' end='20260401T000000Z'/>";
     "            </C:comp-filter>"; "        </C:comp-filter>"; "    </C:filter>";
     "</C:calendar-query>"]));
  match result with
  | CalendarQuery props time_range =>
      check [length props ==? 2;
             time_range ==? Some ("20260301T000000Z", "20260401T000000Z")]
  | _ => check [false]
  end.

Definition test_parse_sync_collection : Test :=
  result ←? unwrap_some (Parse.parse_report (xml
    ["<D:sync-collection xmlns:D='DAV:' xmlns:C='urn:ietf:params:xml:ns:caldav'>";
     "    <D:sync-token>sync-abc123</D:sync-token>"; "    <D:prop>";
     "        <D:getetag/>"; "    </D:prop>"; "</D:sync-collection>"]));
  match result with
  | SyncCollection props sync_token =>
      check [length props ==? 1; sync_token ==? "sync-abc123"]
  | _ => check [false]
  end.

Definition test_parse_apple_style_namespace_prefixes : Test :=
  props ←? unwrap_some (props_of (Parse.parse_propfind (xml
    [("<A:propfind xmlns:A='DAV:' xmlns:B='urn:ietf:params:xml:ns:caldav' " +:+
      "xmlns:C='http://calendarserver.org/ns/' xmlns:D='http://apple.com/ns/ical/'>")%string;
     "    <A:prop>"; "        <A:displayname/>"; "        <A:resourcetype/>";
     "        <B:calendar-home-set/>"; "        <B:calendar-user-address-set/>";
     "        <C:getctag/>"; "        <D:calendar-color/>"; "        <D:calendar-order/>";
     "    </A:prop>"; "</A:propfind>"])));
  check [props ==?
    [mk "DAV:" "displayname"; mk "DAV:" "resourcetype";
     mk "urn:ietf:params:xml:ns:caldav" "calendar-home-set";
     mk "urn:ietf:params:xml:ns:caldav" "calendar-user-address-set";
     mk "http://calendarserver.org/ns/" "getctag";
     mk "http://apple.com/ns/ical/" "calendar-color";
     mk "http://apple.com/ns/ical/" "calendar-order"]].

Definition test_parse_propfind_with_mixed_namespaces : Test :=
  props ←? unwrap_some (props_of (Parse.parse_propfind (xml
    [("<A:propfind xmlns:A='DAV:' xmlns:B='urn:ietf:params:xml:ns:caldav' " +:+
      "xmlns:C='http://calendarserver.org/ns/'>")%string;
     "    <A:prop>"; "        <A:current-user-principal/>"; "        <A:principal-URL/>";
     "        <A:resource-id/>"; "        <B:schedule-inbox-URL/>";
     "        <B:schedule-outbox-URL/>"; "        <C:email-address-set/>";
     "        <C:notification-URL/>"; "    </A:prop>"; "</A:propfind>"])));
  check [length props ==? 7;
         props !! 0 ==? Some (mk "DAV:" "current-user-principal");
         props !! 3 ==? Some (mk "urn:ietf:params:xml:ns:caldav" "schedule-inbox-URL");
         props !! 5 ==? Some (mk "http://calendarserver.org/ns/" "email-address-set")].

Lemma parse_tests_pass :
  failures
    [("parse_empty_propfind", test_parse_empty_propfind);
     ("parse_allprop", test_parse_allprop);
     ("parse_specific_props", test_parse_specific_props);
     ("parse_calendar_multiget", test_parse_calendar_multiget);
     ("parse_calendar_query_with_time_range", test_parse_calendar_query_with_time_range);
     ("parse_sync_collection", test_parse_sync_collection);
     ("parse_apple_style_namespace_prefixes", test_parse_apple_style_namespace_prefixes);
     ("parse_propfind_with_mixed_namespaces", test_parse_propfind_with_mixed_namespaces)] = [].
Proof. by vm_compute. Qed.
End ParseTests.

Module PropertiesTests.
Import PropValue.

Definition displayname_text : PropValue.t := mk "displayname" DAV_NS (Text "Test").
Definition available : list PropValue.t := [displayname_text; mk "resourcetype" DAV_NS Empty].

Definition test_filter_props_allprop_returns_all : Test :=
  let '(found, not_found) := Properties.filter_props AllProp available in
  check [length found ==? 2; is_nil not_found].

Definition test_filter_props_specific_found_and_not_found : Test :=
  let request := Props [PropRequest.mk DAV_NS "displayname";
                        PropRequest.mk DAV_NS "quota-available-bytes";
                        PropRequest.mk APPLE_NS "calendar-color"] in
  let '(found, not_found) := Properties.filter_props request available in
  check [(name <$> found) ==? ["displayname"]; length not_found ==? 2;
         bool_decide ("D:quota-available-bytes" ∈ not_found);
         bool_decide ("A:calendar-color" ∈ not_found)].

Definition test_filter_props_namespace_aware : Test :=
  let request := Props [PropRequest.mk CALDAV_NS "calendar-color"] in
  let '(found, not_found) :=
    Properties.filter_props request [mk "calendar-color" APPLE_NS (Text "#FF0000")] in
  check [length found ==? 0; not_found ==? ["C:calendar-color"]].

Definition test_filter_props_propname_returns_empty_values : Test :=
  let '(found, not_found) := Properties.filter_props PropName [displayname_text] in
  check [(name <$> found) ==? ["displayname"]; (value <$> found) ==? [Empty];
         is_nil not_found].

Lemma properties_tests_pass :
  failures
    [("filter_props_allprop_returns_all", test_filter_props_allprop_returns_all);
     ("filter_props_specific_found_and_not_found",
      test_filter_props_specific_found_and_not_found);
     ("filter_props_namespace_aware", test_filter_props_namespace_aware);
     ("filter_props_propname_returns_empty_values",
      test_filter_props_propname_returns_empty_values)] = [].
Proof. by vm_compute. Qed.
End PropertiesTests.

Module ErrorTests.
Import AppError.

(** [into_response] and the status it has. *)
Definition maps_to (e : AppError.t) (s : Z) : Test :=
  check [status_of (error_response e) ==? Some s].

Definition test_not_found_maps_to_404 : Test := maps_to (NotFound "thing") 404.
Definition test_unauthorized_maps_to_401 : Test := maps_to Unauthorized 401.
Definition test_forbidden_maps_to_403 : Test := maps_to (Forbidden "no access") 403.
Definition test_bad_request_maps_to_400 : Test := maps_to (BadRequest "bad") 400.
Definition test_conflict_maps_to_409 : Test := maps_to (Conflict "conflict") 409.
Definition test_precondition_failed_maps_to_412 : Test :=
  maps_to (PreconditionFailed "etag mismatch") 412.
Definition test_database_error_maps_to_500 : Test := maps_to (Database RowNotFound) 500.
Definition test_internal_error_maps_to_500 : Test := maps_to (Internal "internal failure") 500.

Definition test_error_display_messages : Test :=
  let to_string := display sqlx_display in
  check [to_string Unauthorized ==? "unauthorized";
         to_string (NotFound "x") ==? "not found: x";
         to_string (Forbidden "y") ==? "forbidden: y";
         to_string (BadRequest "z") ==? "bad request: z";
         to_string (Conflict "w") ==? "conflict: w";
         to_string (PreconditionFailed "v") ==? "precondition failed: v"].

Lemma error_tests_pass :
  failures
    [("not_found_maps_to_404", test_not_found_maps_to_404);
     ("unauthorized_maps_to_401", test_unauthorized_maps_to_401);
     ("forbidden_maps_to_403", test_forbidden_maps_to_403);
     ("bad_request_maps_to_400", test_bad_request_maps_to_400);
     ("conflict_maps_to_409", test_conflict_maps_to_409);
     ("precondition_failed_maps_to_412", test_precondition_failed_maps_to_412);
     ("database_error_maps_to_500", test_database_error_maps_to_500);
     ("internal_error_maps_to_500", test_internal_error_maps_to_500);
     ("error_display_messages", test_error_display_messages)] = [].
Proof. by vm_compute. Qed.
End ErrorTests.

Module ModelsTests.
Import Permission.

Definition test_permission_as_str : Test :=
  check [as_str Read ==? "read"; as_str ReadWrite ==? "read-write"].

Definition test_permission_from_str_value : Test :=
  check [from_str_value "read" ==? Some Read; from_str_value "read-write" ==? Some ReadWrite;
         from_str_value "write" ==? None; from_str_value "" ==? None].

Definition test_permission_can_write : Test :=
  check [negb (can_write Read); can_write ReadWrite].

Definition test_permission_equality : Test :=
  check [Read ==? Read; ReadWrite ==? ReadWrite; Read !=? ReadWrite].

(** [Permission] is [Copy]. *)
Definition test_permission_clone_copy : Test :=
  let p := ReadWrite in
  let q := p in
  check [p ==? q].

Lemma models_tests_pass :
  failures
    [("permission_as_str", test_permission_as_str);
     ("permission_from_str_value", test_permission_from_str_value);
     ("permission_can_write", test_permission_can_write);
     ("permission_equality", test_permission_equality);
     ("permission_clone_copy", test_permission_clone_copy)] = [].
Proof. by vm_compute. Qed.
End ModelsTests.

Module ConfigTests.
Import Config.

(** The environment of the test run: nothing set. *)
Definition unset : string → option string := λ _, None.

Definition test_config_fields_exist : Test :=
  config ←? unwrap_some (from_env unset);
  check [(0 <? caldav_port config)%N; (0 <? mcp_port config)%N;
         negb (Str.is_empty (database_url config));
         (tool_mode config ==? "full") || (tool_mode config ==? "simple")].

Definition test_tool_mode_defaults_to_full : Test :=
  config ←? unwrap_some (from_env unset);
  check [tool_mode config ==? "full"].

Lemma config_tests_pass :
  failures
    [("config_fields_exist", test_config_fields_exist);
     ("tool_mode_defaults_to_full", test_tool_mode_defaults_to_full)] = [].
Proof. by vm_compute. Qed.
End ConfigTests.

Module JsonRpcTests.
Import JsonRpc.

Definition number (id : option json) : option Z := id ≫= as_i64.

Definition test_parse_request : Test :=
  req ←? unwrap (mret (from_slice
    (dq "{'jsonrpc':'2.0','id':1,'method':'tools/list','params':{}}")));
  check [method req ==? "tools/list"; number (id req) ==? Some 1%Z].

Definition test_parse_notification : Test :=
  req ←? unwrap (mret (from_slice
    (dq "{'jsonrpc':'2.0','method':'notifications/initialized'}")));
  check [method req ==? "notifications/initialized"; is_none (id req)].

Definition test_serialize_response : Test :=
  let json := json_to_vec (success (Some (JNumber (PosInt 1)))
                             (JObject [("tools", JArray [])])) in
  check [Str.contains (dq "'jsonrpc':'2.0'") json; Str.contains (dq "'id':1") json].

Definition test_serialize_error : Test :=
  let json := json_to_vec (method_not_found (Some (JNumber (PosInt 1)))) in
  check [Str.contains "-32601" json; Str.contains "Method not found" json].

Lemma jsonrpc_tests_pass :
  failures
    [("parse_request", test_parse_request);
     ("parse_notification", test_parse_notification);
     ("serialize_response", test_serialize_response);
     ("serialize_error", test_serialize_error)] = [].
Proof. by vm_compute. Qed.
End JsonRpcTests.

Module SessionTests.
Import Session.

Definition test_create_and_get_session : Test :=
  sid ←? attempt (create_session "user-123");
  user ←? attempt (get_user_id sid);
  check [user ==? Some "user-123"].

Definition test_remove_session : Test :=
  sid ←? attempt (create_session "user-123");
  _ ←? attempt (remove_session sid);
  user ←? attempt (get_user_id sid);
  check [user ==? None].

Definition test_unknown_session : Test :=
  user ←? attempt (get_user_id "nonexistent");
  check [user ==? None].

Lemma session_tests_pass :
  failures
    [("create_and_get_session", test_create_and_get_session);
     ("remove_session", test_remove_session);
     ("unknown_session", test_unknown_session)] = [].
Proof. by vm_compute. Qed.
End SessionTests.
