(* ===== verification/DbTests.v ===== *)
(** * The tests of the data-access layer

    [src/db/users.rs], [calendars.rs], [events.rs], [shares.rs], [tokens.rs] and [mod.rs],
    a Module each.  A pause between two statements is not written: every draw differs. *)
From Stdlib Require Import Ascii NArith ZArith.
From S2P Require Import Prelude RustStr Effects Models Db DbUsers DbCalendars DbEvents.
From S2P Require Import DbShares.
From S2P Require Import DbTokens Cli Sim Startup TestKit.
From stdpp Require Import options.
Open Scope test_scope.

(** The accounts and calendars that the tests start with. *)
Definition user (name : string) : TestM User.t := unwrap (Users.create_user name None "pass").
Definition calendar (owner name : string) : TestM Calendar.t :=
  unwrap (Calendars.create_calendar owner name "" "#FF0000" "UTC").

Module UsersTests.
Import Users.

Definition test_create_and_get_user : Test :=
  user ←? unwrap (create_user "alice" (Some "alice@example.com") "password123");
  fetched ←? unwrap2 (get_user_by_username "alice");
  check [User.username user ==? "alice"; User.email user ==? Some "alice@example.com";
         negb (Str.is_empty (User.password_hash user)); User.id fetched ==? User.id user].

Definition test_duplicate_username_fails : Test :=
  _ ←? unwrap (create_user "alice" None "pass1");
  result ←? attempt (create_user "alice" None "pass2");
  check [is_conflict result].

Definition test_verify_correct_password : Test :=
  _ ←? unwrap (create_user "alice" None "secret123");
  user ←? unwrap (verify_user "alice" "secret123");
  check [is_some_b user; (User.username <$> user) ==? Some "alice"].

Definition test_verify_wrong_password : Test :=
  _ ←? unwrap (create_user "alice" None "secret123");
  user ←? unwrap (verify_user "alice" "wrong");
  check [is_none user].

Definition test_verify_nonexistent_user : Test :=
  user ←? unwrap (verify_user "nobody" "password");
  check [is_none user].

Definition test_get_user_by_id : Test :=
  created ←? unwrap (create_user "alice" None "pass");
  fetched ←? unwrap2 (get_user_by_id (User.id created));
  check [User.username fetched ==? "alice"].

Lemma users_tests_pass :
  failures
    [("create_and_get_user", test_create_and_get_user);
     ("duplicate_username_fails", test_duplicate_username_fails);
     ("verify_correct_password", test_verify_correct_password);
     ("verify_wrong_password", test_verify_wrong_password);
     ("verify_nonexistent_user", test_verify_nonexistent_user);
     ("get_user_by_id", test_get_user_by_id)] = [].
Proof. by vm_compute. Qed.
End UsersTests.

Module CalendarsTests.
Import Calendars.

Definition setup : TestM string := user ←? user "alice"; mret (Ok (User.id user)).

Definition test_create_and_get_calendar : Test :=
  user_id ←? setup;
  cal ←? unwrap (create_calendar user_id "Work" "Work events" "#FF0000" "UTC");
  fetched ←? unwrap2 (get_calendar_by_id (Calendar.id cal));
  check [Calendar.name cal ==? "Work"; Calendar.description cal ==? "Work events";
         Calendar.color cal ==? "#FF0000"; Calendar.owner_id cal ==? user_id;
         Str.starts_with "data:,sync-" (Calendar.ctag cal);
         Calendar.id fetched ==? Calendar.id cal].

Definition test_list_calendars_for_owner : Test :=
  user_id ←? setup;
  _ ←? unwrap (create_calendar user_id "Work" "" "#FF0000" "UTC");
  _ ←? unwrap (create_calendar user_id "Personal" "" "#00FF00" "UTC");
  cals ←? unwrap (list_calendars_for_owner user_id);
  check [(Calendar.name <$> cals) ==? ["Personal"; "Work"]].

Definition test_update_calendar : Test :=
  user_id ←? setup;
  cal ←? unwrap (create_calendar user_id "Work" "" "#FF0000" "UTC");
  updated ←? unwrap
    (update_calendar (Calendar.id cal) (Some "Office") None (Some "#0000FF") None);
  check [Calendar.name updated ==? "Office"; Calendar.color updated ==? "#0000FF";
         Calendar.description updated ==? ""].

Definition test_delete_calendar : Test :=
  user_id ←? setup;
  cal ←? unwrap (create_calendar user_id "Temp" "" "#000" "UTC");
  _ ←? unwrap (delete_calendar (Calendar.id cal));
  fetched ←? unwrap (get_calendar_by_id (Calendar.id cal));
  check [is_none fetched].

Definition test_delete_nonexistent_calendar : Test :=
  _ ←? setup;
  result ←? attempt (delete_calendar "nonexistent");
  check [is_not_found result].

Definition test_bump_ctag : Test :=
  user_id ←? setup;
  cal ←? unwrap (create_calendar user_id "Work" "" "#FF0000" "UTC");
  new_token ←? unwrap (bump_ctag (Calendar.id cal));
  updated ←? unwrap2 (get_calendar_by_id (Calendar.id cal));
  check [new_token !=? Calendar.ctag cal; Calendar.ctag updated ==? new_token;
         Calendar.sync_token updated ==? new_token].

Lemma calendars_tests_pass :
  failures
    [("create_and_get_calendar", test_create_and_get_calendar);
     ("list_calendars_for_owner", test_list_calendars_for_owner);
     ("update_calendar", test_update_calendar);
     ("delete_calendar", test_delete_calendar);
     ("delete_nonexistent_calendar", test_delete_nonexistent_calendar);
     ("bump_ctag", test_bump_ctag)] = [].
Proof. by vm_compute. Qed.
End CalendarsTests.

Module EventsTests.
Import Events.

Definition setup : TestM string :=
  user ←? user "alice";
  cal ←? calendar (User.id user) "Work";
  mret (Ok (Calendar.id cal)).

Definition event (dtstart dtend summary : string) : ObjectFields.t :=
  ObjectFields.mk "VEVENT" (Some dtstart) (Some dtend) (Some summary).
Definition bare : ObjectFields.t := ObjectFields.mk "VEVENT" None None None.

Definition upsert (cal_id uid data : string) (fields : ObjectFields.t) :
    TestM (CalendarObject.t * bool) := unwrap (upsert_object cal_id uid data fields).

Definition test_create_object : Test :=
  cal_id ←? setup;
  ' (obj, is_new) ←? upsert cal_id "event-1@example.com"
    ("BEGIN:VCALENDAR" +:+ CRLF +:+ "END:VCALENDAR")
    (event "20260301T090000Z" "20260301T100000Z" "Meeting");
  check [is_new; CalendarObject.uid obj ==? "event-1@example.com";
         CalendarObject.summary obj ==? Some "Meeting";
         Str.starts_with (String DQ "") (CalendarObject.etag obj)].

Definition test_update_object : Test :=
  cal_id ←? setup;
  ' (original, _) ←? upsert cal_id "event-1@example.com" "original data"
    (event "20260301T090000Z" "20260301T100000Z" "Meeting");
  ' (updated, is_new) ←? upsert cal_id "event-1@example.com" "updated data"
    (event "20260301T090000Z" "20260301T110000Z" "Long Meeting");
  check [negb is_new; CalendarObject.ical_data updated ==? "updated data";
         CalendarObject.summary updated ==? Some "Long Meeting";
         CalendarObject.etag updated !=? CalendarObject.etag original].

Definition test_list_objects : Test :=
  cal_id ←? setup;
  _ ←? upsert cal_id "e1@ex.com" "data1" (event "20260301T090000Z" "20260301T100000Z" "First");
  _ ←? upsert cal_id "e2@ex.com" "data2" (event "20260302T090000Z" "20260302T100000Z" "Second");
  objs ←? unwrap (list_objects cal_id);
  check [length objs ==? 2].

Definition test_list_objects_in_range : Test :=
  cal_id ←? setup;
  _ ←? upsert cal_id "e1@ex.com" "data1" (event "20260301T090000Z" "20260301T100000Z" "March");
  _ ←? upsert cal_id "e2@ex.com" "data2" (event "20260401T090000Z" "20260401T100000Z" "April");
  objs ←? unwrap (list_objects_in_range cal_id "20260301T000000Z" "20260331T235959Z");
  check [(CalendarObject.summary <$> objs) ==? [Some "March"]].

Definition test_delete_object : Test :=
  cal_id ←? setup;
  _ ←? upsert cal_id "e1@ex.com" "data" bare;
  _ ←? unwrap (delete_object cal_id "e1@ex.com");
  obj ←? unwrap (get_object_by_uid cal_id "e1@ex.com");
  check [is_none obj].

Definition test_delete_nonexistent_object : Test :=
  cal_id ←? setup;
  result ←? attempt (delete_object cal_id "nope@ex.com");
  check [is_not_found result].

Definition test_get_objects_by_uids : Test :=
  cal_id ←? setup;
  _ ←? upsert cal_id "e1@ex.com" "d1" bare;
  _ ←? upsert cal_id "e2@ex.com" "d2" bare;
  _ ←? upsert cal_id "e3@ex.com" "d3" bare;
  objs ←? unwrap (get_objects_by_uids cal_id ["e1@ex.com"; "e3@ex.com"]);
  check [length objs ==? 2].

Definition test_sync_changes : Test :=
  cal_id ←? setup;
  cal ←? unwrap2 (Calendars.get_calendar_by_id cal_id);
  _ ←? upsert cal_id "e1@ex.com" "d1" bare;
  _ ←? upsert cal_id "e2@ex.com" "d2" bare;
  changes ←? unwrap (get_sync_changes_since cal_id (Calendar.sync_token cal));
  check [(SyncChange.change_type <$> changes) ==? ["created"; "created"]].

Definition test_upsert_bumps_ctag : Test :=
  cal_id ←? setup;
  cal_before ←? unwrap2 (Calendars.get_calendar_by_id cal_id);
  _ ←? upsert cal_id "e1@ex.com" "d1" bare;
  cal_after ←? unwrap2 (Calendars.get_calendar_by_id cal_id);
  check [Calendar.ctag cal_before !=? Calendar.ctag cal_after].

Lemma events_tests_pass :
  failures
    [("create_object", test_create_object);
     ("update_object", test_update_object);
     ("list_objects", test_list_objects);
     ("list_objects_in_range", test_list_objects_in_range);
     ("delete_object", test_delete_object);
     ("delete_nonexistent_object", test_delete_nonexistent_object);
     ("get_objects_by_uids", test_get_objects_by_uids);
     ("sync_changes", test_sync_changes);
     ("upsert_bumps_ctag", test_upsert_bumps_ctag)] = [].
Proof. by vm_compute. Qed.
End EventsTests.

Module SharesTests.
Import Shares.

(** Alice's id, Bob's, and the id of a calendar of Alice's. *)
Definition setup : TestM (string * string * string) :=
  alice ←? user "alice";
  bob ←? user "bob";
  cal ←? calendar (User.id alice) "Work";
  mret (Ok (User.id alice, User.id bob, Calendar.id cal)).

Definition test_share_calendar : Test :=
  ' (_, bob_id, cal_id) ←? setup;
  share ←? unwrap (share_calendar cal_id bob_id Permission.Read);
  check [CalendarShare.calendar_id share ==? cal_id; CalendarShare.user_id share ==? bob_id;
         CalendarShare.permission share ==? "read"].

Definition test_update_share_permission : Test :=
  ' (_, bob_id, cal_id) ←? setup;
  _ ←? unwrap (share_calendar cal_id bob_id Permission.Read);
  updated ←? unwrap (share_calendar cal_id bob_id Permission.ReadWrite);
  check [CalendarShare.permission updated ==? "read-write"].

Definition test_unshare_calendar : Test :=
  ' (_, bob_id, cal_id) ←? setup;
  _ ←? unwrap (share_calendar cal_id bob_id Permission.Read);
  _ ←? unwrap (unshare_calendar cal_id bob_id);
  shares ←? unwrap (list_shares_for_calendar cal_id);
  check [is_nil shares].

Definition test_unshare_nonexistent : Test :=
  ' (_, bob_id, cal_id) ←? setup;
  result ←? attempt (unshare_calendar cal_id bob_id);
  check [is_not_found result].

Definition test_owner_has_read_write : Test :=
  ' (alice_id, _, cal_id) ←? setup;
  perm ←? unwrap (get_user_permission cal_id alice_id);
  check [perm ==? Some Permission.ReadWrite].

Definition test_shared_user_permission : Test :=
  ' (_, bob_id, cal_id) ←? setup;
  _ ←? unwrap (share_calendar cal_id bob_id Permission.Read);
  perm ←? unwrap (get_user_permission cal_id bob_id);
  check [perm ==? Some Permission.Read].

Definition test_no_permission : Test :=
  ' (_, bob_id, cal_id) ←? setup;
  perm ←? unwrap (get_user_permission cal_id bob_id);
  check [perm ==? None].

Definition test_list_shared_calendars_for_user : Test :=
  ' (alice_id, bob_id, cal_id) ←? setup;
  _ ←? unwrap (share_calendar cal_id bob_id Permission.Read);
  shared ←? unwrap (list_shared_calendars bob_id);
  alice_shared ←? unwrap (list_shared_calendars alice_id);
  check [((λ s, (Calendar.id s.1, s.2)) <$> shared) ==? [(cal_id, Permission.Read)];
         is_nil alice_shared].

Definition test_shared_calendars_appear_in_list_for_user : Test :=
  ' (_, bob_id, cal_id) ←? setup;
  _ ←? unwrap (share_calendar cal_id bob_id Permission.Read);
  all_cals ←? unwrap (Calendars.list_calendars_for_user bob_id);
  check [(Calendar.id <$> all_cals) ==? [cal_id]].

Lemma shares_tests_pass :
  failures
    [("share_calendar", test_share_calendar);
     ("update_share_permission", test_update_share_permission);
     ("unshare_calendar", test_unshare_calendar);
     ("unshare_nonexistent", test_unshare_nonexistent);
     ("owner_has_read_write", test_owner_has_read_write);
     ("shared_user_permission", test_shared_user_permission);
     ("no_permission", test_no_permission);
     ("list_shared_calendars_for_user", test_list_shared_calendars_for_user);
     ("shared_calendars_appear_in_list_for_user",
      test_shared_calendars_appear_in_list_for_user)] = [].
Proof. by vm_compute. Qed.
End SharesTests.

Module TokensTests.
Import Tokens.

Definition setup : TestM string := user ←? user "alice"; mret (Ok (User.id user)).

Definition test_create_and_validate_token : Test :=
  user_id ←? setup;
  ' (raw_token, record) ←? unwrap (create_token user_id "test-token");
  validated_user ←? unwrap (validate_token raw_token);
  check [Str.starts_with "mcp_" raw_token; McpToken.name record ==? "test-token";
         McpToken.user_id record ==? user_id; validated_user ==? Some user_id].

Definition test_invalid_token : Test :=
  user_id ←? setup;
  _ ←? unwrap (create_token user_id "test");
  result ←? unwrap (validate_token "mcp_invalid_token");
  check [result ==? None].

Definition test_delete_token : Test :=
  user_id ←? setup;
  ' (raw_token, record) ←? unwrap (create_token user_id "test");
  _ ←? unwrap (delete_token (McpToken.id record));
  result ←? unwrap (validate_token raw_token);
  check [result ==? None].

Definition test_list_tokens : Test :=
  user_id ←? setup;
  _ ←? unwrap (create_token user_id "token-1");
  _ ←? unwrap (create_token user_id "token-2");
  tokens ←? unwrap (list_tokens_for_user user_id);
  check [(McpToken.name <$> tokens) ==? ["token-1"; "token-2"]].

Lemma tokens_tests_pass :
  failures
    [("create_and_validate_token", test_create_and_validate_token);
     ("invalid_token", test_invalid_token);
     ("delete_token", test_delete_token);
     ("list_tokens", test_list_tokens)] = [].
Proof. by vm_compute. Qed.
End TokensTests.

Module PoolTests.

(** A database in memory: the tables and indexes there are.  A CREATE of one that is
    there fails, unless it says IF NOT EXISTS; a PRAGMA succeeds. *)
Definition created (sql : string) : option (bool * string) :=
  line ← headline sql;
  Str.first_some (λ p, (p.2,.) <$> Str.strip_prefix p.1 line)
    [("CREATE TABLE IF NOT EXISTS ", true); ("CREATE INDEX IF NOT EXISTS ", true);
     ("CREATE TABLE ", false); ("CREATE INDEX ", false)].

#[local] Instance memory : Outside (list string) := {
  url_error := λ _, None;
  perform := λ a _ '(names, σ),
    match a with
    | Execute sql =>
        match created sql with
        | Some (lenient, rest) =>
            let name := default rest (fst <$> Str.split_once " " rest) in
            if decide (name ∈ names) then
              (if lenient : bool then Ok tt else Err (CliSqlx (SqlxOther "already exists")),
               (names, σ))
            else (Ok tt, (names ++ [name], σ))
        | None =>
            (if Str.starts_with "PRAGMA " sql then Ok tt
             else Err (CliSqlx (SqlxOther "syntax error")), (names, σ))
        end
    | _ => (Ok tt, (names, σ))
    end;
}.

Definition new_machine : Machine (list string) := mkMachine [] (mkStore Db.empty ∅) [].

Definition init (w : World (Machine (list string))) :
    Result unit CliError * World (Machine (list string)) :=
  run (Startup.init_pool "sqlite::memory:") w.

Definition succeeded {A E} (r : Result A E) : bool := is_some_b (result_ok r).

Definition test_init_pool_with_memory_url_succeeds : bool :=
  let '(r, w) := init (mkWorld 0 new_machine) in
  succeeded r && bool_decide ("users" ∈ outside (store w)) &&
  is_nil (Db.users (db (data (store w)))).

(** The row that the last query gives is not looked at. *)
Definition test_init_pool_memory_url_enables_foreign_keys : bool :=
  let '(r, w) := init (mkWorld 0 new_machine) in
  succeeded r && succeeded (run (Startup.act (Execute "PRAGMA foreign_keys")) w).1.

(** [test_pool], with the driver's default options. *)
Definition test_pool : prog (Machine (list string)) (Result unit CliError) :=
  _ ←? Startup.act (Connect (ConnectOptions.mk "sqlite::memory:" false false true 1));
  _ ←? Startup.act (Execute "PRAGMA foreign_keys = ON");
  _ ←? Migrations.run_migrations (λ sql, Startup.act (Execute sql)) initial_sql;
  mret (Ok tt).

Definition test_test_pool_has_all_tables : bool :=
  let '(r, w) := run test_pool (mkWorld 0 new_machine) in
  succeeded r && bool_decide (db (data (store w)) = Db.empty) && forallb (λ table, bool_decide (table ∈ outside (store w)))
    ["users"; "calendars"; "calendar_objects"; "calendar_shares"; "sync_changes";
     "mcp_tokens"].

Definition test_run_migrations_idempotent : bool :=
  let '(r, w) := run test_pool (mkWorld 0 new_machine) in
  let again := Migrations.run_migrations (λ sql, Startup.act (Execute sql)) initial_sql in
  succeeded r && succeeded (run again w).1.

Lemma pool_tests_pass :
  test_init_pool_with_memory_url_succeeds &&
  test_init_pool_memory_url_enables_foreign_keys && test_test_pool_has_all_tables &&
  test_run_migrations_idempotent = true.
Proof. by vm_compute. Qed.
End PoolTests.
