(* ===== verification/CaldavTests.v ===== *)
(** * The tests of the CalDAV router ([src/caldav/mod.rs])

    Every test sends its requests by path, through the route table, to the handlers, and
    looks at the status, the headers and the text of the body. *)
From Stdlib Require Import Ascii NArith ZArith.
From S2P Require Import Prelude RustStr Effects Models Db DbUsers DbCalendars DbEvents Http.
From S2P Require Import Properties CaldavHandlers CaldavRouter TestKit.
From stdpp Require Import options.
Open Scope test_scope.

Module CaldavTests.

(** ** Setting up *)

(** A user and a calendar of the user's. *)
Definition setup : TestM (User.t * Calendar.t) :=
  user ←? unwrap (Users.create_user "alice" (Some "alice@example.com") "secret123");
  cal ←? unwrap (Calendars.create_calendar (User.id user) "Work" "Work events" "#FF0000" "UTC");
  mret (Ok (user, cal)).

Definition email_home : string := "/calendar/dav/alice%40example.com/user/".
Definition email_uri (cal : Calendar.t) : string := email_home +:+ Calendar.id cal +:+ "/".
Definition user_uri (cal : Calendar.t) : string :=
  "/caldav/users/alice/" +:+ Calendar.id cal +:+ "/".

Definition auth (username password : string) : string * string :=
  ("Authorization", basic_auth_header username password).

Definition xml_type : string * string := ("Content-Type", "application/xml").
Definition text_type : string * string := ("Content-Type", "text/calendar").

(** The lines of an iCalendar text, without a line end after the last. *)
Definition ical (ls : list string) : string := String.concat CRLF ls.

(** An event as the tests write it, with some lines between its UID and its end. *)
Definition vevent (uid : string) (ls : list string) : string :=
  ical (["BEGIN:VCALENDAR"; "BEGIN:VEVENT"; "UID:" +:+ uid] ++ ls ++
        ["END:VEVENT"; "END:VCALENDAR"]).

Definition nine_to_ten : list string := ["DTSTART:20260301T090000Z"; "DTEND:20260301T100000Z"].

Definition fields (times : option (string * string)) (summary : option string) :
    ObjectFields.t :=
  ObjectFields.mk "VEVENT" (fst <$> times) (snd <$> times) summary.

(** An object put straight into the database. *)
Definition upsert (cal : Calendar.t) (uid data : string) (f : ObjectFields.t) :
    TestM (CalendarObject.t * bool) :=
  unwrap (Events.upsert_object (Calendar.id cal) uid data f).

(** An event of the database, from nine to ten. *)
Definition upsert_event (cal : Calendar.t) (uid summary : string) :
    TestM (CalendarObject.t * bool) :=
  upsert cal uid (vevent uid (["SUMMARY:" +:+ summary] ++ nine_to_ten))
    (fields (Some ("20260301T090000Z", "20260301T100000Z")) (Some summary)).

Definition lines (ls : list string) : string := String.concat (String NL "") (dq <$> ls).

Definition propfind (uri depth : string) : TestM Response.t :=
  oneshot "PROPFIND" uri [("Depth", depth)] "".

Definition lacks (s : string) (r : Response.t) : bool := negb (body_has s r).

(** ** Email discovery *)

Definition test_email_discovery_unauthenticated_known_email_returns_207 : Test :=
  _ ←? setup;
  resp ←? propfind "/calendar/dav/alice%40example.com/user/" "0";
  check [has_status 207 resp].

Definition test_email_discovery_depth1_unauthenticated_returns_calendars : Test :=
  ' (_, cal) ←? setup;
  resp ←? propfind "/calendar/dav/alice%40example.com/user/" "1";
  check [has_status 207 resp; body_has (Calendar.id cal) resp].

Definition test_email_discovery_unknown_email_returns_401 : Test :=
  _ ←? setup;
  resp ←? propfind "/calendar/dav/unknown%40example.com/user/" "0";
  check [has_status 401 resp].

Definition test_email_discovery_authenticated_returns_full_data : Test :=
  _ ←? setup;
  resp ←? oneshot "PROPFIND" "/calendar/dav/alice%40example.com/user/"
            [("Depth", "1"); auth "alice" "secret123"] "";
  check [has_status 207 resp; body_has ">alice<" resp; body_has "Work" resp].

(** ** The calendar home, and who may see a calendar *)

Definition test_calendar_home_invalid_user_returns_401 : Test :=
  _ ←? setup;
  resp ←? propfind "/caldav/users/nonexistent/" "0";
  check [has_status 401 resp].

Definition test_calendar_access_denied_for_wrong_calendar : Test :=
  _ ←? setup;
  resp ←? propfind "/caldav/users/alice/nonexistent-calendar/" "0";
  check [has_status 403 resp].

Definition test_calendar_access_allowed_for_own_calendar : Test :=
  ' (_, cal) ←? setup;
  resp ←? propfind (user_uri cal) "0";
  check [has_status 207 resp].

Definition test_object_access_denied_for_wrong_calendar : Test :=
  _ ←? setup;
  resp ←? oneshot "GET" "/caldav/users/alice/nonexistent-calendar/test-uid.ics" [] "";
  check [has_status 403 resp].

Definition test_root_unauthenticated_no_user_leak : Test :=
  _ ←? setup;
  resp ←? propfind "/" "0";
  check [has_status 207 resp; body_has "unauthenticated" resp; lacks ">alice<" resp].

Definition test_caldav_root_unauthenticated_no_user_leak : Test :=
  _ ←? setup;
  resp ←? propfind "/caldav/" "0";
  check [has_status 207 resp; body_has "unauthenticated" resp; lacks ">alice<" resp].

Definition test_cross_user_calendar_access_denied : Test :=
  alice ←? unwrap (Users.create_user "alice" None "pass1");
  _ ←? unwrap (Users.create_user "bob" None "pass2");
  alice_cal ←? unwrap (Calendars.create_calendar (User.id alice) "Alice Cal" "" "#000" "UTC");
  resp ←? propfind ("/caldav/users/bob/" +:+ Calendar.id alice_cal +:+ "/") "0";
  check [has_status 403 resp].

Definition test_authenticated_wrong_credentials_returns_401 : Test :=
  _ ←? setup;
  resp ←? oneshot "PROPFIND" "/calendar/dav/alice%40example.com/user/"
            [("Depth", "1"); auth "alice" "wrong-password"] "";
  check [has_status 401 resp].

Definition test_email_discovery_depth1_returns_email_based_calendar_hrefs : Test :=
  ' (_, cal) ←? setup;
  resp ←? oneshot "PROPFIND" "/calendar/dav/alice%40example.com/user/"
            [("Depth", "1"); auth "alice" "secret123"] "";
  check [has_status 207 resp; body_has (email_uri cal) resp; lacks (user_uri cal) resp].

Definition test_email_discovery_depth1_returns_email_based_hrefs : Test :=
  ' (_, cal) ←? setup;
  resp ←? propfind "/calendar/dav/alice%40example.com/user/" "1";
  check [has_status 207 resp; body_has (email_uri cal) resp].

(** ** Calendars and objects by email *)

Definition test_email_calendar_propfind : Test :=
  ' (_, cal) ←? setup;
  resp ←? propfind (email_uri cal) "0";
  check [has_status 207 resp; body_has "Work" resp].

Definition test_email_calendar_report_returns_events : Test :=
  ' (_, cal) ←? setup;
  _ ←? upsert_event cal "test-uid@example.com" "Test Event";
  resp ←? oneshot "REPORT" (email_uri cal) [xml_type] (lines
    ["<?xml version='1.0' encoding='utf-8' ?>";
     "<C:calendar-query xmlns:D='DAV:' xmlns:C='urn:ietf:params:xml:ns:caldav'>";
     "  <D:prop>"; "    <D:getetag/>"; "    <C:calendar-data/>"; "  </D:prop>";
     "  <C:filter>"; "    <C:comp-filter name='VCALENDAR'>";
     "      <C:comp-filter name='VEVENT'/>"; "    </C:comp-filter>"; "  </C:filter>";
     "</C:calendar-query>"]);
  check [has_status 207 resp; body_has "test-uid@example.com" resp; body_has "Test Event" resp;
         body_has "/calendar/dav/alice%40example.com/user/" resp].

Definition test_email_object_put_and_get : Test :=
  ' (_, cal) ←? setup;
  let ical_data := ical
    ["BEGIN:VCALENDAR"; "VERSION:2.0"; "BEGIN:VEVENT"; "UID:put-test@example.com";
     "SUMMARY:Put Test"; "DTSTART:20260401T090000Z"; "DTEND:20260401T100000Z"; "END:VEVENT";
     "END:VCALENDAR"] in
  let uri := email_uri cal +:+ "put-test%40example.com.ics" in
  put ←? oneshot "PUT" uri [text_type] ical_data;
  get ←? oneshot "GET" uri [] "";
  check [has_status 201 put || has_status 204 put; has_status 200 get;
         body_has "Put Test" get].

Definition test_email_object_delete : Test :=
  ' (_, cal) ←? setup;
  _ ←? upsert cal "del-test@example.com" (ical ["BEGIN:VCALENDAR"; "END:VCALENDAR"])
         (fields None None);
  resp ←? oneshot "DELETE" (email_uri cal +:+ "del-test%40example.com.ics") [] "";
  obj ←? unwrap (Events.get_object_by_uid (Calendar.id cal) "del-test@example.com");
  check [has_status 204 resp; is_none obj].

Definition test_email_calendar_unknown_email_returns_401 : Test :=
  ' (_, cal) ←? setup;
  resp ←? propfind ("/calendar/dav/unknown%40example.com/user/" +:+ Calendar.id cal +:+ "/") "0";
  check [has_status 401 resp].

Definition test_email_calendar_wrong_calendar_returns_403 : Test :=
  _ ←? setup;
  resp ←? propfind "/calendar/dav/alice%40example.com/user/nonexistent-cal/" "0";
  check [has_status 403 resp].

Definition test_email_object_unknown_email_returns_401 : Test :=
  ' (_, cal) ←? setup;
  resp ←? oneshot "GET"
    ("/calendar/dav/unknown%40example.com/user/" +:+ Calendar.id cal +:+ "/test.ics") [] "";
  check [has_status 401 resp].

Definition test_email_object_wrong_calendar_returns_403 : Test :=
  _ ←? setup;
  resp ←? oneshot "GET" "/calendar/dav/alice%40example.com/user/nonexistent-cal/test.ics" [] "";
  check [has_status 403 resp].

Definition test_username_calendar_propfind_still_works : Test :=
  ' (_, cal) ←? setup;
  resp ←? propfind (user_uri cal) "0";
  check [has_status 207 resp; body_has (user_uri cal) resp].

(** ** PROPPATCH *)

Definition proppatch_body : string := lines
  ["<?xml version='1.0' encoding='utf-8' ?>";
   "<D:propertyupdate xmlns:D='DAV:' xmlns:A='http://apple.com/ns/ical/'>"; "  <D:set>";
   "    <D:prop>"; "      <D:displayname>Renamed Calendar</D:displayname>"; "    </D:prop>";
   "  </D:set>"; "</D:propertyupdate>"].

Definition test_email_proppatch_returns_email_based_href : Test :=
  ' (_, cal) ←? setup;
  resp ←? oneshot "PROPPATCH" (email_uri cal) [xml_type] proppatch_body;
  check [has_status 207 resp; body_has (email_uri cal) resp; lacks "/caldav/users/" resp].

Definition test_username_proppatch_returns_username_based_href : Test :=
  ' (_, cal) ←? setup;
  resp ←? oneshot "PROPPATCH" (user_uri cal) [xml_type; auth "alice" "secret123"] proppatch_body;
  check [has_status 207 resp; body_has (user_uri cal) resp].

(** ** Filtering of properties *)

Definition test_propfind_with_specific_props_returns_200_and_404_propstat : Test :=
  ' (_, cal) ←? setup;
  resp ←? oneshot "PROPFIND" (email_uri cal) [("Depth", "0"); xml_type] (lines
    ["<?xml version='1.0' encoding='utf-8'?>";
     "<A:propfind xmlns:A='DAV:' xmlns:B='urn:ietf:params:xml:ns:caldav' " +:+
     "xmlns:C='http://calendarserver.org/ns/' xmlns:D='http://apple.com/ns/ical/'>";
     "  <A:prop>"; "    <A:displayname/>"; "    <A:resourcetype/>";
     "    <A:quota-available-bytes/>"; "    <B:calendar-description/>";
     "    <D:calendar-color/>"; "    <C:getctag/>"; "    <A:add-member/>";
     "    <D:refreshrate/>"; "  </A:prop>"; "</A:propfind>"]);
  check [has_status 207 resp; body_has "displayname" resp; body_has "resourcetype" resp;
         body_has "calendar-description" resp; body_has "calendar-color" resp;
         body_has "getctag" resp; body_has "HTTP/1.1 404 Not Found" resp;
         body_has "quota-available-bytes" resp; body_has "add-member" resp;
         body_has "refreshrate" resp].

Definition test_email_home_propfind_with_specific_props_filters_correctly : Test :=
  _ ←? setup;
  resp ←? oneshot "PROPFIND" "/calendar/dav/alice%40example.com/user/"
    [("Depth", "0"); xml_type] (lines
    ["<?xml version='1.0' encoding='utf-8'?>";
     "<A:propfind xmlns:A='DAV:' xmlns:B='urn:ietf:params:xml:ns:caldav' " +:+
     "xmlns:C='http://calendarserver.org/ns/'>"; "  <A:prop>";
     "    <A:current-user-principal/>"; "    <A:displayname/>"; "    <B:calendar-home-set/>";
     "    <B:calendar-user-address-set/>"; "    <C:email-address-set/>";
     "    <A:resource-id/>"; "    <A:quota-available-bytes/>"; "  </A:prop>";
     "</A:propfind>"]);
  check [has_status 207 resp; body_has "HTTP/1.1 200 OK" resp;
         body_has "current-user-principal" resp; body_has "displayname" resp;
         body_has "calendar-home-set" resp; body_has "calendar-user-address-set" resp;
         body_has "email-address-set" resp; body_has "resource-id" resp;
         body_has "HTTP/1.1 404 Not Found" resp; body_has "quota-available-bytes" resp].

Definition test_propfind_allprop_returns_no_404_propstat : Test :=
  ' (_, cal) ←? setup;
  resp ←? propfind (email_uri cal) "0";
  check [has_status 207 resp; body_has "HTTP/1.1 200 OK" resp;
         lacks "HTTP/1.1 404 Not Found" resp].

(** ** Discovery paths and OPTIONS *)

Definition dav_has (s : string) (r : Response.t) : bool :=
  match get_header "DAV" r with Some dav => Str.contains s dav | None => false end.

Definition test_well_known_returns_301_redirect : Test :=
  _ ←? setup;
  resp ←? oneshot "PROPFIND" "/.well-known/caldav" [] "";
  check [has_status 301 resp; get_header "Location" resp ==? Some "/caldav/"].

Definition test_well_known_options_returns_200_with_dav_headers : Test :=
  _ ←? setup;
  resp ←? oneshot "OPTIONS" "/.well-known/caldav" [] "";
  check [has_status 200 resp; dav_has "calendar-access" resp].

Definition test_caldav_root_options_returns_dav_headers : Test :=
  _ ←? setup;
  resp ←? oneshot "OPTIONS" "/caldav/" [] "";
  check [has_status 200 resp; dav_has "calendar-access" resp].

Definition test_calendar_collection_options_returns_dav_headers : Test :=
  ' (_, cal) ←? setup;
  resp ←? oneshot "OPTIONS" (user_uri cal) [] "";
  check [has_status 200 resp; dav_has "calendar-access" resp].

Definition test_object_options_returns_dav_headers : Test :=
  ' (_, cal) ←? setup;
  resp ←? oneshot "OPTIONS" (user_uri cal +:+ "test.ics") [] "";
  check [has_status 200 resp; dav_has "calendar-access" resp].

Definition test_caldav_root_unknown_method_returns_405 : Test :=
  _ ←? setup;
  resp ←? oneshot "DELETE" "/caldav/" [] "";
  check [has_status 405 resp].

Definition test_caldav_root_propfind_authenticated_returns_principal : Test :=
  _ ←? setup;
  resp ←? oneshot "PROPFIND" "/caldav/" [auth "alice" "secret123"] "";
  check [has_status 207 resp; body_has "alice" resp].

Definition test_server_root_options_returns_200 : Test :=
  _ ←? setup;
  resp ←? oneshot "OPTIONS" "/" [] "";
  check [has_status 200 resp].

Definition test_server_root_unknown_method_redirects : Test :=
  _ ←? setup;
  resp ←? oneshot "GET" "/" [] "";
  check [has_status 301 resp].

Definition test_server_root_propfind_authenticated : Test :=
  _ ←? setup;
  resp ←? oneshot "PROPFIND" "/" [auth "alice" "secret123"] "";
  check [has_status 207 resp; body_has "alice" resp].

Definition test_principal_discovery_redirects : Test :=
  _ ←? setup;
  resp ←? oneshot "PROPFIND" "/caldav/principals/alice/" [] "";
  check [has_status 301 resp; get_header "Location" resp ==? Some "/caldav/users/alice/"].

Definition test_principal_discovery_options_returns_200 : Test :=
  _ ←? setup;
  resp ←? oneshot "OPTIONS" "/caldav/principals/alice/" [] "";
  check [has_status 200 resp].

(** ** MKCALENDAR *)

Definition test_mkcalendar_creates_calendar : Test :=
  _ ←? setup;
  resp ←? oneshot "MKCALENDAR" "/caldav/users/alice/my-new-calendar/" [] "";
  cal ←? unwrap (Calendars.get_calendar_by_id "my-new-calendar");
  check [has_status 201 resp; is_some_b cal].

Definition test_mkcalendar_with_displayname : Test :=
  _ ←? setup;
  resp ←? oneshot "MKCALENDAR" "/caldav/users/alice/named-calendar/" [xml_type] (lines
    ["<?xml version='1.0' encoding='utf-8'?>";
     "<C:mkcalendar xmlns:D='DAV:' xmlns:C='urn:ietf:params:xml:ns:caldav' " +:+
     "xmlns:A='http://apple.com/ns/ical/'>"; "  <D:set>"; "    <D:prop>";
     "      <D:displayname>My Calendar</D:displayname>";
     "      <A:calendar-color>#FF0000</A:calendar-color>"; "    </D:prop>"; "  </D:set>";
     "</C:mkcalendar>"]);
  cal ←? unwrap2 (Calendars.get_calendar_by_id "named-calendar");
  check [has_status 201 resp; Calendar.name cal ==? "My Calendar";
         Calendar.color cal ==? "#FF0000"].

Definition test_mkcalendar_duplicate_returns_method_not_allowed : Test :=
  ' (_, cal) ←? setup;
  resp ←? oneshot "MKCALENDAR" (user_uri cal) [] "";
  check [has_status 405 resp].

Definition test_mkcalendar_cross_user_returns_forbidden : Test :=
  _ ←? unwrap (Users.create_user "alice" None "pass1");
  _ ←? unwrap (Users.create_user "bob" None "pass2");
  resp ←? oneshot "MKCALENDAR" "/caldav/users/bob/some-cal/" [auth "alice" "pass1"] "";
  check [has_status 403 resp].

(** ** DELETE *)

Definition test_delete_object_returns_no_content : Test :=
  ' (_, cal) ←? setup;
  _ ←? upsert cal "delete-me@example.com" (ical ["BEGIN:VCALENDAR"; "END:VCALENDAR"])
         (fields None None);
  resp ←? oneshot "DELETE" (user_uri cal +:+ "delete-me%40example.com.ics") [] "";
  obj ←? unwrap (Events.get_object_by_uid (Calendar.id cal) "delete-me@example.com");
  check [has_status 204 resp; is_none obj].

Definition test_delete_object_not_found_returns_404 : Test :=
  ' (_, cal) ←? setup;
  resp ←? oneshot "DELETE" (user_uri cal +:+ "nonexistent.ics") [] "";
  check [has_status 404 resp].

Definition test_delete_calendar_returns_no_content : Test :=
  ' (_, cal) ←? setup;
  resp ←? oneshot "DELETE" (user_uri cal) [] "";
  deleted ←? unwrap (Calendars.get_calendar_by_id (Calendar.id cal));
  check [has_status 204 resp; is_none deleted].

Definition test_delete_calendar_not_found_returns_404 : Test :=
  _ ←? setup;
  resp ←? oneshot "DELETE" "/caldav/users/alice/nonexistent-cal/" [] "";
  check [has_status 403 resp || has_status 404 resp].

(** ** PUT and GET *)

(** A new event of two hours with the line end that the tests send. *)
Definition sent (uid summary : string) (times : list string) : string :=
  ical (["BEGIN:VCALENDAR"; "VERSION:2.0"; "BEGIN:VEVENT"; "UID:" +:+ uid;
         "SUMMARY:" +:+ summary] ++ times ++ ["END:VEVENT"; "END:VCALENDAR"; ""]).

Definition test_put_creates_event : Test :=
  ' (_, cal) ←? setup;
  resp ←? oneshot "PUT" (user_uri cal +:+ "put-new%40test.com.ics") [text_type]
            (sent "put-new@test.com" "New Event" nine_to_ten);
  check [has_status 201 resp; is_some_b (get_header "etag" resp)].

Definition test_put_updates_existing_event : Test :=
  ' (_, cal) ←? setup;
  ' (initial, _) ←? upsert_event cal "update-me@test.com" "Old";
  resp ←? oneshot "PUT" (user_uri cal +:+ "update-me%40test.com.ics") [text_type]
            (sent "update-me@test.com" "Updated" nine_to_ten);
  obj ←? unwrap2 (Events.get_object_by_uid (Calendar.id cal) "update-me@test.com");
  check [has_status 204 resp; CalendarObject.etag obj !=? CalendarObject.etag initial;
         Str.contains "Updated" (CalendarObject.ical_data obj)].

Definition test_put_with_if_match_etag_mismatch_returns_412 : Test :=
  ' (_, cal) ←? setup;
  _ ←? upsert cal "ifmatch@test.com" (vevent "ifmatch@test.com" []) (fields None None);
  resp ←? oneshot "PUT" (user_uri cal +:+ "ifmatch%40test.com.ics")
            [("If-Match", dq "'wrong-etag'")] (ical ["BEGIN:VCALENDAR"; "END:VCALENDAR"]);
  check [has_status 412 resp].

Definition test_put_with_if_match_on_nonexistent_returns_412 : Test :=
  ' (_, cal) ←? setup;
  resp ←? oneshot "PUT" (user_uri cal +:+ "nope@test.com.ics")
            [("If-Match", dq "'some-etag'")] (ical ["BEGIN:VCALENDAR"; "END:VCALENDAR"]);
  check [has_status 412 resp].

Definition test_put_with_if_match_star_succeeds : Test :=
  ' (_, cal) ←? setup;
  _ ←? upsert cal "star@test.com" (vevent "star@test.com" []) (fields None None);
  resp ←? oneshot "PUT" (user_uri cal +:+ "star%40test.com.ics") [("If-Match", "*")]
            (sent "star@test.com" "Updated"
               ["DTSTART:20260101T000000Z"; "DTEND:20260101T010000Z"]);
  check [has_status 204 resp].

Definition test_get_existing_event : Test :=
  ' (_, cal) ←? setup;
  _ ←? upsert cal "get-me@test.com" (vevent "get-me@test.com" ["SUMMARY:Get Me"])
         (fields None (Some "Get Me"));
  resp ←? oneshot "GET" (user_uri cal +:+ "get-me%40test.com.ics") [] "";
  check [has_status 200 resp;
         get_header "content-type" resp ==? Some "text/calendar; charset=utf-8";
         is_some_b (get_header "etag" resp); body_has "Get Me" resp].

Definition test_get_nonexistent_event_returns_404 : Test :=
  ' (_, cal) ←? setup;
  resp ←? oneshot "GET" (user_uri cal +:+ "nope.ics") [] "";
  check [has_status 404 resp].

(** ** REPORT *)

(** A report body: the root element with the usual namespaces around some lines. *)
Definition report_body (root : string) (ls : list string) : string := lines
  (["<?xml version='1.0' encoding='utf-8'?>";
    "<" +:+ root +:+ " xmlns:D='DAV:' xmlns:C='urn:ietf:params:xml:ns:caldav'>"] ++ ls ++
   ["</" +:+ root +:+ ">"]).

Definition etag_and_data : list string :=
  ["  <D:prop>"; "    <D:getetag/>"; "    <C:calendar-data/>"; "  </D:prop>"].
Definition etag_only : list string := ["  <D:prop>"; "    <D:getetag/>"; "  </D:prop>"].

Definition report (cal : Calendar.t) (body : string) : TestM Response.t :=
  oneshot "REPORT" (user_uri cal) [] body.

Definition test_report_calendar_query_no_filter : Test :=
  ' (_, cal) ←? setup;
  _ ←? upsert_event cal "query-uid@test.com" "Query Event";
  resp ←? report cal (report_body "C:calendar-query"
    (etag_and_data ++
     ["  <C:filter>"; "    <C:comp-filter name='VCALENDAR'/>"; "  </C:filter>"]));
  check [has_status 207 resp; body_has "query-uid@test.com" resp].

Definition test_report_calendar_multiget : Test :=
  ' (_, cal) ←? setup;
  _ ←? upsert_event cal "multiget-uid@test.com" "Multiget Event";
  resp ←? report cal (report_body "C:calendar-multiget"
    (etag_and_data ++
     ["  <D:href>/caldav/users/alice/" +:+ Calendar.id cal +:+
      "/multiget-uid%40test.com.ics</D:href>"]));
  check [has_status 207 resp; body_has "multiget-uid@test.com" resp;
         body_has "Multiget Event" resp].

Definition test_report_sync_collection_initial_sync : Test :=
  ' (_, cal) ←? setup;
  _ ←? upsert_event cal "sync-uid@test.com" "Sync Event";
  resp ←? report cal (report_body "D:sync-collection"
    (["  <D:sync-token/>"; "  <D:sync-level>1</D:sync-level>"] ++ etag_only));
  check [has_status 207 resp; body_has "sync-uid@test.com" resp; body_has "sync-token" resp].

Definition test_report_sync_collection_with_calendar_data : Test :=
  ' (_, cal) ←? setup;
  _ ←? upsert_event cal "sync-data@test.com" "Sync Data";
  resp ←? report cal (report_body "D:sync-collection"
    (["  <D:sync-token/>"; "  <D:sync-level>1</D:sync-level>"] ++ etag_and_data));
  check [has_status 207 resp; body_has "Sync Data" resp].

Definition test_report_invalid_body_returns_400 : Test :=
  ' (_, cal) ←? setup;
  resp ←? report cal "not valid xml";
  check [has_status 400 resp].

Definition test_report_calendar_query_with_time_range : Test :=
  ' (_, cal) ←? setup;
  _ ←? upsert_event cal "range-uid@test.com" "Range Event";
  resp ←? report cal (report_body "C:calendar-query"
    (etag_only ++
     ["  <C:filter>"; "    <C:comp-filter name='VCALENDAR'>";
      "      <C:comp-filter name='VEVENT'>";
      "        <C:time-range start='20260201T000000Z' end='20260401T000000Z'/>";
      "      </C:comp-filter>"; "    </C:comp-filter>"; "  </C:filter>"]));
  check [has_status 207 resp; body_has "range-uid@test.com" resp].

(** ** PROPFIND of homes and collections, and what is not allowed *)

Definition test_calendar_home_depth0_returns_home_props : Test :=
  _ ←? setup;
  resp ←? propfind "/caldav/users/alice/" "0";
  check [has_status 207 resp; body_has "current-user-principal" resp;
         body_has "displayname" resp].

Definition test_calendar_home_depth1_lists_calendars : Test :=
  ' (_, cal) ←? setup;
  resp ←? propfind "/caldav/users/alice/" "1";
  check [has_status 207 resp; body_has (Calendar.id cal) resp].

Definition test_calendar_collection_depth1_lists_objects : Test :=
  ' (_, cal) ←? setup;
  _ ←? upsert cal "listed@test.com" (vevent "listed@test.com" ["SUMMARY:Listed"])
         (fields None (Some "Listed"));
  resp ←? propfind (user_uri cal) "1";
  check [has_status 207 resp; body_has "listed@test.com" resp].

Definition test_calendar_collection_unknown_method_returns_405 : Test :=
  ' (_, cal) ←? setup;
  resp ←? oneshot "GET" (user_uri cal) [] "";
  check [has_status 405 resp].

Definition test_object_unknown_method_returns_405 : Test :=
  ' (_, cal) ←? setup;
  resp ←? oneshot "PROPFIND" (user_uri cal +:+ "test.ics") [] "";
  check [has_status 405 resp].

Definition test_encode_email_for_path : Test :=
  check [Propfind.encode_email_for_path "alice@example.com" ==? "alice%40example.com";
         Propfind.encode_email_for_path "no-at-sign" ==? "no-at-sign";
         Propfind.encode_email_for_path "a@b@c" ==? "a%40b%40c"].

Definition test_fallback_principals_redirects : Test :=
  _ ←? setup;
  resp ←? oneshot "PROPFIND" "/principals/" [] "";
  check [has_status 301 resp || has_status 207 resp].

(** ** They pass *)

Lemma caldav_tests_pass :
  failures
    [("email_discovery_unauthenticated_known_email_returns_207",
      test_email_discovery_unauthenticated_known_email_returns_207);
     ("email_discovery_depth1_unauthenticated_returns_calendars",
      test_email_discovery_depth1_unauthenticated_returns_calendars);
     ("email_discovery_unknown_email_returns_401",
      test_email_discovery_unknown_email_returns_401);
     ("email_discovery_authenticated_returns_full_data",
      test_email_discovery_authenticated_returns_full_data);
     ("calendar_home_invalid_user_returns_401",
      test_calendar_home_invalid_user_returns_401);
     ("calendar_access_denied_for_wrong_calendar",
      test_calendar_access_denied_for_wrong_calendar);
     ("calendar_access_allowed_for_own_calendar",
      test_calendar_access_allowed_for_own_calendar);
     ("object_access_denied_for_wrong_calendar",
      test_object_access_denied_for_wrong_calendar);
     ("root_unauthenticated_no_user_leak", test_root_unauthenticated_no_user_leak);
     ("caldav_root_unauthenticated_no_user_leak",
      test_caldav_root_unauthenticated_no_user_leak);
     ("cross_user_calendar_access_denied", test_cross_user_calendar_access_denied);
     ("authenticated_wrong_credentials_returns_401",
      test_authenticated_wrong_credentials_returns_401);
     ("email_discovery_depth1_returns_email_based_calendar_hrefs",
      test_email_discovery_depth1_returns_email_based_calendar_hrefs);
     ("email_discovery_depth1_returns_email_based_hrefs",
      test_email_discovery_depth1_returns_email_based_hrefs);
     ("email_calendar_propfind", test_email_calendar_propfind);
     ("email_calendar_report_returns_events", test_email_calendar_report_returns_events);
     ("email_object_put_and_get", test_email_object_put_and_get);
     ("email_object_delete", test_email_object_delete);
     ("email_calendar_unknown_email_returns_401",
      test_email_calendar_unknown_email_returns_401);
     ("email_calendar_wrong_calendar_returns_403",
      test_email_calendar_wrong_calendar_returns_403);
     ("email_object_unknown_email_returns_401",
      test_email_object_unknown_email_returns_401);
     ("email_object_wrong_calendar_returns_403",
      test_email_object_wrong_calendar_returns_403);
     ("username_calendar_propfind_still_works",
      test_username_calendar_propfind_still_works);
     ("email_proppatch_returns_email_based_href",
      test_email_proppatch_returns_email_based_href);
     ("username_proppatch_returns_username_based_href",
      test_username_proppatch_returns_username_based_href);
     ("propfind_with_specific_props_returns_200_and_404_propstat",
      test_propfind_with_specific_props_returns_200_and_404_propstat);
     ("email_home_propfind_with_specific_props_filters_correctly",
      test_email_home_propfind_with_specific_props_filters_correctly);
     ("propfind_allprop_returns_no_404_propstat",
      test_propfind_allprop_returns_no_404_propstat);
     ("well_known_returns_301_redirect", test_well_known_returns_301_redirect);
     ("well_known_options_returns_200_with_dav_headers",
      test_well_known_options_returns_200_with_dav_headers);
     ("caldav_root_options_returns_dav_headers",
      test_caldav_root_options_returns_dav_headers);
     ("calendar_collection_options_returns_dav_headers",
      test_calendar_collection_options_returns_dav_headers);
     ("object_options_returns_dav_headers", test_object_options_returns_dav_headers);
     ("caldav_root_unknown_method_returns_405",
      test_caldav_root_unknown_method_returns_405);
     ("caldav_root_propfind_authenticated_returns_principal",
      test_caldav_root_propfind_authenticated_returns_principal);
     ("server_root_options_returns_200", test_server_root_options_returns_200);
     ("server_root_unknown_method_redirects", test_server_root_unknown_method_redirects);
     ("server_root_propfind_authenticated", test_server_root_propfind_authenticated);
     ("principal_discovery_redirects", test_principal_discovery_redirects);
     ("principal_discovery_options_returns_200",
      test_principal_discovery_options_returns_200);
     ("mkcalendar_creates_calendar", test_mkcalendar_creates_calendar);
     ("mkcalendar_with_displayname", test_mkcalendar_with_displayname);
     ("mkcalendar_duplicate_returns_method_not_allowed",
      test_mkcalendar_duplicate_returns_method_not_allowed);
     ("mkcalendar_cross_user_returns_forbidden",
      test_mkcalendar_cross_user_returns_forbidden);
     ("delete_object_returns_no_content", test_delete_object_returns_no_content);
     ("delete_object_not_found_returns_404", test_delete_object_not_found_returns_404);
     ("delete_calendar_returns_no_content", test_delete_calendar_returns_no_content);
     ("delete_calendar_not_found_returns_404",
      test_delete_calendar_not_found_returns_404);
     ("put_creates_event", test_put_creates_event);
     ("put_updates_existing_event", test_put_updates_existing_event);
     ("put_with_if_match_etag_mismatch_returns_412",
      test_put_with_if_match_etag_mismatch_returns_412);
     ("put_with_if_match_on_nonexistent_returns_412",
      test_put_with_if_match_on_nonexistent_returns_412);
     ("put_with_if_match_star_succeeds", test_put_with_if_match_star_succeeds);
     ("get_existing_event", test_get_existing_event);
     ("get_nonexistent_event_returns_404", test_get_nonexistent_event_returns_404);
     ("report_calendar_query_no_filter", test_report_calendar_query_no_filter);
     ("report_calendar_multiget", test_report_calendar_multiget);
     ("report_sync_collection_initial_sync", test_report_sync_collection_initial_sync);
     ("report_sync_collection_with_calendar_data",
      test_report_sync_collection_with_calendar_data);
     ("report_invalid_body_returns_400", test_report_invalid_body_returns_400);
     ("report_calendar_query_with_time_range",
      test_report_calendar_query_with_time_range);
     ("calendar_home_depth0_returns_home_props",
      test_calendar_home_depth0_returns_home_props);
     ("calendar_home_depth1_lists_calendars", test_calendar_home_depth1_lists_calendars);
     ("calendar_collection_depth1_lists_objects",
      test_calendar_collection_depth1_lists_objects);
     ("calendar_collection_unknown_method_returns_405",
      test_calendar_collection_unknown_method_returns_405);
     ("object_unknown_method_returns_405", test_object_unknown_method_returns_405);
     ("encode_email_for_path", test_encode_email_for_path);
     ("fallback_principals_redirects", test_fallback_principals_redirects)] = [].
Proof. by vm_compute. Qed.
End CaldavTests.
