(* ===== verification/McpTests.v ===== *)
(** * The tests of the MCP route ([src/mcp/mod.rs])

    Every test sends JSON-RPC requests as text, with a bearer token, and looks at the
    answers and at the database. *)
From Stdlib Require Import Ascii NArith ZArith.
From S2P Require Import Prelude RustStr Effects Models Db DbUsers DbCalendars DbEvents.
From S2P Require Import DbTokens.
From S2P Require Import Http Json Mcp TestKit.
From stdpp Require Import options.
Open Scope test_scope.

Module McpTests.

(** ** Setting up and calling *)

(** A user's id and a raw token of the user. *)
Definition setup : TestM (string * string) :=
  user ←? unwrap (Users.create_user "alice" (Some "alice@example.com") "secret123");
  ' (raw_token, _) ←? unwrap (Tokens.create_token (User.id user) "test-token");
  mret (Ok (User.id user, raw_token)).

Definition bearer_header (token : string) : string := "Bearer " +:+ token.

Definition json_type : string * string := ("Content-Type", "application/json").

(** [router(pool, mode).oneshot(req)]. *)
Definition send (mode method : string) (headers : list (string * string)) (body : string) :
    TestM Response.t :=
  r ←? attempt (McpRouter.serve mode (request method headers body)); response r.

(** The status, and the value of the body. *)
Definition call (mode token : string) (body : json) : TestM (Z * json) :=
  resp ←? send mode "POST" [json_type; ("Authorization", bearer_header token)]
            (json_to_vec body);
  mret (Ok (Response.status resp,
            default JNull (result_ok (json_from_slice (Response.body resp))))).

Definition rpc_call : string → json → TestM (Z * json) := call "full".
Definition simple_rpc_call : string → json → TestM (Z * json) := call "simple".

(** A JSON-RPC request with the id 1. *)
Definition rpc (method : string) (params : list (string * json)) : json :=
  JObject ([("jsonrpc", JString "2.0"); ("id", JNumber (PosInt 1));
            ("method", JString method)] ++ params).

Definition tools_call (name : string) (arguments : list (string * json)) : json :=
  rpc "tools/call"
    [("params", JObject [("name", JString name); ("arguments", JObject arguments)])].

(** The structured content of a tool's result. *)
Definition structured (p : TestM (Z * json)) : TestM json :=
  ' (status, resp) ←? p;
  _ ←? check [status ==? 200%Z];
  mret (Ok (path ["result"; "structuredContent"] resp)).

Definition tool_call (token name : string) (arguments : list (string * json)) : TestM json :=
  structured (rpc_call token (tools_call name arguments)).
Definition simple_tool_call (token name : string) (arguments : list (string * json)) :
    TestM json := structured (simple_rpc_call token (tools_call name arguments)).

(** Members and assertions on values. *)
Definition str (k v : string) : string * json := (k, JString v).
Definition is_str (keys : list string) (s : string) (v : json) : bool :=
  Json.as_str (path keys v) ==? Some s.
Definition is_num (keys : list string) (n : Z) (v : json) : bool :=
  as_i64 (path keys v) ==? Some n.
Definition is_true (keys : list string) (v : json) : bool :=
  as_bool (path keys v) ==? Some true.
Definition items (key : string) (v : json) : TestM (list json) :=
  unwrap_some (as_array (Json.index key v)).
Definition text_of (key : string) (v : json) : TestM string :=
  unwrap_some (Json.index_str key v).
Definition nth (n : nat) (l : list json) : json := default JNull (l !! n).

Definition new_calendar (user_id name : string) : TestM Calendar.t :=
  unwrap (Calendars.create_calendar user_id name "" "#000" "UTC").

(** ** Authentication *)

Definition ping_text : string := dq "{'jsonrpc':'2.0','id':1,'method':'ping'}".

Definition test_no_auth_returns_401 : Test :=
  resp ←? send "full" "POST" [json_type] ping_text;
  check [has_status 401 resp].

Definition test_invalid_token_returns_401 : Test :=
  resp ←? send "full" "POST" [json_type; ("Authorization", "Bearer mcp_bogus_token")] ping_text;
  check [has_status 401 resp].

(** ** The protocol *)

Definition initialize (client : string) : json :=
  rpc "initialize"
    [("params", JObject [str "protocolVersion" "2025-03-26";
                         ("clientInfo", JObject [str "name" client; str "version" "0.1"])])].

Definition test_initialize : Test :=
  ' (_, token) ←? setup;
  ' (status, resp) ←? rpc_call token (initialize "test-client");
  check [status ==? 200%Z; is_str ["result"; "protocolVersion"] "2025-03-26" resp;
         is_str ["result"; "serverInfo"; "name"] "caldav-mcp-server" resp].

Definition test_ping : Test :=
  ' (_, token) ←? setup;
  ' (status, resp) ←? rpc_call token (rpc "ping" []);
  check [status ==? 200%Z;
         match Json.index "result" resp with JObject [] => true | _ => false end].

(** The names of the tools that [tools/list] gives. *)
Definition tool_names (resp : json) : TestM (list string) :=
  tools ←? items "tools" (Json.index "result" resp);
  unwrap_some (mapM (Json.index_str "name") tools).

Definition test_tools_list : Test :=
  ' (_, token) ←? setup;
  ' (status, resp) ←? rpc_call token (rpc "tools/list" []);
  names ←? tool_names resp;
  check [status ==? 200%Z; length names ==? 12; bool_decide ("list_calendars" ∈ names);
         bool_decide ("create_event" ∈ names); bool_decide ("share_calendar" ∈ names)].

Definition test_unknown_method : Test :=
  ' (_, token) ←? setup;
  ' (status, resp) ←? rpc_call token (rpc "nonexistent/method" []);
  check [status ==? 200%Z; is_num ["error"; "code"] (-32601) resp].

Definition test_notification_returns_202 : Test :=
  ' (_, token) ←? setup;
  let body := JObject [str "jsonrpc" "2.0"; str "method" "notifications/initialized"] in
  resp ←? send "full" "POST" [json_type; ("Authorization", bearer_header token)]
            (json_to_vec body);
  check [has_status 202 resp].

(** ** Calendars *)

Definition test_create_and_list_calendar : Test :=
  ' (_, token) ←? setup;
  result ←? tool_call token "create_calendar"
    [str "name" "Work"; str "description" "Work events"; str "color" "#FF0000"];
  cal_id ←? text_of "id" result;
  listed ←? tool_call token "list_calendars" [];
  cals ←? items "calendars" listed;
  db_cal ←? unwrap2 (Calendars.get_calendar_by_id cal_id);
  check [is_str ["name"] "Work" result; is_str ["color"] "#FF0000" result; length cals ==? 1;
         is_str ["id"] cal_id (nth 0 cals); is_str ["name"] "Work" (nth 0 cals);
         Calendar.name db_cal ==? "Work"; Calendar.color db_cal ==? "#FF0000"].

Definition test_get_calendar : Test :=
  ' (user_id, token) ←? setup;
  cal ←? unwrap (Calendars.create_calendar user_id "Home" "Personal" "#00FF00" "UTC");
  result ←? tool_call token "get_calendar" [str "calendar_id" (Calendar.id cal)];
  check [is_str ["name"] "Home" result; is_str ["description"] "Personal" result;
         is_str ["color"] "#00FF00" result].

Definition test_delete_calendar : Test :=
  ' (user_id, token) ←? setup;
  cal ←? new_calendar user_id "Temp";
  result ←? tool_call token "delete_calendar" [str "calendar_id" (Calendar.id cal)];
  db_cal ←? unwrap (Calendars.get_calendar_by_id (Calendar.id cal));
  check [is_true ["deleted"] result; is_none db_cal].

(** ** Events *)

Definition test_create_get_update_delete_event : Test :=
  ' (user_id, token) ←? setup;
  cal ←? new_calendar user_id "Work";
  let cal_id := Calendar.id cal in
  result ←? tool_call token "create_event"
    [str "calendar_id" cal_id; str "title" "Team Standup"; str "start" "20260301T090000Z";
     str "end" "20260301T093000Z"; str "description" "Daily sync"; str "location" "Room 42"];
  uid ←? text_of "uid" result;
  etag ←? text_of "etag" result;
  db_obj ←? unwrap2 (Events.get_object_by_uid cal_id uid);
  _ ←? check [is_str ["title"] "Team Standup" result; is_str ["calendar_id"] cal_id result;
              CalendarObject.summary db_obj ==? Some "Team Standup";
              CalendarObject.dtstart db_obj ==? Some "20260301T090000Z"];
  result ←? tool_call token "get_event" [str "calendar_id" cal_id; str "event_uid" uid];
  ical_data ←? text_of "ical_data" result;
  _ ←? check [is_str ["summary"] "Team Standup" result; is_str ["etag"] etag result;
              Str.contains "VEVENT" ical_data];
  result ←? tool_call token "update_event"
    [str "calendar_id" cal_id; str "event_uid" uid; str "title" "Team Standup v2";
     str "start" "20260301T100000Z"; str "end" "20260301T103000Z"];
  new_etag ←? text_of "etag" result;
  db_obj ←? unwrap2 (Events.get_object_by_uid cal_id uid);
  _ ←? check [is_true ["updated"] result; is_str ["title"] "Team Standup v2" result;
              new_etag !=? etag; CalendarObject.summary db_obj ==? Some "Team Standup v2";
              CalendarObject.dtstart db_obj ==? Some "20260301T100000Z"];
  result ←? tool_call token "delete_event" [str "calendar_id" cal_id; str "event_uid" uid];
  db_obj ←? unwrap (Events.get_object_by_uid cal_id uid);
  check [is_true ["deleted"] result; is_none db_obj].

Definition test_query_events : Test :=
  ' (user_id, token) ←? setup;
  cal ←? new_calendar user_id "Work";
  let in_cal := str "calendar_id" (Calendar.id cal) in
  _ ←? tool_call token "create_event"
    [in_cal; str "title" "Morning"; str "start" "20260301T090000Z";
     str "end" "20260301T100000Z"];
  _ ←? tool_call token "create_event"
    [in_cal; str "title" "Afternoon"; str "start" "20260301T140000Z";
     str "end" "20260301T150000Z"];
  result ←? tool_call token "query_events" [in_cal];
  events ←? items "events" result;
  _ ←? check [is_num ["count"] 2 result; length events ==? 2];
  result ←? tool_call token "query_events"
    [in_cal; str "start" "20260301T080000Z"; str "end" "20260301T110000Z"];
  events ←? items "events" result;
  check [is_num ["count"] 1 result; is_str ["summary"] "Morning" (nth 0 events)].

(** ** Sharing *)

Definition test_share_and_list_shared_calendars : Test :=
  alice ←? unwrap (Users.create_user "alice" None "pass1");
  bob ←? unwrap (Users.create_user "bob" None "pass2");
  ' (alice_token, _) ←? unwrap (Tokens.create_token (User.id alice) "alice-tok");
  ' (bob_token, _) ←? unwrap (Tokens.create_token (User.id bob) "bob-tok");
  result ←? tool_call alice_token "create_calendar" [str "name" "Shared Cal"];
  cal_id ←? text_of "id" result;
  result ←? tool_call alice_token "share_calendar"
    [str "calendar_id" cal_id; str "username" "bob"; str "permission" "read"];
  _ ←? check [is_str ["shared_with"] "bob" result; is_str ["permission"] "read" result];
  result ←? tool_call bob_token "list_shared_calendars" [];
  shared ←? items "shared_calendars" result;
  _ ←? check [length shared ==? 1; is_str ["name"] "Shared Cal" (nth 0 shared);
              is_str ["permission"] "read" (nth 0 shared)];
  result ←? tool_call alice_token "unshare_calendar"
    [str "calendar_id" cal_id; str "username" "bob"];
  _ ←? check [is_true ["unshared"] result];
  result ←? tool_call bob_token "list_shared_calendars" [];
  shared ←? items "shared_calendars" result;
  check [length shared ==? 0].

(** ** Errors *)

Definition test_tool_call_missing_params : Test :=
  ' (_, token) ←? setup;
  ' (status, resp) ←? rpc_call token (rpc "tools/call" [("params", JObject [])]);
  check [status ==? 200%Z; is_num ["error"; "code"] (-32602) resp].

Definition test_tool_call_unknown_tool : Test :=
  ' (_, token) ←? setup;
  ' (status, resp) ←? rpc_call token (tools_call "nonexistent_tool" []);
  check [status ==? 200%Z; is_true ["result"; "isError"] resp].

Definition test_get_event_not_found : Test :=
  ' (user_id, token) ←? setup;
  cal ←? new_calendar user_id "Work";
  ' (status, resp) ←? rpc_call token
    (tools_call "get_event"
       [str "calendar_id" (Calendar.id cal); str "event_uid" "nonexistent-uid"]);
  content ←? items "content" (Json.index "result" resp);
  message ←? text_of "text" (nth 0 content);
  check [status ==? 200%Z; is_true ["result"; "isError"] resp;
         Str.contains "not found" message].

Definition test_invalid_json_returns_parse_error : Test :=
  ' (_, token) ←? setup;
  resp ←? send "full" "POST" [json_type; ("Authorization", bearer_header token)]
            "not valid json";
  json ←? unwrap (mret (json_from_slice (Response.body resp)));
  check [has_status 200 resp; is_num ["error"; "code"] (-32700) json].

Definition test_delete_session : Test :=
  ' (_, token) ←? setup;
  resp ←? send "full" "DELETE"
    [("Authorization", bearer_header token); ("Mcp-Session-Id", "some-session-id")] "";
  check [has_status 200 resp].

(** ** The simple mode *)

(** Arguments of [add_event]. *)
Definition event (title start end_ : string) : list (string * json) :=
  [str "title" title; str "start" start; str "end" end_].

Definition test_simple_tools_list_returns_3 : Test :=
  ' (_, token) ←? setup;
  ' (status, resp) ←? simple_rpc_call token (rpc "tools/list" []);
  names ←? tool_names resp;
  check [status ==? 200%Z; length names ==? 3; bool_decide ("add_event" ∈ names);
         bool_decide ("delete_event" ∈ names); bool_decide ("list_events" ∈ names)].

Definition test_simple_initialize_has_short_instructions : Test :=
  ' (_, token) ←? setup;
  ' (_, resp) ←? simple_rpc_call token (initialize "test");
  instructions ←? text_of "instructions" (Json.index "result" resp);
  check [(String.length instructions <? 200)%nat; Str.contains "list_events" instructions;
         Str.contains "add_event" instructions].

Definition test_simple_add_creates_default_calendar_and_event : Test :=
  ' (user_id, token) ←? setup;
  result ←? simple_tool_call token "add_event"
    (event "Standup" "20260301T090000Z" "20260301T093000Z");
  cals ←? unwrap (Calendars.list_calendars_for_user user_id);
  check [is_str ["title"] "Standup" result; is_some_b (Json.index_str "uid" result);
         (Calendar.name <$> cals) ==? ["Calendar"]].

Definition test_simple_add_uses_existing_calendar : Test :=
  ' (user_id, token) ←? setup;
  cal ←? new_calendar user_id "Work";
  result ←? simple_tool_call token "add_event"
    (event "Lunch" "20260301T120000Z" "20260301T130000Z");
  cals ←? unwrap (Calendars.list_calendars_for_user user_id);
  objs ←? unwrap (Events.list_objects (Calendar.id cal));
  check [is_str ["title"] "Lunch" result; (Calendar.id <$> cals) ==? [Calendar.id cal];
         (CalendarObject.summary <$> objs) ==? [Some "Lunch"]].

Definition test_simple_add_and_delete_event : Test :=
  ' (user_id, token) ←? setup;
  _ ←? new_calendar user_id "Work";
  result ←? simple_tool_call token "add_event"
    (event "Meeting" "20260301T090000Z" "20260301T100000Z");
  uid ←? text_of "uid" result;
  result ←? simple_tool_call token "delete_event" [str "event_uid" uid];
  cals ←? unwrap (Calendars.list_calendars_for_user user_id);
  cal ←? unwrap_some (head cals);
  obj ←? unwrap (Events.get_object_by_uid (Calendar.id cal) uid);
  check [is_true ["deleted"] result; is_none obj].

Definition test_simple_list_all_events : Test :=
  ' (user_id, token) ←? setup;
  cal ←? new_calendar user_id "Work";
  _ ←? simple_tool_call token "add_event"
    (event "Morning" "20260301T090000Z" "20260301T100000Z");
  _ ←? simple_tool_call token "add_event"
    (event "Afternoon" "20260301T140000Z" "20260301T150000Z");
  result ←? simple_tool_call token "list_events" [];
  events ←? items "events" result;
  objs ←? unwrap (Events.list_objects (Calendar.id cal));
  check [is_num ["count"] 2 result; length events ==? 2; length objs ==? 2].

Definition test_simple_list_with_time_range : Test :=
  ' (user_id, token) ←? setup;
  _ ←? new_calendar user_id "Work";
  _ ←? simple_tool_call token "add_event"
    (event "March Event" "20260301T090000Z" "20260301T100000Z");
  _ ←? simple_tool_call token "add_event"
    (event "April Event" "20260401T090000Z" "20260401T100000Z");
  result ←? simple_tool_call token "list_events"
    [str "start" "20260301T000000Z"; str "end" "20260331T235959Z"];
  events ←? items "events" result;
  check [is_num ["count"] 1 result; is_str ["summary"] "March Event" (nth 0 events)].

Definition test_simple_mcp_event_visible_to_caldav_db : Test :=
  ' (user_id, token) ←? setup;
  cal ←? new_calendar user_id "Shared";
  result ←? simple_tool_call token "add_event"
    (event "MCP Created" "20260315T100000Z" "20260315T110000Z");
  uid ←? text_of "uid" result;
  obj ←? unwrap2 (Events.get_object_by_uid (Calendar.id cal) uid);
  check [CalendarObject.summary obj ==? Some "MCP Created";
         Str.contains "VEVENT" (CalendarObject.ical_data obj)].

Definition test_simple_unknown_tool : Test :=
  ' (_, token) ←? setup;
  ' (status, resp) ←? simple_rpc_call token (tools_call "create_event" []);
  check [status ==? 200%Z; is_true ["result"; "isError"] resp].

(** ** They pass *)

Lemma mcp_tests_pass :
  failures
    [("no_auth_returns_401", test_no_auth_returns_401);
     ("invalid_token_returns_401", test_invalid_token_returns_401);
     ("initialize", test_initialize);
     ("ping", test_ping);
     ("tools_list", test_tools_list);
     ("unknown_method", test_unknown_method);
     ("notification_returns_202", test_notification_returns_202);
     ("create_and_list_calendar", test_create_and_list_calendar);
     ("get_calendar", test_get_calendar);
     ("delete_calendar", test_delete_calendar);
     ("create_get_update_delete_event", test_create_get_update_delete_event);
     ("query_events", test_query_events);
     ("share_and_list_shared_calendars", test_share_and_list_shared_calendars);
     ("tool_call_missing_params", test_tool_call_missing_params);
     ("tool_call_unknown_tool", test_tool_call_unknown_tool);
     ("get_event_not_found", test_get_event_not_found);
     ("invalid_json_returns_parse_error", test_invalid_json_returns_parse_error);
     ("delete_session", test_delete_session);
     ("simple_tools_list_returns_3", test_simple_tools_list_returns_3);
     ("simple_initialize_has_short_instructions",
      test_simple_initialize_has_short_instructions);
     ("simple_add_creates_default_calendar_and_event",
      test_simple_add_creates_default_calendar_and_event);
     ("simple_add_uses_existing_calendar", test_simple_add_uses_existing_calendar);
     ("simple_add_and_delete_event", test_simple_add_and_delete_event);
     ("simple_list_all_events", test_simple_list_all_events);
     ("simple_list_with_time_range", test_simple_list_with_time_range);
     ("simple_mcp_event_visible_to_caldav_db",
      test_simple_mcp_event_visible_to_caldav_db);
     ("simple_unknown_tool", test_simple_unknown_tool)] = [].
Proof. by vm_compute. Qed.
End McpTests.
